(* ===== verification/_CoqProject ===== *)
-Q . S2P
Prelude.v
CStruct.v
KMath.v
Machine.v
Pmm.v
PmmInit.v
PmmProps.v
Page.v
PageEntry.v
PageTables.v
PageOps.v
PageProps.v
Vmm.v
VmmList.v
VmmBlocks.v
VmmOps.v
VmmProps.v
VmmInit.v
VmmAlloc.v
VmmFree.v
VMalloc.v
HeapMem.v
HeapOps.v
HeapList.v
HeapProps.v
Output.v
Status.v
Hexdump.v
Serial.v
Misc.v
ArrayList.v
Proc.v
VgaFont.v
Vga.v
VgaProps.v
VgaDraw.v
VgaScreen.v
VgaInit.v
Panic.v
KHeap.v
Keyboard.v
KeyboardProps.v
Interrupt.v
InterruptProps.v
Syscall.v
Disk.v
Gpt.v
Fat32.v
Fat32Lemmas.v
Fat32New.v
Fat32Props.v
Fat32Init.v
Nvme.v
NvmeProps.v
NvmeInit.v
Elf.v
ElfProps.v
Storage.v
KMain.v
KMainProps.v
KMainBoot.v
KMainReady.v
Acpi.v
NvmeFind.v
NvmeFindProps.v
Enums.v
Structs.v
TaskState.v
Framebuffer.v
