(* ===== verification/Prelude.v ===== *)
(** * A verification library for LiOS

    LiOS is a small x86-64 kernel written in C (src/src).  [kmain] is called by
    the boot code; it sets up the interrupt table, reads the memory map of the
    boot loader, initializes the memory managers bottom up (physical frames,
    page tables, virtual memory, heap), then the console, the disk and the
    file system.  Afterwards the kernel reacts to interrupts: the keyboard,
    and the system calls of user programs.

    ** How programs are modelled

    C functions are functions in the monad [M S] of this file: a computation
    takes a state [S] and ends in [Ok a s], in [Panic msg] (a call of the
    kernel's [panic]), in [Fault] (an access to memory that is not there, or
    another undefined access) or in [OutOfFuel].  Integers are [Z], and every
    operation that can wrap around is written with its width ([+64], [*32],
    [u16] ...).  Memory is a finite map whose domain is the memory that
    exists: by 64-bit word for the structures of the memory managers (file
    Machine), by byte for the heap, the console and the string routines.
    Counted loops are [for_loop] or structural; loops along linked structures
    take fuel.  The fuel is part of the definitions and large enough for every
    well-formed structure: [walk_fuel] is the number of words of the memory,
    more than a list without a repetition has nodes; [chain_fuel] is the
    number of entries of the allocation table; the heap's loops use the size
    of its bitmap and of its memory.  The theorems are total: where they say
    that an operation returns, running out of fuel is excluded.  The waiting
    loops of the NVMe driver, which do not end by themselves, get the number
    of polls as an argument and the theorems show that some number suffices.
    Lines that a function sends to the serial log or to the console beside
    its work are left out of its model; functions whose work is to report are
    modelled over the text they write (Status, Hexdump, Panic).

    ** The files

    - Prelude: widths, the monad, its rules, loops, lemmas on lists and bits.
    - CStruct: structures of C as data, where their fields are, loads and
      stores of fields.  Structs: the declarations of the sources, with which
      the offsets that the models use are compared.  Enums: the enumerations and their tables of names.
    - KMath (util/kmath.c): rounding divisions, minimum, maximum.
    - Machine: the state shared by the memory managers, memory as words.
    - Pmm, PmmInit, PmmProps (mem/pmm.c): the lists of page frames.  [seg]
      and [chain] describe a linked list in memory, [pmm_inv] the three lists.
      Shown: the frames are conserved over every sequence of allocations and
      frees; what the boot-time functions build; how [pmm_free] corrupts the
      list of used nodes.
    - Page, PageEntry, PageTables, PageOps, PageProps (mem/kmalloc.c,
      mem/page.c): [KMalloc] and the four-level tables.  [tbl] and [pt_inv]
      describe the tree, [translate] is the map it stands for; [page_map]
      inserts one page, [page_unmap] deletes one, [page_virt_to_phys_addr]
      looks one up.  Unmapping the last page of a table leaves a freed frame
      in the tree.
    - Vmm, VmmList, VmmBlocks, VmmOps, VmmProps, VmmInit (mem/vmm.c): the
      doubly linked free list ([dseg]) and the addresses it covers ([covers]);
      allocation is first fit and takes exactly the range it returns, freeing
      gives exactly the range back, with all cases of merging; [vmm_init]
      establishes the lists.  VmmAlloc, VmmFree: the same operations together
      with the frame allocator and the page tables they call.  [vm_inv] is the
      invariant of all three; [vmm_alloc] maps fresh frames at the range it
      returns and changes no other translation, [vmm_free] gives the range
      back, and an allocation followed by a free restores the blocks.  The
      theorems name the states in which the code breaks its lists (an exact fit
      on the tail node, a list page without an unused node, a page that is the
      last of its table) and exclude them.
    - VMalloc, HeapMem, HeapOps, HeapList, HeapProps (mem/vmalloc.c): the heap
      of bitmap nodes.  The bit loops are exact; the search with its 64-bit
      shortcut equals a plain first-fit search; [vmalloc] terminates, for
      requests below 2^37 bytes, and returns sections of the given heap that
      were unused, or a block of a fresh node; [vfree] undoes [vmalloc] and
      leaves the nodes as they were.  The bound is that of the 32-bit counter
      of [mark_bitmap], which does not end for a bitmap of 2^35 bits or more.
      The allocator of virtual pages is an interface here.
    - Output (io/output.c): [printf] prints the value of its argument.
    - Status: the reports of the memory managers ([pmm_log_status],
      [vmm_log_status], [vmalloc_log_status]) show what is in their lists.
    - Hexdump (util/hexdump.c): a dump equals a plain description of its rows.
    - Serial (io/serial.c, io/io.c): the port as a device with the laws of a
      16550 ([UartLaws]); a line of the log arrives on the line unchanged.
    - Misc (util/misc.c); ArrayList (util/arraylist.c): a growable array, whose
      removal deletes one entry of the list that the memory stands for; Proc
      (proc/proc.c): the table of processes, whose numbers are their indices.
    - VgaFont, Vga, VgaProps, VgaDraw, VgaScreen, VgaInit (io/vgafont.c,
      io/vga.c): the console stays in its buffers and scrolls as it should; a
      character is painted as the font says; a printed character is in the
      buffer and in the pixels of its cell, and the two agree before and after
      ([faithful]); [vga_init] maps the frame buffer's physical pages and sets
      up a well-formed console, and [vga_printf] paints its text.  Panic (util/panic.c, and the handler of
      page faults): the message stands in the log and on the screen.
    - KHeap: the interface of the heap that the drivers are written against
      ([HeapIface], [HeapLaws]), with a simple heap as its instance.
    - Keyboard, KeyboardProps (int/keyboard.c): recording of a line.
    - Interrupt, InterruptProps (int/interrupt.c): the interrupt table and the
      dispatch to the registered routines.
    - Syscall (int/syscall.c): the system calls, with the keyboard interrupts
      that arrive while [read] waits.  A heap that counts its blocks
      ([counted]) shows that a read gives back what it takes.
    - Disk: the interface of the disk ([DiskIface], [DiskLaws]), with an
      instance in memory.
    - Gpt (file/gpt.c): the search for the FAT partition.
    - Fat32, Fat32Lemmas, Fat32New, Fat32Props, Fat32Init (file/fat32.c):
      mounting a volume, and opening, reading and creating files on a table of
      cluster chains.
    - Nvme, NvmeProps, NvmeInit (file/nvme.c): the command queues and their
      set-up.  The controller is a parameter ([Controller]) and what the NVMe
      specification promises of it are the laws [ControllerLaws] and
      [InitLaws]: it finds the queues through the registers and the commands
      that create them, at physical addresses, looks at the doorbells where the
      stride puts them, executes the entry of the slot, and posts no completion
      into a queue that the driver has not emptied.
    - Elf, ElfProps (proc/elf.c): loading a program.  The frame allocator and
      the page tables are one more interface ([ProcIface], [ProcLaws]); a
      loaded program has every segment in its memory, if the file is one the
      loader can handle ([program_ok]); it checks little of that itself.
    - Storage: the composition of Gpt, Fat32 and Elf: from the blocks of a disk
      to a program in memory.
    - KMain, KMainProps (kmain.c): the two walks over the boot information and
      the set-up of the memory managers.  KMainBoot: a reference definition of
      the nodes and frames that the calls of [pmm_add_block] make, and the
      frame allocator after boot.  KMainReady: the whole of [kmain_memory],
      after which [vm_inv], which the theorems on the memory managers start
      from, holds.  TaskState: the descriptor of the task state segment as the
      processor reads it, and the stack for interrupts.  Framebuffer: the
      colour that is logged.
    - Acpi (file/acpi.c): the way from the EFI tables to the MCFG; the layout
      of the EFI structures is a parameter.
    - NvmeFind, NvmeFindProps (file/nvme.c, [nvme_find]): the scan of the PCI
      bus, over an interface of page tables and device memory ([MmioIface]).

    The files called ...Props hold the properties; each property has a
    witness, a lemma that applies it to a concrete state.

    ** Interfaces

    The clients of the heap (Keyboard, Syscall, Gpt, Fat32) are proved
    against [HeapLaws], the clients of the disk against [DiskLaws].  The laws
    are those of an ideal heap: the heap of mem/vmalloc.c obeys them except
    for blocks in the last sections of a node, which lie behind the node's
    pages (theorem [add_block_header_overflow] of HeapProps), so that no
    instance for [VMalloc] is declared; its own theorems are in HeapProps.
    The other interfaces stand for code that is modelled in its own file, too:
    [ProcIface], [VideoIface] and [MmioIface] for the page tables.  The laws
    of the first two are those of a map from pages to physical frames;
    mem/page.c obeys them as long as no page table becomes empty (PageProps).
    [nvme_find] empties tables: the laws of [MmioIface] say what page.c does
    then, that the tables are given back while their entries stay present.
    Out of memory, the heap panics: the theorems about its clients name
    this outcome ([oom]).

    ** Not modelled

    The assembly files (boot loader, interrupt stubs, switch to user mode);
    the tests, which the kernel does not call; int/timer.c, whose routine is
    empty, and file/vfs.c, which is empty; the transfer of the data by the NVMe
    controller; the structures of util/multiboot2.h that the kernel does not
    use; and [kmain] as one function: its initializers are modelled one by one,
    over separate states, and composed where they share one (KMainReady,
    Storage).  The heap (bytes) and the allocator of virtual memory (words)
    are joined by an interface with laws, not by one memory. *)

From Stdlib Require Export ZArith Lia.
From stdpp Require Export gmap strings.
From stdpp Require Export prelude.


(** ** Scopes and machine-width integers *)

Declare Scope lios_scope.
Delimit Scope lios_scope with lios.
#[global] Open Scope Z_scope.
#[global] Open Scope lios_scope.

(** [2^64], [2^32], [2^16] and [2^8] as literals, so that [lia] sees them. *)
Abbreviation W64 := 18446744073709551616 (only parsing).
Abbreviation W32 := 4294967296 (only parsing).
Abbreviation W16 := 65536 (only parsing).
Abbreviation W8 := 256 (only parsing).

(** C's conversions to the unsigned types. *)
Definition u64 (z : Z) : Z := z mod W64.
Definition u32 (z : Z) : Z := z mod W32.
Definition u16 (z : Z) : Z := z mod W16.
Definition u8 (z : Z) : Z := z mod W8.

(** C's conversion to [i32] (two's complement, as gcc defines it). *)
Definition i32 (z : Z) : Z :=
  let r := z mod W32 in if r <? 2147483648 then r else r - W32.

Notation "a +64 b" := (u64 (a + b)) (at level 50, left associativity) : lios_scope.
Notation "a -64 b" := (u64 (a - b)) (at level 50, left associativity) : lios_scope.
Notation "a *64 b" := (u64 (a * b)) (at level 40, left associativity) : lios_scope.
Notation "a +32 b" := (u32 (a + b)) (at level 50, left associativity) : lios_scope.
Notation "a -32 b" := (u32 (a - b)) (at level 50, left associativity) : lios_scope.
Notation "a *32 b" := (u32 (a * b)) (at level 40, left associativity) : lios_scope.

Create HintDb lios discriminated.
Create HintDb lios_arith discriminated.

Lemma u64_small z : 0 <= z < W64 -> u64 z = z.
Proof. apply Z.mod_small. Qed.
Lemma u32_small z : 0 <= z < W32 -> u32 z = z.
Proof. apply Z.mod_small. Qed.
Lemma u8_small z : 0 <= z < W8 -> u8 z = z.
Proof. apply Z.mod_small. Qed.
Lemma u64_range z : 0 <= u64 z < W64.
Proof. apply Z.mod_pos_bound. lia. Qed.
Lemma u32_range z : 0 <= u32 z < W32.
Proof. apply Z.mod_pos_bound. lia. Qed.
Lemma u8_range z : 0 <= u8 z < W8.
Proof. apply Z.mod_pos_bound. lia. Qed.
Lemma u64_wrap_neg z : - W64 <= z < 0 -> u64 z = z + W64.
Proof. intros. unfold u64. symmetry. apply (Z.mod_unique_pos _ _ (-1)); lia. Qed.
Lemma u32_wrap_neg z : - W32 <= z < 0 -> u32 z = z + W32.
Proof. intros. unfold u32. symmetry. apply (Z.mod_unique_pos _ _ (-1)); lia. Qed.

Lemma u64_idem z : u64 (u64 z) = u64 z.
Proof. apply u64_small, u64_range. Qed.

#[export] Hint Resolve u64_range u32_range u8_range : lios_arith.

(** Division facts that [lia] needs after [Z.div]/[Z.modulo] are introduced. *)
Ltac dlia := Z.div_mod_to_equations; lia.
Ltac dnia := Z.div_mod_to_equations; nia.

(** Split every boolean test of the context or goal into its proposition. *)
Ltac btests :=
  repeat match goal with
  | H : context [?a =? ?b] |- _ => destruct (Z.eqb_spec a b)
  | |- context [?a =? ?b] => destruct (Z.eqb_spec a b)
  | H : context [?a <? ?b] |- _ => destruct (Z.ltb_spec a b)
  | |- context [?a <? ?b] => destruct (Z.ltb_spec a b)
  | H : context [?a <=? ?b] |- _ => destruct (Z.leb_spec a b)
  | |- context [?a <=? ?b] => destruct (Z.leb_spec a b)
  end.

(** ** Outcomes and the state monad

    A kernel operation on a state [S] ends in a value and a new state, in a
    call of [panic] (which never returns), in an access outside the modelled
    memory, or in a loop that did not end within the loop's fuel. *)

Inductive outcome (S A : Type) : Type :=
| Ok (a : A) (s : S)
| Panic (msg : string)
| Fault
| OutOfFuel.
Arguments Ok {S A} a s.
Arguments Panic {S A} msg.
Arguments Fault {S A}.
Arguments OutOfFuel {S A}.

Definition M (S A : Type) : Type := S -> outcome S A.

#[global] Instance M_ret S : MRet (M S) := fun A a s => Ok a s.
#[global] Instance M_bind S : MBind (M S) := fun A B f c s =>
  match c s with
  | Ok a s' => f a s'
  | Panic msg => Panic msg
  | Fault => Fault
  | OutOfFuel => OutOfFuel
  end.

Definition gets {S A} (f : S -> A) : M S A := fun s => Ok (f s) s.
Definition modify {S} (f : S -> S) : M S unit := fun s => Ok tt (f s).
Definition panic {S A} (msg : string) : M S A := fun _ => Panic msg.
Definition fault {S A} : M S A := fun _ => Fault.
Definition out_of_fuel {S A} : M S A := fun _ => OutOfFuel.

(** [for (i = lo; i < lo + n; i++) body(i)] *)
Fixpoint for_loop {S} (n : nat) (i : Z) (body : Z -> M S unit) : M S unit :=
  match n with
  | O => mret tt
  | Datatypes.S n' => body i;; for_loop n' (i + 1) body
  end.

(** ** Total correctness

    [wp c Q s]: started in [s], [c] returns (no panic, no stray access, no
    endless loop) and the value and final state satisfy [Q]. *)

Definition wp {S A} (c : M S A) (Q : A -> S -> Prop) (s : S) : Prop :=
  match c s with Ok a s' => Q a s' | _ => False end.

Section wp.
Context {S A B : Type}.
Implicit Types (s : S).

Lemma wp_ret (a : A) (Q : A -> S -> Prop) s : wp (mret a) Q s <-> Q a s.
Proof. done. Qed.

Lemma wp_bind (c : M S A) (f : A -> M S B) (Q : B -> S -> Prop) s :
  wp (c ≫= f) Q s <-> wp c (fun a => wp (f a) Q) s.
Proof. unfold wp, mbind, M_bind. by destruct (c s). Qed.

Lemma wp_gets (f : S -> A) (Q : A -> S -> Prop) s : wp (gets f) Q s <-> Q (f s) s.
Proof. done. Qed.

Lemma wp_modify (f : S -> S) (Q : unit -> S -> Prop) s :
  wp (modify f) Q s <-> Q tt (f s).
Proof. done. Qed.

Lemma wp_mono (c : M S A) (Q Q' : A -> S -> Prop) s :
  wp c Q s -> (forall a s', Q a s' -> Q' a s') -> wp c Q' s.
Proof. unfold wp. destruct (c s); naive_solver. Qed.

Lemma wp_run (c : M S A) (Q : A -> S -> Prop) s :
  wp c Q s <-> exists a s', c s = Ok a s' /\ Q a s'.
Proof. unfold wp. destruct (c s); naive_solver. Qed.

Lemma wp_ok (c : M S A) a s s' : wp c (fun a1 s1 => a1 = a /\ s1 = s') s <-> c s = Ok a s'.
Proof. rewrite wp_run. naive_solver. Qed.

Lemma bind_ok (c : M S A) (f : A -> M S B) a s s' :
  c s = Ok a s' -> (c ≫= f) s = f a s'.
Proof. unfold mbind, M_bind. by intros ->. Qed.

Lemma bind_inv (c : M S A) (f : A -> M S B) s b s' :
  (c ≫= f) s = Ok b s' -> exists a s1, c s = Ok a s1 /\ f a s1 = Ok b s'.
Proof. unfold mbind, M_bind. destruct (c s); [eauto|done..]. Qed.

Lemma bind_panic (c : M S A) (f : A -> M S B) s msg :
  c s = Panic msg -> (c ≫= f) s = Panic msg.
Proof. unfold mbind, M_bind. by intros ->. Qed.

Lemma bind_gets (g : S -> A) (f : A -> M S B) s : (gets g ≫= f) s = f (g s) s.
Proof. done. Qed.

Lemma bind_modify (g : S -> S) (f : unit -> M S B) s : (modify g ≫= f) s = f tt (g s).
Proof. done. Qed.

Lemma bind_ret (a : A) (f : A -> M S B) s : (mret a ≫= f) s = f a s.
Proof. done. Qed.
End wp.

(** Run the pure steps at the head of a monadic program. *)
Ltac run_pure := repeat (first [rewrite bind_gets | rewrite bind_modify | rewrite bind_ret]; cbn beta).

(** Step through the pure steps of a monadic program under [wp]. *)
Ltac wp_pure :=
  repeat first
    [ rewrite wp_bind
    | rewrite wp_gets
    | rewrite wp_modify
    | rewrite wp_ret ];
  cbn beta iota.

(** Induction over a counting loop. *)
Lemma for_loop_ind {S} (P : Z -> S -> Prop) (body : Z -> M S unit) n : forall i s,
  P i s ->
  (forall k s, i <= k < i + Z.of_nat n -> P k s -> exists s', body k s = Ok tt s' /\ P (k + 1) s') ->
  exists s', for_loop n i body s = Ok tt s' /\ P (i + Z.of_nat n) s'.
Proof.
  induction n as [|n IH]; intros i s Hi Hb; cbn [for_loop].
  - exists s. split; [done|]. by rewrite Z.add_0_r.
  - destruct (Hb i s) as (s1 & Hr & H1); [lia|done|].
    destruct (IH (i + 1) s1 H1) as (s2 & Hr2 & H2); [intros; apply Hb; [lia|done]|].
    exists s2. split; [by rewrite (bind_ok _ _ _ _ _ Hr)|].
    by replace (i + Z.of_nat (Datatypes.S n)) with (i + 1 + Z.of_nat n) by lia.
Qed.

Definition lift_opt {S A} (o : option A) : M S A :=
  match o with Some a => mret a | None => fault end.

(** ** Lists *)

Lemma NoDup_sub {A} (l k : list A) : l ⊆+ k -> NoDup k -> NoDup l.
Proof.
  intros Hs Hk. apply submseteq_Permutation in Hs as [r Hp]. rewrite Hp in Hk.
  by apply NoDup_app in Hk as [? _].
Qed.

(** A property of all elements with their index, decidable for a closed list. *)
Lemma indexed_all {A} (P : nat -> A -> Prop) (l : list A) :
  Forall2 P (seq 0 (length l)) l -> forall k x, l !! k = Some x -> P k x.
Proof.
  intros H k x Hk. destruct (Forall2_lookup_r _ _ _ _ _ H Hk) as (i & Hi & HP).
  apply lookup_seq in Hi as [-> _]. done.
Qed.

(** ** Masks and shifts *)

Lemma testbit_block_mask k w i :
  0 <= k <= w -> 0 <= i -> Z.testbit (2 ^ w - 2 ^ k) i = (k <=? i) && (i <? w).
Proof.
  intros Hk Hi. replace (2 ^ w - 2 ^ k) with (Z.shiftl (Z.ones (w - k)) k).
  - rewrite Z.shiftl_spec by lia. destruct (Z.leb_spec k i); cbn.
    + rewrite Z.testbit_ones_nonneg by lia. destruct (Z.ltb_spec (i - k) (w - k));
        destruct (Z.ltb_spec i w); done || lia.
    + apply Z.testbit_neg_r. lia.
  - rewrite Z.shiftl_mul_pow2, Z.ones_equiv by lia.
    replace w with (w - k + k) at 2 by lia. rewrite Z.pow_add_r by lia. lia.
Qed.

Lemma testbit_above x w i : 0 <= x < 2 ^ w -> w <= i -> 0 <= w -> Z.testbit x i = false.
Proof.
  intros Hx Hi Hw. rewrite <- (Z.mod_small x (2 ^ w)) by done.
  apply Z.mod_pow2_bits_high. lia.
Qed.

(** Clearing the low [k] bits of a [w]-bit value rounds it down. *)
Lemma land_block_mask x k w :
  0 <= k <= w -> 0 <= x < 2 ^ w -> Z.land x (2 ^ w - 2 ^ k) = x / 2 ^ k * 2 ^ k.
Proof.
  intros Hk Hx. rewrite <- Z.shiftl_mul_pow2, <- Z.shiftr_div_pow2 by lia.
  apply Z.bits_inj'. intros i Hi.
  rewrite Z.land_spec, testbit_block_mask, Z.shiftl_spec by lia.
  destruct (Z.leb_spec k i); cbn.
  - rewrite Z.shiftr_spec by lia. replace (i - k + k) with i by lia.
    destruct (Z.ltb_spec i w); [by rewrite andb_true_r|].
    by rewrite (testbit_above x w) by lia.
  - rewrite andb_false_r. symmetry. apply Z.testbit_neg_r. lia.
Qed.

(** Decide a closed goal by evaluation. *)
Ltac vdecide := refine (bool_decide_unpack _ _); vm_compute; exact I.

Lemma testbit_u64 x i : 0 <= i -> Z.testbit (u64 x) i = (i <? 64) && Z.testbit x i.
Proof.
  intros Hi. unfold u64. change W64 with (2 ^ 64). destruct (Z.ltb_spec i 64); cbn.
  - apply Z.mod_pow2_bits_low. lia.
  - apply Z.mod_pow2_bits_high. lia.
Qed.
