(* ===== verification/CStruct.v ===== *)
(** * Structures of C: where the fields are

    The kernel's structures are shared with the hardware and with the disk, so
    the offsets of their fields matter.  A declaration is a value of [ctype];
    the layout is the one of the System V ABI for x86-64 that gcc uses, with
    [__attribute__((packed))] and bit-fields.  Offsets and sizes are in bits.
    A structure that ends in a flexible array takes the number of its elements
    as a parameter. *)

From S2P Require Import Prelude.

Module CStruct.

Unset Elimination Schemes.
Inductive ctype :=
  | Int (bytes : Z)
  | Bits (bytes width : Z)
  | Array (t : ctype) (n : nat)
  | Struct (packed : bool) (fields : list (string * ctype)).
Set Elimination Schemes.

(** The types of util/const.h; a pointer and an enumeration. *)
Abbreviation u8_t := (Int 1).
Abbreviation u16_t := (Int 2).
Abbreviation u32_t := (Int 4).
Abbreviation u64_t := (Int 8).
Abbreviation ptr_t := (Int 8).
Abbreviation enum_t := (Int 4).

(** Several fields of one type, [u32 a, b, c;]. *)
Definition decl (t : ctype) (names : list string) : list (string * ctype) := (fun n => (n, t)) <$> names.

Definition round_up (x a : Z) : Z := (x + a - 1) / a * a.

Fixpoint align (t : ctype) : Z :=
  match t with
  | Int n | Bits n _ => 8 * n
  | Array t _ => align t
  | Struct true _ => 8
  | Struct false fs => foldr (fun f a => Z.max (align f.2) a) 8 fs
  end.

(** Where a field goes, when the fields before it end at [off].  A bit-field
    of a structure that is not packed does not cross the boundary of its
    storage unit. *)
Definition place (packed : bool) (off : Z) (t : ctype) : Z :=
  match t with
  | Bits n w => if packed || (off mod (8 * n) + w <=? 8 * n) then off else round_up off (8 * n)
  | _ => round_up off (if packed then 8 else align t)
  end.

Fixpoint size (t : ctype) : Z :=
  match t with
  | Int n => 8 * n
  | Bits _ w => w
  | Array t n => Z.of_nat n * size t
  | Struct packed fs =>
    round_up ((fix fields_end (off : Z) (fs : list (string * ctype)) : Z :=
                 match fs with [] => off | (_, t) :: fs' => fields_end (place packed off t + size t) fs' end) 0 fs)
      (if packed then 8 else foldr (fun f a => Z.max (align f.2) a) 8 fs)
  end.
Fixpoint fields_end (packed : bool) (off : Z) (fs : list (string * ctype)) : Z :=
  match fs with [] => off | (_, t) :: fs' => fields_end packed (place packed off t + size t) fs' end.

(** [sizeof], in bytes *)
Definition sizeof (t : ctype) : Z := size t / 8.

(** The first field with a given name. *)
Fixpoint find_field (packed : bool) (off : Z) (fs : list (string * ctype)) (name : string) : option (Z * ctype) :=
  match fs with
  | [] => None
  | (n, t) :: fs' =>
    let o := place packed off t in
    if String.eqb n name then Some (o, t) else find_field packed (o + size t) fs' name
  end.

(** A way to a field: names of members and indices of arrays. *)
Inductive sel := Member (name : string) | Index (i : nat).
#[global] Instance sel_eq_dec : EqDecision sel.
Proof. solve_decision. Defined.

Fixpoint locate (t : ctype) (p : list sel) (off : Z) : option (Z * ctype) :=
  match p, t with
  | [], _ => Some (off, t)
  | Member n :: p', Struct packed fs =>
    match find_field packed 0 fs n with Some (o, t') => locate t' p' (off + o) | None => None end
  | Index i :: p', Array t' n => if (i <? n)%nat then locate t' p' (off + Z.of_nat i * size t') else None
  | _, _ => None
  end.

(** [offsetof], in bytes *)
Definition offsetof (t : ctype) (p : list sel) : option Z := (fun x => x.1 / 8) <$> locate t p 0.

(** A field that is a number: its first bit and its width. *)
Definition scalar (t : ctype) : bool := match t with Int _ | Bits _ _ => true | _ => false end.
Definition slot (t : ctype) (p : list sel) : option (Z * Z) :=
  match locate t p 0 with Some (o, t') => if scalar t' then Some (o, size t') else None | None => None end.

(** A structure in memory, read as one little-endian number [x]. *)
Definition load_bits (x o w : Z) : Z := Z.land (Z.shiftr x o) (Z.ones w).
Definition store_bits (x o w v : Z) : Z :=
  Z.lor (Z.ldiff x (Z.shiftl (Z.ones w) o)) (Z.shiftl (Z.land v (Z.ones w)) o).
Definition get (t : ctype) (p : list sel) (x : Z) : option Z := '(o, w) ← slot t p; Some (load_bits x o w).
Definition set (t : ctype) (p : list sel) (v x : Z) : option Z := '(o, w) ← slot t p; Some (store_bits x o w v).

(** ** Well-formed declarations *)

Fixpoint wf (t : ctype) : bool :=
  match t with
  | Int n => 0 <? n
  | Bits n w => (0 <? n) && (0 <? w)
  | Array t _ => wf t
  | Struct _ fs => forallb (fun f => wf f.2) fs
  end.

Section induction.
Context (P : ctype -> Prop).
Hypothesis HI : forall n, P (Int n).
Hypothesis HB : forall n w, P (Bits n w).
Hypothesis HA : forall t n, P t -> P (Array t n).
Hypothesis HS : forall k fs, Forall (fun f => P f.2) fs -> P (Struct k fs).

(** Induction that goes into the fields. *)
Fixpoint ctype_rec_fields (t : ctype) : P t :=
  match t with
  | Int n => HI n
  | Bits n w => HB n w
  | Array t n => HA t n (ctype_rec_fields t)
  | Struct k fs => HS k fs
      ((fix go fs : Forall (fun f => P f.2) fs :=
          match fs with [] => Forall_nil_2 _ | f :: fs' => Forall_cons_2 _ f fs' (ctype_rec_fields f.2) (go fs') end) fs)
  end.
End induction.

Lemma size_struct k fs : size (Struct k fs) = round_up (fields_end k 0 fs) (align (Struct k fs)).
Proof.
  cbn [size align]. assert (E : forall l o, (fix fields_end (off : Z) (fs : list (string * ctype)) : Z :=
    match fs with [] => off | (_, t) :: fs' => fields_end (place k off t + size t) fs' end) o l = fields_end k o l).
  { induction l as [|[n t] l IH]; intros o; [done|apply IH]. }
  rewrite E. by destruct k.
Qed.

Lemma round_up_ge x a : 0 < a -> x <= round_up x a.
Proof. intros Ha. unfold round_up. pose proof (Z.div_mod (x + a - 1) a). pose proof (Z.mod_pos_bound (x + a - 1) a). lia. Qed.

Lemma align_pos t : wf t = true -> 0 < align t.
Proof.
  induction t as [n|n w|t n IH|k fs IH] using ctype_rec_fields; cbn; intros Hw; try (by apply IH).
  - apply Z.ltb_lt in Hw. lia.
  - apply andb_prop in Hw as [Hw _]. apply Z.ltb_lt in Hw. lia.
  - destruct k; [done|]. clear IH Hw. induction fs; cbn; lia.
Qed.

Lemma place_ge k off t : wf t = true -> off <= place k off t.
Proof.
  intros Hw. pose proof (align_pos t Hw) as Ha.
  destruct t; cbn [place]; try (case_match; [lia|]); apply round_up_ge; cbn in Ha |- *; repeat case_match; lia.
Qed.

Lemma wf_field k off fs n o t : forallb (fun f => wf f.2) fs = true -> find_field k off fs n = Some (o, t) -> wf t = true.
Proof.
  revert off. induction fs as [|[m u] fs IH]; intros off Hw Hf; [done|]. cbn in Hw. apply andb_prop in Hw as [Hu Hw].
  cbn in Hf. destruct (String.eqb m n); [by injection Hf as <- <-|by eapply IH].
Qed.

Lemma size_nonneg t : wf t = true -> 0 <= size t.
Proof.
  induction t as [n|n w|t n IH|k fs IH] using ctype_rec_fields; intros Hw.
  - cbn in *. lia.
  - cbn in *. apply andb_prop in Hw as [_ Hw]. lia.
  - cbn in *. specialize (IH Hw). lia.
  - rewrite size_struct. pose proof (align_pos _ Hw) as Ha. pose proof (round_up_ge (fields_end k 0 fs) _ Ha).
    cut (forall off, off <= fields_end k off fs); [intros E; specialize (E 0); lia|]. cbn in Hw. clear -IH Hw.
    induction fs as [|[m u] fs IHf]; intros off; cbn [fields_end]; [lia|]. cbn in Hw. apply andb_prop in Hw as [Hu Hw].
    inversion IH as [|? ? Hs Hr]; subst. specialize (IHf Hr Hw (place k off u + size u)). specialize (Hs Hu). cbn in Hs.
    pose proof (place_ge k off u Hu). lia.
Qed.

Lemma fields_end_ge k fs : forall off, forallb (fun f => wf f.2) fs = true -> off <= fields_end k off fs.
Proof.
  induction fs as [|[m u] fs IH]; intros off Hw; cbn [fields_end]; [lia|]. cbn in Hw. apply andb_prop in Hw as [Hu Hw].
  pose proof (IH (place k off u + size u) Hw). pose proof (place_ge k off u Hu). pose proof (size_nonneg u Hu). lia.
Qed.

(** A field lies between the end of the fields before it and the end of all. *)
Lemma find_field_range k fs n o t : forall off, forallb (fun f => wf f.2) fs = true -> find_field k off fs n = Some (o, t) ->
  off <= o /\ o + size t <= fields_end k off fs.
Proof.
  induction fs as [|[m u] fs IH]; intros off Hw Hf; [done|]. cbn in Hw. apply andb_prop in Hw as [Hu Hw].
  cbn in Hf. pose proof (place_ge k off u Hu). pose proof (size_nonneg u Hu). cbn [fields_end].
  destruct (String.eqb m n).
  - injection Hf as <- <-. pose proof (fields_end_ge k fs (place k off u + size u) Hw). lia.
  - destruct (IH _ Hw Hf). lia.
Qed.

Lemma find_field_apart k fs n1 n2 o1 t1 o2 t2 : n1 <> n2 -> forall off, forallb (fun f => wf f.2) fs = true ->
  find_field k off fs n1 = Some (o1, t1) -> find_field k off fs n2 = Some (o2, t2) ->
  o1 + size t1 <= o2 \/ o2 + size t2 <= o1.
Proof.
  intros Hn. induction fs as [|[m u] fs IH]; intros off Hw H1 H2; [done|]. cbn in Hw. apply andb_prop in Hw as [Hu Hw].
  cbn in H1, H2. destruct (String.eqb_spec m n1) as [E1|]; destruct (String.eqb_spec m n2) as [E2|]; [congruence| | |].
  - injection H1 as <- <-. destruct (find_field_range _ _ _ _ _ _ Hw H2). lia.
  - injection H2 as <- <-. destruct (find_field_range _ _ _ _ _ _ Hw H1). lia.
  - by eapply IH.
Qed.

Lemma locate_range : forall p t off o t', wf t = true -> locate t p off = Some (o, t') ->
  wf t' = true /\ off <= o /\ o + size t' <= off + size t.
Proof.
  induction p as [|[n|i] p IH]; intros t off o t' Hw Hl.
  - destruct t; cbn in Hl; injection Hl as <- <-; repeat split; done || lia.
  - destruct t as [| | |k fs]; try done. cbn in Hl. destruct (find_field k 0 fs n) as [[o1 t1]|] eqn:Hf; [|done].
    destruct (find_field_range _ _ _ _ _ _ Hw Hf). destruct (IH _ _ _ _ (wf_field _ _ _ _ _ _ Hw Hf) Hl) as (? & ? & ?).
    rewrite size_struct. pose proof (round_up_ge (fields_end k 0 fs) (align (Struct k fs)) (align_pos _ Hw)). split; [done|lia].
  - destruct t as [| |u m|]; try done. cbn [locate] in Hl. destruct (Nat.ltb_spec i m); [|done].
    pose proof (size_nonneg u Hw). destruct (IH u _ _ _ Hw Hl) as (? & ? & ?). cbn [size]. split; [done|nia].
Qed.

(** Different ways lead to different places. *)
Lemma locate_apart : forall p q t off o1 t1 o2 t2, wf t = true -> p <> q -> scalar t1 = true -> scalar t2 = true ->
  locate t p off = Some (o1, t1) -> locate t q off = Some (o2, t2) -> o1 + size t1 <= o2 \/ o2 + size t2 <= o1.
Proof.
  induction p as [|a p IH]; intros [|b q] t off o1 t1 o2 t2 Hw Hpq H1 H2 Hl1 Hl2; [done| | |].
  - destruct t; cbn in Hl1; injection Hl1 as <- <-; by destruct b.
  - destruct t; cbn in Hl2; injection Hl2 as <- <-; by destruct a.
  - destruct a as [n|i], b as [m|j]; destruct t as [| |u c|k fs]; try done; cbn [locate] in Hl1, Hl2.
    + destruct (find_field k 0 fs n) as [[o t]|] eqn:Hf1; [|done]. destruct (find_field k 0 fs m) as [[o' t']|] eqn:Hf2; [|done].
      pose proof (wf_field _ _ _ _ _ _ Hw Hf1) as Hw1. pose proof (wf_field _ _ _ _ _ _ Hw Hf2) as Hw2.
      destruct (decide (n = m)) as [->|Hnm].
      * rewrite Hf1 in Hf2. injection Hf2 as <- <-. eapply (IH q t); eauto. congruence.
      * destruct (locate_range _ _ _ _ _ Hw1 Hl1) as (_ & ? & ?), (locate_range _ _ _ _ _ Hw2 Hl2) as (_ & ? & ?).
        destruct (find_field_apart _ _ _ _ _ _ _ _ Hnm 0 Hw Hf1 Hf2); lia.
    + destruct (Nat.ltb_spec i c); [|done]. destruct (Nat.ltb_spec j c); [|done].
      destruct (decide (i = j)) as [->|Hij]; [eapply (IH q u); eauto; congruence|].
      destruct (locate_range _ u _ _ _ Hw Hl1) as (_ & ? & ?), (locate_range _ u _ _ _ Hw Hl2) as (_ & ? & ?).
      pose proof (size_nonneg u Hw). destruct (Nat.lt_ge_cases i j); [left|right]; nia.
Qed.

(** ** Loads and stores *)

Lemma load_bits_spec x o w i : 0 <= o -> 0 <= w -> 0 <= i -> Z.testbit (load_bits x o w) i = (i <? w) && Z.testbit x (o + i).
Proof.
  intros Ho Hw Hi. unfold load_bits. rewrite Z.land_spec, Z.shiftr_spec, Z.testbit_ones_nonneg by lia.
  by rewrite andb_comm, (Z.add_comm i o).
Qed.

Lemma store_bits_spec x o w v i : 0 <= o -> 0 <= w -> 0 <= i ->
  Z.testbit (store_bits x o w v) i = if (o <=? i) && (i <? o + w) then Z.testbit v (i - o) else Z.testbit x i.
Proof.
  intros Ho Hw Hi. unfold store_bits. rewrite Z.lor_spec, Z.ldiff_spec, !Z.shiftl_spec by lia.
  destruct (Z.leb_spec o i); cbn.
  - rewrite Z.land_spec, Z.testbit_ones_nonneg by lia. replace (i - o <? w) with (i <? o + w).
    + destruct (i <? o + w); cbn; by rewrite ?andb_false_r, ?andb_true_r, ?orb_false_r.
    + destruct (Z.ltb_spec i (o + w)), (Z.ltb_spec (i - o) w); done || lia.
  - rewrite !(Z.testbit_neg_r _ (i - o)) by lia. cbn. by rewrite andb_true_r, orb_false_r.
Qed.

Lemma load_store x o w v : 0 <= o -> 0 <= w -> load_bits (store_bits x o w v) o w = v mod 2 ^ w.
Proof.
  intros Ho Hw. apply Z.bits_inj'. intros i Hi. rewrite load_bits_spec, store_bits_spec by lia.
  destruct (Z.ltb_spec i w); cbn.
  - rewrite Z.mod_pow2_bits_low by lia. replace ((o <=? o + i) && (o + i <? o + w)) with true by (symmetry; lia).
    f_equal. lia.
  - by rewrite Z.mod_pow2_bits_high by lia.
Qed.

Lemma load_store_other x o w v o' w' : 0 <= o -> 0 <= w -> 0 <= o' -> 0 <= w' -> o + w <= o' \/ o' + w' <= o ->
  load_bits (store_bits x o w v) o' w' = load_bits x o' w'.
Proof.
  intros Ho Hw Ho' Hw' Hd. apply Z.bits_inj'. intros i Hi. rewrite !load_bits_spec, store_bits_spec by lia.
  destruct (Z.ltb_spec i w'); cbn; [|done]. by replace ((o <=? o' + i) && (o' + i <? o + w)) with false by (symmetry; lia).
Qed.

Lemma slot_range t p o w : wf t = true -> slot t p = Some (o, w) -> 0 <= o /\ 0 <= w /\ o + w <= size t.
Proof.
  intros Hw Hs. unfold slot in Hs. destruct (locate t p 0) as [[o' t']|] eqn:Hl; [|done]. destruct (scalar t'); [|done].
  injection Hs as <- <-. destruct (locate_range _ _ _ _ _ Hw Hl) as (Hw' & ? & ?). pose proof (size_nonneg _ Hw'). lia.
Qed.

Lemma slot_apart t p q o1 w1 o2 w2 : wf t = true -> p <> q -> slot t p = Some (o1, w1) -> slot t q = Some (o2, w2) ->
  o1 + w1 <= o2 \/ o2 + w2 <= o1.
Proof.
  intros Hw Hpq H1 H2. unfold slot in *. destruct (locate t p 0) as [[? t1]|] eqn:Hl1; [|done].
  destruct (locate t q 0) as [[? t2]|] eqn:Hl2; [|done]. destruct (scalar t1) eqn:S1; [|done]. destruct (scalar t2) eqn:S2; [|done].
  injection H1 as <- <-. injection H2 as <- <-. by eapply locate_apart.
Qed.

(** A stored field is read back; the others, and what lies behind the
    structure, stay. *)
Lemma set_get t p v x x' : wf t = true -> set t p v x = Some x' ->
  (exists w, slot t p = Some w /\ get t p x' = Some (v mod 2 ^ w.2)) /\
  (forall q, q <> p -> get t q x' = get t q x) /\
  (forall i, size t <= i -> Z.testbit x' i = Z.testbit x i).
Proof.
  intros Hw Hs. unfold set in Hs. destruct (slot t p) as [[o w]|] eqn:Hp; [|done]. cbn in Hs. injection Hs as <-.
  destruct (slot_range _ _ _ _ Hw Hp) as (Ho & Hw0 & Hend). split; [|split].
  - exists (o, w). split; [done|]. unfold get. rewrite Hp. cbn. by rewrite load_store.
  - intros q Hq. unfold get. destruct (slot t q) as [[o' w']|] eqn:Hq'; [|done]. cbn.
    destruct (slot_range _ _ _ _ Hw Hq') as (? & ? & _). rewrite load_store_other; try done.
    by eapply slot_apart; [| |exact Hp|exact Hq'].
  - intros i Hi. rewrite store_bits_spec by lia. by replace ((o <=? i) && (i <? o + w)) with false by (symmetry; lia).
Qed.

(** ** Alignment *)

(** In a structure that is not packed a field that is not a bit-field is
    aligned, and so are the elements of an array of such structures. *)
Lemma round_up_aligned x a : 0 < a -> round_up x a mod a = 0.
Proof. intros Ha. unfold round_up. apply Z.mod_mul. lia. Qed.

Lemma find_field_aligned fs n o t : forall off, wf t = true -> find_field false off fs n = Some (o, t) ->
  (forall c w, t <> Bits c w) -> o mod align t = 0.
Proof.
  induction fs as [|[m u] fs IH]; intros off Hw Hf Hb; [done|]. cbn in Hf.
  destruct (String.eqb m n); [|by eapply IH]. injection Hf as <- <-. pose proof (align_pos _ Hw).
  destruct u; cbn [place]; try (by apply round_up_aligned). by destruct (Hb bytes width).
Qed.

Lemma size_aligned fs : wf (Struct false fs) = true -> size (Struct false fs) mod align (Struct false fs) = 0.
Proof. intros Hw. rewrite size_struct. apply round_up_aligned, align_pos, Hw. Qed.

End CStruct.
