(* ===== verification/KMath.v ===== *)
(** * util/kmath.c: the kernel's integer helpers

    Every operation is kept at the width of the C code: the products, sums and
    differences wrap, and a division by zero (which traps on x86) has no value. *)

From S2P Require Import Prelude.

Module KMath.

(** u32 absolute(i32 num): the argument is converted to [i32] by the caller. *)
Definition absolute (num : Z) : Z := if 0 <? num then u32 num else u32 (- num).

Definition round_u32_div (dividend divisor : Z) : option Z :=
  if divisor =? 0 then None
  else
    let low := dividend / divisor in
    let high := low +32 1 in
    let low_error := absolute (i32 (low *32 divisor - dividend)) in
    let high_error := absolute (i32 (high *32 divisor - dividend)) in
    Some (if low_error <? high_error then low else high).

Definition ceil_u64_div (dividend divisor : Z) : option Z :=
  if divisor =? 0 then None
  else
    let floor := dividend / divisor in
    Some (if floor *64 divisor =? dividend then floor else floor +64 1).

Definition floor_u64_div (dividend divisor : Z) : option Z :=
  if divisor =? 0 then None
  else
    let floor := dividend / divisor in
    Some (if floor *64 divisor =? dividend then floor else floor -64 1).

Definition ceil_u32_div (dividend divisor : Z) : option Z :=
  if divisor =? 0 then None
  else
    let floor := dividend / divisor in
    Some (if floor *32 divisor =? dividend then floor else floor +32 1).

Definition floor_u32_div (dividend divisor : Z) : option Z :=
  if divisor =? 0 then None
  else
    let floor := dividend / divisor in
    Some (if floor *32 divisor =? dividend then floor else floor -32 1).

Definition u64_min (a b : Z) : Z := if a <? b then a else b.
Definition u64_max (a b : Z) : Z := if b <? a then a else b.


(** ** Helper lemmas *)

Lemma mul_floor_wraps w n d :
  0 < d -> 0 <= n < w -> ((n / d * d) mod w =? n) = (n mod d =? 0).
Proof.
  intros Hd Hn. pose proof (Z.mod_pos_bound n d Hd).
  pose proof (Z.div_mod n d). pose proof (Z.div_pos n d).
  rewrite Z.mod_small by nia. btests; nia.
Qed.

Lemma ceil_div_exact n d : 0 < d -> n mod d = 0 -> (n + d - 1) / d = n / d.
Proof.
  intros. pose proof (Z.div_mod n d).
  symmetry. apply (Z.div_unique_pos _ _ _ (d - 1)); lia.
Qed.

Lemma ceil_div_inexact n d : 0 < d -> n mod d <> 0 -> (n + d - 1) / d = n / d + 1.
Proof.
  intros. pose proof (Z.div_mod n d). pose proof (Z.mod_pos_bound n d).
  symmetry. apply (Z.div_unique_pos _ _ _ (n mod d - 1)); lia.
Qed.

Lemma div_lt_width w n d : 0 < d -> 0 <= n < w -> 0 <= n / d < w.
Proof. intros. split; [apply Z.div_pos; lia|]. apply Z.div_lt_upper_bound; nia. Qed.

Lemma ceil_core w n d :
  0 < d -> 0 <= n < w ->
  (if (n / d * d) mod w =? n then n / d else (n / d + 1) mod w) = (n + d - 1) / d.
Proof.
  intros Hd Hn. rewrite mul_floor_wraps by lia.
  destruct (Z.eqb_spec (n mod d) 0).
  - by rewrite ceil_div_exact.
  - rewrite ceil_div_inexact by lia. apply Z.mod_small.
    assert (n <> 0) by (intros ->; rewrite Z.mod_0_l in *; lia).
    assert (d <> 1) by (intros ->; rewrite Z.mod_1_r in *; lia).
    assert (n / d <= n / 2) by (apply Z.div_le_compat_l; lia).
    pose proof (Z.div_mod n 2). pose proof (Z.mod_pos_bound n 2).
    pose proof (Z.div_pos n d). lia.
Qed.

(** ** Properties *)

Lemma ceil_u64_div_spec n d :
  0 < d < W64 -> 0 <= n < W64 -> ceil_u64_div n d = Some ((n + d - 1) / d).
Proof.
  intros Hd Hn. unfold ceil_u64_div. destruct (Z.eqb_spec d 0); [lia|].
  f_equal. apply ceil_core; lia.
Qed.

Lemma ceil_u32_div_spec n d :
  0 < d < W32 -> 0 <= n < W32 -> ceil_u32_div n d = Some ((n + d - 1) / d).
Proof.
  intros Hd Hn. unfold ceil_u32_div. destruct (Z.eqb_spec d 0); [lia|].
  f_equal. apply ceil_core; lia.
Qed.

Lemma floor_u64_div_spec n d :
  0 < d < W64 -> 0 <= n < W64 ->
  floor_u64_div n d = Some (if n mod d =? 0 then n / d else n / d -64 1).
Proof.
  intros Hd Hn. unfold floor_u64_div. destruct (Z.eqb_spec d 0); [lia|].
  unfold u64 at 1. by rewrite mul_floor_wraps by lia.
Qed.

Lemma floor_u32_div_spec n d :
  0 < d < W32 -> 0 <= n < W32 ->
  floor_u32_div n d = Some (if n mod d =? 0 then n / d else n / d -32 1).
Proof.
  intros Hd Hn. unfold floor_u32_div. destruct (Z.eqb_spec d 0); [lia|].
  unfold u32 at 1. by rewrite mul_floor_wraps by lia.
Qed.


(** [absolute] of a 32-bit difference is the difference's magnitude whenever
    that fits an [i32]. *)
Lemma absolute_i32 z k :
  z mod W32 = k mod W32 -> - 2147483648 < k < 2147483648 -> absolute (i32 z) = Z.abs k.
Proof.
  intros E Hk. unfold absolute, i32, u32. rewrite E.
  destruct (Z.ltb_spec (k mod W32) 2147483648) as [H|H];
    [assert (k mod W32 = k) as -> by dlia | assert (k mod W32 - W32 = k) as -> by dlia];
    destruct (Z.ltb_spec 0 k); rewrite Z.mod_small by lia; lia.
Qed.

(** [dividend/divisor] rounded to the nearest integer, halves rounded up, for
    every divisor that fits a positive [i32]. *)
Lemma round_u32_div_spec n d :
  0 < d < 2147483648 -> 0 <= n < W32 ->
  round_u32_div n d = Some ((2 * n + d) / (2 * d)).
Proof.
  intros Hd Hn. unfold round_u32_div. destruct (Z.eqb_spec d 0); [lia|].
  pose proof (Z.div_mod n d). pose proof (Z.mod_pos_bound n d).
  pose proof (div_lt_width W32 n d). cbv zeta.
  rewrite (absolute_i32 _ (- (n mod d))), (absolute_i32 _ (d - n mod d)).
  2:{ unfold u32. rewrite Zminus_mod, Zmult_mod, !Zmod_mod, <- Zmult_mod, <- Zminus_mod.
      f_equal. nia. }
  2:{ lia. }
  2:{ unfold u32. rewrite Zminus_mod, Zmod_mod, <- Zminus_mod. f_equal. nia. }
  2:{ lia. }
  f_equal. destruct (Z.ltb_spec (Z.abs (- (n mod d))) (Z.abs (d - n mod d))).
  - apply (Z.div_unique_pos _ _ _ (2 * (n mod d) + d)); lia.
  - rewrite u32_small.
    + apply (Z.div_unique_pos _ _ _ (2 * (n mod d) - d)); lia.
    + assert (d <> 1) by (intros ->; rewrite Z.mod_1_r in *; lia). nia.
Qed.

End KMath.
