(* ===== verification/Machine.v ===== *)
(** * The machine state the memory managers share

    The kernel keeps its physical free lists, page tables and virtual free
    lists in physical memory, which it reaches through the direct map at
    [KERNEL_OFFSET].  All of these structures consist of 64-bit words, so the
    memory is a finite map from the (virtual) address of a word to its value.
    A store never adds an address: the map's domain is the RAM behind the
    direct map, and an access outside of it, a null dereference in particular,
    is a [Fault]. *)

From S2P Require Import Prelude.

Module Machine.

(** util/const.h *)
Definition KERNEL_OFFSET : Z := 0xFFFFFFFF80000000.
Definition PAGE_SIZE : Z := 4096.

Record kstate := KState {
  mem : gmap Z Z;
  (* mem/pmm.c globals *)
  pmm_low : Z;
  pmm_high : Z;
  pmm_init_temp : Z;
  pmm_free_list : Z;
  total_size : Z;
  nodes_needed : Z;
  (* mem/page.c global, the address in cr3, and the addresses flushed from the TLB *)
  pml4_addr : Z;
  cr3 : Z;
  flushed : list Z;
  (* mem/vmm.c globals *)
  vmm_head : Z;
  vmm_tail : Z;
  alloc_head : Z;
}.

Definition set_mem (f : gmap Z Z -> gmap Z Z) (s : kstate) : kstate :=
  KState (f (mem s)) (pmm_low s) (pmm_high s) (pmm_init_temp s) (pmm_free_list s)
    (total_size s) (nodes_needed s) (pml4_addr s) (cr3 s) (flushed s)
    (vmm_head s) (vmm_tail s) (alloc_head s).
Definition set_pmm_low (v : Z) (s : kstate) : kstate :=
  KState (mem s) v (pmm_high s) (pmm_init_temp s) (pmm_free_list s)
    (total_size s) (nodes_needed s) (pml4_addr s) (cr3 s) (flushed s)
    (vmm_head s) (vmm_tail s) (alloc_head s).
Definition set_pmm_high (v : Z) (s : kstate) : kstate :=
  KState (mem s) (pmm_low s) v (pmm_init_temp s) (pmm_free_list s)
    (total_size s) (nodes_needed s) (pml4_addr s) (cr3 s) (flushed s)
    (vmm_head s) (vmm_tail s) (alloc_head s).
Definition set_pmm_init_temp (v : Z) (s : kstate) : kstate :=
  KState (mem s) (pmm_low s) (pmm_high s) v (pmm_free_list s)
    (total_size s) (nodes_needed s) (pml4_addr s) (cr3 s) (flushed s)
    (vmm_head s) (vmm_tail s) (alloc_head s).
Definition set_pmm_free_list (v : Z) (s : kstate) : kstate :=
  KState (mem s) (pmm_low s) (pmm_high s) (pmm_init_temp s) v
    (total_size s) (nodes_needed s) (pml4_addr s) (cr3 s) (flushed s)
    (vmm_head s) (vmm_tail s) (alloc_head s).
Definition set_total_size (v : Z) (s : kstate) : kstate :=
  KState (mem s) (pmm_low s) (pmm_high s) (pmm_init_temp s) (pmm_free_list s)
    v (nodes_needed s) (pml4_addr s) (cr3 s) (flushed s)
    (vmm_head s) (vmm_tail s) (alloc_head s).
Definition set_nodes_needed (v : Z) (s : kstate) : kstate :=
  KState (mem s) (pmm_low s) (pmm_high s) (pmm_init_temp s) (pmm_free_list s)
    (total_size s) v (pml4_addr s) (cr3 s) (flushed s)
    (vmm_head s) (vmm_tail s) (alloc_head s).
Definition set_pml4 (phys virt : Z) (s : kstate) : kstate :=
  KState (mem s) (pmm_low s) (pmm_high s) (pmm_init_temp s) (pmm_free_list s)
    (total_size s) (nodes_needed s) virt phys (flushed s)
    (vmm_head s) (vmm_tail s) (alloc_head s).
Definition add_flushed (v : Z) (s : kstate) : kstate :=
  KState (mem s) (pmm_low s) (pmm_high s) (pmm_init_temp s) (pmm_free_list s)
    (total_size s) (nodes_needed s) (pml4_addr s) (cr3 s) (v :: flushed s)
    (vmm_head s) (vmm_tail s) (alloc_head s).
Definition set_vmm_head (v : Z) (s : kstate) : kstate :=
  KState (mem s) (pmm_low s) (pmm_high s) (pmm_init_temp s) (pmm_free_list s)
    (total_size s) (nodes_needed s) (pml4_addr s) (cr3 s) (flushed s)
    v (vmm_tail s) (alloc_head s).
Definition set_vmm_tail (v : Z) (s : kstate) : kstate :=
  KState (mem s) (pmm_low s) (pmm_high s) (pmm_init_temp s) (pmm_free_list s)
    (total_size s) (nodes_needed s) (pml4_addr s) (cr3 s) (flushed s)
    (vmm_head s) v (alloc_head s).
Definition set_alloc_head (v : Z) (s : kstate) : kstate :=
  KState (mem s) (pmm_low s) (pmm_high s) (pmm_init_temp s) (pmm_free_list s)
    (total_size s) (nodes_needed s) (pml4_addr s) (cr3 s) (flushed s)
    (vmm_head s) (vmm_tail s) v.

Abbreviation K := (M kstate).

(** Load and store of a 64-bit word. *)
Definition rd (a : Z) : K Z := fun s =>
  match mem s !! a with Some v => Ok v s | None => Fault end.
Definition wr (a v : Z) : K unit := fun s =>
  match mem s !! a with
  | Some _ => Ok tt (set_mem (insert a v) s)
  | None => Fault
  end.

(** A loop that follows pointers through unchanged memory and does not revisit
    a word ends within as many steps as there are words: exhausting this fuel
    means that the C loop runs forever. *)
Definition walk_fuel (s : kstate) : nat := S (size (mem s)).

(** The number of the page a word lies in. *)
Definition pg (a : Z) : Z := a / PAGE_SIZE.

Lemma wp_rd a v (Q : Z -> kstate -> Prop) s :
  mem s !! a = Some v -> Q v s -> wp (rd a) Q s.
Proof. unfold wp, rd. by intros ->. Qed.

Lemma wp_wr a v (Q : unit -> kstate -> Prop) s :
  is_Some (mem s !! a) -> Q tt (set_mem (insert a v) s) -> wp (wr a v) Q s.
Proof. unfold wp, wr. by intros [? ->]. Qed.

Lemma size_bound (m : gmap Z Z) (l : list Z) :
  NoDup l -> Forall (fun a => is_Some (m !! a)) l -> (length l <= size m)%nat.
Proof.
  intros Hnd Hin. rewrite <- size_dom.
  rewrite <- (size_list_to_set (C := gset Z)) by done.
  apply subseteq_size. intros a. rewrite elem_of_list_to_set, elem_of_dom.
  rewrite Forall_forall in Hin. apply Hin.
Qed.

End Machine.
