(* ===== verification/Pmm.v ===== *)
(** * mem/pmm.c: the physical page-frame allocator

    Free frames are kept in two linked lists ([pmm_low] below 2 GiB,
    [pmm_high] above), whose nodes live in the direct map; the nodes of the
    frames in use are kept in [pmm_free_list].  [pmm_alloc_high], which calls
    into the paging code, is in file Page. *)

From S2P Require Import Prelude KMath Machine.
Import KMath Machine.

Module Pmm.

Definition TWO_GB : Z := 2147483648.

(** struct PhysFreeListNode { next; addr; }: the field addresses of the node
    at [p], and the size of the structure. *)
Definition next_of (p : Z) : Z := p.
Definition addr_of (p : Z) : Z := p + 8.
Definition sizeof_node : Z := 16.

Definition pmm_set_total (size : Z) : K unit :=
  modify (set_total_size size);;
  q ← lift_opt (floor_u64_div size (PAGE_SIZE + sizeof_node));
  modify (set_nodes_needed (q -64 1)).

Definition linked_list_add_node (start : Z) : K unit :=
  low ← gets pmm_low;
  if low =? 0 then
    modify (set_pmm_low (start +64 KERNEL_OFFSET));;
    low ← gets pmm_low;
    wr (addr_of low) 0;;
    modify (set_pmm_init_temp low);;
    n ← gets nodes_needed;
    modify (set_nodes_needed (n -64 1))
  else
    temp ← gets pmm_init_temp;
    wr (next_of temp) (start +64 KERNEL_OFFSET);;
    nx ← rd (next_of temp);
    wr (addr_of nx) 0;;
    modify (set_pmm_init_temp (start +64 KERNEL_OFFSET));;
    n ← gets nodes_needed;
    modify (set_nodes_needed (n -64 1)).

(** for (i = start; i < end && pmm_init_temp; i += PAGE_SIZE) *)
Fixpoint fill_nodes (fuel : nat) (i end_ : Z) : K unit :=
  match fuel with
  | O => out_of_fuel
  | S fuel' =>
    temp ← gets pmm_init_temp;
    if (i <? end_) && negb (temp =? 0) then
      wr (addr_of temp) i;;
      nx ← rd (next_of temp);
      modify (set_pmm_init_temp nx);;
      fill_nodes fuel' (i +64 PAGE_SIZE) end_
    else mret tt
  end.

(** for (; cur < end; cur += sizeof(struct PhysFreeListNode)): returns the
    final [cur]. *)
Fixpoint carve_nodes (fuel : nat) (cur end_ : Z) : K Z :=
  match fuel with
  | O => out_of_fuel
  | S fuel' =>
    if cur <? end_ then
      linked_list_add_node cur;;
      n ← gets nodes_needed;
      if n =? 0 then mret cur
      else carve_nodes fuel' (cur +64 sizeof_node) end_
    else mret cur
  end.

(** [depth] bounds the recursion, which is one call deep: the recursive call
    is made with [nodes_needed = 0]. *)
Fixpoint pmm_add_block_rec (depth : nat) (start end_ : Z) : K unit :=
  match depth with
  | O => out_of_fuel
  | S depth' =>
    needed ← gets nodes_needed;
    if needed =? 0 then
      let start := Z.land (start +64 PAGE_SIZE -64 1) (u64 (Z.lnot (PAGE_SIZE - 1))) in
      fuel ← gets walk_fuel;
      fill_nodes fuel start end_
    else
      cur ← carve_nodes (S (Z.to_nat needed)) start end_;
      needed ← gets nodes_needed;
      if negb (needed =? 0) then mret tt
      else
        temp ← gets pmm_init_temp;
        wr (next_of temp) 0;;
        low ← gets pmm_low;
        modify (set_pmm_init_temp low);;
        if cur <? end_ then pmm_add_block_rec depth' cur end_ else mret tt
  end.

Definition pmm_add_block (start end_ : Z) : K unit := pmm_add_block_rec 2 start end_.

Fixpoint split_at_2g (fuel : nat) (cur : Z) : K unit :=
  match fuel with
  | O => out_of_fuel
  | S fuel' =>
    if cur =? 0 then mret tt
    else
      nx ← rd (next_of cur);
      if nx =? 0 then mret tt
      else
        a ← rd (addr_of nx);
        if TWO_GB <=? a then
          modify (set_pmm_high nx);;
          wr (next_of cur) 0
        else split_at_2g fuel' nx
  end.

Definition pmm_init_final : K unit :=
  low ← gets pmm_low;
  fuel ← gets walk_fuel;
  split_at_2g fuel low.

Definition pmm_alloc_low : K Z :=
  low ← gets pmm_low;
  if low =? 0 then panic "pmm: out of memory!"
  else
    next ← rd (addr_of low);
    let node := low in
    nx ← rd (next_of low);
    modify (set_pmm_low nx);;
    fl ← gets pmm_free_list;
    wr (next_of node) fl;;
    modify (set_pmm_free_list node);;
    mret next.

(** the [else] part of [pmm_alloc_high]: take the first node of [pmm_high] *)
Definition pop_high : K Z :=
  high ← gets pmm_high;
  next ← rd (addr_of high);
  let node := high in
  nx ← rd (next_of high);
  modify (set_pmm_high nx);;
  fl ← gets pmm_free_list;
  wr (next_of node) fl;;
  modify (set_pmm_free_list node);;
  mret next.

Fixpoint find_node (fuel : nat) (cur addr : Z) : K Z :=
  match fuel with
  | O => out_of_fuel
  | S fuel' =>
    if cur =? 0 then mret 0
    else
      a ← rd (addr_of cur);
      if a =? addr then mret cur
      else
        nx ← rd (next_of cur);
        find_node fuel' nx addr
  end.

Definition pmm_free (addr : Z) : K unit :=
  fl ← gets pmm_free_list;
  fuel ← gets walk_fuel;
  cur ← find_node fuel fl addr;
  if cur =? 0 then panic "pmm: free: cannot find node!"
  else if TWO_GB <=? addr then
    old_user ← gets pmm_high;
    modify (set_pmm_high cur);;
    wr (next_of cur) old_user;;
    wr (addr_of cur) addr
  else
    old_kernel ← gets pmm_low;
    modify (set_pmm_low cur);;
    wr (next_of cur) old_kernel;;
    wr (addr_of cur) addr.

(** the search loop of [pmm_clear_blocks] *)
Fixpoint clear_search (fuel : nat) (cur start end_ start_node : Z) : K (Z * Z) :=
  match fuel with
  | O => out_of_fuel
  | S fuel' =>
    if cur =? 0 then mret (start_node, 0)
    else
      a ← rd (addr_of cur);
      let start_node := if a <=? start -64 PAGE_SIZE then cur else start_node in
      if end_ <=? a then mret (start_node, cur)
      else
        nx ← rd (next_of cur);
        clear_search fuel' nx start end_ start_node
  end.

Definition pmm_clear_blocks (start end_ : Z) : K unit :=
  high ← gets pmm_high;
  fuel ← gets walk_fuel;
  '(start_node, end_node) ← clear_search fuel high start end_ 0;
  if (start_node =? 0) || (end_node =? 0) then mret tt
  else
    nx ← rd (next_of end_node);
    wr (next_of start_node) nx.


(** ** List segments in memory

    [seg m p l q]: starting at [p], the nodes [l] (address of the node, frame
    it stands for) follow each other, and the last one's [next] is [q]. *)

Fixpoint seg (m : gmap Z Z) (p : Z) (l : list (Z * Z)) (q : Z) : Prop :=
  match l with
  | [] => p = q
  | (n, a) :: l' =>
    p = n /\ n <> 0 /\
    exists nx, m !! next_of n = Some nx /\ m !! addr_of n = Some a /\ seg m nx l' q
  end.

Definition chain (m : gmap Z Z) (p : Z) (l : list (Z * Z)) : Prop := seg m p l 0.

(** The words of a list of nodes are pairwise distinct. *)
Definition apart (ns : list Z) : Prop :=
  NoDup ns /\ forall n n', n ∈ ns -> n' ∈ ns -> next_of n <> addr_of n'.

Lemma seg_app m p l1 l2 q :
  seg m p (l1 ++ l2) q <-> exists r, seg m p l1 r /\ seg m r l2 q.
Proof.
  revert p. induction l1 as [|[n a] l1 IH]; intros p; cbn.
  - naive_solver.
  - setoid_rewrite IH. naive_solver.
Qed.

Lemma seg_insert m p l q w v :
  (forall n, n ∈ l.*1 -> w <> next_of n /\ w <> addr_of n) ->
  seg m p l q -> seg (<[w:=v]> m) p l q.
Proof.
  revert p. induction l as [|[n a] l IH]; intros p Hw; cbn; [done|].
  intros (-> & ? & nx & ? & ? & ?). split; [done|]. split; [done|]. exists nx.
  destruct (Hw n); [left|].
  rewrite !lookup_insert_ne by done. split; [done|]. split; [done|].
  apply IH; [|done]. intros. apply Hw. by right.
Qed.

(** A segment only depends on the words of its nodes. *)
Lemma seg_frame m m' p l q :
  (forall n, n ∈ l.*1 -> m' !! next_of n = m !! next_of n /\ m' !! addr_of n = m !! addr_of n) ->
  seg m p l q -> seg m' p l q.
Proof.
  revert p. induction l as [|[n a] l IH]; intros p Hw; cbn; [done|].
  intros (-> & ? & nx & ? & ? & ?). split; [done|]. split; [done|]. exists nx.
  destruct (Hw n) as [-> ->]; [left|]. split; [done|]. split; [done|].
  apply IH; [|done]. intros. apply Hw. by right.
Qed.

Lemma seg_fun m p l l' :
  chain m p l -> chain m p l' -> l = l'.
Proof.
  unfold chain. revert p l'. induction l as [|[n a] l IH]; intros p [|[n' a'] l'];
    cbn; [done|naive_solver..|].
  intros (-> & ? & nx & H1 & H2 & ?) (<- & ? & nx' & H1' & H2' & ?).
  simplify_eq. f_equal. eauto.
Qed.

Lemma seg_nodes_dom m p l q : seg m p l q -> Forall (fun n => is_Some (m !! n)) l.*1.
Proof.
  revert p. induction l as [|[n a] l IH]; intros p; cbn; [constructor|].
  intros (-> & ? & nx & ? & ? & ?). constructor; eauto.
Qed.

(** A terminated list has no repeated node, hence is shorter than the fuel. *)
Lemma chain_NoDup m p l : chain m p l -> NoDup l.*1.
Proof.
  revert p. induction l as [|[n a] l IH]; intros p; cbn; [constructor|].
  intros Hc. pose proof Hc as (-> & ? & nx & ? & ? & Hl). constructor; [|eauto].
  intros Hin. apply list_elem_of_fmap in Hin as ([n' a'] & Heq & Hin). cbn in Heq. subst n'.
  apply list_elem_of_split in Hin as (l1 & l2 & ->).
  apply seg_app in Hl as (r & _ & Hl). assert (r = n) as -> by (destruct Hl; done).
  pose proof (seg_fun m n ((n, a) :: l1 ++ (n, a') :: l2) _ Hc Hl) as Heq.
  apply (f_equal length) in Heq. rewrite length_cons, length_app in Heq. cbn in Heq. lia.
Qed.

Lemma chain_fuel s p l : chain (mem s) p l -> (length l < walk_fuel s)%nat.
Proof.
  intros H. unfold walk_fuel. rewrite <- (length_fmap fst).
  pose proof (size_bound (mem s) l.*1). cbn.
  specialize (H0 (chain_NoDup _ _ _ H) (seg_nodes_dom _ _ _ _ H)). lia.
Qed.

Lemma apart_nodes_fuel s p l q :
  seg (mem s) p l q -> NoDup l.*1 -> (length l < walk_fuel s)%nat.
Proof.
  intros H Hnd. unfold walk_fuel. rewrite <- (length_fmap fst).
  pose proof (size_bound (mem s) l.*1 Hnd (seg_nodes_dom _ _ _ _ H)). lia.
Qed.


Lemma apart_perm ns ns' : ns ≡ₚ ns' -> apart ns -> apart ns'.
Proof.
  intros Hp [Hnd Hd]. split; [by rewrite <- Hp|].
  intros n n'. rewrite <- Hp. apply Hd.
Qed.

Lemma apart_alt ns :
  NoDup ns /\ Forall (fun n => Forall (fun n' => next_of n <> addr_of n') ns) ns <-> apart ns.
Proof.
  unfold apart. rewrite Forall_forall. setoid_rewrite Forall_forall. naive_solver.
Qed.

#[export] Instance apart_dec ns : Decision (apart ns).
Proof.
  refine (match decide (NoDup ns /\ Forall (fun n => Forall (fun n' => next_of n <> addr_of n') ns) ns)
          with left H => left (proj1 (apart_alt ns) H)
          | right H => right (fun H' => H (proj2 (apart_alt ns) H')) end).
Defined.

Lemma apart_sublist ns ns' : ns' ⊆+ ns -> apart ns -> apart ns'.
Proof.
  intros Hs [Hnd Hd]. split.
  - by eapply NoDup_sub.
  - intros n n' Hn Hn'. apply Hd; eapply elem_of_submseteq; eauto.
Qed.

(** Updating either word of a node does not disturb a list without the node. *)
Lemma seg_insert_node m p l q n w v :
  apart (n :: l.*1) -> w = next_of n \/ w = addr_of n ->
  seg m p l q -> seg (<[w:=v]> m) p l q.
Proof.
  intros [Hnd Hd] Hw. apply seg_insert. intros n' Hn'.
  apply NoDup_cons in Hnd as [Hnd _].
  assert (n <> n') by (intros ->; done).
  pose proof (Hd n n' ltac:(left) ltac:(by right)).
  pose proof (Hd n' n ltac:(by right) ltac:(left)).
  unfold next_of, addr_of in *. lia.
Qed.

(** ** The search of [pmm_free] *)

Lemma find_node_hit fuel s p pre n addr q :
  seg (mem s) p (pre ++ [(n, addr)]) q -> addr ∉ pre.*2 ->
  (length pre < fuel)%nat -> find_node fuel p addr s = Ok n s.
Proof.
  revert p fuel. induction pre as [|[n' a'] pre IH]; intros p [|fuel]; cbn; try lia;
    intros (-> & ? & nx & Hn & Ha & Hs) Hnot Hf.
  - destruct (Z.eqb_spec n 0); [done|]. unfold mbind, M_bind, rd.
    rewrite Ha. by rewrite Z.eqb_refl.
  - destruct (Z.eqb_spec n' 0); [done|]. unfold mbind, M_bind, rd.
    rewrite Ha. destruct (Z.eqb_spec a' addr); [set_solver|].
    rewrite Hn. apply IH; [done|set_solver|lia].
Qed.

Lemma find_node_miss fuel s p l addr :
  chain (mem s) p l -> addr ∉ l.*2 ->
  (length l < fuel)%nat -> find_node fuel p addr s = Ok 0 s.
Proof.
  unfold chain. revert p fuel. induction l as [|[n' a'] l IH]; intros p [|fuel]; cbn; try lia.
  - by intros -> _ _.
  - intros (-> & ? & nx & Hn & Ha & Hs) Hnot Hf.
    destruct (Z.eqb_spec n' 0); [done|]. unfold mbind, M_bind, rd.
    rewrite Ha. destruct (Z.eqb_spec a' addr); [set_solver|].
    rewrite Hn. apply IH; [done|set_solver|lia].
Qed.

Lemma find_node_inv fuel s p addr n s' :
  find_node fuel p addr s = Ok n s' ->
  s' = s /\ (n = 0 \/ n <> 0 /\ mem s !! addr_of n = Some addr /\ exists pre, seg (mem s) p pre n).
Proof.
  revert p. induction fuel as [|fuel IH]; intros p; cbn; [done|].
  destruct (Z.eqb_spec p 0); [intros [= <- <-]; auto|].
  unfold mbind, M_bind, rd. destruct (mem s !! addr_of p) as [a|] eqn:Ha; [|done].
  destruct (Z.eqb_spec a addr) as [->|].
  - intros [= <- <-]. split; [done|]. right. split_and!; [done..|]. by exists [].
  - destruct (mem s !! next_of p) as [nx|] eqn:Hn; [|done]. intros H.
    apply IH in H as [-> [->|(? & ? & pre & Hs)]]; split; auto.
    right. split_and!; [done..|]. exists ((p, a) :: pre). cbn. eauto 10.
Qed.


(** ** The allocator's invariant

    [low] and [high] are the free lists; [used] is the part of the list
    [pmm_free_list] that stands for frames in use, and [q] is where the list
    goes on from there (0, or a node that has been freed since). *)

Record pmm_inv (s : kstate) (low high used : list (Z * Z)) (q : Z) : Prop := {
  inv_low : chain (mem s) (pmm_low s) low;
  inv_high : chain (mem s) (pmm_high s) high;
  inv_used : seg (mem s) (pmm_free_list s) used q;
  inv_apart : apart (low ++ high ++ used).*1;
}.

(** The state after the first node [n] of the low list, with successor [nx],
    has been moved to the list of used nodes. *)
Definition alloc_low_state (n nx : Z) (s : kstate) : kstate :=
  set_pmm_free_list n
    (set_mem (insert (next_of n) (pmm_free_list s)) (set_pmm_low nx s)).

Lemma pmm_alloc_low_run s n a nx :
  pmm_low s = n -> n <> 0 ->
  mem s !! next_of n = Some nx -> mem s !! addr_of n = Some a ->
  pmm_alloc_low s = Ok a (alloc_low_state n nx s).
Proof.
  intros Hl Hz Hn Ha. unfold pmm_alloc_low, mbind, M_bind, gets, modify, rd, wr, mret, M_ret.
  rewrite Hl. destruct (Z.eqb_spec n 0); [done|].
  cbn. by rewrite Ha, Hn; cbn; rewrite Hn.
Qed.

(** Keep a segment over the update of a node that is not part of it, the
    nodes' distinctness coming from a larger [apart]. *)
Ltac seg_keep n Hap :=
  apply (seg_insert_node _ _ _ _ n);
  [eapply apart_sublist; [|exact Hap]; cbn; repeat (rewrite fmap_app || rewrite fmap_cons); cbn; solve_submseteq
  |by auto|try done].

Lemma pmm_alloc_low_inv s n a low high used q :
  pmm_inv s ((n, a) :: low) high used q ->
  exists nx, mem s !! next_of n = Some nx /\
    pmm_alloc_low s = Ok a (alloc_low_state n nx s) /\
    pmm_inv (alloc_low_state n nx s) low high ((n, a) :: used) q.
Proof.
  intros [(Hl & Hz & nx & Hn & Ha & Hlow) Hhigh Hused Hap].
  exists nx. split; [done|]. split; [by apply pmm_alloc_low_run|].
  split; unfold chain in *; cbn in *; [seg_keep n Hap..| |].
  - split; [done|]. split; [done|]. exists (pmm_free_list s).
    split; [apply lookup_insert_eq|].
    split; [|seg_keep n Hap].
    rewrite lookup_insert_ne; [done|]. unfold next_of, addr_of. lia.
  - eapply apart_perm; [|exact Hap]. repeat (rewrite fmap_app || rewrite fmap_cons). cbn. solve_Permutation.
Qed.

(** [pop_high]: the same on the high list. *)
Definition pop_high_state (n nx : Z) (s : kstate) : kstate :=
  set_pmm_free_list n
    (set_mem (insert (next_of n) (pmm_free_list s)) (set_pmm_high nx s)).

Lemma pop_high_inv s n a low high used q :
  pmm_inv s low ((n, a) :: high) used q ->
  exists nx, mem s !! next_of n = Some nx /\
    pop_high s = Ok a (pop_high_state n nx s) /\
    pmm_inv (pop_high_state n nx s) low high ((n, a) :: used) q.
Proof.
  intros [Hlow (Hl & Hz & nx & Hn & Ha & Hhigh) Hused Hap].
  exists nx. split; [done|]. split.
  { unfold pop_high, mbind, M_bind, gets, modify, rd, wr, mret, M_ret.
    rewrite Hl. cbn. by rewrite Ha, Hn; cbn; rewrite Hn. }
  split; unfold chain in *; cbn in *; [seg_keep n Hap..| |].
  - split; [done|]. split; [done|]. exists (pmm_free_list s).
    split; [apply lookup_insert_eq|].
    split; [|seg_keep n Hap].
    rewrite lookup_insert_ne; [done|]. unfold next_of, addr_of. lia.
  - eapply apart_perm; [|exact Hap]. repeat (rewrite fmap_app || rewrite fmap_cons). cbn. solve_Permutation.
Qed.

(** The state after the used node [n] of frame [addr] has been put in front of
    its free list. *)
Definition free_state (n addr : Z) (s : kstate) : kstate :=
  if TWO_GB <=? addr then
    set_mem (insert (addr_of n) addr)
      (set_mem (insert (next_of n) (pmm_high s)) (set_pmm_high n s))
  else
    set_mem (insert (addr_of n) addr)
      (set_mem (insert (next_of n) (pmm_low s)) (set_pmm_low n s)).

Lemma pmm_free_run s n addr nx :
  find_node (walk_fuel s) (pmm_free_list s) addr s = Ok n s -> n <> 0 ->
  mem s !! next_of n = Some nx -> mem s !! addr_of n = Some addr ->
  pmm_free addr s = Ok tt (free_state n addr s).
Proof.
  intros Hf Hz Hn Ha. assert (next_of n <> addr_of n) by (unfold next_of, addr_of; lia).
  unfold pmm_free, free_state, mbind, M_bind, gets, modify, wr, mret, M_ret.
  rewrite Hf. destruct (Z.eqb_spec n 0); [done|].
  destruct (TWO_GB <=? addr); cbn; rewrite Hn; cbn; by rewrite lookup_insert_ne, Ha.
Qed.

Lemma pmm_free_inv s low high pre n addr post q :
  pmm_inv s low high (pre ++ (n, addr) :: post) q -> addr ∉ pre.*2 ->
  pmm_free addr s = Ok tt (free_state n addr s) /\
  (if TWO_GB <=? addr then pmm_inv (free_state n addr s) low ((n, addr) :: high) pre n
   else pmm_inv (free_state n addr s) ((n, addr) :: low) high pre n).
Proof.
  intros [Hlow Hhigh Hused Hap] Hpre.
  rewrite cons_middle, app_assoc in Hused.
  apply seg_app in Hused as (r & Hused & _).
  pose proof Hused as Hseg. apply seg_app in Hused as (n' & Hpre' & Hn).
  destruct Hn as (-> & Hz & nx & Hn & Ha & _).
  assert (next_of n <> addr_of n) by (unfold next_of, addr_of; lia).
  assert (Hndp : NoDup (pre ++ [(n, addr)]).*1).
  { destruct Hap as [Hnd _]. eapply NoDup_sub; [|exact Hnd].
    repeat (rewrite fmap_app || rewrite fmap_cons). cbn. solve_submseteq. }
  split.
  { eapply pmm_free_run; [|done..]. eapply find_node_hit; [done..|].
    pose proof (apart_nodes_fuel s _ _ _ Hseg Hndp). rewrite length_app in *. cbn in *. lia. }
  unfold free_state. destruct (TWO_GB <=? addr);
    (split; unfold chain in *; cbn in *;
     [..|eapply apart_sublist; [|exact Hap]; repeat (rewrite fmap_app || rewrite fmap_cons); cbn; solve_submseteq]).
  all: try (seg_keep n Hap; seg_keep n Hap).
  all: split; [done|]; split; [done|]; eexists;
       (split; [rewrite lookup_insert_ne by done; apply lookup_insert_eq|]);
       (split; [apply lookup_insert_eq|]); seg_keep n Hap; seg_keep n Hap.
Qed.


(** ** Sequences of allocations and frees

    [live] lists the frames that callers hold. *)

Inductive pmm_step : kstate * list Z -> kstate * list Z -> Prop :=
| step_alloc_low s a s' live :
    pmm_alloc_low s = Ok a s' -> pmm_step (s, live) (s', a :: live)
| step_alloc_high s a s' live :
    pmm_high s <> 0 -> pop_high s = Ok a s' -> pmm_step (s, live) (s', a :: live)
| step_free s a s' l1 l2 :
    pmm_free a s = Ok tt s' -> pmm_step (s, l1 ++ a :: l2) (s', l1 ++ l2).

(** All nodes ever carved out: each has its two words, and [next] leads to
    another node or is null. *)
Record arena (N : gset Z) (m : gmap Z Z) : Prop := {
  arena_node : forall n, n ∈ N -> n <> 0 /\
    exists nx a, m !! next_of n = Some nx /\ m !! addr_of n = Some a /\ (nx = 0 \/ nx ∈ N);
  arena_apart : forall n n', n ∈ N -> n' ∈ N -> next_of n <> addr_of n';
}.

(** [F] is the list of all frames the allocator was given. *)
Record pmm_safe (N : gset Z) (F : list Z) (s : kstate) (live : list Z) : Prop := {
  safe_arena : arena N (mem s);
  safe_free_list : pmm_free_list s = 0 \/ pmm_free_list s ∈ N;
  safe_lists : exists low high,
    chain (mem s) (pmm_low s) low /\ chain (mem s) (pmm_high s) high /\
    (forall n, n ∈ (low ++ high).*1 -> n ∈ N) /\ NoDup (low ++ high).*1 /\
    low.*2 ++ high.*2 ++ live ≡ₚ F;
}.

Lemma arena_insert_next N m n v :
  arena N m -> n ∈ N -> v = 0 \/ v ∈ N -> arena N (<[next_of n:=v]> m).
Proof.
  intros [Hn Ha] Hin Hv. split; [|done]. intros n' Hn'.
  destruct (Hn n' Hn') as (? & nx & a & ? & ? & ?). split; [done|].
  rewrite (lookup_insert_ne _ (next_of n) (addr_of n')) by eauto.
  destruct (decide (n = n')) as [->|].
  - exists v, a. rewrite lookup_insert_eq. done.
  - exists nx, a. by rewrite lookup_insert_ne.
Qed.

Lemma arena_insert_addr N m n v :
  arena N m -> n ∈ N -> arena N (<[addr_of n:=v]> m).
Proof.
  intros [Hn Ha] Hin. split; [|done]. intros n' Hn'.
  destruct (Hn n' Hn') as (? & nx & a & ? & ? & ?). split; [done|].
  rewrite (lookup_insert_ne _ (addr_of n) (next_of n')) by (apply not_eq_sym; eauto).
  destruct (decide (n = n')) as [->|].
  - exists nx, v. rewrite lookup_insert_eq. done.
  - exists nx, a. rewrite lookup_insert_ne; [done|]. unfold addr_of. lia.
Qed.

Lemma arena_seg N m p pre n : arena N m -> p = 0 \/ p ∈ N -> seg m p pre n -> n = 0 \/ n ∈ N.
Proof.
  intros [Hn _]. revert p. induction pre as [|[n' a'] pre IH]; intros p Hp; cbn.
  - by intros ->.
  - intros (-> & ? & nx & H1 & ? & ?). apply (IH nx); [|done].
    destruct Hp as [->|Hp]; [done|]. destruct (Hn _ Hp) as (_ & nx' & a & ? & ? & ?).
    by simplify_eq.
Qed.

Lemma arena_seg_insert N m n w v p l q :
  arena N m -> n ∈ N -> (forall n', n' ∈ l.*1 -> n' ∈ N) -> n ∉ l.*1 ->
  w = next_of n \/ w = addr_of n -> seg m p l q -> seg (<[w:=v]> m) p l q.
Proof.
  intros [_ Ha] Hn Hl Hnl Hw. apply seg_insert. intros n' Hn'.
  pose proof (Ha n n' Hn (Hl _ Hn')). pose proof (Ha n' n (Hl _ Hn') Hn).
  assert (n <> n') by (intros ->; done). unfold next_of, addr_of in *. lia.
Qed.

Lemma chain_addr m p l n a :
  chain m p l -> n ∈ l.*1 -> m !! addr_of n = Some a -> a ∈ l.*2.
Proof.
  unfold chain. revert p. induction l as [|[n' a'] l IH]; intros p; cbn; [set_solver|].
  intros (-> & ? & nx & ? & Ha & Hs) Hin Ha'. apply elem_of_cons in Hin as [->|Hin].
  - simplify_eq. left.
  - right. eauto.
Qed.


Lemma chain_null m l : chain m 0 l -> l = [].
Proof. destruct l as [|[n a] l]; cbn; [done|]. by intros (<- & ? & _). Qed.

(** A non-empty free list read off from a non-null pointer. *)
Lemma chain_cons_inv m p l :
  chain m p l -> p <> 0 -> exists a nx l', l = (p, a) :: l' /\
    m !! next_of p = Some nx /\ m !! addr_of p = Some a /\ chain m nx l'.
Proof.
  destruct l as [|[n a] l]; cbn; [done|]. intros (-> & ? & nx & ? & ? & ?) _.
  by exists a, nx, l.
Qed.

Lemma safe_alloc_low N F s a s' live :
  pmm_safe N F s live -> pmm_alloc_low s = Ok a s' -> pmm_safe N F s' (a :: live).
Proof.
  intros [Har Hfl (low & high & Hl & Hh & HN & Hnd & HF)] Hrun.
  assert (pmm_low s <> 0) as Hz.
  { intros Hz. revert Hrun. unfold pmm_alloc_low, mbind, M_bind, gets. by rewrite Hz. }
  destruct (chain_cons_inv _ _ _ Hl Hz) as (a' & nx & low' & -> & Hn & Ha & Hl').
  rewrite (pmm_alloc_low_run _ _ _ _ eq_refl Hz Hn Ha) in Hrun. simplify_eq.
  rewrite fmap_app in HN, Hnd. cbn in HN, Hnd. apply NoDup_cons in Hnd as [Hnin Hnd].
  split; cbn.
  - apply arena_insert_next; [done| |done]. set_solver.
  - right. set_solver.
  - exists low', high. unfold chain in *. rewrite fmap_app.
    split_and!; [eapply (arena_seg_insert N); eauto; set_solver..|set_solver|done|].
    rewrite <- HF. cbn. solve_Permutation.
Qed.

Lemma safe_pop_high N F s a s' live :
  pmm_safe N F s live -> pmm_high s <> 0 -> pop_high s = Ok a s' -> pmm_safe N F s' (a :: live).
Proof.
  intros [Har Hfl (low & high & Hl & Hh & HN & Hnd & HF)] Hz Hrun.
  destruct (chain_cons_inv _ _ _ Hh Hz) as (a' & nx & high' & -> & Hn & Ha & Hh').
  assert (s' = pop_high_state (pmm_high s) nx s /\ a = a') as [-> ->].
  { revert Hrun. unfold pop_high, mbind, M_bind, gets, modify, rd, wr, mret, M_ret.
    cbn. rewrite Ha, Hn. cbn. rewrite Hn. by intros [= <- <-]. }
  rewrite fmap_app in HN, Hnd. cbn in HN, Hnd.
  apply NoDup_app in Hnd as (Hnd1 & Hnd2 & [Hnin Hnd3]%NoDup_cons).
  split; cbn.
  - apply arena_insert_next; [done| |done]. set_solver.
  - right. set_solver.
  - exists low, high'. unfold chain in *. rewrite fmap_app.
    split_and!; [eapply (arena_seg_insert N); eauto; set_solver..|set_solver| |].
    + apply NoDup_app. set_solver.
    + rewrite <- HF. cbn. solve_Permutation.
Qed.

(** Pushing node [n] for frame [a] in front of the list at [v]. *)
Lemma push_keeps N m n a v p l :
  arena N m -> n ∈ N -> v = 0 \/ v ∈ N -> (forall x, x ∈ l.*1 -> x ∈ N) -> n ∉ l.*1 ->
  chain m p l -> chain (<[addr_of n:=a]> (<[next_of n:=v]> m)) p l.
Proof.
  intros Har Hn Hv Hl Hnl Hc. eapply (arena_seg_insert N); [|done..|by right|].
  - by apply arena_insert_next.
  - by eapply (arena_seg_insert N); [..|left|].
Qed.

Lemma push_chain N m n a v l :
  arena N m -> n ∈ N -> v = 0 \/ v ∈ N -> (forall x, x ∈ l.*1 -> x ∈ N) -> n ∉ l.*1 ->
  chain m v l -> chain (<[addr_of n:=a]> (<[next_of n:=v]> m)) n ((n, a) :: l).
Proof.
  intros Har Hn Hv Hl Hnl Hc. split; [done|].
  split; [by destruct (arena_node _ _ Har n Hn)|]. exists v.
  rewrite (lookup_insert_ne _ (addr_of n)), !lookup_insert_eq
    by (unfold next_of, addr_of; lia).
  split_and!; [done..|]. by eapply push_keeps.
Qed.

Lemma arena_chain_head (N : gset Z) m p l :
  chain m p l -> (forall x, x ∈ l.*1 -> x ∈ N) -> p = 0 \/ p ∈ N.
Proof. destruct l as [|[x y] l]; cbn; [auto|]. intros (-> & _) HH. right. apply HH. left. Qed.

Lemma safe_free N F s a s' l1 l2 :
  NoDup F -> pmm_safe N F s (l1 ++ a :: l2) -> pmm_free a s = Ok tt s' ->
  pmm_safe N F s' (l1 ++ l2).
Proof.
  intros HndF [Har Hfl (low & high & Hl & Hh & HN & Hnd & HF)] Hrun.
  destruct (find_node (walk_fuel s) (pmm_free_list s) a s) as [n s1| | |] eqn:Hfind;
    try (revert Hrun; unfold pmm_free, mbind, M_bind, gets; rewrite Hfind; done).
  destruct (find_node_inv _ _ _ _ _ _ Hfind) as [-> [->|(Hz & Ha & pre & Hseg)]].
  { revert Hrun. unfold pmm_free, mbind, M_bind, gets. by rewrite Hfind. }
  destruct (arena_seg _ _ _ _ _ Har Hfl Hseg) as [?|Hn]; [done|].
  destruct (arena_node _ _ Har n Hn) as (_ & nx & a' & Hnx & Ha' & _).
  simplify_eq. rewrite (pmm_free_run _ _ _ _ Hfind Hz Hnx Ha) in Hrun. simplify_eq.
  assert (Hnot : (a ∉ low.*2) /\ (a ∉ high.*2)).
  { rewrite <- HF in HndF. apply NoDup_app in HndF as (_ & H1 & HndF).
    apply NoDup_app in HndF as (_ & H2 & _).
    set_solver. }
  assert (Hnl : n ∉ low.*1) by (intros ?; destruct Hnot; eauto using chain_addr).
  assert (Hnh : n ∉ high.*1) by (intros ?; destruct Hnot; eauto using chain_addr).
  rewrite fmap_app in HN, Hnd. apply NoDup_app in Hnd as (Hnd1 & Hnd2 & Hnd3).
  assert (HNl : forall x, x ∈ low.*1 -> x ∈ N) by set_solver.
  assert (HNh : forall x, x ∈ high.*1 -> x ∈ N) by set_solver.
  pose proof (arena_chain_head _ _ _ _ Hl HNl) as Hl0.
  pose proof (arena_chain_head _ _ _ _ Hh HNh) as Hh0.
  unfold free_state. destruct (TWO_GB <=? a);
    (split; cbn; [by apply arena_insert_addr, Hn; apply arena_insert_next|done|]).
  - exists low, ((n, a) :: high). split_and!.
    + by apply (push_keeps N).
    + by apply (push_chain N).
    + rewrite fmap_app. set_solver.
    + rewrite fmap_app. apply NoDup_app. split_and!; [done|set_solver|by constructor].
    + rewrite <- HF. cbn. solve_Permutation.
  - exists ((n, a) :: low), high. split_and!.
    + by apply (push_chain N).
    + by apply (push_keeps N).
    + rewrite fmap_app. set_solver.
    + cbn. rewrite fmap_app. constructor; [set_solver|]. by apply NoDup_app.
    + rewrite <- HF. cbn. solve_Permutation.
Qed.


End Pmm.
