(* ===== verification/PmmInit.v ===== *)
(** * mem/pmm.c at boot: carving the nodes out of RAM and handing them frames

    The lemmas on [pmm_add_block]: a block too small for the nodes still
    needed only adds nodes; the block that completes them goes on with page
    frames; later blocks only add frames. *)

From S2P Require Import Prelude KMath Machine Pmm.
Import KMath Machine Pmm.

Module PmmInit.

(** ** Building the free list

    [built s ns]: the nodes [ns] have been carved out, in this order, and none
    has a frame yet; the last one is [pmm_init_temp]. *)

Definition built (s : kstate) (ns : list Z) : Prop :=
  (ns = [] /\ pmm_low s = 0) \/
  exists init t, ns = init ++ [t] /\ t <> 0 /\ pmm_low s <> 0 /\
    pmm_init_temp s = t /\ seg (mem s) (pmm_low s) ((., 0) <$> init) t /\
    is_Some (mem s !! next_of t) /\ mem s !! addr_of t = Some 0.

(** [k] node slots from address [p] on. *)
Fixpoint node_run (p : Z) (k : nat) : list Z :=
  match k with O => [] | S k' => p :: node_run (p + sizeof_node) k' end.

(** The RAM behind the direct map holds both words of the node at [p]. *)
Definition node_backed (s : kstate) (p : Z) : Prop :=
  p <> 0 /\ is_Some (mem s !! next_of p) /\ is_Some (mem s !! addr_of p).

(** Everything but the free-list globals and the memory of the nodes [ns] is
    unchanged, and no word appears or disappears. *)
Record same_rest (ns : list Z) (s s' : kstate) : Prop := {
  rest_mem : forall w, (forall n, n ∈ ns -> w <> next_of n /\ w <> addr_of n) -> mem s' !! w = mem s !! w;
  rest_dom : dom (mem s') = dom (mem s);
  rest_high : pmm_high s' = pmm_high s;
  rest_free_list : pmm_free_list s' = pmm_free_list s;
  rest_pml4 : pml4_addr s' = pml4_addr s;
  rest_vmm : vmm_head s' = vmm_head s /\ vmm_tail s' = vmm_tail s /\ alloc_head s' = alloc_head s;
}.

Lemma same_rest_refl ns s : same_rest ns s s.
Proof. done. Qed.

Lemma same_rest_trans ns s1 s2 s3 : same_rest ns s1 s2 -> same_rest ns s2 s3 -> same_rest ns s1 s3.
Proof.
  intros [H1 ? ? ? ? ?] [H2 ? ? ? ? ?]. split; [|congruence..|naive_solver congruence].
  intros w Hw. by rewrite H2, H1.
Qed.

Lemma same_rest_more ns ns' s s' : (forall n, n ∈ ns -> n ∈ ns') -> same_rest ns s s' -> same_rest ns' s s'.
Proof. intros Hsub [H1 ? ? ? ? ?]. split; try done. intros w Hw. apply H1. auto. Qed.

(** A store to a node of [ns]. *)
Lemma same_rest_write ns s n w v :
  n ∈ ns -> w = next_of n \/ w = addr_of n -> is_Some (mem s !! w) -> same_rest ns s (set_mem (insert w v) s).
Proof.
  intros Hn Hw Hs. split; try done; cbn.
  - intros w' Hw'. apply lookup_insert_ne. intros ->. destruct (Hw' n Hn), Hw; congruence.
  - rewrite dom_insert_L. apply elem_of_dom in Hs. set_solver.
Qed.

Lemma node_backed_rest ns s s' p : same_rest ns s s' -> node_backed s p -> node_backed s' p.
Proof.
  intros [_ Hd _ _ _ _] (? & H1 & H2). split; [done|].
  apply elem_of_dom in H1, H2. by rewrite <- Hd, !elem_of_dom in *.
Qed.

Lemma fst_zeros (l : list Z) : ((., 0) <$> l : list (Z * Z)).*1 = l.
Proof. induction l; cbn; congruence. Qed.

(** Linking node [p] behind the last node [t] of a list. *)
Lemma seg_link m h init t p :
  seg m h ((., 0) <$> init) t -> m !! addr_of t = Some 0 -> t <> 0 ->
  apart (init ++ [t; p]) ->
  seg (<[addr_of p:=0]> (<[next_of t:=p]> m)) h ((., 0) <$> (init ++ [t])) p.
Proof.
  intros Hseg Hta Ht [Hnd Had]. rewrite fmap_app. apply seg_app. exists t.
  apply NoDup_app in Hnd as (_ & Hni & Hnd).
  assert (t <> p) by (apply NoDup_cons in Hnd as [? _]; set_solver).
  pose proof (Had t p ltac:(set_solver) ltac:(set_solver)).
  pose proof (Had p t ltac:(set_solver) ltac:(set_solver)).
  split.
  - apply seg_insert; [|apply seg_insert; [|done]]; rewrite fst_zeros; intros x Hx;
      pose proof (Had p x ltac:(set_solver) ltac:(set_solver));
      pose proof (Had x p ltac:(set_solver) ltac:(set_solver));
      pose proof (Had t x ltac:(set_solver) ltac:(set_solver));
      assert (x <> p /\ x <> t) by set_solver;
      unfold next_of, addr_of in *; lia.
  - cbn. split; [done|]. split; [done|]. exists p.
    rewrite (lookup_insert_ne _ (addr_of p) (next_of t)), lookup_insert_eq by done.
    rewrite !lookup_insert_ne; try done; unfold next_of, addr_of in *; lia.
Qed.

Lemma add_node_built s ns start p :
  built s ns -> p = start +64 KERNEL_OFFSET -> node_backed s p -> apart (ns ++ [p]) ->
  exists s', linked_list_add_node start s = Ok tt s' /\ built s' (ns ++ [p]) /\
    nodes_needed s' = nodes_needed s -64 1 /\ same_rest (ns ++ [p]) s s'.
Proof.
  intros Hb -> (Hz & Hn & Ha) Hap. set (p := start +64 KERNEL_OFFSET) in *.
  unfold linked_list_add_node, mbind, M_bind, gets, modify, rd, wr, mret, M_ret.
  assert (next_of p <> addr_of p) by (unfold next_of, addr_of; lia).
  destruct Hb as [[-> Hl]|(init & t & -> & Ht & Hl & Htemp & Hseg & Htn & Hta)].
  - rewrite Hl. cbn. destruct Ha as [a Ha]. fold p. rewrite Ha.
    eexists; split; [done|]. split; [|split; [done|]].
    2: { destruct (same_rest_write [p] s p (addr_of p) 0); [set_solver|by right|by eauto|]. by split. }
    right. exists [], p. cbn. rewrite lookup_insert_ne, lookup_insert_eq by done. done.
  - destruct (Z.eqb_spec (pmm_low s) 0); [done|]. cbn. fold p. rewrite Htemp.
    rewrite <- app_assoc in Hap. cbn in Hap. pose proof (proj2 Hap) as Had.
    assert (next_of t <> addr_of p) by (apply Had; set_solver).
    assert (next_of t <> next_of p).
    { apply proj1, NoDup_app in Hap as (_ & _ & [? _]%NoDup_cons). set_solver. }
    destruct Htn as [tn Htn]. rewrite Htn. cbn. rewrite lookup_insert_eq.
    cbn. rewrite lookup_insert_ne by done. destruct Ha as [a Ha]. rewrite Ha.
    eexists; split; [done|]. split; [|split; [done|]].
    + right. exists (init ++ [t]), p. cbn. split_and!; try done.
      * by apply seg_link.
      * by rewrite !lookup_insert_ne.
      * apply lookup_insert_eq.
    + eapply same_rest_trans; [apply (same_rest_write _ s t (next_of t) p); [set_solver|by left|by eauto]|].
      destruct (same_rest_write ((init ++ [t]) ++ [p]) (set_mem (insert (next_of t) p) s) p (addr_of p) 0);
        [set_solver|by right|cbn; rewrite lookup_insert_ne; eauto|by split].
Qed.

Lemma node_run_elem p k x : x ∈ node_run p k <-> exists i, (i < k)%nat /\ x = p + 16 * Z.of_nat i.
Proof.
  revert p. induction k as [|k IH]; intros p; cbn.
  - split; [set_solver|]. intros (i & ? & _). lia.
  - rewrite elem_of_cons, IH. unfold sizeof_node. split.
    + intros [->|(i & ? & ->)]; [exists 0%nat; lia|exists (S i); lia].
    + intros ([|i] & ? & ->); [left; lia|right; exists i; lia].
Qed.

Lemma node_run_length p k : length (node_run p k) = k.
Proof. revert p. induction k; intros p; cbn; auto. Qed.

(** The loop carves [min n c] nodes from a block with [c] free slots when [n]
    are needed, and returns the address of the last slot used, or the end. *)
Lemma carve_nodes_built c : forall n fuel cur end_ s ns,
  built s ns -> nodes_needed s = Z.of_nat n -> (0 < Z.of_nat n < W64) ->
  (n < fuel)%nat -> cur + 16 * (Z.of_nat c - 1) < end_ <= cur + 16 * Z.of_nat c ->
  0 <= cur -> cur + 16 * Z.of_nat (n `min` c) <= 2147483648 ->
  let run := node_run (cur + KERNEL_OFFSET) (n `min` c) in
  Forall (node_backed s) run -> apart (ns ++ run) ->
  exists cur' s', carve_nodes fuel cur end_ s = Ok cur' s' /\ built s' (ns ++ run) /\
    nodes_needed s' = Z.of_nat (n - c) /\ same_rest (ns ++ run) s s' /\
    ((n <= c)%nat -> cur' = cur + 16 * (Z.of_nat n - 1) /\ cur' < end_) /\
    ((c < n)%nat -> end_ <= cur').
Proof.
  induction c as [|c IH]; intros n [|fuel] cur end_ s ns Hb Hn Hpos Hf Hend Hcur Hw run Hback Hap;
    try lia; cbn -[Z.of_nat].
  - destruct (Z.ltb_spec cur end_); [lia|]. exists cur, s. unfold run.
    rewrite Nat.min_0_r, app_nil_r. split_and!; try done; try lia.
  - destruct (Z.ltb_spec cur end_); [|lia].
    destruct n as [|n]; [lia|]. unfold run in *. cbn [Nat.min node_run] in *.
    apply Forall_cons in Hback as [Hbp Hback].
    assert (Hp : cur + KERNEL_OFFSET = cur +64 KERNEL_OFFSET)
      by (rewrite u64_small; unfold KERNEL_OFFSET; lia).
    destruct (add_node_built s ns cur _ Hb Hp Hbp) as (s1 & Hr & Hb1 & Hn1 & Hs1).
    { eapply apart_sublist; [|exact Hap]. solve_submseteq. }
    unfold mbind, M_bind, gets. rewrite Hr, Hn1, Hn.
    replace (Z.of_nat (S n) -64 1) with (Z.of_nat n) by (rewrite u64_small; lia).
    destruct (Z.eqb_spec (Z.of_nat n) 0) as [Hz|Hz].
    + assert (n = 0%nat) as -> by lia. exists cur, s1. rewrite Hn1, Hn. cbn.
      split_and!; try done; try lia.
    + rewrite (u64_small (cur + sizeof_node)) by (unfold sizeof_node; lia).
      replace (cur + KERNEL_OFFSET + sizeof_node) with (cur + sizeof_node + KERNEL_OFFSET) in * by lia.
      destruct (IH n fuel (cur + sizeof_node) end_ s1 (ns ++ [cur + KERNEL_OFFSET]))
        as (cur' & s2 & Hr2 & Hb2 & Hn2 & Hs2 & Hc1 & Hc2); try done; unfold sizeof_node in *; try lia.
      { rewrite Hn1, Hn, u64_small; lia. }
      { eapply Forall_impl; [done|]. intros x. by eapply node_backed_rest. }
      { by rewrite <- app_assoc. }
      exists cur', s2. rewrite <- app_assoc in Hb2, Hs2. split_and!; try done.
      * eapply same_rest_trans; [|exact Hs2]. eapply same_rest_more, Hs1. set_solver.
      * intros. destruct Hc1; lia.
      * intros. apply Hc2. lia.
Qed.


(** ** Handing frames to the nodes

    [filling s pre l]: all nodes are carved out; those of [pre] have their
    frame, those of [l], from [pmm_init_temp] on, are still to get one. *)

Record filling (s : kstate) (pre l : list (Z * Z)) : Prop := {
  fill_needed : nodes_needed s = 0;
  fill_pre : seg (mem s) (pmm_low s) pre (pmm_init_temp s);
  fill_todo : chain (mem s) (pmm_init_temp s) l;
  fill_apart : apart (pre ++ l).*1;
}.

(** [k] consecutive page frames from [i] on. *)
Fixpoint frame_run (i : Z) (k : nat) : list Z :=
  match k with O => [] | S k' => i :: frame_run (i + PAGE_SIZE) k' end.

(** [c] page starts of the block lie below [end_]. *)
Definition page_count (i end_ : Z) (c : nat) : Prop :=
  i + 4096 * (Z.of_nat c - 1) < end_ <= i + 4096 * Z.of_nat c \/ (c = 0%nat /\ end_ <= i).

Lemma fill_nodes_filling c : forall fuel i end_ s pre l,
  filling s pre l -> (length l < fuel)%nat -> page_count i end_ c ->
  0 <= i -> end_ + PAGE_SIZE <= W64 ->
  exists s', fill_nodes fuel i end_ s = Ok tt s' /\ same_rest l.*1 s s' /\
    filling s' (pre ++ zip (take c l.*1) (frame_run i c)) (drop c l).
Proof.
  unfold page_count. induction c as [|c IH]; intros [|fuel] i end_ s pre l [Hn Hpre Hl Hap] Hf Hc Hi He;
    try lia; cbn; unfold mbind, M_bind, gets.
  - destruct (Z.ltb_spec i end_); [lia|]. cbn. exists s.
    by rewrite app_nil_r.
  - destruct (Z.ltb_spec i end_); [|lia].
    destruct l as [|[n a] l]; cbn in Hl.
    + rewrite Hl. cbn. exists s. rewrite app_nil_r. split_and!; [done..|].
      by split.
    + destruct Hl as (Ht & Hz & nx & Hnx & Ha & Hl). rewrite Ht.
      destruct (Z.eqb_spec n 0); [done|]. cbn.
      assert (next_of n <> addr_of n) by (unfold next_of, addr_of; lia).
      unfold wr, rd, modify. rewrite Ha. cbn. rewrite lookup_insert_ne, Hnx by done.
      set (s1 := set_pmm_init_temp nx (set_mem (insert (addr_of n) i) s)).
      rewrite (u64_small (i + PAGE_SIZE)) by (unfold PAGE_SIZE in *; lia).
      destruct (IH fuel (i + PAGE_SIZE) end_ s1 (pre ++ [(n, i)]) l) as (s2 & Hr & Hs & Hfil).
      * split; cbn; [done|..].
        -- apply seg_app. exists n. rewrite Ht in Hpre. split; [seg_keep n Hap|].
           cbn. split; [done|]. split; [done|]. exists nx.
           by rewrite lookup_insert_ne, lookup_insert_eq.
        -- unfold chain in *. seg_keep n Hap.
        -- by rewrite <- app_assoc, fmap_app in *.
      * cbn in Hf. lia.
      * unfold PAGE_SIZE. lia.
      * unfold PAGE_SIZE. lia.
      * done.
      * exists s2. split; [done|]. split.
        -- eapply same_rest_trans; [|eapply same_rest_more, Hs; set_solver].
           destruct (same_rest_write (n :: l.*1) s n (addr_of n) i); [set_solver|by right|by eauto|by split].
        -- rewrite <- app_assoc in Hfil. apply Hfil.
Qed.


(** ** A whole call of [pmm_add_block] *)

(** The address rounded up to a page boundary, as the code computes it. *)
Lemma page_up_land start :
  0 <= start < W64 - PAGE_SIZE ->
  Z.land (start +64 PAGE_SIZE -64 1) (u64 (Z.lnot (PAGE_SIZE - 1)))
    = (start + 4095) / 4096 * 4096.
Proof.
  unfold PAGE_SIZE. intros H.
  rewrite (u64_small (start + 4096)), (u64_small (start + 4096 - 1)) by lia.
  change (u64 (Z.lnot (4096 - 1))) with (2 ^ 64 - 2 ^ 12).
  rewrite land_block_mask by lia. change (2 ^ 12) with 4096. f_equal. f_equal. lia.
Qed.

Lemma add_block_filling depth s start end_ pre l c :
  filling s pre l -> 0 <= start < W64 - PAGE_SIZE -> end_ + PAGE_SIZE <= W64 ->
  page_count ((start + 4095) / 4096 * 4096) end_ c ->
  exists s', pmm_add_block_rec (S depth) start end_ s = Ok tt s' /\ same_rest l.*1 s s' /\
    filling s' (pre ++ zip (take c l.*1) (frame_run ((start + 4095) / 4096 * 4096) c)) (drop c l).
Proof.
  intros Hf Hs He Hc. cbn [pmm_add_block_rec]. unfold mbind, M_bind, gets.
  rewrite (fill_needed _ _ _ Hf), Z.eqb_refl, page_up_land by done.
  apply fill_nodes_filling; [done| |done| |done].
  - eapply chain_fuel, Hf.
  - dlia.
Qed.

(** The list is complete: its last [next] is cleared and the frames start. *)
Lemma built_finish s ns :
  built s ns -> ns <> [] -> apart ns -> nodes_needed s = 0 ->
  exists t tn, pmm_init_temp s = t /\ mem s !! next_of t = Some tn /\
    let s' := set_pmm_init_temp (pmm_low s) (set_mem (insert (next_of t) 0) s) in
    same_rest ns s s' /\ filling s' [] ((., 0) <$> ns).
Proof.
  intros [[-> _]|(init & t & -> & Ht & Hl & Htemp & Hseg & [tn Htn] & Hta)] Hne Hap Hn; [done|].
  exists t, tn. split; [done|]. split; [done|]. cbn. split.
  { destruct (same_rest_write (init ++ [t]) s t (next_of t) 0); [set_solver|by left|by eauto|by split]. }
  assert (next_of t <> addr_of t) by (unfold next_of, addr_of; lia).
  split; cbn; [done..| |by rewrite fst_zeros].
  rewrite fmap_app. apply seg_app. exists t. split.
  - apply (seg_insert_node _ _ _ _ t); [|by left|done]. rewrite fst_zeros.
    eapply apart_perm; [|done]. solve_Permutation.
  - cbn. split; [done|]. split; [done|]. exists 0.
    by rewrite lookup_insert_eq, lookup_insert_ne.
Qed.

Lemma add_block_partial s start end_ ns n c :
  built s ns -> nodes_needed s = Z.of_nat n -> 0 < Z.of_nat n < W64 -> (c < n)%nat ->
  start + 16 * (Z.of_nat c - 1) < end_ <= start + 16 * Z.of_nat c ->
  0 <= start -> start + 16 * Z.of_nat c <= TWO_GB ->
  let run := node_run (start + KERNEL_OFFSET) c in
  Forall (node_backed s) run -> apart (ns ++ run) ->
  exists s', pmm_add_block start end_ s = Ok tt s' /\ built s' (ns ++ run) /\
    nodes_needed s' = Z.of_nat (n - c) /\ same_rest (ns ++ run) s s'.
Proof.
  intros Hb Hn Hpos Hlt Hc Hs Hw run Hback Hap.
  pose proof (carve_nodes_built c n (S n) start end_ s ns) as H. unfold TWO_GB in *. rewrite Nat.min_r in H by lia.
  destruct H as (cur & s' & Hr & Hb' & Hn' & Hs' & _ & _); [assumption || lia..|].
  exists s'. split_and!; try done.
  unfold pmm_add_block. cbn [pmm_add_block_rec]. unfold mbind, M_bind, gets. rewrite Hn.
  destruct (Z.eqb_spec (Z.of_nat n) 0); [lia|]. rewrite Nat2Z.id, Hr, Hn'.
  destruct (Z.eqb_spec (Z.of_nat (n - c)) 0); [lia|]. done.
Qed.

Lemma add_block_complete s start end_ ns n c k :
  built s ns -> nodes_needed s = Z.of_nat n -> 0 < Z.of_nat n < W64 -> (n <= c)%nat ->
  start + 16 * (Z.of_nat c - 1) < end_ <= start + 16 * Z.of_nat c ->
  0 <= start -> start + 16 * Z.of_nat n <= TWO_GB -> end_ + PAGE_SIZE <= W64 ->
  let nodes := ns ++ node_run (start + KERNEL_OFFSET) n in
  let first := (start + 16 * (Z.of_nat n - 1) + 4095) / 4096 * 4096 in
  Forall (node_backed s) (node_run (start + KERNEL_OFFSET) n) -> apart nodes ->
  page_count first end_ k ->
  exists s', pmm_add_block start end_ s = Ok tt s' /\ same_rest nodes s s' /\
    filling s' (zip (take k nodes) (frame_run first k)) ((., 0) <$> drop k nodes).
Proof.
  intros Hb Hn Hpos Hle Hc Hs Hw He nodes first Hback Hap Hk.
  pose proof (carve_nodes_built c n (S n) start end_ s ns) as H. unfold TWO_GB in *. rewrite Nat.min_l in H by lia.
  destruct H as (cur & s1 & Hr & Hb1 & Hn1 & Hs1 & Hcur & _); [assumption || lia..|].
  destruct (Hcur Hle) as [-> Hlt].
  assert (Hn0 : nodes_needed s1 = 0) by lia.
  destruct (built_finish s1 nodes) as (t & tn & Ht & Htn & Hs2 & Hfil); try done.
  { unfold nodes. destruct n; [lia|]. by destruct ns. }
  unfold TWO_GB in *.
  edestruct (add_block_filling 0 _ (start + 16 * (Z.of_nat n - 1)) end_ _ _ k Hfil)
    as (s3 & Hr3 & Hs3 & Hfil3); [unfold PAGE_SIZE in *; lia..|exact Hk|].
  exists s3. split_and!.
  - unfold pmm_add_block. cbn [pmm_add_block_rec]. unfold mbind, M_bind, gets. rewrite Hn.
    destruct (Z.eqb_spec (Z.of_nat n) 0); [lia|]. rewrite Nat2Z.id, Hr, Hn0.
    change (negb (0 =? 0)) with false. cbv iota. unfold wr, modify. rewrite Ht, Htn.
    destruct (Z.ltb_spec (start + 16 * (Z.of_nat n - 1)) end_); [|lia]. apply Hr3.
  - rewrite fst_zeros in Hs3. eapply same_rest_trans; [exact Hs1|]. by eapply same_rest_trans.
  - by rewrite fst_zeros, <- fmap_drop in Hfil3.
Qed.


(** ** [pmm_init_final] and [pmm_clear_blocks]: cutting a list *)

(** Redirecting the last [next] of the first part of a list. *)
Lemma seg_cut m p l1 n a l2 v q :
  seg m p (l1 ++ (n, a) :: l2) q -> apart (l1 ++ (n, a) :: l2).*1 ->
  exists nx, m !! next_of n = Some nx /\
    seg (<[next_of n:=v]> m) p (l1 ++ [(n, a)]) v /\ seg (<[next_of n:=v]> m) nx l2 q.
Proof.
  intros Hs Hap. apply seg_app in Hs as (r & H1 & (-> & Hz & nx & Hn & Ha & H2)).
  exists nx. split; [done|]. split; [|seg_keep n Hap].
  apply seg_app. exists n. split; [seg_keep n Hap|]. cbn.
  split; [done|]. split; [done|]. exists v.
  rewrite lookup_insert_eq, lookup_insert_ne by (unfold next_of, addr_of; lia). done.
Qed.

Lemma split_at_2g_run fuel s p l1 n a h ah l2 :
  seg (mem s) p (l1 ++ (n, a) :: (h, ah) :: l2) 0 ->
  Forall (fun x => x < TWO_GB) (tail (l1 ++ [(n, a)])).*2 -> TWO_GB <= ah ->
  (length l1 < fuel)%nat ->
  split_at_2g fuel p s = Ok tt (set_mem (insert (next_of n) 0) (set_pmm_high h s)).
Proof.
  revert p fuel. induction l1 as [|[n' a'] l1 IH]; intros p [|fuel]; cbn -[TWO_GB]; try lia;
    intros (-> & Hz & nx & Hn & Ha & Hs) Hlow Hhigh Hf; unfold mbind, M_bind, rd;
    rewrite (proj2 (Z.eqb_neq _ _) Hz), Hn.
  - destruct Hs as (-> & Hz' & nx' & Hn' & Ha' & Hs').
    destruct (Z.eqb_spec h 0); [done|]. rewrite Ha'.
    destruct (Z.leb_spec TWO_GB ah); [|lia]. unfold modify, wr. cbn. by rewrite Hn.
  - assert (exists a1, nx <> 0 /\ mem s !! addr_of nx = Some a1 /\ a1 < TWO_GB) as (a1 & Hz1 & Ha1 & Hlt).
    { destruct l1 as [|[n1 a1] l1]; cbn in *; apply Forall_cons in Hlow as [Hlow _];
        destruct Hs as (-> & ? & ? & ? & ? & _); eauto. }
    destruct (Z.eqb_spec nx 0); [done|]. rewrite Ha1.
    destruct (Z.leb_spec TWO_GB a1); [lia|]. apply IH; [done| |done|lia].
    destruct l1 as [|[n1 a1'] l1]; cbn in *; [constructor|]. by apply Forall_cons in Hlow as [_ ?].
Qed.

Lemma clear_search_skip fuel s p l q st e sn :
  seg (mem s) p l q -> Forall (fun a => a < e) l.*2 ->
  clear_search (length l + fuel) p st e sn s =
  clear_search fuel q st e
    (fold_left (fun acc '(n, a) => if a <=? st -64 PAGE_SIZE then n else acc) l sn) s.
Proof.
  revert p sn. induction l as [|[n a] l IH]; intros p sn; cbn -[PAGE_SIZE]; [by intros ->|].
  intros (-> & Hz & nx & Hn & Ha & Hs) Hlt. apply Forall_cons in Hlt as [Hlt Hlt'].
  destruct (Z.eqb_spec n 0); [done|]. unfold mbind, M_bind, rd. rewrite Ha.
  destruct (Z.leb_spec e a); [lia|]. rewrite Hn. by rewrite (IH nx).
Qed.


Lemma frame_run_length i k : length (frame_run i k) = k.
Proof. revert i. induction k; intros i; cbn; auto. Qed.

Lemma filled_nodes (nodes : list Z) first k :
  (zip (take k nodes) (frame_run first k) ++ ((., 0) <$> drop k nodes)).*1 = nodes.
Proof.
  rewrite fmap_app, fst_zeros, fst_zip, take_drop; [done|].
  rewrite frame_run_length, length_take. lia.
Qed.


(** The search of [pmm_clear_blocks] stops at the first frame at or above
    [e], with the last node in front of the reserved range. *)
Lemma clear_search_run s p l1 n a l2 ne ae l3 st e :
  seg (mem s) p (l1 ++ (n, a) :: l2 ++ (ne, ae) :: l3) 0 ->
  PAGE_SIZE <= st <= e -> e < W64 -> Forall (fun x => x < e) l1.*2 -> a + PAGE_SIZE <= st ->
  Forall (fun x => st < x + PAGE_SIZE /\ x < e) l2.*2 -> e <= ae ->
  clear_search (walk_fuel s) p st e 0 s = Ok (n, ne) s.
Proof.
  unfold PAGE_SIZE. intros Hc Hst He H1 Ha H2 Hae. pose proof (chain_fuel _ _ _ Hc) as Hf.
  set (front := l1 ++ (n, a) :: l2).
  assert (l1 ++ (n, a) :: l2 ++ (ne, ae) :: l3 = front ++ (ne, ae) :: l3) as E
    by (unfold front; by rewrite <- app_assoc).
  rewrite E in Hc, Hf. apply seg_app in Hc as (r & Hfr & (-> & Hz & nx & Hn & Hae' & _)).
  rewrite length_app in Hf. cbn in Hf.
  replace (walk_fuel s) with (length front + S (walk_fuel s - length front - 1))%nat by lia.
  rewrite (clear_search_skip _ _ _ _ _ _ _ _ Hfr).
  2:{ unfold front. rewrite fmap_app. apply Forall_app. split; [done|]. cbn. constructor; [lia|].
      eapply Forall_impl; [exact H2|]. naive_solver. }
  assert (st -64 4096 = st - 4096) as Est by (rewrite u64_small; lia).
  assert (forall acc, fold_left (fun acc '(n, a) => if a <=? st -64 PAGE_SIZE then n else acc) l2 acc = acc)
    as Hl2.
  { unfold PAGE_SIZE. rewrite Est. clear - H2. induction l2 as [|[x y] l2 IH]; intros acc; cbn; [done|].
    apply Forall_cons in H2 as [[Hx _] H2]. cbn in Hx. destruct (Z.leb_spec y (st - 4096)); [lia|]. by apply IH. }
  unfold front. rewrite fold_left_app. cbn. rewrite Hl2.
  unfold PAGE_SIZE. rewrite Est. destruct (Z.leb_spec a (st - 4096)); [|lia].
  destruct (Z.eqb_spec ne 0); [done|]. unfold mbind, M_bind, rd. rewrite Hae'.
  destruct (Z.leb_spec ae (st - 4096)); [lia|]. destruct (Z.leb_spec e ae); [done|lia].
Qed.

End PmmInit.
