(* ===== verification/PmmProps.v ===== *)
(** * Properties of the physical frame allocator (mem/pmm.c)

    The statements that make [pmm_alloc_low], [pmm_free], [pmm_add_block],
    [pmm_init_final] and [pmm_clear_blocks] correct, and the two states in
    which [pmm_free] goes wrong, each with a concrete witness. *)

From S2P Require Import Prelude KMath Machine Pmm PmmInit.
Import KMath Machine Pmm PmmInit.

Module PmmProps.

(** ** A concrete machine for the witnesses *)

(** [n] zeroed 64-bit words from address [base] on. *)
Definition ram (base : Z) (n : nat) : gmap Z Z :=
  list_to_map ((fun i => (base + 8 * Z.of_nat i, 0)) <$> seq 0 n).

Definition boot_state (m : gmap Z Z) : kstate := KState m 0 0 0 0 0 0 0 0 [] 0 0 0.

(** The state an operation leaves (the initial one if it does not return). *)
Definition after {A} (c : K A) (s : kstate) : kstate :=
  match c s with Ok _ s' => s' | _ => s end.

(** Two nodes in front of the low list, for frames 0x3000 and 0x4000. *)
Definition demo_state : kstate :=
  after (pmm_add_block 0x1000 0x4000)
    (set_nodes_needed 2 (boot_state (ram (0x1000 + KERNEL_OFFSET) 6))).

Definition node0 : Z := 0x1000 + KERNEL_OFFSET.
Definition node1 : Z := 0x1010 + KERNEL_OFFSET.

Lemma demo_arena : arena {[node0; node1]} (mem demo_state).
Proof.
  split.
  - intros n. rewrite elem_of_union, !elem_of_singleton.
    intros [->| ->]; (split; [by vm_compute|]);
      [exists node1, 0x2000|exists 0, 0x3000]; (split; [by vm_compute|]);
      (split; [by vm_compute|]); set_solver.
  - intros n n'. rewrite !elem_of_union, !elem_of_singleton.
    intros [->| ->] [->| ->]; by vm_compute.
Qed.

Lemma demo_chain : chain (mem demo_state) (pmm_low demo_state) [(node0, 0x2000); (node1, 0x3000)].
Proof.
  split; [by vm_compute|]. split; [by vm_compute|]. exists node1.
  split; [by vm_compute|]. split; [by vm_compute|].
  split; [done|]. split; [by vm_compute|]. exists 0. by split; [vm_compute|split; [vm_compute|]].
Qed.

Lemma demo_inv : pmm_inv demo_state [(node0, 0x2000); (node1, 0x3000)] [] [] 0.
Proof.
  split; [apply demo_chain|done..|]. vdecide.
Qed.


(** ** Allocation and freeing *)

Lemma safe_steps N F x y :
  NoDup F -> rtc pmm_step x y -> pmm_safe N F x.1 x.2 -> pmm_safe N F y.1 y.2.
Proof.
  intros HF. induction 1 as [|x y z Hstep _ IH]; [done|]. intros Hx. apply IH.
  destruct Hstep; cbn in *; eauto using safe_alloc_low, safe_pop_high, safe_free.
Qed.

(** C1. If the frames given at boot are distinct, then however allocations and
    frees of held frames that return are interleaved, the allocator's two free lists and the frames its callers hold stay a
    permutation of the frames it was given at boot: no frame is handed out
    twice, none is both free and in use, none disappears. *)
Theorem pmm_frames_conserved N F s s' live :
  NoDup F -> pmm_safe N F s [] -> rtc pmm_step (s, []) (s', live) ->
  NoDup live /\ exists low high,
    chain (mem s') (pmm_low s') low /\ chain (mem s') (pmm_high s') high /\
    NoDup (low.*2 ++ high.*2 ++ live) /\ low.*2 ++ high.*2 ++ live ≡ₚ F.
Proof.
  intros HF Hs Hr. enough (pmm_safe N F s' live) as [_ _ (low & high & ? & ? & _ & _ & Hp)].
  { assert (NoDup (low.*2 ++ high.*2 ++ live)) as Hnd by (by rewrite Hp).
    split; [|by exists low, high].
    apply NoDup_app in Hnd as (_ & _ & Hnd). by apply NoDup_app in Hnd as (_ & _ & ?). }
  by apply (safe_steps N F _ _ HF Hr).
Qed.

Lemma pmm_frames_conserved_witness :
  let s1 := after pmm_alloc_low demo_state in
  let s2 := after pmm_alloc_low s1 in
  let s' := after (pmm_free 0x3000) s2 in
  rtc pmm_step (demo_state, []) (s', [0x2000]) /\
    NoDup [0x2000] /\ exists low high,
      chain (mem s') (pmm_low s') low /\ chain (mem s') (pmm_high s') high /\
      NoDup (low.*2 ++ high.*2 ++ [0x2000]) /\ low.*2 ++ high.*2 ++ [0x2000] ≡ₚ [0x2000; 0x3000].
Proof.
  intros s1 s2 s'. assert (rtc pmm_step (demo_state, []) (s', [0x2000])) as Hr.
  { eapply rtc_l; [apply (step_alloc_low _ 0x2000 s1); vm_compute; reflexivity|].
    eapply rtc_l; [apply (step_alloc_low _ 0x3000 s2); vm_compute; reflexivity|].
    eapply rtc_l; [apply (step_free _ 0x3000 s' [] _); vm_compute; reflexivity|]. apply rtc_refl. }
  split; [exact Hr|].
  apply (pmm_frames_conserved {[node0; node1]} [0x2000; 0x3000] demo_state); [vdecide| |exact Hr].
  split; [apply demo_arena|by left|].
  exists [(node0, 0x2000); (node1, 0x3000)], [].
  split; [apply demo_chain|]. split; [done|]. split; [set_solver|]. split; [vdecide|done].
Defined.

(** A held frame below 2 GiB that is on the list of used nodes can be
    freed: [pmm_free] returns, the frame is the next one allocated, and both
    steps keep the lists well formed. *)
Theorem pmm_free_then_alloc s low high pre n addr post q :
  pmm_inv s low high (pre ++ (n, addr) :: post) q -> addr ∉ pre.*2 -> addr < TWO_GB ->
  exists s1 s2, pmm_free addr s = Ok tt s1 /\ pmm_alloc_low s1 = Ok addr s2 /\
    pmm_inv s1 ((n, addr) :: low) high pre n /\ pmm_inv s2 low high ((n, addr) :: pre) n.
Proof.
  intros Hinv Hpre Hlow. destruct (pmm_free_inv _ _ _ _ _ _ _ _ Hinv Hpre) as [Hr Hi].
  destruct (Z.leb_spec TWO_GB addr); [lia|].
  destruct (pmm_alloc_low_inv _ _ _ _ _ _ _ Hi) as (nx & _ & Hr2 & Hi2). eauto 10.
Qed.

(** The state after both frames of the demo machine have been allocated. *)
Definition demo_state2 : kstate :=
  after (pmm_alloc_low;; pmm_alloc_low) demo_state.

Lemma demo_inv2 : pmm_inv demo_state2 [] [] [(node1, 0x3000); (node0, 0x2000)] 0.
Proof.
  destruct (pmm_alloc_low_inv _ _ _ _ _ _ _ demo_inv) as (n1 & _ & R1 & I1).
  destruct (pmm_alloc_low_inv _ _ _ _ _ _ _ I1) as (n2 & _ & R2 & I2).
  unfold demo_state2, after, mbind, M_bind. rewrite R1, R2. exact I2.
Qed.

Lemma pmm_free_then_alloc_witness :
  exists s1 s2, pmm_free 0x2000 demo_state2 = Ok tt s1 /\ pmm_alloc_low s1 = Ok 0x2000 s2 /\
    pmm_inv s1 [(node0, 0x2000)] [] [(node1, 0x3000)] node0 /\
    pmm_inv s2 [] [] [(node0, 0x2000); (node1, 0x3000)] node0.
Proof.
  apply (pmm_free_then_alloc demo_state2 [] [] [(node1, 0x3000)] node0 0x2000 [] 0);
    [apply demo_inv2|vdecide|reflexivity].
Defined.


(** Freeing a frame cuts the list of used nodes at its node, which now
    leads into the free list: a frame that was allocated before it can no
    longer be freed, [pmm_free] panics although the frame is held. *)
Theorem pmm_free_forgets_older s low high pre n b post a :
  pmm_inv s low high (pre ++ (n, b) :: post) 0 -> b < TWO_GB ->
  a ∈ post.*2 -> NoDup (low.*2 ++ (pre ++ (n, b) :: post).*2) ->
  exists s1, pmm_free b s = Ok tt s1 /\
    pmm_free a s1 = Panic "pmm: free: cannot find node!".
Proof.
  intros Hinv Hb Ha Hnd.
  apply NoDup_app in Hnd as (_ & Hl & Hnd). rewrite fmap_app in Hl, Hnd. cbn in Hl, Hnd.
  apply NoDup_app in Hnd as (_ & Hp & Hnd). apply NoDup_cons in Hnd as [Hn _].
  assert (b ∉ pre.*2) as Hpre by set_solver.
  destruct (pmm_free_inv _ _ _ _ _ _ _ _ Hinv Hpre) as [Hr Hi].
  destruct (Z.leb_spec TWO_GB b); [lia|]. exists (free_state n b s). split; [done|].
  set (s1 := free_state n b s) in *.
  assert (chain (mem s1) (pmm_free_list s1) (pre ++ (n, b) :: low)) as Hc.
  { apply seg_app. exists n. split; [apply Hi|]. pose proof (inv_low _ _ _ _ _ Hi) as Hc'.
    assert (pmm_low s1 = n) as E by apply Hc'. rewrite E in Hc'. exact Hc'. }
  assert (find_node (walk_fuel s1) (pmm_free_list s1) a s1 = Ok 0 s1) as Hf.
  { eapply find_node_miss; [exact Hc| |by eapply chain_fuel]. rewrite fmap_app. set_solver. }
  unfold pmm_free, mbind, M_bind, gets. by rewrite Hf.
Qed.

Lemma pmm_free_forgets_older_witness :
  exists s1, pmm_free 0x3000 demo_state2 = Ok tt s1 /\
    pmm_free 0x2000 s1 = Panic "pmm: free: cannot find node!".
Proof.
  apply (pmm_free_forgets_older demo_state2 [] [] [] node1 0x3000 [(node0, 0x2000)] 0x2000);
    [apply demo_inv2|reflexivity|vdecide|vdecide].
Defined.

(** Freeing the most recently allocated frame and allocating it again
    links its node to itself; from then on the search of [pmm_free] for any
    other frame runs forever, whatever the fuel. *)
Theorem pmm_free_realloc_loops s low high n b post a :
  pmm_inv s low high ((n, b) :: post) 0 -> b < TWO_GB -> a <> b ->
  exists s1 s2, pmm_free b s = Ok tt s1 /\ pmm_alloc_low s1 = Ok b s2 /\
    forall fuel, find_node fuel (pmm_free_list s2) a s2 = OutOfFuel.
Proof.
  intros Hinv Hb Hab.
  destruct (pmm_free_inv s low high [] n b post 0) as [Hr Hi]; [done|set_solver|].
  destruct (Z.leb_spec TWO_GB b); [lia|].
  destruct (pmm_alloc_low_inv _ _ _ _ _ _ _ Hi) as (nx & _ & Hr2 & Hi2).
  eexists _, _. split; [done|]. split; [done|].
  pose proof (inv_used _ _ _ _ _ Hi) as Hfl. cbn in Hfl.
  destruct (inv_used _ _ _ _ _ Hi2) as (E & Hz & nx' & Hn & Ha & Hs). cbn in Hs. subst nx'.
  rewrite E. intros fuel. induction fuel as [|fuel IH]; cbn; [done|].
  destruct (Z.eqb_spec n 0); [done|]. unfold mbind, M_bind, rd. rewrite Ha.
  destruct (Z.eqb_spec b a); [congruence|]. rewrite Hn. apply IH.
Qed.

Lemma pmm_free_realloc_loops_witness :
  exists s1 s2, pmm_free 0x3000 demo_state2 = Ok tt s1 /\ pmm_alloc_low s1 = Ok 0x3000 s2 /\
    forall fuel, find_node fuel (pmm_free_list s2) 0x2000 s2 = OutOfFuel.
Proof.
  apply (pmm_free_realloc_loops demo_state2 [] [] node1 0x3000 [(node0, 0x2000)] 0x2000);
    [apply demo_inv2|reflexivity|vdecide].
Defined.

(** ** Boot *)

(** The block that completes the node list: all nodes still needed are
    carved from its start, the list is closed, and the nodes, from the first
    one on, get the consecutive page frames that follow the last node in the
    block; nodes for which the block has no page left keep frame 0. *)
Theorem pmm_add_block_completes s start end_ ns n c k :
  built s ns -> nodes_needed s = Z.of_nat n -> 0 < Z.of_nat n < W64 -> (n <= c)%nat ->
  start + 16 * (Z.of_nat c - 1) < end_ <= start + 16 * Z.of_nat c ->
  0 <= start -> start + 16 * Z.of_nat n <= TWO_GB -> end_ + PAGE_SIZE <= W64 ->
  let nodes := ns ++ node_run (start + KERNEL_OFFSET) n in
  let first := (start + 16 * (Z.of_nat n - 1) + 4095) / 4096 * 4096 in
  Forall (node_backed s) (node_run (start + KERNEL_OFFSET) n) -> apart nodes ->
  page_count first end_ k ->
  exists s', pmm_add_block start end_ s = Ok tt s' /\ nodes_needed s' = 0 /\
    chain (mem s') (pmm_low s')
      (zip (take k nodes) (frame_run first k) ++ ((., 0) <$> drop k nodes)).
Proof.
  intros. edestruct add_block_complete as (s' & Hr & _ & [Hn Hp Hl _]); try done.
  exists s'. split; [exact Hr|]. split; [exact Hn|]. apply seg_app. eauto.
Qed.

Lemma pmm_add_block_completes_witness :
  exists s', pmm_add_block 0x1000 0x4000
      (set_nodes_needed 2 (boot_state (ram (0x1000 + KERNEL_OFFSET) 6))) = Ok tt s' /\
    nodes_needed s' = 0 /\
    chain (mem s') (pmm_low s')
      (zip (take 2 [node0; node1]) (frame_run 0x2000 2) ++ ((., 0) <$> drop 2 [node0; node1])).
Proof.
  apply (pmm_add_block_completes
    (set_nodes_needed 2 (boot_state (ram (0x1000 + KERNEL_OFFSET) 6))) 0x1000 0x4000 [] 2 768 2);
    try done; try lia.
  - by left.
  - cbn [node_run].
    do 2 (constructor; [split; [done|split; eexists; vm_compute; reflexivity]|]). constructor.
  - vdecide.
  - left. vm_compute. split; congruence.
Defined.


(** A further block, once the node list is complete, only supplies page
    frames: the nodes still without one get the pages of the block from the
    first page boundary on, in order, and the nodes served before keep theirs. *)
Theorem pmm_add_block_extends s start end_ pre l c :
  filling s pre l -> 0 <= start < W64 - PAGE_SIZE -> end_ + PAGE_SIZE <= W64 ->
  let first := (start + 4095) / 4096 * 4096 in
  page_count first end_ c ->
  exists s', pmm_add_block start end_ s = Ok tt s' /\
    filling s' (pre ++ zip (take c l.*1) (frame_run first c)) (drop c l).
Proof.
  intros Hf Hs He first Hc.
  destruct (add_block_filling 1 s start end_ pre l c Hf Hs He Hc) as (s' & ? & _ & ?). eauto.
Qed.

Lemma pmm_add_block_extends_witness :
  exists s', pmm_add_block 0x7010 0x9000 demo_state = Ok tt s' /\
    filling s' ([(node0, 0x2000); (node1, 0x3000)] ++ zip (take 1 []) (frame_run 0x8000 1)) (drop 1 []).
Proof.
  apply (pmm_add_block_extends demo_state 0x7010 0x9000 [(node0, 0x2000); (node1, 0x3000)] [] 1);
    [|unfold PAGE_SIZE; lia..|left; vm_compute; split; congruence].
  split; [done|apply demo_chain|done|vdecide].
Defined.

(** The cursor that ends the carving loop is the last node's own address:
    when that is a page boundary, the page frame holding the last node is
    handed out as free memory. *)
Theorem pmm_add_block_frees_node_page s start end_ ns n c :
  built s ns -> nodes_needed s = Z.of_nat n -> 0 < Z.of_nat n < W64 -> (n <= c)%nat ->
  start + 16 * (Z.of_nat c - 1) < end_ <= start + 16 * Z.of_nat c ->
  0 <= start -> start + 16 * Z.of_nat n <= TWO_GB -> end_ + PAGE_SIZE <= W64 ->
  Forall (node_backed s) (node_run (start + KERNEL_OFFSET) n) ->
  apart (ns ++ node_run (start + KERNEL_OFFSET) n) ->
  let last := start + 16 * (Z.of_nat n - 1) in
  last mod 4096 = 0 ->
  exists s' l, pmm_add_block start end_ s = Ok tt s' /\ chain (mem s') (pmm_low s') l /\
    last ∈ l.*2 /\ last + KERNEL_OFFSET ∈ l.*1.
Proof.
  intros Hb Hn Hpos Hle Hc Hs Hw He Hback Hap last Hal.
  set (first := (last + 4095) / 4096 * 4096).
  assert (first = last) as Hfl by (unfold first; clearbody last; dlia).
  set (k := Z.to_nat ((end_ - first + 4095) / 4096)).
  assert (Hk : page_count first end_ k).
  { assert (last < end_) by (unfold last; lia). unfold page_count, k. left.
    rewrite Hfl. clearbody last. clear - H.
    rewrite Z2Nat.id by (apply Z.div_pos; lia). dlia. }
  destruct (add_block_complete s start end_ ns n c k) as (s' & Hr & _ & [_ Hp Hl _]); try done.
  eexists s', _. split; [done|]. split; [apply seg_app; eauto|]. split.
  - assert (k <> 0)%nat by (destruct Hk as [?|[-> ?]]; lia).
    destruct k as [|k']; [done|]. destruct n as [|n']; [lia|]. fold last first. rewrite Hfl.
    rewrite fmap_app. apply elem_of_app. left. cbn [node_run frame_run].
    destruct ns; cbn; left.
  - rewrite filled_nodes. apply elem_of_app. right. apply node_run_elem.
    exists (n - 1)%nat. unfold last. lia.
Qed.

Lemma pmm_add_block_frees_node_page_witness :
  exists s' l, pmm_add_block 0x1000 0x4000
      (set_nodes_needed 1 (boot_state (ram (0x1000 + KERNEL_OFFSET) 6))) = Ok tt s' /\
    chain (mem s') (pmm_low s') l /\ 0x1000 ∈ l.*2 /\ 0x1000 + KERNEL_OFFSET ∈ l.*1.
Proof.
  apply (pmm_add_block_frees_node_page
    (set_nodes_needed 1 (boot_state (ram (0x1000 + KERNEL_OFFSET) 6))) 0x1000 0x4000 [] 1 768);
    try done; try lia.
  - by left.
  - constructor; [split; [done|split; eexists; vm_compute; reflexivity]|constructor].
  - vdecide.
Defined.

(** [pmm_init_final] cuts the boot-time list in front of its first frame at
    or above 2 GiB: the part before it stays the low list, the rest becomes the
    high list, and nothing else changes. *)
Theorem pmm_init_final_splits s l1 n a h ah l2 :
  let low := l1 ++ [(n, a)] in
  let high := (h, ah) :: l2 in
  chain (mem s) (pmm_low s) (low ++ high) -> apart (low ++ high).*1 ->
  Forall (fun x => x < TWO_GB) (tail low).*2 -> TWO_GB <= ah ->
  exists s', pmm_init_final s = Ok tt s' /\ pmm_low s' = pmm_low s /\
    chain (mem s') (pmm_low s') low /\ chain (mem s') (pmm_high s') high.
Proof.
  intros low high Hc Hap Hlow Hhigh. unfold low, high in *.
  pose proof (chain_fuel _ _ _ Hc) as Hf.
  rewrite <- app_assoc in Hc, Hap. cbn [app] in Hc, Hap.
  exists (set_mem (insert (next_of n) 0) (set_pmm_high h s)). split; [|split; [done|]].
  - unfold pmm_init_final, mbind, M_bind, gets.
    eapply split_at_2g_run; try done. rewrite !length_app in Hf. cbn in Hf. lia.
  - destruct (seg_cut _ _ _ _ _ _ 0 _ Hc Hap) as (nx & Hn & H1 & H2). cbn.
    split; [exact H1|]. assert (nx = h) as -> by (by destruct H2). exact H2.
Qed.

(** A list of two nodes, for frames 0x2000 and 0x90000000. *)
Definition demo_state3 : kstate :=
  set_mem (insert (addr_of node1) 0x90000000) demo_state.

Lemma demo_chain3 :
  chain (mem demo_state3) (pmm_low demo_state3) [(node0, 0x2000); (node1, 0x90000000)].
Proof.
  split; [by vm_compute|]. split; [by vm_compute|]. exists node1.
  split; [by vm_compute|]. split; [by vm_compute|].
  split; [done|]. split; [by vm_compute|]. exists 0. by split; [vm_compute|split; [vm_compute|]].
Qed.

Lemma pmm_init_final_splits_witness :
  exists s', pmm_init_final demo_state3 = Ok tt s' /\ pmm_low s' = pmm_low demo_state3 /\
    chain (mem s') (pmm_low s') [(node0, 0x2000)] /\
    chain (mem s') (pmm_high s') [(node1, 0x90000000)].
Proof.
  apply (pmm_init_final_splits demo_state3 [] node0 0x2000 node1 0x90000000 []);
    [apply demo_chain3|vdecide|vdecide|unfold TWO_GB; lia].
Defined.


(** [pmm_clear_blocks] takes every frame that overlaps the reserved range
    out of the high list, and with them the first frame behind the range: the
    frames up to the range and those after that one remain. *)
Theorem pmm_clear_blocks_reserves s l1 n a l2 ne ae l3 st e :
  chain (mem s) (pmm_high s) (l1 ++ (n, a) :: l2 ++ (ne, ae) :: l3) ->
  apart (l1 ++ (n, a) :: l2 ++ (ne, ae) :: l3).*1 ->
  PAGE_SIZE <= st <= e -> e < W64 -> Forall (fun x => x < e) l1.*2 -> a + PAGE_SIZE <= st ->
  Forall (fun x => st < x + PAGE_SIZE /\ x < e) l2.*2 -> e <= ae ->
  exists s', pmm_clear_blocks st e s = Ok tt s' /\
    chain (mem s') (pmm_high s') (l1 ++ (n, a) :: l3).
Proof.
  intros Hc Hap Hst He H1 Ha H2 Hae.
  pose proof (clear_search_run _ _ _ _ _ _ _ _ _ _ _ Hc Hst He H1 Ha H2 Hae) as Hr.
  pose proof Hc as Hc'. apply seg_app in Hc' as (r & _ & (-> & Hz & nx & Hn & _ & Hs)).
  apply seg_app in Hs as (r & _ & (-> & Hz' & nx3 & Hn3 & _ & _)).
  exists (set_mem (insert (next_of n) nx3) s). split.
  - unfold pmm_clear_blocks, mbind, M_bind, gets. rewrite Hr.
    destruct (Z.eqb_spec n 0); [done|]. destruct (Z.eqb_spec ne 0); [done|]. cbn.
    unfold rd, wr. by rewrite Hn3, Hn.
  - destruct (seg_cut _ _ _ _ _ _ nx3 _ Hc Hap) as (nx' & _ & Hl & Hrest).
    rewrite cons_middle, app_assoc. apply seg_app. exists nx3. split; [exact Hl|].
    apply seg_app in Hrest as (r & _ & (-> & _ & nx4 & Hn4 & _ & H3)).
    rewrite lookup_insert_ne, Hn3 in Hn4; [by simplify_eq|].
    destruct Hap as [Hnd _]. rewrite fmap_app, fmap_cons, fmap_app in Hnd.
    apply NoDup_app in Hnd as (_ & _ & Hnd). apply NoDup_cons in Hnd as [Hnd _]. set_solver.
Qed.

(** A high list of three frames. *)
Definition demo_state4 : kstate :=
  let s := after (pmm_add_block 0x1000 0x10000)
             (set_nodes_needed 3 (boot_state (ram (0x1000 + KERNEL_OFFSET) 8))) in
  set_pmm_high (pmm_low s) s.

Lemma pmm_clear_blocks_reserves_witness :
  exists s', pmm_clear_blocks 0x3000 0x4000 demo_state4 = Ok tt s' /\
    chain (mem s') (pmm_high s') [(node0, 0x2000)].
Proof.
  apply (pmm_clear_blocks_reserves demo_state4 [] node0 0x2000 [(node1, 0x3000)]
           (0x1020 + KERNEL_OFFSET) 0x4000 [] 0x3000 0x4000).
  - split; [by vm_compute|]. split; [by vm_compute|]. exists node1.
    split; [by vm_compute|]. split; [by vm_compute|].
    split; [done|]. split; [by vm_compute|]. exists (0x1020 + KERNEL_OFFSET).
    split; [by vm_compute|]. split; [by vm_compute|].
    split; [done|]. split; [by vm_compute|]. exists 0. by split; [vm_compute|split; [vm_compute|]].
  - vdecide.
  - unfold PAGE_SIZE. lia.
  - lia.
  - constructor.
  - unfold PAGE_SIZE. lia.
  - vdecide.
  - lia.
Defined.

End PmmProps.
