(* ===== verification/Page.v ===== *)
(** * mem/kmalloc.c and mem/page.c: kernel pages and the four-level page tables

    Tables are pages of 512 64-bit entries in the direct map; [&t->table[i]] is
    the word at [t + 8 * i].  The privileged instructions are events of the
    state: [invlpg] is recorded in [flushed], a load of [cr3] in [cr3]. *)

From S2P Require Import Prelude KMath Machine Pmm.
Import KMath Machine Pmm.

(** ** mem/kmalloc.c *)
Module KMalloc.

Definition kmalloc_page : K Z :=
  p ← pmm_alloc_low;
  mret (p +64 KERNEL_OFFSET).

Definition kcalloc_page : K Z :=
  p ← pmm_alloc_low;
  let page := p +64 KERNEL_OFFSET in
  for_loop (Z.to_nat (PAGE_SIZE / 8)) 0 (fun i => wr (page + 8 * i) 0);;
  mret page.

Definition kfree_page (addr : Z) : K unit := pmm_free (addr -64 KERNEL_OFFSET).

End KMalloc.
Import KMalloc.

(** ** mem/page.c *)
Module Page.

(** util/const.h *)
Definition PML4E_PDPE_PDE_PRESENT : Z := 0x1.
Definition PML4E_PDPE_PDE_WRITABLE : Z := 0x2.
Definition PML4E_PDPE_PDE_USER : Z := 0x4.
Definition PTE_PRESENT : Z := 0x1.
Definition PTE_WRITABLE : Z := 0x2.
Definition PTE_USER : Z := 0x4.

Definition invplg (addr : Z) : K unit := modify (add_flushed addr).

Definition virt_addr_get_pml4e (addr : Z) : Z := Z.land (Z.shiftr addr 39) 0x1FF.
Definition virt_addr_get_pdpe (addr : Z) : Z := Z.land (Z.shiftr addr 30) 0x1FF.
Definition virt_addr_get_pde (addr : Z) : Z := Z.land (Z.shiftr addr 21) 0x1FF.
Definition virt_addr_get_pte (addr : Z) : Z := Z.land (Z.shiftr addr 12) 0x1FF.
Definition virt_addr_get_offset (addr : Z) : Z := Z.land addr 0xFFF.

(** The mask of an entry's address bits. *)
Definition ADDR_MASK : Z := 0xFFFFFFFFFF000.

(** [*p = g( *p)] *)
Definition rmw (p : Z) (g : Z -> Z) : K unit := v ← rd p; wr p (g v).

Definition pml4e_set_flag (pml4e flag : Z) : K unit := rmw pml4e (fun v => Z.lor v flag).
Definition pml4e_unset_flag (pml4e flag : Z) : K unit :=
  rmw pml4e (fun v => Z.land v (u64 (Z.lnot flag))).
Definition pml4e_query_flag (pml4e flag : Z) : K bool :=
  v ← rd pml4e; mret (Z.land v flag =? flag).
Definition pml4e_get_addr (pml4e : Z) : K Z := v ← rd pml4e; mret (Z.land v ADDR_MASK).
Definition pml4e_clear_addr (pml4e : Z) : K unit := rmw pml4e (fun v => Z.land v 0xFFF).
Definition pml4e_set_addr (pml4e addr : Z) : K unit :=
  rmw pml4e (fun v => Z.land v (u64 (Z.lnot ADDR_MASK)));;
  rmw pml4e (fun v => Z.lor v (Z.land addr ADDR_MASK)).

(** The functions of the other three levels have the same bodies. *)
Definition pdpe_set_flag := pml4e_set_flag.
Definition pdpe_unset_flag := pml4e_unset_flag.
Definition pdpe_query_flag := pml4e_query_flag.
Definition pdpe_get_addr := pml4e_get_addr.
Definition pdpe_clear_addr := pml4e_clear_addr.
Definition pdpe_set_addr := pml4e_set_addr.
Definition pde_set_flag := pml4e_set_flag.
Definition pde_unset_flag := pml4e_unset_flag.
Definition pde_query_flag := pml4e_query_flag.
Definition pde_get_addr := pml4e_get_addr.
Definition pde_clear_addr := pml4e_clear_addr.
Definition pde_set_addr := pml4e_set_addr.
Definition pte_set_flag := pml4e_set_flag.
Definition pte_unset_flag := pml4e_unset_flag.
Definition pte_query_flag := pml4e_query_flag.
Definition pte_get_addr := pml4e_get_addr.
Definition pte_clear_addr := pml4e_clear_addr.
Definition pte_set_addr := pml4e_set_addr.

(** [&t->table[i]] *)
Definition ent (t i : Z) : Z := t + 8 * i.

Definition page_virt_to_phys_addr (virt : Z) : K Z :=
  let pml4e := virt_addr_get_pml4e virt in
  let pdpe := virt_addr_get_pdpe virt in
  let pde := virt_addr_get_pde virt in
  let pte := virt_addr_get_pte virt in
  pml4 ← gets pml4_addr;
  present ← pml4e_query_flag (ent pml4 pml4e) PML4E_PDPE_PDE_PRESENT;
  if negb present then mret 0 else
  pdpt_addr ← pml4e_get_addr (ent pml4 pml4e);
  let pdpt_addr := pdpt_addr +64 KERNEL_OFFSET in
  present ← pdpe_query_flag (ent pdpt_addr pdpe) PML4E_PDPE_PDE_PRESENT;
  if negb present then mret 0 else
  pdt_addr ← pdpe_get_addr (ent pdpt_addr pdpe);
  let pdt_addr := pdt_addr +64 KERNEL_OFFSET in
  present ← pde_query_flag (ent pdt_addr pde) PML4E_PDPE_PDE_PRESENT;
  if negb present then mret 0 else
  pt_addr ← pde_get_addr (ent pdt_addr pde);
  let pt_addr := pt_addr +64 KERNEL_OFFSET in
  present ← pte_query_flag (ent pt_addr pte) PTE_PRESENT;
  if negb present then mret 0 else
  a ← pte_get_addr (ent pt_addr pte);
  mret (a +64 Z.land virt (PAGE_SIZE - 1)).

(** The step of [page_map] from one table to the next, which the code repeats
    for the PML4, the PDPT and the PDT: take the entry's table, or allocate,
    enter and flag a new one. *)
Definition next_table (e : Z) (kernel : bool) : K Z :=
  addr ← pml4e_get_addr e;
  present ← pml4e_query_flag e PML4E_PDPE_PDE_PRESENT;
  if negb present then
    allocated ← kcalloc_page;
    pml4e_set_addr e (allocated -64 KERNEL_OFFSET);;
    pml4e_set_flag e PML4E_PDPE_PDE_PRESENT;;
    pml4e_set_flag e PML4E_PDPE_PDE_WRITABLE;;
    (if kernel : bool then pml4e_unset_flag e PML4E_PDPE_PDE_USER
     else pml4e_set_flag e PML4E_PDPE_PDE_USER);;
    mret allocated
  else mret (addr +64 KERNEL_OFFSET).

Definition page_map (virt phys : Z) (kernel : bool) : K unit :=
  let pml4e := virt_addr_get_pml4e virt in
  let pdpe := virt_addr_get_pdpe virt in
  let pde := virt_addr_get_pde virt in
  let pte := virt_addr_get_pte virt in
  pml4 ← gets pml4_addr;
  pdpt_addr ← next_table (ent pml4 pml4e) kernel;
  pdt_addr ← next_table (ent pdpt_addr pdpe) kernel;
  pt_addr ← next_table (ent pdt_addr pde) kernel;
  pte_set_addr (ent pt_addr pte) phys;;
  pte_set_flag (ent pt_addr pte) PTE_PRESENT;;
  pte_set_flag (ent pt_addr pte) PTE_WRITABLE;;
  (if kernel then pte_unset_flag (ent pt_addr pte) PTE_USER
   else pte_set_flag (ent pt_addr pte) PTE_USER).

(** the loop of [page_unmap]: is an entry other than the ones given present? *)
Fixpoint scan_used (n : nat) (i : Z) (pdpt_addr pdt_addr pt_addr pdpe pde pte : Z)
    (used : bool * bool * bool) : K (bool * bool * bool) :=
  match n with
  | O => mret used
  | S n' =>
    let '(pdpt_used, pdt_used, pt_used) := used in
    b1 ← pdpe_query_flag (ent pdpt_addr i) PML4E_PDPE_PDE_PRESENT;
    b2 ← pde_query_flag (ent pdt_addr i) PML4E_PDPE_PDE_PRESENT;
    b3 ← pte_query_flag (ent pt_addr i) PTE_PRESENT;
    scan_used n' (i + 1) pdpt_addr pdt_addr pt_addr pdpe pde pte
      (pdpt_used || (b1 && negb (i =? pdpe)),
       pdt_used || (b2 && negb (i =? pde)),
       pt_used || (b3 && negb (i =? pte)))
  end.

Definition page_unmap (virt : Z) : K unit :=
  let pml4e := virt_addr_get_pml4e virt in
  let pdpe := virt_addr_get_pdpe virt in
  let pde := virt_addr_get_pde virt in
  let pte := virt_addr_get_pte virt in
  pml4 ← gets pml4_addr;
  present ← pml4e_query_flag (ent pml4 pml4e) PML4E_PDPE_PDE_PRESENT;
  if negb present then mret tt else
  pdpt_addr ← pml4e_get_addr (ent pml4 pml4e);
  let pdpt_addr := pdpt_addr +64 KERNEL_OFFSET in
  present ← pdpe_query_flag (ent pdpt_addr pdpe) PML4E_PDPE_PDE_PRESENT;
  if negb present then mret tt else
  pdt_addr ← pdpe_get_addr (ent pdpt_addr pdpe);
  let pdt_addr := pdt_addr +64 KERNEL_OFFSET in
  present ← pde_query_flag (ent pdt_addr pde) PML4E_PDPE_PDE_PRESENT;
  if negb present then mret tt else
  pt_addr ← pde_get_addr (ent pdt_addr pde);
  let pt_addr := pt_addr +64 KERNEL_OFFSET in
  '(pdpt_used, pdt_used, pt_used) ←
    scan_used 512 0 pdpt_addr pdt_addr pt_addr pdpe pde pte (false, false, false);
  (if negb pdpt_used && negb pdt_used && negb pt_used then kfree_page pdpt_addr else mret tt);;
  (if negb pdt_used && negb pt_used then kfree_page pdt_addr else mret tt);;
  (if negb pt_used then kfree_page pt_addr else mret tt);;
  present ← pte_query_flag (ent pt_addr pte) PTE_PRESENT;
  if negb present then mret tt else
  wr (ent pt_addr pte) 0;;
  invplg virt.

Definition page_set_pml4 (phys virt : Z) : K unit := modify (set_pml4 phys virt).

(** mem/pmm.c *)
Definition pmm_alloc_high : K Z :=
  high ← gets pmm_high;
  if high =? 0 then
    low_area ← pmm_alloc_low;
    page_unmap low_area;;
    mret low_area
  else pop_high.

End Page.
