(* ===== verification/PageEntry.v ===== *)
(** * Page-table entries as bit fields

    What the sequence of address and flag updates of [page_map] leaves in an
    entry: the address bits, the present, writable and user flags, and the
    other bits as they were. *)

From S2P Require Import Prelude KMath Machine Pmm Page.
Import KMath Machine Pmm KMalloc Page.

Module PageEntry.

Definition present (e : Z) : bool := Z.land e 1 =? 1.
Definition entry_addr (e : Z) : Z := Z.land e ADDR_MASK.

(** The entry [e] after [set_addr a], present and writable set, and the user
    flag set or cleared. *)
Definition new_entry (e a : Z) (kernel : bool) : Z :=
  let v := Z.lor (Z.land e (u64 (Z.lnot ADDR_MASK))) (Z.land a ADDR_MASK) in
  let v := Z.lor (Z.lor v 1) 2 in
  if kernel then Z.land v (u64 (Z.lnot 4)) else Z.lor v 4.

Lemma mask_bits i : 0 <= i -> Z.testbit ADDR_MASK i = (12 <=? i) && (i <? 52).
Proof. intros. change ADDR_MASK with (2 ^ 52 - 2 ^ 12). apply testbit_block_mask; lia. Qed.

Lemma new_entry_bits e a kernel i : 0 <= i ->
  Z.testbit (new_entry e a kernel) i =
    if i =? 0 then true else if i =? 1 then true else if i =? 2 then negb kernel
    else if (12 <=? i) && (i <? 52) then Z.testbit a i
    else Z.testbit e i && (i <? 64).
Proof.
  intros Hi. unfold new_entry.
  assert (H1 : Z.testbit 1 i = (i =? 0)) by (rewrite Z.eqb_sym; apply (Z.pow2_bits_eqb 0 i); lia).
  assert (H2 : Z.testbit 2 i = (i =? 1)) by (rewrite Z.eqb_sym; apply (Z.pow2_bits_eqb 1 i); lia).
  assert (H4 : Z.testbit 4 i = (i =? 2)) by (rewrite Z.eqb_sym; apply (Z.pow2_bits_eqb 2 i); lia).
  destruct kernel; rewrite ?Z.lor_spec, ?Z.land_spec, ?Z.lor_spec, ?Z.land_spec,
    ?testbit_u64, ?Z.lnot_spec, ?H1, ?H2, ?H4, ?mask_bits by lia;
    btests; cbn; rewrite ?andb_true_r, ?andb_false_r, ?orb_true_r, ?orb_false_r; try done; try lia.
Qed.

Lemma new_entry_present e a kernel : present (new_entry e a kernel) = true.
Proof.
  unfold present. change 1 with (Z.ones 1) at 1. rewrite Z.land_ones by lia.
  rewrite <- Z.bit0_mod, new_entry_bits by lia. done.
Qed.

Lemma new_entry_addr e a kernel : entry_addr (new_entry e a kernel) = Z.land a ADDR_MASK.
Proof.
  unfold entry_addr. apply Z.bits_inj'. intros i Hi.
  rewrite !Z.land_spec, mask_bits, new_entry_bits by lia.
  btests; cbn; rewrite ?andb_true_r, ?andb_false_r; try done; lia.
Qed.

(** The user bit of the entry is set exactly for a user mapping. *)
Lemma new_entry_user e a kernel : Z.testbit (new_entry e a kernel) 2 = negb kernel.
Proof. by rewrite new_entry_bits. Qed.

Lemma new_entry_writable e a kernel : Z.testbit (new_entry e a kernel) 1 = true.
Proof. by rewrite new_entry_bits. Qed.

Lemma new_entry_range e a kernel : 0 <= e -> 0 <= new_entry e a kernel < W64.
Proof.
  intros He. assert (new_entry e a kernel = u64 (new_entry e a kernel)) as ->; [|apply u64_range].
  apply Z.bits_inj'. intros i Hi. rewrite testbit_u64, new_entry_bits by lia.
  btests; cbn; rewrite ?andb_true_r, ?andb_false_r; try done; lia.
Qed.

(** A page-aligned address below 2^52 survives the mask. *)
Lemma mask_aligned a : 0 <= a < 2 ^ 52 -> a mod 4096 = 0 -> Z.land a ADDR_MASK = a.
Proof.
  intros Ha Hal. change ADDR_MASK with (2 ^ 52 - 2 ^ 12).
  rewrite land_block_mask by lia. change (2 ^ 12) with 4096. dlia.
Qed.

End PageEntry.
