(* ===== verification/PageTables.v ===== *)
(** * The page tables as a tree, and the map they stand for

    [tbl m root p] is the table reached from [root] along the entry indices
    [p]; the invariant [pt_inv] says that the tables are backed by RAM and
    that no table is reached along two paths.  [pte_of] is the abstract view:
    the present leaf entries, indexed by path and index. *)

From S2P Require Import Prelude KMath Machine Pmm Page PageEntry.
Import KMath Machine Pmm KMalloc Page PageEntry.

Module PageTables.

(** The table the entry [i] of table [t] refers to. *)
Definition sub (m : gmap Z Z) (t i : Z) : option Z :=
  match m !! ent t i with
  | Some e => if present e then Some (entry_addr e +64 KERNEL_OFFSET) else None
  | None => None
  end.

Fixpoint tbl (m : gmap Z Z) (t : Z) (p : list Z) : option Z :=
  match p with
  | [] => Some t
  | i :: p' => match sub m t i with Some t' => tbl m t' p' | None => None end
  end.

Definition in_range (p : list Z) : Prop := Forall (fun i => 0 <= i < 512) p.

Definition page_backed (m : gmap Z Z) (t : Z) : Prop :=
  t mod 4096 = 0 /\ forall i, 0 <= i < 512 -> is_Some (m !! ent t i).

Record pt_inv (m : gmap Z Z) (root : Z) : Prop := {
  pt_backed : forall p t, (length p <= 3)%nat -> in_range p -> tbl m root p = Some t -> page_backed m t;
  pt_inj : forall p q t, (length p <= 3)%nat -> (length q <= 3)%nat -> in_range p -> in_range q ->
    tbl m root p = Some t -> tbl m root q = Some t -> p = q;
}.

(** The present leaf entry under path [p] (PML4, PDPT and PDT index) and index [j]. *)
Definition pte_of (m : gmap Z Z) (root : Z) (p : list Z) (j : Z) : option Z :=
  t ← tbl m root p; e ← m !! ent t j; if present e then Some e else None.

Definition vpath (v : Z) : list Z := [virt_addr_get_pml4e v; virt_addr_get_pdpe v; virt_addr_get_pde v].

(** The physical address [v] is translated to, if it is mapped. *)
Definition translate (s : kstate) (v : Z) : option Z :=
  e ← pte_of (mem s) (pml4_addr s) (vpath v) (virt_addr_get_pte v);
  Some (entry_addr e +64 Z.land v (PAGE_SIZE - 1)).

Lemma idx_range v k : 0 <= Z.land (Z.shiftr v k) 0x1FF < 512.
Proof.
  change 0x1FF with (Z.ones 9). rewrite Z.land_ones by lia.
  change (2 ^ 9) with 512. apply Z.mod_pos_bound. lia.
Qed.

Lemma vpath_range v : in_range (vpath v).
Proof. repeat constructor; apply idx_range. Qed.

Lemma pte_range v : 0 <= virt_addr_get_pte v < 512.
Proof. apply idx_range. Qed.

Lemma tbl_app m t p q : tbl m t (p ++ q) = t' ← tbl m t p; tbl m t' q.
Proof.
  revert t. induction p as [|i p IH]; intros t; cbn; [done|].
  destruct (sub m t i); cbn; auto.
Qed.

Lemma tbl_snoc m t p i : tbl m t (p ++ [i]) = t' ← tbl m t p; sub m t' i.
Proof. rewrite tbl_app. destruct (tbl m t p); cbn; [|done]. by destruct (sub m _ i). Qed.

Lemma in_range_snoc p i : in_range (p ++ [i]) <-> in_range p /\ 0 <= i < 512.
Proof. unfold in_range. rewrite Forall_app, Forall_singleton. done. Qed.

Lemma ent_inj t t' i j :
  t mod 4096 = 0 -> t' mod 4096 = 0 -> 0 <= i < 512 -> 0 <= j < 512 ->
  ent t i = ent t' j -> t = t' /\ i = j.
Proof. unfold ent. intros. dlia. Qed.

Lemma ent_page t i : t mod 4096 = 0 -> 0 <= i < 512 -> pg (ent t i) = pg t.
Proof. unfold ent, pg, PAGE_SIZE. intros. dlia. Qed.

Lemma page_eq t t' : t mod 4096 = 0 -> t' mod 4096 = 0 -> pg t = pg t' -> t = t'.
Proof. unfold pg, PAGE_SIZE. intros. dlia. Qed.

(** Words of different tables, or different words of one, do not overlap. *)
Lemma tbl_words m root p q t t' i j :
  pt_inv m root -> (length p <= 3)%nat -> (length q <= 3)%nat -> in_range p -> in_range q ->
  tbl m root p = Some t -> tbl m root q = Some t' -> 0 <= i < 512 -> 0 <= j < 512 ->
  ent t i = ent t' j -> p = q /\ i = j.
Proof.
  intros [Hb Hi] Hp Hq Hrp Hrq Ht Ht' Hri Hrj E.
  destruct (ent_inj t t' i j) as [-> ->]; try done.
  - by apply (Hb p).
  - by apply (Hb q).
  - split; [|done]. by eapply Hi.
Qed.

(** [present] entries of the tables read by [sub] only depend on their word. *)
Lemma sub_ext m m' t i : m' !! ent t i = m !! ent t i -> sub m' t i = sub m t i.
Proof. unfold sub. by intros ->. Qed.

(** Entering a zeroed page [f] at entry [i] of the table reached along [p]
    adds exactly the path [p ++ [i]]. *)
Lemma tbl_add m m' root p i t f e' :
  pt_inv m root -> (length p < 3)%nat -> in_range p -> 0 <= i < 512 ->
  tbl m root p = Some t -> sub m t i = None ->
  (forall q x j, (length q <= 3)%nat -> in_range q -> 0 <= j < 512 -> tbl m root q = Some x ->
     (q, j) <> (p, i) -> m' !! ent x j = m !! ent x j) ->
  m' !! ent t i = Some e' -> present e' = true -> entry_addr e' +64 KERNEL_OFFSET = f ->
  (forall j, 0 <= j < 512 -> m' !! ent f j = Some 0) ->
  forall q, (length q <= 3)%nat -> in_range q ->
    tbl m' root q = if decide (q = p ++ [i]) then Some f else tbl m root q.
Proof.
  intros Hinv Hlen Hrp Hi Ht Hsub Hother He' Hpres Hf Hzero q.
  induction q as [|j q IH] using rev_ind; intros Hq Hr.
  { cbn. case_decide as Hd; [|done]. by destruct p. }
  rewrite length_app in Hq. cbn in Hq. apply in_range_snoc in Hr as [Hr Hj].
  rewrite tbl_snoc, IH by (done || lia). case_decide as Hd.
  - subst q. cbn. rewrite decide_False.
    + unfold sub at 1. rewrite Hzero by done. cbn.
      by rewrite !tbl_snoc, Ht; cbn; rewrite Hsub.
    + intros E. apply (f_equal length) in E. rewrite !length_app in E. cbn in E. lia.
  - rewrite tbl_snoc. case_decide as Hd'.
    + apply app_inj_tail in Hd' as [-> ->]. rewrite Ht. cbn.
      unfold sub. by rewrite He', Hpres, Hf.
    + destruct (tbl m root q) as [x|] eqn:Hx; cbn; [|done].
      apply sub_ext, (Hother q); [lia|done..|]. intros [= -> ->]. done.
Qed.

Lemma pt_inv_add m m' root p i t f e' :
  pt_inv m root -> (length p < 3)%nat -> in_range p -> 0 <= i < 512 ->
  tbl m root p = Some t -> sub m t i = None ->
  (forall q x j, (length q <= 3)%nat -> in_range q -> 0 <= j < 512 -> tbl m root q = Some x ->
     (q, j) <> (p, i) -> m' !! ent x j = m !! ent x j) ->
  m' !! ent t i = Some e' -> present e' = true -> entry_addr e' +64 KERNEL_OFFSET = f ->
  (forall j, 0 <= j < 512 -> m' !! ent f j = Some 0) -> f mod 4096 = 0 ->
  (forall q x, (length q <= 3)%nat -> in_range q -> tbl m root q = Some x -> x <> f) ->
  pt_inv m' root /\ tbl m' root (p ++ [i]) = Some f /\
  (forall q x, (length q <= 3)%nat -> in_range q -> tbl m' root q = Some x ->
     x = f \/ tbl m root q = Some x) /\
  forall q j, length q = 3%nat -> in_range q -> 0 <= j < 512 -> pte_of m' root q j = pte_of m root q j.
Proof.
  intros Hinv Hlen Hrp Hi Ht Hsub Hother He' Hpres Hf Hzero Hal Hfresh.
  pose proof (tbl_add _ _ _ _ _ _ _ _ Hinv Hlen Hrp Hi Ht Hsub Hother He' Hpres Hf Hzero) as Htbl.
  assert (Hlpi : (length (p ++ [i]) <= 3)%nat) by (rewrite length_app; cbn; lia).
  assert (Hrpi : in_range (p ++ [i])) by (by apply in_range_snoc).
  split; [split|split; [|split]].
  - intros q x Hq Hr. rewrite Htbl by done. case_decide as Hd.
    + intros [= <-]. split; [done|]. intros j Hj. rewrite Hzero by done. eauto.
    + intros Hx. destruct (pt_backed _ _ Hinv q x) as [? Hb]; [done..|]. split; [done|].
      intros j Hj. destruct (decide ((q, j) = (p, i))) as [[= -> ->]|Hne].
      * assert (x = t) as -> by congruence. eauto.
      * rewrite (Hother q) by done. eauto.
  - intros q q' x Hq Hq' Hr Hr'. rewrite !Htbl by done. do 2 case_decide; [congruence|..].
    + intros E Hx. destruct (Hfresh q' x); [done..|congruence].
    + intros Hx E. destruct (Hfresh q x); [done..|congruence].
    + by eapply pt_inj.
  - rewrite Htbl by done. by rewrite decide_True.
  - intros q x Hq Hr. rewrite Htbl by done. case_decide; [|by right]. intros E. left. congruence.
  - intros q j Hq Hr Hj. unfold pte_of. rewrite Htbl by (done || lia). case_decide as Hd.
    + subst q. cbn. rewrite Hzero by done. cbn. by rewrite tbl_snoc, Ht; cbn; rewrite Hsub.
    + destruct (tbl m root q) as [x|] eqn:Hx; cbn; [|done].
      rewrite (Hother q x j); [done|lia|done..|]. intros [= -> ->]. lia.
Qed.


(** The words of the tables in use. *)
Definition table_word (m : gmap Z Z) (root w : Z) : Prop :=
  exists q x j, (length q <= 3)%nat /\ in_range q /\ 0 <= j < 512 /\
    tbl m root q = Some x /\ w = ent x j.

(** Memory that agrees on the table words has the same tables. *)
Lemma tbl_frame m m' root :
  (forall w, table_word m root w -> m' !! w = m !! w) ->
  forall q, (length q <= 3)%nat -> in_range q -> tbl m' root q = tbl m root q.
Proof.
  intros Hw q. induction q as [|j q IH] using rev_ind; intros Hq Hr; [done|].
  rewrite length_app in Hq. cbn in Hq. apply in_range_snoc in Hr as [Hr Hj].
  rewrite !tbl_snoc, IH by (done || lia). destruct (tbl m root q) as [x|] eqn:Hx; cbn; [|done].
  apply sub_ext, Hw. exists q, x, j. split_and!; done || lia.
Qed.

Lemma pt_inv_frame m m' root :
  (forall w, table_word m root w -> m' !! w = m !! w) -> pt_inv m root ->
  pt_inv m' root /\
  forall q j, (length q <= 3)%nat -> in_range q -> 0 <= j < 512 -> pte_of m' root q j = pte_of m root q j.
Proof.
  intros Hw Hinv. pose proof (tbl_frame _ _ _ Hw) as Ht. split; [split|].
  - intros q x Hq Hr. rewrite Ht by done. intros Hx.
    destruct (pt_backed _ _ Hinv q x) as [? Hb]; [done..|]. split; [done|].
    intros j Hj. rewrite Hw; [eauto|]. by exists q, x, j.
  - intros q q' x Hq Hq' Hr Hr'. rewrite !Ht by done. by eapply pt_inj.
  - intros q j Hq Hr Hj. unfold pte_of. rewrite Ht by done.
    destruct (tbl m root q) as [x|] eqn:Hx; cbn; [|done]. rewrite Hw; [done|]. by exists q, x, j.
Qed.

(** Writing a leaf entry changes that entry only. *)
Lemma pt_inv_leaf m root p j pt e' :
  pt_inv m root -> length p = 3%nat -> in_range p -> 0 <= j < 512 -> tbl m root p = Some pt ->
  let m' := <[ent pt j:=e']> m in
  pt_inv m' root /\
  (forall q, (length q <= 3)%nat -> in_range q -> tbl m' root q = tbl m root q) /\
  forall q k, length q = 3%nat -> in_range q -> 0 <= k < 512 ->
    pte_of m' root q k =
      if decide ((q, k) = (p, j)) then (if present e' then Some e' else None) else pte_of m root q k.
Proof.
  intros Hinv Hp Hrp Hj Hpt m'.
  assert (Hw : forall q x k, (length q <= 3)%nat -> in_range q -> 0 <= k < 512 ->
            tbl m root q = Some x -> (q, k) <> (p, j) -> m' !! ent x k = m !! ent x k).
  { intros q x k Hq Hr Hk Hx Hne. apply lookup_insert_ne. intros E.
    destruct (tbl_words m root p q pt x j k) as [-> ->]; done || lia. }
  assert (Ht : forall q, (length q <= 3)%nat -> in_range q -> tbl m' root q = tbl m root q).
  { intros q. induction q as [|k q IH] using rev_ind; intros Hq Hr; [done|].
    rewrite length_app in Hq. cbn in Hq. apply in_range_snoc in Hr as [Hr Hk].
    rewrite !tbl_snoc, IH by (done || lia). destruct (tbl m root q) as [x|] eqn:Hx; cbn; [|done].
    apply sub_ext, (Hw q); [lia|done..|]. intros [= -> ->]. lia. }
  split; [split|split; [done|]].
  - intros q x Hq Hr. rewrite Ht by done. intros Hx.
    destruct (pt_backed _ _ Hinv q x) as [? Hb]; [done..|]. split; [done|]. intros k Hk.
    unfold m'. rewrite lookup_insert. case_decide; eauto.
  - intros q q' x Hq Hq' Hr Hr'. rewrite !Ht by done. by eapply pt_inj.
  - intros q k Hq Hr Hk. unfold pte_of. rewrite Ht by (done || lia). case_decide as Hd.
    + injection Hd as -> ->. rewrite Hpt. cbn. unfold m'. rewrite lookup_insert_eq. done.
    + destruct (tbl m root q) as [x|] eqn:Hx; cbn; [|done]. rewrite (Hw q); done || lia.
Qed.

(** ** Zeroing a page *)

Fixpoint zeros (f : Z) (k : nat) (i : Z) (m : gmap Z Z) : gmap Z Z :=
  match k with O => m | S k' => zeros f k' (i + 1) (<[f + 8 * i:=0]> m) end.

Lemma zeros_out f k i m w :
  (forall j, i <= j < i + Z.of_nat k -> w <> f + 8 * j) -> zeros f k i m !! w = m !! w.
Proof.
  revert i m. induction k as [|k IH]; intros i m Hw; cbn; [done|].
  rewrite IH by (intros j ?; apply Hw; lia). apply lookup_insert_ne, not_eq_sym, Hw. lia.
Qed.

Lemma zeros_in f k i m j :
  i <= j < i + Z.of_nat k -> zeros f k i m !! (f + 8 * j) = Some 0.
Proof.
  revert i m. induction k as [|k IH]; intros i m Hj; [lia|]. cbn.
  destruct (decide (i = j)) as [->|]; [|apply IH; lia].
  rewrite zeros_out by (intros; lia). apply lookup_insert_eq.
Qed.

Lemma zeros_mono f k i m w : is_Some (m !! w) -> is_Some (zeros f k i m !! w).
Proof.
  revert i m. induction k as [|k IH]; intros i m Hw; cbn; [done|].
  apply IH. rewrite lookup_insert. case_decide; eauto.
Qed.

Lemma zero_loop k i f s :
  (forall j, i <= j < i + Z.of_nat k -> is_Some (mem s !! (f + 8 * j))) ->
  for_loop k i (fun i => wr (f + 8 * i) 0) s = Ok tt (set_mem (zeros f k i) s).
Proof.
  revert i s. induction k as [|k IH]; intros i s Hb; cbn; [by destruct s|].
  unfold mbind, M_bind, wr. destruct (Hb i) as [v Hv]; [lia|]. rewrite Hv.
  rewrite IH; [done|]. intros j Hj. cbn. rewrite lookup_insert. case_decide; eauto.
  apply Hb. lia.
Qed.

#[global] Arguments zeros : simpl never.

End PageTables.
