(* ===== verification/PageOps.v ===== *)
(** * The paging operations against the tree of tables

    [mm_inv] combines the frame allocator's invariant with that of the page
    tables: the allocator's nodes, the tables in use and the free frames do not
    overlap.  [kcalloc_page], the table step of [page_map] and the leaf update
    are shown to keep it. *)

From S2P Require Import Prelude KMath Machine Pmm Page PageEntry PageTables.
Import KMath Machine Pmm KMalloc Page PageEntry PageTables.

Module PageOps.

(** A frame the allocator may hand out: a page of RAM behind the direct map
    that is neither a table in use nor holds a node of the allocator. *)
Record frame_ok (m : gmap Z Z) (root : Z) (nodes : list Z) (a : Z) : Prop := {
  fr_range : 0 <= a < TWO_GB;
  fr_backed : page_backed m (a + KERNEL_OFFSET);
  fr_table : forall q x, (length q <= 3)%nat -> in_range q -> tbl m root q = Some x ->
    x <> a + KERNEL_OFFSET;
  fr_nodes : forall n, n ∈ nodes ->
    pg (next_of n) <> pg (a + KERNEL_OFFSET) /\ pg (addr_of n) <> pg (a + KERNEL_OFFSET);
}.

Record mm_inv (s : kstate) (low high used : list (Z * Z)) (q : Z) : Prop := {
  mm_pmm : pmm_inv s low high used q;
  mm_pt : pt_inv (mem s) (pml4_addr s);
  mm_nodes : forall n, n ∈ (low ++ high ++ used).*1 ->
    ~ table_word (mem s) (pml4_addr s) (next_of n) /\ ~ table_word (mem s) (pml4_addr s) (addr_of n);
  mm_frames : Forall (frame_ok (mem s) (pml4_addr s) (low ++ high ++ used).*1) low.*2;
  mm_distinct : NoDup low.*2;
}.

(** The leaf mappings are the same in two states. *)
Definition same_ptes (s s' : kstate) : Prop :=
  pml4_addr s' = pml4_addr s /\
  forall q j, length q = 3%nat -> in_range q -> 0 <= j < 512 ->
    pte_of (mem s') (pml4_addr s) q j = pte_of (mem s) (pml4_addr s) q j.

(** The tables of two states are the same. *)
Definition same_tables (s s' : kstate) : Prop :=
  forall p, (length p <= 3)%nat -> in_range p -> tbl (mem s') (pml4_addr s') p = tbl (mem s) (pml4_addr s) p.

Lemma same_tables_trans s1 s2 s3 : same_tables s1 s2 -> same_tables s2 s3 -> same_tables s1 s3.
Proof. intros H1 H2 p Hp Hr. by rewrite H2, H1. Qed.

(** What an operation on the tables leaves alone: of the memory it changes only
    tables, nodes of the allocator ([ns]) and pages of free low frames ([fs]);
    what becomes a table was a free low frame. *)
Record quiet (s : kstate) (fs ns : list Z) (s' : kstate) (fs' ns' : list Z) : Prop := {
  qt_out : forall w, ~ table_word (mem s) (pml4_addr s) w ->
    (forall n, n ∈ ns -> w <> next_of n /\ w <> addr_of n) ->
    (forall a, a ∈ fs -> pg w <> pg (a + KERNEL_OFFSET)) -> mem s' !! w = mem s !! w;
  qt_tables : forall w, table_word (mem s') (pml4_addr s') w ->
    table_word (mem s) (pml4_addr s) w \/ exists a, a ∈ fs /\ pg w = pg (a + KERNEL_OFFSET);
  qt_mono : forall w, is_Some (mem s !! w) -> is_Some (mem s' !! w);
  qt_fs : fs' `sublist_of` fs;
  qt_ns : forall n, n ∈ ns' -> n ∈ ns;
  qt_globals : pml4_addr s' = pml4_addr s /\ vmm_head s' = vmm_head s /\ vmm_tail s' = vmm_tail s /\
    alloc_head s' = alloc_head s;
}.

Lemma quiet_refl s fs ns : quiet s fs ns s fs ns.
Proof. by split; auto. Qed.

Lemma quiet_in s fs ns s' fs' ns' a : quiet s fs ns s' fs' ns' -> a ∈ fs' -> a ∈ fs.
Proof. intros [_ _ _ H _ _] Ha. eapply elem_of_submseteq; [exact Ha|by apply sublist_submseteq]. Qed.

Lemma quiet_trans s1 f1 n1 s2 f2 n2 s3 f3 n3 :
  quiet s1 f1 n1 s2 f2 n2 -> quiet s2 f2 n2 s3 f3 n3 -> quiet s1 f1 n1 s3 f3 n3.
Proof.
  intros Hq1. pose proof (fun a => quiet_in _ _ _ _ _ _ a Hq1) as Hin.
  destruct Hq1 as [O1 T1 M1 F1 N1 (? & ? & ? & ?)]. intros [O2 T2 M2 F2 N2 (? & ? & ? & ?)].
  split; [| |auto|by etrans|auto|split_and!; congruence].
  - intros w Hw Hn Hf. rewrite O2; [by apply O1|..]; [|auto|auto].
    intros [?|(a & Ha & E)]%T1; [done|by apply (Hf a)].
  - intros w [?|(a & Ha & E)]%T2; [auto|]. right. eauto.
Qed.

(** Nodes have been moved from the low list to the front of the used ones. *)
Definition moved (low used low' used' : list (Z * Z)) : Prop :=
  exists ts, used' = ts ++ used /\ ts.*2 ++ low'.*2 ≡ₚ low.*2.

Lemma moved_refl low used : moved low used low used.
Proof. by exists []. Qed.

Lemma moved_trans l1 u1 l2 u2 l3 u3 : moved l1 u1 l2 u2 -> moved l2 u2 l3 u3 -> moved l1 u1 l3 u3.
Proof.
  intros (t1 & -> & E1) (t2 & -> & E2). exists (t2 ++ t1). split; [by rewrite app_assoc|].
  rewrite <- E1, <- E2, fmap_app. solve_Permutation.
Qed.

(** A change of table words and of nodes of the allocator ([ns]) that leaves
    the tree of tables as it is. *)
Record calm (s : kstate) (ns : list Z) (s' : kstate) : Prop := {
  cm_out : forall w, ~ table_word (mem s) (pml4_addr s) w ->
    (forall n, n ∈ ns -> w <> next_of n /\ w <> addr_of n) -> mem s' !! w = mem s !! w;
  cm_mono : forall w, is_Some (mem s !! w) -> is_Some (mem s' !! w);
  cm_tables : same_tables s s';
  cm_globals : pml4_addr s' = pml4_addr s /\ vmm_head s' = vmm_head s /\ vmm_tail s' = vmm_tail s /\
    alloc_head s' = alloc_head s;
}.

Lemma calm_refl s ns : calm s ns s.
Proof. by split. Qed.

Lemma same_tables_word s s' w :
  same_tables s s' -> table_word (mem s') (pml4_addr s') w -> table_word (mem s) (pml4_addr s) w.
Proof. intros Ht (p & x & j & Hp & Hr & Hj & Hx & ->). rewrite Ht in Hx by done. by exists p, x, j. Qed.

Lemma calm_trans s1 ns1 s2 ns2 s3 :
  calm s1 ns1 s2 -> calm s2 ns2 s3 -> (forall n, n ∈ ns2 -> n ∈ ns1) -> calm s1 ns1 s3.
Proof.
  intros [O1 M1 T1 (? & ? & ? & ?)] [O2 M2 T2 (? & ? & ? & ?)] Hsub.
  split; [|auto|by eapply same_tables_trans|split_and!; congruence].
  intros w Hw Hn. rewrite O2; [by apply O1| |auto]. intros H'. by apply Hw, (same_tables_word s1 s2).
Qed.

Lemma calm_quiet s ns s' fs : calm s ns s' -> quiet s fs ns s' fs ns.
Proof. intros [Ho Hm Ht Hg]. split; [auto| |done|done|done|done]. intros w Hw. left. by eapply same_tables_word. Qed.

Lemma calm_more s ns ns' s' : (forall n, n ∈ ns -> n ∈ ns') -> calm s ns s' -> calm s ns' s'.
Proof. intros Hsub [Ho Hm Ht Hg]. split; auto. Qed.

Lemma calm_nil s ns s' : calm s [] s' -> calm s ns s'.
Proof. apply calm_more. by intros n ?%elem_of_nil. Qed.

Lemma frame_aligned m root nodes a : frame_ok m root nodes a -> a mod 4096 = 0.
Proof. intros [_ [Hal _] _ _]. unfold KERNEL_OFFSET in Hal. dlia. Qed.

(** A word in the page of [f] is not a word of an aligned page other than it. *)
Lemma page_word_ne f t j w :
  f mod 4096 = 0 -> t mod 4096 = 0 -> t <> f -> 0 <= j < 512 -> w = ent t j ->
  pg w <> pg f.
Proof. intros Hf Ht Hne Hj -> E. rewrite ent_page in E by done. by apply Hne, page_eq. Qed.

(** ** [kcalloc_page] *)

(** The state [kcalloc_page] leaves: node [n] moved to the used list, page [f] zeroed. *)
Definition kcalloc_state (n nx f : Z) (s : kstate) : kstate :=
  set_mem (zeros f 512 0) (alloc_low_state n nx s).

Lemma kcalloc_run s n a low high used q :
  mm_inv s ((n, a) :: low) high used q ->
  exists nx, let s' := kcalloc_state n nx (a + KERNEL_OFFSET) s in
    kcalloc_page s = Ok (a + KERNEL_OFFSET) s' /\
    pmm_inv s' low high ((n, a) :: used) q /\
    (forall j, 0 <= j < 512 -> mem s' !! ent (a + KERNEL_OFFSET) j = Some 0) /\
    (forall w, w <> next_of n -> pg w <> pg (a + KERNEL_OFFSET) -> mem s' !! w = mem s !! w) /\
    (forall w, is_Some (mem s !! w) -> is_Some (mem s' !! w)).
Proof.
  intros [Hpmm Hpt Hnodes Hfr Hnd]. cbn in Hfr. apply Forall_cons in Hfr as [Hf _].
  pose proof Hf as [Hrange [Hal Hback] Htab Hfn]. set (f := a + KERNEL_OFFSET) in *.
  destruct (pmm_alloc_low_inv _ _ _ _ _ _ _ Hpmm) as (nx & Hn & Hr & Hpmm').
  exists nx. cbn zeta. split_and!.
  - unfold kcalloc_page, mbind at 1, M_bind at 1. rewrite Hr.
    assert (a +64 KERNEL_OFFSET = f) as ->.
    { apply u64_small. unfold KERNEL_OFFSET, TWO_GB in *. lia. }
    change (Z.to_nat (PAGE_SIZE / 8)) with 512%nat. unfold mbind, M_bind.
    rewrite zero_loop; [done|]. intros j Hj. cbn.
    rewrite lookup_insert. case_decide; [eauto|]. apply Hback. lia.
  - assert (Hz : forall x, x ∈ ((n, a) :: low ++ high ++ used).*1 ->
      forall m, zeros f 512 0 m !! next_of x = m !! next_of x /\
                zeros f 512 0 m !! addr_of x = m !! addr_of x).
    { intros x Hx m. destruct (Hfn x Hx) as [H1 H2].
      split; apply zeros_out; intros j Hj E; [apply H1|apply H2]; rewrite E;
        change (pg (ent f j) = pg f); apply ent_page; done || lia. }
    destruct Hpmm' as [H1 H2 H3 H4]. split; unfold chain in *; [..|exact H4].
    all: eapply seg_frame; [|eassumption]; intros x Hx; apply Hz.
    all: rewrite fmap_cons, !fmap_app, elem_of_cons, !elem_of_app in *; tauto.
  - intros j Hj. apply zeros_in. lia.
  - intros w Hw Hpg. cbn. rewrite zeros_out.
    + by rewrite lookup_insert_ne.
    + intros j Hj ->. apply Hpg. change (pg (ent f j) = pg f). apply ent_page; done || lia.
  - intros w Hw. apply zeros_mono. cbn. rewrite lookup_insert. case_decide; eauto.
Qed.


(** ** Entering an address and flags *)

Lemma set_mem_insert_twice w v v' s :
  set_mem (insert w v) (set_mem (insert w v') s) = set_mem (insert w v) s.
Proof. unfold set_mem. cbn. by rewrite insert_insert_eq. Qed.

Lemma rmw_run p g v s :
  mem s !! p = Some v -> rmw p g s = Ok tt (set_mem (insert p (g v)) s).
Proof. unfold rmw, mbind, M_bind, rd, wr. intros Hv. by rewrite Hv, Hv. Qed.

Lemma enter_run s e v a (kernel : bool) :
  mem s !! e = Some v ->
  (pml4e_set_addr e a;; pml4e_set_flag e 1;; pml4e_set_flag e 2;;
   (if kernel then pml4e_unset_flag e 4 else pml4e_set_flag e 4)) s =
  Ok tt (set_mem (insert e (new_entry v a kernel)) s).
Proof.
  intros Hv. unfold pml4e_set_addr, pml4e_set_flag, pml4e_unset_flag, mbind, M_bind.
  rewrite (rmw_run _ _ v) by done.
  do 3 (erewrite rmw_run by (cbn; apply lookup_insert_eq); rewrite set_mem_insert_twice).
  destruct kernel; erewrite rmw_run by (cbn; apply lookup_insert_eq);
    rewrite set_mem_insert_twice; done.
Qed.

Lemma query_run p flag v s :
  mem s !! p = Some v -> pml4e_query_flag p flag s = Ok (Z.land v flag =? flag) s.
Proof. unfold pml4e_query_flag, mbind, M_bind, rd. by intros ->. Qed.

Lemma get_addr_run p v s : mem s !! p = Some v -> pml4e_get_addr p s = Ok (entry_addr v) s.
Proof. unfold pml4e_get_addr, mbind, M_bind, rd. by intros ->. Qed.

(** ** The invariant after a new table has been entered *)

Section new_table.
Context (s : kstate) (n a : Z) (low high used : list (Z * Z)) (q0 : Z).
Context (p : list Z) (i t v nx : Z) (kernel : bool).
Let root := pml4_addr s.
Let f := a + KERNEL_OFFSET.
Let s1 := kcalloc_state n nx f s.
Let s' := set_mem (insert (ent t i) (new_entry v a kernel)) s1.
Hypothesis Hmm : mm_inv s ((n, a) :: low) high used q0.
Hypothesis Hlen : (length p < 3)%nat.
Hypothesis Hrp : in_range p.
Hypothesis Hi : 0 <= i < 512.
Hypothesis Ht : tbl (mem s) root p = Some t.
Hypothesis Hv : mem s !! ent t i = Some v.
Hypothesis Hpres : present v = false.
Hypothesis Hpmm1 : pmm_inv s1 low high ((n, a) :: used) q0.
Hypothesis Hzero : forall j, 0 <= j < 512 -> mem s1 !! ent f j = Some 0.
Hypothesis Hsame : forall w, w <> next_of n -> pg w <> pg f -> mem s1 !! w = mem s !! w.
Hypothesis Hmono : forall w, is_Some (mem s !! w) -> is_Some (mem s1 !! w).

Lemma new_frame_ok : frame_ok (mem s) root ((n, a) :: low ++ high ++ used).*1 a.
Proof. pose proof (mm_frames _ _ _ _ _ Hmm) as H. by apply Forall_cons in H as [? _]. Qed.

Lemma new_frame_aligned : f mod 4096 = 0.
Proof. apply new_frame_ok. Qed.

Lemma table_word_page w : table_word (mem s) root w -> pg w <> pg f.
Proof.
  intros (q & x & j & Hq & Hr & Hj & Hx & ->).
  eapply page_word_ne; [apply new_frame_aligned| | |exact Hj|done].
  - by apply (pt_backed _ _ (mm_pt _ _ _ _ _ Hmm) q x).
  - by apply (fr_table _ _ _ _ new_frame_ok q).
Qed.

Lemma entry_table_word : table_word (mem s) root (ent t i).
Proof. exists p, t, i. split_and!; done || lia. Qed.

Lemma entry_not_node x : x ∈ ((n, a) :: low ++ high ++ used).*1 ->
  ent t i <> next_of x /\ ent t i <> addr_of x.
Proof.
  intros Hx. destruct (mm_nodes _ _ _ _ _ Hmm x Hx) as [H1 H2]. pose proof entry_table_word.
  split; intros E; [apply H1|apply H2]; by rewrite <- E.
Qed.

Lemma new_other_words q x j :
  (length q <= 3)%nat -> in_range q -> 0 <= j < 512 -> tbl (mem s) root q = Some x ->
  (q, j) <> (p, i) -> mem s' !! ent x j = mem s !! ent x j.
Proof.
  intros Hq Hr Hj Hx Hne.
  assert (table_word (mem s) root (ent x j)) as Hw by (by exists q, x, j).
  cbn. rewrite lookup_insert_ne.
  - apply Hsame; [|by apply table_word_page]. intros E.
    destruct (mm_nodes _ _ _ _ _ Hmm n) as [H1 _]; [left|]. apply H1. by rewrite <- E.
  - intros E. destruct (tbl_words (mem s) root p q t x i j) as [-> ->]; try done; try lia.
    apply Hmm.
Qed.

Lemma new_zero j : 0 <= j < 512 -> mem s' !! ent f j = Some 0.
Proof.
  intros Hj. cbn. rewrite lookup_insert_ne; [by apply Hzero|]. intros E.
  apply (table_word_page _ entry_table_word). rewrite E. apply ent_page; [|done].
  apply new_frame_aligned.
Qed.

Lemma new_tables :
  pt_inv (mem s') root /\ tbl (mem s') root (p ++ [i]) = Some f /\
  (forall q x, (length q <= 3)%nat -> in_range q -> tbl (mem s') root q = Some x ->
     x = f \/ tbl (mem s) root q = Some x) /\ same_ptes s s'.
Proof.
  destruct (pt_inv_add (mem s) (mem s') root p i t f (new_entry v a kernel))
    as (? & ? & ? & ?); try done.
  - apply Hmm.
  - unfold sub. by rewrite Hv, Hpres.
  - apply new_other_words.
  - cbn. apply lookup_insert_eq.
  - apply new_entry_present.
  - pose proof (fr_range _ _ _ _ new_frame_ok).
    rewrite new_entry_addr, mask_aligned; [|unfold TWO_GB in *; lia|by eapply frame_aligned, new_frame_ok].
    apply u64_small. unfold KERNEL_OFFSET, TWO_GB in *. lia.
  - apply new_zero.
  - apply new_frame_aligned.
  - intros q x Hq Hr Hx. by apply (fr_table _ _ _ _ new_frame_ok q).
Qed.

Lemma new_table_inv :
  mm_inv s' low high ((n, a) :: used) q0 /\
  tbl (mem s') (pml4_addr s') (p ++ [i]) = Some f /\ same_ptes s s'.
Proof.
  destruct new_tables as (Hpt' & Htbl' & Hincl & Hpte'). split; [|done].
  pose proof (mm_frames _ _ _ _ _ Hmm) as Hfr. rewrite fmap_cons in Hfr.
  apply Forall_cons in Hfr as [_ Hfr].
  pose proof (mm_distinct _ _ _ _ _ Hmm) as Hnd. rewrite fmap_cons in Hnd.
  apply NoDup_cons in Hnd as [Hna Hnd].
  assert (Hperm : forall x, x ∈ (low ++ high ++ (n, a) :: used).*1 ->
                            x ∈ ((n, a) :: low ++ high ++ used).*1).
  { intros x. rewrite !fmap_app, !fmap_cons, !fmap_app, !elem_of_cons, !elem_of_app, elem_of_cons. tauto. }
  split; [|done| | |done].
  - destruct Hpmm1 as [H1 H2 H3 H4]. split; unfold chain in *; [..|exact H4].
    all: apply seg_insert; [|assumption]; intros x Hx; apply entry_not_node, Hperm.
    all: rewrite ?fmap_app, ?fmap_cons, ?elem_of_app in *; tauto.
  - intros x Hx%Hperm. destruct (mm_nodes _ _ _ _ _ Hmm x Hx) as [H1 H2].
    destruct (fr_nodes _ _ _ _ new_frame_ok x Hx) as [H3 H4].
    split; intros (q & y & j & Hq & Hr & Hj & Hy & E); destruct (Hincl q y Hq Hr Hy) as [->|Hy'];
      [apply H3; rewrite E; apply ent_page; [apply new_frame_aligned|done]|apply H1|
       apply H4; rewrite E; apply ent_page; [apply new_frame_aligned|done]|apply H2];
      by exists q, y, j.
  - rewrite Forall_forall in *. intros b Hb. destruct (Hfr b Hb) as [Hrange [Hal Hback] Htab Hfn].
    split; [done|split; [done|]| |].
    + intros j Hj. cbn. rewrite lookup_insert. case_decide; eauto.
    + intros q x Hq Hr Hx. destruct (Hincl q x Hq Hr Hx) as [->|Hx']; [|by apply (Htab q)].
      unfold f. intros E. apply Hna. assert (a = b) as -> by lia. done.
    + intros x Hx%Hperm. by apply Hfn.
Qed.

Lemma new_table_only q x : (length q <= 3)%nat -> in_range q ->
  tbl (mem s') root q = Some x -> tbl (mem s) root q = Some x \/ q = p ++ [i].
Proof.
  intros Hq Hr Hx. destruct new_tables as (Hpt' & Htbl' & Hincl & _).
  destruct (Hincl q x Hq Hr Hx) as [->|?]; [right|by left].
  eapply (pt_inj _ _ Hpt'); [done|rewrite length_app; cbn; lia|done|by apply in_range_snoc|done|done].
Qed.

Lemma new_table_quiet :
  quiet s ((n, a) :: low).*2 ((n, a) :: low ++ high ++ used).*1 s' low.*2 (low ++ high ++ (n, a) :: used).*1.
Proof.
  destruct new_tables as (_ & _ & Hincl & _). split; [..|done].
  - intros w Hw Hn Hf. cbn. rewrite lookup_insert_ne by (intros <-; apply Hw, entry_table_word).
    apply Hsame; [apply (Hn n); left|apply (Hf a); left].
  - intros w (q & x & j & Hq & Hr & Hj & Hx & ->). destruct (Hincl q x Hq Hr Hx) as [->|Hx'].
    + right. exists a. split; [left|]. apply ent_page; [apply new_frame_aligned|done].
    + left. by exists q, x, j.
  - intros w Hw. cbn. rewrite lookup_insert. case_decide; eauto.
  - by apply sublist_cons.
  - intros x. rewrite !fmap_app, !fmap_cons, !fmap_app, !elem_of_cons, !elem_of_app, elem_of_cons. tauto.
Qed.

End new_table.

(** ** The table step of [page_map] *)

Lemma land_flag v : (Z.land v 1 =? 1) = present v.
Proof. done. Qed.

Lemma seq4_run {A} (c1 c2 c3 c4 : K unit) (x : A) s s' :
  (c1;; c2;; c3;; c4) s = Ok tt s' -> (c1;; c2;; c3;; c4;; mret x) s = Ok x s'.
Proof.
  unfold mbind, M_bind. destruct (c1 s) as [? s1| | |]; [|done..].
  destruct (c2 s1) as [? s2| | |]; [|done..]. destruct (c3 s2) as [? s3| | |]; [|done..].
  by intros ->.
Qed.

Lemma next_table_spec s low high used q0 p i t kernel :
  mm_inv s low high used q0 -> low <> [] ->
  (length p < 3)%nat -> in_range p -> 0 <= i < 512 ->
  tbl (mem s) (pml4_addr s) p = Some t ->
  exists t' s' low' used', next_table (ent t i) kernel s = Ok t' s' /\
    mm_inv s' low' high used' q0 /\ tbl (mem s') (pml4_addr s') (p ++ [i]) = Some t' /\
    same_ptes s s' /\ (length low <= S (length low'))%nat /\
    quiet s low.*2 (low ++ high ++ used).*1 s' low'.*2 (low' ++ high ++ used').*1 /\
    (forall q x, (length q <= 3)%nat -> in_range q -> tbl (mem s') (pml4_addr s') q = Some x ->
      tbl (mem s) (pml4_addr s) q = Some x \/ q = p ++ [i]) /\ moved low used low' used'.
Proof.
  intros Hmm Hlow Hlen Hrp Hi Ht.
  destruct (pt_backed _ _ (mm_pt _ _ _ _ _ Hmm) p t) as [_ Hb]; [lia|done..|].
  destruct (Hb i Hi) as [v Hv]. unfold next_table.
  rewrite (bind_ok _ _ _ _ _ (get_addr_run _ _ _ Hv)).
  rewrite (bind_ok _ _ _ _ _ (query_run _ PML4E_PDPE_PDE_PRESENT _ _ Hv)), land_flag.
  destruct (present v) eqn:Hpres; cbn [negb].
  - exists (entry_addr v +64 KERNEL_OFFSET), s, low, used. split_and!; try done; [|lia|apply quiet_refl|auto|apply moved_refl].
    rewrite tbl_snoc, Ht. cbn. unfold sub. by rewrite Hv, Hpres.
  - destruct low as [|[n a] low]; [done|].
    destruct (kcalloc_run _ _ _ _ _ _ _ Hmm) as (nx & Hrun & Hpmm1 & Hzero & Hsame & Hmono).
    rewrite (bind_ok _ _ _ _ _ Hrun).
    assert (Hf : frame_ok (mem s) (pml4_addr s) ((n, a) :: low ++ high ++ used).*1 a).
    { pose proof (mm_frames _ _ _ _ _ Hmm) as H. by apply Forall_cons in H as [? _]. }
    assert (Hbefore : mem (kcalloc_state n nx (a + KERNEL_OFFSET) s) !! ent t i = Some v).
    { rewrite Hsame; [done| |].
      - intros E. destruct (mm_nodes _ _ _ _ _ Hmm n) as [H _]; [left|]. apply H.
        rewrite <- E. exists p, t, i. split_and!; done || lia.
      - apply (page_word_ne _ t i); [apply Hf| |eapply fr_table; [exact Hf| |exact Hrp|exact Ht]; lia|done|done].
        eapply pt_backed; [apply Hmm| | |exact Ht]; done || lia. }
    pose proof (enter_run _ _ _ a kernel Hbefore) as Henter.
    replace (u64 (a + KERNEL_OFFSET - KERNEL_OFFSET)) with a.
    2:{ pose proof (fr_range _ _ _ _ Hf). rewrite u64_small; unfold TWO_GB in *; lia. }
    pose proof (new_table_inv s n a low high used q0 p i t v nx kernel
      Hmm Hlen Hrp Hi Ht Hv Hpres Hpmm1 Hzero Hsame Hmono) as (Hmm' & Htbl' & Hpte').
    eexists (a + KERNEL_OFFSET), _, low, ((n, a) :: used). split_and!; [|done|done|done|done|..].
    + apply (seq4_run _ _ _ _ _ _ _ Henter).
    + eapply new_table_quiet; eassumption.
    + intros q x Hq Hr Hx. eapply new_table_only; eassumption.
    + by exists [(n, a)].
Qed.

(** ** Reading a table and writing a leaf *)

(** An entry of a table in use can be read, and decides the table below it. *)
Lemma descend m root p t i :
  pt_inv m root -> (length p <= 3)%nat -> in_range p -> 0 <= i < 512 ->
  tbl m root p = Some t ->
  exists e, m !! ent t i = Some e /\
    tbl m root (p ++ [i]) = if present e then Some (entry_addr e +64 KERNEL_OFFSET) else None.
Proof.
  intros Hpt Hlen Hr Hi Ht. destruct (pt_backed _ _ Hpt p t) as [_ Hb]; [done..|].
  destruct (Hb i Hi) as [e He]. exists e. split; [done|].
  rewrite tbl_snoc, Ht. cbn. unfold sub. by rewrite He.
Qed.

Lemma same_ptes_trans s1 s2 s3 : same_ptes s1 s2 -> same_ptes s2 s3 -> same_ptes s1 s3.
Proof.
  intros [E1 H1] [E2 H2]. split; [congruence|]. intros q j Hq Hr Hj.
  rewrite <- H1, <- E1 by done. by apply H2.
Qed.

(** Writing a word that belongs to no node of the allocator. *)
Lemma pmm_inv_write s low high used q0 w e :
  pmm_inv s low high used q0 ->
  (forall n, n ∈ (low ++ high ++ used).*1 -> w <> next_of n /\ w <> addr_of n) ->
  pmm_inv (set_mem (insert w e) s) low high used q0.
Proof.
  intros [H1 H2 H3 H4] Hw. split; unfold chain in *; [..|exact H4].
  all: apply seg_insert; [|assumption]; intros x Hx; apply Hw.
  all: rewrite !fmap_app, !elem_of_app; tauto.
Qed.

(** Writing the leaf entry [j] of the table under [p]. *)
Lemma leaf_inv s low high used q0 p j pt e' :
  mm_inv s low high used q0 -> length p = 3%nat -> in_range p -> 0 <= j < 512 ->
  tbl (mem s) (pml4_addr s) p = Some pt ->
  let s' := set_mem (insert (ent pt j) e') s in
  mm_inv s' low high used q0 /\
  (forall q, (length q <= 3)%nat -> in_range q ->
     tbl (mem s') (pml4_addr s') q = tbl (mem s) (pml4_addr s) q) /\
  forall q k, length q = 3%nat -> in_range q -> 0 <= k < 512 ->
    pte_of (mem s') (pml4_addr s') q k =
      if decide ((q, k) = (p, j)) then (if present e' then Some e' else None)
      else pte_of (mem s) (pml4_addr s) q k.
Proof.
  intros Hmm Hp Hr Hj Hpt s'.
  destruct (pt_inv_leaf (mem s) (pml4_addr s) p j pt e') as (Hpt' & Htbl & Hpte); [apply Hmm|done..|].
  assert (Hword : table_word (mem s) (pml4_addr s) (ent pt j)) by (exists p, pt, j; split_and!; done || lia).
  assert (Htw : forall w, table_word (mem s') (pml4_addr s') w -> table_word (mem s) (pml4_addr s) w).
  { intros w (q & x & k & Hq & Hrq & Hk & Hx & ->). exists q, x, k. split_and!; try done; try lia.
    rewrite <- Htbl; done. }
  split; [|done]. destruct Hmm as [Hpmm Hpt0 Hn Hfr Hnd]. split; try done.
  - apply pmm_inv_write; [done|]. intros x Hx.
    destruct (Hn x Hx) as [Hx1 Hx2]; split; intros E; [apply Hx1|apply Hx2]; by rewrite <- E.
  - intros x Hx. destruct (Hn x Hx) as [Hx1 Hx2]. split; intros E; [apply Hx1|apply Hx2]; by apply Htw.
  - rewrite Forall_forall in *. intros b Hb. destruct (Hfr b Hb) as [Hrange [Hal Hback] Htab Hfn].
    split; [done|split; [done|]| |done].
    + intros k Hk. cbn. rewrite lookup_insert. case_decide; eauto.
    + intros q x Hq Hrq. cbn. rewrite Htbl by done. by apply Htab.
Qed.

Lemma leaf_calm s low high used q0 p j pt e' ns :
  mm_inv s low high used q0 -> length p = 3%nat -> in_range p -> 0 <= j < 512 ->
  tbl (mem s) (pml4_addr s) p = Some pt ->
  calm s ns (set_mem (insert (ent pt j) e') s).
Proof.
  intros Hmm Hp Hr Hj Hpt. destruct (leaf_inv s low high used q0 p j pt e' Hmm Hp Hr Hj Hpt) as (_ & Htbl & _).
  split; [| |exact Htbl|done].
  - intros w Hw _. apply lookup_insert_ne. intros <-. apply Hw. exists p, pt, j. split_and!; done || lia.
  - intros w. cbn. rewrite lookup_insert. case_decide; eauto.
Qed.

(** The translation [v] has in terms of its leaf entry. *)
Lemma translate_pte s s' v :
  pml4_addr s' = pml4_addr s ->
  pte_of (mem s') (pml4_addr s') (vpath v) (virt_addr_get_pte v) =
    pte_of (mem s) (pml4_addr s) (vpath v) (virt_addr_get_pte v) ->
  translate s' v = translate s v.
Proof. intros Hr E. unfold translate. by rewrite E. Qed.

(** The page number of the 48 translated bits of an address. *)
Definition vpn (v : Z) : Z := (v / 4096) mod 2 ^ 36.

Lemma idx_eq v k : 0 <= k -> Z.land (Z.shiftr v k) 0x1FF = (v / 2 ^ k) mod 512.
Proof.
  intros Hk. change 0x1FF with (Z.ones 9). rewrite Z.land_ones, Z.shiftr_div_pow2 by lia. done.
Qed.

Lemma vpn_split v :
  vpn v = ((virt_addr_get_pml4e v * 512 + virt_addr_get_pdpe v) * 512 + virt_addr_get_pde v) * 512
            + virt_addr_get_pte v.
Proof.
  unfold vpn, virt_addr_get_pml4e, virt_addr_get_pdpe, virt_addr_get_pde, virt_addr_get_pte.
  rewrite !idx_eq by lia.
  replace (v / 2 ^ 39) with (v / 4096 / 512 / 512 / 512) by (rewrite !Z.div_div by lia; done).
  replace (v / 2 ^ 30) with (v / 4096 / 512 / 512) by (rewrite !Z.div_div by lia; done).
  replace (v / 2 ^ 21) with (v / 4096 / 512) by (rewrite !Z.div_div by lia; done).
  change (2 ^ 12) with 4096. set (x := v / 4096). change (2 ^ 36) with (512 * (512 * (512 * 512))).
  rewrite (Z.rem_mul_r x 512 (512 * (512 * 512))), (Z.rem_mul_r (x / 512) 512 (512 * 512)),
    (Z.rem_mul_r (x / 512 / 512) 512 512) by lia. lia.
Qed.

(** Two addresses have the same leaf entry iff they lie in the same page. *)
Lemma vpn_path v w :
  vpn v = vpn w <-> (vpath v, virt_addr_get_pte v) = (vpath w, virt_addr_get_pte w).
Proof.
  rewrite !vpn_split. split.
  - intros E. unfold vpath.
    destruct (Forall_cons_1 _ _ _ (vpath_range v)) as [R1 [R2 [R3 _]%Forall_cons_1]%Forall_cons_1].
    destruct (Forall_cons_1 _ _ _ (vpath_range w)) as [S1 [S2 [S3 _]%Forall_cons_1]%Forall_cons_1].
    pose proof (pte_range v) as R4. pose proof (pte_range w) as S4.
    assert (virt_addr_get_pml4e v = virt_addr_get_pml4e w) as -> by lia.
    assert (virt_addr_get_pdpe v = virt_addr_get_pdpe w) as -> by lia.
    assert (virt_addr_get_pde v = virt_addr_get_pde w) as -> by lia.
    by assert (virt_addr_get_pte v = virt_addr_get_pte w) as -> by lia.
  - by intros [= -> -> -> ->].
Qed.

Lemma offset_mod v : Z.land v (PAGE_SIZE - 1) = v mod 4096.
Proof. change (PAGE_SIZE - 1) with (Z.ones 12). by rewrite Z.land_ones by lia. Qed.

End PageOps.
