(* ===== verification/PageProps.v ===== *)
(** * The properties of the page tables

    The tables implement a finite map from virtual pages to leaf entries:
    [page_map] inserts, [page_unmap] deletes, [page_virt_to_phys_addr] looks
    up.  The exception is the unmapping of the last page of a table, which
    leaves a freed frame in the tree. *)

From S2P Require Import Prelude KMath Machine Pmm PmmProps Page PageEntry PageTables PageOps.
Import KMath Machine Pmm PmmProps KMalloc Page PageEntry PageTables PageOps.

Module PageProps.

(** ** Lookup *)

(** A guarded step of a table walk: query the present flag, then read the address. *)
Lemma walk_step {A} (s : kstate) p t i (absent : A) (k : Z -> K A) :
  pt_inv (mem s) (pml4_addr s) -> (length p <= 3)%nat -> in_range p -> 0 <= i < 512 ->
  tbl (mem s) (pml4_addr s) p = Some t ->
  (present ← pml4e_query_flag (ent t i) PML4E_PDPE_PDE_PRESENT;
   if negb present then mret absent else a ← pml4e_get_addr (ent t i); k a) s =
  match mem s !! ent t i with
  | Some e => if present e then k (entry_addr e) s else Ok absent s
  | None => Fault
  end.
Proof.
  intros Hpt Hp Hr Hi Ht. destruct (descend _ _ _ _ _ Hpt Hp Hr Hi Ht) as (e & He & _).
  rewrite He, (bind_ok _ _ _ _ _ (query_run _ PML4E_PDPE_PDE_PRESENT _ _ He)), land_flag.
  destruct (present e); cbn; [|done]. by rewrite (bind_ok _ _ _ _ _ (get_addr_run _ _ _ He)).
Qed.

(** The walk of [page_virt_to_phys_addr] follows the tree of tables. *)
Lemma virt_to_phys_run s v :
  pt_inv (mem s) (pml4_addr s) ->
  page_virt_to_phys_addr v s = Ok (default 0 (translate s v)) s.
Proof.
  intros Hpt. unfold translate, pte_of, vpath, page_virt_to_phys_addr.
  pose proof (idx_range v 39) as R1. pose proof (idx_range v 30) as R2.
  pose proof (idx_range v 21) as R3. pose proof (idx_range v 12) as R4.
  unfold virt_addr_get_pml4e, virt_addr_get_pdpe, virt_addr_get_pde, virt_addr_get_pte.
  set (i1 := Z.land (Z.shiftr v 39) 511) in *. set (i2 := Z.land (Z.shiftr v 30) 511) in *.
  set (i3 := Z.land (Z.shiftr v 21) 511) in *. set (i4 := Z.land (Z.shiftr v 12) 511) in *.
  assert (Q0 : in_range []) by constructor.
  assert (Q1 : in_range ([] ++ [i1])) by (by apply in_range_snoc).
  assert (Q2 : in_range (([] ++ [i1]) ++ [i2])) by (by apply in_range_snoc).
  assert (Q3 : in_range ((([] ++ [i1]) ++ [i2]) ++ [i3])) by (by apply in_range_snoc).
  rewrite (bind_ok _ _ _ _ _ (eq_refl : gets pml4_addr s = Ok (pml4_addr s) s)).
  unfold pdpe_query_flag, pde_query_flag, pte_query_flag, pdpe_get_addr, pde_get_addr, pte_get_addr,
    PTE_PRESENT. change 1 with PML4E_PDPE_PDE_PRESENT.
  rewrite (walk_step s []); try done; [|cbn; lia].
  destruct (descend _ _ [] _ i1 Hpt ltac:(cbn; lia) Q0 R1 eq_refl) as (e1 & He1 & Ht1).
  cbn [tbl]. unfold sub at 1. rewrite He1. destruct (present e1); [|done].
  rewrite (walk_step s ([] ++ [i1])); try done; [|cbn; lia].
  destruct (descend _ _ ([] ++ [i1]) _ i2 Hpt ltac:(cbn; lia) Q1 R2 Ht1) as (e2 & He2 & Ht2).
  cbn [tbl]. unfold sub at 1. rewrite He2. destruct (present e2); [|done].
  rewrite (walk_step s (([] ++ [i1]) ++ [i2])); try done; [|cbn; lia].
  destruct (descend _ _ (([] ++ [i1]) ++ [i2]) _ i3 Hpt ltac:(cbn; lia) Q2 R3 Ht2) as (e3 & He3 & Ht3).
  cbn [tbl]. unfold sub at 1. rewrite He3. destruct (present e3); [|done].
  rewrite (walk_step s ((([] ++ [i1]) ++ [i2]) ++ [i3])); try done.
  destruct (descend _ _ ((([] ++ [i1]) ++ [i2]) ++ [i3]) _ i4 Hpt ltac:(cbn; lia) Q3 R4 Ht3) as (e4 & He4 & _).
  cbn. rewrite He4. cbn. by destruct (present e4).
Qed.

(** C3. On a well-formed table tree [page_virt_to_phys_addr] returns the
    translation of the address, and 0 if some level has no present entry for
    it; it changes nothing. *)
Theorem page_virt_to_phys_correct s v :
  pt_inv (mem s) (pml4_addr s) ->
  page_virt_to_phys_addr v s = Ok (default 0 (translate s v)) s.
Proof. apply virt_to_phys_run. Qed.

(** ** Insertion *)

(** The three table steps of [page_map]. *)
Lemma map_tables s low high used q0 virt kernel :
  mm_inv s low high used q0 -> (3 <= length low)%nat ->
  exists pt s' low' used',
    (pdpt ← next_table (ent (pml4_addr s) (virt_addr_get_pml4e virt)) kernel;
     pdt ← next_table (ent pdpt (virt_addr_get_pdpe virt)) kernel;
     next_table (ent pdt (virt_addr_get_pde virt)) kernel) s = Ok pt s' /\
    mm_inv s' low' high used' q0 /\ tbl (mem s') (pml4_addr s') (vpath virt) = Some pt /\
    same_ptes s s' /\ (length low <= 3 + length low')%nat /\
    quiet s low.*2 (low ++ high ++ used).*1 s' low'.*2 (low' ++ high ++ used').*1 /\
    (forall q x, length q = 3%nat -> in_range q -> tbl (mem s') (pml4_addr s') q = Some x ->
      tbl (mem s) (pml4_addr s) q = Some x \/ q = vpath virt) /\ moved low used low' used'.
Proof.
  intros Hmm Hlen. destruct low as [|x0 low]; [cbn in Hlen; lia|].
  destruct (next_table_spec s (x0 :: low) high used q0 [] (virt_addr_get_pml4e virt) (pml4_addr s) kernel)
    as (t1 & s1 & low1 & used1 & Hr1 & Hmm1 & Ht1 & Hp1 & Hl1 & Hq1 & Ho1 & Hv1);
    [done|done|cbn; lia|constructor|apply idx_range|done|].
  destruct low1 as [|x1 low1]; [cbn in *; lia|].
  destruct (next_table_spec s1 (x1 :: low1) high used1 q0 [virt_addr_get_pml4e virt]
      (virt_addr_get_pdpe virt) t1 kernel)
    as (t2 & s2 & low2 & used2 & Hr2 & Hmm2 & Ht2 & Hp2 & Hl2 & Hq2 & Ho2 & Hv2);
    [done|done|cbn; lia|by repeat constructor; apply idx_range|apply idx_range|done|].
  destruct low2 as [|x2 low2]; [cbn in *; lia|].
  destruct (next_table_spec s2 (x2 :: low2) high used2 q0
      [virt_addr_get_pml4e virt; virt_addr_get_pdpe virt] (virt_addr_get_pde virt) t2 kernel)
    as (t3 & s3 & low3 & used3 & Hr3 & Hmm3 & Ht3 & Hp3 & Hl3 & Hq3 & Ho3 & Hv3);
    [done|done|cbn; lia|by repeat constructor; apply idx_range|apply idx_range|done|].
  exists t3, s3, low3, used3. split_and!; try done.
  - by rewrite (bind_ok _ _ _ _ _ Hr1), (bind_ok _ _ _ _ _ Hr2).
  - eauto using same_ptes_trans.
  - cbn in *. lia.
  - eapply quiet_trans; [exact Hq1|]. by eapply quiet_trans.
  - intros q x Hq Hr Hx. destruct (Ho3 q x) as [Hx2| ->]; [lia|done|done| |by right].
    destruct (Ho2 q x) as [Hx1| ->]; [lia|done|done| |done]. destruct (Ho1 q x) as [?| ->]; [lia|done|done|by left|done].
  - eauto using moved_trans.
Qed.

(** The state [page_map] leaves: the tables are found or made, then the leaf is written. *)
Lemma page_map_run s low high used q0 virt phys kernel :
  mm_inv s low high used q0 -> (3 <= length low)%nat ->
  exists pt s1 low1 used1 e0,
    page_map virt phys kernel s =
      Ok tt (set_mem (insert (ent pt (virt_addr_get_pte virt)) (new_entry e0 phys kernel)) s1) /\
    mm_inv s1 low1 high used1 q0 /\ tbl (mem s1) (pml4_addr s1) (vpath virt) = Some pt /\
    same_ptes s s1 /\ (length low <= 3 + length low1)%nat /\
    quiet s low.*2 (low ++ high ++ used).*1 s1 low1.*2 (low1 ++ high ++ used1).*1 /\
    (forall q x, length q = 3%nat -> in_range q -> tbl (mem s1) (pml4_addr s1) q = Some x ->
      tbl (mem s) (pml4_addr s) q = Some x \/ q = vpath virt) /\ moved low used low1 used1.
Proof.
  intros Hmm Hlen.
  destruct (map_tables s low high used q0 virt kernel Hmm Hlen)
    as (pt & s1 & low1 & used1 & Hr & Hmm1 & Ht & Hsame & Hl & Hquiet & Honly & Hmv).
  destruct (pt_backed _ _ (mm_pt _ _ _ _ _ Hmm1) (vpath virt) pt) as [_ Hb];
    [done|apply vpath_range|done|].
  destruct (Hb _ (pte_range virt)) as [e0 He0].
  pose proof (enter_run _ _ _ phys kernel He0) as Henter.
  exists pt, s1, low1, used1, e0. split; [|done].
  revert Hr. unfold page_map. rewrite (bind_ok _ _ _ _ _ (eq_refl : gets pml4_addr s = Ok (pml4_addr s) s)).
  unfold mbind, M_bind. destruct (next_table _ kernel s) as [a1 s1'| | |]; [|done..].
  destruct (next_table _ kernel s1') as [a2 s2'| | |]; [|done..]. intros ->. exact Henter.
Qed.

(** What [page_map] does, for any physical address: the page gets the address
    bits of [phys]; only tables, nodes and free frames are written, and the
    page table of [virt] is the only one that may be new. *)
Lemma page_map_full s low high used q0 virt phys kernel :
  mm_inv s low high used q0 -> (3 <= length low)%nat ->
  exists s' low' used', page_map virt phys kernel s = Ok tt s' /\
    mm_inv s' low' high used' q0 /\ (length low <= 3 + length low')%nat /\
    (forall v, translate s' v =
       if decide (vpn v = vpn virt) then Some (Z.land phys ADDR_MASK +64 Z.land v (PAGE_SIZE - 1))
       else translate s v) /\
    (exists e, pte_of (mem s') (pml4_addr s') (vpath virt) (virt_addr_get_pte virt) = Some e /\
      Z.testbit e 2 = negb kernel /\ Z.testbit e 1 = true) /\
    quiet s low.*2 (low ++ high ++ used).*1 s' low'.*2 (low' ++ high ++ used').*1 /\
    (forall q x, length q = 3%nat -> in_range q -> tbl (mem s') (pml4_addr s') q = Some x ->
      tbl (mem s) (pml4_addr s) q = Some x \/ q = vpath virt) /\ moved low used low' used'.
Proof.
  intros Hmm Hlen.
  destruct (page_map_run s low high used q0 virt phys kernel Hmm Hlen)
    as (pt & s1 & low1 & used1 & e0 & Hr & Hmm1 & Ht & [Hroot Hsame] & Hl & Hq & Ho & Hmv).
  pose proof (leaf_calm s1 low1 high used1 q0 (vpath virt) (virt_addr_get_pte virt) pt (new_entry e0 phys kernel)
    (low1 ++ high ++ used1).*1 Hmm1 ltac:(done) (vpath_range virt) (pte_range virt) Ht) as Hq2%(calm_quiet _ _ _ low1.*2).
  destruct (leaf_inv s1 low1 high used1 q0 (vpath virt) (virt_addr_get_pte virt) pt
    (new_entry e0 phys kernel)) as (Hmm2 & Htbl & Hpte); [done|done|apply vpath_range|apply pte_range|done|].
  rewrite new_entry_present in Hpte.
  eexists _, low1, used1. split; [exact Hr|]. split; [exact Hmm2|]. split; [done|]. split_and!.
  - intros v. unfold translate. rewrite Hpte by first [done|apply vpath_range|apply pte_range].
    case_decide as Hd; case_decide as Hd'; try (by apply vpn_path in Hd || apply vpn_path in Hd').
    + cbn. by rewrite new_entry_addr.
    + by rewrite <- Hsame, Hroot by first [done|apply vpath_range|apply pte_range].
  - exists (new_entry e0 phys kernel). rewrite Hpte, decide_True by first [done|apply vpath_range|apply pte_range].
    split; [done|]. split; [apply new_entry_user|apply new_entry_writable].
  - by eapply quiet_trans.
  - intros q x Hq3 Hrq. rewrite Htbl by (done || lia). by apply Ho.
  - done.
Qed.

(** C2. With three free frames [page_map] always succeeds: it maps the page of
    [virt], and no other page, to [phys], with the user flag the negation of
    [kernel] and the writable flag set, takes at most three frames for new
    tables, and keeps the allocator and the table tree well-formed. *)
Theorem page_map_inserts s low high used q0 virt phys kernel :
  mm_inv s low high used q0 -> (3 <= length low)%nat ->
  0 <= phys < 2 ^ 52 -> phys mod 4096 = 0 ->
  exists s' low' used', page_map virt phys kernel s = Ok tt s' /\
    mm_inv s' low' high used' q0 /\ (length low <= 3 + length low')%nat /\
    (forall v, translate s' v = if decide (vpn v = vpn virt) then Some (phys + v mod 4096)
                                else translate s v) /\
    exists e, pte_of (mem s') (pml4_addr s') (vpath virt) (virt_addr_get_pte virt) = Some e /\
      Z.testbit e 2 = negb kernel /\ Z.testbit e 1 = true.
Proof.
  intros Hmm Hlen Hphys Hal. destruct (page_map_full s low high used q0 virt phys kernel Hmm Hlen)
    as (s' & low' & used' & Hr & Hmm' & Hl & Htr & He & _ & _ & _).
  exists s', low', used'. split_and!; [done..| |done]. intros v. rewrite Htr. case_decide; [|done].
  rewrite mask_aligned, offset_mod, u64_small by (done || dlia). done.
Qed.

(** *** A machine with an empty PML4 *)

Lemma empty_tables m root :
  root mod 4096 = 0 -> (forall i, 0 <= i < 512 -> m !! ent root i = Some 0) ->
  pt_inv m root /\ forall q x, in_range q -> tbl m root q = Some x -> q = [] /\ x = root.
Proof.
  intros Hal Hz.
  assert (H : forall q x, in_range q -> tbl m root q = Some x -> q = [] /\ x = root).
  { intros [|i q] x Hr; cbn; [by intros [= ->]|].
    apply Forall_cons in Hr as [Hi _]. unfold sub. by rewrite Hz. }
  split; [split|done].
  - intros q x _ Hr Hx. destruct (H q x Hr Hx) as [-> ->]. split; [done|]. intros. rewrite Hz; eauto.
  - intros q q' x _ _ Hr Hr' Hx Hx'. destruct (H q x Hr Hx), (H q' x Hr' Hx'). congruence.
Qed.

(** Checking a property of all the entries of a table. *)
Lemma all_entries (P : Z -> bool) :
  forallb P (seqZ 0 512) = true -> forall i, 0 <= i < 512 -> P i = true.
Proof.
  intros H i Hi. rewrite forallb_forall in H. apply H, list_elem_of_In, elem_of_seqZ. lia.
Qed.

(** [k] + 2 pages of RAM from 0x1000 on: the first holds the nodes of the [k]
    frames that follow it, the last is an empty PML4. *)
Definition machine_end (k : nat) : Z := 0x1000 * (Z.of_nat k + 2).
Definition machine_root (k : nat) : Z := machine_end k + KERNEL_OFFSET.
Definition machine_frames (k : nat) : list Z := (fun i => 0x1000 * (Z.of_nat i + 2)) <$> seq 0 k.
Definition paging_node (i : nat) : Z := 0x1000 + KERNEL_OFFSET + 16 * Z.of_nat i.
Definition machine_low (k : nat) : list (Z * Z) := zip (paging_node <$> seq 0 k) (machine_frames k).
Definition machine_state (k : nat) : kstate :=
  set_pml4 (machine_end k) (machine_root k)
    (after (pmm_add_block 0x1000 (machine_end k))
       (set_nodes_needed (Z.of_nat k) (boot_state (ram (0x1000 + KERNEL_OFFSET) (512 * (k + 2)))))).

(** [seg] as a test. *)
Fixpoint segb (m : gmap Z Z) (p : Z) (l : list (Z * Z)) (q : Z) : bool :=
  match l with
  | [] => p =? q
  | (n, a) :: l' => (p =? n) && negb (n =? 0) && bool_decide (m !! addr_of n = Some a) &&
      match m !! next_of n with Some nx => segb m nx l' q | None => false end
  end.

Lemma segb_seg m l q : forall p, segb m p l q = true -> seg m p l q.
Proof.
  induction l as [|[n a] l IH]; intros p; cbn; [lia|].
  intros [[[Hp Hn]%andb_true_iff Ha%bool_decide_eq_true]%andb_true_iff Hx]%andb_true_iff.
  destruct (m !! next_of n) as [nx|]; [|done]. split; [lia|]. split; [lia|]. exists nx. auto.
Qed.

(** What the following lemmas say of the state, as one test. *)
Definition node_page : Z := 0x1000 + KERNEL_OFFSET.
Definition machine_test (k : nat) (s : kstate) : bool :=
  (pmm_high s =? 0) && (pmm_free_list s =? 0) && segb (mem s) (pmm_low s) (machine_low k) 0 &&
  bool_decide (apart (machine_low k).*1) &&
  bool_decide (Forall (fun n => pg (next_of n) = pg node_page /\ pg (addr_of n) = pg node_page) (machine_low k).*1) &&
  bool_decide (Forall (fun a => 0 <= a < TWO_GB /\ pg (a + KERNEL_OFFSET) <> pg node_page /\
    a + KERNEL_OFFSET <> machine_root k /\ (a + KERNEL_OFFSET) mod 4096 = 0) (machine_low k).*2) &&
  bool_decide (NoDup (machine_low k).*2) && bool_decide (pg node_page <> pg (machine_root k)) &&
  forallb (fun t => forallb (fun i => bool_decide (is_Some (mem s !! ent (t + KERNEL_OFFSET) i))) (seqZ 0 512)) (machine_low k).*2 &&
  forallb (fun i => bool_decide (mem s !! ent (machine_root k) i = Some 0)) (seqZ 0 512) &&
  bool_decide (pml4_addr s = machine_root k).

Section tested.
Context (k : nat) (s : kstate) (Htest : machine_test k s = true).

Lemma machine_root_aligned : machine_root k mod 4096 = 0.
Proof. unfold machine_root, machine_end, KERNEL_OFFSET. dlia. Qed.

Lemma tested_inv : mm_inv s (machine_low k) [] [] 0.
Proof.
  pose proof Htest as H. unfold machine_test in H.
  repeat (apply andb_true_iff in H as [H ?]).
  repeat match goal with Hb : bool_decide _ = true |- _ => apply bool_decide_eq_true in Hb end.
  match goal with Hb : segb _ _ _ _ = true |- _ => apply segb_seg in Hb; rename Hb into Hl end.
  match goal with Hb : pml4_addr s = _ |- _ => rename Hb into Hroot end.
  match goal with Hb : forallb _ (machine_low k).*2 = true |- _ => rename Hb into Hback end.
  match goal with Hb : forallb (fun i => bool_decide (mem s !! ent (machine_root k) i = Some 0)) _ = true |- _ => rename Hb into Hz end.
  match goal with Hb : Forall (fun n => pg (next_of n) = _ /\ _) _ |- _ => rename Hb into Hn; rewrite Forall_forall in Hn end.
  match goal with Hb : Forall _ (machine_low k).*2 |- _ => rename Hb into Hf; rewrite Forall_forall in Hf end.
  assert (Hzero : forall i, 0 <= i < 512 -> mem s !! ent (machine_root k) i = Some 0).
  { intros i Hi. by apply all_entries with (i := i), bool_decide_eq_true in Hz. }
  destruct (empty_tables (mem s) (machine_root k)) as [Hpt Hone]; [apply machine_root_aligned|done|].
  assert (Htw : forall w, pg w <> pg (machine_root k) -> ~ table_word (mem s) (machine_root k) w).
  { intros w Hw (q & x & j & _ & Hr & Hj & Hx & ->). apply Hw.
    destruct (Hone q x Hr Hx) as [_ ->]. apply ent_page; [apply machine_root_aligned|done]. }
  split; rewrite ?Hroot, ?app_nil_r; [|exact Hpt| | |done].
  - split; [done|unfold chain; cbn [seg]; lia|cbn [seg]; lia|by rewrite !app_nil_r].
  - intros n [H1 H2]%Hn. split; apply Htw; rewrite ?H1, ?H2; done.
  - rewrite Forall_forall. intros a Ha. destruct (Hf a Ha) as (F1 & F2 & F3 & F4). split; [done|split; [done|]| |].
    + intros i Hi. rewrite forallb_forall in Hback. apply list_elem_of_In, Hback in Ha.
      by apply all_entries with (i := i), bool_decide_eq_true in Ha.
    + intros q x _ Hr Hx. destruct (Hone q x Hr Hx) as [_ ->]. done.
    + intros n [E1 E2]%Hn. rewrite E1, E2. auto.
Qed.

(** There are no tables but the root. *)
Lemma tested_no_table p : in_range p -> p <> [] -> tbl (mem s) (pml4_addr s) p = None.
Proof.
  intros Hr Hne. pose proof Htest as H. unfold machine_test in H.
  apply andb_true_iff in H as [[_ Hz]%andb_true_iff ->%bool_decide_eq_true].
  destruct (empty_tables (mem s) (machine_root k)) as [_ Hone]; [apply machine_root_aligned| |].
  { intros i Hi. by apply all_entries with (i := i), bool_decide_eq_true in Hz. }
  destruct (tbl _ _ p) as [x|] eqn:E; [|done]. by destruct (Hone p x Hr E).
Qed.

End tested.

(** The machine with seven frames. *)
Definition paging_state : kstate := machine_state 7.
Definition paging_low : list (Z * Z) := zip (paging_node <$> seq 0 7) [0x2000; 0x3000; 0x4000; 0x5000; 0x6000; 0x7000; 0x8000].

Lemma paging_tested : machine_test 7 paging_state = true.
Proof. vm_compute. reflexivity. Qed.

Lemma paging_inv : mm_inv paging_state paging_low [] [] 0.
Proof. exact (tested_inv 7 paging_state paging_tested). Qed.

Lemma page_virt_to_phys_correct_witness :
  page_virt_to_phys_addr 0x400123 paging_state = Ok 0 paging_state.
Proof.
  rewrite (page_virt_to_phys_correct paging_state 0x400123 (mm_pt _ _ _ _ _ paging_inv)).
  assert (translate paging_state 0x400123 = None) as -> by (unfold translate, pte_of;
    rewrite (tested_no_table 7 paging_state paging_tested) by (apply vpath_range || done); done). reflexivity.
Defined.

Lemma page_map_inserts_witness :
  exists s' low' used', page_map 0x400000 0x123000 true paging_state = Ok tt s' /\
    mm_inv s' low' [] used' 0 /\ (7 <= 3 + length low')%nat /\
    (forall v, translate s' v = if decide (vpn v = vpn 0x400000) then Some (0x123000 + v mod 4096)
                                else translate paging_state v) /\
    exists e, pte_of (mem s') (pml4_addr s') (vpath 0x400000) (virt_addr_get_pte 0x400000) = Some e /\
      Z.testbit e 2 = false /\ Z.testbit e 1 = true.
Proof.
  apply (page_map_inserts paging_state paging_low [] [] 0 0x400000 0x123000 true);
    [apply paging_inv|cbn; lia|lia|done].
Defined.

(** ** Deletion *)

Definition present_at (m : gmap Z Z) (t i : Z) : bool :=
  match m !! ent t i with Some e => present e | None => false end.

(** Does table [t] have a present entry other than [k]? *)
Definition others (m : gmap Z Z) (t k : Z) : bool :=
  existsb (fun i => present_at m t i && negb (i =? k)) (seqZ 0 512).

Lemma scan_used_run n i s t1 t2 t3 k1 k2 k3 b1 b2 b3 :
  (forall j, i <= j < i + Z.of_nat n -> is_Some (mem s !! ent t1 j) /\
     is_Some (mem s !! ent t2 j) /\ is_Some (mem s !! ent t3 j)) ->
  let ex t k := existsb (fun j => present_at (mem s) t j && negb (j =? k)) (seqZ i (Z.of_nat n)) in
  scan_used n i t1 t2 t3 k1 k2 k3 (b1, b2, b3) s = Ok (b1 || ex t1 k1, b2 || ex t2 k2, b3 || ex t3 k3) s.
Proof.
  revert i b1 b2 b3. induction n as [|n IH]; intros i b1 b2 b3 Hb; cbn zeta.
  { cbn. by rewrite !orb_false_r. }
  destruct (Hb i) as ([e1 H1] & [e2 H2] & [e3 H3]); [lia|].
  rewrite seqZ_cons by lia. replace (Z.pred (Z.of_nat (S n))) with (Z.of_nat n) by lia.
  cbn [scan_used existsb]. unfold pdpe_query_flag, pde_query_flag, pte_query_flag, PTE_PRESENT.
  rewrite (bind_ok _ _ _ _ _ (query_run _ PML4E_PDPE_PDE_PRESENT _ _ H1)).
  rewrite (bind_ok _ _ _ _ _ (query_run _ PML4E_PDPE_PDE_PRESENT _ _ H2)).
  rewrite (bind_ok _ _ _ _ _ (query_run _ 1 _ _ H3)), !land_flag.
  assert (present_at (mem s) t1 i = present e1) as -> by (unfold present_at; by rewrite H1).
  assert (present_at (mem s) t2 i = present e2) as -> by (unfold present_at; by rewrite H2).
  assert (present_at (mem s) t3 i = present e3) as -> by (unfold present_at; by rewrite H3).
  rewrite IH by (intros; apply Hb; lia). by rewrite !orb_assoc.
Qed.

(** [page_unmap] once the three tables have been found. *)
Definition unmap_tail (virt pdpt pdt pt : Z) (pdpt_used pdt_used pt_used : bool) : K unit :=
  (if negb pdpt_used && negb pdt_used && negb pt_used then kfree_page pdpt else mret tt);;
  (if negb pdt_used && negb pt_used then kfree_page pdt else mret tt);;
  (if negb pt_used then kfree_page pt else mret tt);;
  present ← pte_query_flag (ent pt (virt_addr_get_pte virt)) PTE_PRESENT;
  if negb present then mret tt else
  wr (ent pt (virt_addr_get_pte virt)) 0;;
  invplg virt.

Lemma page_unmap_run s virt :
  pt_inv (mem s) (pml4_addr s) ->
  let tb := tbl (mem s) (pml4_addr s) in
  page_unmap virt s =
    match tb [virt_addr_get_pml4e virt], tb [virt_addr_get_pml4e virt; virt_addr_get_pdpe virt],
          tb (vpath virt) with
    | Some pdpt, Some pdt, Some pt =>
        unmap_tail virt pdpt pdt pt (others (mem s) pdpt (virt_addr_get_pdpe virt))
          (others (mem s) pdt (virt_addr_get_pde virt)) (others (mem s) pt (virt_addr_get_pte virt)) s
    | _, _, _ => Ok tt s
    end.
Proof.
  intros Hpt tb. unfold page_unmap, vpath.
  pose proof (idx_range virt 39) as R1. pose proof (idx_range virt 30) as R2.
  pose proof (idx_range virt 21) as R3. pose proof (vpath_range virt) as Q3.
  unfold vpath, virt_addr_get_pml4e, virt_addr_get_pdpe, virt_addr_get_pde in *.
  set (i1 := Z.land (Z.shiftr virt 39) 511) in *. set (i2 := Z.land (Z.shiftr virt 30) 511) in *.
  set (i3 := Z.land (Z.shiftr virt 21) 511) in *.
  assert (Q0 : in_range []) by constructor.
  assert (Q1 : in_range [i1]) by (apply (in_range_snoc []); done).
  assert (Q2 : in_range [i1; i2]) by (apply (in_range_snoc [i1]); done).
  rewrite (bind_ok _ _ _ _ _ (eq_refl : gets pml4_addr s = Ok (pml4_addr s) s)).
  unfold pdpe_query_flag, pde_query_flag, pdpe_get_addr, pde_get_addr.
  rewrite (walk_step s []); try done; [|cbn; lia].
  destruct (descend _ _ [] _ i1 Hpt ltac:(cbn; lia) Q0 R1 eq_refl) as (e1 & He1 & Ht1). cbn [app] in Ht1.
  unfold tb. rewrite Ht1, He1. destruct (present e1); [|done].
  rewrite (walk_step s [i1]); try done; [|cbn; lia].
  destruct (descend _ _ [i1] _ i2 Hpt ltac:(cbn; lia) Q1 R2 Ht1) as (e2 & He2 & Ht2). cbn [app] in Ht2.
  rewrite Ht2, He2. destruct (present e2); [|done].
  rewrite (walk_step s [i1; i2]); try done; [|cbn; lia].
  destruct (descend _ _ [i1; i2] _ i3 Hpt ltac:(cbn; lia) Q2 R3 Ht2) as (e3 & He3 & Ht3). cbn [app] in Ht3.
  rewrite Ht3, He3. destruct (present e3); [|done].
  erewrite bind_ok; [|apply scan_used_run].
  - done.
  - intros j Hj.
    split_and!; [apply (pt_backed _ _ Hpt [i1])|apply (pt_backed _ _ Hpt [i1; i2])|
                 apply (pt_backed _ _ Hpt [i1; i2; i3])]; cbn; done || lia.
Qed.

Lemma others_true m t k i :
  0 <= i < 512 -> i <> k -> present_at m t i = true -> others m t k = true.
Proof.
  intros Hi Hne Hp. apply existsb_exists. exists i. split; [apply list_elem_of_In, elem_of_seqZ; lia|].
  rewrite Hp. cbn. by destruct (Z.eqb_spec i k).
Qed.

(** A translated address has its tables and a present leaf entry. *)
Lemma translate_present s v x :
  translate s v = Some x ->
  exists pt, tbl (mem s) (pml4_addr s) (vpath v) = Some pt /\
    present_at (mem s) pt (virt_addr_get_pte v) = true.
Proof.
  unfold translate, pte_of, present_at. destruct (tbl _ _ _) as [pt|]; [|done]. cbn.
  intros H. exists pt. split; [done|]. destruct (_ !! _) as [e|]; [|done]. cbn in H. by destruct (present e).
Qed.

Lemma tbl_prefix m root p q x : tbl m root (p ++ q) = Some x -> is_Some (tbl m root p).
Proof. rewrite tbl_app. destruct (tbl m root p); [eauto|done]. Qed.

Lemma mm_inv_flush s low high used q0 v :
  mm_inv s low high used q0 -> mm_inv (add_flushed v s) low high used q0.
Proof. intros [[? ? ? ?] ? ? ? ?]. split; [by split|done..]. Qed.

(** A page whose unmapping frees no table: it has no page table, or one in
    which another page is mapped. *)
Definition unmappable (s : kstate) (virt : Z) : Prop :=
  tbl (mem s) (pml4_addr s) (vpath virt) = None \/
  exists v x, vpath v = vpath virt /\ vpn v <> vpn virt /\ translate s v = Some x.

(** The free frames have no page table for their identity mapping. *)
Definition unmapped (s : kstate) (fs : list Z) : Prop :=
  forall a, a ∈ fs -> tbl (mem s) (pml4_addr s) (vpath a) = None.

(** What [page_unmap] does on an [unmappable] page. *)
Lemma page_unmap_full s low high used q0 virt :
  mm_inv s low high used q0 -> unmappable s virt ->
  exists s', page_unmap virt s = Ok tt s' /\ mm_inv s' low high used q0 /\
    (forall v, translate s' v = if decide (vpn v = vpn virt) then None else translate s v) /\ calm s [] s'.
Proof.
  unfold unmappable. intros Hmm Hcase. rewrite (page_unmap_run _ _ (mm_pt _ _ _ _ _ Hmm)).
  assert (Hnone : forall s' v, tbl (mem s') (pml4_addr s') (vpath v) = None -> translate s' v = None).
  { intros s' v Hn. unfold translate, pte_of. by rewrite Hn. }
  destruct (tbl (mem s) (pml4_addr s) (vpath virt)) as [pt|] eqn:Ht.
  - destruct Hcase as [?|(v & x & Hv & Hne & Hx)]; [done|].
    destruct (tbl_prefix _ _ [virt_addr_get_pml4e virt] _ _ Ht) as [pdpt ->].
    destruct (tbl_prefix _ _ [virt_addr_get_pml4e virt; virt_addr_get_pdpe virt] [_] _ Ht) as [pdt ->].
    destruct (translate_present _ _ _ Hx) as (pt' & Ht' & Hp). rewrite Hv, Ht in Ht'. injection Ht' as <-.
    rewrite (others_true _ pt _ _ (pte_range v)); [|intros E; apply Hne, vpn_path; congruence|done].
    destruct (pt_backed _ _ (mm_pt _ _ _ _ _ Hmm) (vpath virt) pt ltac:(done) (vpath_range virt) Ht) as [_ Hb].
    destruct (Hb _ (pte_range virt)) as [e He].
    destruct (leaf_inv _ _ _ _ _ (vpath virt) _ _ 0 Hmm ltac:(done) (vpath_range virt) (pte_range virt) Ht)
      as (Hmm' & _ & Hpte).
    pose proof (leaf_calm _ _ _ _ _ (vpath virt) _ _ 0 [] Hmm ltac:(done)
      (vpath_range virt) (pte_range virt) Ht) as Hcalm.
    unfold unmap_tail. cbn [negb]. rewrite !andb_false_r. unfold pte_query_flag.
    cbn [mbind M_bind]. unfold mbind, M_bind, mret, M_ret. rewrite (query_run _ PTE_PRESENT _ _ He), land_flag.
    destruct (present e) eqn:Hpe; cbn [negb].
    + unfold wr. rewrite He. eexists. split; [done|]. split; [by apply mm_inv_flush|].
      split; [|destruct Hcalm; by split]. intros w. unfold translate. cbn [mem pml4_addr add_flushed].
      rewrite Hpte by first [done|apply vpath_range|apply pte_range].
      case_decide as H1; case_decide as H2; try (by apply vpn_path in H1 || apply vpn_path in H2); done.
    + exists s. split; [done|]. split; [done|]. split; [|apply calm_refl]. intros w. case_decide as H1; [|done].
      apply vpn_path in H1 as [= E1 E2 E3 E4]. unfold translate, pte_of, vpath. rewrite E1, E2, E3, E4.
      fold (vpath virt). rewrite Ht. cbn. by rewrite He; cbn; rewrite Hpe.
  - exists s. split; [by repeat case_match|]. split; [done|]. split; [|apply calm_refl]. intros w.
    case_decide as H1; [|done]. apply vpn_path in H1 as [= E1 E2 E3 E4].
    apply Hnone. unfold vpath. by rewrite E1, E2, E3.
Qed.

(** C4. [page_unmap] removes the page of [virt] from the map and no other, if
    another page is mapped under the same page table or the page has no page
    table at all; the allocator and the tables stay well-formed. *)
Theorem page_unmap_deletes s low high used q0 virt :
  mm_inv s low high used q0 ->
  tbl (mem s) (pml4_addr s) (vpath virt) = None \/
    (exists v x, vpath v = vpath virt /\ vpn v <> vpn virt /\ translate s v = Some x) ->
  exists s', page_unmap virt s = Ok tt s' /\ mm_inv s' low high used q0 /\
    forall v, translate s' v = if decide (vpn v = vpn virt) then None else translate s v.
Proof.
  intros Hmm Hcase. destruct (page_unmap_full s low high used q0 virt Hmm Hcase) as (s' & ? & ? & ? & _). eauto.
Qed.

Lemma after_ok {A} (c : K A) s a s' : c s = Ok a s' -> after c s = s'.
Proof. unfold after. by intros ->. Qed.

(** Mapping a page keeps the invariant, for some lists. *)
Lemma page_map_keeps s low high used q0 virt phys kernel :
  mm_inv s low high used q0 -> (3 <= length low)%nat ->
  exists low' used', mm_inv (after (page_map virt phys kernel) s) low' high used' q0 /\
    (length low <= 3 + length low')%nat.
Proof.
  intros Hmm Hlen. destruct (page_map_run s low high used q0 virt phys kernel Hmm Hlen)
    as (pt & s1 & low1 & used1 & e0 & Hr & Hmm1 & Ht & _ & Hl & _ & _ & _).
  exists low1, used1. split; [|done]. rewrite (after_ok _ _ _ _ Hr).
  apply (leaf_inv _ _ _ _ _ (vpath virt)); [done|done|apply vpath_range|apply pte_range|done].
Qed.

(** Pages 0x400000 and [v] are mapped. *)
Definition mapped_state (v : Z) : kstate :=
  after (page_map v 0x124000 false) (after (page_map 0x400000 0x123000 false) paging_state).

Lemma mapped_inv v : exists low used, mm_inv (mapped_state v) low [] used 0.
Proof.
  destruct (page_map_keeps paging_state paging_low [] [] 0 0x400000 0x123000 false)
    as (low1 & used1 & H1 & Hl1); [apply paging_inv|cbn; lia|].
  destruct (page_map_keeps _ low1 [] used1 0 v 0x124000 false H1) as (low2 & used2 & H2 & _);
    [cbn in *; lia|]. exists low2, used2. exact H2.
Qed.

Lemma page_unmap_deletes_witness :
  exists low used s', page_unmap 0x400000 (mapped_state 0x401000) = Ok tt s' /\ mm_inv s' low [] used 0 /\
    forall v, translate s' v = if decide (vpn v = vpn 0x400000) then None
                               else translate (mapped_state 0x401000) v.
Proof.
  destruct (mapped_inv 0x401000) as (low & used & Hmm). exists low, used.
  apply (page_unmap_deletes (mapped_state 0x401000) low [] used 0 0x400000 Hmm).
  right. exists 0x401000, 0x124000. split; [|split]; [by vm_compute..|].
  vm_compute. reflexivity.
Defined.

(** Freeing a low frame writes no word of a table. *)
Lemma free_keeps_tables s low high pre n a post q0 :
  mm_inv s low high (pre ++ (n, a) :: post) q0 -> a ∉ pre.*2 -> 0 <= a < TWO_GB ->
  let s1 := free_state n a s in
  pmm_free a s = Ok tt s1 /\ pmm_inv s1 ((n, a) :: low) high pre n /\
  pml4_addr s1 = pml4_addr s /\ pt_inv (mem s1) (pml4_addr s) /\
  (forall q, (length q <= 3)%nat -> in_range q -> tbl (mem s1) (pml4_addr s) q = tbl (mem s) (pml4_addr s) q) /\
  forall x w, x ∈ (((n, a) :: low) ++ high ++ pre).*1 -> table_word (mem s) (pml4_addr s) w ->
    w <> next_of x /\ w <> addr_of x.
Proof.
  intros Hmm Hpre Ha s1.
  assert (Hnodes : forall x w, x ∈ (((n, a) :: low) ++ high ++ pre).*1 ->
    table_word (mem s) (pml4_addr s) w -> w <> next_of x /\ w <> addr_of x).
  { intros x w Hx Hw. destruct (mm_nodes _ _ _ _ _ Hmm x) as [H1 H2]; [|split; intros ->; done].
    revert Hx. repeat (rewrite fmap_app || rewrite fmap_cons || rewrite elem_of_app || rewrite elem_of_cons). tauto. }
  destruct (pmm_free_inv _ _ _ _ _ _ _ _ (mm_pmm _ _ _ _ _ Hmm) Hpre) as [Hfree Hpmm].
  replace (TWO_GB <=? a) with false in Hpmm by (symmetry; lia).
  assert (Hkeep : forall w, table_word (mem s) (pml4_addr s) w -> mem s1 !! w = mem s !! w).
  { intros w Hw. destruct (Hnodes n w) as [H1 H2]; [left|done|]. unfold s1, free_state.
    replace (TWO_GB <=? a) with false by (symmetry; lia). cbn. by rewrite !lookup_insert_ne. }
  split_and!; try done.
  - unfold s1, free_state. by case_match.
  - apply (pt_inv_frame _ _ _ Hkeep), Hmm.
  - intros q Hq Hr. by apply tbl_frame.
Qed.

Lemma pmm_inv_flush s low high used q0 v :
  pmm_inv s low high used q0 -> pmm_inv (add_flushed v s) low high used q0.
Proof. intros [? ? ? ?]. by split. Qed.

(** Unmapping the last page of a page table gives the table's frame back to
    the allocator but leaves the directory entry for it present: the next
    allocation returns the frame of a table that is still in the tree. *)
Theorem page_unmap_dangling_table s low high pre n a post q0 virt pdt :
  mm_inv s low high (pre ++ (n, a) :: post) q0 -> a ∉ pre.*2 -> 0 <= a < TWO_GB ->
  tbl (mem s) (pml4_addr s) [virt_addr_get_pml4e virt; virt_addr_get_pdpe virt] = Some pdt ->
  tbl (mem s) (pml4_addr s) (vpath virt) = Some (a + KERNEL_OFFSET) ->
  others (mem s) pdt (virt_addr_get_pde virt) = true ->
  others (mem s) (a + KERNEL_OFFSET) (virt_addr_get_pte virt) = false ->
  exists s' s'', page_unmap virt s = Ok tt s' /\
    tbl (mem s') (pml4_addr s') (vpath virt) = Some (a + KERNEL_OFFSET) /\
    pmm_alloc_low s' = Ok a s''.
Proof.
  intros Hmm Hpre Ha Hpdt Ht Hpdtu Hptu. set (pt := a + KERNEL_OFFSET) in *.
  rewrite (page_unmap_run _ _ (mm_pt _ _ _ _ _ Hmm)), Ht, Hpdt, Hpdtu, Hptu.
  destruct (tbl_prefix _ _ [virt_addr_get_pml4e virt] [_] _ Hpdt) as [pdpt ->].
  destruct (free_keeps_tables _ _ _ _ _ _ _ _ Hmm Hpre Ha) as (Hfree & Hpmm & Hroot & Hpt1 & Htbl & Hw).
  pose proof (Htbl (vpath virt) ltac:(done) (vpath_range virt)) as Ht1. rewrite Ht in Ht1.
  destruct (descend _ _ (vpath virt) _ _ Hpt1 ltac:(done) (vpath_range virt) (pte_range virt) Ht1) as (e & He & _).
  destruct (pt_inv_leaf _ _ (vpath virt) (virt_addr_get_pte virt) pt 0 Hpt1 ltac:(done)
    (vpath_range virt) (pte_range virt) Ht1) as (_ & Ht2 & _).
  unfold unmap_tail, pte_query_flag, kfree_page. cbn [negb andb]. rewrite andb_false_r. cbn [andb].
  unfold mbind, M_bind, mret, M_ret.
  replace (u64 (pt - KERNEL_OFFSET)) with a by (unfold pt; rewrite u64_small; unfold TWO_GB in *; lia).
  rewrite Hfree, (query_run _ PTE_PRESENT _ _ He), land_flag. destruct (present e); cbn [negb].
  - unfold wr. rewrite He. eexists. cbn [mem pml4_addr add_flushed set_mem].
    assert (Hpmm2 : pmm_inv (set_mem (insert (ent pt (virt_addr_get_pte virt)) 0) (free_state n a s))
      ((n, a) :: low) high pre n).
    { apply pmm_inv_write; [done|]. intros x Hx. apply Hw; [done|].
      exists (vpath virt), pt, (virt_addr_get_pte virt).
      split_and!; first [done|apply vpath_range|apply pte_range]. }
    apply (pmm_inv_flush _ _ _ _ _ virt), pmm_alloc_low_inv in Hpmm2 as (nx & _ & Hr & _).
    eexists. split; [done|]. split; [|exact Hr].
    change (pml4_addr (add_flushed _ _)) with (pml4_addr (free_state n a s)). rewrite Hroot.
    etrans; [apply Ht2; [done|apply vpath_range]|done].
  - destruct (pmm_alloc_low_inv _ _ _ _ _ _ _ Hpmm) as (nx & _ & Hr & _).
    eexists _, _. split; [done|]. split; [by rewrite Hroot|exact Hr].
Qed.

(** The used frames and the tables after two pages have been mapped. *)
Definition dangling_test (s : kstate) : bool :=
  segb (mem s) (pmm_free_list s)
    [(paging_node 3, 0x5000); (paging_node 2, 0x4000); (paging_node 1, 0x3000); (paging_node 0, 0x2000)] 0 &&
  bool_decide (tbl (mem s) (pml4_addr s) [virt_addr_get_pml4e 0x400000; virt_addr_get_pdpe 0x400000] = Some (0x3000 + KERNEL_OFFSET)) &&
  bool_decide (tbl (mem s) (pml4_addr s) (vpath 0x400000) = Some (0x4000 + KERNEL_OFFSET)) &&
  others (mem s) (0x3000 + KERNEL_OFFSET) (virt_addr_get_pde 0x400000) &&
  negb (others (mem s) (0x4000 + KERNEL_OFFSET) (virt_addr_get_pte 0x400000)).

Lemma dangling_facts s : dangling_test s = true ->
  chain (mem s) (pmm_free_list s)
    ([(paging_node 3, 0x5000)] ++ (paging_node 2, 0x4000) :: [(paging_node 1, 0x3000); (paging_node 0, 0x2000)]) /\
  tbl (mem s) (pml4_addr s) [virt_addr_get_pml4e 0x400000; virt_addr_get_pdpe 0x400000] = Some (0x3000 + KERNEL_OFFSET) /\
  tbl (mem s) (pml4_addr s) (vpath 0x400000) = Some (0x4000 + KERNEL_OFFSET) /\
  others (mem s) (0x3000 + KERNEL_OFFSET) (virt_addr_get_pde 0x400000) = true /\
  others (mem s) (0x4000 + KERNEL_OFFSET) (virt_addr_get_pte 0x400000) = false.
Proof.
  unfold dangling_test. intros [[[[Hc%segb_seg H1%bool_decide_eq_true]%andb_true_iff
    H2%bool_decide_eq_true]%andb_true_iff H3]%andb_true_iff H4%negb_true_iff]%andb_true_iff. done.
Qed.

Lemma dangling_tested : dangling_test (mapped_state 0x600000) = true.
Proof. vm_compute. reflexivity. Qed.

Lemma page_unmap_dangling_table_witness :
  exists s' s'', page_unmap 0x400000 (mapped_state 0x600000) = Ok tt s' /\
    tbl (mem s') (pml4_addr s') (vpath 0x400000) = Some (0x4000 + KERNEL_OFFSET) /\
    pmm_alloc_low s' = Ok 0x4000 s''.
Proof.
  destruct (mapped_inv 0x600000) as (low & used & Hmm).
  destruct (dangling_facts (mapped_state 0x600000) dangling_tested) as (Hc & H1 & H2 & H3 & H4).
  rewrite (seg_fun _ _ _ _ (inv_used _ _ _ _ _ (mm_pmm _ _ _ _ _ Hmm)) Hc) in Hmm.
  apply (page_unmap_dangling_table (mapped_state 0x600000) low [] [(paging_node 3, 0x5000)]
    (paging_node 2) 0x4000 [(paging_node 1, 0x3000); (paging_node 0, 0x2000)] 0 0x400000 (0x3000 + KERNEL_OFFSET) Hmm);
    [vdecide|unfold TWO_GB; lia|exact H1|exact H2|exact H3|exact H4].
Defined.

End PageProps.
