(* ===== verification/Vmm.v ===== *)
(** * mem/vmm.c: the allocator of kernel virtual memory

    The free list is doubly linked ([struct VirtFreeListNode]: [prev], [next],
    [start] and [size] at the offsets 0, 8, 16 and 24), the list of allocated
    blocks singly ([struct VirtAllocatedNode]: [next], [start], [size]).  Their
    nodes live in pages of the direct map.  The messages the code sends to the
    serial port are left out. *)

From S2P Require Import Prelude KMath Machine Pmm Page.
Import KMath Machine Pmm KMalloc Page.

Module Vmm.

(** [struct VirtFreeListNode] *)
Definition f_prev (n : Z) : Z := n.
Definition f_next (n : Z) : Z := n + 8.
Definition f_start (n : Z) : Z := n + 16.
Definition f_size (n : Z) : Z := n + 24.
Definition sizeof_free_node : Z := 32.

(** [struct VirtAllocatedNode] *)
Definition a_next (n : Z) : Z := n.
Definition a_start (n : Z) : Z := n + 8.
Definition a_size (n : Z) : Z := n + 16.
Definition sizeof_alloc_node : Z := 24.

(** the loop of [set_up_page_for_alloc_list], [k] iterations from [cur] on *)
Fixpoint link_alloc_nodes (k : nat) (cur : Z) : K Z :=
  match k with
  | O => mret cur
  | S k' =>
    wr (a_next cur) (cur + sizeof_alloc_node);;
    cur ← rd (a_next cur);
    wr (a_start cur) 0;;
    wr (a_size cur) 0;;
    link_alloc_nodes k' cur
  end.

Definition set_up_page_for_alloc_list (node : Z) : K unit :=
  wr (a_start node) 0;;
  wr (a_size node) 0;;
  n ← lift_opt (floor_u32_div PAGE_SIZE sizeof_alloc_node);
  alloc_cur ← link_alloc_nodes (Z.to_nat (n - 1)) node;
  wr (a_next alloc_cur) 0.

(** the loop of [set_up_page_for_free_list] *)
Fixpoint link_free_nodes (k : nat) (cur : Z) : K Z :=
  match k with
  | O => mret cur
  | S k' =>
    wr (f_next cur) (cur + sizeof_free_node);;
    cur ← rd (f_next cur);
    wr (f_prev cur) (cur - sizeof_free_node);;
    wr (f_start cur) 0;;
    wr (f_size cur) 0;;
    link_free_nodes k' cur
  end.

Definition set_up_page_for_free_list (node : Z) : K unit :=
  wr (f_prev node) 0;;
  n ← lift_opt (floor_u32_div PAGE_SIZE sizeof_free_node);
  vmm_cur ← link_free_nodes (Z.to_nat (n - 1)) node;
  modify (set_vmm_tail vmm_cur);;
  wr (f_next vmm_cur) 0.

Definition free_virt_start : Z := 0xFFFFF00000000000.

Definition vmm_init : K unit :=
  head ← kcalloc_page;
  modify (set_vmm_head head);;
  wr (f_start head) free_virt_start;;
  start ← rd (f_start head);
  wr (f_size head) (0xFFFFFFFF80000000 -64 start);;
  set_up_page_for_free_list head;;
  ahead ← kcalloc_page;
  modify (set_alloc_head ahead);;
  set_up_page_for_alloc_list ahead.

Definition vmm_list_remove_node (node : Z) : K unit :=
  wr (f_start node) 0;;
  wr (f_size node) 0;;
  next ← rd (f_next node);
  (if negb (next =? 0) then prev ← rd (f_prev node); wr (f_prev next) prev else mret tt);;
  prev ← rd (f_prev node);
  (if negb (prev =? 0) then next ← rd (f_next node); wr (f_next prev) next
   else next ← rd (f_next node); modify (set_vmm_head next));;
  wr (f_next node) 0;;
  tail ← gets vmm_tail;
  wr (f_prev node) tail;;
  wr (f_next tail) node;;
  modify (set_vmm_tail node).

(** the loop of [alloc_list_add_node]: the first unused node is filled in and
    [None] returned; without one, the last node is returned *)
Fixpoint alloc_list_fill (fuel : nat) (cur start size : Z) : K (option Z) :=
  match fuel with
  | O => out_of_fuel
  | S fuel' =>
    cs ← rd (a_start cur);
    cz ← rd (a_size cur);
    if (cs =? 0) && (cz =? 0) then
      wr (a_start cur) start;;
      wr (a_size cur) size;;
      mret None
    else
      next ← rd (a_next cur);
      if next =? 0 then mret (Some cur) else alloc_list_fill fuel' next start size
  end.

(** [calls] bounds the self-calls: the page added by the first call has room
    for the second. *)
Fixpoint alloc_list_add_rec (calls : nat) (start size : Z) : K unit :=
  head ← gets alloc_head;
  fuel ← gets walk_fuel;
  full ← alloc_list_fill fuel head start size;
  match full with
  | None => mret tt
  | Some cur =>
    match calls with
    | O => out_of_fuel
    | S calls' =>
      next_page ← kcalloc_page;
      set_up_page_for_alloc_list next_page;;
      wr (a_next cur) next_page;;
      alloc_list_add_rec calls' start size
    end
  end.

Definition alloc_list_add_node (start size : Z) : K unit := alloc_list_add_rec 1 start size.

Fixpoint alloc_list_find (fuel : nat) (cur start : Z) : K Z :=
  match fuel with
  | O => out_of_fuel
  | S fuel' =>
    if cur =? 0 then panic "vmm: freeing block that is not in list!" else
    cs ← rd (a_start cur);
    if cs =? start then
      size ← rd (a_size cur);
      wr (a_start cur) 0;;
      wr (a_size cur) 0;;
      mret size
    else next ← rd (a_next cur); alloc_list_find fuel' next start
  end.

Definition alloc_list_find_and_remove (start : Z) : K Z :=
  head ← gets alloc_head;
  fuel ← gets walk_fuel;
  alloc_list_find fuel head start.

(** the page loop of [vmm_alloc] *)
Definition map_page (start i : Z) : K unit :=
  let virt := start +64 (i *64 PAGE_SIZE) in
  page_frame ← pmm_alloc_high;
  page_unmap virt;;
  page_map virt page_frame true.

(** the list loop of [vmm_alloc], up to the choice of a block *)
Fixpoint take_block (fuel : nat) (cur request_size : Z) : K Z :=
  match fuel with
  | O => out_of_fuel
  | S fuel' =>
    if cur =? 0 then panic "vmm: out of memory!" else
    start ← rd (f_start cur);
    size ← rd (f_size cur);
    if request_size <=? size then
      (if size =? request_size then vmm_list_remove_node cur
       else
         s0 ← rd (f_start cur);
         wr (f_start cur) (s0 +64 request_size);;
         z0 ← rd (f_size cur);
         wr (f_size cur) (z0 -64 request_size));;
      mret start
    else next ← rd (f_next cur); take_block fuel' next request_size
  end.

Definition vmm_alloc (pages : Z) : K Z :=
  let request_size := pages *64 PAGE_SIZE in
  head ← gets vmm_head;
  fuel ← gets walk_fuel;
  start ← take_block fuel head request_size;
  for_loop (Z.to_nat pages) 0 (map_page start);;
  alloc_list_add_node start pages;;
  mret start.

(** the page loop of [vmm_free] *)
Definition unmap_page (mem_ i : Z) : K unit :=
  let virt := mem_ +64 (i *64 PAGE_SIZE) in
  page_frame ← page_virt_to_phys_addr virt;
  pmm_free page_frame;;
  page_unmap virt;;
  page_map virt (virt -64 KERNEL_OFFSET) true.

(** the first list loop of [vmm_free]: [inl (cur, block_start, block_end)] after a
    merge into [cur], [inr cur] with the last node otherwise *)
Fixpoint merge_first (fuel : nat) (cur block_start block_end : Z) : K (Z * Z * Z + Z) :=
  match fuel with
  | O => out_of_fuel
  | S fuel' =>
    start ← rd (f_start cur);
    size ← rd (f_size cur);
    if block_start =? (start +64 size) then
      z ← rd (f_size cur);
      wr (f_size cur) (z +64 (block_end -64 block_start));;
      mret (inl (cur, start, block_end))
    else if block_end =? start then
      s0 ← rd (f_start cur);
      wr (f_start cur) (s0 -64 (block_end -64 block_start));;
      z ← rd (f_size cur);
      wr (f_size cur) (z +64 (block_end -64 block_start));;
      s1 ← rd (f_start cur);
      z1 ← rd (f_size cur);
      mret (inl (cur, block_start, s1 +64 z1))
    else
      next ← rd (f_next cur);
      if next =? 0 then mret (inr cur) else merge_first fuel' next block_start block_end
  end.

(** the second list loop of [vmm_free] *)
Fixpoint merge_again (fuel : nat) (cur merged block_start block_end : Z) : K unit :=
  match fuel with
  | O => out_of_fuel
  | S fuel' =>
    if cur =? 0 then mret tt else
    start ← rd (f_start cur);
    size ← rd (f_size cur);
    if block_start =? (start +64 size) then
      z ← rd (f_size cur);
      wr (f_size cur) (z +64 (block_end -64 block_start));;
      vmm_list_remove_node merged
    else if block_end =? start then
      s0 ← rd (f_start cur);
      wr (f_start cur) (s0 -64 (block_end -64 block_start));;
      z ← rd (f_size cur);
      wr (f_size cur) (z +64 (block_end -64 block_start));;
      vmm_list_remove_node merged
    else next ← rd (f_next cur); merge_again fuel' next merged block_start block_end
  end.

(** the part of [vmm_free] that moves the tail node to the front *)
Definition push_block (last mem_ pages : Z) : K unit :=
  tail ← gets vmm_tail;
  ts ← rd (f_start tail);
  tz ← rd (f_size tail);
  (if negb (ts =? 0) && negb (tz =? 0) then
     next_page ← kcalloc_page;
     set_up_page_for_free_list next_page;;
     wr (f_next last) next_page
   else mret tt);;
  cur ← gets vmm_tail;
  prev ← rd (f_prev cur);
  modify (set_vmm_tail prev);;
  wr (f_next prev) 0;;
  wr (f_prev cur) 0;;
  head ← gets vmm_head;
  wr (f_next cur) head;;
  wr (f_start cur) mem_;;
  wr (f_size cur) (pages *64 PAGE_SIZE);;
  wr (f_prev head) cur;;
  modify (set_vmm_head cur).

(** [vmm_free] after the pages have been unmapped: the block goes back to the list *)
Definition return_block (mem_ pages : Z) : K unit :=
  let block_start := mem_ in
  let block_end := block_start +64 (pages *64 PAGE_SIZE) in
  head ← gets vmm_head;
  fuel ← gets walk_fuel;
  r ← merge_first fuel head block_start block_end;
  match r with
  | inr last => push_block last mem_ pages
  | inl (merged, block_start, block_end) =>
    head ← gets vmm_head;
    fuel ← gets walk_fuel;
    merge_again fuel head merged block_start block_end
  end.

Definition vmm_free (mem_ : Z) : K unit :=
  pages ← alloc_list_find_and_remove mem_;
  for_loop (Z.to_nat pages) 0 (unmap_page mem_);;
  return_block mem_ pages.

End Vmm.
