(* ===== verification/VmmList.v ===== *)
(** * The doubly linked free list of mem/vmm.c

    [dseg m prev p l last q]: the memory [m] holds a doubly linked segment that
    starts at [p] (whose predecessor is [prev]), has the nodes [l] (address,
    start, size), ends with node [last] and goes on at [q]. *)

From S2P Require Import Prelude KMath Machine Pmm Page Vmm.
Import KMath Machine Pmm KMalloc Page Vmm.

Module VmmList.

Definition fnode : Type := Z * Z * Z.
Definition faddr (x : fnode) : Z := x.1.1.

Fixpoint dseg (m : gmap Z Z) (prev p : Z) (l : list fnode) (last q : Z) : Prop :=
  match l with
  | [] => p = q /\ prev = last
  | (n, st, sz) :: l' =>
      p = n /\ n <> 0 /\ m !! f_prev n = Some prev /\ m !! f_start n = Some st /\
      m !! f_size n = Some sz /\ exists nx, m !! f_next n = Some nx /\ dseg m n nx l' last q
  end.

(** Different nodes do not overlap. *)
Definition fapart (ns : list Z) : Prop :=
  NoDup ns /\ forall x y, x ∈ ns -> y ∈ ns -> x <> y -> x + 32 <= y \/ y + 32 <= x.

(** A word of the node at [n]. *)
Definition fword (n w : Z) : Prop := n <= w < n + 32.

Lemma dseg_app m prev p l1 l2 last q :
  dseg m prev p (l1 ++ l2) last q <->
  exists pm mid, dseg m prev p l1 pm mid /\ dseg m pm mid l2 last q.
Proof.
  revert prev p. induction l1 as [|[[n st] sz] l1 IH]; intros prev p; cbn.
  - split; [eauto 6|]. intros (pm & mid & [-> ->] & H). exact H.
  - setoid_rewrite IH. naive_solver.
Qed.

Lemma dseg_frame m m' prev p l last q :
  (forall n w, n ∈ faddr <$> l -> fword n w -> m' !! w = m !! w) ->
  dseg m prev p l last q -> dseg m' prev p l last q.
Proof.
  revert prev p. induction l as [|[[n st] sz] l IH]; intros prev p Hm; cbn; [done|].
  assert (Hw : forall k, 0 <= k < 32 -> m' !! (n + k) = m !! (n + k)).
  { intros k Hk. apply (Hm n); [left|]. unfold fword. lia. }
  unfold f_prev, f_start, f_size, f_next. pose proof (Hw 0 ltac:(lia)) as H0. rewrite Z.add_0_r in H0.
  rewrite H0, !Hw by lia. intros (? & ? & ? & ? & ? & nx & ? & ?).
  split_and!; try done. exists nx. split; [done|]. apply IH; [|done]. intros x w Hx. apply Hm. by right.
Qed.

(** Writing a word of no node of the segment. *)
Lemma dseg_insert m prev p l last q w v :
  (forall n, n ∈ faddr <$> l -> ~ fword n w) ->
  dseg m prev p l last q -> dseg (<[w:=v]> m) prev p l last q.
Proof.
  intros Hw. apply dseg_frame. intros n w' Hn Hf. apply lookup_insert_ne. intros <-. by eapply Hw.
Qed.

(** Relinking the first node backward. *)
Lemma dseg_set_prev m prev p x l last q prev' :
  fapart (faddr <$> x :: l) ->
  dseg m prev p (x :: l) last q -> dseg (<[f_prev p:=prev']> m) prev' p (x :: l) last q.
Proof.
  destruct x as [[n st] sz]. intros [Hnd Hap]. cbn in *.
  intros (-> & Hz & H1 & H2 & H3 & nx & H4 & H5).
  unfold f_prev, f_start, f_size, f_next in *.
  rewrite lookup_insert_eq, !lookup_insert_ne by lia. split_and!; try done.
  exists nx. split; [done|]. apply dseg_insert; [|done]. intros x Hx [? ?].
  apply NoDup_cons in Hnd as [Hnd _]. assert (x <> n) by (intros ->; done).
  destruct (Hap n x); [left|by right|done|lia|lia].
Qed.

(** Relinking the last node forward. *)
Lemma dseg_set_next m prev p x l last q q' :
  fapart (faddr <$> x :: l) ->
  dseg m prev p (x :: l) last q -> dseg (<[f_next last:=q']> m) prev p (x :: l) last q'.
Proof.
  revert prev p x. induction l as [|y l IH]; intros prev p [[n st] sz] Hap.
  - cbn. intros (-> & Hz & H1 & H2 & H3 & nx & H4 & -> & <-).
    unfold f_prev, f_start, f_size, f_next in *.
    rewrite !lookup_insert_ne by lia. split_and!; try done.
    exists q'. by rewrite lookup_insert_eq.
  - intros (-> & Hz & H1 & H2 & H3 & nx & H4 & H5). destruct Hap as [Hnd Hap].
    assert (Hl : last ∈ faddr <$> y :: l).
    { clear -H5. revert n nx y H5. induction l as [|z l IH]; intros n nx [[y1 y2] y3]; cbn.
      - intros (-> & _ & _ & _ & _ & nx' & _ & _ & <-). left.
      - intros (-> & _ & _ & _ & _ & nx' & _ & H). right. by eapply IH. }
    rewrite fmap_cons in Hnd. apply NoDup_cons in Hnd as [Hn Hnd].
    assert (last <> n) by (intros ->; done).
    destruct (Hap n last) as [?|?]; [left|by right|done|..];
      cbn; unfold f_prev, f_start, f_size, f_next in *; rewrite !lookup_insert_ne by lia;
      (split_and!; [done..|]); exists nx; (split; [done|]); eapply (IH n nx y); try done;
      (split; [done|]); intros; apply Hap; by first [right|done].
Qed.

(** The words of a segment are RAM. *)
Lemma dseg_backed m prev p l last q n :
  dseg m prev p l last q -> n ∈ faddr <$> l ->
  is_Some (m !! f_prev n) /\ is_Some (m !! f_next n) /\ is_Some (m !! f_start n) /\ is_Some (m !! f_size n).
Proof.
  revert prev p. induction l as [|[[n' st] sz] l IH]; intros prev p; cbn; [by intros _ ?%elem_of_nil|].
  intros (-> & _ & ? & ? & ? & nx & ? & ?) [->|Hn]%elem_of_cons; [cbn; eauto 6|eauto].
Qed.

Lemma dseg_last m prev p l last q :
  dseg m prev p l last q -> l = [] /\ last = prev \/ last ∈ faddr <$> l /\ last <> 0.
Proof.
  revert prev p. induction l as [|[[n st] sz] l IH]; intros prev p; cbn; [naive_solver|].
  intros (-> & Hz & _ & _ & _ & nx & _ & H). right.
  destruct (IH _ _ H) as [[-> ->]|[Hin ?]]; (split; [|done]); [left|by right].
Qed.

Lemma fapart_sub ns ns' : ns' ⊆+ ns -> fapart ns -> fapart ns'.
Proof.
  intros Hs [Hnd Hap]. split; [by eapply NoDup_sub|]. intros x y Hx Hy.
  apply Hap; eapply elem_of_submseteq; done.
Qed.

(** ** What an operation on the list may change *)

(** [s'] differs from [s] in the list's head and tail and in words of the nodes [ns] only. *)
Definition list_upd (ns : list Z) (s s' : kstate) : Prop :=
  exists m' h t, s' = set_vmm_head h (set_vmm_tail t (set_mem (fun _ => m') s)) /\
    forall w, (forall n, n ∈ ns -> ~ fword n w) -> m' !! w = mem s !! w.

(** Evaluate loads and stores whose addresses are known to be different. *)
Ltac run_step :=
  first [ rewrite lookup_insert_eq
        | rewrite lookup_insert_ne by lia
        | match goal with H : ?m !! ?a = Some _ |- context [?m !! ?a] => rewrite H end ]; cbn.
Ltac run_mem :=
  unfold mbind, M_bind, mret, M_ret, rd, wr, gets, modify in *; cbn; repeat run_step.

(** Nodes in different parts of a list do not overlap. *)
Lemma fapart_split ns1 ns2 x y :
  fapart (ns1 ++ ns2) -> x ∈ ns1 -> y ∈ ns2 -> x + 32 <= y \/ y + 32 <= x.
Proof.
  intros [Hnd Hap] Hx Hy. apply Hap; [apply elem_of_app; by left|apply elem_of_app; by right|].
  intros ->. apply NoDup_app in Hnd as (_ & H & _). by eapply H.
Qed.

(** ** [vmm_list_remove_node] *)

Section remove_node.
Context (s : kstate) (pre : list fnode) (n st sz : Z) (y : fnode) (post : list fnode) (pl : Z).
Let nx := faddr y.
Let t := vmm_tail s.
Hypothesis Hpre : dseg (mem s) 0 (vmm_head s) pre pl n.
Hypothesis Hz : n <> 0.
Hypothesis Hprev : mem s !! f_prev n = Some pl.
Hypothesis Hst : mem s !! f_start n = Some st.
Hypothesis Hsz : mem s !! f_size n = Some sz.
Hypothesis Hnext : mem s !! f_next n = Some nx.
Hypothesis Hpost : dseg (mem s) n nx (y :: post) t 0.
Hypothesis Hap : fapart (faddr <$> (n, st, sz) :: pre ++ y :: post).

Lemma rm_apart_n x : x ∈ faddr <$> pre ++ y :: post -> x + 32 <= n \/ n + 32 <= x.
Proof.
  intros Hx. apply or_comm, (fapart_split [n] (faddr <$> pre ++ y :: post)); [exact Hap|by left|done].
Qed.

Lemma rm_in_post x : x ∈ faddr <$> y :: post -> x ∈ faddr <$> pre ++ y :: post.
Proof. intros. rewrite fmap_app. apply elem_of_app. by right. Qed.
Lemma rm_in_pre x : x ∈ faddr <$> pre -> x ∈ faddr <$> pre ++ y :: post.
Proof. intros. rewrite fmap_app. apply elem_of_app. by left. Qed.

Lemma rm_apart_post : fapart (faddr <$> y :: post).
Proof. eapply fapart_sub; [|exact Hap]. rewrite !fmap_cons, !fmap_app, !fmap_cons. solve_submseteq. Qed.

Lemma rm_apart_pp x z : x ∈ faddr <$> pre -> z ∈ faddr <$> y :: post -> x + 32 <= z \/ z + 32 <= x.
Proof.
  apply fapart_split. eapply fapart_sub; [|exact Hap]. rewrite !fmap_cons, !fmap_app, !fmap_cons. solve_submseteq.
Qed.

Lemma rm_tail : t ∈ faddr <$> y :: post /\ t <> 0.
Proof. destruct (dseg_last _ _ _ _ _ _ Hpost) as [[? _]|?]; done. Qed.

(** The memory once the neighbours of [n] are linked, and at the end. *)
Definition rm_mid : gmap Z Z :=
  let m := <[f_prev nx:=pl]> (<[f_size n:=0]> (<[f_start n:=0]> (mem s))) in
  match pre with [] => m | _ => <[f_next pl:=nx]> m end.
Definition rm_end : gmap Z Z := <[f_next t:=n]> (<[f_prev n:=t]> (<[f_next n:=0]> rm_mid)).
Definition rm_state : kstate :=
  set_vmm_tail n (set_vmm_head (match pre with [] => nx | _ => vmm_head s end) (set_mem (fun _ => rm_end) s)).

Lemma rm_pl : match pre with [] => pl = 0 | _ => pl ∈ faddr <$> pre /\ pl <> 0 end.
Proof. destruct (dseg_last _ _ _ _ _ _ Hpre) as [[-> ->]|?]; [done|]. by destruct pre as [|[[??]?]?]; [set_solver|]. Qed.

Lemma rm_tail_first : t = nx \/ t + 32 <= nx \/ nx + 32 <= t.
Proof.
  destruct (decide (t = nx)); [by left|right]. destruct rm_apart_post as [_ H].
  apply H; [apply rm_tail|left|done].
Qed.

Lemma rm_run : vmm_list_remove_node n s = Ok tt rm_state.
Proof.
  pose proof rm_pl as Hpl. destruct rm_tail as [Ht Htz]. pose proof rm_tail_first.
  destruct (dseg_backed _ _ _ _ _ _ _ Hpost Ht) as (_ & [tn Htn] & _).
  destruct (dseg_backed _ _ _ _ _ _ nx Hpost ltac:(left)) as ([nxp Hnxp] & _).
  assert (nx <> 0) by (subst nx; by destruct y as [[??]?], Hpost as (_ & ? & _)).
  pose proof (rm_apart_n _ (rm_in_post nx ltac:(left))). pose proof (rm_apart_n _ (rm_in_post t Ht)).
  pose proof (fun H => rm_apart_pp pl nx H ltac:(left)) as Hpn.
  pose proof (fun H => rm_apart_pp pl t H Ht) as Hpt.
  pose proof (fun H => rm_apart_n pl (rm_in_pre pl H)) as Hpln.
  unfold rm_state, rm_end, rm_mid, vmm_list_remove_node. clear Hap.
  unfold f_prev, f_next, f_start, f_size in *. subst t. destruct (Z.eqb_spec nx 0) as [|Hnx]; [done|].
  destruct pre as [|z pre0].
  - subst pl. run_mem. destruct (Z.eqb_spec nx 0); [done|]. by run_mem.
  - destruct Hpl as [Hpl Hplz]. specialize (Hpn Hpl). specialize (Hpt Hpl). specialize (Hpln Hpl).
    destruct (dseg_backed _ _ _ _ _ _ _ Hpre Hpl) as (_ & [pn Hpn'] & _). unfold f_next in *.
    run_mem. destruct (Z.eqb_spec nx 0); [done|]. run_mem.
    destruct (Z.eqb_spec pl 0); [done|]. by run_mem.
Qed.

Lemma rm_seg_post : dseg rm_end pl nx (y :: post) t n.
Proof.
  assert (Hn : forall x w, x ∈ faddr <$> y :: post -> fword n w -> ~ fword x w).
  { intros x w Hx Hw Hw'. pose proof (rm_apart_n x (rm_in_post x Hx)). unfold fword in *. lia. }
  eapply dseg_set_next; [apply rm_apart_post|].
  do 2 (apply dseg_insert; [intros; eapply Hn; [done|unfold fword, f_prev, f_next; lia]|]).
  unfold rm_mid.
  assert (dseg (<[f_prev nx:=pl]> (<[f_size n:=0]> (<[f_start n:=0]> (mem s)))) pl nx (y :: post) t 0) as H.
  { eapply dseg_set_prev; [apply rm_apart_post|].
    do 2 (apply dseg_insert; [intros; eapply Hn; [done|unfold fword, f_start, f_size; lia]|]). exact Hpost. }
  pose proof rm_pl as Hpl. pose proof rm_apart_pp as Hpp. destruct pre; [done|]. destruct Hpl as [Hpl _].
  apply dseg_insert; [|done]. intros x Hx Hw.
  pose proof (Hpp _ _ Hpl Hx). unfold fword, f_next in *. lia.
Qed.

Lemma rm_seg_pre : dseg rm_end 0 (vmm_head rm_state) pre pl nx.
Proof.
  pose proof rm_pl as Hpl. destruct rm_tail as [Ht _]. unfold rm_end, rm_mid.
  assert (Hn : forall x w, x ∈ faddr <$> pre -> fword n w -> ~ fword x w).
  { intros x w Hx Hw Hw'. pose proof (rm_apart_n x (rm_in_pre x Hx)). unfold fword in *. lia. }
  assert (Hp : forall x z w, x ∈ faddr <$> pre -> z ∈ faddr <$> y :: post -> fword z w -> ~ fword x w).
  { intros x z w Hx Hz' Hw Hw'. pose proof (rm_apart_pp x z Hx Hz'). unfold fword in *. lia. }
  assert (Hapre : fapart (faddr <$> pre)).
  { eapply fapart_sub; [|exact Hap]. rewrite !fmap_cons, !fmap_app. solve_submseteq. }
  cbn [vmm_head set_vmm_head set_vmm_tail rm_state]. destruct pre as [|z0 pre0]; [done|].
  apply dseg_insert; [intros; eapply Hp; [done|exact Ht|unfold fword, f_next; lia]|].
  do 2 (apply dseg_insert; [intros; eapply Hn; [done|unfold fword, f_prev, f_next; lia]|]).
  eapply dseg_set_next; [done|].
  apply dseg_insert; [intros; eapply (Hp _ nx); [done|left|unfold fword, f_prev; lia]|].
  do 2 (apply dseg_insert; [intros; eapply Hn; [done|unfold fword, f_start, f_size; lia]|]).
  exact Hpre.
Qed.

Lemma rm_seg_node : dseg rm_end t n [(n, 0, 0)] n 0.
Proof.
  destruct rm_tail as [Ht _]. pose proof (rm_apart_n _ (rm_in_post t Ht)).
  pose proof (rm_apart_n _ (rm_in_post nx ltac:(left))). pose proof rm_pl as Hpl.
  pose proof (fun H => rm_apart_n pl (rm_in_pre pl H)) as Hpln.
  unfold rm_end, rm_mid. cbn. unfold f_prev, f_next, f_start, f_size.
  destruct pre; [|destruct Hpl as [Hpl _]; specialize (Hpln Hpl)]; split_and!; try done; repeat run_step; try done.
  all: exists 0; split; [|done]; by repeat run_step.
Qed.

Lemma rm_upd : list_upd (faddr <$> (n, st, sz) :: pre ++ y :: post) s rm_state.
Proof.
  exists rm_end, (vmm_head rm_state), n. split; [done|]. intros w Hw.
  destruct rm_tail as [Ht _]. pose proof rm_pl as Hpl.
  pose proof (Hw n ltac:(left)) as H1. pose proof (Hw t ltac:(right; by apply rm_in_post)) as H2.
  pose proof (Hw nx ltac:(right; apply rm_in_post; left)) as H3.
  pose proof (fun H => Hw pl ltac:(right; by apply rm_in_pre)) as H4.
  unfold rm_end, rm_mid, fword, f_prev, f_next, f_start, f_size in *.
  destruct pre; [|destruct Hpl as [Hpl _]; specialize (H4 Hpl)]; by repeat rewrite lookup_insert_ne by lia.
Qed.
End remove_node.

(** [vmm_list_remove_node] moves an inner node, emptied, to the end of the list. *)
Lemma remove_node_run s pre n st sz post :
  dseg (mem s) 0 (vmm_head s) (pre ++ (n, st, sz) :: post) (vmm_tail s) 0 ->
  fapart (faddr <$> pre ++ (n, st, sz) :: post) -> post <> [] ->
  exists s', vmm_list_remove_node n s = Ok tt s' /\
    dseg (mem s') 0 (vmm_head s') (pre ++ post ++ [(n, 0, 0)]) (vmm_tail s') 0 /\
    list_upd (faddr <$> pre ++ (n, st, sz) :: post) s s'.
Proof.
  intros Hd Hap Hpost. destruct post as [|y post]; [done|]. clear Hpost.
  apply dseg_app in Hd as (pl & mid & Hpre & -> & Hz & Hprev & Hst & Hsz & nx & Hnext & Hpost).
  assert (nx = faddr y) as -> by (destruct y as [[??]?]; by destruct Hpost).
  assert (Hperm : faddr <$> pre ++ (n, st, sz) :: y :: post ≡ₚ faddr <$> (n, st, sz) :: pre ++ y :: post)
    by (by rewrite Permutation_middle).
  eapply (fapart_sub _ (faddr <$> (n, st, sz) :: pre ++ y :: post)) in Hap; [|by rewrite Hperm].
  exists (rm_state s pre n y pl). split; [|split].
  - by eapply rm_run.
  - apply dseg_app. eexists pl, _. split; [by eapply rm_seg_pre|].
    apply dseg_app. eexists _, _. split; [by eapply rm_seg_post|by eapply rm_seg_node].
  - destruct (rm_upd s pre n st sz y post pl) as (m' & h & t & E & Hm); [done..|].
    exists m', h, t. split; [done|]. intros w Hw. apply Hm. intros x. rewrite <- Hperm. apply Hw.
Qed.

(** ** Rewriting a node's block, and the loops over the list *)

Lemma dseg_set_block m prev p l1 n st sz l2 last q st' sz' :
  fapart (faddr <$> l1 ++ (n, st, sz) :: l2) ->
  dseg m prev p (l1 ++ (n, st, sz) :: l2) last q ->
  dseg (<[f_size n:=sz']> (<[f_start n:=st']> m)) prev p (l1 ++ (n, st', sz') :: l2) last q.
Proof.
  rewrite fmap_app. intros Hap Hd. apply dseg_app in Hd as (pm & mid & H1 & -> & Hz & Hp & Hs & Hz' & nx & Hn & H2).
  apply dseg_app. exists pm, n. split.
  - do 2 (apply dseg_insert; [intros x Hx Hw; pose proof (fapart_split _ _ x n Hap Hx ltac:(left));
      unfold fword, f_start, f_size in *; lia|]). done.
  - cbn. unfold f_prev, f_next, f_start, f_size in *.
    split_and!; try done; repeat run_step; try done. exists nx. split; [by repeat run_step|].
    assert (Hap2 : fapart ([n] ++ (faddr <$> l2))).
    { eapply fapart_sub; [|exact Hap]. rewrite fmap_cons. cbn. solve_submseteq. }
    do 2 (apply dseg_insert; [intros x Hx Hw; pose proof (fapart_split _ _ n x Hap2 ltac:(left) Hx);
      unfold fword in *; lia|]). done.
Qed.

Lemma dseg_nodes_dom m prev p l last q :
  dseg m prev p l last q -> Forall (fun n => is_Some (m !! n)) (faddr <$> l).
Proof.
  intros Hd. apply Forall_forall. intros n Hn. by destruct (dseg_backed _ _ _ _ _ _ n Hd Hn) as [? _].
Qed.

Lemma dseg_fuel s prev p l last q :
  dseg (mem s) prev p l last q -> NoDup (faddr <$> l) -> (length l < walk_fuel s)%nat.
Proof.
  intros Hd Hnd. unfold walk_fuel. rewrite <- (length_fmap faddr). apply Nat.lt_succ_r, size_bound; [done|].
  by eapply dseg_nodes_dom.
Qed.

(** The first-fit loop skips the blocks that are too small. *)
Lemma take_block_skip s req pre : forall fuel prev p last q,
  dseg (mem s) prev p pre last q -> Forall (fun x => x.2 < req) pre ->
  take_block (length pre + fuel) p req s = take_block fuel q req s.
Proof.
  induction pre as [|[[n st] sz] pre IH]; intros fuel prev p last q; cbn [length plus].
  - by intros [-> _] _.
  - intros (-> & Hz & Hp & Hs & Hsz & nx & Hn & Hd) Hf. apply Forall_cons in Hf as [Hlt Hf]. cbn in Hlt.
    cbn [take_block]. destruct (Z.eqb_spec n 0); [done|].
    run_mem. destruct (Z.leb_spec req sz); [lia|]. run_mem. by eapply IH.
Qed.

(** [take_block] takes the first block that is large enough. *)
Lemma take_block_run s pre n st sz post req :
  let l := pre ++ (n, st, sz) :: post in
  dseg (mem s) 0 (vmm_head s) l (vmm_tail s) 0 -> fapart (faddr <$> l) ->
  Forall (fun x => x.2 < req) pre -> 0 <= req <= sz -> 0 <= st -> st + sz < W64 ->
  (sz = req -> post <> []) ->
  exists s', take_block (walk_fuel s) (vmm_head s) req s = Ok st s' /\
    dseg (mem s') 0 (vmm_head s')
      (if sz =? req then pre ++ post ++ [(n, 0, 0)] else pre ++ (n, st + req, sz - req) :: post)
      (vmm_tail s') 0 /\
    list_upd (faddr <$> l) s s'.
Proof.
  intros l Hd Hap Hpre Hreq Hst Hw Hpost.
  pose proof (dseg_fuel _ _ _ _ _ _ Hd (proj1 Hap)) as Hf. unfold l in Hf. rewrite length_app in Hf. cbn in Hf.
  pose proof Hd as Hd'. apply dseg_app in Hd' as (pm & mid & H1 & -> & Hz & Hp & Hs & Hsz & nx & Hn & H2).
  replace (walk_fuel s) with (length pre + S (walk_fuel s - length pre - 1))%nat by lia.
  rewrite (take_block_skip _ _ _ _ _ _ _ _ H1 Hpre). cbn [take_block].
  destruct (Z.eqb_spec n 0); [done|]. unfold mbind at 1, M_bind at 1. unfold rd at 1. rewrite Hs.
  unfold mbind at 1, M_bind at 1. unfold rd at 1. rewrite Hsz.
  destruct (Z.leb_spec req sz); [|lia]. destruct (Z.eqb_spec sz req) as [->|Hne].
  - destruct (remove_node_run _ _ _ _ _ _ Hd Hap (Hpost eq_refl)) as (s' & Hr & Hseg & Hu).
    exists s'. split; [|done]. unfold mbind, M_bind. by rewrite Hr.
  - exists (set_mem (fun _ => <[f_size n:=sz - req]> (<[f_start n:=st + req]> (mem s))) s). split; [|split].
    + unfold f_start, f_size in *. run_mem. rewrite !u64_small by lia. done.
    + cbn. by eapply dseg_set_block.
    + exists (<[f_size n:=sz - req]> (<[f_start n:=st + req]> (mem s))), (vmm_head s), (vmm_tail s).
      split; [done|]. intros w Hww.
      specialize (Hww n). unfold l in Hww. rewrite fmap_app, elem_of_app in Hww. cbn in Hww.
      specialize (Hww ltac:(right; left)). unfold fword, f_start, f_size in *.
      by rewrite !lookup_insert_ne by lia.
Qed.

End VmmList.
