(* ===== verification/VmmBlocks.v ===== *)
(** * The blocks of the free list as a set of addresses

    The abstract view of the free list of mem/vmm.c: the addresses its blocks
    cover.  Blocks are disjoint, and joining adjacent blocks covers the same
    addresses. *)

From S2P Require Import Prelude KMath Machine Pmm Page Vmm VmmList.
Import KMath Machine Pmm KMalloc Page Vmm VmmList.

Module VmmBlocks.

Definition bstart (x : fnode) : Z := x.1.2.
Definition bsize (x : fnode) : Z := x.2.
Definition bend (x : fnode) : Z := bstart x + bsize x.

(** Is address [a] free? *)
Definition covers (l : list fnode) (a : Z) : Prop := Exists (fun x => bstart x <= a < bend x) l.

Definition block_ok (x : fnode) : Prop :=
  0 <= bstart x /\ 0 <= bsize x /\ bend x < W64 /\ (bsize x = 0 <-> bstart x = 0).
Definition disj (x y : fnode) : Prop :=
  bsize x = 0 \/ bsize y = 0 \/ bend x <= bstart y \/ bend y <= bstart x.

Fixpoint pairwise (l : list fnode) : Prop :=
  match l with [] => True | x :: l' => Forall (disj x) l' /\ pairwise l' end.

Definition blocks_ok (l : list fnode) : Prop := Forall block_ok l /\ pairwise l.

Lemma disj_sym x y : disj x y -> disj y x.
Proof. unfold disj. lia. Qed.

#[global] Instance pairwise_proper : Proper ((≡ₚ) ==> iff) pairwise.
Proof.
  intros l l' Hp. induction Hp as [|x l l' Hp IH|x y l|l1 l2 l3 _ IH1 _ IH2]; cbn; [done|by rewrite IH, (Forall_Permutation _ _ (fun _ => reflexivity _) _ _ Hp)| |by rewrite IH1].
  rewrite !Forall_cons. split; intros ((? & ?) & ? & ?); split_and!; eauto using disj_sym.
Qed.

#[global] Instance blocks_ok_proper : Proper ((≡ₚ) ==> iff) blocks_ok.
Proof. intros l l' Hp. unfold blocks_ok. by rewrite Hp. Qed.

#[global] Instance covers_proper : Proper ((≡ₚ) ==> eq ==> iff) covers.
Proof.
  intros l l' Hp a a' ->. unfold covers. rewrite !Exists_exists.
  split; intros (x & Hx & ?); exists x; [rewrite <- Hp|rewrite Hp]; done.
Qed.

Lemma covers_cons x l a : covers (x :: l) a <-> bstart x <= a < bend x \/ covers l a.
Proof. apply Exists_cons. Qed.

Lemma blocks_ok_cons x l :
  blocks_ok (x :: l) <-> block_ok x /\ Forall (disj x) l /\ blocks_ok l.
Proof. unfold blocks_ok. cbn. rewrite Forall_cons. tauto. Qed.

(** [w] is the block of [u] and [v] together, one directly after the other. *)
Definition joins (u v w : fnode) : Prop :=
  bsize w = bsize u + bsize v /\
  (bend u = bstart v /\ bstart w = bstart u \/ bend v = bstart u /\ bstart w = bstart v).

Lemma joins_ok u v w l :
  joins u v w -> 0 < bsize u -> 0 < bsize v -> blocks_ok (u :: v :: l) ->
  blocks_ok (w :: l) /\ forall a, covers (w :: l) a <-> covers (u :: v :: l) a.
Proof.
  unfold joins. intros Hj Hu Hv H. rewrite !blocks_ok_cons, Forall_cons in H.
  destruct H as (Hok1 & [Hd Hd1] & Hok2 & Hd2 & Hl). unfold block_ok, bend in *. split.
  - apply blocks_ok_cons. split; [unfold block_ok, bend; lia|]. split; [|done].
    destruct Hl as [Hl _]. rewrite !Forall_forall in *. intros z Hz.
    specialize (Hd1 z Hz). specialize (Hd2 z Hz). specialize (Hl z Hz).
    unfold disj, block_ok, bend in *. lia.
  - intros a. rewrite !covers_cons. unfold bend. assert (bstart w <= a < bstart w + bsize w <->
      bstart u <= a < bstart u + bsize u \/ bstart v <= a < bstart v + bsize v) by lia. tauto.
Qed.

(** An emptied node adds nothing. *)
Lemma empty_node_ok n l :
  blocks_ok l -> blocks_ok ((n, 0, 0) :: l) /\ forall a, covers ((n, 0, 0) :: l) a <-> covers l a.
Proof.
  intros Hl. split.
  - apply blocks_ok_cons. split; [unfold block_ok, bend, bstart, bsize; cbn; lia|]. split; [|done].
    apply Forall_forall. intros x _. by left.
  - intros a. rewrite covers_cons. unfold bend, bstart, bsize. cbn. split; [intros [?|?]; [lia|done]|by right].
Qed.

(** Cutting [req] bytes off the front of a block. *)
Lemma cut_ok n st sz req l :
  0 < req < sz -> blocks_ok ((n, st, sz) :: l) ->
  blocks_ok ((n, st + req, sz - req) :: l) /\
  forall a, covers ((n, st, sz) :: l) a <->
            st <= a < st + req \/ covers ((n, st + req, sz - req) :: l) a.
Proof.
  intros Hr H. apply blocks_ok_cons in H as (Hok & Hd & Hl). split.
  - apply blocks_ok_cons. unfold block_ok, bend, bstart, bsize in *. cbn in *. split; [lia|]. split; [|done].
    eapply Forall_impl; [exact Hd|]. intros x. unfold disj, bend, bstart, bsize. cbn. lia.
  - intros a. rewrite !covers_cons. unfold bend, bstart, bsize. cbn. intuition lia.
Qed.

(** The address a block gives up is not covered by the others. *)
Lemma cut_apart n st sz l a :
  0 < sz -> blocks_ok ((n, st, sz) :: l) -> st <= a < st + sz -> ~ covers l a.
Proof.
  intros Hsz H Ha Hc. apply blocks_ok_cons in H as (_ & Hd & _). rewrite Forall_forall in Hd.
  apply Exists_exists in Hc as (x & Hx & Hxa). specialize (Hd x Hx).
  unfold disj, bend, bstart, bsize in *. cbn in *. lia.
Qed.

(** A block of whole pages. *)
Definition page_block (x : fnode) : Prop := bstart x mod 4096 = 0 /\ bsize x mod 4096 = 0.

(** Does the free block [x] end where the block from [b] to [e] starts, or start where it ends? *)
Definition touches (b e : Z) (x : fnode) : Prop := bend x = b \/ bstart x = e.
#[global] Instance touches_dec b e x : Decision (touches b e x).
Proof. unfold touches. apply _. Defined.

Lemma first_split {A} (P : A -> Prop) `{!forall x, Decision (P x)} (l : list A) :
  Forall (fun x => ~ P x) l \/
  exists pre x post, l = pre ++ x :: post /\ Forall (fun x => ~ P x) pre /\ P x.
Proof.
  induction l as [|y l IH]; [by left|]. destruct (decide (P y)) as [Hy|Hy].
  - right. by exists [], y, l.
  - destruct IH as [IH|(pre & x & post & -> & Hpre & Hx)]; [left; by constructor|].
    right. exists (y :: pre), x, post. split_and!; [done|by constructor|done].
Qed.

End VmmBlocks.
