(* ===== verification/VmmOps.v ===== *)
(** * The operations of mem/vmm.c on the free list

    Each loop of [vmm_free] is followed over the list it runs on; the results
    say what the list holds afterwards. *)

From S2P Require Import Prelude KMath Machine Pmm Page Vmm VmmList VmmBlocks.
Import KMath Machine Pmm KMalloc Page Vmm VmmList VmmBlocks.

Module VmmOps.

(** The memory with the block of node [n] replaced. *)
Definition set_block (n st sz : Z) (s : kstate) : kstate :=
  set_mem (fun _ => <[f_size n:=sz]> (<[f_start n:=st]> (mem s))) s.

Lemma list_upd_trans ns s1 s2 s3 : list_upd ns s1 s2 -> list_upd ns s2 s3 -> list_upd ns s1 s3.
Proof.
  intros (m1 & h1 & t1 & -> & H1) (m2 & h2 & t2 & -> & H2). exists m2, h2, t2. split; [done|].
  intros w Hw. rewrite <- H1 by done. by apply H2.
Qed.

Lemma list_upd_block ns n st sz s : n ∈ ns -> list_upd ns s (set_block n st sz s).
Proof.
  intros Hn. exists (mem (set_block n st sz s)), (vmm_head s), (vmm_tail s). split; [done|]. intros w Hw.
  specialize (Hw n Hn). cbn. unfold fword, f_start, f_size in *. by rewrite !lookup_insert_ne by lia.
Qed.

(** The block of node [n], with start [st] and size [sz], extended by the
    touching block from [b] to [e]. *)
Definition joined (n st sz b e : Z) : fnode :=
  (n, (if b =? st + sz then st else b), sz + (e - b)).

Lemma joined_joins n st sz b e k :
  touches b e (n, st, sz) -> joins (n, st, sz) (k, b, e - b) (joined n st sz b e).
Proof.
  unfold touches, joins, joined, bend, bstart, bsize. cbn. btests; lia.
Qed.

Lemma joined_pages n st sz b e :
  page_block (n, st, sz) -> b mod 4096 = 0 -> (e - b) mod 4096 = 0 -> page_block (joined n st sz b e).
Proof.
  unfold page_block, joined, bstart, bsize. cbn. intros [H1 H2] H3 H4. split; [by case_match|].
  rewrite Z.add_mod, H2, H4 by lia. done.
Qed.

Section loops.
Context (s : kstate) (b e : Z).
Hypothesis Hbe : 0 < b < e.
Hypothesis Hew : e < W64.

Lemma merge_first_skip pre : forall fuel prev p last q,
  dseg (mem s) prev p pre last q -> Forall block_ok pre -> Forall (fun x => ~ touches b e x) pre -> q <> 0 ->
  merge_first (length pre + fuel) p b e s = merge_first fuel q b e s.
Proof.
  induction pre as [|[[n st] sz] pre IH]; intros fuel prev p last q; cbn [length plus].
  - by intros [-> _].
  - intros (-> & Hz & Hp & Hs & Hsz & nx & Hn & Hd) Hok Ht Hq.
    apply Forall_cons in Hok as [Ho Hok]. apply Forall_cons in Ht as [Hnt Ht].
    unfold block_ok, touches, bend, bstart, bsize in Ho, Hnt. cbn in Ho, Hnt.
    cbn [merge_first]. run_mem. rewrite u64_small by lia.
    destruct (Z.eqb_spec b (st + sz)); [lia|]. destruct (Z.eqb_spec e st); [lia|]. run_mem.
    assert (nx <> 0).
    { destruct pre as [|[[??]?] ?]; [by destruct Hd as [-> _]|by destruct Hd as (-> & ? & _)]. }
    destruct (Z.eqb_spec nx 0); [done|]. by eapply IH.
Qed.

Lemma merge_first_none x l : forall fuel prev p last,
  dseg (mem s) prev p (x :: l) last 0 -> Forall block_ok (x :: l) ->
  Forall (fun x => ~ touches b e x) (x :: l) ->
  merge_first (S (length l + fuel)) p b e s = Ok (inr last) s.
Proof.
  revert x. induction l as [|y l IH]; intros [[n st] sz] fuel prev p last; cbn [length plus];
    intros (-> & Hz & Hp & Hs & Hsz & nx & Hn & Hd) Hok Ht;
    apply Forall_cons in Hok as [Ho Hok]; apply Forall_cons in Ht as [Hnt Ht];
    unfold block_ok, touches, bend, bstart, bsize in Ho, Hnt; cbn in Ho, Hnt;
    cbn [merge_first]; run_mem; rewrite u64_small by lia;
    (destruct (Z.eqb_spec b (st + sz)); [lia|]); (destruct (Z.eqb_spec e st); [lia|]); run_mem.
  - destruct Hd as [-> ->]. done.
  - assert (nx <> 0) by (destruct y as [[??]?]; by destruct Hd as (-> & ? & _)).
    destruct (Z.eqb_spec nx 0); [done|]. by eapply IH.
Qed.

Lemma merge_first_hit n st sz fuel :
  mem s !! f_start n = Some st -> mem s !! f_size n = Some sz ->
  block_ok (n, st, sz) -> touches b e (n, st, sz) -> 0 < bstart (joined n st sz b e) ->
  bend (joined n st sz b e) < W64 ->
  let x := joined n st sz b e in
  merge_first (S fuel) n b e s =
    Ok (inl (n, bstart x, bend x)) (set_block n (bstart x) (bsize x) s).
Proof.
  intros Hs Hsz Hok Ht Hpos Hw. unfold set_block, joined, block_ok, touches, bend, bstart, bsize in *. cbn in *.
  unfold f_start, f_size in *. run_mem. rewrite (u64_small (st + sz)) by lia.
  destruct (Z.eqb_spec b (st + sz)) as [E|E].
  - run_mem. rewrite (u64_small (e - b)), u64_small by lia. unfold set_mem. cbn.
    rewrite (insert_id (mem s) (n + 16) st) by done. repeat f_equal; lia.
  - destruct (Z.eqb_spec e st) as [->|]; [|lia]. run_mem.
    rewrite (u64_small (st - b)), (u64_small (st - (st - b))), (u64_small (sz + (st - b))) by lia.
    rewrite u64_small by lia. replace (st - (st - b)) with b by lia. done.
Qed.

Lemma merge_again_skip mg pre : forall fuel prev p last q,
  dseg (mem s) prev p pre last q -> Forall block_ok pre -> Forall (fun x => ~ touches b e x) pre ->
  merge_again (length pre + fuel) p mg b e s = merge_again fuel q mg b e s.
Proof.
  induction pre as [|[[n st] sz] pre IH]; intros fuel prev p last q; cbn [length plus].
  - by intros [-> _].
  - intros (-> & Hz & Hp & Hs & Hsz & nx & Hn & Hd) Hok Ht.
    apply Forall_cons in Hok as [Ho Hok]. apply Forall_cons in Ht as [Hnt Ht].
    unfold block_ok, touches, bend, bstart, bsize in Ho, Hnt. cbn in Ho, Hnt.
    cbn [merge_again]. destruct (Z.eqb_spec n 0); [done|]. run_mem. rewrite u64_small by lia.
    destruct (Z.eqb_spec b (st + sz)); [lia|]. destruct (Z.eqb_spec e st); [lia|]. run_mem. by eapply IH.
Qed.

Lemma merge_again_hit mg n st sz fuel :
  n <> 0 -> mem s !! f_start n = Some st -> mem s !! f_size n = Some sz ->
  block_ok (n, st, sz) -> touches b e (n, st, sz) -> bend (joined n st sz b e) < W64 ->
  let x := joined n st sz b e in
  merge_again (S fuel) n mg b e s = vmm_list_remove_node mg (set_block n (bstart x) (bsize x) s).
Proof.
  intros Hz Hs Hsz Hok Ht Hw. unfold set_block, joined, block_ok, touches, bend, bstart, bsize in *. cbn in *.
  unfold f_start, f_size in *. destruct (Z.eqb_spec n 0); [done|]. run_mem. rewrite (u64_small (st + sz)) by lia.
  destruct (Z.eqb_spec b (st + sz)) as [E|E].
  - run_mem. rewrite (u64_small (e - b)), u64_small by lia. unfold set_mem. cbn.
    by rewrite (insert_id (mem s) (n + 16) st) by done.
  - destruct (Z.eqb_spec e st) as [->|]; [|lia]. run_mem.
    rewrite (u64_small (st - b)), (u64_small (st - (st - b))), (u64_small (sz + (st - b))) by lia.
    by replace (st - (st - b)) with b by lia.
Qed.
End loops.

(** Without a block to merge with, the empty tail node is moved to the front. *)
Lemma push_block_run s x l0 t last mem_ pages :
  let l := (x :: l0) ++ [(t, 0, 0)] in
  dseg (mem s) 0 (vmm_head s) l (vmm_tail s) 0 -> fapart (faddr <$> l) ->
  0 <= pages * 4096 < W64 ->
  exists s', push_block last mem_ pages s = Ok tt s' /\
    dseg (mem s') 0 (vmm_head s') ((t, mem_, pages * 4096) :: x :: l0) (vmm_tail s') 0 /\
    list_upd (faddr <$> l) s s'.
Proof.
  intros l Hd Hap Hpg. unfold l in *.
  apply dseg_app in Hd as (pl & mid & Hl0 & -> & Hz & Hp & Hs & Hsz & nx & Hn & -> & ->).
  set (t := vmm_tail s) in *. set (h := vmm_head s) in *.
  assert (Hh : faddr x = h) by (destruct x as [[??]?]; by destruct Hl0 as (-> & _)).
  destruct (dseg_last _ _ _ _ _ _ Hl0) as [[? _]|[Hpl Hplz]]; [done|].
  destruct (dseg_backed _ _ _ _ _ _ _ Hl0 Hpl) as (_ & [pn Hpn] & _).
  destruct (dseg_backed _ _ _ _ _ _ (faddr x) Hl0 ltac:(left)) as ([hp Hhp] & _). rewrite Hh in Hhp.
  rewrite fmap_app in Hap.
  pose proof (fapart_split _ _ pl t Hap Hpl ltac:(left)) as Hplt.
  assert (Hht : h + 32 <= t \/ t + 32 <= h) by (rewrite <- Hh; apply (fapart_split _ _ _ _ Hap); left).
  assert (Hap0 : fapart (faddr <$> x :: l0)) by (eapply fapart_sub; [|exact Hap]; solve_submseteq).
  assert (Hphs : pl = h \/ pl + 32 <= h \/ h + 32 <= pl).
  { destruct (decide (pl = h)); [by left|right]. destruct Hap0 as [_ H]. apply H; [done|rewrite <- Hh; left|done]. }
  assert (Hmt : forall m v1 v2 v3 v4, dseg m 0 h (x :: l0) pl t ->
    dseg (<[f_prev h:=t]> (<[f_size t:=v4]> (<[f_start t:=v3]> (<[f_next t:=v2]> (<[f_prev t:=v1]>
      (<[f_next pl:=0]> m)))))) t h (x :: l0) pl 0).
  { intros m v1 v2 v3 v4 Hm. eapply dseg_set_prev; [done|].
    do 4 (apply dseg_insert; [intros z Hz' Hw; pose proof (fapart_split _ _ z t Hap Hz' ltac:(left));
      unfold fword, f_prev, f_next, f_start, f_size in *; lia|]).
    eapply dseg_set_next; [done|exact Hm]. }
  unfold f_prev, f_next, f_start, f_size in *. eexists. split; [|split].
  - unfold push_block, f_prev, f_next, f_start, f_size. subst t h. run_mem. rewrite (u64_small (pages * PAGE_SIZE)) by done. reflexivity.
  - cbn. unfold f_prev, f_next, f_start, f_size. repeat run_step. split_and!; try done. exists h.
    repeat run_step. split; [done|]. apply Hmt, Hl0.
  - exists (<[h:=t]> (<[t+24:=pages * PAGE_SIZE]> (<[t+16:=mem_]> (<[t+8:=h]> (<[t:=0]> (<[pl+8:=0]> (mem s))))))), t, pl.
    split; [done|]. intros w Hw. rewrite fmap_app in Hw.
    pose proof (Hw t ltac:(apply elem_of_app; right; left)) as H1.
    pose proof (Hw pl ltac:(apply elem_of_app; by left)) as H2.
    pose proof (Hw h ltac:(apply elem_of_app; left; rewrite <- Hh; left)) as H3.
    unfold fword in *. by rewrite !lookup_insert_ne by lia.
Qed.

(** ** The list after [vmm_free] has returned a block *)

Record free_list (s : kstate) (l : list fnode) : Prop := {
  fl_seg : dseg (mem s) 0 (vmm_head s) l (vmm_tail s) 0;
  fl_apart : fapart (faddr <$> l);
  fl_ok : blocks_ok l;
}.

Lemma touches_nonempty b e x : 0 < b < e -> block_ok x -> touches b e x -> 0 < bsize x.
Proof. unfold block_ok, touches, bend. lia. Qed.

Lemma addr_unique l (x y : fnode) :
  NoDup (faddr <$> l) -> x ∈ l -> y ∈ l -> faddr x = faddr y -> x = y.
Proof.
  intros Hnd [i Hi]%list_elem_of_lookup [j Hj]%list_elem_of_lookup E.
  assert (i = j) as ->; [|congruence].
  eapply NoDup_lookup; [exact Hnd| |]; rewrite list_lookup_fmap; [by rewrite Hi|by rewrite Hj, E].
Qed.

(** The second pass joins the merged node [n] with a neighbour, if there is one. *)
Lemma merge_again_run s l n b e :
  free_list s l -> (n, b, e - b) ∈ l -> 0 < b < e -> e < W64 -> last (faddr <$> l) <> Some n ->
  exists s' l', merge_again (walk_fuel s) (vmm_head s) n b e s = Ok tt s' /\ free_list s' l' /\
    (faddr <$> l') ≡ₚ (faddr <$> l) /\ (forall a, covers l' a <-> covers l a) /\
    list_upd (faddr <$> l) s s' /\ (Forall page_block l -> Forall page_block l').
Proof.
  intros [Hseg Hap Hok] Hx Hb Hew Hlast.
  pose proof (dseg_fuel _ _ _ _ _ _ Hseg (proj1 Hap)) as Hf.
  destruct (first_split (touches b e) l) as [Hnone|(pre & [[m st] sz] & post & -> & Hpre & Ht)].
  - exists s, l. replace (walk_fuel s) with (length l + S (walk_fuel s - length l - 1))%nat by lia.
    rewrite (merge_again_skip _ _ _ Hb _ _ _ _ _ _ _ Hseg (proj1 Hok) Hnone).
    split_and!; [done|by split|done|done| |done].
    exists (mem s), (vmm_head s), (vmm_tail s). split; [by destruct s|done].
  - set (y := (m, st, sz)) in *. set (y' := joined m st sz b e). set (x := (n, b, e - b)) in *.
    assert (Hperm : pre ++ y :: post ≡ₚ y :: pre ++ post) by (symmetry; apply Permutation_middle).
    assert (Hoky : block_ok y) by (destruct Hok as [H _]; rewrite Hperm, Forall_cons in H; tauto).
    assert (Hxy : x <> y).
    { intros E. unfold y, x in *. injection E as -> <- <-.
      unfold touches, bend, bstart, bsize in Ht. cbn in Ht. lia. }
    assert (Hxr : x ∈ pre ++ post) by (rewrite Hperm, elem_of_cons in Hx; by destruct Hx).
    destruct (proj1 (elem_of_Permutation _ _) Hxr) as [r Hr].
    pose proof (touches_nonempty _ _ _ Hb Hoky Ht) as Hysz.
    assert (Hbs : blocks_ok (y :: x :: r)) by (by rewrite <- Hr, <- Hperm).
    destruct (joins_ok y x y' r) as [Hbs' Hcov]; [by apply joined_joins|done|unfold x, bsize; cbn; lia|done|].
    assert (Hy'w : bend y' < W64).
    { apply blocks_ok_cons in Hbs' as (H & _). unfold block_ok in H. lia. }
    pose proof Hseg as Hseg'. apply dseg_app in Hseg' as (pm & mid & H1 & -> & Hz & Hp & Hs & Hsz & nx & Hn & H2).
    rewrite length_app in Hf. cbn in Hf.
    replace (walk_fuel s) with (length pre + S (walk_fuel s - length pre - 1))%nat by lia.
    rewrite (merge_again_skip _ _ _ Hb _ _ _ _ _ _ _ H1); [|by destruct Hok as [H _]; apply Forall_app in H as [? _]|done].
    rewrite (merge_again_hit _ _ _ Hb Hew _ _ _ _ _ Hz Hs Hsz Hoky Ht Hy'w). fold y'.
    set (s1 := set_block m (bstart y') (bsize y') s).
    assert (Hseg1 : dseg (mem s1) 0 (vmm_head s1) (pre ++ y' :: post) (vmm_tail s1) 0) by
      (by eapply dseg_set_block).
    assert (Haddr : faddr <$> pre ++ y' :: post = faddr <$> pre ++ y :: post) by (by rewrite !fmap_app, !fmap_cons).
    assert (Hx1 : x ∈ pre ++ y' :: post) by (rewrite elem_of_app, elem_of_cons; apply elem_of_app in Hxr; tauto).
    destruct (list_elem_of_split _ _ Hx1) as (pre3 & post3 & E3).
    assert (Hpost3 : post3 <> []).
    { intros ->. apply Hlast. rewrite E3, fmap_app in Haddr. etrans; [exact (f_equal last (eq_sym Haddr))|].
      apply last_snoc. }
    rewrite E3 in Hseg1, Haddr.
    destruct (remove_node_run s1 pre3 n b (e - b) post3 Hseg1) as (s' & Hrun & Hseg2 & Hu);
      [exact (eq_ind_r fapart Hap Haddr)|done|].
    assert (Hperm3 : pre3 ++ post3 ≡ₚ y' :: r).
    { apply (Permutation_cons_inv (a := x)). rewrite Permutation_middle, <- E3, <- Permutation_middle, Hr.
      apply Permutation_swap. }
    assert (Hl' : pre3 ++ post3 ++ [(n, 0, 0)] ≡ₚ (n, 0, 0) :: y' :: r) by (rewrite app_assoc, Hperm3; solve_Permutation).
    assert (Haddr' : (faddr <$> pre3 ++ post3 ++ [(n, 0, 0)]) ≡ₚ (faddr <$> pre ++ y :: post)).
    { rewrite <- Haddr, !fmap_app, fmap_cons. cbn. solve_Permutation. }
    destruct (empty_node_ok n (y' :: r) Hbs') as [Hok' Hcov'].
    exists s', (pre3 ++ post3 ++ [(n, 0, 0)]). split_and!; [done|split|done| | |].
    + done.
    + eapply fapart_sub; [|exact Hap]. by rewrite Haddr'.
    + by rewrite Hl'.
    + intros a. by rewrite Hl', Hcov', Hcov, Hperm, Hr.
    + eapply list_upd_trans; [|exact (eq_ind _ (fun ns => list_upd ns s1 s') Hu _ Haddr)]. apply list_upd_block.
      rewrite fmap_app. apply elem_of_app. right. left.
    + intros HP. rewrite Hl'. rewrite Hperm, Hr in HP. apply Forall_cons in HP as [Hy HP].
      apply Forall_cons in HP as [[Hb1 Hb2] HP]. constructor; [done|]. constructor; [|done].
      by apply joined_pages.
Qed.

(** From the list [l] in [s] to [l'] in [s'] the addresses from [b] to [e] have been added. *)
Definition returned (s : kstate) (l : list fnode) (b e : Z) (s' : kstate) (l' : list fnode) : Prop :=
  free_list s' l' /\ (faddr <$> l') ≡ₚ (faddr <$> l) /\
  (forall a, covers l' a <-> covers l a \/ b <= a < e) /\ list_upd (faddr <$> l) s s' /\
  (b mod 4096 = 0 -> Forall page_block l -> Forall page_block l').

(** Returning a block to a list whose tail node is unused: the two cases. *)
Section return_block.
Context (s : kstate) (l0 l : list fnode) (t b e pages : Z).
Hypothesis Hl : l = l0 ++ [(t, 0, 0)].
Hypothesis He : e = b + pages * 4096.
Hypothesis Hseg : dseg (mem s) 0 (vmm_head s) l (vmm_tail s) 0.
Hypothesis Hap : fapart (faddr <$> l).
Hypothesis Hall : blocks_ok ((0, b, pages * 4096) :: l).
Hypothesis Hb : 0 < b.
Hypothesis Hpg : 0 < pages.
Hypothesis Hew : e < W64.

Lemma rb_ok : blocks_ok l.
Proof. by apply blocks_ok_cons in Hall as (_ & _ & ?). Qed.

Lemma rb_range : 0 < b < e.
Proof. lia. Qed.

Lemma rb_fuel : (length l < walk_fuel s)%nat.
Proof. eapply dseg_fuel; [exact Hseg|apply Hap]. Qed.

Lemma return_push :
  l0 <> [] -> Forall (fun x => ~ touches b e x) l ->
  exists s' l', merge_first (walk_fuel s) (vmm_head s) b e s = Ok (inr (vmm_tail s)) s /\
    push_block (vmm_tail s) b pages s = Ok tt s' /\ returned s l b e s' l'.
Proof.
  intros Hl0 Hnone. pose proof rb_fuel as Hf. pose proof rb_ok as Hok. pose proof rb_range as Hbe.
  assert (exists k, walk_fuel s = length l + k)%nat as [k Hk] by (exists (walk_fuel s - length l)%nat; lia).
  destruct l0 as [|x l1]; [done|]. subst l. cbn [app length] in Hseg, Hnone, Hok, Hk.
  rewrite Hk.
  destruct (push_block_run s x l1 t (vmm_tail s) b pages Hseg Hap) as (s' & Hr & Hs' & Hu); [lia|].
  exists s', ((t, b, pages * 4096) :: x :: l1).
  split; [apply (merge_first_none _ _ _ Hbe _ _ _ _ _ _ Hseg (proj1 Hok) Hnone)|].
  split; [done|]. split_and!; [split| | |done|].
  - done.
  - eapply fapart_sub; [|exact Hap]. rewrite !fmap_app, !fmap_cons. cbn. solve_submseteq.
  - rewrite <- Permutation_cons_append in Hall.
    apply blocks_ok_cons in Hall as (H1 & H2 & H3). apply Forall_cons in H2 as [_ H2].
    apply blocks_ok_cons in H3 as (_ & _ & H3). by apply blocks_ok_cons.
  - rewrite !fmap_app, !fmap_cons. cbn. solve_Permutation.
  - intros a. rewrite <- Permutation_cons_append, !covers_cons. rewrite He. unfold bend, bstart, bsize. cbn. intuition lia.
  - intros Hb0 HP. apply Forall_app in HP as [HP _]. constructor; [|done].
    split; [done|]. unfold bsize. cbn. apply Z.mod_mul. lia.
Qed.

Lemma return_merge pre n st sz post :
  l = pre ++ (n, st, sz) :: post -> Forall (fun x => ~ touches b e x) pre -> touches b e (n, st, sz) ->
  let y' := joined n st sz b e in
  exists s1 s' l', merge_first (walk_fuel s) (vmm_head s) b e s = Ok (inl (n, bstart y', bend y')) s1 /\
    merge_again (walk_fuel s1) (vmm_head s1) n (bstart y') (bend y') s1 = Ok tt s' /\ returned s l b e s' l'.
Proof.
  intros E Hpre Ht y'. pose proof rb_fuel as Hf. pose proof rb_ok as Hok. pose proof rb_range as Hbe.
  set (y := (n, st, sz)) in *.
  assert (Hperm : l ≡ₚ y :: pre ++ post) by (rewrite E; symmetry; apply Permutation_middle).
  assert (Hoky : block_ok y) by (destruct Hok as [H _]; rewrite Hperm, Forall_cons in H; tauto).
  pose proof (touches_nonempty _ _ _ Hbe Hoky Ht) as Hysz.
  assert (Hj : joins y (0, b, pages * 4096) y').
  { pose proof (joined_joins n st sz b e 0 Ht) as H. by replace (e - b) with (pages * 4096) in H by lia. }
  destruct (joins_ok y (0, b, pages * 4096) y' (pre ++ post)) as [Hok1 Hcov]; [done|done|unfold bsize; cbn; lia| |].
  { rewrite Hperm in Hall. rewrite (Permutation_swap _ y). done. }
  assert (Hby : 0 < bstart y' /\ bend y' < W64 /\ bstart y' < bend y').
  { apply blocks_ok_cons in Hok1 as ((H1 & H2 & H3 & H4) & _). unfold joins, bend in *.
    unfold bsize, bstart in *. cbn in *. lia. }
  set (s1 := set_block n (bstart y') (bsize y') s).
  assert (Haddr : faddr <$> pre ++ y' :: post = faddr <$> l) by (by rewrite E, !fmap_app, !fmap_cons).
  destruct (merge_again_run s1 (pre ++ y' :: post) n (bstart y') (bend y')) as (s' & l' & Hr & Hfl & Hpa & Hc & Hu & HP').
  - split; [rewrite E in *; by eapply dseg_set_block|by rewrite Haddr|by rewrite <- Permutation_middle].
  - apply elem_of_app. right. apply elem_of_cons. left.
    unfold y', joined, bend, bstart, bsize. cbn. f_equal. lia.
  - lia.
  - tauto.
  - rewrite Haddr, Hl, fmap_app. change (faddr <$> [(t, 0, 0)]) with [t]. rewrite last_snoc. intros [= Et].
    assert (y = (t, 0, 0)) as Ey; [|by unfold bsize in Hysz; rewrite Ey in Hysz].
    apply (addr_unique l); [apply Hap|rewrite Hperm; left|rewrite Hl; apply elem_of_app; right; left|done].
  - exists s1, s', l'. split; [|split; [done|]; split; [done|]; split; [|split; [|split]]].
    + rewrite E, length_app in Hf. cbn in Hf. rewrite E in Hseg, Hok.
      apply dseg_app in Hseg as (pm & mid & H1 & -> & Hz & Hp & Hs & Hsz & nx & Hn & H2).
      replace (walk_fuel s) with (length pre + S (walk_fuel s - length pre - 1))%nat at 1 by lia.
      rewrite (merge_first_skip _ _ _ Hbe _ _ _ _ _ _ H1);
        [|by destruct Hok as [H _]; apply Forall_app in H as [? _]|done|done].
      rewrite (merge_first_hit _ _ _ Hbe Hew _ _ _ _ Hs Hsz Hoky Ht) by tauto. done.
    + by rewrite Hpa, Haddr.
    + intros a. rewrite Hc, <- Permutation_middle, Hcov, Hperm, !covers_cons.
      rewrite He. unfold bend, bstart, bsize. cbn. tauto.
    + rewrite Haddr in Hu. eapply list_upd_trans; [|exact Hu]. apply list_upd_block.
      rewrite <- Haddr, fmap_app. apply elem_of_app. right. left.
    + intros Hb0 HP. apply HP'. rewrite <- Permutation_middle. rewrite Hperm in HP. apply Forall_cons in HP as [Hy HP].
      constructor; [|done]. apply joined_pages; [done|done|]. rewrite He.
      replace (b + pages * 4096 - b) with (pages * 4096) by lia. apply Z.mod_mul. lia.
Qed.

Lemma return_block_run :
  l0 <> [] -> exists s' l', return_block b pages s = Ok tt s' /\ returned s l b e s' l'.
Proof.
  intros Hl0. unfold return_block. change PAGE_SIZE with 4096.
  rewrite (u64_small (pages * 4096)), (u64_small (b + _)) by lia. rewrite <- He.
  unfold mbind, M_bind, gets.
  destruct (first_split (touches b e) l) as [Hnone|(pre & [[n st] sz] & post & E & Hpre & Ht)].
  - destruct (return_push Hl0 Hnone) as (s' & l' & -> & -> & H). eauto.
  - destruct (return_merge pre n st sz post E Hpre Ht) as (s1 & s' & l' & -> & -> & H). eauto.
Qed.
End return_block.

(** ** The list of allocated blocks *)

(** The nodes (address, start, size) from [p] to [q]; unused nodes hold (0, 0). *)
Fixpoint aseg (m : gmap Z Z) (p : Z) (l : list fnode) (q : Z) : Prop :=
  match l with
  | [] => p = q
  | (n, st, sz) :: l' => p = n /\ n <> 0 /\ m !! a_start n = Some st /\ m !! a_size n = Some sz /\
      exists nx, m !! a_next n = Some nx /\ aseg m nx l' q
  end.

Definition aapart (ns : list Z) : Prop :=
  NoDup ns /\ forall x y, x ∈ ns -> y ∈ ns -> x <> y -> x + 24 <= y \/ y + 24 <= x.

Record alloc_list (s : kstate) (l : list fnode) : Prop := {
  al_seg : aseg (mem s) (alloc_head s) l 0;
  al_apart : aapart (faddr <$> l);
}.

Lemma aseg_app m p l1 l2 q :
  aseg m p (l1 ++ l2) q <-> exists mid, aseg m p l1 mid /\ aseg m mid l2 q.
Proof.
  revert p. induction l1 as [|[[n st] sz] l1 IH]; intros p; cbn; [naive_solver|].
  setoid_rewrite IH. naive_solver.
Qed.

Lemma aseg_insert m p l q w v :
  (forall n, n ∈ faddr <$> l -> w < n \/ n + 24 <= w) -> aseg m p l q -> aseg (<[w:=v]> m) p l q.
Proof.
  revert p. induction l as [|[[n st] sz] l IH]; intros p Hw; cbn; [done|].
  intros (-> & Hz & H1 & H2 & nx & H3 & H4). pose proof (Hw n ltac:(left)).
  unfold a_start, a_size, a_next in *. rewrite !lookup_insert_ne by lia. split_and!; try done.
  exists nx. split; [done|]. apply IH; [|done]. intros. apply Hw. by right.
Qed.

Lemma aseg_fuel s p l q : aseg (mem s) p l q -> NoDup (faddr <$> l) -> (length l < walk_fuel s)%nat.
Proof.
  intros Ha Hnd. unfold walk_fuel. rewrite <- (length_fmap faddr). apply Nat.lt_succ_r, size_bound; [done|].
  clear Hnd. revert p Ha. induction l as [|[[n st] sz] l IH]; intros p; [constructor|].
  intros (-> & _ & _ & _ & nx & H & Hl). constructor; [by eexists|eauto].
Qed.

(** The state with node [n] holding the block ([st], [sz]). *)
Definition set_alloc (n st sz : Z) (s : kstate) : kstate :=
  set_mem (fun _ => <[a_size n:=sz]> (<[a_start n:=st]> (mem s))) s.

Lemma set_alloc_list s l1 n st sz l2 st' sz' :
  alloc_list s (l1 ++ (n, st, sz) :: l2) -> alloc_list (set_alloc n st' sz' s) (l1 ++ (n, st', sz') :: l2).
Proof.
  intros [Hseg [Hnd Hap]].
  assert (Haddr : faddr <$> l1 ++ (n, st', sz') :: l2 = faddr <$> l1 ++ (n, st, sz) :: l2) by
    (by rewrite !fmap_app, !fmap_cons).
  assert (Hne : forall x, x ∈ (faddr <$> l1) ++ (faddr <$> l2) -> n + 16 < x \/ x + 24 <= n + 8).
  { intros x Hx. rewrite fmap_app, fmap_cons in Hnd, Hap. cbn in Hnd, Hap.
    assert (x <> n).
    { intros ->. rewrite <- Permutation_middle in Hnd. apply NoDup_cons in Hnd as [? _]. done. }
    destruct (Hap x n); [set_solver|set_solver|done|lia|lia]. }
  split; [|rewrite Haddr; done]. apply aseg_app in Hseg as (mid & H1 & -> & Hz & Hs & Hsz & nx & Hn & H2).
  cbn. apply aseg_app. exists n. unfold a_start, a_size, a_next in *. split.
  - do 2 (apply aseg_insert; [intros x Hx; specialize (Hne x ltac:(apply elem_of_app; by left)); lia|]). done.
  - cbn. unfold a_start, a_size, a_next. repeat run_step. split_and!; try done. exists nx. split; [done|].
    do 2 (apply aseg_insert; [intros x Hx; specialize (Hne x ltac:(apply elem_of_app; by right)); lia|]). done.
Qed.

Lemma alloc_list_add_run s pre n post start size :
  alloc_list s (pre ++ (n, 0, 0) :: post) -> Forall (fun x => ~ (bstart x = 0 /\ bsize x = 0)) pre ->
  alloc_list_add_node start size s = Ok tt (set_alloc n start size s).
Proof.
  intros [Hseg [Hnd _]] Hpre. pose proof (aseg_fuel _ _ _ _ Hseg Hnd) as Hf.
  rewrite length_app in Hf. cbn in Hf.
  apply aseg_app in Hseg as (mid & H1 & -> & Hz & Hs & Hsz & nx & Hn & H2).
  unfold alloc_list_add_node, alloc_list_add_rec, mbind, M_bind, gets.
  replace (walk_fuel s) with (length pre + S (walk_fuel s - length pre - 1))%nat by lia.
  generalize (walk_fuel s - length pre - 1)%nat. intros k.
  assert (Hfill : alloc_list_fill (length pre + S k) (alloc_head s) start size s =
    Ok None (set_alloc n start size s)); [|by rewrite Hfill].
  revert H1. generalize (alloc_head s). clear Hf Hnd. induction pre as [|[[m st] sz] pre IH]; intros p; cbn [length plus].
  - intros ->. cbn. unfold a_start, a_size in *. by run_mem.
  - intros (-> & Hmz & Hms & Hmsz & nx' & Hmn & Hl). apply Forall_cons in Hpre as [Hne Hpre].
    unfold bstart, bsize in Hne. cbn in Hne. cbn [alloc_list_fill]. run_mem.
    assert ((st =? 0) && (sz =? 0) = false) as -> by (btests; cbn; done || lia). run_mem.
    assert (nx' <> 0) by (destruct pre as [|[[??]?]?]; [by rewrite Hl|by destruct Hl as (-> & ? & _)]).
    destruct (Z.eqb_spec nx' 0); [done|]. by apply IH.
Qed.

Lemma alloc_list_find_run s pre n st sz post :
  alloc_list s (pre ++ (n, st, sz) :: post) -> Forall (fun x => bstart x <> st) pre ->
  alloc_list_find_and_remove st s = Ok sz (set_alloc n 0 0 s).
Proof.
  intros [Hseg [Hnd _]] Hpre. pose proof (aseg_fuel _ _ _ _ Hseg Hnd) as Hf.
  rewrite length_app in Hf. cbn in Hf.
  apply aseg_app in Hseg as (mid & H1 & -> & Hz & Hs & Hsz & nx & Hn & H2).
  unfold alloc_list_find_and_remove, mbind at 1 2, M_bind at 1 2, gets.
  replace (walk_fuel s) with (length pre + S (walk_fuel s - length pre - 1))%nat by lia.
  generalize (walk_fuel s - length pre - 1)%nat. intros k.
  revert H1. generalize (alloc_head s). clear Hf Hnd. induction pre as [|[[m st'] sz'] pre IH]; intros p; cbn [length plus].
  - intros ->. cbn [alloc_list_find]. destruct (Z.eqb_spec n 0); [done|].
    unfold a_start, a_size in *. run_mem. rewrite Z.eqb_refl. by run_mem.
  - intros (-> & Hmz & Hms & Hmsz & nx' & Hmn & Hl). apply Forall_cons in Hpre as [Hne Hpre].
    unfold bstart in Hne. cbn in Hne. cbn [alloc_list_find]. destruct (Z.eqb_spec m 0); [done|]. run_mem.
    destruct (Z.eqb_spec st' st); [done|]. run_mem. by apply IH.
Qed.

Lemma alloc_list_find_panics s l st :
  alloc_list s l -> Forall (fun x => bstart x <> st) l ->
  alloc_list_find_and_remove st s = Panic "vmm: freeing block that is not in list!".
Proof.
  intros [Hseg [Hnd _]] Hl. pose proof (aseg_fuel _ _ _ _ Hseg Hnd) as Hf.
  unfold alloc_list_find_and_remove, mbind at 1 2, M_bind at 1 2, gets.
  replace (walk_fuel s) with (length l + S (walk_fuel s - length l - 1))%nat by lia.
  generalize (walk_fuel s - length l - 1)%nat. intros k.
  revert Hseg. generalize (alloc_head s). clear Hf Hnd. induction l as [|[[m st'] sz'] l IH]; intros p; cbn [length plus].
  - by intros ->.
  - intros (-> & Hmz & Hms & Hmsz & nx' & Hmn & Hseg). apply Forall_cons in Hl as [Hne Hl].
    unfold bstart in Hne. cbn in Hne. cbn [alloc_list_find]. destruct (Z.eqb_spec m 0); [done|]. run_mem.
    destruct (Z.eqb_spec st' st); [done|]. run_mem. by apply IH.
Qed.

End VmmOps.
