(* ===== verification/VmmProps.v ===== *)
(** * The properties of the virtual memory allocator *)

From S2P Require Import Prelude KMath Machine Pmm PmmProps Page PageEntry PageTables PageOps PageProps.
From S2P Require Import Vmm VmmList VmmBlocks VmmOps.
Import KMath Machine Pmm PmmProps KMalloc Page PageEntry PageTables PageOps PageProps.
Import Vmm VmmList VmmBlocks VmmOps.

Module VmmProps.

(** ** A concrete free list for the witnesses *)

(** Two blocks and an unused node, as [vmm_init] would leave them after some use. *)
Definition fn (i : Z) : Z := 0x1000 + KERNEL_OFFSET + 32 * i.
Definition vlist : list fnode :=
  [(fn 0, free_virt_start, 0x2000); (fn 1, free_virt_start + 0x10000, 0x8000); (fn 2, 0, 0)].
Definition vstate : kstate :=
  set_vmm_head (fn 0) (set_vmm_tail (fn 2) (boot_state (list_to_map
    [(f_prev (fn 0), 0); (f_next (fn 0), fn 1); (f_start (fn 0), free_virt_start); (f_size (fn 0), 0x2000);
     (f_prev (fn 1), fn 0); (f_next (fn 1), fn 2); (f_start (fn 1), free_virt_start + 0x10000); (f_size (fn 1), 0x8000);
     (f_prev (fn 2), fn 1); (f_next (fn 2), 0); (f_start (fn 2), 0); (f_size (fn 2), 0)]))).

Lemma vlist_apart : fapart (faddr <$> vlist).
Proof.
  split; [vdecide|]. intros x y Hx Hy Hne.
  assert (H : Forall (fun x => Forall (fun y => x = y \/ x + 32 <= y \/ y + 32 <= x) (faddr <$> vlist)) (faddr <$> vlist))
    by vdecide.
  rewrite Forall_forall in H. specialize (H x Hx). rewrite Forall_forall in H. destruct (H y Hy); done.
Qed.

Lemma vlist_ok : blocks_ok vlist.
Proof.
  split; [|unfold pairwise, vlist; split_and!; try done];
    repeat constructor; unfold block_ok, disj, bend, bstart, bsize, fn, free_virt_start; cbn; lia.
Qed.

Lemma vlist_free : free_list vstate vlist.
Proof.
  split; [|apply vlist_apart|apply vlist_ok].
  repeat (split_and!; [by vm_compute..|]; eexists; split; [by vm_compute|]). split; by vm_compute.
Qed.

(** ** Taking a block *)

(** First fit: the first block that holds the request is cut at its front, or
    removed when it fits exactly. *)
Lemma take_first_fit s pre n st sz post req :
  let l := pre ++ (n, st, sz) :: post in
  free_list s l -> Forall (fun x => bsize x < req) pre -> 0 < req <= sz -> (sz = req -> post <> []) ->
  exists s' l', take_block (walk_fuel s) (vmm_head s) req s = Ok st s' /\ list_upd (faddr <$> l) s s' /\ free_list s' l' /\
    (faddr <$> l') ≡ₚ (faddr <$> l) /\
    (forall a, covers l a <-> st <= a < st + req \/ covers l' a) /\
    (forall a, st <= a < st + req -> ~ covers l' a) /\
    (forall P : fnode -> Prop, Forall P l -> P (n, 0, 0) -> P (n, st + req, sz - req) -> Forall P l') /\
    l' = if sz =? req then pre ++ post ++ [(n, 0, 0)] else pre ++ (n, st + req, sz - req) :: post.
Proof.
  intros l [Hseg Hap Hok] Hpre Hreq Hpost.
  assert (Hperm : l ≡ₚ (n, st, sz) :: pre ++ post) by (symmetry; apply Permutation_middle).
  pose proof Hok as Hok'. rewrite Hperm in Hok'.
  assert (Hb : block_ok (n, st, sz)) by (by apply blocks_ok_cons in Hok' as (? & _)).
  unfold block_ok, bend, bstart, bsize in Hb. cbn in Hb.
  destruct (take_block_run s pre n st sz post req Hseg Hap) as (s' & Hr & Hs' & Hu); [done|lia..|done|].
  assert (Hadd : forall a, st <= a < st + sz -> ~ covers (pre ++ post) a).
  { intros a. by eapply cut_apart; [lia|]. }
  destruct (Z.eqb_spec sz req) as [->|Hne]; eexists s', _; (split; [exact Hr|]); (split; [exact Hu|]).
  - assert (Hl' : pre ++ post ++ [(n, 0, 0)] ≡ₚ (n, 0, 0) :: pre ++ post) by (rewrite app_assoc; solve_Permutation).
    destruct (empty_node_ok n (pre ++ post)) as [Ho Hc]; [by apply blocks_ok_cons in Hok' as (_ & _ & ?)|].
    assert (Ha : (faddr <$> pre ++ post ++ [(n, 0, 0)]) ≡ₚ (faddr <$> l)).
    { unfold l. rewrite !fmap_app, fmap_cons. cbn. solve_Permutation. }
    split_and!; [split; [done| |by rewrite Hl']|done|..].
    + eapply fapart_sub; [|exact Hap]. by rewrite Ha.
    + intros a. rewrite Hl', Hc, Hperm, covers_cons. unfold bend, bstart, bsize. done.
    + intros a Hin. rewrite Hl', Hc. by apply Hadd.
    + intros P HP H0 _. rewrite Hl'. rewrite Hperm in HP. apply Forall_cons in HP as [_ HP]. by constructor.
    + done.
  - destruct (cut_ok n st sz req (pre ++ post)) as [Ho Hc]; [lia|done|].
    assert (Hl' : pre ++ (n, st + req, sz - req) :: post ≡ₚ (n, st + req, sz - req) :: pre ++ post) by
      (symmetry; apply Permutation_middle).
    assert (Ha : faddr <$> pre ++ (n, st + req, sz - req) :: post = faddr <$> l) by (unfold l; by rewrite !fmap_app, !fmap_cons).
    split_and!; [split; [done|by rewrite Ha|by rewrite Hl']|by rewrite Ha|..].
    + intros a. by rewrite Hperm, Hl', Hc.
    + intros a Hin. rewrite Hl', covers_cons. unfold bend, bstart, bsize. cbn. intros [?|H]; [lia|].
      by apply (Hadd a); [lia|].
    + intros P HP _ H1. rewrite Hl'. rewrite Hperm in HP. apply Forall_cons in HP as [_ HP]. by constructor.
    + done.
Qed.

(** The list part of [vmm_alloc] is first fit: the first block that holds
    the request is cut at its front, or removed when it fits exactly.  The
    returned range was free and is the only part of the free space that is
    free no longer. *)
Theorem vmm_take_first_fit s pre n st sz post req :
  let l := pre ++ (n, st, sz) :: post in
  free_list s l -> Forall (fun x => bsize x < req) pre -> 0 < req <= sz -> (sz = req -> post <> []) ->
  exists s' l', take_block (walk_fuel s) (vmm_head s) req s = Ok st s' /\ free_list s' l' /\
    (faddr <$> l') ≡ₚ (faddr <$> l) /\
    (forall a, covers l a <-> st <= a < st + req \/ covers l' a) /\
    (forall a, st <= a < st + req -> ~ covers l' a).
Proof.
  intros l Hfl Hpre Hreq Hpost. destruct (take_first_fit s pre n st sz post req Hfl Hpre Hreq Hpost)
    as (s' & l' & Hr & _ & Hfl' & Ha & Hc & Hd & _). eauto 10.
Qed.

Lemma vmm_take_first_fit_witness :
  exists s' l', take_block (walk_fuel vstate) (vmm_head vstate) 0x3000 vstate =
      Ok (free_virt_start + 0x10000) s' /\ free_list s' l' /\
    (faddr <$> l') ≡ₚ (faddr <$> vlist) /\
    (forall a, covers vlist a <-> free_virt_start + 0x10000 <= a < free_virt_start + 0x10000 + 0x3000 \/ covers l' a) /\
    (forall a, free_virt_start + 0x10000 <= a < free_virt_start + 0x10000 + 0x3000 -> ~ covers l' a).
Proof.
  apply (vmm_take_first_fit vstate [(fn 0, free_virt_start, 0x2000)] (fn 1) (free_virt_start + 0x10000) 0x8000
    [(fn 2, 0, 0)] 0x3000); [apply vlist_free|vdecide|lia|lia].
Defined.

(** [vmm_alloc] panics when no free block holds the request. *)
Theorem vmm_alloc_out_of_memory s l pages :
  free_list s l -> 0 <= pages * 4096 < W64 -> Forall (fun x => bsize x < pages * 4096) l ->
  vmm_alloc pages s = Panic "vmm: out of memory!".
Proof.
  intros [Hseg Hap Hok] Hp Hl. pose proof (dseg_fuel _ _ _ _ _ _ Hseg (proj1 Hap)) as Hf.
  unfold vmm_alloc. change PAGE_SIZE with 4096. rewrite u64_small by done.
  unfold mbind, M_bind, gets.
  replace (walk_fuel s) with (length l + S (walk_fuel s - length l - 1))%nat by lia.
  by rewrite (take_block_skip _ _ _ _ _ _ _ _ Hseg Hl).
Qed.

Lemma vmm_alloc_out_of_memory_witness : vmm_alloc 9 vstate = Panic "vmm: out of memory!".
Proof. apply (vmm_alloc_out_of_memory vstate vlist 9); [apply vlist_free|lia|vdecide]. Defined.

(** ** Returning a block *)

(** The list part of [vmm_free]: with an unused tail node, the freed range
    is added to the free space and nothing else changes, whether the block is
    merged with one neighbour, with two or with none; the list stays a
    well-formed doubly linked list of disjoint blocks over the same nodes. *)
Theorem vmm_return_block_adds s l0 t b pages :
  let l := l0 ++ [(t, 0, 0)] in
  free_list s l -> l0 <> [] -> 0 < b -> 0 < pages -> b + pages * 4096 < W64 ->
  Forall (disj (0, b, pages * 4096)) l ->
  exists s' l', return_block b pages s = Ok tt s' /\ free_list s' l' /\
    (faddr <$> l') ≡ₚ (faddr <$> l) /\
    (forall a, covers l' a <-> covers l a \/ b <= a < b + pages * 4096).
Proof.
  intros l [Hseg Hap Hok] Hl0 Hb Hpg Hw Hd.
  destruct (return_block_run s l0 l t b (b + pages * 4096) pages) as (s' & l' & Hr & Hfl & Ha & Hc & _); try done.
  - apply blocks_ok_cons. split; [|done]. unfold block_ok, bend, bstart, bsize. cbn. lia.
  - exists s', l'. done.
Qed.

Lemma vmm_return_block_adds_witness :
  exists s' l', return_block (free_virt_start + 0x2000) 14 vstate = Ok tt s' /\ free_list s' l' /\
    (faddr <$> l') ≡ₚ (faddr <$> vlist) /\
    (forall a, covers l' a <-> covers vlist a \/ free_virt_start + 0x2000 <= a < free_virt_start + 0x2000 + 14 * 4096).
Proof.
  apply (vmm_return_block_adds vstate
    [(fn 0, free_virt_start, 0x2000); (fn 1, free_virt_start + 0x10000, 0x8000)] (fn 2) (free_virt_start + 0x2000) 14);
    [apply vlist_free|done|unfold free_virt_start; lia..|].
  repeat constructor; unfold disj, bend, bstart, bsize, free_virt_start; cbn; lia.
Defined.

(** Removing the tail node breaks the list: the node ends up as its own
    predecessor and successor, and no longer linked from the node before it. *)
Theorem vmm_remove_tail_self_loop s l0 n st sz :
  let l := l0 ++ [(n, st, sz)] in
  dseg (mem s) 0 (vmm_head s) l (vmm_tail s) 0 -> fapart (faddr <$> l) -> l0 <> [] ->
  exists s', vmm_list_remove_node n s = Ok tt s' /\ vmm_tail s' = n /\
    mem s' !! f_next n = Some n /\ mem s' !! f_prev n = Some n /\
    exists pl, dseg (mem s') 0 (vmm_head s') l0 pl 0.
Proof.
  intros l Hd Hap Hl0. unfold l in *. rewrite fmap_app in Hap.
  apply dseg_app in Hd as (pl & mid & Hpre & -> & Hz & Hp & Hs & Hsz & nx & Hn & -> & Ht).
  destruct (dseg_last _ _ _ _ _ _ Hpre) as [[? _]|[Hpl Hplz]]; [done|].
  destruct (dseg_backed _ _ _ _ _ _ _ Hpre Hpl) as (_ & [pn Hpn] & _).
  pose proof (fapart_split _ _ pl n Hap Hpl ltac:(left)) as Hap'.
  destruct l0 as [|x l1]; [done|].
  assert (Hap0 : fapart (faddr <$> x :: l1)) by (eapply fapart_sub; [|exact Hap]; solve_submseteq).
  assert (Hkeep : forall w v m, fword n w -> dseg m 0 (vmm_head s) (x :: l1) pl 0 ->
    dseg (<[w:=v]> m) 0 (vmm_head s) (x :: l1) pl 0).
  { intros w v m Hw. apply dseg_insert. intros z Hz' Hw'.
    pose proof (fapart_split _ _ z n Hap Hz' ltac:(left)). unfold fword in *. lia. }
  assert (Hpre0 : dseg (<[f_next pl:=0]> (<[f_size n:=0]> (<[f_start n:=0]> (mem s)))) 0 (vmm_head s) (x :: l1) pl 0).
  { eapply dseg_set_next; [done|].
    do 2 (apply dseg_insert; [intros z Hz' Hw; pose proof (fapart_split _ _ z n Hap Hz' ltac:(left));
      unfold fword, f_start, f_size in *; lia|]). exact Hpre. }
  subst n. set (n := vmm_tail s) in *.
  unfold f_prev, f_next, f_start, f_size in *. eexists. split; [|split; [|split; [|split]]].
  - unfold vmm_list_remove_node, f_prev, f_next, f_start, f_size. subst n. run_mem.
    destruct (Z.eqb_spec pl 0); [done|]. run_mem. reflexivity.
  - done.
  - cbn. by run_step.
  - cbn. by repeat run_step.
  - exists pl. cbn. fold n. do 3 (apply Hkeep; [unfold fword; lia|]). exact Hpre0.
Qed.

Lemma vmm_remove_tail_self_loop_witness :
  exists s', vmm_list_remove_node (fn 2) vstate = Ok tt s' /\ vmm_tail s' = fn 2 /\
    mem s' !! f_next (fn 2) = Some (fn 2) /\ mem s' !! f_prev (fn 2) = Some (fn 2) /\
    exists pl, dseg (mem s') 0 (vmm_head s')
      [(fn 0, free_virt_start, 0x2000); (fn 1, free_virt_start + 0x10000, 0x8000)] pl 0.
Proof.
  apply (vmm_remove_tail_self_loop vstate
    [(fn 0, free_virt_start, 0x2000); (fn 1, free_virt_start + 0x10000, 0x8000)] (fn 2) 0 0);
    [apply vlist_free|apply vlist_apart|done].
Defined.

(** ** The list of allocated blocks *)

(** A recorded block is found again: after [alloc_list_add_node] has put
    (start, size) into the first unused node, [alloc_list_find_and_remove]
    returns the size and makes the node unused again. *)
Theorem vmm_alloc_list_roundtrip s pre n post start size :
  alloc_list s (pre ++ (n, 0, 0) :: post) -> Forall (fun x => ~ (bstart x = 0 /\ bsize x = 0)) pre ->
  Forall (fun x => bstart x <> start) pre ->
  exists s1 s2, alloc_list_add_node start size s = Ok tt s1 /\
    alloc_list s1 (pre ++ (n, start, size) :: post) /\
    alloc_list_find_and_remove start s1 = Ok size s2 /\ alloc_list s2 (pre ++ (n, 0, 0) :: post).
Proof.
  intros Hl Hpre Hst. pose proof (set_alloc_list _ _ _ _ _ _ start size Hl) as Hl1.
  exists (set_alloc n start size s), (set_alloc n 0 0 (set_alloc n start size s)).
  split; [by eapply alloc_list_add_run|]. split; [done|].
  split; [by eapply alloc_list_find_run|by eapply set_alloc_list].
Qed.

(** Three nodes, the first in use. *)
Definition an (i : Z) : Z := 0x2000 + KERNEL_OFFSET + 24 * i.
Definition alist : list fnode := [(an 0, free_virt_start, 3); (an 1, 0, 0); (an 2, 0, 0)].
Definition astate : kstate :=
  set_alloc_head (an 0) (boot_state (list_to_map
    [(a_next (an 0), an 1); (a_start (an 0), free_virt_start); (a_size (an 0), 3);
     (a_next (an 1), an 2); (a_start (an 1), 0); (a_size (an 1), 0);
     (a_next (an 2), 0); (a_start (an 2), 0); (a_size (an 2), 0)])).

Lemma alist_ok : alloc_list astate alist.
Proof.
  split.
  - repeat (split_and!; [by vm_compute..|]; eexists; split; [by vm_compute|]). by vm_compute.
  - split; [vdecide|]. intros x y Hx Hy Hne.
    assert (H : Forall (fun x => Forall (fun y => x = y \/ x + 24 <= y \/ y + 24 <= x) (faddr <$> alist)) (faddr <$> alist))
      by vdecide.
    rewrite Forall_forall in H. specialize (H x Hx). rewrite Forall_forall in H. destruct (H y Hy); done.
Qed.

Lemma vmm_alloc_list_roundtrip_witness :
  exists s1 s2, alloc_list_add_node (free_virt_start + 0x3000) 2 astate = Ok tt s1 /\
    alloc_list s1 [(an 0, free_virt_start, 3); (an 1, free_virt_start + 0x3000, 2); (an 2, 0, 0)] /\
    alloc_list_find_and_remove (free_virt_start + 0x3000) s1 = Ok 2 s2 /\ alloc_list s2 alist.
Proof.
  apply (vmm_alloc_list_roundtrip astate [(an 0, free_virt_start, 3)] (an 1) [(an 2, 0, 0)]
    (free_virt_start + 0x3000) 2); [apply alist_ok|vdecide|vdecide].
Defined.

(** [vmm_free] panics on an address that [vmm_alloc] did not return. *)
Theorem vmm_free_unknown_panics s l p :
  alloc_list s l -> Forall (fun x => bstart x <> p) l ->
  vmm_free p s = Panic "vmm: freeing block that is not in list!".
Proof.
  intros Hl Hp. unfold vmm_free, mbind at 1, M_bind at 1. by rewrite (alloc_list_find_panics _ _ _ Hl Hp).
Qed.

Lemma vmm_free_unknown_panics_witness :
  vmm_free 0x5000 astate = Panic "vmm: freeing block that is not in list!".
Proof. apply (vmm_free_unknown_panics astate alist 0x5000); [apply alist_ok|vdecide]. Defined.

(** ** The allocator and the page tables together *)

(** Allocate [pages] pages, free them, and allocate a frame: the frame, and the
    tables of the first page. *)
Definition alloc_free_alloc (pages : Z) : K (Z * option Z) :=
  vmm_init;;
  p ← vmm_alloc pages;
  vmm_free p;;
  a ← kmalloc_page;
  pt ← gets (fun s => tbl (mem s) (pml4_addr s) (vpath p));
  mret (a, pt).

(** The freeing of the first block of virtual memory releases the frames of
    its page tables, which [page_map] then goes on using: the next
    [kmalloc_page] returns the very page table of the freed address. *)
Theorem vmm_free_releases_live_tables :
  exists s, alloc_free_alloc 1 paging_state = Ok (0x7000 + KERNEL_OFFSET, Some (0x7000 + KERNEL_OFFSET)) s.
Proof.
  assert (H : match alloc_free_alloc 1 paging_state with
    | Ok r _ => bool_decide (r = (0x7000 + KERNEL_OFFSET, Some (0x7000 + KERNEL_OFFSET)))
    | _ => false end = true) by (vm_compute; reflexivity).
  destruct (alloc_free_alloc 1 paging_state) as [r s| | |]; [|done..].
  exists s. apply bool_decide_eq_true in H. by rewrite H.
Qed.

End VmmProps.
