(* ===== verification/VmmInit.v ===== *)
(** * mem/vmm.c: [vmm_init] sets up the two lists

    The first two pages of the low list become the nodes of the free list and
    of the list of allocated blocks; the invariants of the frame allocator and
    of the page tables are kept. *)

From S2P Require Import Prelude KMath Machine Pmm Page PageEntry PageTables PageOps.
From S2P Require Import Vmm VmmList VmmBlocks VmmOps PmmProps PageProps.
Import KMath Machine Pmm KMalloc Page PageEntry PageTables PageOps.
Import Vmm VmmList VmmBlocks VmmOps PmmProps PageProps.

Module VmmInit.

(** ** Linking the nodes of a page *)

(** [k] unused nodes of [d] bytes behind the one at [cur]. *)
Fixpoint unused (d cur : Z) (k : nat) : list fnode :=
  match k with O => [] | S k' => (cur + d, 0, 0) :: unused d (cur + d) k' end.

(** The words [cur], [cur + 8], ... up to the end of [n] words are backed. *)
Definition words_backed (m : gmap Z Z) (cur n : Z) : Prop :=
  forall j, 0 <= j < n -> is_Some (m !! (cur + 8 * j)).

Definition mem_mono (m m' : gmap Z Z) : Prop := forall w, is_Some (m !! w) -> is_Some (m' !! w).

Lemma mem_mono_insert m w v : mem_mono m (<[w:=v]> m).
Proof. intros w' H. rewrite lookup_insert. case_decide; eauto. Qed.
Lemma mem_mono_refl m : mem_mono m m.
Proof. by intros w. Qed.
Lemma mem_mono_trans m1 m2 m3 : mem_mono m1 m2 -> mem_mono m2 m3 -> mem_mono m1 m3.
Proof. unfold mem_mono. eauto. Qed.

(** A word is backed if it was before some stores. *)
Ltac backed := cbn [mem set_mem]; repeat (apply mem_mono_insert); assumption.
Ltac mono := repeat first [apply mem_mono_refl | eapply mem_mono_trans; [|apply mem_mono_insert]].

Lemma wr_ok s w v : is_Some (mem s !! w) -> wr w v s = Ok tt (set_mem (insert w v) s).
Proof. unfold wr. by intros [x ->]. Qed.

Lemma wr_bind {A} s w v (k : unit -> K A) :
  is_Some (mem s !! w) -> (wr w v ≫= k) s = k tt (set_mem (insert w v) s).
Proof. intros H. by rewrite (bind_ok _ _ _ _ _ (wr_ok _ _ _ H)). Qed.

Lemma words_mono m m' cur n : mem_mono m m' -> words_backed m cur n -> words_backed m' cur n.
Proof. intros Hm Hb j Hj. by apply Hm, Hb. Qed.

Lemma words_at m cur n k : words_backed m cur n -> 0 <= k < n -> is_Some (m !! (cur + 8 * k)).
Proof. auto. Qed.

Lemma link_free_run k : forall cur s,
  0 < cur -> words_backed (mem s) cur (4 * (Z.of_nat k + 1)) ->
  let last := cur + 32 * Z.of_nat k in
  exists m, link_free_nodes k cur s = Ok last (set_mem (fun _ => m) s) /\ mem_mono (mem s) m /\
    (forall w, w < cur + 8 \/ last + 32 <= w \/ w = cur + 16 \/ w = cur + 24 -> m !! w = mem s !! w) /\
    forall v, exists nx, <[f_next last:=v]> m !! f_next cur = Some nx /\
      dseg (<[f_next last:=v]> m) cur nx (unused 32 cur k) last v.
Proof.
  induction k as [|k IH]; intros cur s Hc Hb last; cbn [link_free_nodes].
  { exists (mem s). unfold last. replace (cur + 32 * Z.of_nat 0) with cur by lia. split_and!; [by destruct s|apply mem_mono_refl|done|].
    intros v. exists v. by rewrite lookup_insert_eq. }
  unfold f_next, f_prev, f_start, f_size, sizeof_free_node in *.
  assert (H1 : is_Some (mem s !! (cur + 8))) by (apply (Hb 1); lia).
  assert (H4 : is_Some (mem s !! (cur + 32))) by (apply (Hb 4); lia).
  assert (H6 : is_Some (mem s !! (cur + 32 + 16))) by (rewrite <- Z.add_assoc; apply (Hb 6); lia).
  assert (H7 : is_Some (mem s !! (cur + 32 + 24))) by (rewrite <- Z.add_assoc; apply (Hb 7); lia).
  rewrite wr_bind by done.
  set (s1 := set_mem (insert (cur + 8) (cur + 32)) s).
  assert (Hr : rd (cur + 8) s1 = Ok (cur + 32) s1) by (unfold rd; cbn; by rewrite lookup_insert_eq).
  rewrite (bind_ok _ _ _ _ _ Hr). replace (cur + 32 - 32) with cur by lia.
  set (m4 := <[cur + 32 + 24:=0]> (<[cur + 32 + 16:=0]> (<[cur + 32:=cur]> (mem s1)))).
  assert (Hm4 : mem_mono (mem s) m4) by (unfold m4, s1; cbn; mono).
  destruct (IH (cur + 32) (set_mem (fun _ => m4) s)) as (m & Hrun & Hm & Hsame & Hseg); [lia| |].
  { intros j Hj. replace (cur + 32 + 8 * j) with (cur + 8 * (4 + j)) by lia. apply Hm4, Hb. lia. }
  cbn [mem set_mem] in *. replace (cur + 32 + 32 * Z.of_nat k) with last in * by lia.
  assert (Hlast : last = cur + 32 * (Z.of_nat k + 1)) by lia. clearbody last.
  exists m. split_and!.
  - do 3 (rewrite wr_bind by backed). exact Hrun.
  - eauto using mem_mono_trans.
  - intros w H. rewrite Hsame by lia. unfold m4. cbn. by rewrite !lookup_insert_ne by lia.
  - intros v. destruct (Hseg v) as (nx & Hnx & Hd). exists (cur + 32).
    rewrite lookup_insert_ne by lia. rewrite Hsame by lia. unfold m4. cbn -[unused].
    rewrite !lookup_insert_ne, lookup_insert_eq by lia. split; [done|]. cbn.
    split_and!; [done|lia|..]; [..|by exists nx].
    all: unfold f_prev, f_start, f_size; rewrite lookup_insert_ne by lia; rewrite Hsame by lia; unfold m4; cbn.
    + by rewrite !lookup_insert_ne, lookup_insert_eq by lia.
    + by rewrite lookup_insert_ne, lookup_insert_eq by lia.
    + by rewrite lookup_insert_eq.
Qed.

Lemma link_alloc_run k : forall cur s,
  0 < cur -> words_backed (mem s) cur (3 * (Z.of_nat k + 1)) ->
  let last := cur + 24 * Z.of_nat k in
  exists m, link_alloc_nodes k cur s = Ok last (set_mem (fun _ => m) s) /\ mem_mono (mem s) m /\
    (forall w, w < cur \/ last + 24 <= w \/ w = cur + 8 \/ w = cur + 16 -> m !! w = mem s !! w) /\
    forall v, exists nx, <[a_next last:=v]> m !! a_next cur = Some nx /\
      aseg (<[a_next last:=v]> m) nx (unused 24 cur k) v.
Proof.
  induction k as [|k IH]; intros cur s Hc Hb last; cbn [link_alloc_nodes].
  { exists (mem s). unfold last. replace (cur + 24 * Z.of_nat 0) with cur by lia.
    split_and!; [by destruct s|apply mem_mono_refl|done|]. intros v. exists v. by rewrite lookup_insert_eq. }
  unfold a_next, a_start, a_size, sizeof_alloc_node in *.
  assert (H0 : is_Some (mem s !! cur)) by (rewrite <- (Z.add_0_r cur); apply (Hb 0); lia).
  assert (H4 : is_Some (mem s !! (cur + 24 + 8))) by (rewrite <- Z.add_assoc; apply (Hb 4); lia).
  assert (H5 : is_Some (mem s !! (cur + 24 + 16))) by (rewrite <- Z.add_assoc; apply (Hb 5); lia).
  rewrite wr_bind by done. set (s1 := set_mem (insert cur (cur + 24)) s).
  assert (Hr : rd cur s1 = Ok (cur + 24) s1) by (unfold rd; cbn; by rewrite lookup_insert_eq).
  rewrite (bind_ok _ _ _ _ _ Hr). set (m3 := <[cur + 24 + 16:=0]> (<[cur + 24 + 8:=0]> (mem s1))).
  assert (Hm3 : mem_mono (mem s) m3) by (unfold m3, s1; cbn; mono).
  destruct (IH (cur + 24) (set_mem (fun _ => m3) s)) as (m & Hrun & Hm & Hsame & Hseg); [lia| |].
  { intros j Hj. replace (cur + 24 + 8 * j) with (cur + 8 * (3 + j)) by lia. apply Hm3, Hb. lia. }
  cbn [mem set_mem] in *. replace (cur + 24 + 24 * Z.of_nat k) with last in * by lia.
  assert (Hlast : last = cur + 24 * (Z.of_nat k + 1)) by lia. clearbody last.
  exists m. split_and!.
  - do 2 (rewrite wr_bind by backed). exact Hrun.
  - eauto using mem_mono_trans.
  - intros w H. rewrite Hsame by lia. unfold m3. cbn. by rewrite !lookup_insert_ne by lia.
  - intros v. destruct (Hseg v) as (nx & Hnx & Hd). exists (cur + 24).
    rewrite lookup_insert_ne by lia. rewrite Hsame by lia. unfold m3. cbn -[unused].
    rewrite !lookup_insert_ne, lookup_insert_eq by lia. split; [done|]. cbn.
    split_and!; [done|lia|..]; [..|by exists nx].
    all: unfold a_start, a_size; rewrite lookup_insert_ne by lia; rewrite Hsame by lia; unfold m3; cbn.
    + by rewrite lookup_insert_ne, lookup_insert_eq by lia.
    + by rewrite lookup_insert_eq.
Qed.

(** The two set-up functions, on a page of zeros or of anything. *)
Lemma set_up_free_run s p st sz :
  0 < p -> words_backed (mem s) p 512 -> mem s !! f_start p = Some st -> mem s !! f_size p = Some sz ->
  exists m, set_up_page_for_free_list p s = Ok tt (set_vmm_tail (p + 4064) (set_mem (fun _ => m) s)) /\
    mem_mono (mem s) m /\ (forall w, w < p \/ p + 4096 <= w -> m !! w = mem s !! w) /\
    dseg m 0 p ((p, st, sz) :: unused 32 p 127) (p + 4064) 0.
Proof.
  intros Hp Hb Hst Hsz. unfold set_up_page_for_free_list.
  assert (H0 : is_Some (mem s !! p)) by (rewrite <- (Z.add_0_r p); apply (Hb 0); lia).
  unfold f_prev at 1. rewrite wr_bind by done. change (floor_u32_div PAGE_SIZE sizeof_free_node) with (Some 128).
  cbn [lift_opt]. run_pure. change (Z.to_nat (128 - 1)) with 127%nat.
  set (s1 := set_mem (insert p 0) s).
  destruct (link_free_run 127 p s1) as (m & Hrun & Hm & Hsame & Hseg); [done|apply (words_mono (mem s)); [apply mem_mono_insert|done]|].
  change (p + 32 * Z.of_nat 127) with (p + 4064) in *. rewrite (bind_ok _ _ _ _ _ Hrun). run_pure.
  destruct (Hseg 0) as (nx & Hnx & Hd). exists (<[f_next (p + 4064):=0]> m).
  assert (Hms : mem_mono (mem s) m) by (eapply mem_mono_trans; [apply (mem_mono_insert _ p 0)|done]). split_and!.
  - rewrite wr_ok; [done|]. cbn. apply Hms. unfold f_next. replace (p + 4064 + 8) with (p + 8 * 509) by lia. apply Hb. lia.
  - eapply mem_mono_trans; [done|apply mem_mono_insert].
  - intros w Hw. unfold f_next. rewrite lookup_insert_ne, Hsame by lia. cbn. by rewrite lookup_insert_ne by lia.
  - assert (Hl : forall w, w = p \/ w = p + 16 \/ w = p + 24 ->
      <[f_next (p + 4064):=0]> m !! w = <[p:=0]> (mem s) !! w).
    { intros w Hw. unfold f_next. rewrite lookup_insert_ne by lia. apply Hsame. lia. }
    unfold f_start, f_size in *. cbn [dseg]. unfold f_prev, f_start, f_size. rewrite !Hl by lia.
    rewrite lookup_insert_eq, !lookup_insert_ne by lia. split_and!; [done|lia|done..|]. by exists nx.
Qed.

Lemma set_up_alloc_run s p :
  0 < p -> words_backed (mem s) p 512 ->
  exists m, set_up_page_for_alloc_list p s = Ok tt (set_mem (fun _ => m) s) /\
    mem_mono (mem s) m /\ (forall w, w < p \/ p + 4096 <= w -> m !! w = mem s !! w) /\
    aseg m p ((p, 0, 0) :: unused 24 p 168) 0.
Proof.
  intros Hp Hb. unfold set_up_page_for_alloc_list, a_start at 1, a_size at 1.
  assert (H1 : is_Some (mem s !! (p + 8))) by (apply (Hb 1); lia).
  assert (H2 : is_Some (mem s !! (p + 16))) by (apply (Hb 2); lia).
  do 2 (rewrite wr_bind by backed). change (floor_u32_div PAGE_SIZE sizeof_alloc_node) with (Some 169).
  cbn [lift_opt]. run_pure. change (Z.to_nat (169 - 1)) with 168%nat.
  set (s1 := set_mem _ (set_mem _ s)). assert (Hm1 : mem_mono (mem s) (mem s1)) by (unfold s1; cbn; mono).
  destruct (link_alloc_run 168 p s1) as (m & Hrun & Hm & Hsame & Hseg); [done|intros j Hj; apply Hm1, Hb; lia|].
  change (p + 24 * Z.of_nat 168) with (p + 4032) in *. rewrite (bind_ok _ _ _ _ _ Hrun).
  destruct (Hseg 0) as (nx & Hnx & Hd). exists (<[a_next (p + 4032):=0]> m).
  assert (Hms : mem_mono (mem s) m) by (by eapply mem_mono_trans). split_and!.
  - rewrite wr_ok; [done|]. cbn. apply Hms. unfold a_next. replace (p + 4032) with (p + 8 * 504) by lia. apply Hb. lia.
  - eapply mem_mono_trans; [done|apply mem_mono_insert].
  - intros w Hw. unfold a_next. rewrite lookup_insert_ne, Hsame by lia. cbn. by rewrite !lookup_insert_ne by lia.
  - cbn [aseg]. unfold a_start, a_size. rewrite !(lookup_insert_ne _ (a_next (p + 4032))) by (unfold a_next; lia).
    rewrite !Hsame by lia. unfold s1. cbn -[unused aseg].
    rewrite (lookup_insert_ne _ _ (p + 8)), !lookup_insert_eq by lia. split_and!; [done|lia|done..|].
    exists nx. by rewrite lookup_insert_ne in Hnx by (unfold a_next; lia).
Qed.

(** ** Taking a page out of the allocator *)

(** A state whose tables are untouched and whose free low frames are good ones. *)
Lemma mm_inv_change s s' low high used q low' high' used' q' :
  mm_inv s low high used q -> pmm_inv s' low' high' used' q' -> pml4_addr s' = pml4_addr s ->
  (forall w, table_word (mem s) (pml4_addr s) w -> mem s' !! w = mem s !! w) ->
  (forall b w, b ∈ low'.*2 -> pg w = pg (b + KERNEL_OFFSET) -> is_Some (mem s !! w) -> is_Some (mem s' !! w)) ->
  (forall x, x ∈ (low' ++ high' ++ used').*1 -> x ∈ (low ++ high ++ used).*1) ->
  Forall (frame_ok (mem s) (pml4_addr s) (low ++ high ++ used).*1) low'.*2 -> NoDup low'.*2 ->
  mm_inv s' low' high' used' q' /\ same_ptes s s' /\ same_tables s s'.
Proof.
  intros [Hpmm Hpt Hn _ _] Hpmm' Hroot Hw Hm Hsub Hfr Hnd.
  destruct (pt_inv_frame (mem s) (mem s') (pml4_addr s) Hw Hpt) as [Hpt' Hpte]. pose proof (tbl_frame _ _ _ Hw) as Ht.
  assert (Htw : forall w, table_word (mem s') (pml4_addr s) w -> table_word (mem s) (pml4_addr s) w).
  { intros w (p & x & j & Hp & Hr & Hj & Hx & ->). exists p, x, j. rewrite Ht in Hx by done. done. }
  split; [|split; [split; [done|]; intros p j Hp; apply Hpte; lia|unfold same_tables; by rewrite Hroot]].
  rewrite <- Hroot in Htw, Ht. split; rewrite ?Hroot in *.
  - done.
  - done.
  - intros x Hx%Hsub. destruct (Hn x Hx) as [H1 H2]. split; intros H; [apply H1|apply H2]; by apply Htw.
  - rewrite Forall_forall in *. intros b Hb.
    destruct (Hfr b Hb) as [Hrange [Hal Hback] Htab Hfn]. split; [done|split; [done|]| |].
    + intros j Hj. apply (Hm b); [done|by apply ent_page|by apply Hback].
    + intros p x Hp Hr. rewrite Ht by done. by apply Htab.
    + intros x Hx%Hsub. by apply Hfn.
  - done.
Qed.

(** The allocator has only given frames away. *)
Lemma mm_inv_step s s' low high used q low' high' used' q' :
  mm_inv s low high used q -> pmm_inv s' low' high' used' q' -> pml4_addr s' = pml4_addr s ->
  (forall w, table_word (mem s) (pml4_addr s) w -> mem s' !! w = mem s !! w) ->
  (forall b w, b ∈ low'.*2 -> pg w = pg (b + KERNEL_OFFSET) -> is_Some (mem s !! w) -> is_Some (mem s' !! w)) ->
  (forall x, x ∈ (low' ++ high' ++ used').*1 -> x ∈ (low ++ high ++ used).*1) -> low'.*2 `sublist_of` low.*2 ->
  mm_inv s' low' high' used' q' /\ same_ptes s s' /\ same_tables s s'.
Proof.
  intros Hmm Hpmm Hroot Hw Hm Hsub Hlow. apply (mm_inv_change s s' low high used q); try done.
  - pose proof (mm_frames _ _ _ _ _ Hmm) as Hfr. rewrite !Forall_forall in *. intros b Hb. apply Hfr.
    eapply elem_of_submseteq; [exact Hb|by apply sublist_submseteq].
  - eapply NoDup_sub; [by apply sublist_submseteq|apply (mm_distinct _ _ _ _ _ Hmm)].
Qed.

(** A page that no table and no node of the allocator lies in. *)
Record private (s : kstate) (nodes : list Z) (f : Z) : Prop := {
  pr_range : 0 < f /\ f mod 4096 = 0;
  pr_backed : words_backed (mem s) f 512;
  pr_nodes : forall n, n ∈ nodes -> pg (next_of n) <> pg f /\ pg (addr_of n) <> pg f;
  pr_table : forall w, table_word (mem s) (pml4_addr s) w -> pg w <> pg f;
}.

(** [s'] differs from [s] in words of page [f] and in the globals of the
    allocator of virtual memory only. *)
Record page_upd (f : Z) (s s' : kstate) : Prop := {
  pu_out : forall w, pg w <> pg f -> mem s' !! w = mem s !! w;
  pu_mono : mem_mono (mem s) (mem s');
  pu_pmm : pmm_low s' = pmm_low s /\ pmm_high s' = pmm_high s /\ pmm_free_list s' = pmm_free_list s;
  pu_pml4 : pml4_addr s' = pml4_addr s;
}.

Lemma pg_out f w : 0 < f -> f mod 4096 = 0 -> pg w <> pg f -> w < f \/ f + 4096 <= w.
Proof. unfold pg, PAGE_SIZE. intros. dlia. Qed.

Lemma pg_in f k : f mod 4096 = 0 -> 0 <= k < 4096 -> pg (f + k) = pg f.
Proof. unfold pg, PAGE_SIZE. intros. dlia. Qed.

Lemma private_inv s s' f low high used q :
  mm_inv s low high used q -> private s (low ++ high ++ used).*1 f -> page_upd f s s' ->
  mm_inv s' low high used q /\ same_ptes s s' /\ same_tables s s'.
Proof.
  intros Hmm [_ _ Hn Ht] [Hout Hm (E1 & E2 & E3) E4]. eapply mm_inv_step; try done.
  - destruct (mm_pmm _ _ _ _ _ Hmm) as [H1 H2 H3 H4]. split; rewrite ?E1, ?E2, ?E3; unfold chain in *; [..|exact H4].
    all: eapply seg_frame; [|eassumption]; intros x Hx; destruct (Hn x) as [Hx1 Hx2];
      [rewrite !fmap_app, !elem_of_app; tauto|]; split; by apply Hout.
  - intros w Hw. by apply Hout, Ht.
  - intros b w _ _. apply Hm.
Qed.

Lemma kcalloc_private s n a low high used q :
  mm_inv s ((n, a) :: low) high used q ->
  let f := a + KERNEL_OFFSET in
  exists s', kcalloc_page s = Ok f s' /\ mm_inv s' low high ((n, a) :: used) q /\ same_ptes s s' /\ same_tables s s' /\
    private s' (low ++ high ++ (n, a) :: used).*1 f /\
    (forall w, w <> next_of n -> pg w <> pg f -> mem s' !! w = mem s !! w) /\ mem_mono (mem s) (mem s') /\
    vmm_head s' = vmm_head s /\ vmm_tail s' = vmm_tail s.
Proof.
  intros Hmm f. destruct (kcalloc_run _ _ _ _ _ _ _ Hmm) as (nx & Hr & Hpmm & Hz & Hsame & Hm).
  set (s' := kcalloc_state n nx (a + KERNEL_OFFSET) s) in *. fold f in Hr, Hz, Hsame.
  pose proof (mm_frames _ _ _ _ _ Hmm) as Hfr. rewrite fmap_cons in Hfr. apply Forall_cons in Hfr as [Hf _].
  pose proof Hf as [Hrange [Hal Hback] Htab Hfn]. fold f in Hal, Hback, Htab, Hfn.
  assert (Hpage : forall w, table_word (mem s) (pml4_addr s) w -> pg w <> pg f).
  { intros w (p & x & j & Hp & Hr' & Hj & Hx & ->). apply (page_word_ne f x j); [done| |by apply (Htab p)|done|done].
    by apply (pt_backed _ _ (mm_pt _ _ _ _ _ Hmm) p x). }
  assert (Hw : forall w, table_word (mem s) (pml4_addr s) w -> mem s' !! w = mem s !! w).
  { intros w Hw. apply Hsame; [|by apply Hpage]. intros ->. destruct (mm_nodes _ _ _ _ _ Hmm n) as [H _]; [left|done]. }
  assert (Hperm : forall x, x ∈ (low ++ high ++ (n, a) :: used).*1 -> x ∈ ((n, a) :: low ++ high ++ used).*1).
  { intros x. rewrite !fmap_app, !fmap_cons, !fmap_app, !elem_of_cons, !elem_of_app, elem_of_cons. tauto. }
  destruct (mm_inv_step s s' ((n, a) :: low) high used q low high ((n, a) :: used) q) as (Hmm' & Hpt & Htb); try done.
  { intros b w _ _. apply Hm. }
  { rewrite fmap_cons. by apply sublist_cons. }
  exists s'. split_and!; try done. split.
  - split; [|done]. cbn in Hrange. unfold f, KERNEL_OFFSET. lia.
  - intros j Hj. exists 0. by apply Hz.
  - intros x Hx%Hperm. by apply Hfn.
  - intros w (p & x & j & Hp & Hr' & Hj & Hx & ->). apply Hpage. exists p, x, j.
    change (pml4_addr s') with (pml4_addr s) in Hx. rewrite (tbl_frame _ _ _ Hw) in Hx by done. done.
Qed.

(** ** The lists as [vmm_init] leaves them *)

Lemma unused_addr d k : forall cur x, x ∈ faddr <$> unused d cur k -> exists i, 0 < i <= Z.of_nat k /\ x = cur + d * i.
Proof.
  induction k as [|k IH]; intros cur x; cbn; [by intros ?%elem_of_nil|].
  intros [->|(i & Hi & ->)%IH]%elem_of_cons; [exists 1|exists (i + 1)]; cbn; lia.
Qed.

Lemma unused_apart d k cur : 0 < d ->
  NoDup (cur :: (faddr <$> unused d cur k)) /\
  forall x y, x ∈ cur :: (faddr <$> unused d cur k) -> y ∈ cur :: (faddr <$> unused d cur k) -> x <> y -> x + d <= y \/ y + d <= x.
Proof.
  intros Hd. split.
  - revert cur. induction k as [|k IH]; intros cur; [apply NoDup_singleton|]. apply NoDup_cons. split; [|apply IH].
    intros (i & Hi & E)%unused_addr. nia.
  - assert (H : forall x, x ∈ cur :: (faddr <$> unused d cur k) -> exists i, x = cur + d * i).
    { intros x [->|(i & _ & ->)%unused_addr]%elem_of_cons; [exists 0; lia|eauto]. }
    intros x y [i ->]%H [j ->]%H Hne. assert (i <> j) by congruence. nia.
Qed.

Lemma unused_empty d k : forall cur, Forall (fun x => bstart x = 0 /\ bsize x = 0) (unused d cur k).
Proof. induction k; intros cur; constructor; auto. Qed.

Lemma unused_blocks_ok l : Forall (fun x => bstart x = 0 /\ bsize x = 0) l ->
  blocks_ok l /\ forall x, Forall (disj x) l.
Proof.
  intros Hl. assert (Hd : forall x, Forall (disj x) l) by (intros x; eapply Forall_impl; [exact Hl|]; intros y []; unfold disj; auto).
  split; [|done]. split.
  - eapply Forall_impl; [exact Hl|]. intros x [H1 H2]. unfold block_ok, bend. rewrite H1, H2. lia.
  - clear Hd. induction Hl as [|x l Hx Hl IH]; cbn; [done|]. split; [|done].
    eapply Forall_impl; [exact Hl|]. intros y []. unfold disj. auto.
Qed.

Definition whole_space (p : Z) : list fnode :=
  (p, free_virt_start, 0xFFFFFFFF80000000 - free_virt_start) :: unused 32 p 127.

Lemma whole_space_ok p : blocks_ok (whole_space p) /\
  forall a, covers (whole_space p) a <-> free_virt_start <= a < 0xFFFFFFFF80000000.
Proof.
  unfold whole_space. destruct (unused_blocks_ok _ (unused_empty 32 127 p)) as [[H1 H2] H3]. split.
  - split; [constructor; [|exact H1]|cbn [pairwise]; split; [apply H3|exact H2]].
    unfold block_ok, bend, bstart, bsize, free_virt_start. cbn. lia.
  - intros a. rewrite covers_cons. unfold bend, bstart, bsize at 1. cbn [fst snd].
    split; [intros [?|Hc]; [lia|]|intros ?; left; lia].
    exfalso. pose proof (unused_empty 32 127 p) as He. unfold covers in Hc. rewrite Exists_exists in Hc. destruct Hc as (x & Hx & Ha).
    rewrite Forall_forall in He. specialize (He x Hx). unfold bend in Ha. lia.
Qed.

(** The first half: the page [f] becomes the free list. *)
Lemma init_free_list s ns f (k : K unit) :
  private s ns f ->
  exists s', (modify (set_vmm_head f);;
     wr (f_start f) free_virt_start;;
     start ← rd (f_start f);
     wr (f_size f) (0xFFFFFFFF80000000 -64 start);;
     set_up_page_for_free_list f;; k) s = k s' /\ page_upd f s s' /\ free_list s' (whole_space f).
Proof.
  intros [[Hf Hal] Hb _ _]. run_pure.
  assert (H2 : is_Some (mem s !! (f + 16))) by (apply (Hb 2); lia).
  assert (H3 : is_Some (mem s !! (f + 24))) by (apply (Hb 3); lia).
  unfold f_start at 1, f_size at 1. rewrite wr_bind by done. set (s1 := set_mem _ _).
  assert (Hr : rd (f_start f) s1 = Ok free_virt_start s1) by (unfold rd, f_start; cbn; by rewrite lookup_insert_eq).
  rewrite (bind_ok _ _ _ _ _ Hr), wr_bind by (unfold s1; backed). set (s2 := set_mem _ s1).
  assert (Hm2 : mem_mono (mem s) (mem s2)) by (unfold s2, s1; cbn; mono).
  destruct (set_up_free_run s2 f free_virt_start (0xFFFFFFFF80000000 - free_virt_start)) as (m & Hrun & Hm & Hout & Hseg);
    [done|by eapply words_mono|unfold s2, s1, f_start; cbn; by rewrite lookup_insert_ne, lookup_insert_eq by lia
    |unfold s2, f_size; cbn; by rewrite lookup_insert_eq|].
  eexists. rewrite (bind_ok _ _ _ _ _ Hrun). split; [done|]. split.
  - split; [|by eapply mem_mono_trans|done|done]. intros w Hw. apply pg_out in Hw as Hw'; [|done..]. cbn. rewrite Hout by done.
    unfold s2, s1, f_start, f_size. cbn. by rewrite !lookup_insert_ne by lia.
  - split; [exact Hseg|apply unused_apart; lia|apply whole_space_ok].
Qed.

(** ** The invariant of the memory managers together *)

(** A word of the node of the list of allocated blocks at [n]. *)
Definition aword (n w : Z) : Prop := n <= w < n + 24.

(** The words of the two lists. *)
Definition list_word (fl al : list fnode) (w : Z) : Prop :=
  (exists n, n ∈ faddr <$> fl /\ fword n w) \/ (exists n, n ∈ faddr <$> al /\ aword n w).

Record vm_inv (s : kstate) (low high used : list (Z * Z)) (q : Z) (fl al : list fnode) : Prop := {
  vm_mm : mm_inv s low high used q;
  vm_free : free_list s fl;
  vm_allocs : alloc_list s al;
  vm_tables : forall w, list_word fl al w -> ~ table_word (mem s) (pml4_addr s) w;
  vm_nodes : forall w n, list_word fl al w -> n ∈ (low ++ high ++ used).*1 -> w <> next_of n /\ w <> addr_of n;
  vm_frames : forall w a, list_word fl al w -> a ∈ low.*2 -> pg w <> pg (a + KERNEL_OFFSET);
  vm_apart : forall x y w, x ∈ faddr <$> fl -> y ∈ faddr <$> al -> fword x w -> ~ aword y w;
  vm_aligned : Forall page_block fl;
  vm_space : forall a, covers fl a -> free_virt_start <= a < 0xFFFFFFFF80000000;
}.

(** A private page stays private while the tables stay the same. *)
Lemma private_step s s' ns ns' f :
  private s ns f -> same_tables s s' -> mem_mono (mem s) (mem s') -> (forall n, n ∈ ns' -> n ∈ ns) -> private s' ns' f.
Proof.
  intros [Hr Hb Hn Ht] Hst Hm Hsub. split; [done|by eapply words_mono|auto|].
  intros w (p & x & j & Hp & Hrp & Hj & Hx & ->). apply Ht. rewrite Hst in Hx by done. by exists p, x, j.
Qed.

(** The nodes that [vmm_init] makes lie in their page. *)
Lemma unused_word f d k w n :
  0 < d -> f mod 4096 = 0 -> d * (Z.of_nat k + 1) <= 4096 ->
  n ∈ f :: (faddr <$> unused d f k) -> n <= w < n + d -> pg w = pg f.
Proof.
  intros Hd Hf Hk Hn Hw. assert (exists i, 0 <= i <= Z.of_nat k /\ n = f + d * i) as (i & Hi & ->).
  { apply elem_of_cons in Hn as [->|(i & Hi & ->)%unused_addr]; [exists 0|exists i]; lia. }
  replace w with (f + (w - f)) by lia. apply pg_in; [done|]. nia.
Qed.

Definition no_blocks (p : Z) : list fnode := (p, 0, 0) :: unused 24 p 168.

Lemma init_vm_inv s low high used q f1 f2 :
  mm_inv s low high used q -> free_list s (whole_space f1) -> alloc_list s (no_blocks f2) ->
  private s (low ++ high ++ used).*1 f1 -> private s (low ++ high ++ used).*1 f2 -> f1 <> f2 ->
  (forall a, a ∈ low.*2 -> a + KERNEL_OFFSET <> f1 /\ a + KERNEL_OFFSET <> f2) ->
  vm_inv s low high used q (whole_space f1) (no_blocks f2).
Proof.
  intros Hmm Hfl Hal Hp1 Hp2 Hne Hlow.
  pose proof (pr_range _ _ _ Hp1) as [Hf1 Ha1]. pose proof (pr_range _ _ _ Hp2) as [Hf2 Ha2].
  assert (W1 : forall n w, n ∈ faddr <$> whole_space f1 -> fword n w -> pg w = pg f1).
  { intros n w Hn Hw. by apply (unused_word f1 32 127 w n). }
  assert (W2 : forall n w, n ∈ faddr <$> no_blocks f2 -> aword n w -> pg w = pg f2).
  { intros n w Hn Hw. by apply (unused_word f2 24 168 w n). }
  assert (Hw : forall w, list_word (whole_space f1) (no_blocks f2) w -> pg w = pg f1 \/ pg w = pg f2).
  { intros w [(n & Hn & H)|(n & Hn & H)]; [left|right]; eauto. }
  split; [done|done|done|..].
  - intros w Hl Ht. destruct (Hw w Hl); [by eapply (pr_table _ _ _ Hp1)|by eapply (pr_table _ _ _ Hp2)].
  - intros w n Hl Hn. destruct (pr_nodes _ _ _ Hp1 n Hn), (pr_nodes _ _ _ Hp2 n Hn). destruct (Hw w Hl); split; congruence.
  - intros w a Hl Ha E. destruct (Hlow a Ha).
    assert (Hal' : (a + KERNEL_OFFSET) mod 4096 = 0).
    { pose proof (mm_frames _ _ _ _ _ Hmm) as Hf. rewrite Forall_forall in Hf. apply (Hf a Ha). }
    destruct (Hw w Hl) as [E'|E']; rewrite E' in E; apply page_eq in E; congruence.
  - intros x y w Hx Hy Hwx Hwy. apply Hne, page_eq; [done|done|]. rewrite <- (W1 x w), <- (W2 y w) by done. done.
  - constructor; [done|]. eapply Forall_impl; [apply unused_empty|]. intros x [E1 E2]. unfold page_block. by rewrite E1, E2.
  - apply whole_space_ok.
Qed.

(** [vmm_init] establishes the invariant that the other operations of
    the allocator of virtual memory keep: with two low frames to take, it ends;
    the free list is one block that covers exactly the addresses from
    [free_virt_start] to the kernel, followed by 127 unused nodes; the list of
    allocated blocks has 169 unused nodes; both lists lie in the pages taken,
    and the frame allocator and the page tables, with all mappings, are kept. *)
Theorem vmm_init_ready s n1 a1 n2 a2 low high used q :
  mm_inv s ((n1, a1) :: (n2, a2) :: low) high used q ->
  exists s', vmm_init s = Ok tt s' /\
    vm_inv s' low high ((n2, a2) :: (n1, a1) :: used) q
      (whole_space (a1 + KERNEL_OFFSET)) (no_blocks (a2 + KERNEL_OFFSET)) /\
    same_ptes s s' /\ same_tables s s'.
Proof.
  intros Hmm. destruct (kcalloc_private _ _ _ _ _ _ _ Hmm) as (s1 & Hr1 & Hmm1 & Hp1 & Ht1 & Hpr1 & _ & _ & _).
  unfold vmm_init. rewrite (bind_ok _ _ _ _ _ Hr1). set (f1 := a1 + KERNEL_OFFSET) in *.
  destruct (init_free_list s1 _ f1 (ahead ← kcalloc_page; modify (set_alloc_head ahead);; set_up_page_for_alloc_list ahead) Hpr1)
    as (s2 & -> & Hu2 & Hfl2). destruct (private_inv _ _ _ _ _ _ _ Hmm1 Hpr1 Hu2) as (Hmm2 & Hp2 & Ht2).
  destruct (kcalloc_private _ _ _ _ _ _ _ Hmm2) as (s3 & Hr3 & Hmm3 & Hp3 & Ht3 & Hpr3 & Hout3 & Hm3 & Hh3 & Hl3).
  rewrite (bind_ok _ _ _ _ _ Hr3). set (f2 := a2 + KERNEL_OFFSET) in *. run_pure.
  destruct (set_up_alloc_run (set_alloc_head f2 s3) f2) as (m & Hr4 & Hm4 & Hout4 & Hseg4); [apply Hpr3|apply Hpr3|].
  set (s4 := set_mem (fun _ => m) (set_alloc_head f2 s3)) in *.
  assert (Hu4 : page_upd f2 s3 s4).
  { split; [|done..]. intros w Hw. apply Hout4, pg_out; [apply Hpr3..|done]. }
  destruct (private_inv _ _ _ _ _ _ _ Hmm3 Hpr3 Hu4) as (Hmm4 & Hp4 & Ht4).
  pose proof (mm_distinct _ _ _ _ _ Hmm) as Hnd. apply NoDup_cons in Hnd as [Hnd1 Hnd]. apply NoDup_cons in Hnd as [Hnd2 _].
  assert (Hne : f1 <> f2) by (intros E; apply Hnd1; assert (a1 = a2) as -> by (unfold f1, f2 in E; lia); left).
  exists s4. split; [done|]. split; [apply init_vm_inv; [done|..]|].
  - destruct Hfl2 as [Hseg Hap Hok]. split; [|done|done].
    change (dseg m 0 (vmm_head s3) (whole_space f1) (vmm_tail s3) 0). rewrite Hh3, Hl3. eapply dseg_frame; [|exact Hseg].
    intros x w Hx Hw. assert (Hpg : pg w = pg f1) by (apply (unused_word f1 32 127 w x); try done; apply Hpr1).
    assert (Hpne : pg f1 <> pg f2) by (intros E; apply Hne, page_eq; [apply Hpr1|apply Hpr3|done]).
    rewrite Hout4; [|apply pg_out; [apply Hpr3..|congruence]]. apply Hout3; [|congruence].
    intros ->. destruct (pr_nodes _ _ _ Hpr1 n2) as [H _]; [left|congruence].
  - split; [exact Hseg4|apply unused_apart; lia].
  - apply (private_step s1 s4 _ _ f1 Hpr1); [by eapply same_tables_trans; [|eapply same_tables_trans]| |].
    + eapply mem_mono_trans; [apply (pu_mono _ _ _ Hu2)|]. eapply mem_mono_trans; [exact Hm3|apply Hu4].
    + intros x. cbn [app]. repeat first [rewrite fmap_app|rewrite fmap_cons|rewrite elem_of_app|rewrite elem_of_cons]. tauto.
  - by apply (private_step s3 s4 _ _ f2 Hpr3 Ht4 (pu_mono _ _ _ Hu4)).
  - done.
  - intros a Ha. split; intros E; [apply Hnd1; right|apply Hnd2];
      [assert (a1 = a) as -> by (unfold f1 in E; lia)|assert (a2 = a) as -> by (unfold f2 in E; lia)]; done.
  - split; [eauto using same_ptes_trans|]. eapply same_tables_trans; [exact Ht1|]. by eapply same_tables_trans; [|eapply same_tables_trans].
Qed.

Lemma vmm_init_ready_witness :
  exists s', vmm_init paging_state = Ok tt s' /\
    vm_inv s' (drop 2 paging_low) [] (reverse (take 2 paging_low)) 0
      (whole_space (0x2000 + KERNEL_OFFSET)) (no_blocks (0x3000 + KERNEL_OFFSET)) /\
    same_ptes paging_state s' /\ same_tables paging_state s'.
Proof. exact (vmm_init_ready paging_state _ _ _ _ _ [] [] 0 paging_inv). Defined.

End VmmInit.
