(* ===== verification/VmmAlloc.v ===== *)
(** * mem/vmm.c: [vmm_alloc] on the whole machine

    The lists of the allocator of virtual memory, the page tables and the
    frame allocator together: [vm_inv] says that all of them are well formed
    and keep out of each other's memory.  [vmm_alloc] takes a range out of the
    free list, backs each of its pages with a frame and records the block. *)

From S2P Require Import Prelude KMath Machine Pmm PmmProps Page PageEntry PageTables PageOps PageProps.
From S2P Require Import Vmm VmmList VmmBlocks VmmOps VmmProps VmmInit.
Import KMath Machine Pmm PmmProps KMalloc Page PageEntry PageTables PageOps PageProps.
Import Vmm VmmList VmmBlocks VmmOps VmmProps VmmInit.

Module VmmAlloc.

(** ** What keeps the invariant *)

Lemma aseg_frame m m' p l q :
  (forall n w, n ∈ faddr <$> l -> aword n w -> m' !! w = m !! w) -> aseg m p l q -> aseg m' p l q.
Proof.
  revert p. induction l as [|[[n st] sz] l IH]; intros p Hm; cbn; [done|].
  assert (Hw : forall k, 0 <= k < 24 -> m' !! (n + k) = m !! (n + k)).
  { intros k Hk. apply (Hm n); [left|]. unfold aword. lia. }
  unfold a_next, a_start, a_size. pose proof (Hw 0 ltac:(lia)) as H0. rewrite Z.add_0_r in H0.
  rewrite H0, !Hw by lia. intros (? & ? & ? & ? & nx & ? & ?).
  split_and!; try done. exists nx. split; [done|]. apply IH; [|done]. intros x w Hx. apply Hm. by right.
Qed.

(** An operation on the tables and the frame allocator keeps the lists. *)
Lemma vm_steps s low high used q fl al s' low' high' used' q' fs fs' ns :
  vm_inv s low high used q fl al -> mm_inv s' low' high' used' q' ->
  quiet s fs (low ++ high ++ used).*1 s' fs' ns ->
  (forall w a, list_word fl al w -> a ∈ fs -> pg w <> pg (a + KERNEL_OFFSET)) ->
  (forall a, a ∈ low'.*2 -> a ∈ fs') -> (forall n, n ∈ (low' ++ high' ++ used').*1 -> n ∈ ns) ->
  vm_inv s' low' high' used' q' fl al.
Proof.
  intros [_ [Hseg Hap Hok] [Haseg Haap] Ht Hn _ Hx Hpb Hsp] Hmm Hq Hf Hfs Hns.
  pose proof (fun a => quiet_in _ _ _ _ _ _ a Hq) as Hqf. destruct Hq as [Hout Hqt _ _ Hqn (E1 & E2 & E3 & E4)].
  assert (Hsame : forall w, list_word fl al w -> mem s' !! w = mem s !! w).
  { intros w Hw. apply Hout; [by apply Ht|intros n; by apply Hn|intros a; by apply Hf]. }
  split; [done|..].
  - split; [|done|done]. rewrite E2, E3. eapply dseg_frame; [|exact Hseg]. intros n w ? ?. apply Hsame. left. eauto.
  - split; [|done]. rewrite E4. eapply aseg_frame; [|exact Haseg]. intros n w ? ?. apply Hsame. right. eauto.
  - intros w Hw [?|(a & Ha & E)]%Hqt; [by apply (Ht w)|by apply (Hf w a)].
  - intros w n Hw ?%Hns%Hqn. by apply Hn.
  - intros w a Hw ?%Hfs%Hqf. by apply Hf.
  - done.
  - done.
  - done.
Qed.

Lemma vm_quiet s low high used q fl al s' low' high' used' q' :
  vm_inv s low high used q fl al -> mm_inv s' low' high' used' q' ->
  quiet s low.*2 (low ++ high ++ used).*1 s' low'.*2 (low' ++ high' ++ used').*1 ->
  vm_inv s' low' high' used' q' fl al.
Proof.
  intros Hvm Hmm Hq. apply (vm_steps _ _ _ _ _ _ _ _ _ _ _ _ _ _ _ Hvm Hmm Hq); [apply (vm_frames _ _ _ _ _ _ _ Hvm)|done|done].
Qed.

Lemma list_word_ext fl al fl' al' w :
  (faddr <$> fl') ≡ₚ (faddr <$> fl) -> faddr <$> al' = faddr <$> al -> list_word fl' al' w -> list_word fl al w.
Proof. intros Ef Ea. unfold list_word. rewrite Ea. setoid_rewrite Ef. done. Qed.

(** A change of the lists' own words keeps the rest. *)
Lemma vm_lists s low high used q fl al s' fl' al' :
  vm_inv s low high used q fl al -> free_list s' fl' -> alloc_list s' al' ->
  (faddr <$> fl') ≡ₚ (faddr <$> fl) -> faddr <$> al' = faddr <$> al ->
  (forall a, covers fl' a -> free_virt_start <= a < 0xFFFFFFFF80000000) -> Forall page_block fl' ->
  (forall w, ~ list_word fl al w -> mem s' !! w = mem s !! w) ->
  pmm_low s' = pmm_low s -> pmm_high s' = pmm_high s -> pmm_free_list s' = pmm_free_list s ->
  pml4_addr s' = pml4_addr s ->
  vm_inv s' low high used q fl' al' /\ same_ptes s s' /\ same_tables s s'.
Proof.
  intros [Hmm Hfl Hal Ht Hn Hf Hx _ _] Hfl' Hal' Ef Ea Hc Hpb Hw E1 E2 E3 E4.
  assert (Htw : forall w, table_word (mem s) (pml4_addr s) w -> mem s' !! w = mem s !! w).
  { intros w H. apply Hw. intros Hl. by apply (Ht w). }
  assert (Hlw : forall w, list_word fl' al' w -> list_word fl al w).
  { intros w. by apply list_word_ext. }
  assert (Hpmm : pmm_inv s' low high used q).
  { destruct (mm_pmm _ _ _ _ _ Hmm) as [H1 H2 H3 H4]. split; rewrite ?E1, ?E2, ?E3; unfold chain in *; [..|exact H4].
    all: eapply seg_frame; [|eassumption]; intros x Hx'; split; apply Hw; intros Hl;
      (destruct (Hn _ x Hl) as [G1 G2]; [rewrite !fmap_app, !elem_of_app; tauto|by first [apply G1|apply G2]]). }
  destruct (mm_inv_step s s' low high used q low high used q) as (Hmm' & Hp & Htb); try done.
  { intros b w Hb Hpg H. rewrite Hw; [done|]. intros Hl. by apply (Hf w b). }
  split; [|done]. split; [done|done|done|..]; [..|done|done]; intros w.
  - intros Hl%Hlw (p & x & j & Hp1 & Hp2 & Hj & Hx' & ->). rewrite Htb in Hx' by done.
    apply (Ht _ Hl). by exists p, x, j.
  - intros n Hl%Hlw. by apply Hn.
  - intros a Hl%Hlw. by apply Hf.
  - intros y w'. rewrite Ef, Ea. apply Hx.
Qed.

(** A change of the free list. *)
Lemma vm_free_upd s low high used q fl al s' fl' :
  vm_inv s low high used q fl al -> list_upd (faddr <$> fl) s s' -> free_list s' fl' -> (faddr <$> fl') ≡ₚ (faddr <$> fl) ->
  (forall a, covers fl' a -> free_virt_start <= a < 0xFFFFFFFF80000000) -> Forall page_block fl' ->
  vm_inv s' low high used q fl' al /\ same_ptes s s' /\ same_tables s s'.
Proof.
  intros Hvm (m & h & t & -> & Hm) Hfl Ha Hc Hpb. apply (vm_lists s low high used q fl al); try done.
  - destruct (vm_allocs _ _ _ _ _ _ _ Hvm) as [Hs Hap]. split; [|done]. eapply aseg_frame; [|exact Hs].
    intros x w Hx Hw. apply Hm. intros y Hy Hwy. by apply (vm_apart _ _ _ _ _ _ _ Hvm y x w).
  - intros w Hw. apply Hm. intros y Hy Hwy. apply Hw. left. eauto.
Qed.

(** ** Taking a frame *)

(** A node moves from a free list to the list of used nodes. *)
Lemma node_moves s s' low high used q low' high' used' q' n v :
  mm_inv s low high used q -> pmm_inv s' low' high' used' q' -> n ∈ (low ++ high ++ used).*1 ->
  mem s' = <[next_of n:=v]> (mem s) ->
  pml4_addr s' = pml4_addr s /\ vmm_head s' = vmm_head s /\ vmm_tail s' = vmm_tail s /\ alloc_head s' = alloc_head s ->
  (forall x, x ∈ (low' ++ high' ++ used').*1 -> x ∈ (low ++ high ++ used).*1) -> low'.*2 `sublist_of` low.*2 ->
  mm_inv s' low' high' used' q' /\ same_ptes s s' /\ same_tables s s' /\
  quiet s low.*2 (low ++ high ++ used).*1 s' low'.*2 (low' ++ high' ++ used').*1.
Proof.
  intros Hmm Hpmm Hn Em Hg Hsub Hlow.
  assert (Htw : forall w, table_word (mem s) (pml4_addr s) w -> mem s' !! w = mem s !! w).
  { intros w Hw. rewrite Em. apply lookup_insert_ne. intros <-. by destruct (mm_nodes _ _ _ _ _ Hmm n Hn). }
  destruct (mm_inv_step s s' low high used q low' high' used' q') as (Hmm' & Hp & Htbl); try done; [apply Hg| |].
  { intros b w _ _. rewrite Em, lookup_insert. case_decide; eauto. }
  split_and!; [done|done|done|]. split; [| | |done|done|done].
  - intros w _ Hw _. rewrite Em. apply lookup_insert_ne. apply not_eq_sym, (Hw n Hn).
  - intros w (p & x & j & Hp1 & Hp2 & Hj & Hx & ->). left. rewrite Htbl in Hx by done. by exists p, x, j.
  - intros w Hw. rewrite Em, lookup_insert. case_decide; eauto.
Qed.

Lemma same_ptes_translate s s' v : same_ptes s s' -> translate s' v = translate s v.
Proof. intros [Hr Hp]. unfold translate. rewrite Hr, Hp by first [done|apply vpath_range|apply pte_range]. done. Qed.

(** [pmm_alloc_high] returns a frame of the high list, and with an empty high
    list one of the low list, whose identity mapping is then removed. *)
Lemma take_frame s low high used q :
  mm_inv s low high used q -> (low <> []) -> (forall a, a ∈ low.*2 -> tbl (mem s) (pml4_addr s) (vpath a) = None) ->
  exists n a s' low' high', pmm_alloc_high s = Ok a s' /\ mm_inv s' low' high' ((n, a) :: used) q /\
    same_ptes s s' /\ same_tables s s' /\ a :: low'.*2 ++ high'.*2 ≡ₚ low.*2 ++ high.*2 /\
    high'.*2 `sublist_of` high.*2 /\ (length low <= S (length low'))%nat /\
    quiet s low.*2 (low ++ high ++ used).*1 s' low'.*2 (low' ++ high' ++ (n, a) :: used).*1.
Proof.
  intros Hmm Hlow Hid. destruct high as [|[n a] high].
  - destruct low as [|[n a] low]; [done|].
    destruct (pmm_alloc_low_inv _ _ _ _ _ _ _ (mm_pmm _ _ _ _ _ Hmm)) as (nx & Hnx & Hr & Hpmm).
    destruct (node_moves _ _ _ _ _ _ _ _ _ _ n (pmm_free_list s) Hmm Hpmm) as (Hmm' & Hp & Ht & Hq); try done;
      [left|by cbn; intros x; rewrite !fmap_app, !fmap_cons, !elem_of_app, !elem_of_cons, !elem_of_app; tauto
      |by apply sublist_cons|].
    assert (Hr2 : page_unmap a (alloc_low_state n nx s) = Ok tt (alloc_low_state n nx s)).
    { rewrite (page_unmap_run _ _ (mm_pt _ _ _ _ _ Hmm')), (Ht (vpath a) ltac:(done) (vpath_range a)), Hid by left.
      by repeat case_match. }
    eexists n, a, _, low, [].
    split_and!; [|done..|by rewrite !app_nil_r|done|done|done].
    unfold pmm_alloc_high. rewrite (bind_ok _ _ _ _ _ (eq_refl : gets pmm_high s = Ok (pmm_high s) s)).
    assert (pmm_high s = 0) as -> by apply (inv_high _ _ _ _ _ (mm_pmm _ _ _ _ _ Hmm)). cbn [Z.eqb].
    by rewrite (bind_ok _ _ _ _ _ Hr), (bind_ok _ _ _ _ _ Hr2).
  - destruct (inv_high _ _ _ _ _ (mm_pmm _ _ _ _ _ Hmm)) as (Eh & Hz & _).
    destruct (pop_high_inv _ _ _ _ _ _ _ (mm_pmm _ _ _ _ _ Hmm)) as (nx & Hnx & Hr & Hpmm).
    destruct (node_moves _ _ _ _ _ _ _ _ _ _ n (pmm_free_list s) Hmm Hpmm) as (Hmm' & Hp & Ht & Hq); try done;
      [rewrite !fmap_app, fmap_cons; set_solver
      |by intros x; rewrite !fmap_app, !fmap_cons, !elem_of_app, !elem_of_cons; tauto|].
    eexists n, a, _, low, high.
    split_and!; [|done..|by rewrite fmap_cons; apply Permutation_middle|by apply sublist_cons|lia|done].
    unfold pmm_alloc_high. rewrite (bind_ok _ _ _ _ _ (eq_refl : gets pmm_high s = Ok (pmm_high s) s)), Eh.
    destruct (Z.eqb_spec n 0); done.
Qed.

(** ** The frames behind the pages *)

(** A frame the allocator may get back: a low one is a page of RAM that no
    table and no node lies in. *)
Definition returnable (s : kstate) (ns : list Z) (f : Z) : Prop :=
  f < TWO_GB -> frame_ok (mem s) (pml4_addr s) ns f.

Lemma returnable_step s ns s' ns' f :
  mem_mono (mem s) (mem s') -> same_tables s s' -> (forall n, n ∈ ns' -> n ∈ ns) -> returnable s ns f -> returnable s' ns' f.
Proof.
  intros Hm Ht Hsub Hf Hlt. destruct (Hf Hlt) as [Hr [Hal Hb] Htab Hn]. split; [done|split; [done|]| |auto].
  - intros i Hi. by apply Hm, Hb.
  - intros p x Hp Hrp. rewrite Ht by done. by apply Htab.
Qed.

Lemma returnable_quiet s fs ns s' fs' ns' a :
  quiet s fs ns s' fs' ns' -> a ∉ fs -> (forall b, b ∈ fs -> (b + KERNEL_OFFSET) mod 4096 = 0) ->
  pt_inv (mem s) (pml4_addr s) -> returnable s ns a -> returnable s' ns' a.
Proof.
  intros [_ Ht Hm _ Hn _] Ha Hfs Hpt Hf Hlt. destruct (Hf Hlt) as [Hr [Hal Hb] Htab Hfn]. split; [done|split; [done|]| |auto].
  - intros i Hi. by apply Hm, Hb.
  - intros p x Hp Hrp Hx ->.
    destruct (Ht (ent (a + KERNEL_OFFSET) 0)) as [(p' & x' & j & Hp' & Hr' & Hj & Hx' & E)|(b & Hb' & E)].
    + by exists p, (a + KERNEL_OFFSET), 0.
    + apply ent_inj in E as [E _]; [by apply (Htab p' x' Hp' Hr' Hx')|done| |lia|done].
      by apply (pt_backed _ _ Hpt p').
    + rewrite ent_page in E by (done || lia). apply page_eq in E; [|done|by apply Hfs].
      apply Ha. by replace a with b by lia.
Qed.

(** The frames [fs] can be freed one after the other: each is found on the
    list of used nodes in front of the ones freed before it, and the search
    for it meets no older node of the same frame. *)
Fixpoint stacked (fs : list Z) (used : list (Z * Z)) : Prop :=
  match fs with
  | [] => True
  | f :: fs' => exists pre n post, used = pre ++ (n, f) :: post /\ (f ∉ pre.*2) /\ stacked fs' pre
  end.

Lemma stacked_more fs us us' : stacked fs us -> stacked fs (us ++ us').
Proof.
  destruct fs as [|f fs]; [done|]. intros (pre & n & post & -> & Hf & Hs). exists pre, n, (post ++ us'). by rewrite <- app_assoc.
Qed.

Lemma stacked_sub fs us : stacked fs us -> fs ⊆+ us.*2.
Proof.
  revert us. induction fs as [|f fs IH]; intros us; [intros; apply submseteq_nil_l|].
  intros (pre & n & post & -> & _ & Hs%IH). rewrite fmap_app, fmap_cons. rewrite <- Permutation_middle.
  apply submseteq_skip. by apply submseteq_inserts_r.
Qed.

(** A frame of the high list. *)
Definition high_frame (a : Z) : Prop := TWO_GB <= a < 2 ^ 52 /\ a mod 4096 = 0.

Lemma Forall_submseteq {A} (P : A -> Prop) l k : l ⊆+ k -> Forall P k -> Forall P l.
Proof. rewrite !Forall_forall. intros Hs Hk x Hx. by apply Hk, (elem_of_submseteq l). Qed.

Lemma low_frames_aligned s low high used q b : mm_inv s low high used q -> b ∈ low.*2 -> (b + KERNEL_OFFSET) mod 4096 = 0.
Proof. intros Hmm Hb. pose proof (mm_frames _ _ _ _ _ Hmm) as Hf. rewrite Forall_forall in Hf. apply (Hf b Hb). Qed.

(** ** The pages of a block *)

(** The pages of a block from [st] on have different numbers, and none is the
    page of a frame below 2 GB. *)
Lemma block_vpn st i j :
  st mod 4096 = 0 -> free_virt_start <= st -> 0 <= i -> 0 <= j ->
  st + i * 4096 < 0xFFFFFFFF80000000 -> st + j * 4096 < 0xFFFFFFFF80000000 ->
  vpn (st + i * 4096) = vpn (st + j * 4096) -> i = j.
Proof. unfold vpn, free_virt_start. intros. dlia. Qed.

Lemma low_path v a : free_virt_start <= v < 0xFFFFFFFF80000000 -> 0 <= a < TWO_GB -> vpath a <> vpath v.
Proof.
  unfold vpath, virt_addr_get_pml4e. rewrite !idx_eq by lia. unfold free_virt_start, TWO_GB. intros Hv Ha [= E _ _].
  rewrite (Z.div_small a) in E by lia. dlia.
Qed.

Lemma low_frame_range s low high used q a :
  mm_inv s low high used q -> a ∈ low.*2 -> 0 <= a < 2 ^ 52 /\ a mod 4096 = 0.
Proof.
  intros Hmm Ha. pose proof (mm_frames _ _ _ _ _ Hmm) as Hf. rewrite Forall_forall in Hf. specialize (Hf a Ha).
  split; [|by eapply frame_aligned]. destruct Hf as [Hr _ _ _]. unfold TWO_GB in Hr. lia.
Qed.

Lemma unmappable_same s s' v : same_ptes s s' -> same_tables s s' -> unmappable s v -> unmappable s' v.
Proof.
  intros Hp Ht. unfold unmappable. rewrite Ht by first [done|apply vpath_range].
  setoid_rewrite (same_ptes_translate s s' _ Hp). done.
Qed.

(** The step for one page: [map_page] with a frame [a] for page [v]. *)
Lemma map_page_run s low high used q st i :
  let v := st + i * 4096 in
  mm_inv s low high used q -> unmapped s low.*2 -> (4 <= length low)%nat -> Forall high_frame high.*2 -> NoDup (low.*2 ++ high.*2) ->
  free_virt_start <= v < 0xFFFFFFFF80000000 -> 0 <= i -> 0 <= st -> unmappable s v ->
  exists n a ts s' low' high', let used' := ts ++ (n, a) :: used in
    map_page st i s = Ok tt s' /\ mm_inv s' low' high' used' q /\
    (forall w, translate s' w = if decide (vpn w = vpn v) then Some (a + w mod 4096) else translate s w) /\
    a :: ts.*2 ++ low'.*2 ++ high'.*2 ≡ₚ low.*2 ++ high.*2 /\ (length low <= 4 + length low')%nat /\ (length ts <= 3)%nat /\
    returnable s' (low' ++ high' ++ used').*1 a /\
    high'.*2 `sublist_of` high.*2 /\ unmapped s' low'.*2 /\
    (forall w, vpn w <> vpn v -> unmappable s w -> unmappable s' w) /\
    quiet s low.*2 (low ++ high ++ used).*1 s' low'.*2 (low' ++ high' ++ used').*1.
Proof.
  intros v Hmm Hid Hlen Hhigh Hnd Hv Hi Hst Hun. unfold map_page.
  assert (Ev : st +64 (i *64 PAGE_SIZE) = v).
  { unfold v, PAGE_SIZE in *. rewrite (u64_small (i * 4096)), u64_small by lia. done. }
  rewrite Ev. clearbody v.
  destruct (take_frame s low high used q Hmm) as (n & a & s1 & low1 & high1 & Hr1 & Hmm1 & Hp1 & Ht1 & Hfr1 & Hh1 & Hlen1 & Hq1);
    [by intros ->; cbn in Hlen; lia|done|].
  rewrite (bind_ok _ _ _ _ _ Hr1).
  set (used1 := (n, a) :: used) in *.
  destruct (page_unmap_full s1 low1 high1 used1 q v Hmm1) as (s2 & Hr2 & Hmm2 & Htr2 & Hc2); [by apply (unmappable_same s)|].
  pose proof (calm_quiet _ _ _ low1.*2 (calm_nil _ (low1 ++ high1 ++ used1).*1 _ Hc2)) as Hq2.
  rewrite (bind_ok _ _ _ _ _ Hr2).
  destruct (page_map_full s2 low1 high1 used1 q v a true Hmm2) as (s3 & low3 & used3 & Hr3 & Hmm3 & Hl3 & Htr3 & _ & Hq3 & Ho3 & (ts & -> & Hmv)); [lia|].
  assert (Ha : 0 <= a < 2 ^ 52 /\ a mod 4096 = 0).
  { assert (a ∈ low.*2 ++ high.*2) as [Hin|Hin]%elem_of_app by (rewrite <- Hfr1; left).
    - by apply (low_frame_range s low high used q).
    - rewrite Forall_forall in Hhigh. destruct (Hhigh a Hin) as [Hr ?]. unfold TWO_GB in Hr. split; [lia|done]. }
  assert (Htr : forall w, translate s3 w = if decide (vpn w = vpn v) then Some (a + w mod 4096) else translate s w).
  { intros w. rewrite Htr3. case_decide; [|by rewrite Htr2, decide_False, (same_ptes_translate s s1)].
    rewrite mask_aligned, offset_mod, u64_small by (apply Ha || dlia). done. }
  assert (Ho : forall p x, length p = 3%nat -> in_range p -> tbl (mem s3) (pml4_addr s3) p = Some x ->
    tbl (mem s) (pml4_addr s) p = Some x \/ p = vpath v).
  { intros p x Hp Hrp Hx. destruct (Ho3 p x Hp Hrp Hx) as [H|H]; [left|by right].
    rewrite (cm_tables _ _ _ Hc2), Ht1 in H by (done || lia). done. }
  assert (Hq : quiet s low.*2 (low ++ high ++ used).*1 s3 low3.*2 (low3 ++ high1 ++ ts ++ used1).*1) by eauto using quiet_trans.
  exists n, a, ts, s3, low3, high1. split_and!; [done|done|done| |lia| | |done| | |done].
  - rewrite <- Hfr1, <- Hmv. cbn. by rewrite <- app_assoc.
  - apply Permutation_length in Hmv. rewrite length_app, !length_fmap in Hmv. lia.
  - rewrite <- Hfr1 in Hnd. apply NoDup_cons in Hnd as [Hna _]. rewrite not_elem_of_app in Hna. destruct Hna as [Hna _].
    assert (Hq13 : quiet s1 low1.*2 (low1 ++ high1 ++ used1).*1 s3 low3.*2 (low3 ++ high1 ++ ts ++ used1).*1) by (by eapply quiet_trans).
    apply (returnable_quiet _ _ _ _ _ _ _ Hq13 Hna); [intros b; by eapply low_frames_aligned|apply Hmm1|].
    intros Hlt. assert (Hin : a ∈ low.*2).
    { assert (a ∈ low.*2 ++ high.*2) as [?|Hin]%elem_of_app by (rewrite <- Hfr1; left); [done|].
      rewrite Forall_forall in Hhigh. destruct (Hhigh a Hin). lia. }
    apply (returnable_step s (low ++ high ++ used).*1); [exact (qt_mono _ _ _ _ _ _ Hq1)|done|apply (qt_ns _ _ _ _ _ _ Hq1)| |done].
    intros _. pose proof (mm_frames _ _ _ _ _ Hmm) as Hf. rewrite Forall_forall in Hf. by apply Hf.
  - intros b Hb. pose proof (quiet_in _ _ _ _ _ _ b Hq Hb) as Hb'. destruct (tbl _ _ (vpath b)) as [x|] eqn:E; [|done].
    destruct (Ho (vpath _) x eq_refl (vpath_range b) E) as [H|H]; [by rewrite Hid in H|].
    exfalso. apply (low_path v b); [done| |done]. pose proof (mm_frames _ _ _ _ _ Hmm) as Hf.
    rewrite Forall_forall in Hf. apply (Hf b Hb').
  - intros w Hne [Hn|(u & x & Hu & Hne' & Hx)].
    + destruct (tbl (mem s3) (pml4_addr s3) (vpath w)) as [x|] eqn:E; [|by left].
      destruct (Ho (vpath _) x eq_refl (vpath_range w) E) as [H|H]; [congruence|]. right. exists v, (a + v mod 4096).
      rewrite Htr, decide_True by done. split_and!; congruence.
    + right. exists u. rewrite Htr. case_decide; eauto.
Qed.
(** The page loop of [vmm_alloc]. *)
Lemma map_pages_run st q n : forall s low high used i,
  let v j := st + j * 4096 in
  mm_inv s low high used q -> unmapped s low.*2 -> (4 * n <= length low)%nat -> Forall high_frame high.*2 ->
  NoDup (low.*2 ++ high.*2) ->
  st mod 4096 = 0 -> free_virt_start <= st -> 0 <= i -> v (i + Z.of_nat n) <= 0xFFFFFFFF80000000 ->
  (forall j, i <= j < i + Z.of_nat n -> unmappable s (v j)) ->
  exists fs us s' low' high', for_loop n i (map_page st) s = Ok tt s' /\ mm_inv s' low' high' (us ++ used) q /\
    length fs = n /\ (length us <= 4 * n)%nat /\ us.*2 ++ low'.*2 ++ high'.*2 ≡ₚ low.*2 ++ high.*2 /\ stacked fs us /\ unmapped s' low'.*2 /\
    Forall (returnable s' (low' ++ high' ++ us ++ used).*1) fs /\
    (forall j a w, fs !! j = Some a -> vpn w = vpn (v (i + Z.of_nat j)) -> translate s' w = Some (a + w mod 4096)) /\
    (forall w, (forall j, i <= j < i + Z.of_nat n -> vpn w <> vpn (v j)) -> translate s' w = translate s w) /\
    quiet s low.*2 (low ++ high ++ used).*1 s' low'.*2 (low' ++ high' ++ us ++ used).*1.
Proof.
  induction n as [|n IH]; intros s low high used i v Hmm Hid Hlen Hh Hnd Hal Hst Hi Hend Hun.
  { exists [], [], s, low, high. split_and!; try done; apply quiet_refl. }
  destruct (map_page_run s low high used q st i) as (m & a & ts & s1 & low1 & high1 & Hr1 & Hmm1 & Htr1 & Hfr1 & Hl1 & Hts1 & Hrt1 & Hh1 & Hid1 & Hun1 & Hq1);
    try done; [lia|unfold v in Hend; lia|unfold free_virt_start in Hst; lia|apply Hun; lia|].
  assert (Hd : forall j, i < j < i + 1 + Z.of_nat n -> vpn (v j) <> vpn (v i)).
  { intros j Hj E. apply block_vpn in E; unfold v in *; lia || done. }
  pose proof Hnd as Hnd1. rewrite <- Hfr1 in Hnd1. apply NoDup_cons in Hnd1 as [Ha Hnd1].
  apply NoDup_app in Hnd1 as (_ & Hts & Hnd1). rewrite !not_elem_of_app in Ha. destruct Ha as (Ha1 & Ha2 & Ha3).
  destruct (IH s1 low1 high1 (ts ++ (m, a) :: used) (i + 1)) as (fs & us & s2 & low2 & high2 & Hr2 & Hmm2 & Hl2 & Hus2 & Hfr2 & Hstk2 & Hid2 & Hrt2 & Htr2 & Hne2 & Hq2);
    try done; [lia|eapply Forall_submseteq; [by apply sublist_submseteq|done]|lia|unfold v in Hend; lia| |].
  { intros j Hj. apply Hun1; [apply Hd; lia|apply Hun; lia]. }
  exists (a :: fs), (us ++ ts ++ [(m, a)]), s2, low2, high2.
  replace ((us ++ ts ++ [(m, a)]) ++ used) with (us ++ ts ++ (m, a) :: used) by (by rewrite <- !app_assoc).
  split_and!.
  - cbn [for_loop]. by rewrite (bind_ok _ _ _ _ _ Hr1).
  - done.
  - cbn. by rewrite Hl2.
  - rewrite !length_app. cbn. lia.
  - rewrite <- Hfr1, <- Hfr2, !fmap_app. cbn. solve_Permutation.
  - exists (us ++ ts), m, []. split; [by rewrite <- app_assoc|]. split; [|by apply stacked_more].
    rewrite fmap_app, not_elem_of_app. split; [|done]. intros Hin.
    assert (Hin' : a ∈ low1.*2 ++ high1.*2) by (rewrite <- Hfr2; apply elem_of_app; by left).
    apply elem_of_app in Hin' as [?|?]; done.
  - done.
  - constructor; [|done]. apply (returnable_quiet _ _ _ _ _ _ _ Hq2 Ha2); [intros b; by eapply low_frames_aligned|apply Hmm1|done].
  - intros [|j] b w; cbn [lookup list_lookup]; [intros [= <-]|].
    + rewrite Z.add_0_r. intros E. rewrite Hne2, Htr1, decide_True; [done|done|]. intros j Hj E'. apply (Hd j); [lia|].
      transitivity (vpn w); [symmetry; exact E'|exact E].
    + intros Hj E. apply (Htr2 j); [done|]. by replace (i + 1 + Z.of_nat j) with (i + Z.of_nat (S j)) by lia.
  - intros w Hw. rewrite Hne2, Htr1, decide_False; [done|apply Hw; lia|]. intros j Hj. apply Hw. lia.
  - by eapply quiet_trans.
Qed.

(** ** The lists *)

(** Taking a block keeps the invariant. *)
Lemma vm_take s low high used q pre n st sz post al req :
  let fl := pre ++ (n, st, sz) :: post in
  vm_inv s low high used q fl al -> Forall (fun x => bsize x < req) pre -> 0 < req <= sz -> req mod 4096 = 0 ->
  (sz = req -> post <> []) ->
  exists s' fl', take_block (walk_fuel s) (vmm_head s) req s = Ok st s' /\ vm_inv s' low high used q fl' al /\
    same_ptes s s' /\ same_tables s s' /\
    (forall a, covers fl a <-> st <= a < st + req \/ covers fl' a) /\ (forall a, st <= a < st + req -> ~ covers fl' a) /\
    fl' = if sz =? req then pre ++ post ++ [(n, 0, 0)] else pre ++ (n, st + req, sz - req) :: post.
Proof.
  intros fl Hvm Hpre Hreq Hal Hpost.
  destruct (take_first_fit s pre n st sz post req (vm_free _ _ _ _ _ _ _ Hvm) Hpre Hreq Hpost)
    as (s1 & fl1 & Hr & Hu & Hfl1 & Ha & Hc & Hd & HP & E).
  destruct (vm_free_upd s low high used q fl al s1 fl1 Hvm Hu Hfl1 Ha) as (Hvm1 & Hp & Ht).
  - intros a Hca. apply (vm_space _ _ _ _ _ _ _ Hvm), Hc. by right.
  - pose proof (vm_aligned _ _ _ _ _ _ _ Hvm) as Hpb. apply HP; [done|done|].
    assert (page_block (n, st, sz)) as [H1 H2] by (rewrite Forall_forall in Hpb; apply Hpb; unfold fl; set_solver).
    unfold page_block, bstart, bsize in *. cbn in *. dlia.
  - eauto 12.
Qed.

(** Recording a block keeps the invariant. *)
Lemma vm_record s low high used q fl apre an ast asz apost start size :
  vm_inv s low high used q fl (apre ++ (an, ast, asz) :: apost) ->
  let s' := set_alloc an start size s in
  vm_inv s' low high used q fl (apre ++ (an, start, size) :: apost) /\ same_ptes s s' /\ same_tables s s'.
Proof.
  intros Hvm s'. set (al := apre ++ (an, ast, asz) :: apost) in *.
  assert (Han : an ∈ faddr <$> al) by (unfold al; rewrite fmap_app, fmap_cons; set_solver).
  assert (Hw : forall w, ~ aword an w -> mem s' !! w = mem s !! w).
  { intros w Hw. unfold aword in Hw. cbn. unfold a_size, a_start. by rewrite !lookup_insert_ne by lia. }
  assert (Hfl : free_list s' fl).
  { destruct (vm_free _ _ _ _ _ _ _ Hvm) as [Hs Hap Hok]. split; [|done|done]. eapply dseg_frame; [|exact Hs].
    intros x w Hx Hwx. apply Hw. by apply (vm_apart _ _ _ _ _ _ _ Hvm x an w). }
  destruct (vm_lists s low high used q fl al s' fl (apre ++ (an, start, size) :: apost) Hvm Hfl) as (Hvm' & Hp & Ht); try done.
  - apply (set_alloc_list _ _ _ _ _ _ start size (vm_allocs _ _ _ _ _ _ _ Hvm)).
  - unfold al. by rewrite !fmap_app, !fmap_cons.
  - apply (vm_space _ _ _ _ _ _ _ Hvm).
  - apply Hvm.
  - intros w Hl. apply Hw. intros Ha. apply Hl. right. eauto.
Qed.

(** ** [vmm_alloc] *)

(** A free block lies in the space of the allocator, at the start of a page. *)
Lemma block_space s low high used q pre n st sz post al a :
  vm_inv s low high used q (pre ++ (n, st, sz) :: post) al -> st <= a < st + sz -> free_virt_start <= a < 0xFFFFFFFF80000000.
Proof.
  intros Hvm Ha. apply (vm_space _ _ _ _ _ _ _ Hvm). rewrite <- Permutation_middle, covers_cons. by left.
Qed.

Lemma block_aligned s low high used q pre n st sz post al :
  vm_inv s low high used q (pre ++ (n, st, sz) :: post) al -> st mod 4096 = 0.
Proof.
  intros Hvm. pose proof (vm_aligned _ _ _ _ _ _ _ Hvm) as Hpb. apply Forall_app in Hpb as [_ [Hpb _]%Forall_cons]. apply Hpb.
Qed.

Section vmm_alloc.
Context (s : kstate) (low high used : list (Z * Z)) (q : Z).
Context (pre : list fnode) (n st sz : Z) (post apre : list fnode) (an : Z) (apost : list fnode) (pages : Z).
Let fl := pre ++ (n, st, sz) :: post.
Hypothesis Hvm : vm_inv s low high used q fl (apre ++ (an, 0, 0) :: apost).
Hypothesis Hpre : Forall (fun x => bsize x < pages * 4096) pre.
Hypothesis Hpg : 0 < pages.
Hypothesis Hsz : pages * 4096 <= sz.
Hypothesis Hpost : sz = pages * 4096 -> post <> [].
Hypothesis Hapre : Forall (fun x => ~ (bstart x = 0 /\ bsize x = 0)) apre.
Hypothesis Hlow : 4 * pages <= Z.of_nat (length low).
Hypothesis Hhigh : Forall high_frame high.*2.
Hypothesis Hnd : NoDup (low.*2 ++ high.*2).
Hypothesis Hid : unmapped s low.*2.
Hypothesis Hun : forall i, 0 <= i < pages -> unmappable s (st + i * 4096).

(** The frames [us] are taken: [fs] for the pages, the others for new tables. *)
Lemma vmm_alloc_run : exists s' fs us low' high' fl', vmm_alloc pages s = Ok st s' /\
  vm_inv s' low' high' (us ++ used) q fl' (apre ++ (an, st, pages) :: apost) /\
  Z.of_nat (length fs) = pages /\ Z.of_nat (length us) <= 4 * pages /\ us.*2 ++ low'.*2 ++ high'.*2 ≡ₚ low.*2 ++ high.*2 /\ stacked fs us /\
  Forall (returnable s' (low' ++ high' ++ us ++ used).*1) fs /\
  (forall i f k, fs !! i = Some f -> 0 <= k < 4096 -> translate s' (st + Z.of_nat i * 4096 + k) = Some (f + k)) /\
  (forall v, (forall i, 0 <= i < pages -> vpn v <> vpn (st + i * 4096)) -> translate s' v = translate s v) /\
  (forall a, covers fl a <-> st <= a < st + pages * 4096 \/ covers fl' a) /\
  (forall a, st <= a < st + pages * 4096 -> ~ covers fl' a) /\
  fl' = if sz =? pages * 4096 then pre ++ post ++ [(n, 0, 0)] else pre ++ (n, st + pages * 4096, sz - pages * 4096) :: post.
Proof.
  destruct (vm_take s low high used q pre n st sz post _ (pages * 4096) Hvm Hpre) as (s1 & fl1 & Hr1 & Hvm1 & Hp1 & Ht1 & Hc1 & Hd1 & E1);
    [lia|apply Z.mod_mul; lia|done|].
  pose proof (fun a => block_space _ _ _ _ _ _ _ _ _ _ _ a Hvm) as Hspace. pose proof (block_aligned _ _ _ _ _ _ _ _ _ _ _ Hvm) as Hal.
  pose proof (Hspace st ltac:(lia)) as Hs0. pose proof (Hspace (st + pages * 4096 - 1) ltac:(lia)) as Hs1.
  destruct (map_pages_run st q (Z.to_nat pages) s1 low high used 0)
    as (fs & us & s2 & low2 & high2 & Hr2 & Hmm2 & Hl2 & Hus2 & Hfr2 & Hstk & _ & Hrt & Htr2 & Hne2 & Hq2); try done;
    [apply Hvm1|intros a Ha; rewrite Ht1 by first [done|apply vpath_range]; by apply Hid|lia|lia|lia
    |intros j Hj; apply (unmappable_same s s1); [done|done|apply Hun; lia]|].
  pose proof (vm_quiet _ _ _ _ _ _ _ _ _ _ _ _ Hvm1 Hmm2 Hq2) as Hvm2.
  destruct (vm_record s2 low2 high2 (us ++ used) q fl1 apre an 0 0 apost st pages Hvm2) as (Hvm3 & Hp3 & Ht3).
  eexists _, fs, us, low2, high2, fl1. split_and!; [|exact Hvm3|lia|lia|done|done| | | |done|done|done].
  - unfold vmm_alloc. change PAGE_SIZE with 4096. rewrite (u64_small (pages * 4096)) by (unfold free_virt_start in *; lia).
    rewrite (bind_ok _ _ _ _ _ (eq_refl : gets vmm_head s = Ok (vmm_head s) s)).
    rewrite (bind_ok _ _ _ _ _ (eq_refl : gets walk_fuel s = Ok (walk_fuel s) s)).
    rewrite (bind_ok _ _ _ _ _ Hr1), (bind_ok _ _ _ _ _ Hr2).
    by rewrite (bind_ok _ _ _ _ _ (alloc_list_add_run _ _ _ _ st pages (vm_allocs _ _ _ _ _ _ _ Hvm2) Hapre)).
  - eapply Forall_impl; [exact Hrt|]. intros f. apply returnable_step; [unfold set_alloc; cbn; mono|done|done].
  - intros i f k Hi Hk. rewrite (same_ptes_translate _ _ _ Hp3).
    pose proof (lookup_lt_Some _ _ _ Hi) as Hlt.
    rewrite (Htr2 i f) by (done || unfold vpn; f_equal; dlia). f_equal. dlia.
  - intros v Hv. rewrite (same_ptes_translate _ _ _ Hp3), Hne2, (same_ptes_translate _ _ _ Hp1); [done|].
    intros j Hj. apply Hv. lia.
Qed.

End vmm_alloc.

(** C5. [vmm_alloc] on the whole machine.  Let the invariant hold, and let some
    free block be large enough; [n] is the first one, starting at [st].  If it
    fits exactly, it must not be the last node of the list (removing the tail
    links it to itself, see [vmm_remove_tail_self_loop]).  Let there be an
    unused node to record the block and four free low frames for each page,
    all free frames be distinct, those of the high list lie at or above 2 GiB
    (page aligned, below 2^52), no page table exist yet for the identity
    address of a free low frame, and each page of the range either have no
    page table or one that another page keeps in use, so that unmapping it
    frees no table.  Then [vmm_alloc] returns [st].  Each page of the returned
    range is mapped to a frame of its own, which was free and is free no
    longer; at most three further frames per page are taken (for new page
    tables), and all other free frames stay free; every other page keeps its
    mapping.  The range, and nothing else,
    is taken out of the free address space, the block is recorded with its
    number of pages, and the invariant of all the memory managers is kept. *)
Theorem vmm_alloc_maps s low high used q pre n st sz post apre an apost pages :
  let fl := pre ++ (n, st, sz) :: post in
  vm_inv s low high used q fl (apre ++ (an, 0, 0) :: apost) ->
  Forall (fun x => bsize x < pages * 4096) pre -> 0 < pages -> pages * 4096 <= sz -> (sz = pages * 4096 -> post <> []) ->
  Forall (fun x => ~ (bstart x = 0 /\ bsize x = 0)) apre ->
  4 * pages <= Z.of_nat (length low) -> Forall high_frame high.*2 -> NoDup (low.*2 ++ high.*2) ->
  unmapped s low.*2 -> (forall i, 0 <= i < pages -> unmappable s (st + i * 4096)) ->
  exists s' fs ts low' high' used' fl', vmm_alloc pages s = Ok st s' /\
    vm_inv s' low' high' used' q fl' (apre ++ (an, st, pages) :: apost) /\
    Z.of_nat (length fs) = pages /\ Z.of_nat (length ts) <= 3 * pages /\ fs ++ ts ++ low'.*2 ++ high'.*2 ≡ₚ low.*2 ++ high.*2 /\
    (forall i f k, fs !! i = Some f -> 0 <= k < 4096 -> translate s' (st + Z.of_nat i * 4096 + k) = Some (f + k)) /\
    (forall v, (forall i, 0 <= i < pages -> vpn v <> vpn (st + i * 4096)) -> translate s' v = translate s v) /\
    (forall a, covers fl a <-> st <= a < st + pages * 4096 \/ covers fl' a) /\
    (forall a, st <= a < st + pages * 4096 -> ~ covers fl' a).
Proof.
  intros fl Hvm Hpre Hpg Hsz Hpost Hapre Hlow Hhigh Hnd Hid Hun.
  destruct (vmm_alloc_run s low high used q pre n st sz post apre an apost pages)
    as (s' & fs & us & low' & high' & fl' & Hr & Hvm' & Hl & Hus & Hfr & Hstk & _ & Htr & Hne & Hc & Hd & _); try done.
  destruct (submseteq_Permutation _ _ (stacked_sub _ _ Hstk)) as [ts Hts].
  exists s', fs, ts, low', high', (us ++ used), fl'. split_and!; try done.
  - apply Permutation_length in Hts. rewrite length_app, length_fmap in Hts. lia.
  - rewrite <- Hfr, Hts. by rewrite <- app_assoc.
Qed.

Lemma paging_vm : exists s, vmm_init paging_state = Ok tt s /\
  vm_inv s (drop 2 paging_low) [] (reverse (take 2 paging_low)) 0
    (whole_space (0x2000 + KERNEL_OFFSET)) (no_blocks (0x3000 + KERNEL_OFFSET)) /\
  forall v, tbl (mem s) (pml4_addr s) (vpath v) = None.
Proof.
  pose proof (vmm_init_ready paging_state (paging_node 0) 0x2000 (paging_node 1) 0x3000 (drop 2 paging_low) [] [] 0 paging_inv)
    as (s & Hr & Hvm & _ & Ht).
  exists s. split; [exact Hr|]. split; [exact Hvm|]. intros v. rewrite (Ht (vpath v) ltac:(done) (vpath_range v)).
  apply (tested_no_table 7 paging_state paging_tested); [apply vpath_range|done].
Qed.

Lemma vmm_alloc_maps_witness :
  exists s s' f low' high' used' fl', vmm_init paging_state = Ok tt s /\ vmm_alloc 1 s = Ok free_virt_start s' /\
    vm_inv s' low' high' used' 0 fl' ((0x3000 + KERNEL_OFFSET, free_virt_start, 1) :: unused 24 (0x3000 + KERNEL_OFFSET) 168) /\
    f ∈ (drop 2 paging_low).*2 /\
    (forall k, 0 <= k < 4096 -> translate s' (free_virt_start + k) = Some (f + k)) /\
    (forall a, covers (whole_space (0x2000 + KERNEL_OFFSET)) a <-> free_virt_start <= a < free_virt_start + 1 * 4096 \/ covers fl' a).
Proof.
  destruct paging_vm as (s & Hr & Hvm & Hno).
  destruct (vmm_alloc_maps s (drop 2 paging_low) [] (reverse (take 2 paging_low)) 0
    [] (0x2000 + KERNEL_OFFSET) free_virt_start (0xFFFFFFFF80000000 - free_virt_start) (unused 32 (0x2000 + KERNEL_OFFSET) 127)
    [] (0x3000 + KERNEL_OFFSET) (unused 24 (0x3000 + KERNEL_OFFSET) 168) 1)
    as (s' & fs & ts & low' & high' & used' & fl' & Hrun & Hvm' & Hlen & _ & Hfr & Htr & _ & Hc & _).
  - exact Hvm.
  - constructor.
  - lia.
  - unfold free_virt_start. lia.
  - unfold free_virt_start. lia.
  - constructor.
  - apply Z.leb_le. vm_compute. reflexivity.
  - constructor.
  - vdecide.
  - intros a _. apply Hno.
  - intros i _. left. apply Hno.
  - destruct fs as [|f [|f' fs]]; [cbn in Hlen; lia| |cbn in Hlen; lia].
    exists s, s', f, low', high', used', fl'. split; [exact Hr|]. split; [exact Hrun|]. split; [exact Hvm'|]. split; [|split].
    + rewrite <- (app_nil_r (drop 2 paging_low).*2). change (([] : list (Z * Z)).*2) with ([] : list Z) in Hfr. rewrite <- Hfr. left.
    + intros k Hk. specialize (Htr 0%nat f k eq_refl Hk). rewrite Z.mul_0_l, Z.add_0_r in Htr. exact Htr.
    + exact Hc.
Defined.

End VmmAlloc.
