(* ===== verification/VmmFree.v ===== *)
(** * mem/vmm.c: [vmm_free] on the whole machine

    The block is looked up, the frame behind each of its pages goes back to
    the frame allocator, the page is mapped to another address, and the range
    returns to the free list.  [vm_inv] is kept. *)

From S2P Require Import Prelude KMath Machine Pmm PmmProps Page PageEntry PageTables PageOps PageProps.
From S2P Require Import Vmm VmmList VmmBlocks VmmOps VmmProps VmmInit VmmAlloc.
Import KMath Machine Pmm PmmProps KMalloc Page PageEntry PageTables PageOps PageProps.
Import Vmm VmmList VmmBlocks VmmOps VmmProps VmmInit VmmAlloc.

Module VmmFree.

(** ** [page_map] over existing tables *)

Lemma next_table_present s p i t t' kernel :
  pt_inv (mem s) (pml4_addr s) -> (length p <= 3)%nat -> in_range p -> 0 <= i < 512 ->
  tbl (mem s) (pml4_addr s) p = Some t -> tbl (mem s) (pml4_addr s) (p ++ [i]) = Some t' ->
  next_table (ent t i) kernel s = Ok t' s.
Proof.
  intros Hpt Hp Hr Hi Ht Ht'. destruct (descend _ _ p t i Hpt Hp Hr Hi Ht) as (e & He & Hd). rewrite Ht' in Hd.
  unfold next_table. rewrite (bind_ok _ _ _ _ _ (get_addr_run _ _ _ He)).
  rewrite (bind_ok _ _ _ _ _ (query_run _ PML4E_PDPE_PDE_PRESENT _ _ He)), land_flag.
  destruct (present e); [|done]. injection Hd as ->. done.
Qed.

Lemma page_map_present s low high used q virt phys kernel pt :
  mm_inv s low high used q -> tbl (mem s) (pml4_addr s) (vpath virt) = Some pt ->
  exists s', page_map virt phys kernel s = Ok tt s' /\ mm_inv s' low high used q /\ calm s [] s' /\
    forall v, translate s' v =
      if decide (vpn v = vpn virt) then Some (Z.land phys ADDR_MASK +64 Z.land v (PAGE_SIZE - 1)) else translate s v.
Proof.
  intros Hmm Ht. pose proof (mm_pt _ _ _ _ _ Hmm) as Hpt. pose proof (vpath_range virt) as Hr.
  destruct (tbl_prefix _ _ [virt_addr_get_pml4e virt] _ _ Ht) as [t1 H1].
  destruct (tbl_prefix _ _ [virt_addr_get_pml4e virt; virt_addr_get_pdpe virt] [_] _ Ht) as [t2 H2].
  destruct (pt_backed _ _ Hpt (vpath virt) pt ltac:(done) Hr Ht) as [_ Hb].
  destruct (Hb _ (pte_range virt)) as [e0 He0].
  destruct (leaf_inv s low high used q (vpath virt) (virt_addr_get_pte virt) pt (new_entry e0 phys kernel))
    as (Hmm' & _ & Hpte); [done|done|done|apply pte_range|done|]. rewrite new_entry_present in Hpte.
  eexists. split; [|split; [exact Hmm'|]; split; [by apply (leaf_calm s low high used q (vpath virt)); [..|apply pte_range|]|]].
  - unfold page_map. rewrite (bind_ok _ _ _ _ _ (eq_refl : gets pml4_addr s = Ok (pml4_addr s) s)).
    rewrite (bind_ok _ _ _ _ _ (next_table_present s [] _ _ t1 kernel Hpt ltac:(cbn; lia) ltac:(constructor) (idx_range _ _) eq_refl H1)).
    rewrite (bind_ok _ _ _ _ _ (next_table_present s [_] _ _ t2 kernel Hpt ltac:(cbn; lia) ltac:(by repeat constructor; apply idx_range) (idx_range _ _) H1 H2)).
    rewrite (bind_ok _ _ _ _ _ (next_table_present s [_; _] _ _ pt kernel Hpt ltac:(cbn; lia) ltac:(by repeat constructor; apply idx_range) (idx_range _ _) H2 Ht)).
    exact (enter_run _ _ _ phys kernel He0).
  - intros v. unfold translate. rewrite Hpte by first [done|apply vpath_range|apply pte_range].
    case_decide as Hd; case_decide as Hd'; try (by apply vpn_path in Hd || apply vpn_path in Hd').
    + cbn. by rewrite new_entry_addr.
    + done.
Qed.

(** ** Freeing a frame *)

Lemma free_frame s low high pre n f post q :
  let ns := (low ++ high ++ pre ++ (n, f) :: post).*1 in
  mm_inv s low high (pre ++ (n, f) :: post) q -> f ∉ pre.*2 -> f ∉ low.*2 -> returnable s ns f ->
  exists s' low' high', pmm_free f s = Ok tt s' /\ mm_inv s' low' high' pre n /\
    calm s ns s' /\ same_ptes s s' /\
    (if f <? TWO_GB then low' = (n, f) :: low /\ high' = high else low' = low /\ high' = (n, f) :: high).
Proof.
  intros ns Hmm Hpre Hlow Hf. destruct (pmm_free_inv _ _ _ _ _ _ _ _ (mm_pmm _ _ _ _ _ Hmm) Hpre) as [Hr Hpmm].
  set (s' := free_state n f s) in *.
  assert (Hn : n ∈ ns) by (unfold ns; rewrite !fmap_app, fmap_cons; set_solver).
  assert (Hw : forall w, w <> next_of n /\ w <> addr_of n -> mem s' !! w = mem s !! w).
  { intros w [H1 H2]. unfold s', free_state. case_match; cbn; by rewrite !lookup_insert_ne. }
  assert (Hm : forall w, is_Some (mem s !! w) -> is_Some (mem s' !! w)).
  { intros w H. unfold s', free_state. case_match; cbn; rewrite !lookup_insert; repeat case_decide; eauto. }
  assert (Hg : pml4_addr s' = pml4_addr s /\ vmm_head s' = vmm_head s /\ vmm_tail s' = vmm_tail s /\ alloc_head s' = alloc_head s)
    by (unfold s', free_state; by case_match).
  assert (Htw : forall w, table_word (mem s) (pml4_addr s) w -> mem s' !! w = mem s !! w).
  { intros w H. apply Hw. split; intros ->; by destruct (mm_nodes _ _ _ _ _ Hmm n Hn). }
  assert (Hsub : forall low' high', (if f <? TWO_GB then low' = (n, f) :: low /\ high' = high else low' = low /\ high' = (n, f) :: high) ->
    forall x, x ∈ (low' ++ high' ++ pre).*1 -> x ∈ ns).
  { intros low' high' E x. unfold ns. destruct (f <? TWO_GB), E as [-> ->]; rewrite ?fmap_app, ?fmap_cons, ?fmap_app; set_solver. }
  assert (Hmm' : exists low' high', mm_inv s' low' high' pre n /\ same_ptes s s' /\ same_tables s s' /\
    (if f <? TWO_GB then low' = (n, f) :: low /\ high' = high else low' = low /\ high' = (n, f) :: high)).
  { destruct (Z.leb_spec TWO_GB f) as [Hge|Hlt].
    - exists low, ((n, f) :: high). replace (f <? TWO_GB) with false in * by lia.
      destruct (mm_inv_change s s' low high (pre ++ (n, f) :: post) q low ((n, f) :: high) pre n) as (? & ? & ?); try done.
      + apply Hg.
      + intros b w _ _. apply Hm.
      + by apply Hsub.
      + apply (mm_frames _ _ _ _ _ Hmm).
      + apply (mm_distinct _ _ _ _ _ Hmm).
    - exists ((n, f) :: low), high. replace (f <? TWO_GB) with true in * by lia.
      destruct (mm_inv_change s s' low high (pre ++ (n, f) :: post) q ((n, f) :: low) high pre n) as (? & ? & ?); try done.
      + apply Hg.
      + intros b w _ _. apply Hm.
      + by apply Hsub.
      + constructor; [by apply Hf|apply (mm_frames _ _ _ _ _ Hmm)].
      + constructor; [done|apply (mm_distinct _ _ _ _ _ Hmm)]. }
  destruct Hmm' as (low' & high' & Hmm' & Hp & Ht & E). exists s', low', high'. split_and!; try done.
  split; [|done|done|done]. intros w _ H. by apply Hw, H.
Qed.

(** ** The pages of a block *)

(** The step for one page. *)
Lemma unmap_page_run s low high pre n f post q st i :
  let v := st + i * 4096 in
  let ns := (low ++ high ++ pre ++ (n, f) :: post).*1 in
  mm_inv s low high (pre ++ (n, f) :: post) q -> f ∉ pre.*2 -> f ∉ low.*2 -> returnable s ns f ->
  translate s v = Some f -> unmappable s v -> 0 <= st -> 0 <= i -> v < W64 ->
  exists s' low' high', unmap_page st i s = Ok tt s' /\ mm_inv s' low' high' pre n /\ calm s ns s' /\
    (forall w, translate s' w =
       if decide (vpn w = vpn v) then Some (Z.land (v -64 KERNEL_OFFSET) ADDR_MASK +64 Z.land w (PAGE_SIZE - 1))
       else translate s w) /\
    (if f <? TWO_GB then low' = (n, f) :: low /\ high' = high else low' = low /\ high' = (n, f) :: high).
Proof.
  intros v ns Hmm Hpre Hlow Hf Htr Hun Hst Hi Hv. unfold unmap_page.
  assert (Ev : st +64 (i *64 PAGE_SIZE) = v).
  { unfold v, PAGE_SIZE in *. rewrite (u64_small (i * 4096)), u64_small by lia. done. }
  rewrite Ev. clearbody v.
  assert (Hrd : page_virt_to_phys_addr v s = Ok f s).
  { rewrite (virt_to_phys_run s v (mm_pt _ _ _ _ _ Hmm)), Htr. done. }
  rewrite (bind_ok _ _ _ _ _ Hrd).
  destruct (free_frame s low high pre n f post q Hmm Hpre Hlow Hf) as (s1 & low1 & high1 & Hr1 & Hmm1 & Hc1 & Hp1 & E1).
  rewrite (bind_ok _ _ _ _ _ Hr1).
  destruct (page_unmap_full s1 low1 high1 pre n v Hmm1) as (s2 & Hr2 & Hmm2 & Htr2 & Hc2).
  { apply (unmappable_same s); [done|apply Hc1|done]. }
  rewrite (bind_ok _ _ _ _ _ Hr2).
  destruct (translate_present _ _ _ Htr) as (pt & Hpt & _).
  rewrite <- (cm_tables _ _ _ Hc1), <- (cm_tables _ _ _ Hc2) in Hpt by first [done|apply vpath_range].
  destruct (page_map_present s2 low1 high1 pre n v (v -64 KERNEL_OFFSET) true pt Hmm2 Hpt) as (s3 & Hr3 & Hmm3 & Hc3 & Htr3).
  exists s3, low1, high1. split_and!; [done|done| | |done].
  - apply (calm_trans _ _ s1 ns); [done| |done]. apply (calm_trans _ _ s2 ns); [by apply calm_nil|by apply calm_nil|done].
  - intros w. rewrite Htr3. case_decide; [done|]. rewrite Htr2, decide_False by done. by apply same_ptes_translate.
Qed.
Lemma unmap_pages_run st fs : forall s low high used q i,
  let v j := st + j * 4096 in
  let ns := (low ++ high ++ used).*1 in
  let e := i + Z.of_nat (length fs) in
  mm_inv s low high used q -> stacked fs used -> NoDup fs -> (forall f, f ∈ fs -> f ∉ low.*2) -> Forall (returnable s ns) fs ->
  st mod 4096 = 0 -> free_virt_start <= st -> 0 <= i -> v e <= 0xFFFFFFFF80000000 ->
  (forall j f, fs !! j = Some f -> translate s (v (i + Z.of_nat j)) = Some f) ->
  (forall j, i <= j < e -> unmappable s (v j)) ->
  exists s' low' high' used' q', for_loop (length fs) i (unmap_page st) s = Ok tt s' /\ mm_inv s' low' high' used' q' /\
    calm s ns s' /\ low'.*2 ++ high'.*2 ≡ₚ fs ++ low.*2 ++ high.*2 /\
    (forall a, a ∈ low'.*2 -> a ∈ low.*2 \/ a ∈ fs) /\ (forall n, n ∈ (low' ++ high' ++ used').*1 -> n ∈ ns) /\
    (forall j w, i <= j < e -> vpn w = vpn (v j) ->
       translate s' w = Some (Z.land (v j -64 KERNEL_OFFSET) ADDR_MASK +64 Z.land w (PAGE_SIZE - 1))) /\
    (forall w, (forall j, i <= j < e -> vpn w <> vpn (v j)) -> translate s' w = translate s w).
Proof.
  induction fs as [|f fs IH]; intros s low high used q i v ns e Hmm Hstk Hnd Hlow Hret Hal Hst Hi He Htr Hun.
  { exists s, low, high, used, q. unfold e. cbn [length]. split_and!; try done; [auto|lia]. }
  destruct Hstk as (pre & n & post & -> & Hpre & Hstk). apply Forall_cons in Hret as [Hf Hret].
  apply NoDup_cons in Hnd as [Hfn Hnd]. cbn [length] in *. unfold e in *. clear e.
  destruct (unmap_page_run s low high pre n f post q st i) as (s1 & low1 & high1 & Hr1 & Hmm1 & Hc1 & Htr1 & E1);
    try done; [apply Hlow; left|rewrite <- (Z.add_0_r i); by apply (Htr 0%nat)|apply Hun; lia|unfold free_virt_start in *; lia|unfold v in *; lia|].
  assert (Hsub : forall x, x ∈ (low1 ++ high1 ++ pre).*1 -> x ∈ ns).
  { intros x. unfold ns. destruct (f <? TWO_GB), E1 as [-> ->]; rewrite ?fmap_app, ?fmap_cons, ?fmap_app; set_solver. }
  assert (Hl1 : low1.*2 ++ high1.*2 ≡ₚ f :: low.*2 ++ high.*2 /\ forall a, a ∈ low1.*2 -> a ∈ low.*2 \/ a = f).
  { destruct (f <? TWO_GB), E1 as [-> ->]; rewrite ?fmap_cons; (split; [|set_solver]); [done|].
    cbn. by rewrite Permutation_middle. }
  destruct Hl1 as [Hl1 Hin1].
  assert (Hd : forall j, i < j < i + 1 + Z.of_nat (length fs) -> vpn (v j) <> vpn (v i)).
  { intros j Hj E. apply block_vpn in E; unfold v in *; lia || done. }
  destruct (IH s1 low1 high1 pre n (i + 1)) as (s2 & low2 & high2 & used2 & q2 & Hr2 & Hmm2 & Hc2 & Hl2 & Hin2 & Hsub2 & Htr2 & Hne2);
    try done.
  - intros g Hg [?| ->]%Hin1; [by apply (Hlow g); [right|]|done].
  - eapply Forall_impl; [exact Hret|]. intros g. apply returnable_step; [exact (cm_mono _ _ _ Hc1)|exact (cm_tables _ _ _ Hc1)|done].
  - lia.
  - unfold v in He. lia.
  - intros j g Hj. rewrite Htr1, decide_False.
    + replace (i + 1 + Z.of_nat j) with (i + Z.of_nat (S j)) by lia. by apply (Htr (S j)).
    + apply Hd. apply lookup_lt_Some in Hj. lia.
  - intros j Hj. destruct (Hun j ltac:(lia)) as [Hn|(u & x & Hu & Hne & Hx)].
    + left. by rewrite (cm_tables _ _ _ Hc1) by first [done|apply vpath_range].
    + right. exists u. rewrite Htr1. case_decide; eauto.
  - exists s2, low2, high2, used2, q2. split_and!.
    + cbn [for_loop]. by rewrite (bind_ok _ _ _ _ _ Hr1).
    + done.
    + by apply (calm_trans _ _ _ _ _ Hc1 Hc2).
    + rewrite Hl2, Hl1. cbn. symmetry. apply Permutation_middle.
    + intros a [Ha|Ha]%Hin2; [apply Hin1 in Ha as [?| ->]; [by left|right; left]|right; by right].
    + auto.
    + intros j w Hj E. destruct (decide (j = i)) as [->|].
      * rewrite Hne2, Htr1, decide_True; [done|done|]. intros k Hk E'. apply (Hd k); [lia|].
        transitivity (vpn w); [symmetry; exact E'|exact E].
      * apply Htr2; [lia|done].
    + intros w Hw. rewrite Hne2, Htr1, decide_False; [done|apply Hw; lia|]. intros j Hj. apply Hw. lia.
Qed.

(** ** [vmm_free] *)

(** A block that can be freed: it is recorded at [st] with as many pages as
    [fs] has frames, the pages are mapped to these frames, and the frames are
    on the list of used ones in the order of their allocation.  The free list
    has an unused node at its end, and no page of the block is the last one of
    its table. *)
Record freeable (s : kstate) (low high used : list (Z * Z)) (q : Z) (l0 : list fnode) (t : Z)
  (apre : list fnode) (an : Z) (apost : list fnode) (st : Z) (fs : list Z) : Prop := {
  fb_inv : vm_inv s low high used q (l0 ++ [(t, 0, 0)]) (apre ++ (an, st, Z.of_nat (length fs)) :: apost);
  fb_first : Forall (fun x => bstart x <> st) apre;
  fb_list : l0 <> [];
  fb_some : fs <> [];
  fb_aligned : st mod 4096 = 0;
  fb_range : free_virt_start <= st /\ st + Z.of_nat (length fs) * 4096 <= 0xFFFFFFFF80000000;
  fb_taken : Forall (disj (0, st, Z.of_nat (length fs) * 4096)) (l0 ++ [(t, 0, 0)]);
  fb_stacked : stacked fs used;
  fb_distinct : NoDup fs;
  fb_fresh : forall f, f ∈ fs -> f ∉ low.*2;
  fb_frames : Forall (returnable s (low ++ high ++ used).*1) fs;
  fb_lists : forall w f, list_word (l0 ++ [(t, 0, 0)]) (apre ++ (an, st, Z.of_nat (length fs)) :: apost) w ->
    f ∈ fs -> f < TWO_GB -> pg w <> pg (f + KERNEL_OFFSET);
  fb_mapped : forall i f, fs !! i = Some f -> translate s (st + Z.of_nat i * 4096) = Some f;
  fb_shared : forall i, 0 <= i < Z.of_nat (length fs) -> unmappable s (st + i * 4096);
}.

(** The steps of [vmm_free]: the record, the pages, the list. *)
Lemma vmm_free_run s low high used q l0 t apre an apost st fs :
  let pages := Z.of_nat (length fs) in
  let fl := l0 ++ [(t, 0, 0)] in
  freeable s low high used q l0 t apre an apost st fs ->
  exists s' low' high' used' q' fl', vmm_free st s = Ok tt s' /\
    vm_inv s' low' high' used' q' fl' (apre ++ (an, 0, 0) :: apost) /\
    low'.*2 ++ high'.*2 ≡ₚ fs ++ low.*2 ++ high.*2 /\
    (forall a, covers fl' a <-> covers fl a \/ st <= a < st + pages * 4096) /\
    (forall v, (forall i, 0 <= i < pages -> vpn v <> vpn (st + i * 4096)) -> translate s' v = translate s v) /\
    (forall i k, 0 <= i < pages -> 0 <= k < 4096 -> translate s' (st + i * 4096 + k) =
       Some (Z.land ((st + i * 4096) -64 KERNEL_OFFSET) ADDR_MASK +64 k)).
Proof.
  intros pages fl [Hvm Hapre Hl0 Hfs Hal [Hst Hend] Hdisj Hstk Hnd Hlow Hret Hlw Htr Hun]. fold pages fl in Hvm, Hend, Hdisj, Hlw, Hun.
  set (al := apre ++ (an, st, pages) :: apost) in *.
  assert (Hpg : 0 < pages) by (destruct fs; [done|unfold pages; cbn; lia]).
  destruct (vm_record s low high used q fl apre an st pages apost 0 0 Hvm) as (Hvm0 & Hp0 & Ht0).
  set (s0 := set_alloc an 0 0 s) in *.
  assert (Hm0 : mem_mono (mem s) (mem s0)) by (unfold s0, set_alloc; cbn; mono).
  destruct (unmap_pages_run st fs s0 low high used q 0) as (s1 & low1 & high1 & used1 & q1 & Hr1 & Hmm1 & Hc1 & Hl1 & Hin1 & Hsub1 & Htr1 & Hne1);
    try done.
  - apply Hvm0.
  - eapply Forall_impl; [exact Hret|]. intros f. by apply returnable_step.
  - intros j f Hj. rewrite (same_ptes_translate s s0) by done. by apply Htr.
  - intros j Hj. apply (unmappable_same s); [done|done|]. apply Hun. lia.
  - assert (Hvm1 : vm_inv s1 low1 high1 used1 q1 fl (apre ++ (an, 0, 0) :: apost)).
    { apply (vm_steps _ _ _ _ _ _ _ _ _ _ _ _ _ _ _ Hvm0 Hmm1 (calm_quiet _ _ _ low1.*2 Hc1)); [|done|done].
      intros w a Hw Ha. pose proof (mm_frames _ _ _ _ _ Hmm1) as Hfr. rewrite Forall_forall in Hfr.
      destruct (Hin1 a Ha) as [Ha'|Ha']; [by apply (vm_frames _ _ _ _ _ _ _ Hvm0)|].
      apply Hlw; [|done|apply (Hfr a Ha)]. eapply list_word_ext; [done| |exact Hw]. unfold al. by rewrite !fmap_app, !fmap_cons. }
    destruct (vm_free _ _ _ _ _ _ _ Hvm1) as [Hseg Hap Hok].
    destruct (return_block_run s1 l0 fl t st (st + pages * 4096) pages) as (s2 & l2 & Hr2 & Hfl2 & Ha2 & Hc2 & Hu2 & HP2); try done.
    { apply blocks_ok_cons. split_and!; [|done|done]. unfold block_ok, bend, bstart, bsize. cbn. unfold free_virt_start in *. lia. }
    { unfold free_virt_start in *. lia. }
    { lia. }
    destruct (vm_free_upd s1 low1 high1 used1 q1 fl _ s2 l2 Hvm1 Hu2 Hfl2 Ha2) as (Hvm2 & Hp2 & _).
    { intros a [Hca|Hca]%Hc2; [by apply (vm_space _ _ _ _ _ _ _ Hvm)|lia]. }
    { apply HP2; [done|apply Hvm]. }
    exists s2, low1, high1, used1, q1, l2. split_and!; [|done..| |].
    + unfold vmm_free. rewrite (bind_ok _ _ _ _ _ (alloc_list_find_run _ _ _ _ _ _ (vm_allocs _ _ _ _ _ _ _ Hvm) Hapre)).
      unfold pages. rewrite Nat2Z.id. rewrite (bind_ok _ _ _ _ _ Hr1). exact Hr2.
    + intros v Hv. rewrite (same_ptes_translate _ _ _ Hp2), Hne1, (same_ptes_translate _ _ _ Hp0); [done|].
      intros j Hj. apply Hv. lia.
    + intros i k Hi Hk. rewrite (same_ptes_translate _ _ _ Hp2), (Htr1 i); [|lia|unfold vpn; f_equal; dlia].
      f_equal. rewrite offset_mod. do 2 f_equal. dlia.
Qed.

(** C6. [vmm_free] on the whole machine, for a block that is [freeable]: the
    invariant holds; the first record with the start [st] has as many pages as
    [fs] has frames, at least one; the block is page aligned, in the kernel's
    range and disjoint from the free blocks; its pages are mapped to the frames
    [fs], which are distinct, on the list of used frames in the order of their
    allocation, not on the low free list, and, where they are below 2 GiB,
    pages of RAM that hold no page table, no node of the frame allocator and no
    node of the allocator's own lists; each page shares its page table with
    another mapped page, so that unmapping it frees no table; and the free list
    still ends with an unused node and has another one in front of it.  (With a
    used tail node, when all nodes of the list page are taken, the branch
    marked FIXME runs and breaks the list, see [vmm_free_full_list]; it is
    excluded here.)  Then [vmm_free] ends: exactly these frames go back to the
    free lists, the range is added to the free address space, the record of the
    block is cleared, no other page changes its mapping, and the invariant of
    all the memory managers is kept.  The freed pages stay mapped: to the
    address bits of their address less [KERNEL_OFFSET]. *)
Theorem vmm_free_returns s low high used q l0 t apre an apost st fs :
  let pages := Z.of_nat (length fs) in
  let fl := l0 ++ [(t, 0, 0)] in
  freeable s low high used q l0 t apre an apost st fs ->
  exists s' low' high' used' q' fl', vmm_free st s = Ok tt s' /\
    vm_inv s' low' high' used' q' fl' (apre ++ (an, 0, 0) :: apost) /\
    low'.*2 ++ high'.*2 ≡ₚ fs ++ low.*2 ++ high.*2 /\
    (forall a, covers fl' a <-> covers fl a \/ st <= a < st + pages * 4096) /\
    (forall v, (forall i, 0 <= i < pages -> vpn v <> vpn (st + i * 4096)) -> translate s' v = translate s v) /\
    (forall i k, 0 <= i < pages -> 0 <= k < 4096 -> translate s' (st + i * 4096 + k) =
       Some (Z.land ((st + i * 4096) -64 KERNEL_OFFSET) ADDR_MASK +64 k)).
Proof. apply vmm_free_run. Qed.

(** ** Allocating and freeing *)

(** A range in which nothing is free is disjoint from the free blocks. *)
Lemma uncovered_disj l b e : b < e -> (forall a, b <= a < e -> ~ covers l a) -> Forall block_ok l -> Forall (disj (0, b, e - b)) l.
Proof.
  intros Hbe Hc Hok. rewrite Forall_forall in *. intros x Hx. destruct (Hok x Hx) as (H1 & H2 & _).
  assert (H : forall a, b <= a < e -> ~ (bstart x <= a < bend x)).
  { intros a Ha Hin. apply (Hc a Ha). apply Exists_exists. eauto. }
  pose proof (H (Z.max b (bstart x))) as H3. unfold disj, bend, bstart, bsize in *. cbn. lia.
Qed.

(** What [vmm_alloc] returns can be freed, if each page of the block shares its
    page table with another page of the block. *)
Section alloc_free.
Context (s : kstate) (low high used : list (Z * Z)) (q : Z).
Context (pre : list fnode) (n st sz : Z) (post : list fnode) (t : Z) (apre : list fnode) (an : Z) (apost : list fnode) (pages : Z).
Let fl := pre ++ (n, st, sz) :: post ++ [(t, 0, 0)].
Hypothesis Hvm : vm_inv s low high used q fl (apre ++ (an, 0, 0) :: apost).
Hypothesis Hpre : Forall (fun x => bsize x < pages * 4096) pre.
Hypothesis Hpg : 0 < pages.
Hypothesis Hsz : pages * 4096 <= sz.
Hypothesis Hapre : Forall (fun x => ~ (bstart x = 0 /\ bsize x = 0) /\ bstart x <> st) apre.
Hypothesis Hlow : 4 * pages <= Z.of_nat (length low).
Hypothesis Hhigh : Forall high_frame high.*2.
Hypothesis Hnd : NoDup (low.*2 ++ high.*2).
Hypothesis Hid : unmapped s low.*2.
Hypothesis Hun : forall i, 0 <= i < pages -> unmappable s (st + i * 4096).
Hypothesis Hsib : forall i, 0 <= i < pages ->
  exists j, 0 <= j < pages /\ j <> i /\ vpath (st + j * 4096) = vpath (st + i * 4096).

Lemma alloc_freeable : exists s1 low1 high1 used1 l0 t1 fs ts, vmm_alloc pages s = Ok st s1 /\
  freeable s1 low1 high1 used1 q l0 t1 apre an apost st fs /\ Z.of_nat (length fs) = pages /\ Z.of_nat (length ts) <= 3 * pages /\
  fs ++ ts ++ low1.*2 ++ high1.*2 ≡ₚ low.*2 ++ high.*2 /\
  (forall a, covers fl a <-> st <= a < st + pages * 4096 \/ covers (l0 ++ [(t1, 0, 0)]) a) /\
  (forall v, (forall i, 0 <= i < pages -> vpn v <> vpn (st + i * 4096)) -> translate s1 v = translate s v).
Proof.
  assert (Ha1 : Forall (fun x => ~ (bstart x = 0 /\ bsize x = 0)) apre) by (eapply Forall_impl; [exact Hapre|]; by intros x [? ?]).
  assert (Ha2 : Forall (fun x => bstart x <> st) apre) by (eapply Forall_impl; [exact Hapre|]; by intros x [? ?]).
  destruct (vmm_alloc_run s low high used q pre n st sz (post ++ [(t, 0, 0)]) apre an apost pages)
    as (s1 & fs & us & low1 & high1 & fl1 & Hr1 & Hvm1 & Hl & Hus & Hfr & Hstk & Hret & Htr & Hne & Hc & Hd & Efl); try done;
    [by intros _ [_ ?]%app_nil|].
  assert (Hsp : forall a, st <= a < st + pages * 4096 -> free_virt_start <= a < 0xFFFFFFFF80000000).
  { intros a Ha. eapply block_space; [exact Hvm|lia]. }
  pose proof (block_aligned _ _ _ _ _ _ _ _ _ _ _ Hvm) as Hal.
  pose proof (Hsp st ltac:(lia)) as Hs0. pose proof (Hsp (st + pages * 4096 - 1) ltac:(lia)) as Hs1.
  assert (Hshape : exists l0 t', fl1 = l0 ++ [(t', 0, 0)] /\ l0 <> [] /\ (faddr <$> fl1) ≡ₚ (faddr <$> fl)).
  { rewrite Efl. unfold fl. destruct (sz =? pages * 4096).
    - exists (pre ++ post ++ [(t, 0, 0)]), n. split; [by rewrite <- !app_assoc|]. split; [by intros [_ [_ ?]%app_nil]%app_nil|].
      rewrite !fmap_app, !fmap_cons, !fmap_app. cbn. solve_Permutation.
    - exists (pre ++ (n, st + pages * 4096, sz - pages * 4096) :: post), t. split; [by rewrite <- app_assoc|].
      split; [by intros [_ ?]%app_nil|]. by rewrite !fmap_app, !fmap_cons. }
  destruct Hshape as (l0 & t' & E1 & Hl0 & Hperm). clear Efl. subst fl1.
  rewrite <- Hl in *. pose proof Hnd as Hnd1. rewrite <- Hfr in Hnd1. pose proof (stacked_sub _ _ Hstk) as Hsub.
  assert (Hin : forall f, f ∈ fs -> f ∈ us.*2) by (intros f Hf; by eapply elem_of_submseteq).
  destruct (submseteq_Permutation _ _ Hsub) as [ts Hts].
  exists s1, low1, high1, (us ++ used), l0, t', fs, ts. split; [done|]. split; [|split_and!; try done].
  2: { apply Permutation_length in Hts. rewrite length_app, length_fmap in Hts. lia. }
  2: { rewrite <- Hfr, Hts. solve_Permutation. }
  split; try done.
  - by destruct fs; [cbn in Hpg; lia|].
  - lia.
  - replace (Z.of_nat (length fs) * 4096) with (st + Z.of_nat (length fs) * 4096 - st) by lia.
    apply uncovered_disj; [lia|done|]. apply (vm_free _ _ _ _ _ _ _ Hvm1).
  - by apply stacked_more.
  - eapply NoDup_sub; [exact Hsub|]. by apply NoDup_app in Hnd1 as (? & _).
  - intros f Hf%Hin Hf'. apply NoDup_app in Hnd1 as (_ & Hx & _). apply (Hx f Hf). apply elem_of_app. by left.
  - intros w f Hw Hf Hlt. apply (vm_frames _ _ _ _ _ _ _ Hvm).
    + eapply list_word_ext; [exact Hperm| |exact Hw]. by rewrite !fmap_app, !fmap_cons.
    + assert (Hf' : f ∈ low.*2 ++ high.*2) by (rewrite <- Hfr; apply elem_of_app; left; auto).
      apply elem_of_app in Hf' as [?|Hf']; [done|]. rewrite Forall_forall in Hhigh. destruct (Hhigh f Hf'). lia.
  - intros i f Hi. rewrite <- (Z.add_0_r (st + _)), <- (Z.add_0_r f). apply Htr; [done|lia].
  - intros i Hi. destruct (Hsib i Hi) as (j & Hj & Hji & Hp). right.
    destruct (lookup_lt_is_Some_2 fs (Z.to_nat j)) as [f Hf]; [lia|].
    exists (st + j * 4096), f. split; [done|]. split.
    + intros E. apply block_vpn in E; [done|done|lia..].
    + rewrite <- (Z.add_0_r (st + _)), <- (Z.add_0_r f). rewrite <- (Z2Nat.id j) by lia. apply Htr; [done|lia].
Qed.

End alloc_free.

(** C28. Allocation and freeing are inverse.  Let the invariant hold, some free
    block be large enough (the first one starts at [st]), the free list end
    with an unused node behind it, some node of the records be unused and no
    record in front of it have the start [st]; let there be four free low
    frames for each page, all free frames be distinct, those of the high list
    lie at or above 2 GiB, no page table exist for the identity address of a
    free low frame, unmapping a page of the range free no table, and each page
    of the block share its page table with another page of the block.  Then
    [vmm_alloc] followed by [vmm_free] of the returned address ends: the free
    address space and the records of the blocks are as before, all free frames
    are free again but for at most three per page (new page tables stay), no
    other page has changed its mapping, and the invariant of all the memory managers holds again. *)
Theorem vmm_alloc_free s low high used q pre n st sz post t apre an apost pages :
  let fl := pre ++ (n, st, sz) :: post ++ [(t, 0, 0)] in
  vm_inv s low high used q fl (apre ++ (an, 0, 0) :: apost) ->
  Forall (fun x => bsize x < pages * 4096) pre -> 0 < pages -> pages * 4096 <= sz ->
  Forall (fun x => ~ (bstart x = 0 /\ bsize x = 0) /\ bstart x <> st) apre ->
  4 * pages <= Z.of_nat (length low) -> Forall high_frame high.*2 -> NoDup (low.*2 ++ high.*2) ->
  unmapped s low.*2 -> (forall i, 0 <= i < pages -> unmappable s (st + i * 4096)) ->
  (forall i, 0 <= i < pages -> exists j, 0 <= j < pages /\ j <> i /\ vpath (st + j * 4096) = vpath (st + i * 4096)) ->
  exists s1 s2 ts low' high' used' q' fl', vmm_alloc pages s = Ok st s1 /\ vmm_free st s1 = Ok tt s2 /\
    vm_inv s2 low' high' used' q' fl' (apre ++ (an, 0, 0) :: apost) /\
    (forall a, covers fl' a <-> covers fl a) /\
    Z.of_nat (length ts) <= 3 * pages /\ ts ++ low'.*2 ++ high'.*2 ≡ₚ low.*2 ++ high.*2 /\
    (forall v, (forall i, 0 <= i < pages -> vpn v <> vpn (st + i * 4096)) -> translate s2 v = translate s v).
Proof.
  intros fl Hvm Hpre Hpg Hsz Hapre Hlow Hhigh Hnd Hid Hun Hsib.
  destruct (alloc_freeable s low high used q pre n st sz post t apre an apost pages)
    as (s1 & low1 & high1 & used1 & l0 & t1 & fs & ts & Hr1 & Hfb & <- & Hts & Hfr & Hc & Hne); try done.
  destruct (vmm_free_run _ _ _ _ _ _ _ _ _ _ _ _ Hfb) as (s2 & low2 & high2 & used2 & q2 & fl2 & Hr2 & Hvm2 & Hfr2 & Hc2 & Hne2 & _).
  exists s1, s2, ts, low2, high2, used2, q2, fl2. split_and!; try done.
  - intros a. rewrite Hc2. unfold fl. rewrite Hc. tauto.
  - rewrite <- Hfr, Hfr2. solve_Permutation.
  - intros v Hv. rewrite Hne2 by done. by apply Hne.
Qed.

(** ** A machine with ten frames *)

Lemma big_tested : machine_test 10 (machine_state 10) = true.
Proof. vm_compute. reflexivity. Qed.

Definition big_low : list (Z * Z) := drop 2 (machine_low 10).

Lemma big_vm : exists s, vmm_init (machine_state 10) = Ok tt s /\
  vm_inv s big_low [] (reverse (take 2 (machine_low 10))) 0
    ([] ++ (0x2000 + KERNEL_OFFSET, free_virt_start, 0xFFFFFFFF80000000 - free_virt_start) ::
      unused 32 (0x2000 + KERNEL_OFFSET) 126 ++ [(0x2000 + KERNEL_OFFSET + 32 * 127, 0, 0)])
    ([] ++ (0x3000 + KERNEL_OFFSET, 0, 0) :: unused 24 (0x3000 + KERNEL_OFFSET) 168) /\
  forall v, tbl (mem s) (pml4_addr s) (vpath v) = None.
Proof.
  pose proof (vmm_init_ready (machine_state 10) (paging_node 0) 0x2000 (paging_node 1) 0x3000 big_low [] [] 0
    (tested_inv 10 _ big_tested)) as (s & Hr & Hvm & _ & Ht).
  exists s. split; [exact Hr|]. split; [exact Hvm|]. intros v. rewrite (Ht (vpath v) ltac:(done) (vpath_range v)).
  apply (tested_no_table 10 _ big_tested); [apply vpath_range|done].
Qed.

(** The hypotheses of the two theorems for two pages. *)
Lemma big_alloc s (Hno : forall v, tbl (mem s) (pml4_addr s) (vpath v) = None) :
  4 * 2 <= Z.of_nat (length big_low) /\ Forall high_frame ([] : list (Z * Z)).*2 /\ NoDup (big_low.*2 ++ ([] : list (Z * Z)).*2) /\
  unmapped s big_low.*2 /\ (forall i, 0 <= i < 2 -> unmappable s (free_virt_start + i * 4096)) /\
  forall i, 0 <= i < 2 -> exists j, 0 <= j < 2 /\ j <> i /\ vpath (free_virt_start + j * 4096) = vpath (free_virt_start + i * 4096).
Proof.
  split_and!; [vdecide|constructor|vdecide|by intros a _|by intros i _; left|].
  intros i Hi. exists (1 - i). split; [lia|]. split; [lia|]. assert (i = 0 \/ i = 1) as [->| ->] by lia; vm_compute; reflexivity.
Qed.

Lemma vmm_free_returns_witness :
  exists s s1 fs s2 low' high' used' q' fl', vmm_init (machine_state 10) = Ok tt s /\ vmm_alloc 2 s = Ok free_virt_start s1 /\
    vmm_free free_virt_start s1 = Ok tt s2 /\ length fs = 2%nat /\ (forall f, f ∈ fs -> f ∈ low'.*2 ++ high'.*2) /\
    vm_inv s2 low' high' used' q' fl' (no_blocks (0x3000 + KERNEL_OFFSET)).
Proof.
  destruct big_vm as (s & Hr & Hvm & Hno). destruct (big_alloc s Hno) as (H1 & H2 & H3 & H4 & H5 & H6).
  destruct (alloc_freeable s big_low [] _ 0 [] _ _ _ _ _ [] _ _ 2 Hvm) as (s1 & low1 & high1 & used1 & l0 & t1 & fs & ts & Hr1 & Hfb & Hl & _);
    [constructor|lia|unfold free_virt_start; lia|constructor|exact H1|exact H2|exact H3|exact H4|exact H5|exact H6|].
  destruct (vmm_free_returns s1 low1 high1 used1 0 l0 t1 [] (0x3000 + KERNEL_OFFSET) _ free_virt_start fs Hfb)
    as (s2 & low' & high' & used' & q' & fl' & Hr2 & Hvm2 & Hfr & _).
  exists s, s1, fs, s2, low', high', used', q', fl'. split; [exact Hr|]. split; [exact Hr1|]. split; [exact Hr2|].
  split; [lia|]. split; [|exact Hvm2]. intros f Hf. rewrite Hfr. apply elem_of_app. by left.
Defined.

Lemma vmm_alloc_free_witness :
  exists s s1 s2 low' high' used' q' fl', vmm_init (machine_state 10) = Ok tt s /\ vmm_alloc 2 s = Ok free_virt_start s1 /\
    vmm_free free_virt_start s1 = Ok tt s2 /\
    vm_inv s2 low' high' used' q' fl' (no_blocks (0x3000 + KERNEL_OFFSET)) /\
    (forall a, covers fl' a <-> covers (whole_space (0x2000 + KERNEL_OFFSET)) a).
Proof.
  destruct big_vm as (s & Hr & Hvm & Hno). destruct (big_alloc s Hno) as (H1 & H2 & H3 & H4 & H5 & H6).
  destruct (vmm_alloc_free s big_low [] _ 0 [] _ _ _ _ _ [] _ _ 2 Hvm)
    as (s1 & s2 & ts & low' & high' & used' & q' & fl' & Hr1 & Hr2 & Hvm2 & Hc & _);
    [constructor|lia|unfold free_virt_start; lia|constructor|exact H1|exact H2|exact H3|exact H4|exact H5|exact H6|].
  exists s, s1, s2, low', high', used', q', fl'. split; [exact Hr|]. split; [exact Hr1|]. split; [exact Hr2|].
  split; [exact Hvm2|exact Hc].
Defined.

(** When every node of the list page is in use, a block that cannot be merged
    gets a node of a new page, which is linked behind the old tail; but its
    first node has no link back, so that removing that node later makes its
    successor the head of the list and loses all blocks in front of it. *)
Example vmm_free_full_list :
  match (vmm_init;;
    tail ← gets vmm_tail;
    wr (f_start tail) free_virt_start;;
    wr (f_size tail) 0x1000;;
    push_block tail (free_virt_start + 0x10000) 1;;
    page ← rd (f_next tail);
    prev ← rd (f_prev page);
    mret (page, prev)) (machine_state 10)
  with Ok (page, prev) s => page <> 0 /\ page <> vmm_head s /\ prev = 0 | _ => False end.
Proof. vm_compute. by split_and!. Qed.

End VmmFree.
