(* ===== verification/VMalloc.v ===== *)
(** * mem/vmalloc.c: the kernel heap

    The heap lives in virtual memory, which is a finite map from addresses to
    bytes whose domain is the mapped memory; an access outside is a [Fault].
    64-bit fields are little endian.  The allocator of virtual pages is an
    interface: [vmm_alloc] maps pages, [vmm_free] unmaps them. *)

From S2P Require Import Prelude KMath.
Import KMath.

Module VMalloc.

(** What the heap uses of mem/vmm.c. *)
Class VmmIface (VS : Type) := {
  vmm_alloc : Z -> M (gmap Z Z * VS) Z;
  vmm_free : Z -> M (gmap Z Z * VS) unit;
}.

Record heap (VS : Type) := Heap {
  bytes : gmap Z Z;
  vmm : VS;
  heap_head : Z;
  heap_tail : Z;
}.
Arguments Heap {VS} bytes vmm heap_head heap_tail.
Arguments bytes {VS} h.
Arguments vmm {VS} h.
Arguments heap_head {VS} h.
Arguments heap_tail {VS} h.

Section vmalloc.
Context {VS : Type} `{!VmmIface VS}.
Notation H := (M (heap VS)).

Definition set_bytes (f : gmap Z Z -> gmap Z Z) (h : heap VS) : heap VS :=
  Heap (f (bytes h)) (vmm h) (heap_head h) (heap_tail h).
Definition set_heap_head (v : Z) (h : heap VS) : heap VS := Heap (bytes h) (vmm h) v (heap_tail h).
Definition set_heap_tail (v : Z) (h : heap VS) : heap VS := Heap (bytes h) (vmm h) (heap_head h) v.

(** A call into the virtual memory allocator. *)
Definition call_vmm {A} (c : M (gmap Z Z * VS) A) : H A := fun h =>
  match c (bytes h, vmm h) with
  | Ok a (b, v) => Ok a (Heap b v (heap_head h) (heap_tail h))
  | Panic msg => Panic msg
  | Fault => Fault
  | OutOfFuel => OutOfFuel
  end.

(** Loads and stores of a byte and of a 64-bit little-endian word. *)
Definition rd8 (a : Z) : H Z := fun h =>
  match bytes h !! a with Some v => Ok v h | None => Fault end.
Definition wr8 (a v : Z) : H unit := fun h =>
  match bytes h !! a with
  | Some _ => Ok tt (set_bytes (insert a (u8 v)) h)
  | None => Fault
  end.
Fixpoint rdn (n : nat) (a : Z) : H Z :=
  match n with
  | O => mret 0
  | S n' => b ← rd8 a; r ← rdn n' (a + 1); mret (b + 256 * r)
  end.
Fixpoint wrn (n : nat) (a v : Z) : H unit :=
  match n with
  | O => mret tt
  | S n' => wr8 a (v mod 256);; wrn n' (a + 1) (v / 256)
  end.
Definition rd64 (a : Z) : H Z := rdn 8 a.
Definition wr64 (a v : Z) : H unit := wrn 8 a v.

(** [SET_BIT], [UNSET_BIT] and [QUERY_BIT] *)
Definition SET_BIT (num pos : Z) : Z := u8 (Z.lor num (Z.shiftl 1 (7 - pos))).
Definition UNSET_BIT (num pos : Z) : Z := u8 (Z.land num (u64 (Z.lnot (Z.shiftl 1 (7 - pos))))).
Definition QUERY_BIT (num pos : Z) : bool := negb (Z.land (Z.shiftr num (7 - pos)) 1 =? 0).

Definition SECTION_SIZE : Z := 8.
Definition PAGE_SIZE : Z := 4096.

(** [struct HeapBitmapNode] and [struct HeapBlockHeader] *)
Definition h_next (n : Z) : Z := n.
Definition h_bitmap_size (n : Z) : Z := n + 8.
Definition h_total_size (n : Z) : Z := n + 16.
Definition h_mem (n : Z) : Z := n + 24.
Definition sizeof_header : Z := 8.

(** [ceil_u64_div] by a constant divisor *)
Definition ceil_div (a d : Z) : H Z := lift_opt (ceil_u64_div a d).

Definition add_block (wanted_sections : Z) : H unit :=
  let bitmap_size_bits := wanted_sections in
  bitmap_size_bytes ← ceil_div bitmap_size_bits 8;
  let data_size_bytes := wanted_sections *64 SECTION_SIZE in
  let block_total := data_size_bytes +64 bitmap_size_bytes in
  pages ← ceil_div block_total PAGE_SIZE;
  addr ← call_vmm (vmm_alloc pages);
  wr64 (h_next addr) 0;;
  wr64 (h_total_size addr) block_total;;
  wr64 (h_bitmap_size addr) bitmap_size_bits;;
  for_loop (Z.to_nat bitmap_size_bytes) 0 (fun i => wr8 (h_mem addr + i) 0);;
  head ← gets heap_head;
  tail ← gets heap_tail;
  if (head =? 0) && (tail =? 0) then
    modify (set_heap_head addr);;
    modify (set_heap_tail addr)
  else
    wr64 (h_next tail) addr;;
    modify (set_heap_tail addr).

Definition vmalloc_init : H unit := add_block 504.

(** [SET_BIT(node->mem[index], i)] or [UNSET_BIT] for the bits from [i] on *)
Definition put_bit (used : bool) (a i : Z) : H unit :=
  v ← rd8 a; wr8 a (if used then SET_BIT v i else UNSET_BIT v i).

(** The middle loop counts with a [u32], which is always below an end of 2^32 or
    more: then it does not end. *)
Definition mark_bitmap (node start bits : Z) (used : bool) : H unit :=
  let start_index := start / 8 in
  let start_bit := start mod 8 in
  let end_index := (start +64 bits -64 1) / 8 in
  let end_bit := (start +64 bits -64 1) mod 8 in
  if start_index =? end_index then
    for_loop (Z.to_nat (end_bit + 1 - start_bit)) start_bit (put_bit used (h_mem node + start_index))
  else
    for_loop (Z.to_nat (8 - start_bit)) start_bit (put_bit used (h_mem node + start_index));;
    (if W32 <=? end_index then out_of_fuel else
     for_loop (Z.to_nat (end_index - (start_index + 1))) (start_index + 1)
       (fun i => wr8 (h_mem node + i) (if used then 0xFF else 0)));;
    for_loop (Z.to_nat (end_bit + 1)) 0 (put_bit used (h_mem node + end_index)).

Definition get_block_size (mem : Z) : H Z := rd64 (mem -64 sizeof_header).

(** the bit loop of [vmalloc]: the first section of a run of [need] unused ones *)
Fixpoint scan (fuel : nat) (cur bitmap_size need i sections_found block_start : Z) : H (option Z) :=
  match fuel with
  | O => out_of_fuel
  | S fuel' =>
    if i <? bitmap_size then
      b ← rd8 (h_mem cur + i / 8);
      if QUERY_BIT b (i mod 8) then
        (if 0 =? need then mret (Some block_start)
         else scan fuel' cur bitmap_size need (i + 1) 0 block_start)
      else
        let block_start := if sections_found =? 0 then i else block_start in
        skip ← (if (i mod 8 =? 0) && (i <? bitmap_size -64 64) && (sections_found +64 64 <? need)
                then w ← rd64 (h_mem cur + i / 8); mret (w =? 0)
                else mret false);
        if skip : bool then scan fuel' cur bitmap_size need (i + 64) (sections_found + 64) block_start
        else if sections_found + 1 =? need then mret (Some block_start)
        else scan fuel' cur bitmap_size need (i + 1) (sections_found + 1) block_start
    else mret None
  end.

(** the node loop of [vmalloc] *)
Fixpoint find_space (fuel : nat) (cur need : Z) : H (option Z) :=
  match fuel with
  | O => out_of_fuel
  | S fuel' =>
    if cur =? 0 then mret None else
    bitmap_size ← rd64 (h_bitmap_size cur);
    r ← scan (S (Z.to_nat bitmap_size)) cur bitmap_size need 0 0 0;
    match r with
    | Some block_start =>
      mark_bitmap cur block_start need true;;
      bitmap_size ← rd64 (h_bitmap_size cur);
      bitmap_bytes ← ceil_div bitmap_size 8;
      let addr := h_mem cur +64 bitmap_bytes +64 (block_start *64 SECTION_SIZE) in
      wr64 addr need;;
      mret (Some (addr +64 sizeof_header))
    | None => next ← rd64 (h_next cur); find_space fuel' next need
    end
  end.

(** Fuel for a walk over the heap's nodes: they have different addresses. *)
Definition heap_fuel (h : heap VS) : nat := S (size (bytes h)).

Fixpoint vmalloc_rec (calls : nat) (size : Z) : H Z :=
  let size := size +64 sizeof_header in
  sections_needed ← ceil_div size SECTION_SIZE;
  head ← gets heap_head;
  fuel ← gets heap_fuel;
  r ← find_space fuel head sections_needed;
  match r with
  | Some addr => mret addr
  | None =>
    num_pages ← ceil_div size 4032;
    add_block (num_pages *64 504);;
    match calls with
    | O => out_of_fuel
    | S calls' => vmalloc_rec calls' size
    end
  end.

(** A second block always has room for the request, see [vmalloc_calls]. *)
Definition vmalloc (size : Z) : H Z := vmalloc_rec 2 size.

(** util/misc.c, on the heap's memory *)
Definition heap_memset (ptr value num : Z) : H unit :=
  for_loop (Z.to_nat num) 0 (fun i => wr8 (ptr + i) value).
Definition heap_memcpy (destination source num : Z) : H unit :=
  for_loop (Z.to_nat num) 0 (fun i => v ← rd8 (source + i); wr8 (destination + i) v).

Definition vcalloc (size : Z) : H Z :=
  mem ← vmalloc size;
  heap_memset mem 0 size;;
  mret mem.

Fixpoint all_unused (n : nat) (i node : Z) : H bool :=
  match n with
  | O => mret true
  | S n' => b ← rd8 (h_mem node + i); if b =? 0 then all_unused n' (i + 1) node else mret false
  end.

Definition release_if_unused (prev node : Z) : H unit :=
  if prev =? node then mret tt else
  pn ← rd64 (h_next prev);
  if negb (pn =? node) then panic "vmalloc: assertion failed!" else
  bitmap_size ← rd64 (h_bitmap_size node);
  bitmap_bytes ← ceil_div bitmap_size 8;
  unused ← all_unused (Z.to_nat bitmap_bytes) 0 node;
  if negb unused then mret tt else
  next ← rd64 (h_next node);
  wr64 (h_next prev) next;;
  tail ← gets heap_tail;
  (if tail =? node then modify (set_heap_tail prev) else mret tt);;
  call_vmm (vmm_free node).

(** the node loop of [vfree] *)
Fixpoint vfree_walk (fuel : nat) (mem size cur prev : Z) : H unit :=
  match fuel with
  | O => out_of_fuel
  | S fuel' =>
    if cur =? 0 then panic "vfree: something is very wrong" else
    total_size ← rd64 (h_total_size cur);
    bitmap_bits ← rd64 (h_bitmap_size cur);
    bitmap_size ← ceil_div bitmap_bits 8;
    let cur_addr := h_mem cur in
    if (cur_addr +64 bitmap_size <=? mem) && (mem <=? cur_addr +64 total_size) then
      let bitmap_offset := (mem -64 (cur_addr +64 bitmap_size)) / SECTION_SIZE in
      mark_bitmap cur bitmap_offset size false;;
      release_if_unused prev cur
    else
      head ← gets heap_head;
      prev ← (if negb (cur =? head) then rd64 (h_next prev) else mret prev);
      cur ← rd64 (h_next cur);
      vfree_walk fuel' mem size cur prev
  end.

Definition vfree (mem : Z) : H unit :=
  size ← get_block_size mem;
  let mem := mem -64 sizeof_header in
  head ← gets heap_head;
  fuel ← gets heap_fuel;
  vfree_walk fuel mem size head head.

Definition vrealloc (ptr new_size : Z) : H Z :=
  sections ← get_block_size ptr;
  let old_size := sections *64 SECTION_SIZE in
  new_ptr ← vmalloc new_size;
  heap_memcpy new_ptr ptr (u64_min old_size new_size);;
  vfree ptr;;
  mret new_ptr.

End vmalloc.

End VMalloc.
