(* ===== verification/HeapMem.v ===== *)
(** * Lemmas on the heap's memory and bitmaps

    Multi-byte loads and stores as functions of the byte map, and the bitmap of
    a heap node as a function from section numbers to booleans. *)

From S2P Require Import Prelude KMath VMalloc.
Import KMath VMalloc.

Module HeapMem.

Fixpoint getn (n : nat) (m : gmap Z Z) (a : Z) : option Z :=
  match n with
  | O => Some 0
  | S n' => b ← m !! a; r ← getn n' m (a + 1); Some (b + 256 * r)
  end.
Fixpoint putn (n : nat) (m : gmap Z Z) (a v : Z) : gmap Z Z :=
  match n with
  | O => m
  | S n' => putn n' (<[a:=v mod 256]> m) (a + 1) (v / 256)
  end.
Definition get64 (m : gmap Z Z) (a : Z) : option Z := getn 8 m a.
Definition put64 (m : gmap Z Z) (a v : Z) : gmap Z Z := putn 8 m a v.
#[global] Arguments get64 : simpl never.
#[global] Arguments put64 : simpl never.

(** All of the [n] bytes from [a] on are mapped. *)
Definition mapped (m : gmap Z Z) (a n : Z) : Prop := forall i, a <= i < a + n -> is_Some (m !! i).

Lemma getn_ext n m m' a :
  (forall i, a <= i < a + Z.of_nat n -> m' !! i = m !! i) -> getn n m' a = getn n m a.
Proof.
  revert a. induction n as [|n IH]; intros a Hm; cbn; [done|].
  rewrite Hm, IH by (lia || (intros; apply Hm; lia)). done.
Qed.

Lemma putn_out n m a v i : i < a \/ a + Z.of_nat n <= i -> putn n m a v !! i = m !! i.
Proof.
  revert m a v. induction n as [|n IH]; intros m a v Hi; cbn; [done|].
  rewrite IH by lia. apply lookup_insert_ne. lia.
Qed.

Lemma getn_putn n m a v : 0 <= v < 256 ^ Z.of_nat n -> getn n (putn n m a v) a = Some v.
Proof.
  revert m a v. induction n as [|n IH]; intros m a v Hv; cbn [getn putn].
  { cbn in Hv. f_equal. lia. }
  rewrite putn_out, lookup_insert_eq by lia. cbn.
  assert (256 ^ Z.of_nat (S n) = 256 * 256 ^ Z.of_nat n) as E by (rewrite Nat2Z.inj_succ, Z.pow_succ_r by lia; done).
  rewrite IH by (split; [apply Z.div_pos; lia|apply Z.div_lt_upper_bound; lia]). cbn. f_equal.
  pose proof (Z.div_mod v 256). lia.
Qed.

Lemma putn_mapped n m a v b k : mapped m b k -> mapped (putn n m a v) b k.
Proof.
  revert m a v. induction n as [|n IH]; intros m a v Hm; cbn; [done|]. apply IH.
  intros i Hi. rewrite lookup_insert. case_decide; eauto.
Qed.

Lemma getn_mapped n m a : mapped m a (Z.of_nat n) -> is_Some (getn n m a).
Proof.
  revert a. induction n as [|n IH]; intros a Hm; cbn; [eauto|].
  destruct (Hm a) as [v ->]; [lia|]. cbn. destruct (IH (a + 1)) as [r ->]; [|cbn; eauto].
  intros i Hi. apply Hm. lia.
Qed.

Definition wf_bytes (m : gmap Z Z) : Prop := map_Forall (fun _ v => 0 <= v < 256) m.

Lemma wf_insert m a v : wf_bytes m -> 0 <= v < 256 -> wf_bytes (<[a:=v]> m).
Proof. intros. by apply map_Forall_insert_2. Qed.

Lemma wf_putn n m a v : wf_bytes m -> wf_bytes (putn n m a v).
Proof.
  revert m a v. induction n as [|n IH]; intros m a v Hm; cbn; [done|]. apply IH, wf_insert; [done|].
  apply Z.mod_pos_bound. lia.
Qed.

(** A word is zero iff its bytes are. *)
Lemma getn_zero n m a : wf_bytes m ->
  getn n m a = Some 0 -> forall i, a <= i < a + Z.of_nat n -> m !! i = Some 0.
Proof.
  intros Hwf. revert a. induction n as [|n IH]; intros a Hg i Hi; [lia|]. cbn in Hg.
  destruct (m !! a) as [b|] eqn:Hb; [|done]. cbn in Hg.
  destruct (getn n m (a + 1)) as [r|] eqn:Hr; [|done]. cbn in Hg. injection Hg as Hg.
  assert (0 <= r).
  { clear -Hwf Hr. revert a r Hr. induction n as [|n IH]; intros a r; cbn; [intros [= <-]; lia|].
    destruct (m !! (a + 1)) as [b|] eqn:Hb; [|done]. cbn. pose proof (Hwf _ _ Hb).
    destruct (getn n m (a + 1 + 1)) as [r'|] eqn:Hr'; [|done]. cbn. intros [= <-].
    pose proof (IH _ _ Hr'). cbn in *. lia. }
  pose proof (Hwf _ _ Hb). cbn in *. assert (b = 0) as -> by lia. assert (r = 0) as -> by lia.
  destruct (decide (i = a)) as [->|]; [done|]. apply (IH (a + 1)); [done|lia].
Qed.

Section ops.
Context {VS : Type} `{!VmmIface VS}.
Implicit Types h : heap VS.

Lemma rdn_run n a h : rdn n a h = match getn n (bytes h) a with Some v => Ok v h | None => Fault end.
Proof.
  revert a. induction n as [|n IH]; intros a; cbn; [done|]. unfold mbind, M_bind, rd8.
  destruct (bytes h !! a); cbn; [|done]. rewrite IH. by destruct (getn n (bytes h) (a + 1)).
Qed.

Lemma wrn_run n a v h : mapped (bytes h) a (Z.of_nat n) ->
  wrn n a v h = Ok tt (set_bytes (fun m => putn n m a v) h).
Proof.
  revert a v h. induction n as [|n IH]; intros a v h Hm; cbn; [by destruct h|].
  unfold mbind, M_bind, wr8. destruct (Hm a) as [b Hb]; [lia|]. rewrite Hb.
  rewrite IH.
  - unfold set_bytes, u8. cbn. by rewrite Z.mod_mod by lia.
  - intros i Hi. cbn. rewrite lookup_insert. case_decide; [eauto|]. apply Hm. lia.
Qed.

Lemma rd64_run a v h : get64 (bytes h) a = Some v -> rd64 a h = Ok v h.
Proof. intros Hg. unfold rd64. rewrite rdn_run. unfold get64 in Hg. by rewrite Hg. Qed.

Lemma wr64_run a v h : mapped (bytes h) a 8 -> wr64 a v h = Ok tt (set_bytes (fun m => put64 m a v) h).
Proof. intros Hm. by apply (wrn_run 8). Qed.
End ops.

(** ** Bits of a byte *)

Lemma QUERY_testbit v q : QUERY_BIT v q = Z.testbit v (7 - q).
Proof.
  unfold QUERY_BIT. change 1 with (Z.ones 1). rewrite Z.land_ones by lia. rewrite <- Z.bit0_mod.
  rewrite Z.shiftr_spec by lia. replace (0 + (7 - q)) with (7 - q) by lia. by destruct (Z.testbit v (7 - q)).
Qed.

Lemma testbit_u8 x i : 0 <= i -> Z.testbit (u8 x) i = (i <? 8) && Z.testbit x i.
Proof.
  intros Hi. unfold u8. change W8 with (2 ^ 8). destruct (Z.ltb_spec i 8); cbn.
  - apply Z.mod_pow2_bits_low. lia.
  - apply Z.mod_pow2_bits_high. lia.
Qed.

Lemma QUERY_SET v p q : 0 <= p < 8 -> 0 <= q < 8 ->
  QUERY_BIT (SET_BIT v p) q = if decide (q = p) then true else QUERY_BIT v q.
Proof.
  intros Hp Hq. rewrite !QUERY_testbit. unfold SET_BIT. rewrite testbit_u8 by lia.
  rewrite Z.lor_spec, Z.shiftl_spec by lia. replace (7 - q <? 8) with true by (symmetry; lia). cbn.
  case_decide as E.
  - subst. replace (7 - p - (7 - p)) with 0 by lia. apply orb_true_r.
  - destruct (decide (7 - q - (7 - p) < 0)).
    + rewrite (Z.testbit_neg_r 1) by lia. apply orb_false_r.
    + assert (0 < 7 - q - (7 - p)) by lia. rewrite (Z.bits_above_log2 1); [apply orb_false_r|lia|cbn; lia].
Qed.

Lemma QUERY_UNSET v p q : 0 <= p < 8 -> 0 <= q < 8 ->
  QUERY_BIT (UNSET_BIT v p) q = if decide (q = p) then false else QUERY_BIT v q.
Proof.
  intros Hp Hq. rewrite !QUERY_testbit. unfold UNSET_BIT. rewrite testbit_u8 by lia.
  rewrite Z.land_spec, testbit_u64, Z.lnot_spec, Z.shiftl_spec by lia.
  replace (7 - q <? 8) with true by (symmetry; lia). replace (7 - q <? 64) with true by (symmetry; lia). cbn.
  case_decide as E.
  - subst. replace (7 - p - (7 - p)) with 0 by lia. apply andb_false_r.
  - destruct (decide (7 - q - (7 - p) < 0)).
    + rewrite (Z.testbit_neg_r 1) by lia. apply andb_true_r.
    + assert (0 < 7 - q - (7 - p)) by lia. rewrite (Z.bits_above_log2 1); [apply andb_true_r|lia|cbn; lia].
Qed.

End HeapMem.
