(* ===== verification/HeapOps.v ===== *)
(** * The bitmap operations of mem/vmalloc.c

    [mark_bitmap] sets exactly the bits it is asked to; the bit loop of
    [vmalloc], with its 64-bit shortcut, finds what the plain loop finds. *)

From S2P Require Import Prelude KMath VMalloc HeapMem.
Import KMath VMalloc HeapMem.

Module HeapOps.

(** Is section [j] of the bitmap at address [b] marked as used? *)
Definition bitmap (m : gmap Z Z) (b j : Z) : bool :=
  match m !! (b + j / 8) with Some v => QUERY_BIT v (j mod 8) | None => false end.

Section ops.
Context {VS : Type} `{!VmmIface VS}.
Implicit Types h : heap VS.

Lemma put_bits_run (used : bool) a v : forall k i h,
  bytes h !! a = Some v -> 0 <= v < 256 -> 0 <= i -> i + Z.of_nat k <= 8 ->
  exists v', for_loop k i (put_bit used a) h = Ok tt (set_bytes (insert a v') h) /\ 0 <= v' < 256 /\
    forall q, 0 <= q < 8 ->
      QUERY_BIT v' q = if decide (i <= q < i + Z.of_nat k) then used else QUERY_BIT v q.
Proof.
  intros k. revert v. induction k as [|k IH]; intros v i h Hv Hvr Hi Hk.
  - exists v. split; [|split; [done|]].
    + cbn. unfold set_bytes. rewrite insert_id by done. by destruct h.
    + intros q Hq. by rewrite decide_False by lia.
  - set (v1 := if used then SET_BIT v i else UNSET_BIT v i).
    assert (Hv1 : 0 <= v1 < 256) by (unfold v1, SET_BIT, UNSET_BIT; destruct used; apply u8_range).
    destruct (IH v1 (i + 1) (set_bytes (insert a v1) h)) as (v' & Hr & Hv' & Hq); [cbn; apply lookup_insert_eq|done|lia|lia|].
    exists v'. split; [|split; [done|]].
    + cbn [for_loop]. unfold mbind at 1, M_bind at 1. unfold put_bit at 1, mbind at 1, M_bind at 1, rd8, wr8.
      rewrite Hv, Hv. fold v1. rewrite (u8_small v1) by done. rewrite Hr.
      unfold set_bytes. cbn. by rewrite insert_insert_eq.
    + intros q Hqr. rewrite Hq by done. unfold v1.
      destruct (decide (q = i)) as [->|Hne].
      * rewrite decide_False, decide_True by lia.
        destruct used; [rewrite QUERY_SET|rewrite QUERY_UNSET]; try lia; by rewrite decide_True.
      * assert ((if used then SET_BIT v i else UNSET_BIT v i) = v1) as -> by done.
        assert (QUERY_BIT v1 q = QUERY_BIT v q) as ->.
        { unfold v1. destruct used; [rewrite QUERY_SET|rewrite QUERY_UNSET]; try lia; by rewrite decide_False. }
        do 2 case_decide; done || lia.
Qed.

Lemma fill_run b c : forall k i h,
  mapped (bytes h) (b + i) (Z.of_nat k) ->
  exists m', for_loop k i (fun i => wr8 (b + i) c) h = Ok tt (set_bytes (fun _ => m') h) /\
    forall x, m' !! x = if decide (b + i <= x < b + i + Z.of_nat k) then Some (u8 c) else bytes h !! x.
Proof.
  induction k as [|k IH]; intros i h Hm.
  - exists (bytes h). split; [by destruct h|]. intros x. by rewrite decide_False by lia.
  - destruct (Hm (b + i)) as [v Hv]; [lia|].
    destruct (IH (i + 1) (set_bytes (insert (b + i) (u8 c)) h)) as (m' & Hr & Hx).
    { intros x Hx. cbn. rewrite lookup_insert. case_decide; [eauto|]. apply Hm. lia. }
    exists m'. split.
    + cbn [for_loop]. unfold mbind, M_bind. unfold wr8 at 1. by rewrite Hv, Hr.
    + intros x. rewrite Hx. cbn. do 2 case_decide; try done || lia.
      * assert (x = b + i) as -> by lia. apply lookup_insert_eq.
      * apply lookup_insert_ne. lia.
Qed.

(** The bits of a bitmap after byte [k] has been replaced. *)
Lemma bitmap_insert m b k v j : 0 <= j ->
  bitmap (<[b + k:=v]> m) b j = if decide (j / 8 = k) then QUERY_BIT v (j mod 8) else bitmap m b j.
Proof.
  intros Hj. unfold bitmap. case_decide as E; [subst; by rewrite lookup_insert_eq|].
  rewrite lookup_insert_ne by lia. done.
Qed.

(** The effect [mark_bitmap] is to have. *)
Record marked (m m' : gmap Z Z) (b start bits : Z) (used : bool) : Prop := {
  mk_bits : forall j, 0 <= j ->
    bitmap m' b j = if decide (start <= j < start + bits) then used else bitmap m b j;
  mk_out : forall x, x < b + start / 8 \/ b + (start + bits - 1) / 8 < x -> m' !! x = m !! x;
  mk_dom : forall x, is_Some (m !! x) -> is_Some (m' !! x);
  mk_wf : wf_bytes m';
}.

Lemma marked_dom m m' b start bits used a k : marked m m' b start bits used -> mapped m a k -> mapped m' a k.
Proof. intros Hm Hk i Hi. by apply (mk_dom _ _ _ _ _ _ Hm), Hk. Qed.

(** Marking within one byte. *)
Lemma mark_byte m b start bits used v v' :
  wf_bytes m -> 0 <= start -> 0 < bits -> start / 8 = (start + bits - 1) / 8 ->
  m !! (b + start / 8) = Some v -> 0 <= v' < 256 ->
  (forall q, 0 <= q < 8 -> QUERY_BIT v' q =
     if decide (start mod 8 <= q < start mod 8 + bits) then used else QUERY_BIT v q) ->
  marked m (<[b + start / 8:=v']> m) b start bits used.
Proof.
  intros Hwf Hs Hb E Hv Hv' Hq. split.
  - intros j Hj. rewrite bitmap_insert by done. case_decide as Hd.
    + rewrite Hq by (apply Z.mod_pos_bound; lia). unfold bitmap. rewrite Hd, Hv.
      pose proof (Z.div_mod start 8). pose proof (Z.div_mod j 8).
      do 2 case_decide; done || lia.
    + rewrite decide_False; [done|]. intros Hc. apply Hd. clear -Hc E Hb. dlia.
  - intros x Hx. apply lookup_insert_ne. lia.
  - intros x Hx. rewrite lookup_insert. case_decide; eauto.
  - by apply wf_insert.
Qed.

(** Consecutive markings compose. *)
Lemma marked_trans m m1 m2 b start k1 k2 used :
  0 <= start -> 0 < k1 -> 0 < k2 ->
  marked m m1 b start k1 used -> marked m1 m2 b (start + k1) k2 used -> marked m m2 b start (k1 + k2) used.
Proof.
  intros Hs H1 H2 [A1 A2 A3 _] [B1 B2 B3 B4]. split; [|..|done].
  - intros j Hj. rewrite B1, A1 by done. repeat case_decide; done || lia.
  - intros x Hx. rewrite B2, A2; [done|..]; clear -Hx H1 H2 Hs; Z.div_mod_to_equations; lia.
  - eauto.
Qed.

Lemma QUERY_full (used : bool) q : 0 <= q < 8 -> QUERY_BIT (u8 (if used then 0xFF else 0)) q = used.
Proof.
  intros Hq. assert (q = 0 \/ q = 1 \/ q = 2 \/ q = 3 \/ q = 4 \/ q = 5 \/ q = 6 \/ q = 7) as Hc by lia.
  destruct used; repeat (destruct Hc as [->|Hc]; [done|]); by rewrite Hc.
Qed.

(** Writing whole bytes. *)
Lemma mark_fill m m' b i k (used : bool) :
  wf_bytes m -> 0 <= i -> 0 < k ->
  mapped m (b + i) k ->
  (forall x, m' !! x = if decide (b + i <= x < b + i + k) then Some (u8 (if used then 0xFF else 0)) else m !! x) ->
  marked m m' b (8 * i) (8 * k) used.
Proof.
  intros Hwf Hi Hk Hm Hx. split.
  - intros j Hj. unfold bitmap. rewrite Hx. pose proof (Z.div_mod j 8).
    repeat case_decide; try done; try (apply QUERY_full, Z.mod_pos_bound; lia); exfalso; dlia.
  - intros x Ho. rewrite Hx. rewrite decide_False; [done|]. clear -Ho Hk. dlia.
  - intros x Hs. rewrite Hx. case_decide; eauto.
  - intros x v. rewrite Hx. case_decide; [|apply Hwf]. intros [= <-]. apply u8_range.
Qed.

Lemma put_bits_marked (used : bool) h b start bits :
  wf_bytes (bytes h) -> 0 <= start -> 0 < bits -> start / 8 = (start + bits - 1) / 8 ->
  is_Some (bytes h !! (b + start / 8)) ->
  exists m', for_loop (Z.to_nat bits) (start mod 8) (put_bit used (b + start / 8)) h =
      Ok tt (set_bytes (fun _ => m') h) /\ marked (bytes h) m' b start bits used.
Proof.
  intros Hwf Hs Hb E [v Hv].
  destruct (put_bits_run used (b + start / 8) v (Z.to_nat bits) (start mod 8) h) as (v' & Hr & Hv' & Hq); try done.
  - by apply (Hwf _ _ Hv).
  - apply Z.mod_pos_bound. lia.
  - rewrite Z2Nat.id by lia. clear -E Hb. dlia.
  - exists (<[b + start / 8:=v']> (bytes h)). split; [exact Hr|].
    eapply mark_byte; try done. rewrite Z2Nat.id in Hq by lia. done.
Qed.

(** The middle loop of [mark_bitmap], possibly empty. *)
Lemma fill_marked (used : bool) h b i k :
  wf_bytes (bytes h) -> 0 <= i -> 0 < k -> mapped (bytes h) (b + i) k ->
  exists m', for_loop (Z.to_nat k) i (fun i => wr8 (b + i) (if used then 0xFF else 0)) h =
      Ok tt (set_bytes (fun _ => m') h) /\ marked (bytes h) m' b (8 * i) (8 * k) used.
Proof.
  intros Hwf Hi Hk Hm.
  destruct (fill_run b (if used then 0xFF else 0) (Z.to_nat k) i h) as (m' & Hr & Hx); [by rewrite Z2Nat.id by lia|].
  exists m'. split; [done|]. apply mark_fill; try done. by rewrite Z2Nat.id in Hx by lia.
Qed.

Lemma mark_bitmap_run h node start bits (used : bool) :
  wf_bytes (bytes h) -> 0 <= start -> 0 < bits -> start + bits <= 2 ^ 35 ->
  mapped (bytes h) (h_mem node + start / 8) ((start + bits - 1) / 8 - start / 8 + 1) ->
  exists m', mark_bitmap node start bits used h = Ok tt (set_bytes (fun _ => m') h) /\
    marked (bytes h) m' (h_mem node) start bits used.
Proof.
  intros Hwf Hs Hb Hw Hm. unfold mark_bitmap.
  rewrite (u64_small (start + bits)), (u64_small (start + bits - 1)) by lia.
  set (e := start + bits - 1) in *. set (b := h_mem node) in *.
  assert (Hds : start / 8 <= e / 8) by (apply Z.div_le_mono; lia).
  destruct (Z.eqb_spec (start / 8) (e / 8)) as [E|E].
  - replace (e mod 8 + 1 - start mod 8) with bits by (clear -E; subst e; dlia).
    apply put_bits_marked; try done. apply Hm. lia.
  - set (k1 := 8 - start mod 8). pose proof (Z.mod_pos_bound start 8 ltac:(lia)) as Hsm.
    pose proof (Z.mod_pos_bound e 8 ltac:(lia)) as Hem.
    pose proof (Z.div_mod start 8 ltac:(lia)). pose proof (Z.div_mod e 8 ltac:(lia)).
    destruct (put_bits_marked used h b start k1) as (m1 & Hr1 & Hm1); try done; [lia| |apply Hm; lia|].
    { clear -Hsm. subst k1. dlia. }
    unfold mbind, M_bind. rewrite Hr1. destruct (Z.leb_spec W32 (e / 8)); [exfalso; clear -H1 Hw; subst e; dlia|].
    assert (Hlast : forall h1 m0 k, bytes h1 = m0 -> wf_bytes m0 -> mapped m0 (b + e / 8) 1 ->
      marked (bytes h) m0 b start k used -> 0 < k -> start + k = 8 * (e / 8) ->
      exists m', for_loop (Z.to_nat (e mod 8 + 1)) 0 (put_bit used (b + e / 8)) h1 =
        Ok tt (set_bytes (fun _ => m') h1) /\ marked (bytes h) m' b start bits used).
    { intros h1 m0 k <- Hwf1 Hmp Hmk Hk Hsk.
      destruct (put_bits_marked used h1 b (8 * (e / 8)) (e mod 8 + 1)) as (m' & Hr & Hmk'); try done; try lia.
      - dlia.
      - replace (8 * (e / 8) / 8) with (e / 8) by dlia. apply Hmp. lia.
      - replace (8 * (e / 8) / 8) with (e / 8) in Hr by dlia.
        replace ((8 * (e / 8)) mod 8) with 0 in Hr by dlia. exists m'. split; [done|].
        replace bits with (k + (e mod 8 + 1)) by lia. rewrite <- Hsk in Hmk'.
        eapply marked_trans; [lia|lia|lia|exact Hmk|exact Hmk']. }
    destruct (decide (e / 8 = start / 8 + 1)) as [E1|E1].
    + replace (Z.to_nat (e / 8 - (start / 8 + 1))) with O by lia. cbn [for_loop mret M_ret].
      destruct (Hlast (set_bytes (fun _ => m1) h) m1 k1) as (m' & -> & ?); [done|apply Hm1| |done|lia|lia|by exists m'].
      eapply marked_dom; [exact Hm1|]. intros x Hx. apply Hm. lia.
    + destruct (fill_marked used (set_bytes (fun _ => m1) h) b (start / 8 + 1) (e / 8 - (start / 8 + 1)))
        as (m2 & Hr2 & Hm2); [apply Hm1|lia|lia| |].
      { eapply marked_dom; [exact Hm1|]. intros x Hx. apply Hm. lia. }
      rewrite Hr2. cbn in Hm2.
      destruct (Hlast (set_bytes (fun _ => m2) (set_bytes (fun _ => m1) h)) m2 (k1 + 8 * (e / 8 - (start / 8 + 1))))
        as (m' & -> & ?); [done|apply Hm2| | |lia|lia|by exists m'].
      * do 2 (eapply marked_dom; [eassumption|]). intros x Hx. apply Hm. lia.
      * eapply marked_trans; [lia|lia|lia|exact Hm1|].
        by replace (start + k1) with (8 * (start / 8 + 1)) by lia.
Qed.

End ops.

(** ** First fit, bit by bit *)

(** The plain loop over [n] more sections: [f j] says that section [j] is used. *)
Fixpoint first_fit (n : nat) (f : Z -> bool) (need i found start : Z) : option Z :=
  match n with
  | O => None
  | S n' =>
    if f i then first_fit n' f need (i + 1) 0 start
    else
      let start := if found =? 0 then i else start in
      if found + 1 =? need then Some start else first_fit n' f need (i + 1) (found + 1) start
  end.

(** [need] unused sections from [b] on *)
Definition free_run (f : Z -> bool) (b need : Z) : Prop := forall j, b <= j < b + need -> f j = false.

Lemma first_fit_spec f need : forall n i found start,
  0 < need -> 0 <= found < need -> found <= i ->
  (0 < found -> start = i - found) -> free_run f (i - found) found ->
  (0 < i - found -> f (i - found - 1) = true) ->
  (forall b, 0 <= b -> b + need <= i -> ~ free_run f b need) ->
  match first_fit n f need i found start with
  | Some b => 0 <= b /\ b + need <= i + Z.of_nat n /\ free_run f b need /\
      forall b', 0 <= b' < b -> ~ free_run f b' need
  | None => forall b, 0 <= b -> b + need <= i + Z.of_nat n -> ~ free_run f b need
  end.
Proof.
  induction n as [|n IH]; intros i found start Hn Hf Hfi Hst Hrun Hedge Hold; cbn [first_fit].
  { intros b Hb Hbn. apply Hold; lia. }
  assert (Hskip : forall b, 0 <= b < i - found -> b + need <= i + 1 -> ~ free_run f b need).
  { intros b Hb Hbn. destruct (decide (b + need <= i)); [apply Hold; lia|]. intros Hr.
    specialize (Hedge ltac:(lia)). rewrite Hr in Hedge by lia. done. }
  destruct (f i) eqn:Hi.
  - specialize (IH (i + 1) 0 start). replace (i + 1 + Z.of_nat n) with (i + Z.of_nat (S n)) in IH by lia.
    apply IH; [done|lia|lia|lia|intros j ?; lia|intros _; by replace (i + 1 - 0 - 1) with i by lia|].
    intros b Hb Hbn Hr. destruct (decide (b + need <= i)); [by apply (Hold b)|]. by rewrite Hr in Hi by lia.
  - assert (Hrun' : free_run f (i - found) (found + 1)).
    { intros j Hj. destruct (decide (j = i)) as [->|]; [done|]. apply Hrun. lia. }
    set (start' := if found =? 0 then i else start).
    assert (start' = i - found) as Hst' by (unfold start'; btests; lia).
    destruct (Z.eqb_spec (found + 1) need) as [<-|Hne].
    + rewrite Hst'. split_and!; [lia|lia|done|]. intros b' Hb'. apply Hskip; lia.
    + specialize (IH (i + 1) (found + 1) start').
      replace (i + 1 + Z.of_nat n) with (i + Z.of_nat (S n)) in IH by lia.
      replace (i + 1 - (found + 1)) with (i - found) in IH by lia.
      apply IH; [done|lia|lia|lia|done|done|]. intros b Hb Hbn. apply Hskip; lia.
Qed.

(** Sixty-four unused sections at once. *)
Lemma first_fit_jump f need start k : forall n i found,
  0 <= found -> found + Z.of_nat k < need -> free_run f i (Z.of_nat k) -> (0 < k)%nat ->
  first_fit (k + n) f need i found start =
  first_fit n f need (i + Z.of_nat k) (found + Z.of_nat k) (if found =? 0 then i else start).
Proof.
  revert start. induction k as [|k IH]; intros start n i found Hf Hn Hrun Hk; [lia|].
  cbn [first_fit plus]. rewrite Hrun by lia. destruct (Z.eqb_spec (found + 1) need); [lia|].
  destruct k as [|k]; [done|].
  rewrite IH; [|lia|lia|intros j Hj; apply Hrun; lia|lia].
  destruct (Z.eqb_spec (found + 1) 0); [lia|]. f_equal; lia.
Qed.

Section scan.
Context {VS : Type} `{!VmmIface VS}.
Implicit Types h : heap VS.

Lemma scan_first_fit h cur bs need :
  wf_bytes (bytes h) -> 64 <= bs < W64 -> 0 < need < W64 - 64 -> mapped (bytes h) (h_mem cur) ((bs + 7) / 8) ->
  forall fuel i found start, 0 <= i <= bs -> 0 <= found < need -> (Z.to_nat (bs - i) < fuel)%nat ->
  scan fuel cur bs need i found start h =
    Ok (first_fit (Z.to_nat (bs - i)) (bitmap (bytes h) (h_mem cur)) need i found start) h.
Proof.
  intros Hwf Hbs Hneed Hm. induction fuel as [|fuel IH]; intros i found start Hi Hf Hfuel; [lia|].
  cbn [scan]. destruct (Z.ltb_spec i bs) as [Hlt|Hge].
  2:{ by replace (Z.to_nat (bs - i)) with O by lia. }
  destruct (Hm (h_mem cur + i / 8)) as [v Hv]; [clear -Hi Hlt; dlia|].
  unfold mbind at 1, M_bind at 1. unfold rd8 at 1. rewrite Hv.
  assert (Hbit : bitmap (bytes h) (h_mem cur) i = QUERY_BIT v (i mod 8)) by (unfold bitmap; by rewrite Hv).
  destruct (Z.to_nat (bs - i)) as [|n] eqn:En; [lia|]. assert (n = Z.to_nat (bs - (i + 1))) as Hn' by lia.
  destruct (QUERY_BIT v (i mod 8)) eqn:Hq.
  - destruct (Z.eqb_spec 0 need); [lia|]. rewrite IH by lia. cbn [first_fit]. by rewrite Hbit, <- Hn'.
  - assert (Hone : (if found + 1 =? need then mret (Some (if found =? 0 then i else start))
        else scan fuel cur bs need (i + 1) (found + 1) (if found =? 0 then i else start)) h =
        Ok (first_fit (S n) (bitmap (bytes h) (h_mem cur)) need i found start) h).
    { cbn [first_fit]. rewrite Hbit. destruct (Z.eqb_spec (found + 1) need); [done|].
      rewrite IH by lia. by rewrite <- Hn'. }
    destruct ((i mod 8 =? 0) && (i <? u64 (bs - 64)) && (u64 (found + 64) <? need)) eqn:Hc; [|exact Hone].
    apply andb_true_iff in Hc as [[Hc1 Hc2]%andb_true_iff Hc3].
    rewrite (u64_small (bs - 64)) in Hc2 by lia. rewrite (u64_small (found + 64)) in Hc3 by lia.
    assert (Hi8 : i = 8 * (i / 8)) by (pose proof (Z.div_mod i 8 ltac:(lia)); lia).
    destruct (getn_mapped 8 (bytes h) (h_mem cur + i / 8)) as [w Hw].
    { intros x Hx. apply Hm. clear -Hx Hc2 Hi8 Hi. dlia. }
    unfold mbind at 1, M_bind at 1. unfold mbind at 1, M_bind at 1. rewrite (rd64_run _ _ _ Hw). cbn [mret M_ret].
    destruct (Z.eqb_spec w 0) as [->|]; [|exact Hone]. rewrite IH by lia.
    replace (S n) with (64 + Z.to_nat (bs - (i + 64)))%nat by lia. rewrite first_fit_jump; [done|lia|lia| |lia].
    intros j Hj. unfold bitmap. rewrite (getn_zero _ _ _ Hwf Hw); [by rewrite QUERY_testbit, Z.bits_0|].
    clear -Hj Hi8. dlia.
Qed.
End scan.

End HeapOps.
