(* ===== verification/HeapList.v ===== *)
(** * The list of heap blocks and the calls of [vmalloc]

    [hlist] describes the heap's nodes; [find_space] takes the first node with
    enough consecutive unused sections; [add_block] appends an empty node. *)

From S2P Require Import Prelude KMath VMalloc HeapMem HeapOps.
Import KMath VMalloc HeapMem HeapOps.

Module HeapList.

(** What the heap relies on: a successful [vmm_alloc] maps fresh pages and
    changes no other byte; if it does not succeed, it panics. *)
Class VmmLaws (VS : Type) `{!VmmIface VS} := {
  vmm_alloc_ok : forall pages m v, 0 < pages -> wf_bytes m ->
    match vmm_alloc pages (m, v) with
    | Ok p (m', _) => 0 < p /\ p + 4096 * pages <= 0xFFFFFFFF80000000 /\ wf_bytes m' /\
        (forall i, p <= i < p + 4096 * pages -> m !! i = None /\ is_Some (m' !! i)) /\
        (forall i, ~ (p <= i < p + 4096 * pages) -> m' !! i = m !! i)
    | Panic _ => True
    | _ => False
    end;
}.

(** The bytes of a bitmap of [bs] bits. *)
Definition bm_bytes (bs : Z) : Z := (bs + 7) / 8.

(** A node with [bs] sections whose header and bitmap are mapped. *)
Record hnode (m : gmap Z Z) (n bs : Z) : Prop := {
  hn_pos : 0 < n;
  hn_size : 64 <= bs < 2 ^ 48;
  hn_bs : get64 m (h_bitmap_size n) = Some bs;
  hn_mapped : mapped m n (24 + bm_bytes bs);
}.

Fixpoint hlist (m : gmap Z Z) (p : Z) (l : list (Z * Z)) : Prop :=
  match l with
  | [] => p = 0
  | (n, bs) :: l' => p = n /\ hnode m n bs /\ exists nx, get64 m (h_next n) = Some nx /\ hlist m nx l'
  end.

Lemma ceil_div_run {VS} `{!VmmIface VS} a d (h : heap VS) :
  0 < d < W64 -> 0 <= a < W64 -> ceil_div a d h = Ok ((a + d - 1) / d) h.
Proof.
  intros Hd Ha. unfold ceil_div. rewrite ceil_u64_div_spec by lia. done.
Qed.

Lemma hnode_ext m m' n bs :
  (forall i, n <= i < n + 24 + bm_bytes bs -> m' !! i = m !! i) -> hnode m n bs -> hnode m' n bs.
Proof.
  intros Hm [Hp Hs Hb Hmp]. assert (0 <= bm_bytes bs) by (apply Z.div_pos; lia). split; [done|done| |].
  - rewrite <- Hb. apply (getn_ext 8). intros i Hi. apply Hm. unfold h_bitmap_size in Hi. lia.
  - intros i Hi. rewrite Hm by lia. apply Hmp. lia.
Qed.

Lemma hlist_ext m m' p l :
  (forall n bs i, (n, bs) ∈ l -> n <= i < n + 24 + bm_bytes bs -> m' !! i = m !! i) ->
  hlist m p l -> hlist m' p l.
Proof.
  revert p. induction l as [|[n bs] l IH]; intros p Hm; cbn; [done|].
  intros (-> & Hn & nx & Hx & Hl). split; [done|].
  assert (Hmn : forall i, n <= i < n + 24 + bm_bytes bs -> m' !! i = m !! i) by (intros; apply (Hm n bs); [left|done]).
  split; [by eapply hnode_ext|]. exists nx. split.
  - rewrite <- Hx. apply (getn_ext 8). intros i Hi. apply Hmn. pose proof (hn_size _ _ _ Hn).
    assert (0 <= bm_bytes bs) by (apply Z.div_pos; lia). unfold h_next in Hi. lia.
  - apply IH; [|done]. intros n' bs' i Hin. apply Hm. by right.
Qed.

Lemma hlist_fuel m p l : hlist m p l -> NoDup l.*1 -> (length l <= size m)%nat.
Proof.
  intros Hl Hnd. rewrite <- (length_fmap fst), <- size_dom, <- (size_list_to_set (C := gset Z)) by done.
  apply subseteq_size. intros a. rewrite elem_of_list_to_set, elem_of_dom. clear Hnd.
  revert p Hl. induction l as [|[n bs] l IH]; intros p; [by intros _ ?%elem_of_nil|].
  intros (-> & Hn & nx & _ & Hl) [->|Ha]%elem_of_cons; [|eauto].
  apply (hn_mapped _ _ _ Hn). pose proof (hn_size _ _ _ Hn). assert (0 <= bm_bytes bs) by (apply Z.div_pos; lia).
  cbn. lia.
Qed.

(** The sections of node [n] have a run of [need] unused ones. *)
Definition has_run (m : gmap Z Z) (n bs need : Z) : Prop :=
  exists b, 0 <= b /\ b + need <= bs /\ free_run (bitmap m (h_mem n)) b need.

(** The first run of a node, if it has one. *)
Lemma scan_node {VS} `{!VmmIface VS} (h : heap VS) n bs need :
  wf_bytes (bytes h) -> hnode (bytes h) n bs -> 0 < need < 2 ^ 50 ->
  exists r, scan (S (Z.to_nat bs)) n bs need 0 0 0 h = Ok r h /\
    match r with
    | Some b => 0 <= b /\ b + need <= bs /\ free_run (bitmap (bytes h) (h_mem n)) b need /\
        forall b', 0 <= b' < b -> ~ free_run (bitmap (bytes h) (h_mem n)) b' need
    | None => ~ has_run (bytes h) n bs need
    end.
Proof.
  intros Hwf [Hp Hs Hb Hm] Hneed.
  exists (first_fit (Z.to_nat (bs - 0)) (bitmap (bytes h) (h_mem n)) need 0 0 0). split.
  - apply scan_first_fit; try done; try lia. intros i Hi. apply Hm. unfold h_mem, bm_bytes in *. lia.
  - pose proof (first_fit_spec (bitmap (bytes h) (h_mem n)) need (Z.to_nat (bs - 0)) 0 0 0) as H.
    assert (Hb0 : 0 + Z.of_nat (Z.to_nat (bs - 0)) = bs) by lia. rewrite Hb0 in H.
    specialize (H ltac:(lia) ltac:(lia) ltac:(lia) ltac:(lia) ltac:(intros j Hj; lia) ltac:(lia) ltac:(intros b ?; lia)).
    destruct (first_fit _ _ _ _ _ _); [done|]. intros (b & Hb1 & Hb2 & Hb3). by apply (H b).
Qed.

Section find.
Context {VS : Type} `{!VmmIface VS}.
Implicit Types h : heap VS.

(** The state after section [b] of node [n] has been handed out. *)
Definition taken (h h' : heap VS) (n bs b need p : Z) : Prop :=
  exists m1, marked (bytes h) m1 (h_mem n) b need true /\
    h' = set_bytes (fun _ => put64 m1 (p - 8) need) h /\
    p = h_mem n + bm_bytes bs + 8 * b + 8.

(** One node of [find_space]: a hit. *)
Lemma take_run h n bs need b :
  wf_bytes (bytes h) -> hnode (bytes h) n bs -> 0 < need < 2 ^ 50 -> n + 32 + bm_bytes bs + 8 * bs < W64 ->
  0 <= b -> b + need <= bs -> bs <= 2 ^ 35 -> mapped (bytes h) (h_mem n + bm_bytes bs + 8 * b) 8 ->
  exists h', taken h h' n bs b need (h_mem n + bm_bytes bs + 8 * b + 8) /\
    (mark_bitmap n b need true;;
     bitmap_size ← rd64 (h_bitmap_size n);
     bitmap_bytes ← ceil_div bitmap_size 8;
     let addr := h_mem n +64 bitmap_bytes +64 (b *64 SECTION_SIZE) in
     wr64 addr need;;
     mret (Some (addr +64 sizeof_header))) h = Ok (Some (h_mem n + bm_bytes bs + 8 * b + 8)) h'.
Proof.
  intros Hwf [Hp Hs Hbs Hm] Hneed Hn Hb Hbn Hsm Hmd. unfold h_mem, h_bitmap_size in *.
  assert (Hbm : 0 <= bm_bytes bs <= bs) by (unfold bm_bytes; clear -Hs; dlia).
  assert (He : (b + need - 1) / 8 < bm_bytes bs) by (unfold bm_bytes; clear -Hbn; dlia).
  assert (Hb8 : 0 <= b / 8 <= (b + need - 1) / 8) by (split; [apply Z.div_pos; lia|apply Z.div_le_mono; lia]).
  destruct (mark_bitmap_run h n b need true) as (m1 & Hr & Hmk); try done; try lia.
  { intros i Hi. unfold h_mem in Hi. apply Hm. lia. }
  unfold h_mem in *. assert (Hbs1 : getn 8 m1 (n + 8) = Some bs).
  { unfold get64 in Hbs. rewrite <- Hbs. apply getn_ext. intros i Hi. apply (mk_out _ _ _ _ _ _ Hmk). lia. }
  eexists. split; [exists m1; done|].
  rewrite (bind_ok _ _ _ _ _ Hr), (bind_ok _ _ _ _ _ (rd64_run _ _ (set_bytes (fun _ => m1) h) Hbs1)).
  rewrite (bind_ok _ _ _ _ _ (ceil_div_run bs 8 _ ltac:(lia) ltac:(lia))).
  replace ((bs + 8 - 1) / 8) with (bm_bytes bs) by (unfold bm_bytes; f_equal; lia).
  unfold SECTION_SIZE, sizeof_header. rewrite (u64_small (n + 24 + bm_bytes bs)), (u64_small (b * 8)) by lia.
  rewrite (u64_small (n + 24 + bm_bytes bs + b * 8)) by lia. replace (b * 8) with (8 * b) by lia.
  erewrite bind_ok; [|apply wr64_run; cbn; by eapply marked_dom].
  rewrite u64_small by lia.
  replace (n + 24 + bm_bytes bs + 8 * b + 8 - 8) with (n + 24 + bm_bytes bs + 8 * b) by lia. done.
Qed.

(** The section at which a block would start is mapped, in every node. *)
Definition data_mapped (m : gmap Z Z) (l : list (Z * Z)) (need : Z) : Prop :=
  forall n bs b, (n, bs) ∈ l -> 0 <= b -> b + need <= bs -> free_run (bitmap m (h_mem n)) b need ->
    (forall b', 0 <= b' < b -> ~ free_run (bitmap m (h_mem n)) b' need) ->
    mapped m (h_mem n + bm_bytes bs + 8 * b) 8.

(** The addresses of the sections do not wrap. *)
Definition low_nodes (l : list (Z * Z)) : Prop :=
  Forall (fun x => x.1 + 32 + bm_bytes x.2 + 8 * x.2 < W64) l.

(** The bitmaps are small enough for the counter of [mark_bitmap]. *)
Definition small_nodes (l : list (Z * Z)) : Prop := Forall (fun x => x.2 <= 2 ^ 35) l.

(** [find_space] takes the first run of the first node that has one. *)
Lemma find_space_run h need l : forall p fuel,
  wf_bytes (bytes h) -> hlist (bytes h) p l -> 0 < need < 2 ^ 50 -> (length l < fuel)%nat ->
  low_nodes l -> small_nodes l -> data_mapped (bytes h) l need ->
  (find_space fuel p need h = Ok None h /\ Forall (fun x => ~ has_run (bytes h) x.1 x.2 need) l) \/
  exists h' n bs b, (n, bs) ∈ l /\ taken h h' n bs b need (h_mem n + bm_bytes bs + 8 * b + 8) /\
    free_run (bitmap (bytes h) (h_mem n)) b need /\ 0 <= b /\ b + need <= bs /\
    (forall b', 0 <= b' < b -> ~ free_run (bitmap (bytes h) (h_mem n)) b' need) /\
    find_space fuel p need h = Ok (Some (h_mem n + bm_bytes bs + 8 * b + 8)) h'.
Proof.
  induction l as [|[n bs] l IH]; intros p fuel Hwf Hl Hneed Hf Hhi Hsm Hd; (destruct fuel as [|fuel]; [cbn in Hf; lia|]).
  - left. cbn in Hl. subst p. done.
  - destruct Hl as (-> & Hn & nx & Hx & Hl). pose proof (hn_pos _ _ _ Hn). cbn [find_space].
    destruct (Z.eqb_spec n 0); [lia|].
    rewrite (bind_ok _ _ _ _ _ (rd64_run _ _ _ (hn_bs _ _ _ Hn))).
    destruct (scan_node h n bs need Hwf Hn Hneed) as (r & Hr & Hspec). rewrite (bind_ok _ _ _ _ _ Hr).
    apply Forall_cons in Hhi as [Hhi1 Hhi]. apply Forall_cons in Hsm as [Hsm1 Hsm]. cbn in Hhi1, Hsm1. destruct r as [b|].
    + right. destruct Hspec as (Hb1 & Hb2 & Hb3 & Hb4).
      destruct (take_run h n bs need b) as (h' & Ht & Hrun); try done; [apply (Hd n bs b); [left|done..]|].
      exists h', n, bs, b. split_and!; [left|done..].
    + rewrite (bind_ok _ _ _ _ _ (rd64_run _ _ _ Hx)).
      destruct (IH nx fuel) as [[Hrun Hno]|(h' & n' & bs' & b & Hin & Hrest)]; try done; [cbn in Hf; lia| | |].
      * intros n' bs' b Hin. apply Hd. by right.
      * left. split; [done|]. by constructor.
      * right. exists h', n', bs', b. split; [by right|done].
Qed.
End find.

(** ** [add_block] *)

Record heap_ok {VS} (h : heap VS) (l : list (Z * Z)) : Prop := {
  ho_wf : wf_bytes (bytes h);
  ho_list : hlist (bytes h) (heap_head h) l;
  ho_nodup : NoDup l.*1;
  ho_apart : forall x y, x ∈ l -> y ∈ l -> x.1 <> y.1 ->
    x.1 + 24 + bm_bytes x.2 <= y.1 \/ y.1 + 24 + bm_bytes y.2 <= x.1;
  ho_tail : heap_tail h = default 0 (last l.*1);
  ho_low : low_nodes l;
}.

Lemma hlist_node m p l n bs : hlist m p l -> (n, bs) ∈ l -> hnode m n bs.
Proof.
  revert p. induction l as [|[n' bs'] l IH]; intros p; [by intros _ ?%elem_of_nil|].
  intros (-> & Hn & nx & _ & Hl) [[= -> ->]|Hin]%elem_of_cons; [done|eauto].
Qed.

(** A node whose successor is changed to a new last node. *)
Lemma hlist_link m p l t bs a bs' :
  hlist m p (l ++ [(t, bs)]) -> NoDup (l ++ [(t, bs)]).*1 -> 0 < a < W64 ->
  (forall n b, (n, b) ∈ l -> n + 24 + bm_bytes b <= t \/ t + 24 + bm_bytes bs <= n) ->
  hnode m a bs' -> get64 m (h_next a) = Some 0 ->
  (t + 24 + bm_bytes bs <= a \/ a + 24 + bm_bytes bs' <= t) ->
  hlist (put64 m (h_next t) a) p ((l ++ [(t, bs)]) ++ [(a, bs')]).
Proof.
  intros Hl Hnd Ha Hap Hn Hz Hta. assert (Hbm : forall n b, hnode m n b -> 0 <= bm_bytes b).
  { intros n b [_ ? _ _]. apply Z.div_pos; lia. }
  assert (Hbt : 0 <= bm_bytes bs).
  { eapply Hbm, hlist_node; [exact Hl|]. apply elem_of_app. right. left. }
  assert (Hnew : hlist (put64 m (h_next t) a) a [(a, bs')]).
  { pose proof (Hbm _ _ Hn). split; [done|]. split.
    - eapply hnode_ext; [|exact Hn]. intros i Hi. apply putn_out. unfold h_next. lia.
    - exists 0. split; [|done]. rewrite <- Hz. apply (getn_ext 8). intros i Hi. apply putn_out.
      unfold h_next in *. lia. }
  revert p Hl. induction l as [|[n b] l IH]; intros p.
  - intros (-> & Ht & nx & Hx & ->). pose proof (Hbm _ _ Ht). split; [done|]. split.
    + destruct Ht as [H1 H2 H3 H4]. split; [done|done| |by apply putn_mapped].
      rewrite <- H3. apply (getn_ext 8). intros i Hi. apply putn_out. unfold h_next, h_bitmap_size in *. lia.
    + exists a. split; [|exact Hnew]. apply (getn_putn 8). cbn. lia.
  - intros (-> & Hn' & nx & Hx & Hl). pose proof (Hbm _ _ Hn'). cbn [app].
    pose proof (Hap n b ltac:(left)) as Hnt.
    split; [done|]. split; [eapply hnode_ext; [|exact Hn']; intros i Hi; apply putn_out; unfold h_next; lia|].
    exists nx. split.
    + rewrite <- Hx. apply (getn_ext 8). intros i Hi. apply putn_out. unfold h_next in *. lia.
    + apply IH; [by apply NoDup_cons in Hnd as [_ ?]|intros; apply Hap; by right|done].
Qed.

Lemma bm_bytes_504 k : bm_bytes (504 * k) = 63 * k.
Proof. unfold bm_bytes. dlia. Qed.

(** The memory of a fresh node: header written, bitmap cleared. *)
Lemma init_node {VS} `{!VmmIface VS} (h : heap VS) p k total :
  wf_bytes (bytes h) -> 0 < p -> 0 < k < 2 ^ 38 -> 0 <= total < W64 -> mapped (bytes h) p (24 + 63 * k) ->
  exists m', (wr64 (h_next p) 0;; wr64 (h_total_size p) total;; wr64 (h_bitmap_size p) (504 * k);;
              for_loop (Z.to_nat (63 * k)) 0 (fun i => wr8 (h_mem p + i) 0)) h = Ok tt (set_bytes (fun _ => m') h) /\
    wf_bytes m' /\ hnode m' p (504 * k) /\ get64 m' (h_next p) = Some 0 /\
    (forall j, 0 <= j < 504 * k -> bitmap m' (h_mem p) j = false) /\
    (forall i, ~ (p <= i < p + 24 + 63 * k) -> m' !! i = bytes h !! i) /\
    (forall a n, mapped (bytes h) a n -> mapped m' a n).
Proof.
  intros Hwf Hp Hk Ht Hm. unfold h_next, h_total_size, h_bitmap_size, h_mem.
  set (m1 := put64 (bytes h) p 0). set (m2 := put64 m1 (p + 16) total). set (m3 := put64 m2 (p + 8) (504 * k)).
  assert (Hmp : forall a n, mapped (bytes h) a n -> mapped m3 a n) by
    (intros a n Ha; unfold m3, m2, m1; by do 3 apply putn_mapped).
  destruct (fill_run (p + 24) 0 (Z.to_nat (63 * k)) 0 (set_bytes (fun _ => m3) h)) as (m4 & Hr & Hx).
  { apply Hmp. intros i Hi. apply Hm. lia. }
  rewrite Z2Nat.id in Hx by lia. replace (p + 24 + 0) with (p + 24) in Hx by lia. cbn [bytes set_bytes] in Hx.
  assert (H43 : forall i, i < p + 24 -> m4 !! i = m3 !! i) by (intros i Hi; rewrite Hx, decide_False by lia; done).
  exists m4. split_and!.
  - rewrite (bind_ok _ _ _ _ _ (wr64_run p 0 h ltac:(intros i Hi; apply Hm; lia))).
    erewrite bind_ok; [|apply wr64_run; cbn; apply putn_mapped; intros i Hi; apply Hm; lia].
    erewrite bind_ok; [|apply wr64_run; cbn; do 2 apply putn_mapped; intros i Hi; apply Hm; lia].
    exact Hr.
  - intros i v. rewrite Hx. case_decide; [intros [= <-]; apply u8_range|].
    assert (wf_bytes m3) as H3 by (unfold m3, m2, m1; by do 3 apply wf_putn). apply H3.
  - split; [done|lia| |].
    + unfold h_bitmap_size. unfold get64. rewrite (getn_ext 8 m3) by (intros; apply H43; lia). apply (getn_putn 8). cbn. lia.
    + rewrite bm_bytes_504. intros i Hi. rewrite Hx. case_decide; [eauto|]. by apply (Hmp p (24 + 63 * k)).
  - unfold get64. rewrite (getn_ext 8 m3) by (intros; apply H43; lia).
    rewrite (getn_ext 8 m1) by (intros; unfold m3, m2, put64; rewrite !putn_out by lia; done).
    apply (getn_putn 8). cbn. lia.
  - intros j Hj. unfold bitmap. rewrite Hx, decide_True by (clear -Hj; dlia).
    change (u8 0) with 0. by rewrite QUERY_testbit, Z.bits_0.
  - intros i Hi. rewrite Hx, decide_False by lia. unfold m3, m2, m1, put64. by rewrite !putn_out by lia.
  - intros a n Ha i Hi. rewrite Hx. case_decide; [eauto|]. by apply (Hmp a n).
Qed.

Section add.
Context {VS : Type} `{!VmmIface VS} `{!VmmLaws VS}.
Implicit Types h : heap VS.

(** What [add_block] leaves: an empty node at the end of the list. *)
Record added h h' (l : list (Z * Z)) (p k : Z) : Prop := {
  ad_ok : heap_ok h' (l ++ [(p, 504 * k)]);
  ad_fresh : forall i, p <= i < p + 32 + 63 * k -> bytes h !! i = None;
  ad_free : forall j, 0 <= j < 504 * k -> bitmap (bytes h') (h_mem p) j = false;
  ad_first : mapped (bytes h') (h_mem p + bm_bytes (504 * k)) 8;
  ad_bitmaps : forall n bs i, (n, bs) ∈ l -> n + 24 <= i < n + 24 + bm_bytes bs -> bytes h' !! i = bytes h !! i;
  ad_mapped : forall a n, mapped (bytes h) a n -> mapped (bytes h') a n;
}.

(** The node, the list and the globals after the node has been linked. *)
Lemma link_added h l p k m0 m4 v :
  heap_ok h l -> 0 < k < 2 ^ 38 -> 0 < p -> p + 4095 * k <= 0xFFFFFFFF80000000 ->
  (forall i, p <= i < p + 32 + 63 * k -> bytes h !! i = None) ->
  (forall i, is_Some (bytes h !! i) -> m0 !! i = bytes h !! i) ->
  mapped m0 (p + 24 + 63 * k) 8 ->
  wf_bytes m4 -> hnode m4 p (504 * k) -> get64 m4 (h_next p) = Some 0 ->
  (forall j, 0 <= j < 504 * k -> bitmap m4 (h_mem p) j = false) ->
  (forall i, ~ (p <= i < p + 24 + 63 * k) -> m4 !! i = m0 !! i) ->
  (forall a n, mapped m0 a n -> mapped m4 a n) ->
  let h4 := Heap m4 v (heap_head h) (heap_tail h) in
  exists h', (if (heap_head h =? 0) && (heap_tail h =? 0) then
      modify (set_heap_head p);; modify (set_heap_tail p)
    else wr64 (h_next (heap_tail h)) p;; modify (set_heap_tail p)) h4 = Ok tt h' /\ added h h' l p k.
Proof.
  intros [Hwf Hl Hnd Hap Htl Hlow] Hk Hp Hpk Hfresh Hold Hmap Hwf4 Hn4 Hnx4 Hbit Hout Hmono h4.
  assert (Hbs : forall n bs, (n, bs) ∈ l -> 0 <= bm_bytes bs /\ mapped (bytes h) n (24 + bm_bytes bs)).
  { intros n bs Hin. destruct (hlist_node _ _ _ _ _ Hl Hin) as [_ ? _ ?]. split; [apply Z.div_pos; lia|done]. }
  assert (Hsep : forall n bs, (n, bs) ∈ l -> n + 24 + bm_bytes bs <= p \/ p + 24 + 63 * k <= n).
  { intros n bs Hin. destruct (Hbs n bs Hin) as [Hb Hmn].
    destruct (decide (n + 24 + bm_bytes bs <= p)); [by left|]. destruct (decide (p + 24 + 63 * k <= n)); [by right|].
    destruct (Hmn (Z.max n p)) as [w Hw]; [lia|]. rewrite Hfresh in Hw by lia. done. }
  assert (Hkeep : forall n bs i, (n, bs) ∈ l -> n <= i < n + 24 + bm_bytes bs -> m4 !! i = bytes h !! i).
  { intros n bs i Hin Hi. destruct (Hsep n bs Hin); (rewrite Hout by lia); apply Hold, (Hbs n bs Hin); lia. }
  assert (Hl4 : hlist m4 (heap_head h) l) by (by eapply hlist_ext).
  assert (Hmono' : forall a n, mapped (bytes h) a n -> mapped m4 a n).
  { intros a n Ha. apply Hmono. intros i Hi. rewrite Hold; apply Ha; done. }
  assert (Hnotin : p ∉ l.*1).
  { intros Hin. apply list_elem_of_fmap in Hin as ([n bs] & -> & Hin). cbn in *. destruct (Hsep n bs Hin), (Hbs n bs Hin); lia. }
  assert (Hnd' : NoDup (l ++ [(p, 504 * k)]).*1).
  { rewrite fmap_app, Permutation_app_comm. by constructor. }
  assert (Hap' : forall x y, x ∈ l ++ [(p, 504 * k)] -> y ∈ l ++ [(p, 504 * k)] -> x.1 <> y.1 ->
    x.1 + 24 + bm_bytes x.2 <= y.1 \/ y.1 + 24 + bm_bytes y.2 <= x.1).
  { intros [n bs] [n' bs'] [H1|H1]%elem_of_app [H2|H2]%elem_of_app; try apply list_elem_of_singleton in H1;
      try apply list_elem_of_singleton in H2; simplify_eq; cbn [fst snd]; rewrite ?bm_bytes_504; [by apply (Hap (n, bs) (n', bs'))|..|done].
    - intros _. by apply Hsep.
    - intros _. apply or_comm. by apply Hsep. }
  assert (Hlow' : low_nodes (l ++ [(p, 504 * k)])).
  { apply Forall_app. split; [done|]. repeat constructor. cbn [fst snd]. rewrite bm_bytes_504. lia. }
  assert (Htail' : p = default 0 (last (l ++ [(p, 504 * k)]).*1)) by (by rewrite fmap_last, last_snoc).
  destruct l as [|x0 l1] eqn:El.
  - cbn in Hl, Htl. rewrite Hl, Htl. cbn [Z.eqb andb].
    eexists. split; [reflexivity|]. split; cbn; try done.
    + split; cbn; try done. split; [done|]. split; [done|]. by exists 0.
    + by rewrite bm_bytes_504; apply Hmono; unfold h_mem.
    + intros n bs i Hin%elem_of_nil. done.
  - rewrite <- El in *. destruct (exists_last (l := l)) as (l0 & [t bs] & E); [by rewrite El|].
    assert (Ht : (t, bs) ∈ l) by (rewrite E; apply elem_of_app; right; left).
    assert (Htp : 0 < t) by (by eapply hn_pos, hlist_node).
    assert (heap_tail h = t) as Htt by (rewrite Htl, E, fmap_last, last_snoc; done).
    rewrite Htt. destruct (Z.eqb_spec t 0) as [|Htnz]; [lia|]. rewrite andb_false_r.
    destruct (Hbs t bs Ht) as [Hbt Hmt].
    erewrite bind_ok; [|apply wr64_run; cbn; apply Hmono'; intros i Hi; apply Hmt; unfold h_next in Hi; lia].
    eexists. split; [reflexivity|].
    assert (Hsame : forall i, ~ (t <= i < t + 8) -> put64 m4 (h_next t) p !! i = m4 !! i) by
      (intros i Hi; apply putn_out; unfold h_next; lia).
    split; cbn.
    + split; cbn; try done; [by apply wf_putn|].
      rewrite E. apply hlist_link; [by rewrite <- E|by rewrite <- E|lia| |done|done|].
      * intros n b Hin. assert (Hin' : (n, b) ∈ l) by (rewrite E; apply elem_of_app; by left).
        apply (Hap (n, b) (t, bs) Hin' Ht). cbn. intros ->. rewrite E, fmap_app in Hnd.
        apply NoDup_app in Hnd as (_ & Hd & _). apply (Hd t); [by apply (list_elem_of_fmap_2 fst l0 (t, b))|left].
      * rewrite bm_bytes_504. by apply Hsep.
    + exact Hfresh.
    + intros j Hj. rewrite <- (Hbit j Hj). unfold bitmap, h_mem. rewrite Hsame; [done|].
      destruct (Hsep t bs Ht); clear -H Hj Hbt; dlia.
    + rewrite bm_bytes_504. unfold h_mem. by apply putn_mapped, Hmono.
    + intros n b i Hin Hi. rewrite Hsame; [apply (Hkeep n b); [done|lia]|].
      destruct (decide (n = t)) as [->|Hne]; [lia|]. destruct (Hap (n, b) (t, bs) Hin Ht Hne); cbn in *; lia.
    + intros a n Ha. by apply putn_mapped, Hmono'.
Qed.

(** A panic that comes from the allocator of virtual memory. *)
Definition vmm_panics (msg : string) : Prop :=
  exists pages s, 0 < pages /\ vmm_alloc (VS := VS) pages s = Panic msg.

Lemma add_block_ok h l k :
  heap_ok h l -> 0 < k < 2 ^ 38 ->
  match add_block (504 * k) h with
  | Ok _ h' => exists p, added h h' l p k
  | Panic msg => vmm_panics msg
  | _ => False
  end.
Proof.
  intros Hok Hk. unfold add_block, SECTION_SIZE, PAGE_SIZE.
  rewrite (bind_ok _ _ _ _ _ (ceil_div_run (504 * k) 8 _ ltac:(lia) ltac:(lia))).
  replace ((504 * k + 8 - 1) / 8) with (63 * k) by (clear; dlia).
  rewrite (u64_small (504 * k * 8)), (u64_small (504 * k * 8 + 63 * k)) by lia.
  rewrite (bind_ok _ _ _ _ _ (ceil_div_run (504 * k * 8 + 63 * k) 4096 _ ltac:(lia) ltac:(lia))).
  set (pages := (504 * k * 8 + 63 * k + 4096 - 1) / 4096).
  assert (Hpg : 4095 * k <= 4096 * pages /\ 0 < pages) by (subst pages; clear -Hk; dlia).
  unfold mbind at 1, M_bind at 1, call_vmm.
  pose proof (vmm_alloc_ok pages (bytes h) (vmm h) ltac:(lia) (ho_wf _ _ Hok)) as Hlaw.
  destruct (vmm_alloc pages (bytes h, vmm h)) as [p [m0 v0]|msg| |] eqn:Evm; [|exists pages, (bytes h, vmm h); split; [lia|done]|done..].
  destruct Hlaw as (Hp & Hphi & Hwf0 & Hnew & Hsame).
  assert (Hold : forall i, is_Some (bytes h !! i) -> m0 !! i = bytes h !! i).
  { intros i Hi. apply Hsame. intros Hin. destruct (Hnew i Hin) as [Hn _]. rewrite Hn in Hi. by destruct Hi. }
  set (h0 := Heap m0 v0 (heap_head h) (heap_tail h)).
  destruct (init_node h0 p k (504 * k * 8 + 63 * k)) as (m4 & Hrun & Hwf4 & Hn4 & Hnx4 & Hbit & Hout & Hmono);
    [done|lia|done|lia|intros i Hi; apply Hnew; lia|].
  destruct (link_added h l p k m0 m4 v0 Hok Hk Hp) as (h' & Hlink & Had); try done; [lia| | |].
  - intros i Hi. apply Hnew. lia.
  - intros i Hi. apply Hnew. lia.
  - assert (Hseq : (wr64 (h_next p) 0;; wr64 (h_total_size p) (504 * k * 8 + 63 * k);; wr64 (h_bitmap_size p) (504 * k);;
        for_loop (Z.to_nat (63 * k)) 0 (fun i => wr8 (h_mem p + i) 0);;
        head ← gets heap_head; tail ← gets heap_tail;
        if (head =? 0) && (tail =? 0) then modify (set_heap_head p);; modify (set_heap_tail p)
        else wr64 (h_next tail) p;; modify (set_heap_tail p)) h0 = Ok tt h').
    { revert Hrun Hlink. unfold mbind, M_bind. destruct (wr64 (h_next p) 0 h0) as [? h1| | |]; [|done..].
      destruct (wr64 (h_total_size p) _ h1) as [? h2| | |]; [|done..].
      destruct (wr64 (h_bitmap_size p) _ h2) as [? h3| | |]; [|done..]. intros -> Hlink. exact Hlink. }
    rewrite Hseq. by exists p.
Qed.

(** ** The calls of [vmalloc] *)

(** The header of a block of [need] sections, at the first run of a node, is in
    mapped memory and apart from the headers and the bitmaps of all nodes. *)
Definition fit_ok (m : gmap Z Z) (l : list (Z * Z)) (need : Z) : Prop :=
  forall n bs b, (n, bs) ∈ l -> 0 <= b -> b + need <= bs -> free_run (bitmap m (h_mem n)) b need ->
    (forall b', 0 <= b' < b -> ~ free_run (bitmap m (h_mem n)) b' need) ->
    let a := h_mem n + bm_bytes bs + 8 * b in
    mapped m a 8 /\ forall n' bs', (n', bs') ∈ l -> a + 8 <= n' \/ n' + 24 + bm_bytes bs' <= a.

Lemma fit_data m l need : fit_ok m l need -> data_mapped m l need.
Proof. intros Hf n bs b Hin Hb Hbn Hrun Hmin. by apply (Hf n bs b). Qed.

(** What is mapped is apart from what is not. *)
Lemma mapped_apart m a k p n : mapped m a k -> (forall i, p <= i < p + n -> m !! i = None) -> 0 < k -> 0 < n -> a + k <= p \/ p + n <= a.
Proof.
  intros Hm Hn Hk Hnn. destruct (decide (a + k <= p)); [by left|]. destruct (decide (p + n <= a)); [by right|].
  destruct (Hm (Z.max a p)) as [w Hw]; [lia|]. rewrite Hn in Hw by lia. done.
Qed.

(** After [add_block] the old nodes are as before and the new one is free. *)
Lemma added_bitmap h h' l p k n bs j : added h h' l p k -> (n, bs) ∈ l -> 0 <= j < bs ->
  bitmap (bytes h') (h_mem n) j = bitmap (bytes h) (h_mem n) j.
Proof. intros Had Hin Hj. unfold bitmap. rewrite (ad_bitmaps _ _ _ _ _ Had n bs); [done|done|]. unfold h_mem, bm_bytes. clear -Hj. dlia. Qed.

Lemma added_fit h h' l p k need :
  0 < need -> 0 < k -> added h h' l p k -> heap_ok h l -> fit_ok (bytes h) l need -> fit_ok (bytes h') (l ++ [(p, 504 * k)]) need.
Proof.
  intros Hneed Hk Had Hok0 Hd n bs b Hin Hb Hbn Hrun Hmin. pose proof Had as [Hok Hfresh Hfree Hfirst _ Hmono].
  assert (Hnode : forall n bs, (n, bs) ∈ l -> mapped (bytes h) n (24 + bm_bytes bs) /\ 0 <= bm_bytes bs).
  { intros n1 bs1 H1. destruct (hlist_node _ _ _ _ _ (ho_list _ _ Hok0) H1) as [_ Hs _ Hm]. split; [done|]. apply Z.div_pos; lia. }
  apply elem_of_app in Hin as [Hin|Hin].
  - assert (Hrun0 : free_run (bitmap (bytes h) (h_mem n)) b need).
    { intros j Hj. rewrite <- (added_bitmap h h' l p k n bs) by (done || lia). by apply Hrun. }
    destruct (Hd n bs b Hin Hb Hbn Hrun0) as [Hm Ha].
    { intros b' Hb' Hr. apply (Hmin b' Hb'). intros j Hj. rewrite (added_bitmap h h' l p k n bs) by (done || lia). by apply Hr. }
    split; [by apply Hmono|]. intros n' bs' [Hin'|Hin']%elem_of_app; [by apply Ha|]. apply list_elem_of_singleton in Hin'. injection Hin' as -> ->.
    rewrite bm_bytes_504. destruct (mapped_apart _ _ 8 p (32 + 63 * k) Hm) as [?|?]; [intros i Hi; apply Hfresh; lia|lia|lia|by left|right; lia].
  - apply list_elem_of_singleton in Hin. injection Hin as -> ->.
    destruct (decide (b = 0)) as [->|]; [|destruct (Hmin 0); [lia|]; intros j Hj; apply Hfree; lia].
    rewrite Z.mul_0_r, Z.add_0_r. split; [done|]. rewrite bm_bytes_504. unfold h_mem. intros n' bs' [Hin'|Hin']%elem_of_app.
    + destruct (Hnode n' bs' Hin') as [Hm Hbb].
      destruct (mapped_apart _ n' (24 + bm_bytes bs') p (32 + 63 * k) Hm) as [?|?]; [intros i Hi; apply Hfresh; lia|lia|lia|right; lia|left; lia].
    + apply list_elem_of_singleton in Hin'. injection Hin' as -> ->. rewrite bm_bytes_504. right. lia.
Qed.
End add.

(** ** The effect of an allocation *)

Lemma hlist_keep m m' p l :
  (forall n bs i, (n, bs) ∈ l -> n <= i < n + 24 -> m' !! i = m !! i) -> (forall a k, mapped m a k -> mapped m' a k) ->
  hlist m p l -> hlist m' p l.
Proof.
  intros Hm Hmono. revert p. induction l as [|[n bs] l IH]; intros p; cbn; [done|].
  intros (-> & [H1 H2 H3 H4] & nx & Hx & Hl). assert (Hmn : forall i, n <= i < n + 24 -> m' !! i = m !! i) by (intros; apply (Hm n bs); [left|done]).
  split; [done|]. split.
  - split; [done|done| |by apply Hmono]. rewrite <- H3. apply (getn_ext 8). intros i Hi. apply Hmn. unfold h_bitmap_size in Hi. lia.
  - exists nx. split; [|apply IH; [|done]; intros n' bs' i Hin; apply (Hm n' bs'); by right].
    rewrite <- Hx. apply (getn_ext 8). intros i Hi. apply Hmn. unfold h_next in Hi. lia.
Qed.

Section taken.
Context {VS : Type}.
Implicit Types h : heap VS.

(** A block taken from a well-formed heap: the heap stays well-formed, the block
    has its header, its sections are used, and no other section has changed. *)
Lemma taken_ok h h' l n bs b need p :
  heap_ok h l -> (n, bs) ∈ l -> 0 <= b -> 0 < need < 2 ^ 50 -> b + need <= bs -> taken h h' n bs b need p ->
  mapped (bytes h) (p - 8) 8 -> (forall n' bs', (n', bs') ∈ l -> p <= n' \/ n' + 24 + bm_bytes bs' <= p - 8) ->
  heap_ok h' l /\ get64 (bytes h') (p - 8) = Some need /\
  forall n' bs' j, (n', bs') ∈ l -> 0 <= j < bs' ->
    bitmap (bytes h') (h_mem n') j = if decide (n' = n /\ b <= j < b + need) then true else bitmap (bytes h) (h_mem n') j.
Proof.
  intros [Hwf Hl Hnd Hap Htl Hlow] Hin Hb Hneed Hbn (m1 & Hmk & -> & Ep) Hmp Hout.
  assert (Hbs : forall n bs, (n, bs) ∈ l -> 0 <= bm_bytes bs).
  { intros n1 bs1 H1. destruct (hlist_node _ _ _ _ _ Hl H1) as [_ Hs _ _]. apply Z.div_pos; lia. }
  assert (He : h_mem n <= h_mem n + b / 8 /\ h_mem n + (b + need - 1) / 8 < h_mem n + bm_bytes bs) by (unfold bm_bytes; clear -Hb Hbn Hneed; dlia).
  assert (Hn24 : h_mem n = n + 24) by done. pose proof (Hbs n bs Hin) as Hbn0.
  assert (Hother : forall n' bs' i, (n', bs') ∈ l -> n' <= i < n' + 24 + bm_bytes bs' -> (n' = n -> i < n + 24) ->
    put64 m1 (p - 8) need !! i = bytes h !! i).
  { intros n' bs' i Hin' Hi Hne. unfold put64. rewrite putn_out by (pose proof (Hout n' bs' Hin'); lia). apply (mk_out _ _ _ _ _ _ Hmk).
    destruct (decide (n' = n)) as [->|Hd]; [left; specialize (Hne eq_refl); lia|].
    destruct (Hap (n', bs') (n, bs) Hin' Hin Hd) as [H|H]; cbn in H; lia. }
  assert (Hbits : forall n' bs' j, (n', bs') ∈ l -> 0 <= j < bs' ->
    bitmap (put64 m1 (p - 8) need) (h_mem n') j = if decide (n' = n /\ b <= j < b + need) then true else bitmap (bytes h) (h_mem n') j).
  { intros n' bs' j Hin' Hj. assert (Hj8 : n' + 24 <= n' + 24 + j / 8 < n' + 24 + bm_bytes bs') by (unfold bm_bytes; clear -Hj; dlia).
    destruct (decide (n' = n)) as [->|Hne].
    - assert (E : bitmap (put64 m1 (p - 8) need) (h_mem n) j = bitmap m1 (h_mem n) j).
      { unfold bitmap, put64. rewrite putn_out; [done|]. pose proof (Hout n bs' Hin'). unfold h_mem. lia. }
      rewrite E, (mk_bits _ _ _ _ _ _ Hmk) by lia. repeat case_decide; tauto.
    - rewrite decide_False by tauto. unfold bitmap. rewrite (Hother n' bs') by (done || unfold h_mem; lia). done. }
  split; [|split; [apply (getn_putn 8); cbn; lia|exact Hbits]].
  split; cbn; try done; [apply wf_putn, Hmk|]. eapply hlist_keep; [| |exact Hl].
  - intros n' bs' i Hin' Hi. apply (Hother n' bs'); [done|pose proof (Hbs n' bs' Hin'); lia|lia].
  - intros a k Ha. apply putn_mapped. by eapply marked_dom.
Qed.

End taken.

End HeapList.
