(* ===== verification/HeapProps.v ===== *)
(** * The properties of the kernel heap *)

From S2P Require Import Prelude KMath VMalloc HeapMem HeapOps HeapList.
Import KMath VMalloc HeapMem HeapOps HeapList.

Module HeapProps.

(** ** A virtual memory allocator for the witnesses

    Pages are handed out one after another from a fixed base, filled with
    0xAA; freed pages are unmapped.  The state is the next address and the
    sizes of the blocks in use. *)

Fixpoint fill_bytes (k : nat) (a v : Z) (m : gmap Z Z) : gmap Z Z :=
  match k with O => m | S k' => fill_bytes k' (a + 1) v (<[a:=v]> m) end.

Definition bump_base : Z := 0xFFFFF00000000000.
Definition bump_limit : Z := 0xFFFFFFFF80000000.

#[global] Instance bump_vmm : VmmIface (Z * gmap Z Z) := {
  vmm_alloc pages := fun '(m, (next, used)) =>
    if (next <? bump_base) || (bump_limit <? next + 4096 * pages) then Panic "vmm: out of memory!"
    else if bool_decide (set_Forall (fun a => a < next) (dom m)) then
      Ok next (fill_bytes (Z.to_nat (4096 * pages)) next 0xAA m, (next + 4096 * pages, <[next:=pages]> used))
    else Panic "vmm: out of memory!";
  vmm_free p := fun '(m, (next, used)) =>
    match used !! p with
    | Some pages => Ok tt (filter (fun '(a, _) => ~ (p <= a < p + 4096 * pages)) m, (next, delete p used))
    | None => Panic "vmm: freeing block that is not in list!"
    end;
}.

Lemma fill_bytes_lookup k a v m i :
  fill_bytes k a v m !! i = if decide (a <= i < a + Z.of_nat k) then Some v else m !! i.
Proof.
  revert a m. induction k as [|k IH]; intros a m; cbn; [by rewrite decide_False by lia|].
  rewrite IH. destruct (decide (i = a)) as [->|].
  - rewrite decide_False, decide_True, lookup_insert_eq by lia. done.
  - rewrite lookup_insert_ne by done. repeat case_decide; done || lia.
Qed.

#[global] Instance bump_laws : VmmLaws (Z * gmap Z Z).
Proof.
  constructor. intros pages m [next used] Hp Hwf. cbn.
  destruct ((next <? bump_base) || (bump_limit <? next + 4096 * pages)) eqn:Hc; [done|].
  case_bool_decide as Hd; [|done]. unfold bump_base, bump_limit in Hc. apply orb_false_iff in Hc as [H1 H2].
  split_and!; [lia|lia|..].
  - intros i v. rewrite fill_bytes_lookup. case_decide; [intros [= <-]; lia|apply Hwf].
  - intros i Hi. rewrite fill_bytes_lookup, decide_True by lia. split; [|eauto].
    apply not_elem_of_dom. intros Hin. specialize (Hd i Hin). cbn in Hd. lia.
  - intros i Hi. by rewrite fill_bytes_lookup, decide_False by lia.
Qed.

Definition empty_heap : heap (Z * gmap Z Z) := Heap ∅ (bump_base, ∅) 0 0.

Definition hafter {A} (c : M (heap (Z * gmap Z Z)) A) (h : heap (Z * gmap Z Z)) : heap (Z * gmap Z Z) :=
  match c h with Ok _ h' => h' | _ => h end.

Lemma empty_heap_ok : heap_ok empty_heap [].
Proof.
  split; cbn; [apply map_Forall_empty|done|constructor|by intros x y ?%elem_of_nil|done|constructor].
Qed.

(** The heap after [vmalloc_init]. *)
Definition init_heap : heap (Z * gmap Z Z) := hafter vmalloc_init empty_heap.

Lemma init_ok : exists p, added empty_heap init_heap [] p 1.
Proof.
  pose proof (add_block_ok empty_heap [] 1 empty_heap_ok ltac:(lia)) as H.
  assert (Hr : match add_block 504 empty_heap with Ok _ _ => true | _ => false end = true) by (vm_compute; reflexivity).
  change (504 * 1) with 504 in H. unfold init_heap, hafter, vmalloc_init.
  destruct (add_block 504 empty_heap); [done|done..].
Qed.

Lemma init_node0 : exists r, added empty_heap init_heap [] r 1 /\ r = bump_base.
Proof.
  destruct init_ok as [p Hp]. exists p. split; [done|].
  destruct (ho_list _ _ (ad_ok _ _ _ _ _ Hp)) as (E & _). rewrite <- E. vm_compute. reflexivity.
Qed.

(** ** Bitmaps *)

(** [mark_bitmap] sets (or clears) exactly the requested sections: they
    may start and end inside bytes and span whole bytes in between; every
    other bit, and every byte outside of the range, keeps its value. *)
Theorem mark_bitmap_exact {VS} `{!VmmIface VS} (h : heap VS) node start bits (used : bool) :
  wf_bytes (bytes h) -> 0 <= start -> 0 < bits -> start + bits <= 2 ^ 35 ->
  mapped (bytes h) (h_mem node + start / 8) ((start + bits - 1) / 8 - start / 8 + 1) ->
  exists m', mark_bitmap node start bits used h = Ok tt (set_bytes (fun _ => m') h) /\
    (forall j, 0 <= j -> bitmap m' (h_mem node) j =
       if decide (start <= j < start + bits) then used else bitmap (bytes h) (h_mem node) j) /\
    (forall x, x < h_mem node + start / 8 \/ h_mem node + (start + bits - 1) / 8 < x -> m' !! x = bytes h !! x).
Proof.
  intros Hwf Hs Hb Hw Hm. destruct (mark_bitmap_run h node start bits used Hwf Hs Hb Hw Hm) as (m' & Hr & [H1 H2 _ _]).
  exists m'. done.
Qed.

Definition demo_heap : heap (Z * gmap Z Z) := Heap (fill_bytes 64 0x1000 0xF0 ∅) (bump_base, ∅) 0x1000 0x1000.

Lemma demo_heap_wf : wf_bytes (bytes demo_heap).
Proof.
  intros i v. cbn [bytes demo_heap]. rewrite fill_bytes_lookup. case_decide; [intros [= <-]; lia|by rewrite lookup_empty].
Qed.

Lemma mark_bitmap_exact_witness :
  exists m', mark_bitmap 0x1000 5 30 true demo_heap = Ok tt (set_bytes (fun _ => m') demo_heap) /\
    (forall j, 0 <= j -> bitmap m' (h_mem 0x1000) j =
       if decide (5 <= j < 5 + 30) then true else bitmap (bytes demo_heap) (h_mem 0x1000) j) /\
    (forall x, x < h_mem 0x1000 + 5 / 8 \/ h_mem 0x1000 + (5 + 30 - 1) / 8 < x -> m' !! x = bytes demo_heap !! x).
Proof.
  apply (mark_bitmap_exact demo_heap 0x1000 5 30 true); [apply demo_heap_wf|lia|lia|lia|].
  intros i Hi. cbn [bytes demo_heap]. rewrite fill_bytes_lookup, decide_True; [eauto|].
  unfold h_mem in Hi. change (5 / 8) with 0 in Hi. change ((5 + 30 - 1) / 8) with 4 in Hi. lia.
Defined.

(** C26. The search loop of [vmalloc], which skips 64 sections at a time over
    zero words, finds the first run of unused sections that is long enough:
    there is one at the section it returns and none before it, and when it
    finds nothing the node has no such run. *)
Theorem vmalloc_scan_is_first_fit {VS} `{!VmmIface VS} (h : heap VS) n bs need :
  wf_bytes (bytes h) -> hnode (bytes h) n bs -> 0 < need < 2 ^ 50 ->
  exists r, scan (S (Z.to_nat bs)) n bs need 0 0 0 h = Ok r h /\
    match r with
    | Some b => 0 <= b /\ b + need <= bs /\ free_run (bitmap (bytes h) (h_mem n)) b need /\
        forall b', 0 <= b' < b -> ~ free_run (bitmap (bytes h) (h_mem n)) b' need
    | None => forall b, 0 <= b -> b + need <= bs -> ~ free_run (bitmap (bytes h) (h_mem n)) b need
    end.
Proof.
  intros Hwf Hn Hneed. destruct (scan_node h n bs need Hwf Hn Hneed) as (r & Hr & Hs).
  exists r. split; [done|]. destruct r; [done|]. intros b Hb Hbn Hrun. apply Hs. by exists b.
Qed.

Lemma vmalloc_scan_is_first_fit_witness :
  exists r, scan (S (Z.to_nat 504)) bump_base 504 200 0 0 0 init_heap = Ok r init_heap /\
    match r with
    | Some b => 0 <= b /\ b + 200 <= 504 /\ free_run (bitmap (bytes init_heap) (h_mem bump_base)) b 200 /\
        forall b', 0 <= b' < b -> ~ free_run (bitmap (bytes init_heap) (h_mem bump_base)) b' 200
    | None => forall b, 0 <= b -> b + 200 <= 504 -> ~ free_run (bitmap (bytes init_heap) (h_mem bump_base)) b 200
    end.
Proof.
  destruct init_node0 as (r & Hp & Er). rewrite Er in Hp.
  apply (vmalloc_scan_is_first_fit init_heap bump_base 504 200).
  - apply (ad_ok _ _ _ _ _ Hp).
  - apply (hlist_node _ _ _ _ _ (ho_list _ _ (ad_ok _ _ _ _ _ Hp))). left.
  - lia.
Defined.

(** ** Allocation *)

Definition sections (size : Z) : Z := (size + 8 + 7) / 8.
Definition blocks (size : Z) : Z := (size + 8 + 4031) / 4032.

(** A block of [need] sections at [p], taken from the heap [h] with the nodes
    [l]: if it lies in one of these nodes its sections were unused; the heap has
    at most got further nodes, in memory that was not mapped; the sections of
    the block are used now, and no other section of the old nodes has changed. *)
Definition block_taken {VS} (h : heap VS) (l : list (Z * Z)) (need p : Z) (h' : heap VS) : Prop :=
  exists n bs b l', heap_ok h' (l ++ l') /\ (n, bs) ∈ l ++ l' /\ p = h_mem n + bm_bytes bs + 8 * b + 8 /\ 0 <= b /\ b + need <= bs /\
    get64 (bytes h') (p - 8) = Some need /\
    ((n, bs) ∈ l -> free_run (bitmap (bytes h) (h_mem n)) b need) /\
    (forall n1 bs1 i, (n1, bs1) ∈ l' -> n1 <= i < n1 + 24 -> bytes h !! i = None) /\
    (forall j, b <= j < b + need -> bitmap (bytes h') (h_mem n) j = true) /\
    (forall n1 bs1 j, (n1, bs1) ∈ l -> 0 <= j < bs1 -> ~ (n1 = n /\ b <= j < b + need) ->
       bitmap (bytes h') (h_mem n1) j = bitmap (bytes h) (h_mem n1) j).

(** The three possible calls of [vmalloc]. *)
Section calls.
Context {VS : Type} `{!VmmIface VS} `{!VmmLaws VS}.
Implicit Types h : heap VS.

(** A block from one of the nodes. *)
Lemma taken_block h h' l n bs b need p :
  heap_ok h l -> (n, bs) ∈ l -> 0 < need < 2 ^ 50 -> fit_ok (bytes h) l need -> taken h h' n bs b need p ->
  free_run (bitmap (bytes h) (h_mem n)) b need -> 0 <= b -> b + need <= bs ->
  (forall b', 0 <= b' < b -> ~ free_run (bitmap (bytes h) (h_mem n)) b' need) -> block_taken h l need p h'.
Proof.
  intros Hok Hin Hneed Hfit Ht Hrun Hb Hbn Hmin. destruct (Hfit n bs b Hin Hb Hbn Hrun Hmin) as [Hm Ha].
  assert (Ep : p = h_mem n + bm_bytes bs + 8 * b + 8) by (destruct Ht as (_ & _ & _ & ->); done).
  destruct (taken_ok h h' l n bs b need p Hok Hin Hb Hneed Hbn Ht) as (Hok' & Hhd & Hbits).
  { by replace (p - 8) with (h_mem n + bm_bytes bs + 8 * b) by lia. }
  { intros n' bs' Hin'. destruct (Ha n' bs' Hin'); [left|right]; lia. }
  exists n, bs, b, []. rewrite app_nil_r. split_and!; try done.
  - intros n1 bs1 i H1%elem_of_nil. done.
  - intros j Hj. rewrite (Hbits n bs) by (done || lia). by rewrite decide_True.
  - intros n1 bs1 j H1 Hj Hne. rewrite (Hbits n1 bs1) by done. by rewrite decide_False.
Qed.

(** A block of the heap that [add_block] has left. *)
Lemma added_block h h1 h' l p1 k need p :
  added h h1 l p1 k -> 0 < k -> block_taken h1 (l ++ [(p1, 504 * k)]) need p h' -> block_taken h l need p h'.
Proof.
  intros Had Hk (n & bs & b & l' & H1 & H2 & H3 & H4 & H5 & H6 & H7 & H8 & H9 & H10).
  exists n, bs, b, ((p1, 504 * k) :: l'). rewrite <- app_assoc in H1, H2. split_and!; try done.
  - intros Hin j Hj. rewrite <- (added_bitmap h h1 l p1 k n bs) by (done || lia). apply H7; [|done]. apply elem_of_app. by left.
  - intros n1 bs1 i [[= -> ->]|Hin]%elem_of_cons Hi; [apply (ad_fresh _ _ _ _ _ Had); lia|].
    destruct (bytes h !! i) as [w|] eqn:E; [|done]. assert (Hm : mapped (bytes h1) i 1).
    { apply (ad_mapped _ _ _ _ _ Had). intros x Hx. replace x with i by lia. eauto. }
    destruct (Hm i) as [w' Hw']; [lia|]. by rewrite (H8 n1 bs1 i Hin Hi) in Hw'.
  - intros n1 bs1 j Hin Hj Hne. rewrite (H10 n1 bs1) by (try done; apply elem_of_app; by left). by apply (added_bitmap h h1 l p1 k n1 bs1).
Qed.

(** One call: it allocates, or no node has room and a node is added. *)
Lemma vmalloc_call calls size h l :
  heap_ok h l -> small_nodes l -> fit_ok (bytes h) l (sections size) -> 0 <= size < 2 ^ 45 ->
  (exists p h', vmalloc_rec calls size h = Ok p h' /\ block_taken h l (sections size) p h') \/
  (Forall (fun x => ~ has_run (bytes h) x.1 x.2 (sections size)) l /\
   ((exists msg, vmalloc_rec calls size h = Panic msg /\ vmm_panics (VS := VS) msg) \/
    exists h' p, added h h' l p (blocks size) /\
      vmalloc_rec calls size h = match calls with O => OutOfFuel | S c => vmalloc_rec c (size + 8) h' end)).
Proof.
  intros Hok Hsm Hd Hsz.
  assert (Hs : 0 < sections size < 2 ^ 50) by (unfold sections; clear -Hsz; dlia).
  assert (Hb : 0 < blocks size < 2 ^ 38) by (unfold blocks; clear -Hsz; dlia).
  assert (Hf : (length l < heap_fuel h)%nat).
  { apply Nat.lt_succ_r. eapply hlist_fuel; [apply Hok|apply Hok]. }
  destruct (find_space_run h (sections size) l (heap_head h) (heap_fuel h)) as [[Hr Hno]|(h' & n & bs & b & Hin & Ht & Hrun & Hb1 & Hb2 & Hmin & Hr)];
    try done; [apply Hok..|by apply fit_data|right; split; [done|]|left].
  - pose proof (add_block_ok h l (blocks size) Hok Hb) as Hadd.
    assert (Hrec : vmalloc_rec calls size h = (add_block (504 * blocks size);;
      match calls with O => out_of_fuel | S c => vmalloc_rec c (size + 8) end) h).
    { destruct calls; cbn [vmalloc_rec]; unfold sizeof_header, SECTION_SIZE; rewrite (u64_small (size + 8)) by lia;
      rewrite (bind_ok _ _ _ _ _ (ceil_div_run (size + 8) 8 _ ltac:(lia) ltac:(lia)));
      replace ((size + 8 + 8 - 1) / 8) with (sections size) by (unfold sections; f_equal; lia);
      unfold mbind at 1 2 3, M_bind at 1 2 3, gets; rewrite Hr;
      rewrite (bind_ok _ _ _ _ _ (ceil_div_run (size + 8) 4032 _ ltac:(lia) ltac:(lia)));
      replace ((size + 8 + 4032 - 1) / 4032) with (blocks size) by (unfold blocks; f_equal; lia);
      rewrite (u64_small (blocks size * 504)) by lia; by rewrite (Z.mul_comm (blocks size) 504). }
    rewrite Hrec. unfold mbind, M_bind.
    destruct (add_block (504 * blocks size) h) as [? h'|msg| |]; [|by left; eauto|done..].
    right. destruct Hadd as [p Hadd]. exists h', p. split; [done|]. by destruct calls.
  - exists (h_mem n + bm_bytes bs + 8 * b + 8), h'. split; [|by eapply taken_block].
    destruct calls; cbn [vmalloc_rec]; unfold sizeof_header, SECTION_SIZE; rewrite (u64_small (size + 8)) by lia;
    rewrite (bind_ok _ _ _ _ _ (ceil_div_run (size + 8) 8 _ ltac:(lia) ltac:(lia)));
    replace ((size + 8 + 8 - 1) / 8) with (sections size) by (unfold sections; f_equal; lia);
    unfold mbind, M_bind, gets; by rewrite Hr.
Qed.

(** A fresh node has room for anything that is not larger than it. *)
Lemma added_has_run h h' l p k need :
  added h h' l p k -> 0 <= need <= 504 * k -> has_run (bytes h') p (504 * k) need.
Proof. intros Had Hn. exists 0. split_and!; [lia|lia|]. intros j Hj. apply (ad_free _ _ _ _ _ Had). lia. Qed.

Lemma sections_next size : sections (size + 8) = sections size + 1.
Proof. unfold sections. dlia. Qed.

Lemma small_added l p size : small_nodes l -> 0 <= size < 2 ^ 37 + 64 -> small_nodes (l ++ [(p, 504 * blocks size)]).
Proof. intros Hl Hs. apply Forall_app. split; [done|]. repeat constructor. unfold blocks. cbn [snd]. clear -Hs. dlia. Qed.

End calls.

(** C7. [vmalloc] of less than 2^37 bytes terminates: it calls itself at most
    twice, since the second block it adds always has room.  On a well-formed
    heap whose bitmaps have at most 2^35 bits, and where the first run of
    sections that is long enough does not begin behind the pages of its node or
    in the header of another one (the last sections of a small node do, since
    [add_block] does not count the header), it returns a block that is large
    enough, or the allocator of virtual memory has panicked.  The sections of
    the block were unused, or belong to a new node in memory that was not mapped;
    they are used now, no other section of the nodes has changed, and the heap
    is well-formed. *)
Theorem vmalloc_returns {VS} `{!VmmIface VS} `{!VmmLaws VS} (h : heap VS) l size :
  heap_ok h l -> small_nodes l -> 0 <= size < 2 ^ 37 ->
  (forall need, sections size <= need <= sections size + 2 -> fit_ok (bytes h) l need) ->
  (exists msg, vmalloc size h = Panic msg /\ vmm_panics (VS := VS) msg) \/
  exists p h' need, vmalloc size h = Ok p h' /\ block_taken h l need p h' /\ size + 8 <= 8 * need.
Proof.
  intros Hok Hsm Hsz Hfit. unfold vmalloc.
  assert (Hneed : forall s, 0 <= s -> s + 8 <= 8 * sections s) by (intros s Hs; unfold sections; clear -Hs; dlia).
  pose proof (sections_next size) as E1. pose proof (sections_next (size + 8)) as E2.
  assert (Hpos : 0 < sections size) by (unfold sections; clear -Hsz; dlia). assert (Hbpos : forall s, 0 <= s -> 0 < blocks s) by (intros s Hs; unfold blocks; clear -Hs; dlia).
  destruct (vmalloc_call 2 size h l Hok Hsm) as [(p & h' & Hr & Ha)|[_ [(msg & Hr & Hvp)|(h1 & p1 & Had1 & Hr)]]]; [apply Hfit; lia|lia|..].
  { right. exists p, h', (sections size). split_and!; [done|done|]. apply Hneed. lia. }
  { left. eauto. }
  rewrite Hr. clear Hr. pose proof (ad_ok _ _ _ _ _ Had1) as Hok1.
  assert (Hsm1 : small_nodes (l ++ [(p1, 504 * blocks size)])) by (apply small_added; [done|lia]).
  assert (Hf1 : forall need, sections (size + 8) <= need <= sections (size + 8) + 1 -> fit_ok (bytes h1) (l ++ [(p1, 504 * blocks size)]) need).
  { intros need Hn. apply (added_fit h); [lia|apply Hbpos; lia|done|done|apply Hfit; lia]. }
  destruct (vmalloc_call 1 (size + 8) h1 _ Hok1 Hsm1) as [(p & h' & Hr & Ha)|[Hno [(msg & Hr & Hvp)|(h2 & p2 & Had2 & Hr)]]]; [apply Hf1; lia|lia|..].
  { right. exists p, h', (sections (size + 8)). split_and!; [done|apply (added_block h h1 h' l p1 (blocks size)); [done|apply Hbpos; lia|done]|].
    pose proof (Hneed (size + 8)). lia. }
  { left. eauto. }
  rewrite Hr. clear Hr. pose proof (ad_ok _ _ _ _ _ Had2) as Hok2.
  assert (Hfull : 504 * blocks size < sections (size + 8)).
  { apply Forall_app in Hno as [_ Hno]. apply Forall_cons in Hno as [Hno _]. cbn in Hno.
    destruct (decide (504 * blocks size < sections (size + 8))); [done|]. exfalso. apply Hno.
    eapply added_has_run; [done|]. split; [unfold sections; clear -Hsz; dlia|lia]. }
  assert (Hsm2 : small_nodes ((l ++ [(p1, 504 * blocks size)]) ++ [(p2, 504 * blocks (size + 8))])) by (apply small_added; [done|lia]).
  destruct (vmalloc_call 0 (size + 8 + 8) h2 _ Hok2 Hsm2) as [(p & h' & Hr & Ha)|[Hno2 _]]; [|lia|..].
  { apply (added_fit h1); [lia|apply Hbpos; lia|done|done|apply Hf1; lia]. }
  { right. exists p, h', (sections (size + 8 + 8)). pose proof (Hneed (size + 8 + 8)). split_and!; [done| |lia].
    apply (added_block h h1 h' l p1 (blocks size)); [done|apply Hbpos; lia|]. apply (added_block h1 h2 h' _ p2 (blocks (size + 8))); [done|apply Hbpos; lia|done]. }
  apply Forall_app in Hno2 as [_ Hno2]. apply Forall_cons in Hno2 as [Hno2 _]. cbn in Hno2. exfalso. apply Hno2.
  eapply added_has_run; [done|]. unfold sections, blocks in *. clear -Hfull Hsz. dlia.
Qed.

Lemma init_heap_ok : heap_ok init_heap [(bump_base, 504)].
Proof. destruct init_node0 as (r & Hp & ->). exact (ad_ok _ _ _ _ _ Hp). Qed.

Lemma init_heap_fit need : 0 < need -> fit_ok (bytes init_heap) [(bump_base, 504)] need.
Proof.
  intros Hn. destruct init_node0 as (r & Hp & ->). apply (added_fit empty_heap init_heap [] bump_base 1 need Hn ltac:(lia) Hp empty_heap_ok).
  by intros n bs b ?%elem_of_nil.
Qed.

(** The first allocation after [vmalloc_init], in its only node, and one that
    needs a larger node. *)
Lemma vmalloc_returns_witness :
  ((exists msg, vmalloc 100 init_heap = Panic msg /\ vmm_panics (VS := Z * gmap Z Z) msg) \/
   exists p h' need, vmalloc 100 init_heap = Ok p h' /\ block_taken init_heap [(bump_base, 504)] need p h' /\ 100 + 8 <= 8 * need) /\
  ((exists msg, vmalloc 5000 init_heap = Panic msg /\ vmm_panics (VS := Z * gmap Z Z) msg) \/
   exists p h' need, vmalloc 5000 init_heap = Ok p h' /\ block_taken init_heap [(bump_base, 504)] need p h' /\ 5000 + 8 <= 8 * need).
Proof.
  split; (apply (vmalloc_returns init_heap [(bump_base, 504)]);
    [apply init_heap_ok|apply Forall_singleton; cbn; lia|lia|intros need Hneed; apply init_heap_fit; vm_compute in Hneed; destruct Hneed; destruct need; (done || lia)]).
Defined.

(** ** Freeing *)

Lemma byte_ext v w : 0 <= v < 256 -> 0 <= w < 256 -> (forall q, 0 <= q < 8 -> QUERY_BIT v q = QUERY_BIT w q) -> v = w.
Proof.
  intros Hv Hw Hq. apply Z.bits_inj'. intros i Hi. destruct (decide (i < 8)).
  - specialize (Hq (7 - i) ltac:(lia)). rewrite !QUERY_testbit in Hq. by replace (7 - (7 - i)) with i in Hq by lia.
  - rewrite (testbit_above v 8 i), (testbit_above w 8 i) by lia. done.
Qed.

(** Bytes of bitmaps with the same bits. *)
Lemma bitmap_byte m m' a k : wf_bytes m -> wf_bytes m' -> forall i, i = a + k -> is_Some (m !! i) -> is_Some (m' !! i) ->
  (forall j, 8 * k <= j < 8 * k + 8 -> bitmap m a j = bitmap m' a j) -> m !! i = m' !! i.
Proof.
  intros Hwf Hwf' i -> [v Hv] [w Hw] Hb. rewrite Hv, Hw. f_equal. apply byte_ext; [by apply (Hwf _ _ Hv)|by apply (Hwf' _ _ Hw)|].
  intros q Hq. specialize (Hb (8 * k + q) ltac:(lia)). unfold bitmap in Hb. replace ((8 * k + q) / 8) with k in Hb by dlia.
  rewrite Hv, Hw in Hb. by replace ((8 * k + q) mod 8) with q in Hb by dlia.
Qed.

(** A block of the first node is given back: nothing is left of it but its
    header. *)
Lemma vfree_taken {VS} `{!VmmIface VS} (h h' : heap VS) n bs total b need p :
  heap_head h = n -> wf_bytes (bytes h) -> hnode (bytes h) n bs ->
  get64 (bytes h) (h_total_size n) = Some total -> bm_bytes bs + 8 * bs <= total -> n + 32 + total < W64 ->
  0 <= b -> 0 < need -> b + need <= bs -> bs <= 2 ^ 35 -> free_run (bitmap (bytes h) (h_mem n)) b need ->
  mapped (bytes h) (h_mem n + bm_bytes bs + 8 * b) 8 -> taken h h' n bs b need p ->
  exists m'', vfree p h' = Ok tt (set_bytes (fun _ => m'') h) /\ forall i, i < p - 8 \/ p <= i -> m'' !! i = bytes h !! i.
Proof.
  intros Hhd Hwf Hn Htot Htb Hhi Hb Hneed Hbn Hsm Hrun Hmap (m1 & Hmk & -> & ->).
  destruct Hn as [Hp Hs Hbs Hm]. unfold h_mem in *.
  replace (n + 24 + bm_bytes bs + 8 * b + 8 - 8) with (n + 24 + bm_bytes bs + 8 * b) by lia.
  set (a := n + 24 + bm_bytes bs + 8 * b) in *. set (m2 := put64 m1 a need).
  assert (Hbm : 0 <= bm_bytes bs) by (apply Z.div_pos; lia).
  assert (He : b / 8 <= (b + need - 1) / 8 < bm_bytes bs /\ 0 <= b / 8) by (unfold bm_bytes; clear -Hbn Hneed Hb; dlia).
  assert (Hlow : forall i, i < n + 24 -> m2 !! i = bytes h !! i).
  { intros i Hi. unfold m2, put64. rewrite putn_out by lia. apply (mk_out _ _ _ _ _ _ Hmk). lia. }
  assert (Hget : forall k, k + 8 <= n + 24 -> get64 m2 k = get64 (bytes h) k).
  { intros k Hk. apply (getn_ext 8). intros i Hi. apply Hlow. lia. }
  assert (Hmp : forall x k, mapped (bytes h) x k -> mapped m2 x k).
  { intros x k Hx. apply putn_mapped. by eapply marked_dom. }
  destruct (mark_bitmap_run (set_bytes (fun _ => m2) h) n b need false) as (m3 & Hr & Hmk3);
    [by apply wf_putn, Hmk|done|done|lia|apply Hmp; intros i Hi; unfold h_mem in Hi; apply Hm; lia|].
  cbn [bytes set_bytes] in Hmk3. exists m3. split.
  - unfold vfree, get_block_size, sizeof_header. rewrite (u64_small (a + 8 - 8)) by lia.
    replace (a + 8 - 8) with a by lia.
    erewrite bind_ok; [|apply rd64_run; cbn; apply (getn_putn 8); cbn; lia].
    unfold mbind at 1 2, M_bind at 1 2, gets, heap_fuel. cbn [vfree_walk heap_head set_bytes]. rewrite Hhd.
    destruct (Z.eqb_spec n 0); [lia|].
    erewrite bind_ok; [|apply rd64_run; cbn; rewrite Hget by (unfold h_total_size; lia); exact Htot].
    erewrite bind_ok; [|apply rd64_run; cbn; rewrite Hget by (unfold h_bitmap_size; lia); exact Hbs].
    rewrite (bind_ok _ _ _ _ _ (ceil_div_run bs 8 _ ltac:(lia) ltac:(lia))).
    replace ((bs + 8 - 1) / 8) with (bm_bytes bs) by (unfold bm_bytes; f_equal; lia). unfold h_mem.
    assert (Hbb : bm_bytes bs <= bs) by (unfold bm_bytes; clear -Hs; dlia).
    rewrite (u64_small (n + 24 + bm_bytes bs)), (u64_small (n + 24 + total)) by lia.
    rewrite (u64_small (a - (n + 24 + bm_bytes bs))) by lia.
    destruct (Z.leb_spec (n + 24 + bm_bytes bs) a); [|lia]. destruct (Z.leb_spec a (n + 24 + total)); [|lia].
    cbn [andb]. unfold SECTION_SIZE. replace ((a - (n + 24 + bm_bytes bs)) / 8) with b by (subst a; clear; dlia).
    erewrite bind_ok; [|exact Hr]. unfold release_if_unused. rewrite Z.eqb_refl. done.
  - intros i Hi. assert (Hbyte : forall j, 0 <= j -> (n + 24 + j / 8 < a \/ a + 8 <= n + 24 + j / 8) -> bitmap m3 (h_mem n) j = bitmap (bytes h) (h_mem n) j).
    { intros j Hj Hja. rewrite (mk_bits _ _ _ _ _ _ Hmk3) by lia. case_decide as Hd; [symmetry; by apply Hrun|].
      assert (bitmap m2 (h_mem n) j = bitmap m1 (h_mem n) j) as -> by (unfold bitmap, h_mem, m2, put64; rewrite putn_out; [done|lia]).
      unfold h_mem. rewrite (mk_bits _ _ _ _ _ _ Hmk) by lia. by rewrite decide_False. }
    destruct (decide (n + 24 + b / 8 <= i <= n + 24 + (b + need - 1) / 8)) as [Hin|Hin].
    + apply (bitmap_byte m3 (bytes h) (h_mem n) (i - (n + 24))); [apply Hmk3|done|unfold h_mem; lia|..].
      * eapply mk_dom; [exact Hmk3|]. apply (Hmp _ _ Hm). unfold h_mem. lia.
      * apply Hm. unfold h_mem. lia.
      * intros j Hj. apply Hbyte; [clear -Hj Hin He; dlia|]. replace (n + 24 + j / 8) with i by (clear -Hj; dlia). lia.
    + rewrite (mk_out _ _ _ _ _ _ Hmk3) by (unfold h_mem; lia). unfold m2, put64. rewrite putn_out by lia. apply (mk_out _ _ _ _ _ _ Hmk). lia.
Qed.

(** The first node has room: the block is taken there. *)
Lemma find_space_first {VS} `{!VmmIface VS} (h : heap VS) n bs l need fuel :
  heap_ok h ((n, bs) :: l) -> 0 < need < 2 ^ 50 -> bs <= 2 ^ 35 -> has_run (bytes h) n bs need -> fit_ok (bytes h) ((n, bs) :: l) need ->
  exists b h', find_space (S fuel) n need h = Ok (Some (h_mem n + bm_bytes bs + 8 * b + 8)) h' /\
    taken h h' n bs b need (h_mem n + bm_bytes bs + 8 * b + 8) /\ 0 <= b /\ b + need <= bs /\ free_run (bitmap (bytes h) (h_mem n)) b need /\
    mapped (bytes h) (h_mem n + bm_bytes bs + 8 * b) 8.
Proof.
  intros [Hwf (_ & Hn & nx & Hx & Hl) _ _ _ Hlow] Hneed Hsm Hrun Hfit. pose proof (hn_pos _ _ _ Hn) as Hpos. cbn [find_space].
  destruct (Z.eqb_spec n 0); [lia|]. rewrite (bind_ok _ _ _ _ _ (rd64_run _ _ _ (hn_bs _ _ _ Hn))).
  destruct (scan_node h n bs need Hwf Hn Hneed) as (r & Hr & Hspec). rewrite (bind_ok _ _ _ _ _ Hr). destruct r as [b|]; [|done].
  destruct Hspec as (Hb1 & Hb2 & Hb3 & Hb4). destruct (Hfit n bs b ltac:(left) Hb1 Hb2 Hb3 Hb4) as [Hm _].
  apply Forall_cons in Hlow as [Hlow _]. cbn in Hlow.
  destruct (take_run h n bs need b) as (h' & Ht & Hrun'); try done. by exists b, h'.
Qed.

(** C27. A block is given back entirely.  On a well-formed heap whose first node
    has a bitmap of at most 2^35 bits and room for a request of less than 2^37
    bytes, at a place that does not begin behind the node's pages or in another
    node's header, [vmalloc] followed by [vfree] of its result succeeds, and the
    whole heap, with its list of nodes, all bitmaps and all data, is as it was
    before, except for the eight bytes of the block's header. *)
Theorem vfree_undoes_vmalloc {VS} `{!VmmIface VS} (h : heap VS) n bs l total size :
  heap_ok h ((n, bs) :: l) -> bs <= 2 ^ 35 -> 0 <= size < 2 ^ 37 ->
  get64 (bytes h) (h_total_size n) = Some total -> bm_bytes bs + 8 * bs <= total -> n + 32 + total < W64 ->
  has_run (bytes h) n bs (sections size) -> fit_ok (bytes h) ((n, bs) :: l) (sections size) ->
  exists p h' m, vmalloc size h = Ok p h' /\ vfree p h' = Ok tt (set_bytes (fun _ => m) h) /\
    forall i, i < p - 8 \/ p <= i -> m !! i = bytes h !! i.
Proof.
  intros Hok Hsm Hsz Htot Htb Hhi Hrun Hfit. assert (Hs : 0 < sections size < 2 ^ 50) by (unfold sections; clear -Hsz; dlia).
  pose proof Hok as [Hwf (Hhd & Hn & _) _ _ _ _].
  destruct (find_space_first h n bs l (sections size) (base.size (bytes h)) Hok Hs Hsm Hrun Hfit) as (b & h' & Hr & Ht & Hb & Hbn & Hfree & Hm).
  destruct (vfree_taken h h' n bs total b (sections size) (h_mem n + bm_bytes bs + 8 * b + 8)) as (m & Hf & Hout); try done; [lia|].
  exists (h_mem n + bm_bytes bs + 8 * b + 8), h', m. split; [|done].
  unfold vmalloc. cbn [vmalloc_rec]. unfold sizeof_header, SECTION_SIZE. rewrite (u64_small (size + 8)) by lia.
  rewrite (bind_ok _ _ _ _ _ (ceil_div_run (size + 8) 8 _ ltac:(lia) ltac:(lia))).
  replace ((size + 8 + 8 - 1) / 8) with (sections size) by (unfold sections; f_equal; lia).
  rewrite bind_gets, Hhd, bind_gets. unfold heap_fuel. rewrite (bind_ok _ _ _ _ _ Hr). done.
Qed.

Lemma vfree_undoes_vmalloc_witness :
  exists p h' m, vmalloc 100 init_heap = Ok p h' /\ vfree p h' = Ok tt (set_bytes (fun _ => m) init_heap) /\
    forall i, i < p - 8 \/ p <= i -> m !! i = bytes init_heap !! i.
Proof.
  apply (vfree_undoes_vmalloc init_heap bump_base 504 [] 4095 100).
  - apply init_heap_ok.
  - lia.
  - lia.
  - vm_compute. reflexivity.
  - vm_compute. congruence.
  - vm_compute. reflexivity.
  - destruct init_node0 as (r & Hp & ->). apply (added_has_run empty_heap init_heap [] bump_base 1 (sections 100) Hp). vm_compute. split; congruence.
  - apply init_heap_fit. vm_compute. reflexivity.
Defined.

(** ** The size of a block *)

(** Fill the first node with one block, allocate a second block, and clear the first. *)
Definition overflow_run : M (heap (Z * gmap Z Z)) (Z * Z) :=
  vmalloc_init;;
  p ← vmalloc 4024;
  q ← vmalloc 100;
  heap_memset p 0 4024;;
  mret (p, q).

(** The header of a node is not counted in the pages [add_block] asks for:
    the last sections of a node lie behind its pages.  A caller that clears the
    4024 bytes it was given overwrites the header of the next node, and the
    block allocated there can no longer be freed. *)
Theorem add_block_header_overflow :
  exists p q h, overflow_run empty_heap = Ok (p, q) h /\ heap_tail h = bump_base + 4096 /\
    p + 4024 = heap_tail h + 23 /\ vfree q h = Panic "vfree: something is very wrong".
Proof.
  assert (H : match overflow_run empty_heap with
    | Ok (p, q) h => (heap_tail h =? bump_base + 4096) && (p + 4024 =? heap_tail h + 23) &&
        match vfree q h with Panic msg => bool_decide (msg = "vfree: something is very wrong"%string) | _ => false end
    | _ => false end = true) by (vm_compute; reflexivity).
  destruct (overflow_run empty_heap) as [[p q] h| | |]; [|done..].
  apply andb_true_iff in H as [[H1 H2]%andb_true_iff H3].
  apply Z.eqb_eq in H1, H2. exists p, q, h. split_and!; try done.
  destruct (vfree q h); try done. apply bool_decide_eq_true in H3. by subst.
Qed.

End HeapProps.
