(* ===== verification/Output.v ===== *)
(** * io/output.c: formatted output

    The output device is the list of the characters sent to it.  A variable
    argument is a number, a character or a string; reading an argument of
    another kind, or a format past its end, is undefined in C and has no
    result here. *)

From S2P Require Import Prelude.

Module Output.

Definition U64_MAX_LENGTH_DEC : Z := 20.
Definition POWERS_10 : list Z :=
  [1; 10; 100; 1000; 10000; 100000; 1000000; 10000000; 100000000; 1000000000;
   10000000000; 100000000000; 1000000000000; 10000000000000; 100000000000000;
   1000000000000000; 10000000000000000; 100000000000000000; 1000000000000000000;
   10000000000000000000].

Definition U32_MAX_LENGTH_HEX : Z := 16.
Definition POWERS_16 : list Z :=
  [0x1; 0x10; 0x100; 0x1000; 0x10000; 0x100000; 0x1000000; 0x10000000;
   0x100000000; 0x1000000000; 0x10000000000; 0x100000000000; 0x1000000000000;
   0x10000000000000; 0x100000000000000; 0x1000000000000000].

(** What a conversion leaves: the characters printed, in order, and their count. *)
Record out := Out { text : list Z; length_ : Z }.
Definition nothing : out := Out [] 0.
(** [putchar(c, dest); length++] *)
Definition put (c : Z) (o : out) : out := Out (text o ++ [u8 c]) (u32 (length_ o + 1)).

(** the digit loop of [%u]: the powers from the largest to the smallest *)
Fixpoint dec_loop (powers : list Z) (num : Z) (hasPrinted : bool) (o : out) : out :=
  match powers with
  | [] => o
  | power :: rest =>
    let divide := num / power in
    if divide =? 0 then dec_loop rest num hasPrinted (if hasPrinted then put 48 o else o)
    else dec_loop rest (num mod power) true (put (divide + 48) o)
  end.

Definition print_dec (num : Z) (o : out) : out :=
  if num =? 0 then put 48 o else dec_loop (rev POWERS_10) num false o.

(** the digit loop of [%x] *)
Fixpoint hex_loop (powers : list Z) (num : Z) (hasPrinted : bool) (o : out) : out :=
  match powers with
  | [] => o
  | power :: rest =>
    let divide := num / power in
    if divide =? 0 then hex_loop rest num hasPrinted (if hasPrinted then put 48 o else o)
    else hex_loop rest (num mod power) true (put (divide + (if divide <=? 9 then 48 else 55)) o)
  end.

Definition print_hex (num : Z) (o : out) : out :=
  if num =? 0 then put 48 o else hex_loop (rev POWERS_16) num false o.

(** the loop of [%s] *)
Definition print_str (str : list Z) (o : out) : out := foldl (fun o c => put c o) o str.

Inductive arg := ANum (n : Z) | AChar (c : Z) | AStr (s : list Z).

(** [format] is the string without its terminating 0. *)
Fixpoint printf (format : list Z) (args : list arg) (o : out) : option out :=
  match format with
  | [] => Some o
  | 37 :: rest =>
    match rest with
    | [] => None
    | 37 :: rest' => printf rest' args (put 37 o)
    | 117 :: rest' =>
      match args with ANum n :: args' => printf rest' args' (print_dec n o) | _ => None end
    | 120 :: rest' =>
      match args with ANum n :: args' => printf rest' args' (print_hex n o) | _ => None end
    | 99 :: rest' =>
      match args with AChar c :: args' => printf rest' args' (put c o) | _ => None end
    | 115 :: rest' =>
      match args with AStr s :: args' => printf rest' args' (print_str s o) | _ => None end
    | _ :: rest' => printf rest' args o
    end
  | c :: rest => printf rest args (put c o)
  end.

(** A string literal as the list of its character codes. *)
Definition chars (s : string) : list Z :=
  (fun c => Z.of_nat (Ascii.nat_of_ascii c)) <$> String.list_ascii_of_string s.

(** [serial_debug], [serial_info], [serial_warn] and [serial_error] (with the
    configured PRINT_..._SERIAL = 1): prefix, message and newline.  The returned
    count is that of the message. *)
Definition serial_line (prefix : string) (format : list Z) (args : list arg) : option (list Z * Z) :=
  match printf format args nothing with
  | Some o => Some (chars prefix ++ text o ++ [10], length_ o)
  | None => None
  end.
Definition serial_debug := serial_line "DEBUG: ".
Definition serial_info := serial_line "INFO:  ".
Definition serial_warn := serial_line "WARN:  ".
Definition serial_error := serial_line "ERROR: ".
Definition serial_print_no_fancy (format : list Z) (args : list arg) : option (list Z * Z) :=
  match printf format args nothing with Some o => Some (text o, length_ o) | None => None end.

(** ** Digits and their values *)

Definition dec_digit (c : Z) : Z := c - 48.
Definition hex_digit (c : Z) : Z := if c <=? 57 then c - 48 else c - 55.

(** The number that a list of digits denotes. *)
Definition value (base : Z) (digit : Z -> Z) (l : list Z) : Z := foldl (fun v c => v * base + digit c) 0 l.

Lemma value_snoc base digit l c : value base digit (l ++ [c]) = value base digit l * base + digit c.
Proof. unfold value. by rewrite foldl_app. Qed.

Section digits.
Context (base : Z) (digit : Z -> Z) (code : Z -> Z).
Hypothesis Hbase : 2 <= base.
Hypothesis Hcode : forall d, 0 <= d < base -> 0 <= code d < 256 /\ digit (code d) = d.
Hypothesis Hcode0 : code 0 = 48.

(** The common form of the two loops. *)
Fixpoint digit_loop (powers : list Z) (num : Z) (hasPrinted : bool) (o : out) : out :=
  match powers with
  | [] => o
  | power :: rest =>
    let divide := num / power in
    if divide =? 0 then digit_loop rest num hasPrinted (if hasPrinted then put 48 o else o)
    else digit_loop rest (num mod power) true (put (code divide) o)
  end.

(** The powers base^(n-1), ..., 1. *)
Fixpoint powers (n : nat) : list Z :=
  match n with O => [] | S n' => base ^ Z.of_nat n' :: powers n' end.

Definition digits_ok (l : list Z) : Prop := Forall (fun c => exists d, 0 <= d < base /\ c = code d) l.

Lemma digit_zero : 0 <= 48 < 256 /\ digit 48 = 0.
Proof. rewrite <- Hcode0. apply Hcode. lia. Qed.

(** Once a digit has been printed, the rest follows with leading zeros. *)
Lemma digit_loop_rest n : forall num o,
  0 <= num < base ^ Z.of_nat n ->
  exists l, digit_loop (powers n) num true o = foldl (fun o c => put c o) o l /\
    length l = n /\ digits_ok l /\ forall v, foldl (fun v c => v * base + digit c) v l = v * base ^ Z.of_nat n + num.
Proof.
  induction n as [|n IH]; intros num o Hnum; cbn [powers digit_loop].
  { exists []. split_and!; try done; [constructor|]. intros v. cbn in *. lia. }
  set (p := base ^ Z.of_nat n) in *. assert (Hp : 0 < p) by (apply Z.pow_pos_nonneg; lia).
  assert (Hpow : base ^ Z.of_nat (S n) = base * p) by (rewrite Nat2Z.inj_succ, Z.pow_succ_r by lia; done).
  rewrite Hpow in *. pose proof (Z.div_mod num p ltac:(lia)). pose proof (Z.mod_pos_bound num p Hp).
  assert (Hd : 0 <= num / p < base) by (split; [apply Z.div_pos; lia|apply Z.div_lt_upper_bound; lia]).
  destruct (Z.eqb_spec (num / p) 0) as [E|E].
  - destruct (IH num (put 48 o)) as (l & Hl & Hlen & Hok & Hv); [rewrite E in *; lia|].
    exists (48 :: l). split_and!; [done|by rewrite <- Hlen|constructor; [exists 0; split; [lia|done]|done]|].
    intros v. cbn. rewrite Hv, (proj2 digit_zero). lia.
  - destruct (IH (num mod p) (put (code (num / p)) o)) as (l & Hl & Hlen & Hok & Hv); [done|].
    exists (code (num / p) :: l). split_and!; [done|by rewrite <- Hlen|constructor; [by exists (num / p)|done]|].
    intros v. cbn. rewrite Hv, (proj2 (Hcode _ Hd)). lia.
Qed.

(** The digits printed for a positive number: no leading zero, and its value. *)
Lemma digit_loop_first n : forall num o,
  0 < num < base ^ Z.of_nat n ->
  exists d l, digit_loop (powers n) num false o = foldl (fun o c => put c o) o (code d :: l) /\
    0 < d < base /\ (length l < n)%nat /\ digits_ok (code d :: l) /\ value base digit (code d :: l) = num.
Proof.
  induction n as [|n IH]; intros num o Hnum; [cbn in Hnum; lia|]. cbn [powers digit_loop].
  set (p := base ^ Z.of_nat n) in *. assert (Hp : 0 < p) by (apply Z.pow_pos_nonneg; lia).
  assert (Hpow : base ^ Z.of_nat (S n) = base * p) by (rewrite Nat2Z.inj_succ, Z.pow_succ_r by lia; done).
  rewrite Hpow in *. pose proof (Z.div_mod num p ltac:(lia)). pose proof (Z.mod_pos_bound num p Hp).
  assert (Hd : 0 <= num / p < base) by (split; [apply Z.div_pos; lia|apply Z.div_lt_upper_bound; lia]).
  destruct (Z.eqb_spec (num / p) 0) as [E|E].
  - destruct (IH num o) as (d & l & Hl & Hdr & Hlen & Hok & Hv); [rewrite E in *; lia|].
    exists d, l. split_and!; try done; lia.
  - destruct (digit_loop_rest n (num mod p) (put (code (num / p)) o)) as (l & Hl & Hlen & Hok & Hv); [done|].
    exists (num / p), l. split_and!; [done|lia|lia|lia|constructor; [by exists (num / p)|done]|].
    unfold value. cbn [foldl]. rewrite Hv, (proj2 (Hcode _ Hd)). fold p. lia.
Qed.
End digits.

(** Printing a list of characters appends it and counts it. *)
Lemma put_all l o :
  Forall (fun c => 0 <= c < 256) l -> length_ o = u32 (Z.of_nat (length (text o))) ->
  text (foldl (fun o c => put c o) o l) = text o ++ l /\
  length_ (foldl (fun o c => put c o) o l) = u32 (Z.of_nat (length (text o ++ l))).
Proof.
  revert o. induction l as [|c l IH]; intros o Hl Ho; cbn [foldl]; [by rewrite app_nil_r|].
  apply Forall_cons in Hl as [Hc Hl].
  destruct (IH (put c o)) as [H1 H2]; [done| |].
  - cbn. rewrite Ho, length_app. cbn. unfold u32. rewrite Zplus_mod_idemp_l. f_equal. lia.
  - rewrite H1, H2. cbn. rewrite u8_small by done. by rewrite <- app_assoc.
Qed.

Lemma dec_loop_digits ps num b o :
  dec_loop ps num b o = digit_loop (fun d => d + 48) ps num b o.
Proof. revert num b o. induction ps as [|p ps IH]; intros num b o; cbn; [done|]. by case_match; rewrite IH. Qed.

Lemma hex_loop_digits ps num b o :
  hex_loop ps num b o = digit_loop (fun d => d + (if d <=? 9 then 48 else 55)) ps num b o.
Proof. revert num b o. induction ps as [|p ps IH]; intros num b o; cbn; [done|]. by case_match; rewrite IH. Qed.

(** ** The properties *)

(** [%u] prints a 64-bit number in decimal: only digits, no leading zero
    (except for 0 itself), and their value is the number; the count is right. *)
Theorem printf_u_decimal n :
  0 <= n < W64 ->
  exists l, printf [37; 117] [ANum n] nothing = Some (Out l (Z.of_nat (length l))) /\
    Forall (fun c => 48 <= c <= 57) l /\ value 10 dec_digit l = n /\
    (n <> 0 -> exists c l', l = c :: l' /\ c <> 48) /\ (length l <= 20)%nat.
Proof.
  intros Hn. cbn [printf]. unfold print_dec. destruct (Z.eqb_spec n 0) as [->|Hz].
  - exists [48]. split_and!; try done; [repeat constructor; lia|cbn; lia].
  - rewrite dec_loop_digits. change (rev POWERS_10) with (powers 10 20).
    destruct (digit_loop_first 10 dec_digit (fun d => d + 48)) with (n := 20%nat) (num := n) (o := nothing)
      as (d & l & Hl & Hd & Hlen & Hok & Hv); [lia|intros d Hd; unfold dec_digit; lia|done|cbn; lia|].
    assert (Hr : Forall (fun c => 48 <= c <= 57) ((d + 48) :: l)).
    { eapply Forall_impl; [exact Hok|]. intros c (x & Hx & ->). lia. }
    destruct (put_all ((d + 48) :: l) nothing) as [Ht Hln]; [eapply Forall_impl; [exact Hr|]; cbn; lia|done|].
    exists ((d + 48) :: l). split_and!; [|done|done|exists (d + 48), l; split; [done|lia]|cbn; lia].
    rewrite Hl. f_equal. destruct (foldl _ _ _) as [t ln]. cbn in Ht, Hln. subst t ln. f_equal.
    apply u32_small. cbn. lia.
Qed.

Lemma printf_u_decimal_witness :
  exists l, printf [37; 117] [ANum 18446744073709551615] nothing = Some (Out l (Z.of_nat (length l))) /\
    Forall (fun c => 48 <= c <= 57) l /\ value 10 dec_digit l = 18446744073709551615 /\
    (18446744073709551615 <> 0 -> exists c l', l = c :: l' /\ c <> 48) /\ (length l <= 20)%nat.
Proof. apply (printf_u_decimal 18446744073709551615). lia. Defined.

(** [%x] prints a 64-bit number in hexadecimal with upper-case digits, no
    leading zero, and the right value and count. *)
Theorem printf_x_hexadecimal n :
  0 <= n < W64 ->
  exists l, printf [37; 120] [ANum n] nothing = Some (Out l (Z.of_nat (length l))) /\
    Forall (fun c => 48 <= c <= 57 \/ 65 <= c <= 70) l /\ value 16 hex_digit l = n /\
    (n <> 0 -> exists c l', l = c :: l' /\ c <> 48) /\ (length l <= 16)%nat.
Proof.
  intros Hn. cbn [printf]. unfold print_hex. destruct (Z.eqb_spec n 0) as [->|Hz].
  - exists [48]. split_and!; try done; [repeat constructor; lia|cbn; lia].
  - rewrite hex_loop_digits. change (rev POWERS_16) with (powers 16 16).
    set (code := fun d : Z => d + (if d <=? 9 then 48 else 55)).
    assert (Hcode : forall d, 0 <= d < 16 -> 0 <= code d < 256 /\ hex_digit (code d) = d).
    { intros d Hd. unfold code, hex_digit. btests; lia. }
    destruct (digit_loop_first 16 hex_digit code) with (n := 16%nat) (num := n) (o := nothing)
      as (d & l & Hl & Hd & Hlen & Hok & Hv); [lia|done|done|cbn; lia|].
    assert (Hr : Forall (fun c => 48 <= c <= 57 \/ 65 <= c <= 70) (code d :: l)).
    { eapply Forall_impl; [exact Hok|]. intros c (x & Hx & ->). unfold code. btests; lia. }
    destruct (put_all (code d :: l) nothing) as [Ht Hln]; [eapply Forall_impl; [exact Hr|]; cbn; lia|done|].
    exists (code d :: l). split_and!; [|done|done|exists (code d), l; split; [done|unfold code; btests; lia]|cbn; lia].
    rewrite Hl. f_equal. destruct (foldl _ _ _) as [t ln]. cbn in Ht, Hln. subst t ln. f_equal.
    apply u32_small. cbn. lia.
Qed.

Lemma printf_x_hexadecimal_witness :
  exists l, printf [37; 120] [ANum 0xDEADBEEF] nothing = Some (Out l (Z.of_nat (length l))) /\
    Forall (fun c => 48 <= c <= 57 \/ 65 <= c <= 70) l /\ value 16 hex_digit l = 0xDEADBEEF /\
    (0xDEADBEEF <> 0 -> exists c l', l = c :: l' /\ c <> 48) /\ (length l <= 16)%nat.
Proof. apply (printf_x_hexadecimal 0xDEADBEEF). lia. Defined.

End Output.
