(* ===== verification/Status.v ===== *)
(** * The status reports of the memory managers

    [pmm_log_status], [vmm_log_status] and [vmalloc_log_status] walk their
    lists and write what they find to the serial log.  Their state is that of
    the manager together with the text of the log. *)

From S2P Require Import Prelude KMath Machine Pmm PmmProps Page PageOps PageProps Vmm VmmList VmmBlocks VmmOps VmmInit VmmAlloc.
From S2P Require Import VMalloc HeapMem HeapList Output.
Import KMath Machine Pmm PmmProps Page PageOps PageProps Vmm VmmList VmmBlocks VmmOps VmmInit VmmAlloc Output.

Module Status.

(** ** Writing to the log *)

(** [serial_debug] as a step: the text of the line is appended to the log. *)
Definition log {S} (format : string) (args : list arg) : M (S * list Z) unit := fun st =>
  match serial_debug (chars format) args with
  | Some (text, _) => Ok tt (st.1, st.2 ++ text)
  | None => Fault
  end.

(** A step of the manager between two messages. *)
Definition quietly {S A} (c : M S A) : M (S * list Z) A := fun st =>
  match c st.1 with
  | Ok a s => Ok a (s, st.2)
  | Panic msg => Panic msg
  | Fault => Fault
  | OutOfFuel => OutOfFuel
  end.

(** ** mem/pmm.c: [pmm_log_status] *)

Abbreviation KL := (M (kstate * list Z)).

(** the loop over a list of free frames; [name] is "low" or "high" *)
Fixpoint log_frames (fuel : nat) (name : string) (cur count : Z) : KL Z :=
  match fuel with
  | O => out_of_fuel
  | S fuel' =>
    if cur =? 0 then mret count else
    let count := count +64 1 in
    next ← quietly (rd (next_of cur));
    (if next =? 0 then
       addr ← quietly (rd (addr_of cur));
       log ("    " +:+ name +:+ ": last 0x%x, node at 0x%x (0x%x phys)") [ANum addr; ANum cur; ANum (cur -64 KERNEL_OFFSET)]
     else mret tt);;
    next ← quietly (rd (next_of cur));
    log_frames fuel' name next count
  end.

(** the report on one list *)
Definition log_frame_list (name : string) (cur : Z) : KL unit :=
  addr ← quietly (rd (addr_of cur));
  log ("    " +:+ name +:+ ": first: 0x%x, node at 0x%x (0x%x phys)") [ANum addr; ANum cur; ANum (cur -64 KERNEL_OFFSET)];;
  fuel ← quietly (gets walk_fuel);
  count ← log_frames fuel name cur 0;
  log ("    " +:+ name +:+ ": count: 0x%x") [ANum count].

Definition pmm_log_status : KL unit :=
  log "pmm: printing status" [];;
  low ← quietly (gets pmm_low);
  log_frame_list "low" low;;
  high ← quietly (gets pmm_high);
  if high =? 0 then log "    high: does not exist" [] else log_frame_list "high" high.

(** ** mem/vmm.c: [vmm_log_status] *)

(** the loop over the free list: the number of nodes and of empty nodes *)
Fixpoint log_free_nodes (fuel : nat) (vmm_cur vmm_empty_node vmm_node_count : Z) : KL (Z * Z) :=
  match fuel with
  | O => out_of_fuel
  | S fuel' =>
    if vmm_cur =? 0 then mret (vmm_node_count, vmm_empty_node) else
    start ← quietly (rd (f_start vmm_cur));
    size ← quietly (rd (f_size vmm_cur));
    vmm_empty_node ←
      (if negb (start =? 0) && negb (size =? 0) then
         log "    list node 0x%x, addr 0x%x, size 0x%x" [ANum vmm_cur; ANum start; ANum size];;
         mret vmm_empty_node
       else mret (vmm_empty_node +32 1));
    vmm_cur ← quietly (rd (f_next vmm_cur));
    log_free_nodes fuel' vmm_cur vmm_empty_node (vmm_node_count +32 1)
  end.

(** the loop over the list of allocated blocks *)
Fixpoint log_alloc_nodes (fuel : nat) (alloc_cur alloc_empty_node alloc_node_count : Z) : KL (Z * Z) :=
  match fuel with
  | O => out_of_fuel
  | S fuel' =>
    if alloc_cur =? 0 then mret (alloc_node_count, alloc_empty_node) else
    start ← quietly (rd (a_start alloc_cur));
    size ← quietly (rd (a_size alloc_cur));
    alloc_empty_node ←
      (if negb (start =? 0) && negb (size =? 0) then
         log "    allocated block 0x%x, addr 0x%x, size 0x%x" [ANum alloc_cur; ANum start; ANum size];;
         mret alloc_empty_node
       else mret (alloc_empty_node +32 1));
    alloc_cur ← quietly (rd (a_next alloc_cur));
    log_alloc_nodes fuel' alloc_cur alloc_empty_node (alloc_node_count +32 1)
  end.

Definition vmm_log_status : KL unit :=
  log "vmm: printing status" [];;
  head ← quietly (gets vmm_head);
  log "vmm: list nodes:" [];;
  fuel ← quietly (gets walk_fuel);
  '(vmm_node_count, vmm_empty_node) ← log_free_nodes fuel head 0 0;
  log "vmm: list has %u nodes, %u empty" [ANum vmm_node_count; ANum vmm_empty_node];;
  head ← quietly (gets alloc_head);
  log "vmm: alloc nodes:" [];;
  '(alloc_node_count, alloc_empty_node) ← log_alloc_nodes fuel head 0 0;
  log "alloc: list has %u nodes, %u empty" [ANum alloc_node_count; ANum alloc_empty_node].

(** ** mem/vmalloc.c: [vmalloc_log_status] *)

Section heap.
Context {VS : Type} `{!VMalloc.VmmIface VS}.
Notation HL := (M (VMalloc.heap VS * list Z)).

Fixpoint log_heap_nodes (fuel : nat) (cur : Z) : HL unit :=
  match fuel with
  | O => out_of_fuel
  | S fuel' =>
    if cur =? 0 then mret tt else
    total_size ← quietly (VMalloc.rd64 (VMalloc.h_total_size cur));
    bits ← quietly (VMalloc.rd64 (VMalloc.h_bitmap_size cur));
    bytes ← quietly (VMalloc.ceil_div bits 8);
    let bitmap_size := u32 bytes in
    log "vmalloc: node addr 0x%x, total size 0x%x, bitmap size 0x%x bytes" [ANum cur; ANum (u32 total_size); ANum bitmap_size];;
    log "vmalloc: bitmap contents:" [];;
    for_loop (Z.to_nat bitmap_size) 0 (fun i =>
      b ← quietly (VMalloc.rd8 (VMalloc.h_mem cur + i));
      log "  index %u (offset 0x%x): 0x%x" [ANum i; ANum (i *32 8); ANum b]);;
    next ← quietly (VMalloc.rd64 (VMalloc.h_next cur));
    log_heap_nodes fuel' next
  end.

Definition vmalloc_log_status (fuel : nat) : HL unit :=
  log "vmalloc: printing status" [];;
  head ← quietly (gets VMalloc.heap_head);
  log_heap_nodes fuel head.
End heap.

(** ** What a message prints *)

(** Do the arguments fit the conversions of the format? *)
Fixpoint fits (format : list Z) (args : list arg) : bool :=
  match format with
  | [] => true
  | 37 :: rest =>
    match rest with
    | [] => false
    | 37 :: rest' => fits rest' args
    | 117 :: rest' | 120 :: rest' => match args with ANum _ :: args' => fits rest' args' | _ => false end
    | 99 :: rest' => match args with AChar _ :: args' => fits rest' args' | _ => false end
    | 115 :: rest' => match args with AStr _ :: args' => fits rest' args' | _ => false end
    | _ :: rest' => fits rest' args
    end
  | _ :: rest => fits rest args
  end.

Lemma fits_printf n : forall format args o, (length format <= n)%nat -> fits format args = true -> is_Some (printf format args o).
Proof.
  induction n as [|n IH]; intros format args o Hn Hf; (destruct format as [|c format]; [by eexists|]); cbn in Hn; [lia|].
  cbn [fits] in Hf. cbn [printf].
  repeat first [ discriminate Hf | done | apply IH; [cbn in Hn |- *; lia|exact Hf] | case_match; subst; cbn in Hn ].
Qed.

(** The line that a message prints. *)
Definition line (format : string) (args : list arg) : list Z :=
  match serial_debug (chars format) args with Some (text, _) => text | None => [] end.

Lemma log_run {S} format args (s : S) o :
  fits (chars format) args = true -> log format args (s, o) = Ok tt (s, o ++ line format args).
Proof.
  intros Hf. unfold log, line, serial_debug, serial_line.
  by destruct (fits_printf _ _ _ nothing (Nat.le_refl _) Hf) as [x ->].
Qed.

Lemma log_bind {S A} format args (s : S) o (k : unit -> M (S * list Z) A) :
  fits (chars format) args = true -> (log format args ≫= k) (s, o) = k tt (s, o ++ line format args).
Proof. intros Hf. by rewrite (bind_ok _ _ _ _ _ (log_run format args s o Hf)). Qed.

Lemma quietly_bind {S A B} (c : M S A) a (s s' : S) o (k : A -> M (S * list Z) B) :
  c s = Ok a s' -> (quietly c ≫= k) (s, o) = k a (s', o).
Proof. intros Hc. apply bind_ok. unfold quietly. cbn. by rewrite Hc. Qed.

Lemma rd_ok s a v : mem s !! a = Some v -> rd a s = Ok v s.
Proof. unfold rd. by intros ->. Qed.

(** ** The reports *)

(** On a list of frames: the first, the last, the number. *)
Definition frame_line (name what : string) (x : Z * Z) : list Z :=
  line ("    " +:+ name +:+ what) [ANum x.2; ANum x.1; ANum (x.1 -64 KERNEL_OFFSET)].
Definition frames_report (name : string) (l : list (Z * Z)) : list Z :=
  from_option (frame_line name ": first: 0x%x, node at 0x%x (0x%x phys)") [] (head l) ++
  from_option (frame_line name ": last 0x%x, node at 0x%x (0x%x phys)") [] (last l) ++
  line ("    " +:+ name +:+ ": count: 0x%x") [ANum (u64 (Z.of_nat (length l)))].
Definition pmm_report (low high : list (Z * Z)) : list Z :=
  line "pmm: printing status" [] ++ frames_report "low" low ++
  match high with [] => line "    high: does not exist" [] | _ => frames_report "high" high end.

(** On the blocks of a list: a line for each block, and the number of nodes and of unused nodes. *)
Definition in_use (x : fnode) : bool := negb (bstart x =? 0) && negb (bsize x =? 0).
Definition block_lines (format : string) (l : list fnode) : list Z :=
  concat ((fun x => line format [ANum (faddr x); ANum (bstart x); ANum (bsize x)]) <$> List.filter in_use l).
Definition count_line (format : string) (l : list fnode) : list Z :=
  line format [ANum (u32 (Z.of_nat (length l))); ANum (u32 (Z.of_nat (length (List.filter (fun x => negb (in_use x)) l))))].
Definition vmm_report (fl al : list fnode) : list Z :=
  line "vmm: printing status" [] ++ line "vmm: list nodes:" [] ++
  block_lines "    list node 0x%x, addr 0x%x, size 0x%x" fl ++ count_line "vmm: list has %u nodes, %u empty" fl ++
  line "vmm: alloc nodes:" [] ++
  block_lines "    allocated block 0x%x, addr 0x%x, size 0x%x" al ++ count_line "alloc: list has %u nodes, %u empty" al.

(** *** The list of frames *)

Section frames.
Context (name : string).
Hypothesis Hname : name = "low" \/ name = "high".

Lemma name_fits x :
  fits (chars ("    " +:+ name +:+ ": first: 0x%x, node at 0x%x (0x%x phys)")) [ANum x.2; ANum x.1; ANum (x.1 -64 KERNEL_OFFSET)] = true /\
  fits (chars ("    " +:+ name +:+ ": last 0x%x, node at 0x%x (0x%x phys)")) [ANum x.2; ANum x.1; ANum (x.1 -64 KERNEL_OFFSET)] = true /\
  forall n, fits (chars ("    " +:+ name +:+ ": count: 0x%x")) [ANum n] = true.
Proof. by destruct Hname as [-> | ->]. Qed.

Lemma log_frames_run s : forall l fuel p c o, seg (mem s) p l 0 -> (length l < fuel)%nat ->
  log_frames fuel name p c (s, o) =
    Ok (foldl (fun c _ => c +64 1) c l)
      (s, o ++ from_option (frame_line name ": last 0x%x, node at 0x%x (0x%x phys)") [] (last l)).
Proof.
  induction l as [|[n a] l IH]; intros [|fuel] p c o Hs Hf; cbn in Hf; try lia.
  - cbn in Hs. subst p. cbn. by rewrite app_nil_r.
  - destruct Hs as (-> & Hz & nx & Hn & Ha & Hs). cbn [log_frames foldl]. destruct (Z.eqb_spec n 0); [done|].
    rewrite (quietly_bind _ _ _ _ _ _ (rd_ok _ _ _ Hn)).
    destruct (Z.eqb_spec nx 0) as [->|Hnx].
    + assert (l = []) as -> by (destruct l as [|[m b] l]; [done|destruct Hs as (-> & ? & _); done]).
      rewrite (bind_ok _ _ tt _ (s, o ++ frame_line name ": last 0x%x, node at 0x%x (0x%x phys)" (n, a))).
      * rewrite (quietly_bind _ _ _ _ _ _ (rd_ok _ _ _ Hn)), IH by (done || cbn in *; lia). cbn. by rewrite app_nil_r.
      * rewrite (quietly_bind _ _ _ _ _ _ (rd_ok _ _ _ Ha)). apply log_run, (name_fits (n, a)).
    + rewrite bind_ret, (quietly_bind _ _ _ _ _ _ (rd_ok _ _ _ Hn)), IH by (done || lia).
      destruct l as [|y l]; [cbn in Hs; done|done].
Qed.

Lemma count_all l : forall c, 0 <= c -> foldl (fun c (_ : Z * Z) => c +64 1) (u64 c) l = u64 (c + Z.of_nat (length l)).
Proof.
  induction l as [|x l IH]; intros c Hc; cbn [foldl length]; [by rewrite Z.add_0_r|].
  replace (u64 c +64 1) with (u64 (c + 1)) by (unfold u64; by rewrite Zplus_mod_idemp_l).
  rewrite IH by lia. f_equal. lia.
Qed.

Lemma log_frame_list_run s p l o :
  chain (mem s) p l -> l <> [] -> log_frame_list name p (s, o) = Ok tt (s, o ++ frames_report name l).
Proof.
  intros Hs Hl. pose proof (chain_fuel _ _ _ Hs) as Hf. unfold chain in Hs. destruct l as [|[n a] l]; [done|].
  pose proof Hs as (-> & Hz & nx & Hn & Ha & _). unfold log_frame_list.
  rewrite (quietly_bind _ _ _ _ _ _ (rd_ok _ _ _ Ha)), log_bind by apply (name_fits (n, a)).
  rewrite (quietly_bind _ _ _ _ _ _ (eq_refl : gets walk_fuel s = Ok (walk_fuel s) s)).
  rewrite (bind_ok _ _ _ _ _ (log_frames_run s _ _ _ _ _ Hs Hf)).
  rewrite log_run by apply (name_fits (n, a)). do 2 f_equal. rewrite <- !app_assoc. unfold frames_report. cbn [head from_option].
  do 3 f_equal. pose proof (count_all ((n, a) :: l) 0 ltac:(lia)) as E. change (u64 0) with 0 in E. by rewrite E.
Qed.

End frames.

(** *** The lists of blocks *)

Lemma u32_step c : u32 c +32 1 = u32 (c + 1).
Proof. unfold u32. by rewrite Zplus_mod_idemp_l. Qed.

Abbreviation unused_nodes := (List.filter (fun x => negb (in_use x))).

(** The step for one node, for either list. *)
Lemma node_step (format : string) {B} (k : Z -> KL B) s o x l e :
  (forall a b c, fits (chars format) [ANum a; ANum b; ANum c] = true) ->
  ((if negb (bstart x =? 0) && negb (bsize x =? 0)
    then log format [ANum (faddr x); ANum (bstart x); ANum (bsize x)];; mret (u32 e) else mret (u32 e +32 1)) ≫= k) (s, o) =
  k (u32 (e + Z.of_nat (length (unused_nodes [x])))) (s, o ++ block_lines format [x]) /\
  block_lines format (x :: l) = block_lines format [x] ++ block_lines format l /\
  length (unused_nodes (x :: l)) = (length (unused_nodes [x]) + length (unused_nodes l))%nat.
Proof.
  intros Hf. unfold block_lines. cbn [List.filter]. fold (in_use x). destruct (in_use x); cbn.
  - split; [|by rewrite app_nil_r]. rewrite (bind_ok _ _ (u32 e) _ (s, o ++ line format [ANum (faddr x); ANum (bstart x); ANum (bsize x)])).
    + by rewrite Z.add_0_r, app_nil_r.
    + rewrite log_bind by apply Hf. done.
  - split; [|done]. by rewrite bind_ret, u32_step, app_nil_r.
Qed.

Lemma log_free_nodes_run s : forall l fuel prev p last e c o, dseg (mem s) prev p l last 0 -> (length l < fuel)%nat ->
  log_free_nodes fuel p (u32 e) (u32 c) (s, o) =
    Ok (u32 (c + Z.of_nat (length l)), u32 (e + Z.of_nat (length (unused_nodes l))))
      (s, o ++ block_lines "    list node 0x%x, addr 0x%x, size 0x%x" l).
Proof.
  induction l as [|[[n st] sz] l IH]; intros [|fuel] prev p last e c o Hs Hf; cbn [length] in Hf; try lia.
  - destruct Hs as [-> _]. cbn. by rewrite !Z.add_0_r, app_nil_r.
  - destruct Hs as (-> & Hz & _ & Hst & Hsz & nx & Hn & Hs). cbn [log_free_nodes]. destruct (Z.eqb_spec n 0); [done|].
    rewrite (quietly_bind _ _ _ _ _ _ (rd_ok _ _ _ Hst)), (quietly_bind _ _ _ _ _ _ (rd_ok _ _ _ Hsz)).
    destruct (node_step "    list node 0x%x, addr 0x%x, size 0x%x" (fun e' => vmm_cur ← quietly (rd (f_next n)); log_free_nodes fuel vmm_cur e' (u32 c +32 1))
      s o (n, st, sz) l e ltac:(done)) as (E1 & E2 & E3).
    unfold bstart, bsize, faddr in E1. cbn [fst snd] in E1. rewrite E1, (quietly_bind _ _ _ _ _ _ (rd_ok _ _ _ Hn)), u32_step.
    rewrite (IH _ _ _ _ _ _ _ Hs) by lia. rewrite E2, E3, <- app_assoc. cbn [length].
    replace (c + 1 + Z.of_nat (length l)) with (c + Z.of_nat (S (length l))) by lia. by rewrite Nat2Z.inj_add, Z.add_assoc.
Qed.

Lemma log_alloc_nodes_run s : forall l fuel p e c o, aseg (mem s) p l 0 -> (length l < fuel)%nat ->
  log_alloc_nodes fuel p (u32 e) (u32 c) (s, o) =
    Ok (u32 (c + Z.of_nat (length l)), u32 (e + Z.of_nat (length (unused_nodes l))))
      (s, o ++ block_lines "    allocated block 0x%x, addr 0x%x, size 0x%x" l).
Proof.
  induction l as [|[[n st] sz] l IH]; intros [|fuel] p e c o Hs Hf; cbn [length] in Hf; try lia.
  - cbn in Hs. subst p. cbn. by rewrite !Z.add_0_r, app_nil_r.
  - destruct Hs as (-> & Hz & Hst & Hsz & nx & Hn & Hs). cbn [log_alloc_nodes]. destruct (Z.eqb_spec n 0); [done|].
    rewrite (quietly_bind _ _ _ _ _ _ (rd_ok _ _ _ Hst)), (quietly_bind _ _ _ _ _ _ (rd_ok _ _ _ Hsz)).
    destruct (node_step "    allocated block 0x%x, addr 0x%x, size 0x%x" (fun e' => alloc_cur ← quietly (rd (a_next n)); log_alloc_nodes fuel alloc_cur e' (u32 c +32 1))
      s o (n, st, sz) l e ltac:(done)) as (E1 & E2 & E3).
    unfold bstart, bsize, faddr in E1. cbn [fst snd] in E1. rewrite E1, (quietly_bind _ _ _ _ _ _ (rd_ok _ _ _ Hn)), u32_step.
    rewrite (IH _ _ _ _ _ Hs) by lia. rewrite E2, E3, <- app_assoc. cbn [length].
    replace (c + 1 + Z.of_nat (length l)) with (c + Z.of_nat (S (length l))) by lia. by rewrite Nat2Z.inj_add, Z.add_assoc.
Qed.

Lemma vmm_log_status_run s fl al o :
  free_list s fl -> alloc_list s al -> vmm_log_status (s, o) = Ok tt (s, o ++ vmm_report fl al).
Proof.
  intros [Hseg Hap _] [Haseg [Hnd _]]. unfold vmm_log_status.
  pose proof (dseg_fuel _ _ _ _ _ _ Hseg (proj1 Hap)) as Hf1. pose proof (aseg_fuel _ _ _ _ Haseg Hnd) as Hf2.
  rewrite log_bind by done. rewrite (quietly_bind _ _ _ _ _ _ (eq_refl : gets vmm_head s = Ok (vmm_head s) s)).
  rewrite log_bind by done. rewrite (quietly_bind _ _ _ _ _ _ (eq_refl : gets walk_fuel s = Ok (walk_fuel s) s)).
  rewrite (bind_ok _ _ _ _ _ (log_free_nodes_run s fl _ _ _ _ 0 0 _ Hseg Hf1)). cbn beta iota.
  rewrite log_bind by done. rewrite (quietly_bind _ _ _ _ _ _ (eq_refl : gets alloc_head s = Ok (alloc_head s) s)).
  rewrite log_bind by done. rewrite (bind_ok _ _ _ _ _ (log_alloc_nodes_run s al _ _ 0 0 _ Haseg Hf2)). cbn beta iota.
  rewrite log_run by done. do 2 f_equal. unfold vmm_report, count_line. by rewrite <- !app_assoc.
Qed.

Lemma pmm_log_status_run s low high used q o :
  pmm_inv s low high used q -> low <> [] -> pmm_log_status (s, o) = Ok tt (s, o ++ pmm_report low high).
Proof.
  intros [Hl Hh _ _] Hne. unfold pmm_log_status, pmm_report. rewrite log_bind by done.
  rewrite (quietly_bind _ _ _ _ _ _ (eq_refl : gets pmm_low s = Ok (pmm_low s) s)).
  rewrite (bind_ok _ _ _ _ _ (log_frame_list_run "low" ltac:(by left) s _ low _ Hl Hne)).
  rewrite (quietly_bind _ _ _ _ _ _ (eq_refl : gets pmm_high s = Ok (pmm_high s) s)).
  destruct high as [|[n a] high].
  - assert (pmm_high s = 0) as -> by exact Hh. cbn [Z.eqb]. rewrite log_run by done. by rewrite <- !app_assoc.
  - destruct (Z.eqb_spec (pmm_high s) 0) as [E|_]; [unfold chain in Hh; destruct Hh as (E' & ? & _); congruence|].
    rewrite (log_frame_list_run "high" ltac:(by right) s _ _ _ Hh) by done. by rewrite <- !app_assoc.
Qed.

(** C38. The status reports are right.  On well-formed lists with a free low
    frame, [pmm_log_status] and [vmm_log_status] end and change nothing: the
    log shows the first and the last frame of each list of free frames and
    their number, a line for every block of the two lists of the allocator of
    virtual memory, and the number of nodes and of unused nodes. *)
Theorem memory_status_reported s low high used q fl al o :
  vm_inv s low high used q fl al -> low <> [] ->
  (pmm_log_status;; vmm_log_status) (s, o) = Ok tt (s, o ++ pmm_report low high ++ vmm_report fl al).
Proof.
  intros Hvm Hne. pose proof (mm_pmm _ _ _ _ _ (vm_mm _ _ _ _ _ _ _ Hvm)) as Hpmm.
  rewrite (bind_ok _ _ _ _ _ (pmm_log_status_run s low high used q o Hpmm Hne)).
  rewrite (vmm_log_status_run s fl al); [by rewrite <- app_assoc|apply Hvm|apply Hvm].
Qed.

Lemma memory_status_reported_witness :
  exists s, vmm_init paging_state = Ok tt s /\
    (pmm_log_status;; vmm_log_status) (s, []) =
      Ok tt (s, pmm_report (drop 2 paging_low) [] ++
        vmm_report (whole_space (0x2000 + KERNEL_OFFSET)) (no_blocks (0x3000 + KERNEL_OFFSET))).
Proof.
  destruct paging_vm as (s & Hr & Hvm & _). exists s. split; [exact Hr|].
  exact (memory_status_reported s _ _ _ _ _ _ [] Hvm ltac:(discriminate)).
Defined.

(** With an empty low list [pmm_log_status] reads through a null pointer: it
    asks only for the high list whether there is one. *)
Theorem pmm_log_status_null s o :
  pmm_low s = 0 -> mem s !! addr_of 0 = None -> pmm_log_status (s, o) = Fault.
Proof.
  intros Hl Hm. unfold pmm_log_status. rewrite log_bind by done.
  rewrite (quietly_bind _ _ _ _ _ _ (eq_refl : gets pmm_low s = Ok (pmm_low s) s)), Hl.
  unfold log_frame_list, mbind, M_bind, quietly, rd. cbn. by rewrite Hm.
Qed.

Lemma pmm_log_status_null_witness : pmm_log_status (boot_state ∅, []) = Fault.
Proof. apply (pmm_log_status_null (boot_state ∅) []); reflexivity. Defined.

(** ** The heap *)

Section heap_report.
Context {VS : Type} `{!VMalloc.VmmIface VS}.
Implicit Types h : VMalloc.heap VS.

(** A node, and the bytes of its bitmap. *)
Definition heap_node_report (m : gmap Z Z) (x : Z * Z) : list Z :=
  let size := u32 (HeapList.bm_bytes x.2) in
  line "vmalloc: node addr 0x%x, total size 0x%x, bitmap size 0x%x bytes"
    [ANum x.1; ANum (u32 (default 0 (HeapMem.get64 m (VMalloc.h_total_size x.1)))); ANum size] ++
  line "vmalloc: bitmap contents:" [] ++
  concat ((fun i => line "  index %u (offset 0x%x): 0x%x"
    [ANum i; ANum (i *32 8); ANum (default 0 (m !! (VMalloc.h_mem x.1 + i)))]) <$> seqZ 0 size).
Definition heap_report (m : gmap Z Z) (l : list (Z * Z)) : list Z :=
  line "vmalloc: printing status" [] ++ concat (heap_node_report m <$> l).

Lemma log_bytes_run h n k : forall i o,
  (forall j, i <= j < i + Z.of_nat k -> is_Some (VMalloc.bytes h !! (VMalloc.h_mem n + j))) ->
  for_loop k i (fun i => b ← quietly (VMalloc.rd8 (VMalloc.h_mem n + i));
    log "  index %u (offset 0x%x): 0x%x" [ANum i; ANum (i *32 8); ANum b]) (h, o) =
  Ok tt (h, o ++ concat ((fun i => line "  index %u (offset 0x%x): 0x%x"
    [ANum i; ANum (i *32 8); ANum (default 0 (VMalloc.bytes h !! (VMalloc.h_mem n + i)))]) <$> seqZ i (Z.of_nat k))).
Proof.
  induction k as [|k IH]; intros i o Hb; cbn [for_loop]; [by rewrite app_nil_r|].
  rewrite seqZ_cons by lia. replace (Z.pred (Z.of_nat (S k))) with (Z.of_nat k) by lia. cbn [fmap list_fmap concat].
  destruct (Hb i ltac:(lia)) as [b Hi].
  erewrite bind_ok; [|rewrite (quietly_bind _ b h h) by (unfold VMalloc.rd8; by rewrite Hi); by apply log_run].
  rewrite IH by (intros; apply Hb; lia). by rewrite Hi, <- app_assoc.
Qed.

Lemma log_heap_nodes_run h l : forall fuel p o, HeapList.hlist (VMalloc.bytes h) p l -> (length l < fuel)%nat ->
  log_heap_nodes fuel p (h, o) = Ok tt (h, o ++ concat (heap_node_report (VMalloc.bytes h) <$> l)).
Proof.
  induction l as [|[n bs] l IH]; intros [|fuel] p o Hl Hf; cbn [length] in Hf; try lia.
  - cbn in Hl. subst p. cbn. by rewrite app_nil_r.
  - destruct Hl as (-> & [Hp Hs Hbs Hm] & nx & Hx & Hl). cbn [log_heap_nodes]. destruct (Z.eqb_spec n 0); [lia|].
    assert (Hbb : 8 <= HeapList.bm_bytes bs < 2 ^ 48) by (unfold HeapList.bm_bytes; dlia).
    destruct (HeapMem.getn_mapped 8 (VMalloc.bytes h) (VMalloc.h_total_size n)) as [t Ht].
    { intros i Hi. apply Hm. unfold VMalloc.h_total_size in Hi. lia. }
    fold (HeapMem.get64 (VMalloc.bytes h) (VMalloc.h_total_size n)) in Ht.
    rewrite (quietly_bind _ _ _ _ _ _ (HeapMem.rd64_run _ _ _ Ht)), (quietly_bind _ _ _ _ _ _ (HeapMem.rd64_run _ _ _ Hbs)).
    rewrite (quietly_bind _ _ _ _ _ _ (HeapList.ceil_div_run bs 8 h ltac:(lia) ltac:(lia))).
    replace ((bs + 8 - 1) / 8) with (HeapList.bm_bytes bs) by (unfold HeapList.bm_bytes; f_equal; lia).
    rewrite !log_bind by done. pose proof (u32_range (HeapList.bm_bytes bs)) as Hu.
    assert (Hle : u32 (HeapList.bm_bytes bs) <= HeapList.bm_bytes bs) by (apply Z.mod_le; lia).
    erewrite bind_ok; [|apply log_bytes_run].
    + rewrite (quietly_bind _ _ _ _ _ _ (HeapMem.rd64_run _ _ _ Hx)), (IH _ _ _ Hl) by lia.
      cbn [fmap list_fmap concat]. unfold heap_node_report at 2. cbn [fst snd]. rewrite Ht, Z2Nat.id by lia. cbn [default from_option].
      by rewrite <- !app_assoc.
    + intros j Hj. apply Hm. unfold VMalloc.h_mem. lia.
Qed.

(** [vmalloc_log_status] ends on every well-formed heap, changes nothing, and
    shows each node with all the bytes of its bitmap. *)
Theorem vmalloc_status_reported h l o fuel :
  HeapList.heap_ok h l -> (length l < fuel)%nat ->
  vmalloc_log_status fuel (h, o) = Ok tt (h, o ++ heap_report (VMalloc.bytes h) l).
Proof.
  intros Hok Hf. unfold vmalloc_log_status, heap_report. rewrite log_bind by done.
  rewrite (quietly_bind _ _ _ _ _ _ (eq_refl : gets VMalloc.heap_head h = Ok (VMalloc.heap_head h) h)).
  rewrite (log_heap_nodes_run h l _ _ _ (HeapList.ho_list _ _ Hok) Hf). by rewrite <- app_assoc.
Qed.

End heap_report.

End Status.
