(* ===== verification/Hexdump.v ===== *)
(** * util/hexdump.c: dumps of memory to the serial log

    The state is the text sent to the serial port so far; [mem] is the memory
    that is dumped, byte by byte.  The properties compare the nested loops with
    a plain description of the rows. *)

From S2P Require Import Prelude Output.
Import Output.

Module Hexdump.

Section hexdump.
Context (mem : gmap Z Z) (src : Z).
Notation D := (M (list Z)).

(** [serial_print_no_fancy] and [serial_debug] with their text sent to the port *)
Definition emit (format : string) (args : list arg) : D unit :=
  p ← lift_opt (serial_print_no_fancy (chars format) args);
  modify (fun log => log ++ p.1).
Definition debug (format : string) (args : list arg) : D unit :=
  p ← lift_opt (serial_debug (chars format) args);
  modify (fun log => log ++ p.1).

Definition byte_at (index : Z) : D Z := lift_opt (mem !! (src +64 index)).
Definition newline : string := String (Ascii.ascii_of_nat 10) EmptyString.

Definition print_byte (index : Z) : D unit :=
  b ← byte_at index;
  emit (if b <=? 0xF then "0%x " else "%x ") [ANum b].

Definition print_byte_ascii (index : Z) : D unit :=
  byte ← byte_at index;
  if (32 <=? byte) && (byte <=? 126) then emit "%c" [AChar byte] else emit "." [].

(** one pass of the loop over the full rows *)
Definition dump_row (find_readable : bool) (i : Z) : D unit :=
  emit "DEBUG:     " [];;
  for_loop 8 0 (fun j => print_byte (i *64 16 +64 j));;
  emit "  " [];;
  for_loop 8 0 (fun j => print_byte (i *64 16 +64 j +64 8));;
  if negb find_readable then emit newline [] else
  emit " |" [];;
  for_loop 16 0 (fun j => print_byte_ascii (i *64 16 +64 j));;
  emit (String.append "|" newline) [].

(** the loop over the bytes of the last row; returns [chars_printed] *)
Fixpoint tail_bytes (n : nat) (i base chars_printed : Z) : D Z :=
  match n with
  | O => mret chars_printed
  | S n' =>
    print_byte (base +64 i);;
    let chars_printed := chars_printed +32 3 in
    if i =? 7 then emit "  " [];; tail_bytes n' (i + 1) base (chars_printed +32 2)
    else tail_bytes n' (i + 1) base chars_printed
  end.

(** the row of the bytes that are left *)
Definition dump_tail (len : Z) (find_readable : bool) : D unit :=
  emit "DEBUG:     " [];;
  chars_printed ← tail_bytes (Z.to_nat (len mod 16)) 0 (len / 16 *64 16) 0;
  if negb find_readable then mret tt else
  for_loop (Z.to_nat (51 - chars_printed)) chars_printed (fun _ => emit " " []);;
  emit "|" [];;
  for_loop (Z.to_nat (len mod 16)) 0 (fun i => print_byte_ascii (len / 16 *64 16 +64 i));;
  for_loop (Z.to_nat (16 - len mod 16)) (len mod 16) (fun _ => emit " " []);;
  emit (String.append "|" newline) [];;
  debug "" [].

Definition hexdump (len : Z) (find_readable : bool) : D unit :=
  debug "" [];;
  debug "hexdumping addr 0x%x:" [ANum src];;
  for_loop (Z.to_nat (len / 16)) 0 (dump_row find_readable);;
  if len mod 16 =? 0 then mret tt else dump_tail len find_readable.

End hexdump.

(** ** The rows *)

Definition hex_char (d : Z) : Z := if d <=? 9 then d + 48 else d + 55.
(** two digits and a space *)
Definition hex2 (b : Z) : list Z := [hex_char (b / 16); hex_char (b mod 16); 32].
Definition printable (b : Z) : Z := if (32 <=? b) && (b <=? 126) then b else 46.
Definition hex_columns (l : list Z) : list Z := concat (hex2 <$> l).
Definition spaces (n : nat) : list Z := replicate n 32.

(** A row of sixteen bytes. *)
Definition full_row (readable : bool) (l : list Z) : list Z :=
  chars "DEBUG:     " ++ hex_columns (take 8 l) ++ spaces 2 ++ hex_columns (drop 8 l) ++
  (if readable then chars " |" ++ (printable <$> l) ++ chars "|" else []) ++ [10].

(** The row of the bytes that are left, with the readable column in the same
    place; without that column the line is not ended. *)
Definition last_row (readable : bool) (l : list Z) : list Z :=
  let hex := hex_columns (take 8 l) ++ (if (8 <=? length l)%nat then spaces 2 else []) ++ hex_columns (drop 8 l) in
  chars "DEBUG:     " ++ hex ++
  (if readable then spaces (51 - length hex) ++ chars "|" ++ (printable <$> l) ++ spaces (16 - length l) ++
     chars "|" ++ [10] ++ chars "DEBUG: " ++ [10] else []).

Definition row_of (l : list Z) (k : nat) : list Z := take 16 (drop (16 * k) l).

(** The whole dump of the bytes [l]. *)
Definition dump_text (readable : bool) (l : list Z) : list Z :=
  let n := (length l / 16)%nat in
  concat (full_row readable <$> (row_of l <$> seq 0 n)) ++
  (if (length l mod 16 =? 0)%nat then [] else last_row readable (drop (16 * n) l)).

(** ** Programs that only print *)

Definition emits (c : M (list Z) unit) (t : list Z) : Prop := forall log, c log = Ok tt (log ++ t).

Lemma emits_ret : emits (mret tt) [].
Proof. intros log. by rewrite app_nil_r. Qed.

Lemma emits_bind c k t1 t2 : emits c t1 -> emits k t2 -> emits (c;; k) (t1 ++ t2).
Proof. intros H1 H2 log. rewrite (bind_ok _ _ _ _ _ (H1 log)), H2. by rewrite app_assoc. Qed.

Lemma emits_emit format args t n :
  serial_print_no_fancy (chars format) args = Some (t, n) -> emits (emit format args) t.
Proof. intros E log. unfold emit. rewrite E. done. Qed.

Lemma emits_debug format args t n : serial_debug (chars format) args = Some (t, n) -> emits (debug format args) t.
Proof. intros E log. unfold debug. rewrite E. done. Qed.

Lemma emits_loop (body : Z -> M (list Z) unit) (f : nat -> list Z) n : forall i j,
  (forall k, (k < n)%nat -> emits (body (i + Z.of_nat k)) (f (j + k)%nat)) ->
  emits (for_loop n i body) (concat (f <$> seq j n)).
Proof.
  induction n as [|n IH]; intros i j Hb; cbn [for_loop seq fmap list_fmap concat]; [apply emits_ret|].
  apply emits_bind.
  - specialize (Hb 0%nat ltac:(lia)). by rewrite Z.add_0_r, Nat.add_0_r in Hb.
  - apply IH. intros k Hk. specialize (Hb (S k) ltac:(lia)).
    replace (i + 1 + Z.of_nat k) with (i + Z.of_nat (S k)) by lia. by replace (S j + k)%nat with (j + S k)%nat by lia.
Qed.

(** Printing the elements of a list one after the other. *)
Lemma emits_list (body : Z -> M (list Z) unit) (g : Z -> list Z) (l : list Z) i :
  (forall k b, l !! k = Some b -> emits (body (i + Z.of_nat k)) (g b)) ->
  emits (for_loop (length l) i body) (concat (g <$> l)).
Proof.
  revert i. induction l as [|b l IH]; intros i Hb; cbn [for_loop length fmap list_fmap concat]; [apply emits_ret|].
  apply emits_bind.
  - specialize (Hb 0%nat b eq_refl). by rewrite Z.add_0_r in Hb.
  - apply IH. intros k c Hk. specialize (Hb (S k) c Hk). by replace (i + 1 + Z.of_nat k) with (i + Z.of_nat (S k)) by lia.
Qed.

Lemma all_bytes (P : Z -> Prop) `{!forall b, Decision (P b)} :
  forallb (fun b => bool_decide (P b)) (seqZ 0 256) = true -> forall b, 0 <= b < 256 -> P b.
Proof.
  intros Hall b Hb. rewrite forallb_forall in Hall. apply (bool_decide_unpack _).
  apply Is_true_eq_left, Hall, list_elem_of_In, elem_of_seqZ. lia.
Qed.

Lemma hex2_text b : 0 <= b < 256 ->
  serial_print_no_fancy (chars (if b <=? 0xF then "0%x " else "%x ")) [ANum b] = Some (hex2 b, 3).
Proof.
  apply (all_bytes (fun b => serial_print_no_fancy (chars (if b <=? 0xF then "0%x " else "%x ")) [ANum b] = Some (hex2 b, 3))).
  vm_compute. reflexivity.
Qed.

(** ** The memory that is dumped *)

Section dump.
Context (mem : gmap Z Z) (src : Z) (l : list Z).
Hypothesis Hmem : forall k b, l !! k = Some b -> mem !! (src + Z.of_nat k) = Some b.
Hypothesis Hbytes : Forall (fun b => 0 <= b < 256) l.
Hypothesis Hsrc : 0 <= src /\ src + Z.of_nat (length l) <= W64.

Lemma byte_at_run k b log : l !! k = Some b -> byte_at mem src (Z.of_nat k) log = Ok b log.
Proof.
  intros Hk. pose proof (lookup_lt_Some _ _ _ Hk). unfold byte_at. rewrite u64_small by lia. by rewrite (Hmem _ _ Hk).
Qed.

Lemma print_byte_emits k b : l !! k = Some b -> emits (print_byte mem src (Z.of_nat k)) (hex2 b).
Proof.
  intros Hk log. unfold print_byte. rewrite (bind_ok _ _ _ _ _ (byte_at_run k b log Hk)).
  apply (emits_emit _ _ _ 3), hex2_text. by apply (proj1 (Forall_lookup _ _) Hbytes k).
Qed.

Lemma print_byte_ascii_emits k b : l !! k = Some b -> emits (print_byte_ascii mem src (Z.of_nat k)) [printable b].
Proof.
  intros Hk log. unfold print_byte_ascii, printable. rewrite (bind_ok _ _ _ _ _ (byte_at_run k b log Hk)).
  assert (0 <= b < 256) by by apply (proj1 (Forall_lookup _ _) Hbytes k).
  case_match; apply (emits_emit _ _ _ 1); [|done]. rewrite <- (u8_small b) at 2 by done. reflexivity.
Qed.

(** Sub-ranges of the bytes, printed by a loop of their length. *)
Lemma columns_emit off n (g : Z -> list Z) (p : Z -> M (list Z) unit) :
  (forall k b, l !! k = Some b -> emits (p (Z.of_nat k)) (g b)) -> (off + n <= length l)%nat ->
  emits (for_loop n 0 (fun j => p (Z.of_nat off + j))) (concat (g <$> take n (drop off l))).
Proof.
  intros Hp Hn. replace n with (length (take n (drop off l))) at 1 by (rewrite length_take, length_drop; lia).
  apply emits_list. intros k b Hk. apply lookup_take_Some in Hk as [Hk _]. rewrite lookup_drop in Hk.
  replace (Z.of_nat off + (0 + Z.of_nat k)) with (Z.of_nat (off + k)) by lia. by apply Hp.
Qed.

Lemma for_loop_ext {S} n : forall i (b1 b2 : Z -> M S unit) s,
  (forall j s, i <= j < i + Z.of_nat n -> b1 j s = b2 j s) -> for_loop n i b1 s = for_loop n i b2 s.
Proof.
  induction n as [|n IH]; intros i b1 b2 s Hb; cbn [for_loop]; [done|]. unfold mbind, M_bind.
  rewrite Hb by lia. case_match; try done. apply IH. intros j s' Hj. apply Hb. lia.
Qed.

Lemma emits_ext n i b1 b2 t : (forall j, i <= j < i + Z.of_nat n -> b1 j = b2 j) ->
  emits (for_loop n i b2) t -> emits (for_loop n i b1) t.
Proof. intros Hb He log. rewrite <- He. apply for_loop_ext. intros j s Hj. by rewrite Hb. Qed.

Lemma concat_single {A B} (f : A -> B) (k : list A) : concat ((fun b => [f b]) <$> k) = f <$> k.
Proof. induction k as [|a k IH]; cbn; [done|]. by rewrite IH. Qed.

Lemma emits_spaces n : forall i, emits (for_loop n i (fun _ => emit " " [])) (spaces n).
Proof.
  induction n as [|n IH]; intros i; cbn [for_loop spaces replicate]; [apply emits_ret|].
  apply (emits_bind _ _ [32]); [by eapply emits_emit|apply IH].
Qed.

(** the columns of the row from byte [off] on *)
Lemma hex_emit off n : (off + n <= length l)%nat ->
  emits (for_loop n 0 (fun j => print_byte mem src (Z.of_nat off + j))) (hex_columns (take n (drop off l))).
Proof. apply columns_emit, print_byte_emits. Qed.

Lemma ascii_emit off n : (off + n <= length l)%nat ->
  emits (for_loop n 0 (fun j => print_byte_ascii mem src (Z.of_nat off + j))) (printable <$> take n (drop off l)).
Proof. rewrite <- concat_single. apply columns_emit. intros k b. apply print_byte_ascii_emits. Qed.

Lemma dump_row_emits readable k : (16 * k + 16 <= length l)%nat ->
  emits (dump_row mem src readable (Z.of_nat k)) (full_row readable (row_of l k)).
Proof.
  intros Hk. unfold dump_row, full_row, row_of. rewrite take_take, skipn_firstn_comm, drop_drop.
  assert (Hi : Z.of_nat k *64 16 = Z.of_nat (16 * k)) by (rewrite u64_small; lia). rewrite Hi.
  apply emits_bind; [by eapply emits_emit|]. apply emits_bind.
  { eapply emits_ext, hex_emit; [|lia]. intros j Hj. cbn beta. by rewrite u64_small by lia. }
  apply emits_bind; [by eapply emits_emit|]. apply emits_bind.
  { eapply emits_ext, (hex_emit (16 * k + 8)); [|lia]. intros j Hj. cbn beta.
    rewrite (u64_small (_ + j)), u64_small by lia. f_equal. lia. }
  destruct readable; cbn [negb]; [|by eapply emits_emit]. rewrite <- !app_assoc.
  apply emits_bind; [by eapply emits_emit|]. apply emits_bind; [|by eapply emits_emit].
  eapply emits_ext, ascii_emit; [|lia]. intros j Hj. cbn beta. by rewrite u64_small by lia.
Qed.

(** The last row: the gap follows the byte number 7. *)
Fixpoint cells (i : Z) (r : list Z) : list Z :=
  match r with [] => [] | b :: r' => hex2 b ++ (if i =? 7 then spaces 2 else []) ++ cells (i + 1) r' end.

Lemma cells_after r : forall i, 7 < i -> cells i r = hex_columns r.
Proof.
  induction r as [|b r IH]; intros i Hi; [done|]. cbn [cells]. destruct (Z.eqb_spec i 7); [lia|].
  rewrite IH by lia. done.
Qed.

Lemma cells_row r : cells 0 r = hex_columns (take 8 r) ++ (if (8 <=? length r)%nat then spaces 2 else []) ++ hex_columns (drop 8 r).
Proof. do 8 (destruct r as [|? r]; [done|]). cbn [cells Z.eqb Z.add Pos.eqb Pos.succ Pos.add app]. by rewrite cells_after. Qed.

Lemma length_hex_columns r : length (hex_columns r) = (3 * length r)%nat.
Proof. induction r as [|b r IH]; [done|]. unfold hex_columns in *. cbn [fmap list_fmap concat]. rewrite length_app, IH. cbn. lia. Qed.

Lemma tail_bytes_run (base : nat) r : forall (i : nat) c log,
  (forall k b, r !! k = Some b -> l !! (base + i + k)%nat = Some b) -> (i + length r <= 16)%nat -> 0 <= c <= 5 * Z.of_nat i ->
  tail_bytes mem src (length r) (Z.of_nat i) (Z.of_nat base) c log =
    Ok (c + Z.of_nat (length (cells (Z.of_nat i) r))) (log ++ cells (Z.of_nat i) r).
Proof.
  induction r as [|b r IH]; intros i c log Hr Hi Hc; cbn [tail_bytes cells length] in *.
  { cbn. by rewrite app_nil_r, Z.add_0_r. }
  pose proof (Hr 0%nat b eq_refl) as Hb. rewrite Nat.add_0_r in Hb. pose proof (lookup_lt_Some _ _ _ Hb).
  replace (Z.of_nat base +64 Z.of_nat i) with (Z.of_nat (base + i)) by (rewrite u64_small; lia).
  rewrite (bind_ok _ _ _ _ _ (print_byte_emits _ _ Hb log)). cbn zeta.
  assert (Hr' : forall k c', r !! k = Some c' -> l !! (base + S i + k)%nat = Some c')
    by (intros k c' Hk; replace (base + S i + k)%nat with (base + i + S k)%nat by lia; by apply Hr).
  replace (Z.of_nat i + 1) with (Z.of_nat (S i)) by lia.
  destruct (Z.eqb_spec (Z.of_nat i) 7) as [E|E].
  - rewrite (bind_ok _ _ _ _ _ (emits_emit "  " [] (spaces 2) 2 eq_refl _)), (u32_small (c + 3)), u32_small by lia.
    rewrite IH; [|done|lia|lia]. rewrite <- !app_assoc, !length_app. f_equal. cbn. lia.
  - rewrite u32_small by lia. rewrite IH; [|done|lia|lia]. rewrite <- !app_assoc, !length_app. f_equal. cbn. lia.
Qed.

Lemma dump_tail_emits readable N m : length l = (16 * N + m)%nat -> (0 < m < 16)%nat -> Z.of_nat (16 * N) < W64 ->
  emits (dump_tail mem src (Z.of_nat (length l)) readable) (last_row readable (drop (16 * N) l)).
Proof.
  intros HN Hm HW. unfold dump_tail, last_row. rewrite <- cells_row. set (r := drop (16 * N) l).
  assert (Hr : length r = m) by (unfold r; rewrite length_drop; lia).
  replace (Z.of_nat (length l) / 16) with (Z.of_nat N) by (rewrite HN; dlia).
  replace (Z.of_nat (length l) mod 16) with (Z.of_nat m) by (rewrite HN; dlia).
  replace (Z.of_nat N *64 16) with (Z.of_nat (16 * N)) by (rewrite u64_small; lia).
  apply emits_bind; [by eapply emits_emit|]. rewrite Nat2Z.id, <- Hr. intros log.
  erewrite bind_ok; [|apply (tail_bytes_run (16 * N) r 0); [|lia..]].
  2: { intros k b Hk. unfold r in Hk. rewrite lookup_drop in Hk. by rewrite Nat.add_0_r. }
  change (Z.of_nat 0) with 0. rewrite Z.add_0_l, app_assoc. destruct readable; cbn [negb]; [|by rewrite app_nil_r].
  assert (Ha : printable <$> r = printable <$> take m (drop (16 * N) l)) by (fold r; by rewrite <- Hr, firstn_all).
  set (t := cells 0 r). assert (Hp : Z.to_nat (51 - Z.of_nat (length t)) = (51 - length t)%nat) by lia.
  replace (Z.to_nat (16 - Z.of_nat (length r))) with (16 - length r)%nat by lia. rewrite Hp. clearbody t.
  generalize (log ++ t). apply emits_bind; [apply emits_spaces|]. apply emits_bind; [by eapply emits_emit|].
  apply emits_bind.
  { rewrite Ha, Hr. eapply emits_ext, ascii_emit; [|lia]. intros j Hj. cbn beta. by rewrite u64_small by lia. }
  apply emits_bind; [apply emits_spaces|]. rewrite (app_assoc (chars "|")). apply emits_bind; [by eapply emits_emit|by eapply emits_debug].
Qed.

End dump.

(** ** The properties *)

(** C36. A dump shows the memory.  [hexdump] of any readable range of memory
    prints two header lines, then one row for every sixteen bytes with the
    hexadecimal columns (and, if asked for, the readable one), and one shorter
    row for the bytes that are left, padded so that its readable column is in
    place; it reads nothing outside of the range. *)
Theorem hexdump_prints mem src l readable log :
  (forall k b, l !! k = Some b -> mem !! (src + Z.of_nat k) = Some b) ->
  Forall (fun b => 0 <= b < 256) l -> 0 < src -> src + Z.of_nat (length l) <= W64 ->
  exists head, serial_debug (chars "hexdumping addr 0x%x:") [ANum src] = Some head /\
  hexdump mem src (Z.of_nat (length l)) readable log =
    Ok tt (log ++ chars "DEBUG: " ++ [10] ++ head.1 ++ dump_text readable l).
Proof.
  intros Hmem Hbytes Hs0 Hs.
  assert (exists head, serial_debug (chars "hexdumping addr 0x%x:") [ANum src] = Some head) as [[t n] Hhead] by (eexists; reflexivity).
  exists (t, n). split; [done|]. cbn [fst]. revert log. change (emits (hexdump mem src (Z.of_nat (length l)) readable)
    (chars "DEBUG: " ++ [10] ++ t ++ dump_text readable l)). unfold hexdump, dump_text. set (N := (length l / 16)%nat).
  assert (HN : (length l = 16 * N + length l mod 16)%nat) by (unfold N; apply Nat.div_mod_eq).
  pose proof (Nat.mod_upper_bound (length l) 16 ltac:(lia)) as Hm.
  replace (Z.of_nat (length l) / 16) with (Z.of_nat N) by (unfold N; by rewrite Nat2Z.inj_div).
  replace (Z.of_nat (length l) mod 16) with (Z.of_nat (length l mod 16)) by (by rewrite Nat2Z.inj_mod).
  rewrite Nat2Z.id, app_assoc. apply emits_bind; [by eapply emits_debug|]. apply emits_bind; [by eapply emits_debug|].
  apply emits_bind.
  { rewrite <- list_fmap_compose. apply emits_loop. intros k Hk. apply dump_row_emits; [done|done|lia|lia]. }
  set (m := (length l mod 16)%nat) in *.
  replace (Z.of_nat m =? 0) with (m =? 0)%nat by (destruct m; done). destruct (Nat.eqb_spec m 0) as [E|E]; [apply emits_ret|].
  apply (dump_tail_emits mem src l Hmem Hbytes ltac:(lia) readable N m); lia.
Qed.

(** The 20 bytes of a string with two unreadable ones at its end. *)
Definition demo_bytes : list Z := chars "Hello, LiOS kernel" ++ [0; 255].
Definition demo_mem : gmap Z Z := list_to_map (zip (seqZ 0x1000 20) demo_bytes).

Lemma hexdump_prints_witness :
  exists head, serial_debug (chars "hexdumping addr 0x%x:") [ANum 0x1000] = Some head /\
  hexdump demo_mem 0x1000 20 true [] =
    Ok tt ([] ++ chars "DEBUG: " ++ [10] ++ head.1 ++ dump_text true demo_bytes).
Proof.
  apply (hexdump_prints demo_mem 0x1000 demo_bytes true []).
  - apply indexed_all. vm_compute. repeat constructor.
  - vm_compute. repeat constructor; done.
  - done.
  - vm_compute. done.
Defined.

Example demo_dump_rows :
  dump_text true demo_bytes =
  chars "DEBUG:     48 65 6C 6C 6F 2C 20 4C   69 4F 53 20 6B 65 72 6E  |Hello, LiOS kern|" ++ [10] ++
  chars "DEBUG:     65 6C 00 FF                                        |el..            |" ++ [10] ++
  chars "DEBUG: " ++ [10].
Proof. reflexivity. Qed.

End Hexdump.
