(* ===== verification/Serial.v ===== *)
(** * io/serial.c, io/io.c: the serial port

    The port is a device behind [inb] and [outb].  What the driver relies on is
    stated as laws ([UartLaws]), which are those of the data sheet of the 16550:
    what the registers of a port do, and that the transmitter becomes ready
    again.  A model of the chip that takes its time for every byte is an
    instance.  The waiting loops do not end by themselves and take the number of
    times they may look as an argument. *)

From S2P Require Import Prelude Output.
Import Output.

Module Serial.

(** util/const.h *)
Definition SERIAL_COM1_BASE : Z := 0x3F8.
Definition SERIAL_LINE_ENABLE_DLAB : Z := 0x80.
Definition GET_SERIAL_DATA_PORT (base : Z) : Z := base.
Definition GET_SERIAL_FIFO_COMMAND_PORT (base : Z) : Z := base + 2.
Definition GET_SERIAL_LINE_COMMAND_PORT (base : Z) : Z := base + 3.
Definition GET_SERIAL_MODEM_COMMAND_PORT (base : Z) : Z := base + 4.
Definition GET_SERIAL_LINE_STATUS_PORT (base : Z) : Z := base + 5.

(** The ports of the machine: what a read returns and what reads and writes
    do to the devices. *)
Class Ports (D : Type) := {
  port_in : Z -> D -> Z * D;
  port_out : Z -> Z -> D -> D;
}.

Section serial.
Context {D : Type} `{!Ports D}.
(** how often a waiting loop may look *)
Context (polls : nat).

(** io/io.c *)
Definition inb (port : Z) : M D Z := fun d => let '(v, d') := port_in (u16 port) d in Ok (u8 v) d'.
Definition outb (port data : Z) : M D unit := modify (port_out (u16 port) (u8 data)).

Definition serial_configure_baud_rate (port divisor : Z) : M D unit :=
  outb (GET_SERIAL_LINE_COMMAND_PORT port) SERIAL_LINE_ENABLE_DLAB;;
  outb (GET_SERIAL_DATA_PORT port) (Z.land (Z.shiftr divisor 8) 0xFF);;
  outb (GET_SERIAL_DATA_PORT port) (Z.land divisor 0xFF).

Definition serial_configure_line (port : Z) : M D unit := outb (GET_SERIAL_LINE_COMMAND_PORT port) 0x3.
Definition serial_configure_buffers (port : Z) : M D unit := outb (GET_SERIAL_FIFO_COMMAND_PORT port) 0xC7.
Definition serial_configure_modem (port : Z) : M D unit := outb (GET_SERIAL_MODEM_COMMAND_PORT port) 0x3.

Definition serial_fifo_empty (port : Z) : M D bool :=
  v ← inb (GET_SERIAL_LINE_STATUS_PORT port);
  mret (negb (Z.land v (Z.shiftl 1 5) =? 0)).

(** [while (!serial_fifo_empty(SERIAL_COM1_BASE));] *)
Fixpoint wait_fifo_empty (n : nat) : M D unit :=
  match n with
  | O => out_of_fuel
  | S n' =>
    empty ← serial_fifo_empty SERIAL_COM1_BASE;
    if negb empty then wait_fifo_empty n' else mret tt
  end.

Definition serial_putchar (c : Z) : M D unit :=
  wait_fifo_empty polls;;
  outb (GET_SERIAL_DATA_PORT SERIAL_COM1_BASE) c.

Definition serial_init : M D unit :=
  serial_configure_buffers SERIAL_COM1_BASE;;
  serial_configure_line SERIAL_COM1_BASE;;
  serial_configure_modem SERIAL_COM1_BASE;;
  serial_configure_baud_rate SERIAL_COM1_BASE 3;;
  serial_configure_line SERIAL_COM1_BASE;;
  wait_fifo_empty polls;;
  serial_putchar 10.

(** io/output.c: [print] with the destination SERIAL *)
Fixpoint print (text : list Z) : M D unit :=
  match text with [] => mret tt | c :: text' => serial_putchar c;; print text' end.

(** io/output.c: a line of the log, character by character through the port *)
Definition serial_log (prefix : string) (format : list Z) (args : list arg) : M D Z :=
  print (chars prefix);;
  o ← lift_opt (printf format args nothing);
  print (text o);;
  serial_putchar 10;;
  mret (length_ o).

End serial.

(** ** The formatter prints bytes *)

Definition all_bytes (o : out) : Prop := Forall (fun c => 0 <= c < 256) (text o).

Lemma put_bytes c o : all_bytes o -> all_bytes (put c o).
Proof. intros Ho. apply Forall_app. split; [done|]. constructor; [apply u8_range|done]. Qed.

Lemma dec_loop_bytes ps : forall num b o, all_bytes o -> all_bytes (dec_loop ps num b o).
Proof. induction ps as [|p ps IH]; intros num b o Ho; cbn [dec_loop]; [done|]. repeat case_match; auto using put_bytes. Qed.

Lemma hex_loop_bytes ps : forall num b o, all_bytes o -> all_bytes (hex_loop ps num b o).
Proof.
  induction ps as [|p ps IH]; intros num b o Ho; cbn [hex_loop]; [done|].
  destruct (num / p =? 0); [destruct b|]; auto using put_bytes.
Qed.

Lemma print_str_bytes str : forall o, all_bytes o -> all_bytes (print_str str o).
Proof. unfold print_str. induction str as [|c str IH]; intros o Ho; cbn; auto using put_bytes. Qed.

Lemma print_num_bytes num o : all_bytes o -> all_bytes (print_dec num o) /\ all_bytes (print_hex num o).
Proof.
  intros Ho. unfold print_dec, print_hex.
  destruct (num =? 0); split; auto using put_bytes, dec_loop_bytes, hex_loop_bytes.
Qed.

Lemma printf_bytes k : forall format args o o', (length format < k)%nat ->
  printf format args o = Some o' -> all_bytes o -> all_bytes o'.
Proof.
  induction k as [|k IH]; intros format args o o' Hk; [lia|]. destruct format as [|c format]; [by intros [= <-]|].
  cbn [length] in Hk.
  assert (Hstep : forall rest args1 o1, (length rest <= length format)%nat ->
    printf rest args1 o1 = Some o' -> all_bytes o1 -> all_bytes o').
  { intros rest args1 o1 Hr Hp H1. eapply IH; [|exact Hp|done]. lia. }
  cbn [printf]. repeat case_match; try done; intros Hp Ho; (eapply Hstep; [|exact Hp|]; [cbn [length]; lia|]);
    first [done | by apply put_bytes | by apply print_num_bytes | by apply print_str_bytes].
Qed.

(** ** What the chip promises *)

Class UartLaws (D : Type) `{!Ports D} := {
  (** the bytes that have gone to the line, the registers, and a bound on how
      often the status can still be read before the transmitter is ready *)
  sent : D -> list Z;
  dlab : D -> bool;
  line_format : D -> Z;
  divisor_low : D -> Z;
  divisor_high : D -> Z;
  busy : D -> nat;
  (** the line status: bit 5 is set if the transmitter is ready; if it is not,
      it is so after finitely many reads, and reading changes nothing else *)
  lsr_read d : let '(v, d') := port_in 0x3FD d in
    0 <= v < 256 /\ sent d' = sent d /\ dlab d' = dlab d /\ line_format d' = line_format d /\
    divisor_low d' = divisor_low d /\ divisor_high d' = divisor_high d /\
    (if Z.testbit v 5 then busy d = 0%nat /\ d' = d else (busy d' < busy d)%nat);
  (** line control: the format in the low bits, the divisor latch in bit 7 *)
  lcr_write v d : let d' := port_out 0x3FB v d in
    dlab d' = Z.testbit v 7 /\ line_format d' = Z.land v 0x7F /\
    sent d' = sent d /\ divisor_low d' = divisor_low d /\ divisor_high d' = divisor_high d;
  (** the data port with the latch open: the low byte of the divisor *)
  dll_write v d : dlab d = true -> let d' := port_out 0x3F8 v d in
    divisor_low d' = v /\ divisor_high d' = divisor_high d /\
    sent d' = sent d /\ dlab d' = true /\ line_format d' = line_format d;
  (** the data port with the latch closed and the transmitter ready *)
  thr_write v d : dlab d = false -> busy d = 0%nat -> let d' := port_out 0x3F8 v d in
    sent d' = sent d ++ [v] /\ dlab d' = false /\ line_format d' = line_format d /\
    divisor_low d' = divisor_low d /\ divisor_high d' = divisor_high d;
  (** buffer and modem control *)
  other_write p v d : p = 0x3FA \/ p = 0x3FC -> let d' := port_out p v d in
    sent d' = sent d /\ dlab d' = dlab d /\ line_format d' = line_format d /\
    divisor_low d' = divisor_low d /\ divisor_high d' = divisor_high d;
}.

Section laws.
Context {D : Type} `{!Ports D} `{!UartLaws D}.

(** [d] and [d'] differ at most in what has been sent and in how busy they are. *)
Definition same_setup (d d' : D) : Prop :=
  dlab d' = dlab d /\ line_format d' = line_format d /\ divisor_low d' = divisor_low d /\ divisor_high d' = divisor_high d.

Lemma same_setup_trans d1 d2 d3 : same_setup d1 d2 -> same_setup d2 d3 -> same_setup d1 d3.
Proof. unfold same_setup. intros (->&->&->&->) (->&->&->&->). done. Qed.

Lemma status_bit v : 0 <= v < 256 -> negb (Z.land v (Z.shiftl 1 5) =? 0) = Z.testbit v 5.
Proof.
  intros Hv. destruct (Z.testbit v 5) eqn:E.
  - destruct (Z.eqb_spec (Z.land v (Z.shiftl 1 5)) 0) as [H|]; [|done].
    apply (f_equal (fun x => Z.testbit x 5)) in H. by rewrite Z.land_spec, E in H.
  - replace (Z.land v (Z.shiftl 1 5)) with 0; [done|]. symmetry. apply Z.bits_inj'. intros i Hi.
    rewrite Z.land_spec, Z.bits_0. destruct (decide (i = 5)) as [->|Hne]; [by rewrite E|].
    replace (Z.testbit (Z.shiftl 1 5) i) with false; [by rewrite andb_false_r|].
    change (Z.shiftl 1 5) with (2 ^ 5). rewrite Z.pow2_bits_eqb by lia. destruct (Z.eqb_spec 5 i); [lia|done].
Qed.

(** The wait ends, with a ready transmitter. *)
Lemma wait_fifo_run n : forall d : D, (busy d < n)%nat ->
  exists d', wait_fifo_empty n d = Ok tt d' /\ busy d' = 0%nat /\ sent d' = sent d /\ same_setup d d'.
Proof.
  induction n as [|n IH]; intros d Hn; [lia|]. cbn [wait_fifo_empty]. pose proof (lsr_read d) as Hl.
  unfold serial_fifo_empty, inb. unfold mbind, M_bind. change (u16 _) with 0x3FD.
  destruct (port_in 0x3FD d) as [v d1]. destruct Hl as (Hv & Hs & H1 & H2 & H3 & H4 & Hb).
  rewrite u8_small, status_bit by done. cbn [mret M_ret]. destruct (Z.testbit v 5); cbn [negb].
  - destruct Hb as [Hb ->]. exists d. unfold same_setup. done.
  - destruct (IH d1) as (d2 & Hr & Hb2 & Hs2 & Hset); [lia|]. exists d2. split_and!; [done|done|congruence|].
    eapply same_setup_trans; [|exact Hset]. unfold same_setup. done.
Qed.

Lemma wait_mono n : forall p (d d' : D), wait_fifo_empty n d = Ok tt d' -> (n <= p)%nat -> wait_fifo_empty p d = Ok tt d'.
Proof.
  induction n as [|n IH]; intros p d d' Hr Hp; [done|]. destruct p as [|p]; [lia|]. cbn [wait_fifo_empty] in *.
  unfold mbind, M_bind in *. destruct (serial_fifo_empty _ d) as [b d1|msg| |]; try done.
  destruct b; cbn [negb] in *; [done|]. apply IH; [done|lia].
Qed.

(** A program that waits ends in the same way however often it may look, as
    long as that is often enough. *)
Definition completes {A} (c : nat -> M D A) (d : D) (Q : A -> D -> Prop) : Prop :=
  exists n a d', (forall p, (n <= p)%nat -> c p d = Ok a d') /\ Q a d'.

Lemma completes_ok {A} (c : nat -> M D A) d (Q : A -> D -> Prop) a d' :
  (forall p, c p d = Ok a d') -> Q a d' -> completes c d Q.
Proof. intros Hc HQ. exists 0%nat, a, d'. split; [|done]. intros p _. apply Hc. Qed.

Lemma completes_bind {A B} (c : nat -> M D A) (k : nat -> A -> M D B) d Q :
  completes c d (fun a d' => completes (fun p => k p a) d' Q) -> completes (fun p => c p ≫= k p) d Q.
Proof.
  intros (n & a & d1 & Hc & m & b & d2 & Hk & HQ). exists (n `max` m)%nat, b, d2. split; [|done].
  intros p Hp. rewrite (bind_ok _ _ _ _ _ (Hc p ltac:(lia))). apply Hk. lia.
Qed.

Lemma completes_mono {A} (c : nat -> M D A) d (Q Q' : A -> D -> Prop) :
  completes c d Q -> (forall a d', Q a d' -> Q' a d') -> completes c d Q'.
Proof. intros (n & a & d' & Hc & HQ) HM. exists n, a, d'. split; [done|by apply HM]. Qed.

Lemma completes_wait d : completes wait_fifo_empty d (fun _ d' => busy d' = 0%nat /\ sent d' = sent d /\ same_setup d d').
Proof.
  destruct (wait_fifo_run (S (busy d)) d ltac:(lia)) as (d1 & Hr & Hb). exists (S (busy d)), tt, d1. split; [|done].
  intros p Hp. by apply (wait_mono (S (busy d))).
Qed.

Lemma putchar_completes c d : dlab d = false ->
  completes (fun p => serial_putchar p c) d (fun _ d' => sent d' = sent d ++ [u8 c] /\ same_setup d d').
Proof.
  intros Hd. apply completes_bind. eapply completes_mono; [apply completes_wait|]. intros _ d1 (Hb & Hs & Hset).
  eapply completes_ok; [done|]. destruct (thr_write (u8 c) d1) as (Ht & H1 & H2 & H3 & H4); [by rewrite (proj1 Hset)|done|].
  change (u16 _) with 0x3F8. rewrite Ht, Hs. split; [done|]. apply (same_setup_trans d d1); [done|].
  unfold same_setup. rewrite H1, H2, H3, H4. split_and!; try done. by rewrite (proj1 Hset).
Qed.

Lemma print_completes text : forall d, dlab d = false -> Forall (fun c => 0 <= c < 256) text ->
  completes (fun p => print p text) d (fun _ d' => sent d' = sent d ++ text /\ same_setup d d').
Proof.
  induction text as [|c text IH]; intros d Hd Ht; cbn [print].
  { eapply completes_ok; [done|]. rewrite app_nil_r. unfold same_setup. done. }
  apply Forall_cons in Ht as [Hc Ht]. apply completes_bind. eapply completes_mono; [by apply putchar_completes|].
  intros _ d1 [Hs Hset]. eapply completes_mono; [apply IH; [by rewrite (proj1 Hset)|done]|]. intros _ d2 [Hs2 Hset2].
  rewrite Hs2, Hs, u8_small, <- app_assoc by done. split; [done|by apply (same_setup_trans _ d1)].
Qed.

Lemma chars_bytes s : Forall (fun c => 0 <= c < 256) (chars s).
Proof.
  unfold chars. apply Forall_fmap, Forall_true. intros c. cbn. pose proof (Ascii.nat_ascii_bounded c). lia.
Qed.

(** the writes of [serial_init] in front of its first wait *)
Lemma configure_run d : exists d',
  (serial_configure_buffers SERIAL_COM1_BASE;; serial_configure_line SERIAL_COM1_BASE;;
   serial_configure_modem SERIAL_COM1_BASE;; serial_configure_baud_rate SERIAL_COM1_BASE 3;;
   serial_configure_line SERIAL_COM1_BASE) d = Ok tt d' /\
  sent d' = sent d /\ dlab d' = false /\ line_format d' = 3 /\ divisor_low d' = 3 /\ divisor_high d' = divisor_high d.
Proof.
  eexists. split; [reflexivity|].
  set (d1 := port_out _ (u8 0xC7) d). set (d2 := port_out _ _ d1). set (d3 := port_out _ _ d2).
  set (d4 := port_out _ (u8 SERIAL_LINE_ENABLE_DLAB) d3). set (d5 := port_out _ _ d4). set (d6 := port_out _ _ d5).
  destruct (other_write 0x3FA (u8 0xC7) d ltac:(lia)) as (S1 & _ & _ & _ & H1). change (port_out 0x3FA _ d) with d1 in *.
  destruct (lcr_write 3 d1) as (_ & _ & S2 & _ & H2). change (port_out 0x3FB 3 d1) with d2 in *.
  destruct (other_write 0x3FC 3 d2 ltac:(lia)) as (S3 & _ & _ & _ & H3). change (port_out 0x3FC 3 d2) with d3 in *.
  destruct (lcr_write 0x80 d3) as (D4 & _ & S4 & _ & H4). change (port_out 0x3FB 0x80 d3) with d4 in *.
  destruct (dll_write 0 d4 D4) as (_ & H5 & S5 & D5 & _). change (port_out 0x3F8 0 d4) with d5 in *.
  destruct (dll_write 3 d5 D5) as (L6 & H6 & S6 & _ & _). change (port_out 0x3F8 3 d5) with d6 in *.
  destruct (lcr_write 3 d6) as (D7 & F7 & S7 & L7 & H7). change (port_out (u16 _) (u8 3) d6) with (port_out 0x3FB 3 d6).
  split_and!; [congruence|by rewrite D7|by rewrite F7|congruence|congruence].
Qed.

(** ** The properties *)

(** C20. The log reaches the line.  For every chip that keeps the laws, however
    slow, [serial_init] ends with the format 8N1, the divisor latch closed, the
    low byte of the divisor set and a newline sent; and from any state with the
    latch closed a line of the log, printed character by character, arrives
    unchanged: its text is that of the formatter ([serial_line]) and nothing
    is lost, repeated or reordered. *)
Theorem serial_log_arrives d :
  completes (fun p => serial_init p) d (fun _ d' =>
    sent d' = sent d ++ [10] /\ dlab d' = false /\ line_format d' = 3 /\
    divisor_low d' = 3 /\ divisor_high d' = divisor_high d) /\
  (dlab d = false -> forall prefix format args line n, serial_line prefix format args = Some (line, n) ->
    completes (fun p => serial_log p prefix format args) d (fun m d' =>
      m = n /\ sent d' = sent d ++ line /\ dlab d' = false)).
Proof.
  split.
  - destruct (configure_run d) as (d1 & Hr & Hs & Hd & Hf & Hl & Hh).
    assert (Hi : forall p, serial_init p d = (wait_fifo_empty p;; serial_putchar p 10) d1).
    { intros p. rewrite <- (bind_ok _ (fun _ => wait_fifo_empty p;; serial_putchar p 10) _ _ _ Hr). reflexivity. }
    assert (Hc : completes (fun p => wait_fifo_empty p;; serial_putchar p 10) d1 (fun _ d' => sent d' = sent d1 ++ [10] /\ same_setup d1 d')).
    { apply completes_bind. eapply completes_mono; [apply completes_wait|]. intros _ d2 (_ & Hs2 & Hset).
      eapply completes_mono; [apply putchar_completes; by rewrite (proj1 Hset)|]. intros _ d3 [Hs3 Hset3].
      rewrite Hs3, Hs2. split; [done|by apply (same_setup_trans _ d2)]. }
    destruct Hc as (n & a & d2 & Hc & Hs2 & H1 & H2 & H3 & H4). exists n, a, d2.
    split; [intros p Hp; rewrite Hi; by apply Hc|]. split_and!; congruence.
  - intros Hd prefix format args line n Hl. unfold serial_line in Hl.
    destruct (printf format args nothing) as [o|] eqn:Hp; [|done]. injection Hl as <- <-.
    pose proof (printf_bytes _ _ _ _ _ (Nat.lt_succ_diag_r _) Hp (Forall_nil_2 _)) as Ho.
    apply completes_bind. eapply completes_mono; [apply print_completes; [done|apply chars_bytes]|]. intros _ d1 [Hs1 Hset1].
    apply completes_bind. eapply (completes_ok _ _ _ o d1); [intros p; by rewrite Hp|].
    apply completes_bind. eapply completes_mono; [apply print_completes; [by rewrite (proj1 Hset1)|done]|]. intros _ d2 [Hs2 Hset2].
    pose proof (same_setup_trans _ _ _ Hset1 Hset2) as Hset.
    apply completes_bind. eapply completes_mono; [apply putchar_completes; by rewrite (proj1 Hset)|]. intros _ d3 [Hs3 Hset3].
    eapply completes_ok; [done|]. rewrite Hs3, Hs2, Hs1, <- !app_assoc, (proj1 Hset3), (proj1 Hset). done.
Qed.

End laws.

(** ** A model of the chip *)

(** Every byte keeps the transmitter busy for three reads of the status. *)
Record uart := Uart { u_sent : list Z; u_lcr : Z; u_dll : Z; u_dlm : Z; u_busy : nat }.

#[export] Instance uart_ports : Ports uart := {|
  port_in p d := if p =? 0x3FD then
      (if (u_busy d =? 0)%nat then (0x60, d) else (0, Uart (u_sent d) (u_lcr d) (u_dll d) (u_dlm d) (pred (u_busy d))))
    else (0, d);
  port_out p v d :=
    if p =? 0x3F8 then
      if Z.testbit (u_lcr d) 7 then Uart (u_sent d) (u_lcr d) v (u_dlm d) (u_busy d)
      else if (u_busy d =? 0)%nat then Uart (u_sent d ++ [v]) (u_lcr d) (u_dll d) (u_dlm d) 3 else d
    else if p =? 0x3F9 then
      if Z.testbit (u_lcr d) 7 then Uart (u_sent d) (u_lcr d) (u_dll d) v (u_busy d) else d
    else if p =? 0x3FB then Uart (u_sent d) v (u_dll d) (u_dlm d) (u_busy d)
    else d
|}.

#[export] Program Instance uart_laws : UartLaws uart := {|
  sent := u_sent; dlab d := Z.testbit (u_lcr d) 7; line_format d := Z.land (u_lcr d) 0x7F;
  divisor_low := u_dll; divisor_high := u_dlm; busy := u_busy
|}.
Next Obligation. intros d. unfold port_in, uart_ports. cbn. destruct (u_busy d) eqn:E; cbn; rewrite ?E; split_and!; try done; lia. Qed.
Next Obligation. done. Qed.
Next Obligation. intros v d Hd. cbn -[Z.testbit] in *. by rewrite Hd. Qed.
Next Obligation. intros v d Hd Hb. cbn -[Z.testbit] in *. rewrite Hd, Hb. done. Qed.
Next Obligation. by intros p v d [->| ->]. Qed.

(** The chip as the firmware may leave it: busy, and with another divisor. *)
Definition cold : uart := Uart [] 0 1 0 5.

Lemma serial_log_arrives_witness :
  completes (fun p => serial_init p) cold (fun _ d' =>
    sent d' = sent cold ++ [10] /\ dlab d' = false /\ line_format d' = 3 /\ divisor_low d' = 3 /\
    divisor_high d' = divisor_high cold) /\
  completes (fun p => serial_log p "INFO:  " (chars "tag %u, size 0x%x") [ANum 6; ANum 160]) cold (fun m d' =>
    m = 16 /\ sent d' = sent cold ++ chars "INFO:  tag 6, size 0xA0" ++ [10] /\ dlab d' = false).
Proof.
  split; [exact (proj1 (serial_log_arrives cold))|].
  apply (proj2 (serial_log_arrives cold)) with (line := chars "INFO:  tag 6, size 0xA0" ++ [10]); reflexivity.
Defined.

(** Both bytes of the divisor go to the data port: a chip that starts with a
    divisor of 256 or more keeps its high byte. *)
Example serial_divisor_high_kept :
  serial_init 6 (Uart [] 0 1 1 5) = Ok tt (Uart [10] 3 3 1 3).
Proof. reflexivity. Qed.

End Serial.
