(* ===== verification/Misc.v ===== *)
(** * util/misc.c: memory and string functions

    Memory is a finite map from addresses to bytes; a function has no result
    when it touches an address outside of it.  [n - 1] after a comparison is
    the C idiom [len--]. *)

From S2P Require Import Prelude.

Module Misc.

Fixpoint memcpy_loop (len : nat) (d s : Z) (m : gmap Z Z) : option (gmap Z Z) :=
  match len with
  | O => Some m
  | S len' =>
    v ← m !! s;
    _ ← m !! d;
    memcpy_loop len' (d + 1) (s + 1) (<[d:=v]> m)
  end.
Definition memcpy (dest src len : Z) (m : gmap Z Z) : option (gmap Z Z) :=
  memcpy_loop (Z.to_nat len) dest src m.

Fixpoint memset_loop (len : nat) (ptr val : Z) (m : gmap Z Z) : option (gmap Z Z) :=
  match len with
  | O => Some m
  | S len' => _ ← m !! ptr; memset_loop len' (ptr + 1) val (<[ptr:=u8 val]> m)
  end.
Definition memset (dest val len : Z) (m : gmap Z Z) : option (gmap Z Z) :=
  memset_loop (Z.to_nat len) dest val m.

(** A scan of memory ends within as many steps as there are bytes. *)
Definition scan_fuel (m : gmap Z Z) : nat := S (size m).

Fixpoint strlen_loop (fuel : nat) (m : gmap Z Z) (s str : Z) : option Z :=
  match fuel with
  | O => None
  | S fuel' => c ← m !! s; if c =? 0 then Some (u64 (s - str)) else strlen_loop fuel' m (s + 1) str
  end.
Definition strlen (m : gmap Z Z) (str : Z) : option Z := strlen_loop (scan_fuel m) m str str.

Fixpoint strcmp_loop (fuel : nat) (m : gmap Z Z) (s1 s2 : Z) : option Z :=
  match fuel with
  | O => None
  | S fuel' =>
    c1 ← m !! s1;
    c2 ← m !! s2;
    if c1 =? 0 then Some (u32 (c1 - c2))
    else if c1 =? c2 then strcmp_loop fuel' m (s1 + 1) (s2 + 1)
    else Some (u32 (c1 - c2))
  end.
Definition strcmp (m : gmap Z Z) (p1 p2 : Z) : option Z := strcmp_loop (scan_fuel m) m p1 p2.

(** One comparison of [strncmp]: [inl] is the value of its [return], [inr] the
    characters it goes on with. *)
Definition cmp_step (m : gmap Z Z) (s1 s2 : Z) : option (Z + Z * Z) :=
  c1 ← m !! s1;
  c2 ← m !! s2;
  Some (if (c1 =? 0) || negb (c1 =? c2) then inl (u32 (c1 - c2)) else inr (c1, c2)).

(** the unrolled loop: [n4] rounds of four comparisons *)
Fixpoint strncmp4 (n4 : nat) (m : gmap Z Z) (s1 s2 c1 c2 : Z) : option (Z + Z * Z * Z * Z) :=
  match n4 with
  | O => Some (inr (s1, s2, c1, c2))
  | S n4' =>
    r ← cmp_step m s1 s2;
    match r with inl v => Some (inl v) | inr _ =>
    r ← cmp_step m (s1 + 1) (s2 + 1);
    match r with inl v => Some (inl v) | inr _ =>
    r ← cmp_step m (s1 + 2) (s2 + 2);
    match r with inl v => Some (inl v) | inr _ =>
    r ← cmp_step m (s1 + 3) (s2 + 3);
    match r with inl v => Some (inl v) | inr (c1, c2) =>
    strncmp4 n4' m (s1 + 4) (s2 + 4) c1 c2
    end end end end
  end.

(** the plain loop *)
Fixpoint strncmp1 (n : nat) (m : gmap Z Z) (s1 s2 c1 c2 : Z) : option Z :=
  match n with
  | O => Some (u32 (c1 - c2))
  | S n' =>
    r ← cmp_step m s1 s2;
    match r with inl v => Some v | inr (c1, c2) => strncmp1 n' m (s1 + 1) (s2 + 1) c1 c2 end
  end.

Definition strncmp (m : gmap Z Z) (s1 s2 n : Z) : option Z :=
  if 4 <=? n then
    r ← strncmp4 (Z.to_nat (Z.shiftr n 2)) m s1 s2 0 0;
    match r with
    | inl v => Some v
    | inr (s1, s2, c1, c2) => strncmp1 (Z.to_nat (Z.land n 3)) m s1 s2 c1 c2
    end
  else strncmp1 (Z.to_nat n) m s1 s2 0 0.

(** [char] is signed: [c] is in -128 .. 127. *)
Definition toupper (c : Z) : Z := if (97 <=? c) && (c <=? 122) then c + 65 - 97 else c.

(** ** Lemmas *)

Definition region (m : gmap Z Z) (a n : Z) : Prop := forall i, a <= i < a + n -> is_Some (m !! i).

(** A 0-terminated string at [p]. *)
Fixpoint cstr (m : gmap Z Z) (p : Z) (l : list Z) : Prop :=
  match l with
  | [] => m !! p = Some 0
  | c :: l' => 0 < c < 256 /\ m !! p = Some c /\ cstr m (p + 1) l'
  end.

Lemma cstr_fuel m p l : cstr m p l -> (length l < size m)%nat.
Proof.
  intros Hl. assert (Hin : forall i, 0 <= i <= Z.of_nat (length l) -> is_Some (m !! (p + i))).
  { revert p Hl. induction l as [|c l IH]; intros p; cbn; intros Hl i Hi.
    - assert (i = 0) as -> by lia. rewrite Z.add_0_r. eauto.
    - destruct Hl as (_ & Hp & Hl). destruct (decide (i = 0)) as [->|]; [rewrite Z.add_0_r; eauto|].
      replace (p + i) with (p + 1 + (i - 1)) by lia. apply IH; [done|lia]. }
  assert (Hs : (length (seqZ p (Z.of_nat (length l) + 1)) <= size m)%nat).
  { rewrite <- size_dom, <- (size_list_to_set (C := gset Z)) by apply NoDup_seqZ.
    apply subseteq_size. intros a. rewrite elem_of_list_to_set, elem_of_seqZ, elem_of_dom. intros Ha.
    replace a with (p + (a - p)) by lia. apply Hin. lia. }
  rewrite length_seqZ in Hs. lia.
Qed.

Lemma memcpy_loop_spec n : forall d s m,
  region m s (Z.of_nat n) -> region m d (Z.of_nat n) -> (d <= s \/ s + Z.of_nat n <= d) ->
  exists m', memcpy_loop n d s m = Some m' /\
    forall i, m' !! i = if decide (d <= i < d + Z.of_nat n) then m !! (i - d + s) else m !! i.
Proof.
  induction n as [|n IH]; intros d s m Hs Hd Hov; cbn [memcpy_loop].
  { exists m. split; [done|]. intros i. by rewrite decide_False by lia. }
  destruct (Hs s) as [v Hv]; [lia|]. destruct (Hd d) as [w Hw]; [lia|]. rewrite Hv, Hw. cbn.
  assert (Hreg : forall a k, region m a k -> region (<[d:=v]> m) a k).
  { intros a k Ha i Hi. rewrite lookup_insert. case_decide; eauto. }
  destruct (IH (d + 1) (s + 1) (<[d:=v]> m)) as (m' & Hr & Hm').
  - apply Hreg. intros i Hi. apply Hs. lia.
  - apply Hreg. intros i Hi. apply Hd. lia.
  - lia.
  - exists m'. split; [done|]. intros i. rewrite Hm'. destruct (decide (i = d)) as [->|Hne].
    + rewrite decide_False, decide_True, lookup_insert_eq by lia. by replace (d - d + s) with s by lia.
    + replace (i - (d + 1) + (s + 1)) with (i - d + s) by lia.
      repeat case_decide; try lia; rewrite lookup_insert_ne by lia; done.
Qed.

Lemma strcmp_loop_spec l1 : forall l2 fuel m s1 s2,
  cstr m s1 l1 -> cstr m s2 l2 -> (length l1 < fuel)%nat ->
  exists r, strcmp_loop fuel m s1 s2 = Some r /\ (r = 0 <-> l1 = l2).
Proof.
  induction l1 as [|c1 l1 IH]; intros l2 fuel m s1 s2 H1 H2 Hf; (destruct fuel as [|fuel]; [cbn in Hf; lia|]);
    cbn [strcmp_loop]; destruct l2 as [|c2 l2]; cbn in H1, H2.
  - rewrite H1, H2. cbn. by exists 0.
  - destruct H2 as (Hc & H2 & _). rewrite H1, H2. cbn. exists (u32 (0 - c2)). split; [done|].
    rewrite u32_wrap_neg by lia. split; [lia|done].
  - destruct H1 as (Hc & H1 & _). rewrite H1, H2. cbn. destruct (Z.eqb_spec c1 0); [lia|].
    exists (u32 (c1 - 0)). split; [done|]. rewrite u32_small by lia. split; [lia|done].
  - destruct H1 as (Hc1 & H1 & Hl1), H2 as (Hc2 & H2 & Hl2). rewrite H1, H2. cbn.
    destruct (Z.eqb_spec c1 0); [lia|]. destruct (Z.eqb_spec c1 c2) as [->|Hne].
    + destruct (IH l2 fuel m (s1 + 1) (s2 + 1)) as (r & Hr & Hz); try done; [cbn in Hf; lia|].
      exists r. split; [done|]. rewrite Hz. naive_solver.
    + exists (u32 (c1 - c2)). split; [done|]. destruct (decide (c1 < c2)).
      * rewrite u32_wrap_neg by lia. split; [lia|congruence].
      * rewrite u32_small by lia. split; [lia|congruence].
Qed.

(** Four rounds of the plain loop are one round of the unrolled loop. *)
Lemma strncmp4_unroll n4 : forall k m s1 s2 c1 c2,
  strncmp1 (4 * n4 + k) m s1 s2 c1 c2 =
  (r ← strncmp4 n4 m s1 s2 c1 c2;
   match r with inl v => Some v | inr (s1, s2, c1, c2) => strncmp1 k m s1 s2 c1 c2 end).
Proof.
  induction n4 as [|n4 IH]; intros k m s1 s2 c1 c2; [done|].
  replace (4 * S n4 + k)%nat with (S (S (S (S (4 * n4 + k))))) by lia. cbn [strncmp1 strncmp4].
  destruct (cmp_step m s1 s2) as [[v|[a1 a2]]|]; [done| |done]. cbn.
  destruct (cmp_step m (s1 + 1) (s2 + 1)) as [[v|[b1 b2]]|]; [done| |done]. cbn.
  replace (s1 + 1 + 1) with (s1 + 2) by lia. replace (s2 + 1 + 1) with (s2 + 2) by lia.
  destruct (cmp_step m (s1 + 2) (s2 + 2)) as [[v|[d1 d2]]|]; [done| |done]. cbn.
  replace (s1 + 2 + 1) with (s1 + 3) by lia. replace (s2 + 2 + 1) with (s2 + 3) by lia.
  destruct (cmp_step m (s1 + 3) (s2 + 3)) as [[v|[e1 e2]]|]; [done| |done]. cbn.
  replace (s1 + 3 + 1) with (s1 + 4) by lia. replace (s2 + 3 + 1) with (s2 + 4) by lia. apply IH.
Qed.

Lemma strncmp_plain m s1 s2 n : 0 <= n -> strncmp m s1 s2 n = strncmp1 (Z.to_nat n) m s1 s2 0 0.
Proof.
  intros Hn. unfold strncmp. destruct (Z.leb_spec 4 n); [|done].
  change 3 with (Z.ones 2). rewrite Z.land_ones, Z.shiftr_div_pow2 by lia. change (2 ^ 2) with 4.
  assert (Hsplit : Z.to_nat n = (4 * Z.to_nat (n / 4) + Z.to_nat (n mod 4))%nat).
  { pose proof (Z.div_mod n 4 ltac:(lia)). pose proof (Z.mod_pos_bound n 4 ltac:(lia)). pose proof (Z.div_pos n 4). lia. }
  by rewrite Hsplit, strncmp4_unroll.
Qed.

(** Comparing two regions of the same length: the result is 0 exactly if they
    agree, the second one being without zeros. *)
Lemma strncmp1_regions l1 : forall l2 m s1 s2 c1 c2,
  length l1 = length l2 -> Forall (fun c => 0 <= c < 256) l1 -> Forall (fun c => 0 < c < 256) l2 ->
  (forall i v, l1 !! i = Some v -> m !! (s1 + Z.of_nat i) = Some v) ->
  (forall i v, l2 !! i = Some v -> m !! (s2 + Z.of_nat i) = Some v) -> c1 = c2 ->
  exists r, strncmp1 (length l1) m s1 s2 c1 c2 = Some r /\ (r = 0 <-> l1 = l2).
Proof.
  induction l1 as [|a l1 IH]; intros [|b l2] m s1 s2 c1 c2 Hl H1 H2 Hm1 Hm2 Hc; try done.
  { exists 0. subst. cbn. by rewrite Z.sub_diag. }
  apply Forall_cons in H1 as [Ha H1]. apply Forall_cons in H2 as [Hb H2]. cbn [strncmp1 length]. unfold cmp_step.
  pose proof (Hm1 0%nat a eq_refl) as E1. pose proof (Hm2 0%nat b eq_refl) as E2. rewrite Z.add_0_r in E1, E2.
  rewrite E1, E2. cbn [mbind option_bind]. destruct (Z.eqb_spec a b) as [->|Hne].
  - destruct (Z.eqb_spec b 0); [lia|]. cbn [orb negb].
    destruct (IH l2 m (s1 + 1) (s2 + 1) b b) as (r & Hr & Hz); try done.
    + cbn in Hl. lia.
    + intros i v Hi. rewrite <- (Hm1 (S i) v Hi). f_equal. lia.
    + intros i v Hi. rewrite <- (Hm2 (S i) v Hi). f_equal. lia.
    + exists r. split; [done|]. rewrite Hz. split; congruence.
  - rewrite orb_true_r. exists (u32 (a - b)). split; [done|]. split; [|congruence].
    intros Hz. exfalso. destruct (decide (a < b)).
    + rewrite u32_wrap_neg in Hz by lia. lia.
    + rewrite u32_small in Hz by lia. lia.
Qed.

(** ** The properties *)

(** [memcpy] copies exactly the given range, byte for byte, also when the
    destination overlaps the source from below. *)
Theorem memcpy_copies dest src len m :
  0 <= len -> region m src len -> region m dest len -> (dest <= src \/ src + len <= dest) ->
  exists m', memcpy dest src len m = Some m' /\
    forall i, m' !! i = if decide (dest <= i < dest + len) then m !! (i - dest + src) else m !! i.
Proof.
  intros Hl Hs Hd Hov. pose proof (memcpy_loop_spec (Z.to_nat len) dest src m) as H.
  rewrite Z2Nat.id in H by lia. auto.
Qed.

Definition demo_mem : gmap Z Z :=
  list_to_map [(100, 97); (101, 98); (102, 99); (103, 100); (104, 0); (200, 97); (201, 98); (202, 0)].

Lemma demo_region a n : forallb (fun i => bool_decide (is_Some (demo_mem !! i))) (seqZ a n) = true -> region demo_mem a n.
Proof.
  intros H i Hi. rewrite forallb_forall in H.
  apply (proj1 (bool_decide_eq_true _)), H, list_elem_of_In, elem_of_seqZ. lia.
Qed.

Lemma memcpy_copies_witness :
  exists m', memcpy 100 101 3 demo_mem = Some m' /\
    forall i, m' !! i = if decide (100 <= i < 100 + 3) then demo_mem !! (i - 100 + 101) else demo_mem !! i.
Proof. apply (memcpy_copies 100 101 3 demo_mem); [lia|apply demo_region; reflexivity..|lia]. Defined.

(** [strcmp] returns on every pair of terminated strings, and returns 0
    exactly for equal strings. *)
Theorem strcmp_zero_iff_equal m p1 p2 l1 l2 :
  cstr m p1 l1 -> cstr m p2 l2 ->
  exists r, strcmp m p1 p2 = Some r /\ (r = 0 <-> l1 = l2).
Proof.
  intros H1 H2. apply (strcmp_loop_spec l1 l2); [done|done|]. unfold scan_fuel.
  pose proof (cstr_fuel _ _ _ H1). lia.
Qed.

Lemma strcmp_zero_iff_equal_witness :
  exists r, strcmp demo_mem 100 200 = Some r /\ (r = 0 <-> [97; 98; 99; 100] = [97; 98]).
Proof.
  apply (strcmp_zero_iff_equal demo_mem 100 200 [97; 98; 99; 100] [97; 98]); cbn; split_and!; done || lia.
Defined.

(** C35. The unrolled [strncmp] computes, on every memory and for every count,
    what the one-character-at-a-time loop computes (undefined accesses included). *)
Theorem strncmp_unrolled_correct m s1 s2 n :
  0 <= n -> strncmp m s1 s2 n = strncmp1 (Z.to_nat n) m s1 s2 0 0.
Proof. apply strncmp_plain. Qed.

Lemma strncmp_unrolled_correct_witness :
  strncmp demo_mem 100 200 7 = strncmp1 (Z.to_nat 7) demo_mem 100 200 0 0.
Proof. apply (strncmp_unrolled_correct demo_mem 100 200 7). lia. Defined.

End Misc.
