(* ===== verification/ArrayList.v ===== *)
(** * util/arraylist.c: growable arrays on the kernel heap *)

From S2P Require Import Prelude KMath VMalloc HeapMem HeapOps HeapProps.
Import KMath VMalloc HeapMem HeapOps HeapProps.

Module ArrayList.

Record ArrayList := AList { al_l : Z; al_size : Z; al_capacity : Z; al_entry_size : Z }.

Definition arraylist_new (entry_size : Z) : ArrayList := AList 0 0 0 entry_size.

Section arraylist.
Context {VS : Type} `{!VmmIface VS}.
Notation H := (M (heap VS)).

(** The list is passed by reference: the operations return the new fields. *)
Definition arraylist_add (list : ArrayList) : H (Z * ArrayList) :=
  if al_capacity list =? 0 then
    l ← vmalloc (1 *64 al_entry_size list);
    mret (0, AList l 1 1 (al_entry_size list))
  else if (al_size list +64 1) <=? al_capacity list then
    mret (al_size list, AList (al_l list) (al_size list +64 1) (al_capacity list) (al_entry_size list))
  else
    let capacity := al_capacity list *64 2 in
    l ← vrealloc (al_l list) (capacity *64 al_entry_size list);
    mret (al_size list, AList l (al_size list +64 1) capacity (al_entry_size list)).

(** [dst[i] = src[i + off]] for [i] from [lo] up to, not including, [hi] *)
Definition copy_range (dst src off lo hi : Z) : H unit :=
  for_loop (Z.to_nat (hi - lo)) lo (fun i => v ← rd8 (src + (i + off)); wr8 (dst + i) v).

Definition arraylist_remove (list : ArrayList) (index : Z) : H (bool * ArrayList) :=
  if al_size list <=? index then mret (false, list) else
  let entry_size := al_entry_size list in
  let new_size := al_size list -64 1 in
  if al_capacity list / 2 <=? new_size then
    copy_range (al_l list) (al_l list) entry_size (index *64 entry_size) (new_size *64 entry_size);;
    mret (true, AList (al_l list) (al_size list -64 1) (al_capacity list) entry_size)
  else
    let new_capacity := al_capacity list / 2 in
    new_list ← vmalloc (new_capacity *64 entry_size);
    copy_range new_list (al_l list) 0 0 (index *64 entry_size);;
    copy_range new_list (al_l list) entry_size (index *64 entry_size) (new_size *64 entry_size);;
    vfree (al_l list);;
    mret (true, AList new_list new_size new_capacity entry_size).

Definition arraylist_free (list : ArrayList) : H ArrayList :=
  vfree (al_l list);;
  mret (AList (al_l list) 0 0 (al_entry_size list)).

(** ** Lemmas *)

Lemma shift_loop b off : forall k lo (h : heap VS),
  0 < off -> wf_bytes (bytes h) -> mapped (bytes h) (b + lo) (Z.of_nat k + off) ->
  exists m', for_loop k lo (fun i => v ← rd8 (b + (i + off)); wr8 (b + i) v) h = Ok tt (set_bytes (fun _ => m') h) /\
    forall x, m' !! x = if decide (b + lo <= x < b + lo + Z.of_nat k) then bytes h !! (x + off) else bytes h !! x.
Proof.
  induction k as [|k IH]; intros lo h Hoff Hwf Hm.
  { exists (bytes h). split; [by destruct h|]. intros x. by rewrite decide_False by lia. }
  destruct (Hm (b + (lo + off))) as [v Hv]; [lia|]. destruct (Hm (b + lo)) as [w Hw]; [lia|].
  pose proof (Hwf _ _ Hv) as Hvr. cbn in Hvr.
  destruct (IH (lo + 1) (set_bytes (insert (b + lo) v) h)) as (m' & Hr & Hx); [done|by apply wf_insert| |].
  { intros i Hi. cbn. rewrite lookup_insert. case_decide; [eauto|]. apply Hm. lia. }
  exists m'. split.
  - cbn [for_loop]. unfold mbind at 1, M_bind at 1. unfold mbind at 1, M_bind at 1. unfold rd8 at 1. rewrite Hv.
    unfold wr8 at 1. rewrite Hw, (u8_small v) by done. by rewrite Hr.
  - intros x. rewrite Hx. cbn. destruct (decide (x = b + lo)) as [->|Hne].
    + rewrite decide_False, decide_True, lookup_insert_eq by lia. by replace (b + lo + off) with (b + (lo + off)) by lia.
    + repeat case_decide; try lia; by rewrite lookup_insert_ne by lia.
Qed.

(** ** The properties *)

(** Sizes and capacities that fit: the list is unallocated or holds at most
    [capacity] entries. *)
Definition al_ok (list : ArrayList) : Prop :=
  0 < al_entry_size list < 2 ^ 30 /\ 0 <= al_size list <= al_capacity list /\ al_capacity list < 2 ^ 30.

(** [arraylist_add] returns the old size as the index of the new entry,
    grows the size by one and keeps the size within the capacity, which it
    sets to one, keeps, or doubles. *)
Theorem arraylist_add_index list (h h' : heap VS) i list' :
  al_ok list -> arraylist_add list h = Ok (i, list') h' ->
  i = al_size list /\ al_size list' = al_size list + 1 /\ al_entry_size list' = al_entry_size list /\
  al_size list' <= al_capacity list' <= Z.max 1 (2 * al_capacity list).
Proof.
  intros (He & Hs & Hc). unfold arraylist_add. rewrite (u64_small (al_size list + 1)) by lia.
  destruct (Z.eqb_spec (al_capacity list) 0) as [E|E].
  - unfold mbind, M_bind. case_match; [|done..]. intros [= <- <- <-]. cbn. lia.
  - destruct (Z.leb_spec (al_size list + 1) (al_capacity list)).
    + intros [= <- <- <-]. cbn. lia.
    + unfold mbind, M_bind. case_match; [|done..]. intros [= <- <- <-]. cbn. rewrite u64_small by lia. lia.
Qed.

(** The contents of a list: its entries, each the bytes from its address on. *)
Definition entry (m : gmap Z Z) (l e k : Z) : list (option Z) := (fun j => m !! (l + k * e + j)) <$> seqZ 0 e.
Definition entries (m : gmap Z Z) (al : ArrayList) : list (list (option Z)) :=
  entry m (al_l al) (al_entry_size al) <$> seqZ 0 (al_size al).

Lemma entries_lookup m list i : 0 <= al_size list -> entries m list !! i =
  if decide (Z.of_nat i < al_size list) then Some (entry m (al_l list) (al_entry_size list) (Z.of_nat i)) else None.
Proof.
  intros Hs. unfold entries. rewrite list_lookup_fmap. case_decide as Hi.
  - rewrite lookup_seqZ_lt by lia. by rewrite Z.add_0_l.
  - by rewrite lookup_seqZ_ge by lia.
Qed.

Lemma entry_ext m m' l e k k' : (forall j, 0 <= j < e -> m' !! (l + k' * e + j) = m !! (l + k * e + j)) -> entry m' l e k' = entry m l e k.
Proof. intros H. apply list_fmap_ext. intros i j Hj. apply list_elem_of_lookup_2, elem_of_seqZ in Hj. apply H. lia. Qed.

(** C29. Removing an entry from a growable array.  As long as at least half of
    the capacity stays in use, [arraylist_remove] on a list whose buffer is
    mapped deletes exactly the entry of the index from the contents, in place:
    the entries behind it move down by one, and no byte outside of the buffer
    changes.  An index that is out of range changes nothing, and the result says
    which was the case.  Sizes are below 2^30. *)
Theorem arraylist_remove_deletes list (h : heap VS) index :
  al_ok list -> 0 <= index -> al_capacity list / 2 <= al_size list - 1 ->
  wf_bytes (bytes h) -> mapped (bytes h) (al_l list) (al_size list * al_entry_size list) ->
  let list' := AList (al_l list) (al_size list - 1) (al_capacity list) (al_entry_size list) in
  if decide (index < al_size list) then
    exists m', arraylist_remove list index h = Ok (true, list') (set_bytes (fun _ => m') h) /\
      entries m' list' = delete (Z.to_nat index) (entries (bytes h) list) /\
      forall x, x < al_l list \/ al_l list + al_size list * al_entry_size list <= x -> m' !! x = bytes h !! x
  else arraylist_remove list index h = Ok (false, list) h.
Proof.
  intros (He & Hs & Hc) Hi Hhalf Hwf Hm list'. unfold arraylist_remove.
  destruct (Z.leb_spec (al_size list) index); [rewrite decide_False by lia; done|rewrite decide_True by lia]. rewrite (u64_small (al_size list - 1)) by lia.
  destruct (Z.leb_spec (al_capacity list / 2) (al_size list - 1)); [|lia].
  set (e := al_entry_size list) in *. set (n := al_size list) in *. set (b := al_l list) in *.
  assert (index * e <= (n - 1) * e /\ n * e < 2 ^ 60 /\ 0 <= index * e) as Hb by nia.
  rewrite (u64_small (index * e)), (u64_small ((n - 1) * e)) by nia.
  destruct (shift_loop b e (Z.to_nat ((n - 1) * e - index * e)) (index * e) h) as (m' & Hr & Hx); [lia|done| |].
  { intros i Hir. apply Hm. nia. }
  rewrite Z2Nat.id in Hx by lia.
  exists m'. split_and!; [unfold copy_range; by rewrite (bind_ok _ _ _ _ _ Hr)| |].
  - apply list_eq. intros i. rewrite entries_lookup by (cbn; lia). cbn [al_size al_l al_entry_size list'].
    destruct (decide (i < Z.to_nat index)%nat) as [Hlt|Hge].
    + rewrite list_lookup_delete_lt, entries_lookup by lia. fold n b e. rewrite !decide_True by lia. f_equal. apply entry_ext.
      intros j Hj. rewrite Hx, decide_False by nia. done.
    + rewrite list_lookup_delete_ge, entries_lookup by lia. fold n b e. repeat case_decide; try (exfalso; lia); [|done]. f_equal. apply entry_ext.
      intros j Hj. rewrite Hx, decide_True by nia. f_equal. lia.
  - intros x Ho. rewrite Hx, decide_False by nia. done.
Qed.

End arraylist.

(** Entries of four bytes in the 64 bytes from 0x1000 on. *)
Definition demo_list : ArrayList := AList 0x1000 5 8 4.

Lemma arraylist_add_index_witness :
  5 = al_size demo_list /\ al_size (AList 0x1000 6 8 4) = al_size demo_list + 1 /\
  al_entry_size (AList 0x1000 6 8 4) = al_entry_size demo_list /\
  al_size (AList 0x1000 6 8 4) <= al_capacity (AList 0x1000 6 8 4) <= Z.max 1 (2 * al_capacity demo_list).
Proof.
  apply (arraylist_add_index demo_list demo_heap demo_heap 5 (AList 0x1000 6 8 4));
    [unfold al_ok; cbn; lia|reflexivity].
Defined.

Lemma arraylist_remove_deletes_witness :
  exists m', arraylist_remove demo_list 1 demo_heap = Ok (true, AList 0x1000 4 8 4) (set_bytes (fun _ => m') demo_heap) /\
    entries m' (AList 0x1000 4 8 4) = delete 1%nat (entries (bytes demo_heap) demo_list) /\
    forall x, x < 0x1000 \/ 0x1000 + 5 * 4 <= x -> m' !! x = bytes demo_heap !! x.
Proof.
  apply (arraylist_remove_deletes demo_list demo_heap 1);
    [unfold al_ok; cbn; lia|lia|vm_compute; congruence|apply demo_heap_wf|].
  intros i Hi. cbn [bytes demo_heap]. rewrite fill_bytes_lookup, decide_True; [eauto|]. cbn in Hi. lia.
Defined.

End ArrayList.
