(* ===== verification/Proc.v ===== *)
(** * proc/proc.c: the table of processes

    The table is a growable array on the kernel heap; a process is a record of
    88 bytes in it.  The fields are written one by one, the padding between
    them is left alone. *)

From S2P Require Import Prelude KMath VMalloc HeapMem HeapOps HeapProps ArrayList.
Import KMath VMalloc HeapMem HeapOps HeapProps ArrayList.

Module Proc.

(** proc/proc.h *)
Inductive ProcessState :=
  | PROC_STATE_UNUSED
  | PROC_STATE_EMBRYO
  | PROC_STATE_SLEEPING
  | PROC_STATE_RUNNABLE
  | PROC_STATE_RUNNING
  | PROC_STATE_ZOMBIE.
(** the value of an enumerator *)
Definition state_code (s : ProcessState) : Z :=
  match s with
  | PROC_STATE_UNUSED => 0
  | PROC_STATE_EMBRYO => 1
  | PROC_STATE_SLEEPING => 2
  | PROC_STATE_RUNNABLE => 3
  | PROC_STATE_RUNNING => 4
  | PROC_STATE_ZOMBIE => 5
  end.

Record Process := Proc {
  seg_vaddr : Z;
  seg_num_pages : Z;
  seg_pages : Z;
  mem : Z;
  sz : Z;
  kstack : Z;
  state : ProcessState;
  pid : Z;
  parent : Z;
  chan : Z;
  killed : Z;
}.

(** [struct Process process = { 0 }] *)
Definition zero_process : Process := Proc 0 0 0 0 0 0 PROC_STATE_UNUSED 0 0 0 0.
Definition set_pid (i : Z) (p : Process) : Process :=
  Proc (seg_vaddr p) (seg_num_pages p) (seg_pages p) (mem p) (sz p) (kstack p) (state p) i (parent p) (chan p) (killed p).

Definition sizeof_Process : Z := 88.

(** The fields of a record: offset, width and value. *)
Definition layout (p : Process) : list (Z * nat * Z) :=
  [(0, 8%nat, seg_vaddr p); (8, 8%nat, seg_num_pages p); (16, 8%nat, seg_pages p); (24, 8%nat, mem p);
   (32, 8%nat, sz p); (40, 8%nat, kstack p); (48, 4%nat, state_code (state p)); (56, 8%nat, pid p);
   (64, 8%nat, parent p); (72, 8%nat, chan p); (80, 4%nat, killed p)].

Section proc.
Context {VS : Type} `{!VmmIface VS}.
Notation H := (M (heap VS)).

(** the assignment of a structure *)
Fixpoint store_fields (a : Z) (l : list (Z * nat * Z)) : H unit :=
  match l with
  | [] => mret tt
  | (off, n, v) :: l' => wrn n (a + off) v;; store_fields a l'
  end.
Definition store_process (a : Z) (p : Process) : H unit := store_fields a (layout p).

(** The table is a global variable: the operations return the new one. *)
Definition proc_init : ArrayList := arraylist_new sizeof_Process.

Definition proc_create (proc_table : ArrayList) : H (Z * ArrayList) :=
  '(new_index, proc_table) ← arraylist_add proc_table;
  let process := set_pid new_index zero_process in
  store_process (al_l proc_table +64 (new_index *64 sizeof_Process)) process;;
  mret (al_l proc_table +64 (new_index *64 sizeof_Process), proc_table).

End proc.

(** ** Records in memory *)

(** The record [p] lies at [a]. *)
Definition holds (m : gmap Z Z) (a : Z) (p : Process) : Prop :=
  Forall (fun '(off, n, v) => getn n m (a + off) = Some v) (layout p).

Lemma holds_ext m m' a p : (forall i, a <= i < a + 88 -> m' !! i = m !! i) -> holds m a p -> holds m' a p.
Proof.
  intros Hm. unfold holds, layout. rewrite !Forall_cons.
  intros H. decompose [and] H. split_and!; try (by apply Forall_nil_2);
    (etrans; [|eassumption]; apply getn_ext; intros i Hi; apply Hm; cbn in Hi; lia).
Qed.

(** Fields in order, apart from each other, with values that fit. *)
Fixpoint fields_ok (lo : Z) (l : list (Z * nat * Z)) : Prop :=
  match l with
  | [] => lo <= sizeof_Process
  | (off, n, v) :: l' => lo <= off /\ 0 <= v < 256 ^ Z.of_nat n /\ fields_ok (off + Z.of_nat n) l'
  end.

Lemma fields_ok_size l : forall lo, fields_ok lo l -> lo <= sizeof_Process.
Proof. induction l as [|[[off n] v] l IH]; intros lo; cbn; [done|]. intros (H1 & _ & H2%IH). lia. Qed.

Section store.
Context {VS : Type} `{!VmmIface VS}.
Implicit Types h : heap VS.

Lemma store_fields_run a l : forall lo h, fields_ok lo l -> 0 <= lo -> mapped (bytes h) a sizeof_Process ->
  exists m', store_fields a l h = Ok tt (set_bytes (fun _ => m') h) /\
    (forall i, i < a + lo \/ a + sizeof_Process <= i -> m' !! i = bytes h !! i) /\
    Forall (fun '(off, n, v) => getn n m' (a + off) = Some v) l /\
    (forall b k, mapped (bytes h) b k -> mapped m' b k).
Proof.
  induction l as [|[[off n] v] l IH]; intros lo h Hl Hlo Hm; cbn [store_fields fields_ok] in *.
  { exists (bytes h). split_and!; [by destruct h|done|by apply Forall_nil_2|done]. }
  destruct Hl as (Ho & Hv & Hl). pose proof (fields_ok_size _ _ Hl) as Hsz.
  assert (Hw : mapped (bytes h) (a + off) (Z.of_nat n)) by (intros i Hi; apply Hm; lia).
  rewrite (bind_ok _ _ _ _ _ (wrn_run n (a + off) v h Hw)).
  set (h1 := set_bytes (fun m => putn n m (a + off) v) h).
  destruct (IH (off + Z.of_nat n) h1) as (m' & Hr & Hout & Hf & Hd); [done|lia|by apply putn_mapped|].
  exists m'. split_and!; [done| | |].
  - intros i Hi. rewrite Hout by lia. cbn. apply putn_out. lia.
  - constructor; [|done]. rewrite (getn_ext n (bytes h1)); [by apply getn_putn|]. intros i Hi. apply Hout. lia.
  - intros b k Hb. by apply Hd, putn_mapped.
Qed.

(** A table of processes: room for [capacity] records, and record [k] has the
    process number [k]. *)
Record table_ok (t : ArrayList) (h : heap VS) : Prop := {
  to_entry : al_entry_size t = sizeof_Process;
  to_size : 0 <= al_size t <= al_capacity t;
  to_capacity : 0 < al_capacity t < 2 ^ 30;
  to_addr : 0 < al_l t /\ al_l t + sizeof_Process * al_capacity t < W64;
  to_mapped : mapped (bytes h) (al_l t) (sizeof_Process * al_capacity t);
  to_pids : forall k, 0 <= k < al_size t -> exists p, holds (bytes h) (al_l t + sizeof_Process * k) p /\ pid p = k;
}.

Definition new_process (i : Z) : Process := set_pid i zero_process.

Lemma new_process_ok i : 0 <= i < 2 ^ 30 -> fields_ok 0 (layout (new_process i)).
Proof. intros Hi. cbn -[Z.pow]. change (256 ^ Z.of_nat 8) with 18446744073709551616. change (256 ^ Z.of_nat 4) with 4294967296. unfold sizeof_Process. lia. Qed.

(** Filling in the record behind the last one. *)
Lemma store_new t h :
  table_ok t h -> al_size t < al_capacity t ->
  let a := al_l t + sizeof_Process * al_size t in
  exists m', store_process a (new_process (al_size t)) h = Ok tt (set_bytes (fun _ => m') h) /\
    table_ok (AList (al_l t) (al_size t + 1) (al_capacity t) sizeof_Process) (set_bytes (fun _ => m') h) /\
    holds m' a (new_process (al_size t)) /\
    (forall i, i < a \/ a + sizeof_Process <= i -> m' !! i = bytes h !! i).
Proof.
  intros Ht Hc a. pose proof (to_size _ _ Ht). pose proof (to_capacity _ _ Ht).
  destruct (store_fields_run a (layout (new_process (al_size t))) 0 h) as (m' & Hr & Hout & Hf & Hd);
    [apply new_process_ok; lia|lia| |].
  { intros i Hi. apply (to_mapped _ _ Ht). unfold a, sizeof_Process in *. lia. }
  exists m'. rewrite Z.add_0_r in Hout. split_and!; [done| |done|done].
  split; cbn [al_l al_size al_capacity al_entry_size bytes set_bytes]; try done; [lia|apply Ht|by apply Hd, (to_mapped _ _ Ht)|].
  intros k Hk. destruct (decide (k = al_size t)) as [->|Hne]; [by exists (new_process (al_size t))|].
  destruct (to_pids _ _ Ht k) as (p & Hp & E); [lia|]. exists p. split; [|done].
  eapply holds_ext; [|exact Hp]. intros i Hi. apply Hout. unfold a, sizeof_Process in *. lia.
Qed.

(** C37. Creating a process.  In a table with room, [proc_create] returns the
    address of the record behind the last one, which it fills with zeros and
    with its index as the process number; the other records keep their
    contents, nothing outside of the record changes, and the process number of
    every record of the new table is its index. *)
Theorem proc_create_numbers t h :
  table_ok t h -> al_size t < al_capacity t ->
  let a := al_l t + sizeof_Process * al_size t in
  let t' := AList (al_l t) (al_size t + 1) (al_capacity t) sizeof_Process in
  exists m', proc_create t h = Ok (a, t') (set_bytes (fun _ => m') h) /\ table_ok t' (set_bytes (fun _ => m') h) /\
    holds m' a (new_process (al_size t)) /\
    (forall i, i < a \/ a + sizeof_Process <= i -> m' !! i = bytes h !! i).
Proof.
  intros Ht Hc a t'. destruct (store_new t h Ht Hc) as (m' & Hr & Hrest). exists m'. split; [|done].
  pose proof (to_size _ _ Ht). pose proof (to_capacity _ _ Ht). pose proof (to_addr _ _ Ht).
  unfold proc_create, arraylist_add. destruct (Z.eqb_spec (al_capacity t) 0); [lia|].
  rewrite (u64_small (al_size t + 1)) by lia. destruct (Z.leb_spec (al_size t + 1) (al_capacity t)); [|lia].
  rewrite bind_ret. cbn beta iota zeta. cbn [al_l]. unfold sizeof_Process in *.
  rewrite (u64_small (al_size t * 88)) by lia. rewrite u64_small by lia.
  replace (al_l t + al_size t * 88) with a by (unfold a; lia).
  rewrite (bind_ok _ _ _ _ _ Hr), (to_entry _ _ Ht). done.
Qed.

End store.

(** ** Concrete tables *)

(** Creating [n] processes one after the other; the addresses returned. *)
Fixpoint create_many (n : nat) (t : ArrayList) : M (heap (Z * gmap Z Z)) (list Z * ArrayList) :=
  match n with
  | O => mret ([], t)
  | S n' => '(a, t) ← proc_create t; '(l, t) ← create_many n' t; mret (a :: l, t)
  end.

(** A table with room for two processes and one process in it. *)
Definition demo_table : ArrayList := AList 0x1000 1 2 sizeof_Process.
Definition demo_procs : heap (Z * gmap Z Z) := Heap (fill_bytes 256 0x1000 0 ∅) (bump_base, ∅) 0x1000 0x1000.

Lemma demo_table_ok : table_ok demo_table demo_procs.
Proof.
  split; cbn [demo_table al_l al_size al_capacity al_entry_size]; unfold sizeof_Process; try lia.
  - intros i Hi. cbn [bytes demo_procs]. rewrite fill_bytes_lookup, decide_True by lia. eauto.
  - intros k Hk. replace k with 0 by lia. exists zero_process. split; [|done]. unfold holds, layout.
    repeat (apply Forall_cons; split; [vm_compute; reflexivity|]). by apply Forall_nil_2.
Qed.

Lemma proc_create_numbers_witness :
  exists m', proc_create demo_table demo_procs = Ok (0x1058, AList 0x1000 2 2 88) (set_bytes (fun _ => m') demo_procs) /\
    table_ok (AList 0x1000 2 2 88) (set_bytes (fun _ => m') demo_procs) /\ holds m' 0x1058 (new_process 1) /\
    (forall i, i < 0x1058 \/ 0x1058 + 88 <= i -> m' !! i = bytes demo_procs !! i).
Proof. apply (proc_create_numbers demo_table demo_procs); [apply demo_table_ok|reflexivity]. Defined.

(** From the boot on: the table grows from one to eight records, and the
    process numbers follow each other. *)
Example proc_create_first_five :
  match create_many 5 proc_init init_heap with
  | Ok (_, t) h => (al_size t =? 5) && (al_capacity t =? 8) &&
    bool_decide ((fun k => getn 8 (bytes h) (al_l t + 88 * k + 56)) <$> [0; 1; 2; 3; 4] = Some <$> [0; 1; 2; 3; 4])
  | _ => false
  end = true.
Proof. vm_compute. reflexivity. Qed.

Definition dangles_test : bool :=
  match create_many 2 proc_init init_heap with
  | Ok ([a0; a1], t) h => (a1 =? al_l t + 88) && negb (a0 =? al_l t) &&
      match vmalloc 88 h with Ok a _ => a =? a0 | _ => false end
  | _ => false
  end.

Lemma dangles_test_true : dangles_test = true.
Proof. vm_compute. reflexivity. Qed.

(** When the table grows its records move: the address that the first call has
    returned is that of a free block, and the next allocation of that size
    gets it. *)
Theorem proc_create_dangles :
  exists a0 a1 t h h', create_many 2 proc_init init_heap = Ok ([a0; a1], t) h /\
    a1 = al_l t + 88 /\ a0 <> al_l t /\ vmalloc 88 h = Ok a0 h'.
Proof.
  pose proof dangles_test_true as Ht. unfold dangles_test in Ht.
  destruct (create_many 2 proc_init init_heap) as [[l t] h|msg| |]; try done.
  destruct l as [|a0 [|a1 [|]]]; try done. apply andb_prop in Ht as [Ht Hv]. apply andb_prop in Ht as [H1 H2].
  destruct (vmalloc 88 h) as [a h'|msg| |] eqn:E; try done. exists a0, a1, t, h, h'.
  split_and!; [done|lia|lia|]. rewrite E. f_equal. lia.
Qed.

End Proc.
