(* ===== verification/VgaFont.v ===== *)
(** * io/vgafont.c: the 8x16 font

    Two 64-bit words per character, eight rows of eight pixels each. *)

From S2P Require Import Prelude.

Module VgaFont.

(** the first and the second half of the table *)
Definition VGA_FONT_LOW : list Z := [
  0xE7CF9999C37E0000; 0x7EE7E7FFE7;
  0x6667FE0000000000; 0xC3666666;
  0xC187F3060000000; 0x3067F;
  0xC060C1830000000; 0x7E003018;
  0x306030180C000000; 0x7E000C18;
  0x3E3E3E3E00000000; 0x3E3E3E;
  0x7F3E1C0800000000; 0x81C3E;
  0xC18366646070600; 0x6060FC697366;
  0xC18366646070600; 0xF83060D97306;
  0xC18376C460C0700; 0x6060FC697366;
  0x181818181800; 0x1818181818;
  0x363600; 0x0;
  0x0; 0x3E603000000000;
  0x7E181818D8700000; 0xE1B1818181818;
  0x18187E1818180000; 0x18181818;
  0x18187E1818180000; 0x1818187E;
  0x1830634300000000; 0xD9DB060C;
  0x8AAADA8F0000; 0x0;
  0x0; 0xDBDB0000;
  0xC18300000000000; 0x3018;
  0x30180C0000000000; 0xC18;
  0xCC66666600; 0x0;
  0x3366666600; 0x0;
  0x0; 0x336666660000;
  0x0; 0xCC6666660000;
  0x0; 0x301818180000;
  0x7B0343663C001C36; 0x5C666363;
  0x33336E001C360000; 0x1E33303E333333;
  0x1818183C00181800; 0x3C181818;
  0x18181C0000000000; 0x3C181818;
  0x301C0663633E0000; 0x3E60303E636360;
  0x6633E0000000000; 0x3E60303E63301C;
  0x0; 0x0;
  0x18183C3C3C180000; 0x18180018;
  0x2466666600; 0x0;
  0x36367F3636000000; 0x36367F36;
  0x3E0B4B6B3E080800; 0x8083E6B6968;
  0x1830634300000000; 0x6163060C;
  0x3B6E1C36361C0000; 0x6E333333;
  0xC18181800; 0x0;
  0xC0C0C0C18300000; 0x30180C0C;
  0x30303030180C0000; 0xC183030;
  0x7F1C360000000000; 0x361C;
  0x7E18180000000000; 0x1818;
  0x0; 0xC1818180000;
  0x7E00000000000000; 0x0;
  0x0; 0x18180000;
  0x1830604000000000; 0x103060C;
  0x6B6B6363633E0000; 0x3E636363;
  0x1818181E1C180000; 0x7E181818;
  0xC183060633E0000; 0x7F630306;
  0x603C6060633E0000; 0x3E636060;
  0x7F33363C38300000; 0x78303030;
  0x603F0303037F0000; 0x3E636060;
  0x633F0303061C0000; 0x3E636363;
  0x18306060637F0000; 0xC0C0C0C;
  0x633E6363633E0000; 0x3E636363;
  0x607E6363633E0000; 0x1E306060;
  0x18180000000000; 0x18180000;
  0x18180000000000; 0xC1818180000;
  0x60C183060000000; 0x6030180C;
  0x7E0000000000; 0x7E;
  0x6030180C06000000; 0x60C1830;
  0x18183063633E0000; 0x18180018;
  0x7B7B6363633E0000; 0x3E033B7B;
  0x7F6363361C080000; 0x63636363;
  0x663E6666663F0000; 0x3F666666;
  0x3030343663C0000; 0x3C664303;
  0x66666666361F0000; 0x1F366666;
  0x161E1646667F0000; 0x7F664606;
  0x161E1646667F0000; 0xF060606;
  0x7B030343663C0000; 0x5C666363;
  0x637F636363630000; 0x63636363;
  0x18181818183C0000; 0x3C181818;
  0x3030303030780000; 0x1E333333;
  0x1E1E366666670000; 0x67666636;
  0x6060606060F0000; 0x7F664606;
  0xC3DBFFFFE7C30000; 0xC3C3C3C3;
  0x737B7F6F67630000; 0x63636363;
  0x63636363633E0000; 0x3E636363;
  0x63E6666663F0000; 0xF060606;
  0x63636363633E0000; 0x70303E7B6B63;
  0x363E6666663F0000; 0x67666666;
  0x301C0663633E0000; 0x3E636360;
  0x18181899DBFF0000; 0x3C181818;
  0x6363636363630000; 0x3E636363;
  0xC3C3C3C3C3C30000; 0x183C66C3;
  0xDBC3C3C3C3C30000; 0x6666FFDB;
  0x18183C66C3C30000; 0xC3C3663C;
  0x183C66C3C3C30000; 0x3C181818;
  0xC183061C3FF0000; 0xFFC38306;
  0xC0C0C0C0C3C0000; 0x3C0C0C0C;
  0xC06030100000000; 0x40603018;
  0x30303030303C0000; 0x3C303030;
  0x63361C08; 0x0;
  0x0; 0x7F0000000000;
  0x3018181800; 0x0;
  0x3E301E0000000000; 0x6E333333;
  0x66361E0606070000; 0x3E666666;
  0x3633E0000000000; 0x3E630303;
  0x33363C3030380000; 0x6E333333;
  0x7F633E0000000000; 0x3E630303;
  0x60F0626361C0000; 0xF060606;
  0x33336E0000000000; 0x1E33303E333333;
  0x666E360606070000; 0x67666666;
  0x18181C0018180000; 0x3C181818;
  0x6060700060600000; 0x3C666660606060;
  0x1E36660606070000; 0x6766361E;
  0x18181818181C0000; 0x3C181818;
  0xDBFF670000000000; 0xDBDBDBDB;
  0x66663B0000000000; 0x66666666;
  0x63633E0000000000; 0x3E636363;
  0x66663B0000000000; 0xF06063E666666;
  0x33336E0000000000; 0x7830303E333333;
  0x666E3B0000000000; 0xF060606;
  0x6633E0000000000; 0x3E63301C;
  0xC0C3F0C0C080000; 0x386C0C0C;
  0x3333330000000000; 0x6E333333;
  0xC3C3C30000000000; 0x183C66C3;
  0xC3C3C30000000000; 0x66FFDBDB;
  0x3C66C30000000000; 0xC3663C18;
  0x6363630000000000; 0x1F30607E636363;
  0x18337F0000000000; 0x7F63060C;
  0x180E181818700000; 0x70181818;
  0x1818181818181800; 0x1818181818;
  0x18701818180E0000; 0xE181818;
  0x3B6E0000; 0x0;
  0x3C18000000000000; 0x183C].

Definition VGA_FONT_HIGH : list Z := [
  0x6363361C00180C06; 0x6363637F;
  0x6363361C000C1830; 0x6363637F;
  0x6363361C00361C08; 0x6363637F;
  0x6363361C003B6E00; 0x6363637F;
  0x6363361C00363600; 0x6363637F;
  0x6363361C081C361C; 0x6363637F;
  0x33FF3333B6FC0000; 0xF3B33333;
  0x3030343663C0000; 0x3E60303C664303;
  0x1E16467F00180C06; 0x7F460616;
  0x1E16467F000C1830; 0x7F460616;
  0x1E16467F00361C08; 0x7F460616;
  0x1E16467F00363600; 0x7F460616;
  0x1818183C0030180C; 0x3C181818;
  0x1818183C000C1830; 0x3C181818;
  0x1818183C00361C08; 0x3C181818;
  0x1818183C00666600; 0x3C181818;
  0x666F6666361F0000; 0x1F366666;
  0x7B7F6F6763003B6E; 0x63636373;
  0x6363633E00180C06; 0x3E636363;
  0x6363633E000C1830; 0x3E636363;
  0x6363633E00361C08; 0x3E636363;
  0x6363633E003B6E00; 0x3E636363;
  0x6363633E00363600; 0x3E636363;
  0x1C36630000000000; 0x6336;
  0x6E7E7666E6BC0000; 0x3D676666;
  0x6363636300180C06; 0x3E636363;
  0x63636363000C1830; 0x3E636363;
  0x6363636300361C08; 0x3E636363;
  0x6363636300363600; 0x3E636363;
  0x3C66C3C3000C1830; 0x3C181818;
  0x6666663E060F0000; 0xF063E66;
  0x331B3333331E0000; 0x33636363;
  0xAA55AA55AA55AA55; 0xAA55AA55AA55AA55;
  0x1818180018180000; 0x183C3C3C;
  0xB6B3E0800000000; 0x83E6B0B0B;
  0x60F060626361C00; 0x3F660606;
  0x1F063F06CC780000; 0x78CC0606;
  0x7E183C66C3C30000; 0x18187E18;
  0x1C0663633E081C36; 0x3E636330;
  0x6363361C06633E00; 0x3E63301C36;
  0x6633E00081C3600; 0x3E63301C;
  0x8585A599423C0000; 0x3C4299A5;
  0x7E007C36363C00; 0x0;
  0x1B366C0000000000; 0x6C36;
  0x607F000000000000; 0x6060;
  0x66663C6600000000; 0x663C66;
  0x42A59DA59D423C00; 0x3C;
  0x3E0000; 0x0;
  0x1C36361C00; 0x0;
  0x7E18180000000000; 0x7E001818;
  0x3E0C18361C00; 0x0;
  0x1E301C301E00; 0x0;
  0x183061C3FF081C36; 0xFFC3860C;
  0x6666660000000000; 0x30606DE666666;
  0xD8DEDBDBDBFE0000; 0xD8D8D8D8;
  0x1800000000000000; 0x18;
  0x18337F00081C3600; 0x7F63060C;
  0x3C18181C1800; 0x0;
  0x3E001C3636361C00; 0x0;
  0x6C361B0000000000; 0x1B36;
  0x33F33333B3FE0000; 0xFEB33333;
  0xDBDB7E0000000000; 0x7EDB1BFB;
  0x3C66C3C300666600; 0x3C181818;
  0xC0C0C000C0C0000; 0x3E636306;
  0xFF00000000000000; 0x0;
  0x1818181818181818; 0x1818181818181818;
  0xF800000000000000; 0x1818181818181818;
  0x1F00000000000000; 0x1818181818181818;
  0xF818181818181818; 0x0;
  0x1F18181818181818; 0x0;
  0xF818181818181818; 0x1818181818181818;
  0x1F18181818181818; 0x1818181818181818;
  0xFF00000000000000; 0x1818181818181818;
  0xFF18181818181818; 0x0;
  0xFF18181818181818; 0x1818181818181818;
  0x4411441144114411; 0x4411441144114411;
  0xFF; 0x0;
  0xFF00000000; 0x0;
  0x0; 0xFF0000;
  0x0; 0xFF000000000000;
  0xFF000000000000; 0xFF;
  0x6C6C6C6C6C6C6C6C; 0x6C6C6C6C6C6C6C6C;
  0xCFC000000000000; 0x6C6C6C6C6C6C6CEC;
  0x607F000000000000; 0x6C6C6C6C6C6C6C6F;
  0xCEC6C6C6C6C6C6C; 0xFC;
  0x606F6C6C6C6C6C6C; 0x7F;
  0xCEC6C6C6C6C6C6C; 0x6C6C6C6C6C6C6CEC;
  0x606F6C6C6C6C6C6C; 0x6C6C6C6C6C6C6C6F;
  0xFF000000000000; 0x6C6C6C6C6C6C6CEF;
  0xEF6C6C6C6C6C6C; 0xFF;
  0xEF6C6C6C6C6C6C; 0x6C6C6C6C6C6C6CEF;
  0xFFFFFFFFFFFFFFFF; 0xFFFFFFFFFFFFFFFF;
  0x1818187E3C180000; 0x18181818;
  0x1818181818180000; 0x183C7E18;
  0xFE0C180000000000; 0x180C;
  0x7F30180000000000; 0x1830;
  0x3E301E00180C0600; 0x6E333333;
  0x3E301E000C183000; 0x6E333333;
  0x3E301E00361C0800; 0x6E333333;
  0x3E301E003B6E0000; 0x6E333333;
  0x3E301E0036360000; 0x6E333333;
  0x3E301E001C361C00; 0x6E333333;
  0xDED86E0000000000; 0x76DB1BFB;
  0x3633E0000000000; 0x3E60303E630303;
  0x7F633E00180C0600; 0x3E630303;
  0x7F633E000C183000; 0x3E630303;
  0x7F633E00361C0800; 0x3E630303;
  0x7F633E0036360000; 0x3E630303;
  0x18181C00180C0600; 0x3C181818;
  0x18181C000C183000; 0x3C181818;
  0x18181C00361C0800; 0x3C181818;
  0x18181C0036360000; 0x3C181818;
  0x667C6034182C0000; 0x3C666666;
  0x66663B003B6E0000; 0x66666666;
  0x63633E00180C0600; 0x3E636363;
  0x63633E000C183000; 0x3E636363;
  0x63633E00361C0800; 0x3E636363;
  0x63633E003B6E0000; 0x3E636363;
  0x63633E0036360000; 0x3E636363;
  0x7E00181800000000; 0x181800;
  0x76E6BC0000000000; 0x3D676E7E;
  0x33333300180C0600; 0x6E333333;
  0x333333000C183000; 0x6E333333;
  0x33333300361C0800; 0x6E333333;
  0x3333330036360000; 0x6E333333;
  0x636363000C183000; 0x1F30607E636363;
  0x66663E0606070000; 0xF06063E666666;
  0x6363630036360000; 0x1F30607E636363].

Definition VGA_FONT : list Z := Eval cbv in VGA_FONT_LOW ++ VGA_FONT_HIGH.

Lemma VGA_FONT_length : length VGA_FONT = 512%nat.
Proof. reflexivity. Qed.

Lemma VGA_FONT_words : Forall (fun w => 0 <= w < W64) VGA_FONT.
Proof. vdecide. Qed.

End VgaFont.
