(* ===== verification/Vga.v ===== *)
(** * io/vga.c: the text console on the frame buffer

    [fb] is the mapped frame buffer, byte by byte from [vga_virt] on;
    [vga_chars] is the buffer of the characters on the screen, absent before
    initialisation.  An access outside of either is a [Fault]. *)

From S2P Require Import Prelude KMath VgaFont.
Import KMath VgaFont.

Module Vga.

Record vga := Vga {
  pixel_width : Z;
  pixel_height : Z;
  vga_pitch : Z;
  cur_row : Z;
  cur_col : Z;
  fb : gmap Z Z;
  vga_chars : option (gmap Z Z);
  flash : bool;
}.

Definition set_cursor (r c : Z) (v : vga) : vga :=
  Vga (pixel_width v) (pixel_height v) (vga_pitch v) r c (fb v) (vga_chars v) (flash v).
Definition set_fb (f : gmap Z Z -> gmap Z Z) (v : vga) : vga :=
  Vga (pixel_width v) (pixel_height v) (vga_pitch v) (cur_row v) (cur_col v) (f (fb v)) (vga_chars v) (flash v).
Definition set_chars (m : gmap Z Z) (v : vga) : vga :=
  Vga (pixel_width v) (pixel_height v) (vga_pitch v) (cur_row v) (cur_col v) (fb v) (Some m) (flash v).
Definition set_flash (b : bool) (v : vga) : vga :=
  Vga (pixel_width v) (pixel_height v) (vga_pitch v) (cur_row v) (cur_col v) (fb v) (vga_chars v) b.

Notation V := (M vga).

(** [vga_virt[i] = b], [vga_chars[i]] and [vga_chars[i] = b] *)
Definition poke (i b : Z) : V unit := fun v =>
  match fb v !! i with Some _ => Ok tt (set_fb (insert i (u8 b)) v) | None => Fault end.
Definition get_char (i : Z) : V Z := fun v =>
  match vga_chars v with
  | Some m => match m !! i with Some c => Ok c v | None => Fault end
  | None => Fault
  end.
Definition put_char (i b : Z) : V unit := fun v =>
  match vga_chars v with
  | Some m => match m !! i with Some _ => Ok tt (set_chars (<[i:=u8 b]> m) v) | None => Fault end
  | None => Fault
  end.

Definition QUERY_BIT (num pos : Z) : Z := Z.land (Z.shiftr num pos) 1.

Definition vga_putpixel (x y red green blue : Z) : V unit :=
  pitch ← gets vga_pitch;
  let location := (y *32 pitch) +32 (x *32 4) in
  poke location blue;;
  poke (location +32 1) green;;
  poke (location +32 2) red.

(** [(inverted != QUERY_BIT(w, k)) ? 183 : 0] *)
Definition pixel_color (inverted : bool) (w k : Z) : Z :=
  if negb (Bool.eqb inverted (negb (QUERY_BIT w k =? 0))) then 183 else 0.

(** [c] is a (signed) [char]; a negative one indexes before the font. *)
Definition draw_char (row col c : Z) (inverted : bool) : V unit :=
  let x := col *32 8 in
  let y := row *32 16 in
  if c <? 0 then fault else
  a ← lift_opt (VGA_FONT !! Z.to_nat (c * 2));
  b ← lift_opt (VGA_FONT !! Z.to_nat (c * 2 + 1));
  for_loop 8 0 (fun i =>
    for_loop 8 0 (fun j =>
      let color := pixel_color inverted a (i * 8 + j) in
      vga_putpixel (x +32 j) (y +32 i) color color color;;
      let color := pixel_color inverted b (i * 8 + j) in
      vga_putpixel (x +32 j) (y +32 i +32 8) color color color)).

(** A byte of [vga_chars] passed as a [char]. *)
Definition to_char (b : Z) : Z := if b <? 128 then b else b - 256.

Definition cols (v : vga) : Z := pixel_width v / 8.
Definition rows (v : vga) : Z := pixel_height v / 16.

Definition get_pos (row col : Z) : V Z := w ← gets cols; mret ((row *32 w) +32 col).

(** the scrolling of [vga_newline] *)
Definition scroll_cell (i j : Z) : V unit :=
  line ← get_pos i j;
  next ← get_pos (i +32 1) j;
  c ← get_char next;
  put_char line c;;
  c ← get_char line;
  if negb (c =? 0) then draw_char i j (to_char c) false else mret tt.

Definition clear_cell (row j : Z) : V unit :=
  pos ← get_pos row j;
  put_char pos 32;;
  draw_char row j 32 false.

Definition vga_newline : V unit :=
  row ← gets cur_row;
  modify (set_cursor (row +32 1) 0);;
  r ← gets rows;
  w ← gets cols;
  row ← gets cur_row;
  if row <? r then mret tt else
  modify (fun v => set_cursor (cur_row v -32 1) (cur_col v) v);;
  row ← gets cur_row;
  for_loop (Z.to_nat (r -32 1)) 0 (fun i => for_loop (Z.to_nat w) 0 (scroll_cell i));;
  for_loop (Z.to_nat w) 0 (clear_cell row).

Definition vga_putchar (c : Z) : V unit :=
  v ← gets vga_chars;
  if bool_decide (v = None) then mret tt else
  if c =? 10 then vga_newline else
  if c =? 8 then
    col ← gets cur_col;
    row ← gets cur_row;
    w ← gets cols;
    if negb (col =? 0) then modify (set_cursor row (col -32 1))
    else if negb (row =? 0) then modify (set_cursor (row -32 1) (w -32 1))
    else mret tt
  else
  row ← gets cur_row;
  col ← gets cur_col;
  pos ← get_pos row col;
  put_char pos c;;
  draw_char row col c false;;
  col ← gets cur_col;
  modify (fun v => set_cursor (cur_row v) (col +32 1) v);;
  col ← gets cur_col;
  w ← gets cols;
  if w <=? col then vga_newline else mret tt.

Definition vga_toggle_flash : V unit :=
  row ← gets cur_row;
  col ← gets cur_col;
  pos ← get_pos row col;
  c ← get_char pos;
  f ← gets flash;
  modify (set_flash (negb f));;
  draw_char row col (to_char c) (negb f).

Definition vga_clear : V unit :=
  modify (set_cursor 0 0);;
  w ← gets pixel_width;
  h ← gets pixel_height;
  for_loop (Z.to_nat w) 0 (fun i => for_loop (Z.to_nat h) 0 (fun j => vga_putpixel i j 0 0 0)).

Definition vga_is_initialized : V bool := v ← gets vga_chars; mret (negb (bool_decide (v = None))).

End Vga.
