(* ===== verification/VgaProps.v ===== *)
(** * The properties of the text console *)

From S2P Require Import Prelude KMath VgaFont Vga.
Import KMath VgaFont Vga.

Module VgaProps.

(** The character at a row and a column. *)
Definition cell (v : vga) (r c : Z) : option Z := m ← vga_chars v; m !! (r * cols v + c).

(** The frame buffer holds every pixel of the character cells. *)
Record screen (v : vga) : Prop := {
  sc_pitch : 0 <= vga_pitch v;
  sc_rows : 1 <= rows v;
  sc_cols : 1 <= cols v;
  sc_size : rows v * cols v < W32 /\ 16 * rows v < W32 /\ 8 * cols v < W32;
  sc_fb : forall x y k, 0 <= x < 8 * cols v -> 0 <= y < 16 * rows v -> 0 <= k < 3 ->
    is_Some (fb v !! (y * vga_pitch v + 4 * x + k)) /\ y * vga_pitch v + 4 * x + k < W32;
  sc_cells : forall r c, 0 <= r < rows v -> 0 <= c < cols v -> exists b, cell v r c = Some b /\ 0 <= b < 128;
}.

(** [v'] differs from [v] in the colours of pixels only. *)
Definition repainted (v v' : vga) : Prop :=
  exists m', v' = set_fb (fun _ => m') v /\ forall i, is_Some (fb v !! i) -> is_Some (m' !! i).

Lemma repainted_refl v : repainted v v.
Proof. exists (fb v). split; [by destruct v|done]. Qed.

Lemma repainted_trans v1 v2 v3 : repainted v1 v2 -> repainted v2 v3 -> repainted v1 v3.
Proof. intros (m1 & -> & H1) (m2 & -> & H2). exists m2. split; [done|]. auto. Qed.

Lemma repainted_screen v v' : repainted v v' -> screen v -> screen v'.
Proof.
  intros (m' & -> & Hm) [? ? ? ? Hfb Hc]. split; try done. intros x y k Hx Hy Hk.
  destruct (Hfb x y k Hx Hy Hk). split; [by apply Hm|done].
Qed.

Lemma poke_run v i b : is_Some (fb v !! i) ->
  exists v', poke i b v = Ok tt v' /\ repainted v v'.
Proof.
  intros [w Hw]. unfold poke. rewrite Hw. eexists. split; [done|].
  exists (<[i:=u8 b]> (fb v)). split; [done|]. intros j Hj. rewrite lookup_insert. case_decide; eauto.
Qed.

Lemma putpixel_run v x y r g b :
  screen v -> 0 <= x < 8 * cols v -> 0 <= y < 16 * rows v ->
  exists v', vga_putpixel x y r g b v = Ok tt v' /\ repainted v v'.
Proof.
  intros Hs Hx Hy. pose proof (sc_fb v Hs x y) as Hfb. pose proof (sc_pitch v Hs) as Hpi. pose proof (sc_size v Hs) as Hsz.
  destruct (Hfb 0) as [H0 B0]; [done|done|lia|]. destruct (Hfb 1) as [H1 B1]; [done|done|lia|].
  destruct (Hfb 2) as [H2 B2]; [done|done|lia|].
  unfold vga_putpixel. unfold mbind at 1, M_bind at 1, gets.
  assert (Hyp : 0 <= y * vga_pitch v) by (apply Z.mul_nonneg_nonneg; lia).
  rewrite (u32_small (y * vga_pitch v)), (u32_small (x * 4)) by lia.
  rewrite (u32_small (y * vga_pitch v + x * 4)) by lia.
  rewrite (u32_small (_ + 1)), (u32_small (_ + 2)) by lia.
  replace (y * vga_pitch v + x * 4) with (y * vga_pitch v + 4 * x + 0) by lia.
  destruct (poke_run v (y * vga_pitch v + 4 * x + 0) b H0) as (v1 & R1 & P1).
  rewrite (bind_ok _ _ _ _ _ R1). rewrite Z.add_0_r in *.
  destruct P1 as (m1 & -> & D1).
  destruct (poke_run (set_fb (fun _ => m1) v) (y * vga_pitch v + 4 * x + 1) g) as (v2 & R2 & (m2 & -> & D2));
    [apply D1, H1|]. rewrite (bind_ok _ _ _ _ _ R2).
  destruct (poke_run (set_fb (fun _ => m2) (set_fb (fun _ => m1) v)) (y * vga_pitch v + 4 * x + 2) r)
    as (v3 & R3 & (m3 & -> & D3)); [apply D2, D1, H2|].
  rewrite R3. eexists. split; [done|]. exists m3. split; [done|]. eauto.
Qed.

Lemma font_lookup c : 0 <= c < 256 -> exists a b,
  VGA_FONT !! Z.to_nat (c * 2) = Some a /\ VGA_FONT !! Z.to_nat (c * 2 + 1) = Some b.
Proof.
  intros Hc. destruct (lookup_lt_is_Some_2 VGA_FONT (Z.to_nat (c * 2))) as [a Ha];
    [rewrite VGA_FONT_length; lia|].
  destruct (lookup_lt_is_Some_2 VGA_FONT (Z.to_nat (c * 2 + 1))) as [b Hb]; [rewrite VGA_FONT_length; lia|]. eauto.
Qed.

Lemma draw_char_run v row col c inverted :
  screen v -> 0 <= row < rows v -> 0 <= col < cols v -> 0 <= c < 128 ->
  exists v', draw_char row col c inverted v = Ok tt v' /\ repainted v v'.
Proof.
  intros Hs Hr Hcol Hc. pose proof (sc_size v Hs) as Hsz. unfold draw_char.
  rewrite (u32_small (col * 8)), (u32_small (row * 16)) by lia.
  destruct (Z.ltb_spec c 0); [lia|]. destruct (font_lookup c) as (a & b & Ha & Hb); [lia|].
  rewrite Ha, Hb. unfold lift_opt, mbind at 1 2, M_bind at 1 2, mret, M_ret.
  apply (for_loop_ind (fun _ w => repainted v w)); [apply repainted_refl|]. intros i w Hi Hw. cbn in Hi.
  apply (for_loop_ind (fun _ w => repainted v w)); [done|]. intros j w1 Hj Hw1. cbn in Hj.
  assert (Hs1 : screen w1) by (by eapply repainted_screen).
  assert (Hdim : cols w1 = cols v /\ rows w1 = rows v) by (destruct Hw1 as (m & -> & _); done). destruct Hdim as [Ec Er].
  rewrite (u32_small (col * 8 + j)), (u32_small (row * 16 + i)), (u32_small (row * 16 + i + 8)) by lia.
  set (k1 := pixel_color inverted a (i * 8 + j)). set (k2 := pixel_color inverted b (i * 8 + j)).
  destruct (putpixel_run w1 (col * 8 + j) (row * 16 + i) k1 k1 k1) as (w2 & R2 & P2); [done|lia|lia|].
  rewrite (bind_ok _ _ _ _ _ R2). assert (Hs2 : screen w2) by (by eapply repainted_screen).
  assert (Hdim : cols w2 = cols v /\ rows w2 = rows v) by (destruct P2 as (m & -> & _); done). destruct Hdim as [Ec2 Er2].
  destruct (putpixel_run w2 (col * 8 + j) (row * 16 + i + 8) k2 k2 k2) as (w3 & R3 & P3); [done|lia|lia|].
  exists w3. split; [done|]. eauto using repainted_trans.
Qed.

(** ** Cells *)

(** [v'] has the characters [f] and otherwise differs from [v] in pixels only. *)
Definition cells_are (v v' : vga) (f : Z -> Z -> option Z) : Prop :=
  exists m mf, v' = set_fb (fun _ => mf) (set_chars m v) /\
    (forall i, is_Some (fb v !! i) -> is_Some (mf !! i)) /\
    forall r c, 0 <= r < rows v -> 0 <= c < cols v -> cell v' r c = f r c.

Lemma cells_dims v v' f : cells_are v v' f -> cols v' = cols v /\ rows v' = rows v.
Proof. intros (m & mf & -> & _). done. Qed.

Lemma cells_screen v v' f :
  screen v -> cells_are v v' f ->
  (forall r c, 0 <= r < rows v -> 0 <= c < cols v -> exists b, f r c = Some b /\ 0 <= b < 128) -> screen v'.
Proof.
  intros [? ? ? ? Hfb Hc] (m & mf & -> & Hmf & Hcell) Hf. split; try done.
  - intros x y k Hx Hy Hk. destruct (Hfb x y k Hx Hy Hk). split; [by apply Hmf|done].
  - intros r c Hr Hcc. rewrite Hcell by done. by apply Hf.
Qed.

Lemma cells_repaint v v1 v2 f : cells_are v v1 f -> repainted v1 v2 -> cells_are v v2 f.
Proof.
  intros (m & mf & -> & Hmf & Hcell) (m' & -> & Hm'). exists m, m'. split_and!; [done| |done].
  intros i Hi. by apply Hm', Hmf.
Qed.

Lemma pos_run v r c : screen v -> 0 <= r < rows v -> 0 <= c < cols v ->
  get_pos r c v = Ok (r * cols v + c) v.
Proof.
  intros Hs Hr Hc. unfold get_pos, mbind, M_bind, gets. pose proof (sc_size v Hs).
  rewrite (u32_small (r * cols v)), u32_small by nia. done.
Qed.

Lemma pos_inj w r c r' c' : 0 <= c < w -> 0 <= c' < w -> r * w + c = r' * w + c' -> r' = r /\ c' = c.
Proof.
  intros Hc Hc' E. assert (r = (r * w + c) / w) as Hr by (apply (Z.div_unique_pos _ _ _ c); lia).
  assert (r' = (r' * w + c') / w) as Hr' by (apply (Z.div_unique_pos _ _ _ c'); lia).
  rewrite E in Hr. assert (r' = r) as -> by congruence. lia.
Qed.

Lemma get_char_run v r c b : cell v r c = Some b -> get_char (r * cols v + c) v = Ok b v.
Proof. unfold cell, get_char. destruct (vga_chars v); [|done]. cbn. by intros ->. Qed.

Lemma put_char_run v v1 f r c b :
  cells_are v v1 f -> 0 <= r < rows v -> 0 <= c < cols v -> is_Some (f r c) -> 0 <= b < 256 ->
  exists v2, put_char (r * cols v + c) b v1 = Ok tt v2 /\
    cells_are v v2 (fun r' c' => if decide (r' = r /\ c' = c) then Some b else f r' c').
Proof.
  intros (m & mf & -> & Hmf & Hcell) Hr Hc Hf Hb.
  pose proof (Hcell r c Hr Hc) as Hold. unfold cell in Hold. cbn in Hold.
  destruct Hf as [b0 Hb0]. rewrite Hb0 in Hold.
  unfold put_char. cbn. change (cols (set_fb (fun _ => mf) (set_chars m v))) with (cols v) in Hold. rewrite Hold.
  eexists. split; [done|]. exists (<[r * cols v + c:=u8 b]> m), mf. split_and!; [done|done|].
  intros r' c' Hr' Hc'. unfold cell. cbn. change (cols (set_fb _ _)) with (cols v).
  rewrite (u8_small b) by done. case_decide as Hd; [destruct Hd as [-> ->]; apply lookup_insert_eq|].
  rewrite lookup_insert_ne; [by apply (Hcell r' c')|]. intros E. apply Hd.
  by destruct (pos_inj (cols v) r c r' c').
Qed.

Lemma to_char_small b : 0 <= b < 128 -> to_char b = b.
Proof. intros. unfold to_char. btests; lia. Qed.

(** The cells once the rows before [i] and the columns before [j] of row [i]
    have been scrolled. *)
Definition scrolled (v : vga) (i j : Z) (r c : Z) : option Z :=
  if decide (r < i \/ r = i /\ c < j) then cell v (r + 1) c else cell v r c.

Lemma scroll_cell_run v v1 i j :
  screen v -> cells_are v v1 (scrolled v i j) -> 0 <= i < rows v - 1 -> 0 <= j < cols v ->
  exists v2, scroll_cell i j v1 = Ok tt v2 /\ cells_are v v2 (scrolled v i (j + 1)).
Proof.
  intros Hs Hv1 Hi Hj. destruct (cells_dims _ _ _ Hv1) as [Ec Er].
  assert (Hs1 : screen v1).
  { eapply cells_screen; [exact Hs|exact Hv1|]. intros r c Hr Hc. unfold scrolled.
    case_decide; apply (sc_cells v Hs); lia. }
  assert (H32 : i + 1 < W32) by (pose proof (sc_size v Hs); lia).
  unfold scroll_cell. rewrite (u32_small (i + 1)) by lia.
  rewrite (bind_ok _ _ _ _ _ (pos_run v1 i j Hs1 ltac:(lia) ltac:(lia))).
  rewrite (bind_ok _ _ _ _ _ (pos_run v1 (i + 1) j Hs1 ltac:(lia) ltac:(lia))).
  destruct (sc_cells v Hs (i + 1) j) as (b & Hb & Hbr); [lia|lia|].
  assert (Hb1 : cell v1 (i + 1) j = Some b).
  { destruct Hv1 as (m & mf & -> & _ & Hc). rewrite Hc by lia. unfold scrolled. by rewrite decide_False by lia. }
  rewrite (bind_ok _ _ _ _ _ (get_char_run _ _ _ _ Hb1)). rewrite Ec.
  destruct (put_char_run v v1 _ i j b Hv1) as (v2 & R2 & Hv2); [lia|lia| |lia|].
  { unfold scrolled. rewrite decide_False by lia. destruct (sc_cells v Hs i j) as (b0 & -> & _); [lia|lia|eauto]. }
  rewrite (bind_ok _ _ _ _ _ R2).
  assert (Hb2 : cell v2 i j = Some b).
  { destruct Hv2 as (m & mf & -> & _ & Hc). rewrite Hc by lia. by rewrite decide_True. }
  destruct (cells_dims _ _ _ Hv2) as [Ec2 Er2]. rewrite <- Ec2, (bind_ok _ _ _ _ _ (get_char_run _ _ _ _ Hb2)).
  assert (Hv2' : cells_are v v2 (scrolled v i (j + 1))).
  { destruct Hv2 as (m & mf & E & Hmf & Hc). exists m, mf. split_and!; [done|done|]. intros r c Hr Hcc.
    rewrite Hc by done. unfold scrolled.
    case_decide as Hd; [destruct Hd as [-> ->]; by rewrite decide_True by lia|].
    repeat case_decide; done || (exfalso; lia). }
  destruct (Z.eqb_spec b 0); cbn; [by exists v2|]. rewrite to_char_small by done.
  destruct (draw_char_run v2 i j b false) as (v3 & R3 & P3); [|lia|lia|done|].
  - eapply cells_screen; [exact Hs|exact Hv2'|]. intros r c Hr Hc. unfold scrolled.
    case_decide; apply (sc_cells v Hs); lia.
  - exists v3. split; [done|]. by eapply cells_repaint.
Qed.

Lemma cells_ext v v' f g :
  cells_are v v' f -> (forall r c, 0 <= r < rows v -> 0 <= c < cols v -> f r c = g r c) -> cells_are v v' g.
Proof.
  intros (m & mf & E & Hmf & Hc) H. exists m, mf. split_and!; [done|done|]. intros r c Hr Hcc.
  rewrite Hc by done. by apply H.
Qed.

Lemma cells_refl v : screen v -> cells_are v v (cell v).
Proof.
  intros Hs. destruct (sc_cells v Hs 0 0) as (b & Hb & _); [pose proof (sc_rows v Hs); lia|pose proof (sc_cols v Hs); lia|].
  unfold cell in Hb. destruct (vga_chars v) as [m|] eqn:E; [|done].
  exists m, (fb v). split_and!; [|done|done]. destruct v. cbn in *. by subst.
Qed.

Lemma scroll_run v : screen v ->
  exists v', for_loop (Z.to_nat (rows v - 1)) 0 (fun i => for_loop (Z.to_nat (cols v)) 0 (scroll_cell i)) v = Ok tt v' /\
    cells_are v v' (scrolled v (rows v - 1) 0).
Proof.
  intros Hs. pose proof (sc_rows v Hs). pose proof (sc_cols v Hs).
  destruct (for_loop_ind (fun i w => cells_are v w (scrolled v i 0))
    (fun i => for_loop (Z.to_nat (cols v)) 0 (scroll_cell i)) (Z.to_nat (rows v - 1)) 0 v) as (v' & Hr & Hv').
  - eapply cells_ext; [by apply cells_refl|]. intros r c Hr Hc. unfold scrolled. by rewrite decide_False by lia.
  - intros i w Hi Hw.
    destruct (for_loop_ind (fun j w => cells_are v w (scrolled v i j)) (scroll_cell i) (Z.to_nat (cols v)) 0 w Hw)
      as (w' & Hr & Hw').
    + intros j w1 Hj Hw1. apply scroll_cell_run; [done|done|lia|lia].
    + exists w'. split; [done|]. eapply cells_ext; [exact Hw'|]. intros r c Hrr Hc. unfold scrolled.
      repeat case_decide; done || (exfalso; lia).
  - exists v'. split; [done|]. by replace (0 + Z.of_nat (Z.to_nat (rows v - 1))) with (rows v - 1) in Hv' by lia.
Qed.

(** The cells after scrolling, with the columns before [j] of the last row cleared. *)
Definition cleared (v : vga) (j : Z) (r c : Z) : option Z :=
  if decide (r = rows v - 1 /\ c < j) then Some 32 else scrolled v (rows v - 1) 0 r c.

Lemma clear_run v v1 : screen v -> cells_are v v1 (scrolled v (rows v - 1) 0) ->
  exists v', for_loop (Z.to_nat (cols v)) 0 (clear_cell (rows v - 1)) v1 = Ok tt v' /\
    cells_are v v' (cleared v (cols v)).
Proof.
  intros Hs Hv1. pose proof (sc_rows v Hs). pose proof (sc_cols v Hs).
  destruct (for_loop_ind (fun j w => cells_are v w (cleared v j)) (clear_cell (rows v - 1)) (Z.to_nat (cols v)) 0 v1)
    as (v' & Hr & Hv').
  - eapply cells_ext; [exact Hv1|]. intros r c Hr Hc. unfold cleared. by rewrite decide_False by lia.
  - intros j w Hj Hw. destruct (cells_dims _ _ _ Hw) as [Ec Er].
    assert (Hval : forall j' r c, 0 <= r < rows v -> 0 <= c < cols v -> exists b, cleared v j' r c = Some b /\ 0 <= b < 128).
    { intros j' r c Hr Hc. unfold cleared, scrolled. case_decide; [exists 32; split; [done|lia]|].
      case_decide; apply (sc_cells v Hs); lia. }
    assert (Hsw : screen w) by (eapply cells_screen; [exact Hs|exact Hw|apply Hval]).
    unfold clear_cell. rewrite (bind_ok _ _ _ _ _ (pos_run w (rows v - 1) j Hsw ltac:(lia) ltac:(lia))). rewrite Ec.
    destruct (put_char_run v w _ (rows v - 1) j 32 Hw) as (w2 & R2 & Hw2); [lia|lia| |lia|].
    { destruct (Hval j (rows v - 1) j) as (b & -> & _); [lia|lia|eauto]. }
    rewrite (bind_ok _ _ _ _ _ R2).
    assert (Hw2' : cells_are v w2 (cleared v (j + 1))).
    { eapply cells_ext; [exact Hw2|]. intros r c Hr Hc. unfold cleared. repeat case_decide; done || (exfalso; lia). }
    destruct (cells_dims _ _ _ Hw2) as [Ec2 Er2].
    destruct (draw_char_run w2 (rows v - 1) j 32 false) as (w3 & R3 & P3);
      [eapply cells_screen; [exact Hs|exact Hw2'|apply Hval]|lia|lia|lia|].
    exists w3. split; [done|]. by eapply cells_repaint.
  - exists v'. split; [done|]. by replace (0 + Z.of_nat (Z.to_nat (cols v))) with (cols v) in Hv' by lia.
Qed.

Lemma set_cursor_screen v r c : screen v -> screen (set_cursor r c v).
Proof. intros [? ? ? ? Hfb Hc]. by split. Qed.

Definition cursor_ok (v : vga) : Prop := 0 <= cur_row v < rows v /\ 0 <= cur_col v < cols v.

Lemma newline_run v :
  screen v -> cursor_ok v ->
  exists v', vga_newline v = Ok tt v' /\ screen v' /\ cols v' = cols v /\ rows v' = rows v /\ cur_col v' = 0 /\
    cur_row v' = Z.min (cur_row v + 1) (rows v - 1) /\
    forall r c, 0 <= r < rows v -> 0 <= c < cols v ->
      cell v' r c = if decide (cur_row v + 1 < rows v) then cell v r c
                    else if decide (r = rows v - 1) then Some 32 else cell v (r + 1) c.
Proof.
  intros Hs [Hcr Hcc]. pose proof (sc_size v Hs) as Hsz. unfold vga_newline.
  unfold mbind at 1 2 3 4 5, M_bind at 1 2 3 4 5, gets, modify.
  rewrite (u32_small (cur_row v + 1)) by lia. cbn [cur_row set_cursor].
  change (rows (set_cursor _ _ v)) with (rows v). change (cols (set_cursor _ _ v)) with (cols v).
  destruct (Z.ltb_spec (cur_row v + 1) (rows v)).
  - exists (set_cursor (cur_row v + 1) 0 v). split_and!; try done; [by apply set_cursor_screen|cbn; lia|].
    intros r c Hr Hc. by rewrite decide_True.
  - unfold mbind at 1 2, M_bind at 1 2, gets, modify. cbn [cur_row cur_col set_cursor].
    replace (cur_row v + 1 - 1) with (cur_row v) by lia.
    rewrite (u32_small (rows v - 1)), (u32_small (cur_row v)) by lia. set (v0 := set_cursor (cur_row v) 0 _).
    assert (Hs0 : screen v0) by (by repeat apply set_cursor_screen).
    destruct (scroll_run v0 Hs0) as (v1 & R1 & H1). change (rows v0) with (rows v) in *. change (cols v0) with (cols v) in *.
    rewrite (bind_ok _ _ _ _ _ R1). destruct (clear_run v0 v1 Hs0 H1) as (v2 & R2 & H2).
    change (rows v0) with (rows v) in *. change (cols v0) with (cols v) in *.
    replace (cur_row v) with (rows v - 1) by lia. exists v2. destruct (cells_dims _ _ _ H2) as [Ec Er].
    split_and!; [done| |done|done|..].
    + eapply cells_screen; [exact Hs0|exact H2|]. intros r c Hr Hc. unfold cleared, scrolled.
      case_decide; [exists 32; split; [done|lia]|]. change (rows v0) with (rows v) in *.
      case_decide; apply (sc_cells v0 Hs0); change (rows v0) with (rows v) in *; lia.
    + destruct H2 as (m & mf & -> & _). done.
    + destruct H2 as (m & mf & -> & _). cbn. lia.
    + intros r c Hr Hc. destruct H2 as (m & mf & -> & _ & Hcell). rewrite Hcell by done.
      rewrite decide_False by lia. unfold cleared, scrolled. change (rows v0) with (rows v). change (cols v0) with (cols v).
      repeat case_decide; done || (exfalso; lia).
Qed.

Lemma putchar_run v c :
  screen v -> cursor_ok v -> 0 <= c < 128 ->
  exists v', vga_putchar c v = Ok tt v' /\ screen v' /\ cursor_ok v' /\ cols v' = cols v /\ rows v' = rows v /\
    (c <> 10 -> c <> 8 -> cur_col v + 1 < cols v ->
       cur_row v' = cur_row v /\ cur_col v' = cur_col v + 1 /\
       forall r k, 0 <= r < rows v -> 0 <= k < cols v ->
         cell v' r k = if decide (r = cur_row v /\ k = cur_col v) then Some c else cell v r k).
Proof.
  intros Hs [Hcr Hcc] Hc. pose proof (sc_size v Hs) as Hsz. unfold vga_putchar.
  unfold mbind at 1, M_bind at 1, gets at 1.
  destruct (sc_cells v Hs (cur_row v) (cur_col v) Hcr Hcc) as (b0 & Hb0 & _).
  case_bool_decide as Hn; [unfold cell in Hb0; by rewrite Hn in Hb0|].
  destruct (Z.eqb_spec c 10) as [->|H10].
  { destruct (newline_run v Hs) as (v' & Hr & Hs' & Ec & Er & E1 & E2 & _); [by split|].
    exists v'. split_and!; [done|done|split; lia|done|done|done]. }
  destruct (Z.eqb_spec c 8) as [->|H8].
  { unfold mbind, M_bind, gets, modify. destruct (Z.eqb_spec (cur_col v) 0) as [E|E]; cbn.
    - destruct (Z.eqb_spec (cur_row v) 0) as [E'|E']; cbn.
      + exists v. split_and!; done.
      + rewrite !u32_small by lia. eexists. split_and!; [done|by apply set_cursor_screen| |done|done|done].
        split; cbn; change (rows (set_cursor _ _ v)) with (rows v); change (cols (set_cursor _ _ v)) with (cols v); lia.
    - rewrite u32_small by lia. eexists. split_and!; [done|by apply set_cursor_screen| |done|done|done].
      split; cbn; change (rows (set_cursor _ _ v)) with (rows v); change (cols (set_cursor _ _ v)) with (cols v); lia. }
  unfold mbind at 1 2, M_bind at 1 2, gets at 1 2.
  rewrite (bind_ok _ _ _ _ _ (pos_run v _ _ Hs Hcr Hcc)).
  destruct (put_char_run v v _ (cur_row v) (cur_col v) c (cells_refl v Hs)) as (v1 & R1 & Hv1); [done|done|eauto|lia|].
  rewrite (bind_ok _ _ _ _ _ R1).
  assert (Hs1 : screen v1).
  { eapply cells_screen; [exact Hs|exact Hv1|]. intros r k Hr Hk. cbn beta. case_decide; [exists c; split; [done|lia]|by apply (sc_cells v Hs)]. }
  destruct (cells_dims _ _ _ Hv1) as [Ec1 Er1].
  destruct (draw_char_run v1 (cur_row v) (cur_col v) c false) as (v2 & R2 & P2); [done|lia|lia|lia|].
  rewrite (bind_ok _ _ _ _ _ R2). pose proof (repainted_screen _ _ P2 Hs1) as Hs2.
  pose proof (cells_repaint _ _ _ _ Hv1 P2) as Hv2. destruct (cells_dims _ _ _ Hv2) as [Ec2 Er2].
  assert (Hcur : cur_row v2 = cur_row v /\ cur_col v2 = cur_col v) by (destruct Hv2 as (m & mf & -> & _); done).
  destruct Hcur as [E1 E2].
  unfold mbind, M_bind, gets, modify. rewrite E2, (u32_small (cur_col v + 1)) by lia. cbn [cur_col set_cursor].
  change (cols (set_cursor _ _ v2)) with (cols v2). rewrite Ec2. destruct (Z.leb_spec (cols v) (cur_col v + 1)).
  - (* the cursor is past the end of the row: a new line *)
    set (v3 := set_cursor (cur_row v2) (cols v - 1) v2).
    destruct (newline_run v3) as (v4 & R4 & Hs4 & Ec4 & Er4 & C4 & D4 & _).
    { by apply set_cursor_screen. }
    { split; cbn; change (rows v3) with (rows v2); change (cols v3) with (cols v2); lia. }
    assert (Heq : vga_newline (set_cursor (cur_row v2) (cur_col v + 1) v2) = vga_newline v3) by done.
    rewrite Heq, R4. exists v4. change (rows v3) with (rows v2) in *. change (cols v3) with (cols v2) in *.
    cbn in D4. split_and!; [done|done|split; lia|lia|lia|lia].
  - eexists. split_and!; [done|by apply set_cursor_screen| |exact Ec2|exact Er2|].
    + split; cbn; change (rows (set_cursor _ _ v2)) with (rows v2); change (cols (set_cursor _ _ v2)) with (cols v2); lia.
    + intros _ _ _. split_and!; [done|done|]. intros r k Hr Hk. destruct Hv2 as (m & mf & -> & _ & Hcell).
      rewrite <- Hcell by done. done.
Qed.

(** ** The properties *)

(** [vga_newline] moves the cursor to the start of the next row; on the
    last row every row moves up by one, the top row is lost and the last row is
    blank.  The console stays well-formed. *)
Theorem vga_newline_scrolls v :
  screen v -> cursor_ok v ->
  exists v', vga_newline v = Ok tt v' /\ screen v' /\ cols v' = cols v /\ rows v' = rows v /\ cur_col v' = 0 /\
    cur_row v' = Z.min (cur_row v + 1) (rows v - 1) /\
    forall r c, 0 <= r < rows v -> 0 <= c < cols v ->
      cell v' r c = if decide (cur_row v + 1 < rows v) then cell v r c
                    else if decide (r = rows v - 1) then Some 32 else cell v (r + 1) c.
Proof. apply newline_run. Qed.

(** A console of 2 rows and 3 columns, on its last row. *)
Definition demo_vga : vga :=
  Vga 24 32 96 1 1 (list_to_map ((fun i => (i, 0)) <$> seqZ 0 3072))
    (Some (list_to_map ((fun i => (i, 65 + i)) <$> seqZ 0 6))) false.

Lemma demo_screen : screen demo_vga.
Proof.
  assert (Hfb : forall i, 0 <= i < 3072 -> is_Some (fb demo_vga !! i)).
  { intros i Hi. assert (H : forallb (fun i => bool_decide (is_Some (fb demo_vga !! i))) (seqZ 0 3072) = true) by (by vm_compute).
    rewrite forallb_forall in H. apply (proj1 (bool_decide_eq_true _)), H, list_elem_of_In, elem_of_seqZ. lia. }
  split; unfold rows, cols; cbn [pixel_width pixel_height vga_pitch demo_vga];
    change (24 / 8) with 3 in *; change (32 / 16) with 2 in *; try lia.
  - intros x y k Hx Hy Hk. split; [apply Hfb; lia|lia].
  - intros r c Hr Hc. assert (H : forallb (fun r => forallb (fun c => match cell demo_vga r c with
      Some b => (0 <=? b) && (b <? 128) | None => false end) (seqZ 0 3)) (seqZ 0 2) = true) by (by vm_compute).
    rewrite forallb_forall in H. specialize (H r ltac:(apply list_elem_of_In, elem_of_seqZ; lia)).
    rewrite forallb_forall in H. specialize (H c ltac:(apply list_elem_of_In, elem_of_seqZ; lia)).
    destruct (cell demo_vga r c) as [b|]; [|done]. exists b. split; [done|lia].
Qed.

Lemma vga_newline_scrolls_witness :
  exists v', vga_newline demo_vga = Ok tt v' /\ screen v' /\ cols v' = 3 /\ rows v' = 2 /\ cur_col v' = 0 /\
    cur_row v' = 1 /\
    forall r c, 0 <= r < 2 -> 0 <= c < 3 ->
      cell v' r c = if decide (1 + 1 < 2) then cell demo_vga r c
                    else if decide (r = 2 - 1) then Some 32 else cell demo_vga (r + 1) c.
Proof.
  apply (vga_newline_scrolls demo_vga); [apply demo_screen|split; vm_compute; split; congruence].
Defined.

End VgaProps.
