(* ===== verification/VgaDraw.v ===== *)
(** * The pixels of the console

    [draw_char] paints the glyph of its character: every pixel of the cell gets
    the colour that the font says, and no other byte of the frame buffer
    changes. *)

From S2P Require Import Prelude KMath VgaFont Vga VgaProps.
Import KMath VgaFont Vga VgaProps.

Module VgaDraw.

(** Pixel [x], [y] of the glyph of [c]: a bit of the font, eight rows of eight
    pixels in each of the two words. *)
Definition glyph (c x y : Z) : bool :=
  Z.testbit (default 0 (VGA_FONT !! Z.to_nat (c * 2 + y / 8))) (y mod 8 * 8 + x).
Definition shade (on : bool) : Z := if on then 183 else 0.

(** ** Pixels *)

Section pixels.
Context (v : vga).

(** The pixel that a byte of the frame buffer belongs to, and which of its
    bytes it is (blue, green, red, unused). *)
Definition px (a : Z) : Z := a mod vga_pitch v / 4.
Definition py (a : Z) : Z := a / vga_pitch v.
Definition pk (a : Z) : Z := (a mod vga_pitch v) mod 4.

(** The three bytes of a pixel are there and on its own line. *)
Definition pixel_there (x y : Z) : Prop :=
  0 <= x /\ 4 * x + 4 <= vga_pitch v /\ 0 <= y /\ y * vga_pitch v + 4 * x + 2 < W32 /\
  forall k, 0 <= k < 3 -> is_Some (fb v !! (y * vga_pitch v + 4 * x + k)).

Lemma pixel_bytes x y a : 0 <= x -> 4 * x + 4 <= vga_pitch v ->
  y * vga_pitch v + 4 * x <= a < y * vga_pitch v + 4 * x + 3 <-> py a = y /\ px a = x /\ pk a < 3.
Proof.
  intros Hx Hp4. assert (Hp : 0 < vga_pitch v) by lia. unfold py, px, pk. split.
  - intros Ha. assert (Ed : a / vga_pitch v = y) by (symmetry; apply (Z.div_unique _ _ _ (a - y * vga_pitch v)); lia).
    assert (Em : a mod vga_pitch v = a - y * vga_pitch v) by (symmetry; apply (Z.mod_unique _ _ y); lia).
    rewrite Em. split; [done|]. dlia.
  - intros (E1 & E2 & E3). pose proof (Z.div_mod a (vga_pitch v) ltac:(lia)) as E. rewrite E1 in E.
    pose proof (Z.mod_pos_bound a (vga_pitch v) Hp). set (r := a mod vga_pitch v) in *. clearbody r. dlia.
Qed.

Lemma poke_exact w i b m : is_Some (m !! i) -> 0 <= b < 256 ->
  poke i b (set_fb (fun _ => m) w) = Ok tt (set_fb (fun _ => <[i:=b]> m) w).
Proof. intros [x Hx] Hb. unfold poke. cbn [fb set_fb]. rewrite Hx, u8_small by done. done. Qed.

Lemma putpixel_exact m x y b :
  pixel_there x y -> (forall i, is_Some (fb v !! i) -> is_Some (m !! i)) -> 0 <= b < 256 ->
  exists m', vga_putpixel x y b b b (set_fb (fun _ => m) v) = Ok tt (set_fb (fun _ => m') v) /\
    forall a, m' !! a = if decide (py a = y /\ px a = x /\ pk a < 3) then Some b else m !! a.
Proof.
  intros (Hx & Hp & Hy & HW & Hfb) Hm Hb.
  pose proof (Hfb 0 ltac:(lia)) as H0. pose proof (Hfb 1 ltac:(lia)) as H1. pose proof (Hfb 2 ltac:(lia)) as H2.
  assert (Hyp : 0 <= y * vga_pitch v) by (apply Z.mul_nonneg_nonneg; lia).
  unfold vga_putpixel. rewrite bind_gets. cbn [vga_pitch set_fb]. set (loc := y * vga_pitch v + 4 * x) in *.
  rewrite (u32_small (y * vga_pitch v)), (u32_small (x * 4)) by lia. replace (y * vga_pitch v + x * 4) with loc by (unfold loc; lia).
  rewrite (u32_small loc), (u32_small (loc + 1)), (u32_small (loc + 2)) by lia. rewrite Z.add_0_r in *.
  set (m1 := <[loc:=b]> m). set (m2 := <[loc + 1:=b]> m1). exists (<[loc + 2:=b]> m2). split.
  - rewrite (bind_ok _ _ _ _ _ (poke_exact v loc b m ltac:(auto) Hb)). fold m1.
    rewrite (bind_ok _ _ _ _ _ (poke_exact v (loc + 1) b m1 ltac:(unfold m1; rewrite lookup_insert; case_decide; auto) Hb)). fold m2.
    apply poke_exact; [|done]. unfold m2, m1. rewrite !lookup_insert. repeat case_decide; eauto.
  - intros a. pose proof (pixel_bytes x y a Hx Hp) as Hpa. fold loc in Hpa. unfold m2, m1. rewrite !lookup_insert.
    destruct (decide (py a = y /\ px a = x /\ pk a < 3)) as [Hd|Hd]; repeat case_decide; try done; [apply Hpa in Hd; lia|exfalso..];
      apply Hd, Hpa; lia.
Qed.

Lemma screen_pixel x y : screen v -> 32 * cols v <= vga_pitch v -> 0 <= x < 8 * cols v -> 0 <= y < 16 * rows v -> pixel_there x y.
Proof.
  intros Hs Hp Hx Hy. pose proof (sc_fb v Hs x y) as Hfb. destruct (Hfb 2) as [_ B2]; [done|done|lia|].
  split_and!; [lia..|]. intros k Hk. by apply Hfb.
Qed.

End pixels.

(** ** Characters *)

Section draw.
Context (v : vga) (row col c : Z) (inverted : bool).
Hypothesis Hs : screen v.
Hypothesis Hpitch : 32 * cols v <= vga_pitch v.
Hypothesis Hrow : 0 <= row < rows v.
Hypothesis Hcol : 0 <= col < cols v.
Hypothesis Hc : 0 <= c < 128.

Notation px := (px v).
Notation py := (py v).
Notation pk := (pk v).

(** The byte belongs to the visible part of a pixel of the cell. *)
Definition in_cell (a : Z) : Prop :=
  8 * col <= px a < 8 * col + 8 /\ 16 * row <= py a < 16 * row + 16 /\ pk a < 3.
(** The pixels painted so far: the rows [i] and [i + 8] up to column [j]. *)
Definition painted (i j a : Z) : Prop :=
  in_cell a /\ ((py a - 16 * row) mod 8 < i \/ (py a - 16 * row) mod 8 = i /\ px a - 8 * col < j).
#[local] Instance in_cell_dec a : Decision (in_cell a) := _.
#[local] Instance painted_dec i j a : Decision (painted i j a) := _.

Definition colour (a : Z) : Z := shade (xorb inverted (glyph c (px a - 8 * col) (py a - 16 * row))).

Lemma pixel_color_shade w k : 0 <= k -> pixel_color inverted w k = shade (xorb inverted (Z.testbit w k)).
Proof.
  intros Hk. unfold pixel_color, shade, QUERY_BIT. change 1 with (Z.ones 1). rewrite Z.land_ones by lia.
  change (2 ^ 1) with 2. rewrite <- Z.bit0_mod, Z.shiftr_spec, Z.add_0_l by lia.
  by destruct inverted, (Z.testbit w k).
Qed.

(** The state of the loops. *)
Definition progress (i j : Z) (w : vga) : Prop :=
  exists m, w = set_fb (fun _ => m) v /\ forall a, m !! a = if decide (painted i j a) then Some (colour a) else fb v !! a.

Lemma progress_next_row i w : progress i 8 w -> progress (i + 1) 0 w.
Proof.
  intros (m & -> & Hm). exists m. split; [done|]. intros a. rewrite Hm. unfold painted, in_cell.
  repeat case_decide; try done; exfalso; lia.
Qed.

Lemma paint_two wa wb i j w :
  VGA_FONT !! Z.to_nat (c * 2) = Some wa -> VGA_FONT !! Z.to_nat (c * 2 + 1) = Some wb ->
  0 <= i < 8 -> 0 <= j < 8 -> progress i j w ->
  exists w', (let color := pixel_color inverted wa (i * 8 + j) in
      vga_putpixel (8 * col + j) (16 * row + i) color color color;;
      let color := pixel_color inverted wb (i * 8 + j) in
      vga_putpixel (8 * col + j) (16 * row + i + 8) color color color) w = Ok tt w' /\ progress i (j + 1) w'.
Proof.
  intros Ha Hb Hi Hj (m & -> & Hm). cbn zeta. rewrite !pixel_color_shade by lia.
  set (ca := shade (xorb inverted (Z.testbit wa (i * 8 + j)))). set (cb := shade (xorb inverted (Z.testbit wb (i * 8 + j)))).
  assert (Hrng : forall b, 0 <= shade b < 256) by (intros []; cbn; lia).
  assert (Hdom : forall k, is_Some (fb v !! k) -> is_Some (m !! k)) by (intros k Hk; rewrite Hm; case_decide; eauto).
  destruct (putpixel_exact v m (8 * col + j) (16 * row + i) ca) as (m1 & R1 & M1); [apply screen_pixel; (done || lia)|done|apply Hrng|].
  rewrite (bind_ok _ _ _ _ _ R1).
  assert (Hdom1 : forall k, is_Some (fb v !! k) -> is_Some (m1 !! k)) by (intros k Hk; rewrite M1; case_decide; eauto).
  destruct (putpixel_exact v m1 (8 * col + j) (16 * row + i + 8) cb) as (m2 & R2 & M2); [apply screen_pixel; (done || lia)|done|apply Hrng|].
  eexists. split; [exact R2|]. exists m2. split; [done|]. intros a. rewrite M2, M1, Hm. unfold colour, painted, in_cell.
  destruct (decide (py a = 16 * row + i + 8 /\ px a = 8 * col + j /\ pk a < 3)) as [(Ey & Ex & Ek)|Hn2].
  { rewrite decide_True by (rewrite Ey, Ex; split; [lia|]; replace (16 * row + i + 8 - 16 * row) with (i + 1 * 8) by lia;
      rewrite Z.mod_add, Z.mod_small by lia; lia).
    f_equal. unfold cb. do 2 f_equal. unfold glyph. rewrite Ey, Ex. replace (16 * row + i + 8 - 16 * row) with (i + 1 * 8) by lia.
    rewrite Z.div_add, Z.div_small, Z.mod_add, Z.mod_small, Z.add_0_l, Hb by lia. cbn [default]. f_equal. lia. }
  destruct (decide (py a = 16 * row + i /\ px a = 8 * col + j /\ pk a < 3)) as [(Ey & Ex & Ek)|Hn1].
  { rewrite decide_True by (rewrite Ey, Ex; split; [lia|]; replace (16 * row + i - 16 * row) with i by lia; rewrite Z.mod_small by lia; lia).
    f_equal. unfold ca. do 2 f_equal. unfold glyph. rewrite Ey, Ex. replace (16 * row + i - 16 * row) with i by lia.
    rewrite Z.div_small, Z.mod_small, Z.add_0_r, Ha by lia. cbn [default]. f_equal. lia. }
  assert (Heq : painted i j a <-> painted i (j + 1) a).
  { unfold painted, in_cell. split; [intros [? [?|[? ?]]]; split; auto; right; lia|].
    intros [Hin [?|[E ?]]]; split; auto. right. split; [done|].
    destruct (decide (px a = 8 * col + j)) as [Ex|]; [|lia]. exfalso.
    assert (py a - 16 * row = i \/ py a - 16 * row = i + 8) by dlia. destruct H0; [apply Hn1|apply Hn2]; lia. }
  fold (in_cell a). fold (painted i j a) (painted i (j + 1) a). by repeat case_decide; tauto.
Qed.

End draw.

(** ** Clearing *)

Section clear.
Context (v : vga).
Hypothesis Hthere : forall x y, 0 <= x < pixel_width v -> 0 <= y < pixel_height v -> pixel_there v x y.
Hypothesis Hw : 0 <= pixel_width v.
Hypothesis Hh : 0 <= pixel_height v.

Definition visible (a : Z) : Prop := 0 <= px v a < pixel_width v /\ 0 <= py v a < pixel_height v /\ pk v a < 3.
Definition blacked (i j a : Z) : Prop := visible a /\ (px v a < i \/ px v a = i /\ py v a < j).
#[local] Instance visible_dec a : Decision (visible a) := _.
#[local] Instance blacked_dec i j a : Decision (blacked i j a) := _.

Definition clearing (i j : Z) (w : vga) : Prop :=
  exists m, w = set_fb (fun _ => m) v /\ forall a, m !! a = if decide (blacked i j a) then Some 0 else fb v !! a.

Lemma clear_step i j w : 0 <= i < pixel_width v -> 0 <= j < pixel_height v -> clearing i j w ->
  exists w', vga_putpixel i j 0 0 0 w = Ok tt w' /\ clearing i (j + 1) w'.
Proof.
  intros Hi Hj (m & -> & Hm). destruct (putpixel_exact v m i j 0) as (m' & Hr & Hm'); [by apply Hthere| |lia|].
  { intros k Hk. rewrite Hm. case_decide; eauto. }
  eexists. split; [exact Hr|]. exists m'. split; [done|]. intros a. rewrite Hm', Hm. unfold blacked, visible.
  repeat case_decide; try done; exfalso; lia.
Qed.

Lemma clear_all_run : exists w, for_loop (Z.to_nat (pixel_width v)) 0 (fun i =>
    for_loop (Z.to_nat (pixel_height v)) 0 (fun j => vga_putpixel i j 0 0 0)) v = Ok tt w /\ clearing (pixel_width v) 0 w.
Proof.
  edestruct (for_loop_ind (fun i w => clearing i 0 w)) as (w & Hr & Hc); [| |rewrite Hr].
  - exists (fb v). split; [by destruct v|]. intros a. rewrite decide_False; [done|]. unfold blacked, visible. lia.
  - intros i w Hi Hc. cbn beta. rewrite Z2Nat.id in Hi by lia.
    edestruct (for_loop_ind (fun j w => clearing i j w)) as (w' & Hr & Hc'); [exact Hc| |rewrite Hr].
    + intros j w1 Hj Hc1. rewrite Z2Nat.id in Hj by lia. by apply clear_step.
    + exists w'. split; [done|]. rewrite Z2Nat.id, Z.add_0_l in Hc' by lia. destruct Hc' as (m & -> & Hm). exists m. split; [done|].
      intros a. rewrite Hm. unfold blacked, visible. repeat case_decide; try done; exfalso; lia.
  - exists w. by rewrite Z2Nat.id, Z.add_0_l in Hc by lia.
Qed.
End clear.

(** [vga_clear] turns every pixel black, changes no other byte of the frame
    buffer and moves the cursor to the top; the characters that the console
    remembers, which it draws again when it scrolls, all stay. *)
Theorem vga_clear_keeps_text v :
  (forall x y, 0 <= x < pixel_width v -> 0 <= y < pixel_height v -> pixel_there v x y) ->
  0 <= pixel_width v -> 0 <= pixel_height v ->
  exists m, vga_clear v = Ok tt (set_fb (fun _ => m) (set_cursor 0 0 v)) /\
    (forall x y k, 0 <= x < pixel_width v -> 0 <= y < pixel_height v -> 0 <= k < 3 ->
       m !! (y * vga_pitch v + 4 * x + k) = Some 0) /\
    (forall a, ~ visible v a -> m !! a = fb v !! a) /\
    (forall r c, cell (set_fb (fun _ => m) (set_cursor 0 0 v)) r c = cell v r c).
Proof.
  intros Ht Hw Hh. set (v0 := set_cursor 0 0 v).
  assert (Ht0 : forall x y, 0 <= x < pixel_width v0 -> 0 <= y < pixel_height v0 -> pixel_there v0 x y) by exact Ht.
  destruct (clear_all_run v0 Ht0 Hw Hh) as (w & Hr & m & -> & Hm). exists m. split_and!; [exact Hr| | |done].
  - intros x y k Hx Hy Hk. rewrite Hm, decide_True; [done|].
    destruct (Ht x y Hx Hy) as (H1 & H2 & _).
    destruct (proj1 (pixel_bytes v0 x y (y * vga_pitch v + 4 * x + k) H1 H2)) as (E1 & E2 & E3); [cbn; lia|].
    unfold blacked, visible. rewrite E1, E2. cbn [pixel_width pixel_height set_cursor v0] in *. lia.
  - intros a Ha. rewrite Hm, decide_False; [done|]. intros [Hv _]. by apply Ha.
Qed.

(** Every byte of the frame buffer after the drawing of a character. *)
Lemma draw_char_exact v row col c inverted :
  screen v -> 32 * cols v <= vga_pitch v -> 0 <= row < rows v -> 0 <= col < cols v -> 0 <= c < 128 ->
  exists m, draw_char row col c inverted v = Ok tt (set_fb (fun _ => m) v) /\
    (forall x y k, 0 <= x < 8 -> 0 <= y < 16 -> 0 <= k < 3 ->
       m !! ((16 * row + y) * vga_pitch v + 4 * (8 * col + x) + k) = Some (shade (xorb inverted (glyph c x y)))) /\
    (forall a, ~ in_cell v row col a -> m !! a = fb v !! a).
Proof.
  intros Hs Hp Hr Hcol Hc. pose proof (sc_size v Hs) as Hsz. unfold draw_char.
  rewrite (u32_small (col * 8)), (u32_small (row * 16)) by lia.
  destruct (Z.ltb_spec c 0); [lia|]. destruct (font_lookup c) as (wa & wb & Ha & Hb); [lia|].
  rewrite Ha, Hb. cbn [lift_opt]. rewrite !bind_ret.
  edestruct (for_loop_ind (fun i w => progress v row col c inverted i 0 w)) as (w' & Hrun & m & -> & Hm); [| |rewrite Hrun].
  - exists (fb v). split; [by destruct v|]. intros a. rewrite decide_False; [done|]. unfold painted.
    pose proof (Z.mod_pos_bound (py v a - 16 * row) 8 ltac:(lia)). unfold in_cell. lia.
  - intros i w Hi Hw. cbn in Hi.
    edestruct (for_loop_ind (fun j w => progress v row col c inverted i j w)) as (w' & Hrun & Hw'); [exact Hw| |].
    2: { eexists. split; [exact Hrun|]. by apply progress_next_row. }
    intros j w1 Hj Hw1. cbn in Hj. cbn beta zeta.
    rewrite (u32_small (col * 8 + j)), (u32_small (row * 16 + i)), (u32_small (row * 16 + i + 8)) by lia.
    rewrite (Z.mul_comm col 8), (Z.mul_comm row 16). by apply (paint_two v row col c inverted Hs Hp Hr Hcol Hc wa wb i j w1).
  - exists m. split; [done|]. split.
    + intros x y k Hx Hy Hk. rewrite Hm.
      destruct (proj1 (pixel_bytes v (8 * col + x) (16 * row + y) ((16 * row + y) * vga_pitch v + 4 * (8 * col + x) + k) ltac:(lia) ltac:(lia)) ltac:(lia)) as (Ey & Ex & Ek).
      rewrite decide_True.
      * unfold colour. rewrite Ey, Ex. do 4 f_equal; lia.
      * unfold painted, in_cell. rewrite Ey, Ex. split; [lia|]. left. cbn. dlia.
    + intros a Ha'. rewrite Hm, decide_False; [done|]. by intros [? _].
Qed.

(** ** The properties *)

(** C21. [draw_char] paints the glyph.  For every ASCII character and every cell
    of a console whose lines are long enough, the drawing ends and sets each
    byte of each pixel of the cell to the grey or the black that the font says
    for it (the other way round if inverted); every other byte of the frame
    buffer keeps its value. *)
Theorem draw_char_glyph v row col c inverted :
  screen v -> 32 * cols v <= vga_pitch v -> 0 <= row < rows v -> 0 <= col < cols v -> 0 <= c < 128 ->
  exists m, draw_char row col c inverted v = Ok tt (set_fb (fun _ => m) v) /\
    (forall x y k, 0 <= x < 8 -> 0 <= y < 16 -> 0 <= k < 3 ->
       m !! ((16 * row + y) * vga_pitch v + 4 * (8 * col + x) + k) = Some (shade (xorb inverted (glyph c x y)))) /\
    (forall a, ~ in_cell v row col a -> m !! a = fb v !! a).
Proof. apply draw_char_exact. Qed.

Lemma draw_char_glyph_witness :
  exists m, draw_char 1 1 65 false demo_vga = Ok tt (set_fb (fun _ => m) demo_vga) /\
    (forall x y k, 0 <= x < 8 -> 0 <= y < 16 -> 0 <= k < 3 ->
       m !! ((16 * 1 + y) * 96 + 4 * (8 * 1 + x) + k) = Some (shade (xorb false (glyph 65 x y)))) /\
    (forall a, ~ in_cell demo_vga 1 1 a -> m !! a = fb demo_vga !! a).
Proof. apply (draw_char_glyph demo_vga 1 1 65 false); [apply demo_screen|vm_compute; congruence|vm_compute; done|vm_compute; done|lia]. Defined.

End VgaDraw.
