(* ===== verification/VgaScreen.v ===== *)
(** * What the console shows

    The console remembers the characters of its cells; [faithful] says that the
    pixels of every cell show the glyph of its character.  Every character that
    is put to the console keeps this, scrolling included. *)

From S2P Require Import Prelude KMath VgaFont Vga VgaProps VgaDraw.
Import KMath VgaFont Vga VgaProps VgaDraw.

Module VgaScreen.

(** The pixels of the cell show the glyph of [b]. *)
Definition lit (v : vga) (row col b : Z) : Prop := forall x y k, 0 <= x < 8 -> 0 <= y < 16 -> 0 <= k < 3 ->
  fb v !! ((16 * row + y) * vga_pitch v + 4 * (8 * col + x) + k) = Some (shade (glyph b x y)).

(** Every cell that has a character shows it; a cell of value 0 was never
    written, and the scrolling does not draw it. *)
Definition faithful (v : vga) : Prop := forall r c b, 0 <= r < rows v -> 0 <= c < cols v -> cell v r c = Some b -> b <> 0 -> lit v r c b.

(** The lines of the frame buffer do not overlap. *)
Definition lines_apart (v : vga) : Prop := 32 * cols v <= vga_pitch v.

(** [w] is a console of the size of [v]. *)
Definition same_size (v w : vga) : Prop := cols w = cols v /\ rows w = rows v /\ vga_pitch w = vga_pitch v.

(** A well-formed console of the same size that shows its characters. *)
Definition good (v w : vga) : Prop := screen w /\ faithful w /\ same_size v w.

Lemma cell_byte v r c x y k : lines_apart v -> 0 <= x < 8 -> 0 <= y < 16 -> 0 <= k < 3 -> 0 <= c < cols v ->
  let a := (16 * r + y) * vga_pitch v + 4 * (8 * c + x) + k in py v a = 16 * r + y /\ px v a = 8 * c + x /\ pk v a < 3.
Proof.
  intros Hp Hx Hy Hk Hc a. unfold lines_apart in Hp. apply (pixel_bytes v (8 * c + x) (16 * r + y)); unfold a; lia.
Qed.

(** A cell written and drawn: it shows its character, and no other byte of the
    frame buffer and no other cell has changed. *)
Lemma write_cell w row col b ch :
  screen w -> lines_apart w -> vga_chars w = Some ch -> 0 <= row < rows w -> 0 <= col < cols w -> 0 <= b < 128 ->
  let w1 := set_chars (<[row * cols w + col:=b]> ch) w in
  put_char (row * cols w + col) b w = Ok tt w1 /\ screen w1 /\ cell w1 row col = Some b /\
  (forall r c, 0 <= r < rows w -> 0 <= c < cols w -> cell w1 r c = if decide (r = row /\ c = col) then Some b else cell w r c) /\
  exists m, draw_char row col b false w1 = Ok tt (set_fb (fun _ => m) w1) /\ screen (set_fb (fun _ => m) w1) /\
    lit (set_fb (fun _ => m) w1) row col b /\ (forall a, ~ in_cell w row col a -> m !! a = fb w !! a).
Proof.
  intros Hs Hp Hch Hr Hc Hb w1.
  assert (Hcells : forall r c, 0 <= r < rows w -> 0 <= c < cols w -> cell w1 r c = if decide (r = row /\ c = col) then Some b else cell w r c).
  { intros r c Hr' Hc'. unfold cell. rewrite Hch. cbn. change (cols w1) with (cols w). rewrite lookup_insert.
    case_decide as E; [destruct (pos_inj (cols w) row col r c Hc Hc' E) as [-> ->]; by rewrite decide_True|].
    rewrite decide_False; [done|]. intros [-> ->]. done. }
  destruct (sc_cells w Hs row col Hr Hc) as (b0 & Hb0 & _). assert (Hold : ch !! (row * cols w + col) = Some b0) by (unfold cell in Hb0; by rewrite Hch in Hb0).
  assert (Hs1 : screen w1).
  { destruct Hs as [? ? ? ? Hfb Hcl]. split; try done. intros r c Hr' Hc'. rewrite Hcells by done. case_decide; [exists b; split; [done|lia]|by apply Hcl]. }
  split_and!; [|done|by rewrite Hcells, decide_True|done|].
  { unfold put_char. rewrite Hch, Hold. by rewrite u8_small by lia. }
  destruct (draw_char_exact w1 row col b false Hs1 Hp Hr Hc Hb) as (m & Hd & Hin & Hout).
  exists m. split_and!; [done| |exact Hin|exact Hout].
  destruct (draw_char_run w1 row col b false Hs1 Hr Hc Hb) as (w2 & Hd2 & Hrep). rewrite Hd in Hd2. injection Hd2 as <-. by eapply repainted_screen.
Qed.

(** Cells that are apart have no byte in common. *)
Lemma other_cell w row col r c x y k : lines_apart w -> 0 <= c < cols w -> 0 <= x < 8 -> 0 <= y < 16 -> 0 <= k < 3 -> ~ (r = row /\ c = col) ->
  ~ in_cell w row col ((16 * r + y) * vga_pitch w + 4 * (8 * c + x) + k).
Proof.
  intros Hp Hc Hx Hy Hk Hne (H1 & H2 & _). destruct (cell_byte w r c x y k Hp Hx Hy Hk Hc) as (E1 & E2 & _). rewrite E1 in H2. rewrite E2 in H1. lia.
Qed.

Lemma write_cell_faithful w row col b ch m :
  faithful w -> lines_apart w -> 0 <= row < rows w -> 0 <= col < cols w ->
  let w2 := set_fb (fun _ => m) (set_chars (<[row * cols w + col:=b]> ch) w) in
  (forall r c, 0 <= r < rows w -> 0 <= c < cols w -> cell w2 r c = if decide (r = row /\ c = col) then Some b else cell w r c) ->
  lit w2 row col b -> (forall a, ~ in_cell w row col a -> m !! a = fb w !! a) -> faithful w2.
Proof.
  intros Hf Hp Hr Hc w2 Hcells Hlit Hout r c b' Hr' Hc' Hcell Hb'. rewrite Hcells in Hcell by done.
  case_decide as E; [destruct E as [-> ->]; by injection Hcell as <-|]. intros x y k Hx Hy Hk. cbn [w2 fb set_fb vga_pitch set_chars].
  rewrite Hout by (by apply other_cell). by apply (Hf r c b').
Qed.

(** ** Scrolling *)

Lemma chars_there w : screen w -> exists ch, vga_chars w = Some ch.
Proof.
  intros Hs. destruct (sc_cells w Hs 0 0) as (b & Hb & _); [pose proof (sc_rows w Hs); lia|pose proof (sc_cols w Hs); lia|].
  unfold cell in Hb. destruct (vga_chars w) as [ch|]; [by exists ch|done].
Qed.

Lemma good_apart v w : lines_apart v -> good v w -> lines_apart w.
Proof. intros Hp (_ & _ & E1 & E2 & E3). unfold lines_apart. by rewrite E1, E3. Qed.

(** One cell. *)
Lemma write_cell_good v w row col b ch :
  lines_apart v -> good v w -> vga_chars w = Some ch -> 0 <= row < rows v -> 0 <= col < cols v -> 0 <= b < 128 ->
  exists w1 w2, put_char (row * cols w + col) b w = Ok tt w1 /\ draw_char row col b false w1 = Ok tt w2 /\ good v w2 /\
    screen w1 /\ cols w1 = cols w /\ rows w1 = rows w /\ cell w1 row col = Some b.
Proof.
  intros Hp Hg Hch Hr Hc Hb. pose proof (good_apart v w Hp Hg) as Hpw. destruct Hg as (Hs & Hf & E1 & E2 & E3).
  destruct (write_cell w row col b ch Hs Hpw Hch) as (H1 & H2 & H3 & H4 & m & H5 & H6 & H7 & H8); [lia..|].
  eexists _, _. split; [exact H1|]. split; [exact H5|]. split; [|done].
  split; [done|]. split; [|done]. apply (write_cell_faithful w row col b ch m); try done; lia.
Qed.

Lemma scroll_cell_good v w i j : lines_apart v -> good v w -> 0 <= i < rows v - 1 -> 0 <= j < cols v ->
  exists w', scroll_cell i j w = Ok tt w' /\ good v w'.
Proof.
  intros Hp Hg Hi Hj. pose proof (good_apart v w Hp Hg) as Hpw. pose proof Hg as (Hs & Hf & E1 & E2 & E3).
  assert (H32 : i + 1 < W32) by (pose proof (sc_size w Hs); lia). destruct (chars_there w Hs) as (ch & Hch).
  unfold scroll_cell. rewrite (u32_small (i + 1)) by lia.
  rewrite (bind_ok _ _ _ _ _ (pos_run w i j Hs ltac:(lia) ltac:(lia))), (bind_ok _ _ _ _ _ (pos_run w (i + 1) j Hs ltac:(lia) ltac:(lia))).
  destruct (sc_cells w Hs (i + 1) j) as (b & Hb & Hbr); [lia|lia|]. rewrite (bind_ok _ _ _ _ _ (get_char_run _ _ _ _ Hb)).
  destruct (decide (b = 0)) as [->|Hb0].
  - destruct (write_cell w i j 0 ch Hs Hpw Hch) as (H1 & H2 & H3 & H4 & _); [lia..|]. set (w1 := set_chars _ w) in *.
    rewrite (bind_ok _ _ _ _ _ H1). change (cols w) with (cols w1). rewrite (bind_ok _ _ _ _ _ (get_char_run _ _ _ _ H3)). cbn.
    exists w1. split; [done|]. split; [done|]. split; [|done]. intros r c b Hr Hc Hcell Hb'. rewrite H4 in Hcell by done.
    case_decide; [congruence|]. by apply (Hf r c b).
  - destruct (write_cell_good v w i j b ch Hp Hg Hch) as (w1 & w2 & H1 & H2 & H3 & H4 & H5 & H6 & H7); [lia..|].
    rewrite (bind_ok _ _ _ _ _ H1), <- H5, (bind_ok _ _ _ _ _ (get_char_run _ _ _ _ H7)).
    destruct (Z.eqb_spec b 0); [lia|]. cbn [negb]. rewrite to_char_small by lia. by exists w2.
Qed.

Lemma clear_cell_good v w row j : lines_apart v -> good v w -> 0 <= row < rows v -> 0 <= j < cols v ->
  exists w', clear_cell row j w = Ok tt w' /\ good v w'.
Proof.
  intros Hp Hg Hr Hj. pose proof Hg as (Hs & Hf & E1 & E2 & E3). destruct (chars_there w Hs) as (ch & Hch).
  unfold clear_cell. rewrite (bind_ok _ _ _ _ _ (pos_run w row j Hs ltac:(lia) ltac:(lia))).
  destruct (write_cell_good v w row j 32 ch Hp Hg Hch) as (w1 & w2 & H1 & H2 & H3 & _); [lia..|].
  rewrite (bind_ok _ _ _ _ _ H1). by exists w2.
Qed.

(** A loop whose passes keep the console good. *)
Lemma good_loop v body n w : good v w ->
  (forall k w, 0 <= k < Z.of_nat n -> good v w -> exists w', body k w = Ok tt w' /\ good v w') ->
  exists w', for_loop n 0 body w = Ok tt w' /\ good v w'.
Proof. intros Hw Hb. apply (for_loop_ind (fun _ => good v)); [done|]. intros k w1 Hk. apply Hb. lia. Qed.

Lemma newline_good v : screen v -> faithful v -> lines_apart v -> cursor_ok v ->
  exists v', vga_newline v = Ok tt v' /\ good v v'.
Proof.
  intros Hs Hf Hp [Hcr Hcc]. pose proof (sc_size v Hs) as Hsz. pose proof (sc_rows v Hs). pose proof (sc_cols v Hs). unfold vga_newline. run_pure.
  cbn [cur_row set_cursor]. change (rows (set_cursor _ _ v)) with (rows v). change (cols (set_cursor _ _ v)) with (cols v).
  rewrite (u32_small (cur_row v + 1)) by lia. set (v0 := set_cursor (cur_row v + 1) 0 v).
  destruct (Z.ltb_spec (cur_row v + 1) (rows v)).
  { exists v0. split; [done|]. split; [by apply set_cursor_screen|]. done. }
  run_pure. cbn [cur_row set_cursor v0]. replace (cur_row v + 1 - 1) with (cur_row v) by lia.
  rewrite (u32_small (rows v - 1)), (u32_small (cur_row v)) by lia. set (v1 := set_cursor (cur_row v) _ _).
  assert (Hg1 : good v v1) by (split; [by repeat apply set_cursor_screen|done]).
  destruct (good_loop v (fun i => for_loop (Z.to_nat (cols v)) 0 (scroll_cell i)) (Z.to_nat (rows v - 1)) v1 Hg1) as (v2 & R2 & Hg2).
  { intros i w Hi Hw. apply good_loop; [done|]. intros j w1 Hj Hw1. apply scroll_cell_good; (done || lia). }
  rewrite (bind_ok _ _ _ _ _ R2). apply good_loop; [done|]. intros j w Hj Hw. apply clear_cell_good; (done || lia).
Qed.

(** ** Characters *)

(** The pixels after a character that leaves the cursor in its line. *)
Definition painted_at (v v' : vga) (row col c : Z) : Prop :=
  lit v' row col c /\ forall a, ~ in_cell v row col a -> fb v' !! a = fb v !! a.

Lemma putchar_start v c ch : screen v -> lines_apart v -> cursor_ok v -> vga_chars v = Some ch -> 0 <= c < 128 -> c <> 10 -> c <> 8 ->
  let w1 := set_chars (<[cur_row v * cols v + cur_col v:=c]> ch) v in
  exists m, let w2 := set_fb (fun _ => m) w1 in let w3 := set_cursor (cur_row v) (cur_col v + 1) w2 in
    vga_putchar c v = (if cols v <=? cur_col v + 1 then vga_newline w3 else Ok tt w3) /\
    screen w2 /\ painted_at v w2 (cur_row v) (cur_col v) c /\
    (forall r k, 0 <= r < rows v -> 0 <= k < cols v -> cell w2 r k = if decide (r = cur_row v /\ k = cur_col v) then Some c else cell v r k).
Proof.
  intros Hs Hp [Hcr Hcc] Hch Hc H10 H8 w1. pose proof (sc_size v Hs) as Hsz.
  destruct (write_cell v (cur_row v) (cur_col v) c ch Hs Hp Hch Hcr Hcc Hc) as (H1 & H2 & H3 & H4 & m & H5 & H6 & H7 & H9).
  exists m. split; [|done]. unfold vga_putchar. run_pure. rewrite Hch. cbn [bool_decide decide_rel]. rewrite bool_decide_eq_false_2 by done.
  destruct (Z.eqb_spec c 10); [done|]. destruct (Z.eqb_spec c 8); [done|]. run_pure.
  rewrite (bind_ok _ _ _ _ _ (pos_run v _ _ Hs Hcr Hcc)), (bind_ok _ _ _ _ _ H1), (bind_ok _ _ _ _ _ H5). run_pure.
  cbn [cur_row cur_col set_cursor set_fb set_chars]. rewrite (u32_small (cur_col v + 1)) by lia.
  change (cols (set_cursor _ _ _)) with (cols v). by destruct (cols v <=? cur_col v + 1).
Qed.

Lemma putchar_faithful v c : screen v -> lines_apart v -> cursor_ok v -> faithful v -> 0 <= c < 128 ->
  exists v', vga_putchar c v = Ok tt v' /\ good v v'.
Proof.
  intros Hs Hp Hcur Hf Hc. pose proof (sc_size v Hs) as Hsz. destruct (chars_there v Hs) as (ch & Hch).
  destruct (decide (c = 10)) as [->|H10]; [unfold vga_putchar; run_pure; rewrite Hch; by apply newline_good|].
  destruct (decide (c = 8)) as [->|H8].
  { unfold vga_putchar. run_pure. rewrite Hch. rewrite bool_decide_eq_false_2 by done. cbn [Z.eqb Pos.eqb]. run_pure.
    destruct (cur_col v =? 0), (cur_row v =? 0); cbn [negb]; eexists; (split; [reflexivity|]); (split; [by try apply set_cursor_screen|done]). }
  destruct (putchar_start v c ch Hs Hp Hcur Hch Hc H10 H8) as (m & Hput & Hs2 & [Hlit Hout] & Hcells). destruct Hcur as [Hcr Hcc].
  set (w1 := set_chars _ v) in *. set (w2 := set_fb (fun _ => m) w1) in *.
  assert (Hf2 : faithful w2) by (by apply (write_cell_faithful v (cur_row v) (cur_col v) c ch m)). rewrite Hput.
  destruct (Z.leb_spec (cols v) (cur_col v + 1)).
  - change (vga_newline (set_cursor (cur_row v) (cur_col v + 1) w2)) with (vga_newline w2). apply (newline_good w2); try done.
  - eexists. split; [done|]. split; [by apply set_cursor_screen|done].
Qed.

(** The character at the cursor, its pixels, and the cursor after it. *)
Lemma putchar_paints v c : screen v -> lines_apart v -> cursor_ok v -> 0 <= c < 128 -> c <> 10 -> c <> 8 -> cur_col v + 1 < cols v ->
  exists v', vga_putchar c v = Ok tt v' /\ screen v' /\ same_size v v' /\ cur_row v' = cur_row v /\ cur_col v' = cur_col v + 1 /\
    painted_at v v' (cur_row v) (cur_col v) c.
Proof.
  intros Hs Hp Hcur Hc H10 H8 Hcol. destruct (chars_there v Hs) as (ch & Hch).
  destruct (putchar_start v c ch Hs Hp Hcur Hch Hc H10 H8) as (m & Hput & Hs2 & Hpaint & _). rewrite Hput.
  destruct (Z.leb_spec (cols v) (cur_col v + 1)); [lia|]. eexists. split; [done|]. split; [by apply set_cursor_screen|]. done.
Qed.

(** ** The property *)

(** C34. A character on the console.  For every ASCII character and every
    console that is well-formed, with its cursor on the screen and lines that do
    not overlap, [vga_putchar] never writes outside of its buffers and leaves a
    well-formed console with the cursor on the screen.  If all pixels show the
    characters that the console remembers, they do so afterwards, also after a
    new line and scrolling.  A character other than new line and backspace that
    is not put into the last column appears at the cursor, among the characters
    and as its glyph in the pixels, the cursor moves on by one column, and no
    other cell and no other byte of the frame buffer changes. *)
Theorem vga_putchar_safe v c :
  screen v -> lines_apart v -> cursor_ok v -> 0 <= c < 128 ->
  exists v', vga_putchar c v = Ok tt v' /\ screen v' /\ cursor_ok v' /\ (faithful v -> faithful v' /\ same_size v v') /\
    (c <> 10 -> c <> 8 -> cur_col v + 1 < cols v ->
       cur_row v' = cur_row v /\ cur_col v' = cur_col v + 1 /\ painted_at v v' (cur_row v) (cur_col v) c /\
       forall r k, 0 <= r < rows v -> 0 <= k < cols v ->
         cell v' r k = if decide (r = cur_row v /\ k = cur_col v) then Some c else cell v r k).
Proof.
  intros Hs Hp Hcur Hc. destruct (putchar_run v c Hs Hcur Hc) as (v' & Hr & Hs' & Hcur' & _ & _ & H). exists v'. split_and!; try done; [apply Hcur'..| |].
  - intros Hf. destruct (putchar_faithful v c Hs Hp Hcur Hf Hc) as (v2 & Hr2 & _ & Hg). rewrite Hr in Hr2. by injection Hr2 as <-.
  - intros H10 H8 Hcol. destruct (H H10 H8 Hcol) as (E1 & E2 & E3).
    destruct (putchar_paints v c Hs Hp Hcur Hc H10 H8 Hcol) as (v2 & Hr2 & _ & _ & _ & _ & Hpt). rewrite Hr in Hr2. by injection Hr2 as <-.
Qed.

Lemma vga_putchar_safe_witness :
  exists v', vga_putchar 88 demo_vga = Ok tt v' /\ screen v' /\ cursor_ok v' /\ (faithful demo_vga -> faithful v' /\ same_size demo_vga v') /\
    (88 <> 10 -> 88 <> 8 -> 1 + 1 < 3 ->
       cur_row v' = 1 /\ cur_col v' = 2 /\ painted_at demo_vga v' 1 1 88 /\
       forall r k, 0 <= r < 2 -> 0 <= k < 3 ->
         cell v' r k = if decide (r = 1 /\ k = 1) then Some 88 else cell demo_vga r k).
Proof.
  apply (vga_putchar_safe demo_vga 88); [apply demo_screen|vm_compute; congruence|split; vm_compute; split; congruence|lia].
Defined.

End VgaScreen.
