(* ===== verification/VgaInit.v ===== *)
(** * The start of the console and formatted output to it

    io/vga.c, [vga_init], and io/output.c, [vga_printf].  [vga_init] takes a
    buffer from the heap and maps the frame buffer; the heap and the page tables
    are an interface ([VideoIface]).  The console of file Vga keeps its two
    buffers as maps of their bytes: they are those that can be reached through
    the addresses that [vga_init] has set up. *)

From S2P Require Import Prelude KMath Output VgaFont Vga VgaProps VgaDraw VgaScreen.
Import KMath Output VgaFont Vga VgaProps VgaDraw VgaScreen.

Module VgaInit.

Definition PAGE_SIZE : Z := 4096.
Definition VGA_VIRT : Z := 0xFFFF800000000000.

(** mem/vmalloc.c, mem/page.c, the frame behind the page at a virtual address,
    and the bytes of the physical memory *)
Class VideoIface (E : Type) := {
  vcalloc : Z -> M E Z;
  page_map : Z -> Z -> bool -> M E unit;
  vframe : E -> Z -> option Z;
  pbyte : E -> Z -> Z;
}.

(** The byte at a virtual address. *)
Definition vbyte {E} `{!VideoIface E} (e : E) (a : Z) : option Z :=
  (fun p => pbyte e (p + a mod 4096)) <$> vframe e (a - a mod 4096).

(** The bytes at the [n] addresses from [a] on, as far as they are mapped. *)
Definition window {E} `{!VideoIface E} (e : E) (a : Z) (n : nat) : gmap Z Z :=
  list_to_map (omap (fun i => (fun b => (Z.of_nat i, b)) <$> vbyte e (a + Z.of_nat i)) (seq 0 n)).

Section init.
Context {E : Type} `{!VideoIface E}.

Definition on_env {A} (c : M E A) : M (E * vga) A := fun '(e, v) =>
  match c e with Ok a e' => Ok a (e', v) | Panic msg => Panic msg | Fault => Fault | OutOfFuel => OutOfFuel end.

Definition vga_init (address width height pitch : Z) : M (E * vga) unit :=
  modify (fun '(e, v) => (e, Vga width height pitch (cur_row v) (cur_col v) (fb v) (vga_chars v) (flash v)));;
  if address =? 0 then panic "vga: framebuffer init: no frame buffer tag!" else
  buffer ← on_env (vcalloc ((height / 16) *32 (width / 8)));
  pages_needed ← lift_opt (ceil_u32_div (pitch *32 height) PAGE_SIZE);
  for_loop (Z.to_nat pages_needed) 0 (fun i =>
    on_env (page_map (VGA_VIRT +64 (i *32 PAGE_SIZE)) (address +64 (i *32 PAGE_SIZE)) true));;
  modify (fun '(e, v) => (e, Vga width height pitch 0 0 (window e VGA_VIRT (Z.to_nat (pages_needed * PAGE_SIZE)))
    (Some (window e buffer (Z.to_nat ((height / 16) *32 (width / 8))))) (flash v))).

End init.

(** io/output.c: the characters of the text, one after the other; a [char] is
    signed *)
Fixpoint vga_print (text : list Z) : M vga unit :=
  match text with [] => mret tt | c :: text' => vga_putchar (to_char c);; vga_print text' end.

Definition vga_printf (format : list Z) (args : list arg) : M vga Z :=
  init ← vga_is_initialized;
  if negb init then mret 0 else
  o ← lift_opt (printf format args nothing);
  vga_print (text o);;
  mret (length_ o).

(** ** Windows *)

Lemma window_lookup {E} `{!VideoIface E} (e : E) a n i :
  window e a n !! i = if decide (0 <= i < Z.of_nat n) then vbyte e (a + i) else None.
Proof.
  unfold window. set (l := omap _ _).
  assert (Hl : forall j b, (j, b) ∈ l <-> 0 <= j < Z.of_nat n /\ vbyte e (a + j) = Some b).
  { intros j b. unfold l. rewrite list_elem_of_omap. split.
    - intros (k & Hk & E1). apply elem_of_seq in Hk. destruct (vbyte e (a + Z.of_nat k)) eqn:Ek; [|done]. injection E1 as <- <-. split; [lia|done].
    - intros [Hj Hb]. exists (Z.to_nat j). rewrite elem_of_seq, Z2Nat.id, Hb by lia. split; [lia|done]. }
  destruct (list_to_map l !! i) as [b|] eqn:Hi.
  - apply elem_of_list_to_map_2, Hl in Hi as [Hr Hb]. by rewrite decide_True.
  - apply not_elem_of_list_to_map_2 in Hi. case_decide as Hr; [|done]. destruct (vbyte e (a + i)) as [b|] eqn:Hb; [|done].
    exfalso. apply Hi. apply list_elem_of_fmap. exists (i, b). split; [done|]. by apply Hl.
Qed.

(** ** What the heap and the page tables promise *)

(** [owned]: the virtual addresses of the blocks that the heap has handed out.
    [is_video]: the physical addresses of devices, which the kernel does not use
    as memory. *)
Class VideoLaws (E : Type) `{!VideoIface E} := {
  no_video_memory : string -> Prop;
  owned : E -> Z -> Prop;
  is_video : Z -> Prop;
  vcalloc_law n e : 0 < n < 2 ^ 32 ->
    (exists msg, vcalloc n e = Panic msg /\ no_video_memory msg) \/
    exists p e', vcalloc n e = Ok p e' /\ 0 < p /\ (p + n <= VGA_VIRT \/ VGA_VIRT + 2 ^ 32 <= p) /\
      (forall i, 0 <= i < n -> vbyte e' (p + i) = Some 0 /\ owned e' (p + i)) /\
      (forall a, is_video a -> pbyte e' a = pbyte e a);
  video_map_law v p k e : v mod 4096 = 0 -> 0 <= v < W64 -> p mod 4096 = 0 -> 0 <= p < 2 ^ 52 ->
    (exists msg, page_map v p k e = Panic msg /\ no_video_memory msg) \/
    exists e', page_map v p k e = Ok tt e' /\
      (forall x, x mod 4096 = 0 -> vframe e' x = if decide (x = v) then Some p else vframe e x) /\
      (forall a, is_video a -> pbyte e' a = pbyte e a) /\
      (forall a, owned e a -> a < v \/ v + 4096 <= a -> owned e' a /\ vbyte e' a = vbyte e a);
}.

Section laws.
Context {E : Type} `{!VideoIface E} `{!VideoLaws E}.
Implicit Types (e : E) (v : vga).

(** The frame buffer has been mapped up to page [k]; the blocks of the heap and
    the memory of the devices are as before. *)
Definition mapped_to (address : Z) (e0 : E) (k : Z) (e : E) : Prop :=
  (forall i, 0 <= i < k -> vframe e (VGA_VIRT + 4096 * i) = Some (address + 4096 * i)) /\
  (forall a, is_video a -> pbyte e a = pbyte e0 a) /\
  (forall a, owned e0 a -> a < VGA_VIRT \/ VGA_VIRT + 2 ^ 32 <= a -> owned e a /\ vbyte e a = vbyte e0 a).

(** The byte [i] of the window is that of the frame buffer. *)
Lemma window_byte address e0 k e i : mapped_to address e0 k e -> 0 <= i < 4096 * k -> vbyte e (VGA_VIRT + i) = Some (pbyte e (address + i)).
Proof.
  intros (Hm & _) Hi. unfold vbyte. assert (Hmod : (VGA_VIRT + i) mod 4096 = i mod 4096) by (unfold VGA_VIRT; dlia). rewrite Hmod.
  replace (VGA_VIRT + i - i mod 4096) with (VGA_VIRT + 4096 * (i / 4096)) by dlia. rewrite Hm by dlia. cbn. do 2 f_equal. dlia.
Qed.

Lemma map_frames_run address n : forall k e0 e v,
  mapped_to address e0 k e -> 0 <= k -> k + Z.of_nat n <= 2 ^ 20 -> address mod 4096 = 0 -> 0 <= address -> address + 2 ^ 32 < 2 ^ 52 ->
  (exists msg, for_loop n k (fun i => on_env (page_map (VGA_VIRT +64 (i *32 PAGE_SIZE)) (address +64 (i *32 PAGE_SIZE)) true)) (e, v) = Panic msg /\
     no_video_memory msg) \/
  exists e', for_loop n k (fun i => on_env (page_map (VGA_VIRT +64 (i *32 PAGE_SIZE)) (address +64 (i *32 PAGE_SIZE)) true)) (e, v) = Ok tt (e', v) /\
    mapped_to address e0 (k + Z.of_nat n) e'.
Proof.
  induction n as [|n IH]; intros k e0 e v Hm Hk Hn Ha H0 H1; cbn [for_loop].
  { right. exists e. by rewrite Z.add_0_r. }
  assert (Ek : (k *32 PAGE_SIZE) = 4096 * k) by (unfold PAGE_SIZE; rewrite u32_small; lia). rewrite Ek.
  assert (Ev : VGA_VIRT +64 (4096 * k) = VGA_VIRT + 4096 * k) by (unfold VGA_VIRT; rewrite u64_small; lia). rewrite Ev.
  assert (Ep : address +64 (4096 * k) = address + 4096 * k) by (rewrite u64_small; lia). rewrite Ep.
  destruct (video_map_law (VGA_VIRT + 4096 * k) (address + 4096 * k) true e) as [(msg & Hr & Hp)|(e1 & Hr & Hfr & Hdev & Hown)];
    [unfold VGA_VIRT; dlia|unfold VGA_VIRT; lia|dlia|lia|left; exists msg; split; [|done]; unfold mbind, M_bind, on_env; by rewrite Hr|].
  rewrite (bind_ok _ _ tt _ (e1, v)) by (unfold on_env; by rewrite Hr).
  replace (k + Z.of_nat (S n)) with (k + 1 + Z.of_nat n) by lia. apply IH; try lia.
  destruct Hm as (Hold & Hdev0 & Hfar). split_and!.
  - intros i Hi. rewrite Hfr by (unfold VGA_VIRT; dlia). case_decide; [do 2 f_equal; lia|]. apply Hold. lia.
  - intros a Hva. rewrite Hdev by done. by apply Hdev0.
  - intros a Hoa Hfa. destruct (Hfar a Hoa Hfa) as [Ho1 <-]. apply Hown; [done|lia].
Qed.

(** The console that [vga_init] leaves. *)
Lemma ready_screen e p width height pitch fl n :
  8 <= width -> 16 <= height -> 4 * width <= pitch -> pitch * height < W32 -> pitch * height <= n * 4096 ->
  (forall i, 0 <= i < n * 4096 -> is_Some (vbyte e (VGA_VIRT + i))) ->
  (forall i, 0 <= i < height / 16 * (width / 8) -> vbyte e (p + i) = Some 0) ->
  let v := Vga width height pitch 0 0 (window e VGA_VIRT (Z.to_nat (n * 4096))) (Some (window e p (Z.to_nat (height / 16 * (width / 8))))) fl in
  screen v /\ cursor_ok v /\ forall r c, 0 <= r < rows v -> 0 <= c < cols v -> cell v r c = Some 0.
Proof.
  intros Hw Hh Hp Hs Hn Hmap Hz v.
  assert (Hcols : 1 <= cols v /\ 8 * cols v <= width) by (unfold cols; cbn; dlia).
  assert (Hrows : 1 <= rows v /\ 16 * rows v <= height) by (unfold rows; cbn; dlia).
  assert (Hcell : forall r c, 0 <= r < rows v -> 0 <= c < cols v -> cell v r c = Some 0).
  { intros r c Hr Hc. assert (Hz' : forall i, 0 <= i < rows v * cols v -> vbyte e (p + i) = Some 0) by exact Hz.
    assert (Hwin : vga_chars v = Some (window e p (Z.to_nat (rows v * cols v)))) by reflexivity.
    unfold cell. rewrite Hwin. cbn. rewrite window_lookup. assert (0 <= r * cols v + c < rows v * cols v) by nia.
    rewrite decide_True by lia. by apply Hz'. }
  split_and!; [|split; cbn; lia|done]. split; [cbn; lia|lia|lia| | |].
  - assert (rows v * cols v <= height * pitch) by (apply Z.mul_le_mono_nonneg; lia).
    assert (height * 1 <= height * pitch /\ 1 * pitch <= height * pitch) by (split; apply Z.mul_le_mono_nonneg; lia). lia.
  - intros x y k Hx Hy Hk. cbn [vga_pitch fb v]. assert (0 <= y * pitch + 4 * x + k < pitch * height) by nia. rewrite window_lookup.
    rewrite decide_True by lia. split; [apply Hmap|]; lia.
  - intros r c Hr Hc. exists 0. split; [by apply Hcell|lia].
Qed.

(** ** The properties *)

(** C22. The console starts well-formed.  With a frame buffer at a page boundary
    in device memory below 2^52, of at least one character cell, of less than
    4 GiB and with lines that are long enough, [vga_init] returns (unless memory
    runs out) with the window of the console mapped, page by page, to the frame
    buffer, so that byte [i] of the window is byte [i] of the frame buffer; on
    this console the operations of file Vga are safe: every pixel and every cell
    is there, all cells are empty and the cursor is at the top.  Without a frame
    buffer it panics. *)
Theorem vga_init_ready address width height pitch e v :
  0 <= address -> address mod 4096 = 0 -> address + 2 ^ 32 < 2 ^ 52 -> (forall i, 0 <= i < pitch * height -> is_video (address + i)) ->
  8 <= width -> 16 <= height -> 4 * width <= pitch -> pitch * height < W32 ->
  if address =? 0 then vga_init address width height pitch (e, v) = Panic "vga: framebuffer init: no frame buffer tag!" else
  (exists msg, vga_init address width height pitch (e, v) = Panic msg /\ no_video_memory msg) \/
  exists e' v', vga_init address width height pitch (e, v) = Ok tt (e', v') /\
    (forall i, 0 <= i -> 4096 * i < pitch * height -> vframe e' (VGA_VIRT + 4096 * i) = Some (address + 4096 * i)) /\
    (forall i, 0 <= i < pitch * height -> fb v' !! i = Some (pbyte e (address + i))) /\
    pixel_width v' = width /\ pixel_height v' = height /\ vga_pitch v' = pitch /\ lines_apart v' /\
    screen v' /\ cursor_ok v' /\ forall r c, 0 <= r < rows v' -> 0 <= c < cols v' -> cell v' r c = Some 0.
Proof.
  intros Ha0 Ha Ha1 Hvid Hw Hh Hp Hs. unfold vga_init. rewrite bind_modify. destruct (Z.eqb_spec address 0) as [->|Hne]; [done|].
  set (v0 := Vga width height pitch _ _ _ _ _). set (w8 := width / 8). set (h16 := height / 16).
  assert (Hcols : 1 <= w8 /\ 8 * w8 <= width) by (unfold w8; dlia). assert (Hrows : 1 <= h16 /\ 16 * h16 <= height) by (unfold h16; dlia).
  assert (Hcells : 0 < h16 * w8 < W32) by nia. rewrite (u32_small (h16 * w8)) by lia.
  destruct (vcalloc_law (h16 * w8) e) as [(msg & Hr & Hm)|(p & e1 & Hr & Hp0 & Happ & Hz & Hv1)]; [lia|left|].
  { exists msg. split; [|done]. unfold mbind, M_bind, on_env. by rewrite Hr. }
  rewrite (bind_ok _ _ p _ (e1, v0)) by (unfold on_env; by rewrite Hr).
  rewrite (u32_small (pitch * height)) by nia. unfold PAGE_SIZE. rewrite ceil_u32_div_spec by (lia || nia). cbn [lift_opt]. rewrite bind_ret.
  set (n := (pitch * height + 4096 - 1) / 4096).
  assert (Hn : 0 <= n <= 2 ^ 20 /\ pitch * height <= n * 4096) by (assert (0 <= pitch * height) by nia; unfold n; split; dlia).
  destruct (map_frames_run address (Z.to_nat n) 0 e1 e1 v0) as [(msg & Hrm & Hm)|(e2 & Hrm & Hmt)];
    [split_and!; [intros i Hi; lia|done|done]|lia..| |]; unfold PAGE_SIZE in Hrm.
  { left. exists msg. split; [|done]. by rewrite (bind_panic _ _ _ _ Hrm). }
  right. rewrite (bind_ok _ _ _ _ _ Hrm). eexists e2, _. split; [reflexivity|].
  rewrite Z.add_0_l, Z2Nat.id in Hmt by lia. pose proof Hmt as (Hmap & Hdev & Hown).
  destruct (ready_screen e2 p width height pitch (flash v0) n) as (H1 & H2 & H3); [lia..| | |].
  - intros i Hi. rewrite (window_byte address e1 n e2) by (done || lia). eauto.
  - intros i Hi. destruct (Hz i Hi) as [<- Ho]. apply Hown; [done|]. unfold VGA_VIRT in *. fold w8 h16 in Hi. lia.
  - split_and!; try done.
    + intros i Hi0 Hi. apply Hmap. lia.
    + intros i Hi. cbn [fb]. rewrite window_lookup, decide_True by lia. rewrite (window_byte address e1 n e2) by (done || lia).
      by rewrite Hdev, Hv1 by (by apply Hvid).
    + unfold lines_apart, cols. cbn. fold w8. lia.
Qed.

End laws.

(** The text on the screen: row [row], from column [col] on. *)
Definition shows (v v' : vga) (row col : Z) (t : list Z) : Prop :=
  cur_row v' = row /\ cur_col v' = col + Z.of_nat (length t) /\
  forall r k, 0 <= r < rows v -> 0 <= k < cols v ->
    cell v' r k = if decide (r = row /\ col <= k < col + Z.of_nat (length t)) then t !! Z.to_nat (k - col) else cell v r k.

Lemma vga_print_run t : forall v, screen v -> cursor_ok v -> Forall (fun c => 0 <= c < 128) t ->
  exists v', vga_print t v = Ok tt v' /\ screen v' /\ cursor_ok v' /\ cols v' = cols v /\ rows v' = rows v /\
    (Forall (fun c => c <> 10 /\ c <> 8) t -> cur_col v + Z.of_nat (length t) < cols v -> shows v v' (cur_row v) (cur_col v) t).
Proof.
  induction t as [|c t IH]; intros v Hs Hc Ht; cbn [vga_print length].
  { exists v. split_and!; try done; [apply Hc..|]. intros _ _. split_and!; [done|cbn; lia|]. intros r k Hr Hk. by rewrite decide_False by (cbn; lia). }
  apply Forall_cons in Ht as [Hc0 Ht]. rewrite to_char_small by lia.
  destruct (putchar_run v c Hs Hc Hc0) as (v1 & R1 & Hs1 & Hc1 & Ec1 & Er1 & Hput). rewrite (bind_ok _ _ _ _ _ R1).
  destruct (IH v1 Hs1 Hc1 Ht) as (v2 & R2 & Hs2 & Hc2 & Ec2 & Er2 & Hshow). exists v2. split_and!; [done|done|apply Hc2..|congruence|congruence|].
  intros Hp Hfit. apply Forall_cons in Hp as [[H10 H8] Hp].
  destruct (Hput H10 H8 ltac:(lia)) as (Erow & Ecol & Hcell). 
  destruct (Hshow Hp ltac:(rewrite Ecol, Ec1; lia)) as (Erow2 & Ecol2 & Hcell2).
  unfold shows. cbn [length]. rewrite Erow2, Ecol2, Erow, Ecol. split_and!; [done|lia|]. intros r k Hr Hk.
  rewrite Hcell2, Hcell, Erow, Ecol by lia.
  repeat case_decide; try done; try (exfalso; lia).
  - replace (Z.to_nat (k - cur_col v)) with (S (Z.to_nat (k - (cur_col v + 1)))) by lia. done.
  - replace (k - cur_col v) with 0 by lia. done.
Qed.

(** The pixels of a text in the row [row] from column [col] on; no other byte of
    the frame buffer has changed. *)
Definition text_painted (v v' : vga) (row col : Z) (t : list Z) : Prop :=
  (forall i c, t !! i = Some c -> lit v' row (col + Z.of_nat i) c) /\
  forall a, (forall i, 0 <= i < Z.of_nat (length t) -> ~ in_cell v row (col + i) a) -> fb v' !! a = fb v !! a.

Lemma vga_print_paints t : forall v, screen v -> lines_apart v -> cursor_ok v -> Forall (fun c => 0 <= c < 128) t ->
  Forall (fun c => c <> 10 /\ c <> 8) t -> cur_col v + Z.of_nat (length t) < cols v ->
  exists v', vga_print t v = Ok tt v' /\ same_size v v' /\ text_painted v v' (cur_row v) (cur_col v) t.
Proof.
  induction t as [|c t IH]; intros v Hs Hp Hcur Ht Hq Hfit; cbn [vga_print length].
  { exists v. split; [done|]. split; [done|]. by split. }
  apply Forall_cons in Ht as [Hc0 Ht]. apply Forall_cons in Hq as [[H10 H8] Hq]. rewrite to_char_small by lia. cbn [length] in Hfit. destruct Hcur as [Hcr Hcc].
  destruct (putchar_paints v c Hs Hp (conj Hcr Hcc) Hc0 H10 H8) as (v1 & R1 & Hs1 & (Ec & Er & Ep) & E1 & E2 & [Hlit Hout]); [lia|].
  rewrite (bind_ok _ _ _ _ _ R1).
  destruct (IH v1) as (v2 & R2 & (Ec2 & Er2 & Ep2) & Hall & Hout2); try done; [unfold lines_apart in *; lia|split; lia|lia|].
  exists v2. split; [done|]. split; [split_and!; congruence|]. unfold text_painted in *. rewrite E1, E2 in *. split.
  - intros [|i] b Hb.
    + injection Hb as <-. rewrite Z.add_0_r. intros x y k Hx Hy Hk. rewrite Ep2. rewrite Hout2; [by apply Hlit|].
      intros i Hi Hin. revert Hin. apply other_cell; unfold lines_apart in *; lia.
    + cbn in Hb. replace (cur_col v + Z.of_nat (S i)) with (cur_col v + 1 + Z.of_nat i) by lia. by apply Hall.
  - intros a Ha. cbn [length] in Ha. rewrite Hout2, Hout; [done|rewrite <- (Z.add_0_r (cur_col v)); apply Ha; lia|].
    intros i Hi. replace (cur_col v + 1 + i) with (cur_col v + (i + 1)) by lia. unfold in_cell, px, py, pk. rewrite Ep. apply Ha. lia.
Qed.

(** A text keeps a console faithful, whatever it contains. *)
Lemma vga_print_faithful t : forall v, screen v -> lines_apart v -> cursor_ok v -> faithful v -> Forall (fun c => 0 <= c < 128) t ->
  exists v', vga_print t v = Ok tt v' /\ faithful v'.
Proof.
  induction t as [|c t IH]; intros v Hs Hp Hcur Hf Ht; cbn [vga_print]; [by exists v|].
  apply Forall_cons in Ht as [Hc0 Ht]. rewrite to_char_small by lia.
  destruct (putchar_run v c Hs Hcur Hc0) as (v1 & R1 & Hs1 & Hc1 & _). destruct (putchar_faithful v c Hs Hp Hcur Hf Hc0) as (v1' & R1' & Hg).
  rewrite R1 in R1'. injection R1' as <-. rewrite (bind_ok _ _ _ _ _ R1). apply IH; try done; [by eapply good_apart|apply Hg].
Qed.

(** C23. Printing to the console.  On a well-formed console with lines that do
    not overlap and the cursor on the screen, [vga_printf] of any ASCII text is
    safe: it returns the length that the formatter counts and leaves a
    well-formed console, whose pixels show its characters if they did before.  A
    text without new line and backspace that ends before the last column of the
    line appears in it, from the cursor on, among the characters and as glyphs
    in the pixels, and no other cell and no other byte of the frame buffer
    changes. *)
Theorem vga_printf_shows v format args o :
  screen v -> lines_apart v -> cursor_ok v -> printf format args nothing = Some o -> Forall (fun c => 0 <= c < 128) (text o) ->
  exists v', vga_printf format args v = Ok (length_ o) v' /\ screen v' /\ cursor_ok v' /\ (faithful v -> faithful v') /\
    (Forall (fun c => c <> 10 /\ c <> 8) (text o) -> cur_col v + Z.of_nat (length (text o)) < cols v ->
     shows v v' (cur_row v) (cur_col v) (text o) /\ text_painted v v' (cur_row v) (cur_col v) (text o)).
Proof.
  intros Hs Hp Hc Ho Ht. unfold vga_printf, vga_is_initialized.
  destruct (sc_cells v Hs (cur_row v) (cur_col v) (proj1 Hc) (proj2 Hc)) as (b & Hb & _).
  rewrite (bind_ok _ _ true v v).
  2: { rewrite bind_gets. rewrite bool_decide_eq_false_2; [done|]. intros Hn. unfold cell in Hb. by rewrite Hn in Hb. }
  cbn [negb]. rewrite Ho. cbn [lift_opt]. rewrite bind_ret.
  destruct (vga_print_run (text o) v Hs Hc Ht) as (v' & Hr & Hs' & Hc' & _ & _ & Hshow). exists v'.
  rewrite (bind_ok _ _ _ _ _ Hr). split_and!; try done; [apply Hc'..| |].
  - intros Hf. destruct (vga_print_faithful (text o) v Hs Hp Hc Hf Ht) as (v2 & Hr2 & Hf2). rewrite Hr in Hr2. by injection Hr2 as <-.
  - intros Hq Hfit. split; [by apply Hshow|].
    destruct (vga_print_paints (text o) v Hs Hp Hc Ht Hq Hfit) as (v2 & Hr2 & _ & Hpt). rewrite Hr in Hr2. by injection Hr2 as <-.
Qed.

(** ** A model: pages and physical memory as finite maps *)

(** The frames of pages, and the memory. *)
Notation video := (gmap Z Z * gmap Z Z)%type.
Fixpoint fill (a : Z) (n : nat) (b : Z) (m : gmap Z Z) : gmap Z Z :=
  match n with O => m | S n' => <[a:=b]> (fill (a + 1) n' b m) end.

Lemma fill_lookup a n b m x : fill a n b m !! x = if decide (a <= x < a + Z.of_nat n) then Some b else m !! x.
Proof.
  revert a. induction n as [|n IH]; intros a; cbn [fill]; [by rewrite decide_False by lia|].
  rewrite lookup_insert, IH. repeat case_decide; done || (exfalso; lia).
Qed.

(** Buffers are taken at the virtual and physical addresses from 4 GiB on; other
    memory reads as 0xAA. *)
Definition heap_frames (f : gmap Z Z) (x : Z) : option Z :=
  if decide (0x100000000 <= x < 0x300000000) then Some x else f !! x.
#[export] Instance video_iface : VideoIface video := {|
  vcalloc n := fun e => Ok 0x100000000 (e.1, fill 0x100000000 (Z.to_nat n) 0 e.2);
  page_map v p _ := fun e => if decide (0x100000000 <= v < 0x300000000) then Panic "the heap is in use" else Ok tt (<[v:=p]> e.1, e.2);
  vframe e := heap_frames e.1;
  pbyte e a := default 0xAA (e.2 !! a);
|}.

Lemma heap_byte (e : video) a : 0x100000000 <= a < 0x300000000 -> vbyte e a = Some (pbyte e a).
Proof.
  intros Ha. unfold vbyte. cbn. unfold heap_frames. rewrite decide_True by dlia. cbn. do 3 f_equal. lia.
Qed.

#[export] Program Instance video_laws : VideoLaws video :=
  {| no_video_memory msg := msg = "the heap is in use"; owned _ a := 0x100000000 <= a < 0x300000000; is_video a := 0xE0000000 <= a < 0xF0000000 |}.
Next Obligation.
  intros n e Hn. right. eexists _, _. split; [done|]. split_and!; [done|left; unfold VGA_VIRT; lia| |].
  - intros i Hi. split; [|lia]. rewrite heap_byte by lia. cbn. by rewrite fill_lookup, decide_True by lia.
  - intros a Ha. cbn. by rewrite fill_lookup, decide_False by lia.
Qed.
Next Obligation.
  intros v p k e Hv _ _ _. cbn. destruct (decide (0x100000000 <= v < 0x300000000)) as [Hh|Hh].
  - left. by eexists.
  - right. eexists. split; [done|]. split_and!; [|done|].
    + intros x Hx. cbn. unfold heap_frames. rewrite lookup_insert. repeat case_decide; done || (exfalso; lia).
    + intros a Ho Ha. split; [done|]. change (vbyte (E:=video) (<[v:=p]> e.1, e.2) a = vbyte e a). by rewrite !heap_byte.
Qed.
(** A console of 3 columns and 2 rows, as in file VgaProps. *)
Lemma vga_init_ready_witness :
  (exists msg, vga_init 0xE0000000 24 32 96 ((∅, ∅) : video, demo_vga) = Panic msg /\ no_video_memory msg) \/
  exists (e' : video) v', vga_init 0xE0000000 24 32 96 ((∅, ∅) : video, demo_vga) = Ok tt (e', v') /\
    (forall i, 0 <= i -> 4096 * i < 96 * 32 -> vframe e' (VGA_VIRT + 4096 * i) = Some (0xE0000000 + 4096 * i)) /\
    (forall i, 0 <= i < 96 * 32 -> fb v' !! i = Some (pbyte ((∅, ∅) : video) (0xE0000000 + i))) /\
    pixel_width v' = 24 /\ pixel_height v' = 32 /\ vga_pitch v' = 96 /\ lines_apart v' /\
    screen v' /\ cursor_ok v' /\ forall r c, 0 <= r < rows v' -> 0 <= c < cols v' -> cell v' r c = Some 0.
Proof. apply (vga_init_ready 0xE0000000 24 32 96 ((∅, ∅) : video) demo_vga); try lia; try reflexivity. intros i Hi. cbn. lia. Defined.

Lemma vga_printf_shows_witness :
  exists v', vga_printf (chars "%u") [ANum 7] demo_vga = Ok 1 v' /\ screen v' /\ cursor_ok v' /\ (faithful demo_vga -> faithful v') /\
    (Forall (fun c => c <> 10 /\ c <> 8) [55] -> 1 + 1 < 3 -> shows demo_vga v' 1 1 [55] /\ text_painted demo_vga v' 1 1 [55]).
Proof.
  apply (vga_printf_shows demo_vga (chars "%u") [ANum 7] (Out [55] 1)); [apply demo_screen|vm_compute; congruence|split; vm_compute; split; congruence|reflexivity|].
  repeat constructor; lia.
Defined.

End VgaInit.
