(* ===== verification/Panic.v ===== *)
(** * util/panic.c, and [page_fault_handler] of mem/page.c: fatal errors

    What a user sees when the kernel stops.  In the models of the other
    components a panic is the outcome [Panic]; here is the function itself,
    over the console and the serial log. *)

From S2P Require Import Prelude Output Vga VgaProps VgaInit.
Import Output Vga VgaProps VgaInit.

Module Panic.

(** The console, the serial log, and whether the processor has been halted
    with interrupts off. *)
Record system := Sys { con : vga; log : list Z; stopped : bool }.

Abbreviation P := (M system).

Definition log_error (format : list Z) (args : list arg) : P unit := fun s =>
  match serial_error format args with
  | Some (text, _) => Ok tt (Sys (con s) (log s ++ text) (stopped s))
  | None => Fault
  end.
Definition screen_printf (format : list Z) (args : list arg) : P unit := fun s =>
  match vga_printf format args (con s) with
  | Ok _ v => Ok tt (Sys v (log s) (stopped s))
  | Panic msg => Panic msg
  | Fault => Fault
  | OutOfFuel => OutOfFuel
  end.

(** the newline character *)
Definition nl : list Z := [10].

(** [cli; hlt; jmp $] *)
Definition halt : P unit := modify (fun s => Sys (con s) (log s) true).

(** util/panic.c *)
Definition panic (msg : list Z) : P unit :=
  log_error (chars "panic: %s") [AStr msg];;
  screen_printf (nl ++ chars "panic: %s" ++ nl) [AStr msg];;
  halt.

(** mem/page.c; [address] is the content of cr2 *)
Definition page_fault_handler (address : Z) : P unit :=
  log_error (chars "address: 0x%x") [ANum address];;
  screen_printf (chars "address: 0x%x" ++ nl) [ANum address].

(** ** What is printed *)

(** A line of printable characters. *)
Definition printable (t : list Z) : Prop := Forall (fun c => 0 <= c < 128 /\ c <> 10 /\ c <> 8) t.

Lemma print_str_text msg : forall o, Forall (fun c => 0 <= c < W8) msg -> text (print_str msg o) = text o ++ msg.
Proof.
  induction msg as [|c msg IH]; intros o Hm; cbn; [by rewrite app_nil_r|]. apply Forall_cons in Hm as [Hc Hm].
  unfold print_str in IH. rewrite (IH _ Hm). cbn [put text]. rewrite <- app_assoc. by rewrite (u8_small c) by lia.
Qed.
Lemma printable_bytes t : printable t -> Forall (fun c => 0 <= c < W8) t.
Proof. intros Ht. eapply Forall_impl; [exact Ht|]. cbn. intros c [Hc _]. lia. Qed.

(** Text without a percent sign is copied. *)
Lemma printf_plain t rest args : forall o, Forall (fun c => c <> 37) t -> printf (t ++ rest) args o = printf rest args (print_str t o).
Proof.
  induction t as [|c t IH]; intros o Ht; [done|]. apply Forall_cons in Ht as [Hc Ht]. cbn [app].
  change (print_str (c :: t) o) with (print_str t (put c o)). rewrite <- (IH (put c o) Ht). cbn [printf]. repeat (case_match; try done).
Qed.

(** A format with one string: text before and behind it. *)
Lemma printf_string before behind msg : Forall (fun c => 0 <= c < W8 /\ c <> 37) before -> Forall (fun c => 0 <= c < W8 /\ c <> 37) behind ->
  printable msg -> exists o, printf (before ++ chars "%s" ++ behind) [AStr msg] nothing = Some o /\ text o = before ++ msg ++ behind.
Proof.
  intros Hb Hh Hm. apply Forall_and in Hb as [Hb1 Hb2], Hh as [Hh1 Hh2].
  exists (print_str behind (print_str msg (print_str before nothing))). split.
  - rewrite printf_plain by done.    change (chars "%s") with [37; 115]. cbn [app printf]. rewrite <- (app_nil_r behind) at 1. by rewrite printf_plain.
  - rewrite !print_str_text by (done || by apply printable_bytes). cbn [text nothing]. by rewrite <- app_assoc.
Qed.

(** The row above the cursor shows [t] from the left. *)
Definition line_above (v : vga) (t : list Z) : Prop :=
  cur_col v = 0 /\ 1 <= cur_row v /\ forall k c, t !! k = Some c -> cell v (cur_row v - 1) (Z.of_nat k) = Some c.

Lemma vga_print_app t1 t2 v : vga_print (t1 ++ t2) v = (vga_print t1;; vga_print t2) v.
Proof.
  revert v. induction t1 as [|c t1 IH]; intros v; cbn [vga_print app]; [done|].
  unfold mbind, M_bind. destruct (vga_putchar (to_char c) v); [apply IH|done..].
Qed.

Lemma putchar_nl v : screen v -> cursor_ok v -> vga_print nl v = vga_newline v.
Proof.
  intros Hs Hc. cbn [vga_print nl]. change (to_char 10) with 10.
  destruct (sc_cells v Hs (cur_row v) (cur_col v) (proj1 Hc) (proj2 Hc)) as (b & Hb & _).
  assert (E : vga_putchar 10 v = vga_newline v).
  { unfold vga_putchar. rewrite bind_gets, bool_decide_eq_false_2; [done|]. intros Hn. unfold cell in Hb. by rewrite Hn in Hb. }
  unfold mbind, M_bind. rewrite E. by destruct (vga_newline v) as [[]| | |].
Qed.

(** Printing a line and a newline: the line stands above the cursor. *)
Lemma print_line_run t v : screen v -> cursor_ok v -> 2 <= rows v -> printable t -> cur_col v = 0 -> Z.of_nat (length t) < cols v ->
  exists v', vga_print (t ++ nl) v = Ok tt v' /\ screen v' /\ cursor_ok v' /\ line_above v' t.
Proof.
  intros Hs Hc Hrows Ht H0 Hlen.
  destruct (vga_print_run t v Hs Hc) as (v1 & R1 & Hs1 & Hc1 & Ec1 & Er1 & Hsh).
  { eapply Forall_impl; [exact Ht|]. by intros c (? & _). }
  destruct Hsh as (Erow & _ & Hcell); [eapply Forall_impl; [exact Ht|]; by intros c (_ & ?)|lia|].
  destruct (newline_run v1 Hs1 Hc1) as (v2 & R2 & Hs2 & Ec2 & Er2 & C0 & R0 & Hcell2).
  exists v2. rewrite vga_print_app, (bind_ok _ _ _ _ _ R1), putchar_nl by done. destruct Hc as [Hcr Hcc].
  split; [exact R2|]. split; [done|]. split; [split; lia|]. split; [done|]. split; [lia|].
  intros k c Hk. pose proof (lookup_lt_Some _ _ _ Hk). rewrite R0, Er1, Erow in *. 
  assert (E : cell v1 (cur_row v) (Z.of_nat k) = Some c).
  { rewrite Hcell by lia. rewrite decide_True by lia. rewrite H0. by replace (Z.to_nat (Z.of_nat k - 0)) with k by lia. }
  rewrite Hcell2 by lia. case_decide.
  - by replace (Z.min (cur_row v + 1) (rows v - 1) - 1) with (cur_row v) by lia.
  - rewrite decide_False by lia. by replace (Z.min (cur_row v + 1) (rows v - 1) - 1 + 1) with (cur_row v) by lia.
Qed.

(** The console is in order and wide enough for a line. *)
Record console_ok (v : vga) (t : list Z) : Prop := {
  co_screen : screen v;
  co_cursor : cursor_ok v;
  co_rows : 2 <= rows v;
  co_text : printable t;
  co_fits : Z.of_nat (length t) < cols v;
}.

Lemma initialized v : screen v -> cursor_ok v -> vga_is_initialized v = Ok true v.
Proof.
  intros Hs Hc. unfold vga_is_initialized. destruct (sc_cells v Hs (cur_row v) (cur_col v) (proj1 Hc) (proj2 Hc)) as (b & Hb & _).
  rewrite bind_gets, bool_decide_eq_false_2; [done|]. intros Hn. unfold cell in Hb. by rewrite Hn in Hb.
Qed.

Lemma printf_run v format args o v' : screen v -> cursor_ok v -> printf format args nothing = Some o ->
  vga_print (text o) v = Ok tt v' -> vga_printf format args v = Ok (length_ o) v'.
Proof.
  intros Hs Hc Ho Hr. unfold vga_printf. rewrite (bind_ok _ _ _ _ _ (initialized v Hs Hc)). cbn [negb]. rewrite Ho. cbn [lift_opt].
  by rewrite bind_ret, (bind_ok _ _ _ _ _ Hr).
Qed.

(** Characters of a literal, checked one by one. *)
Ltac plain := repeat (apply Forall_cons; split; [vm_compute; (split; [split; congruence|congruence])|]); apply Forall_nil; exact I.

(** A panic is seen: the message is in the log and stands on the screen, in a
    line of its own above the cursor, and the processor is halted. *)
Theorem panic_reported msg s :
  console_ok (con s) (chars "panic: " ++ msg) ->
  exists s', panic msg s = Ok tt s' /\ stopped s' = true /\
    log s' = log s ++ chars "ERROR: panic: " ++ msg ++ nl /\
    screen (con s') /\ line_above (con s') (chars "panic: " ++ msg).
Proof.
  intros [Hs Hc Hr Ht Hf]. set (v := con s) in *. pose proof (proj2 (proj1 (Forall_app _ _ _) Ht)) as Hm.
  destruct (newline_run v Hs Hc) as (v1 & R1 & Hs1 & Ec1 & Er1 & C1 & Row1 & _).
  assert (Hc1 : cursor_ok v1) by (destruct Hc; split; lia).
  destruct (print_line_run (chars "panic: " ++ msg) v1) as (v2 & R2 & Hs2 & _ & Hl2); [done|done|lia|done|done|lia|].
  exists (Sys v2 (log s ++ chars "ERROR: panic: " ++ msg ++ nl) true). split; [|done].
  unfold panic. rewrite (bind_ok _ _ tt _ (Sys v (log s ++ chars "ERROR: panic: " ++ msg ++ nl) (stopped s))).
  - rewrite (bind_ok _ _ tt _ (Sys v2 (log s ++ chars "ERROR: panic: " ++ msg ++ nl) (stopped s))); [done|].
    unfold screen_printf. cbn [con log stopped].
    destruct (printf_string (nl ++ chars "panic: ") nl msg) as (o & Ho & Eo); [plain..|done|].
    rewrite (printf_run v _ _ o v2); [done|done|done|exact Ho|]. rewrite Eo, <- !app_assoc, vga_print_app.
    rewrite (bind_ok _ _ tt v v1) by (by rewrite putchar_nl). by rewrite app_assoc.
  - destruct (printf_string (chars "panic: ") [] msg) as (o & Ho & Eo); [plain..|done|].
    unfold log_error, serial_error, serial_line. change (chars "panic: %s") with (chars "panic: " ++ chars "%s" ++ []).
    rewrite Ho, Eo, app_nil_r. cbn [con log stopped]. by rewrite <- app_assoc.
Qed.

(** A number in hexadecimal. *)
Definition hex_text (n : Z) : list Z := text (print_hex n nothing).

Lemma hex_text_value n : 0 <= n < W64 ->
  value 16 hex_digit (hex_text n) = n /\ (length (hex_text n) <= 16)%nat /\ printable (hex_text n).
Proof.
  intros Hn. destruct (printf_x_hexadecimal n Hn) as (l & Hp & Hl & Hv & _ & Hlen). cbn [printf] in Hp.
  injection Hp as Hp. unfold hex_text. rewrite Hp. cbn [text]. split_and!; [done|done|].
  eapply Forall_impl; [exact Hl|]. cbn. intros c Hc. lia.
Qed.

Lemma hex_loop_text ps : forall num b o, text (hex_loop ps num b o) = text o ++ text (hex_loop ps num b nothing).
Proof.
  induction ps as [|p ps IH]; intros num b o; cbn [hex_loop]; [by rewrite app_nil_r|]. cbn zeta.
  destruct (num / p =? 0); [destruct b|]; try apply IH;
  rewrite IH, (IH _ _ (put _ nothing)); cbn [put text nothing app]; by rewrite <- app_assoc.
Qed.

Lemma print_hex_text n o : text (print_hex n o) = text o ++ hex_text n.
Proof. unfold hex_text, print_hex. destruct (n =? 0); [done|apply hex_loop_text]. Qed.

(** A format with one number: text before and behind it. *)
Lemma printf_number before behind n : Forall (fun c => 0 <= c < W8 /\ c <> 37) before -> Forall (fun c => 0 <= c < W8 /\ c <> 37) behind ->
  exists o, printf (before ++ chars "%x" ++ behind) [ANum n] nothing = Some o /\ text o = before ++ hex_text n ++ behind.
Proof.
  intros Hb Hh. apply Forall_and in Hb as [Hb1 Hb2], Hh as [Hh1 Hh2].
  exists (print_str behind (print_hex n (print_str before nothing))). split.
  - rewrite printf_plain by done. change (chars "%x") with [37; 120]. cbn [app printf].
    rewrite <- (app_nil_r behind) at 1. by rewrite printf_plain.
  - rewrite print_str_text, print_hex_text, print_str_text by done. cbn [text nothing]. by rewrite <- app_assoc.
Qed.

(** [page_fault_handler] shows the address of the fault, in the log and, when
    the cursor is at the start of a line, in a line of the screen. *)
Theorem page_fault_reported address s :
  0 <= address < W64 -> console_ok (con s) (chars "address: 0x" ++ hex_text address) -> cur_col (con s) = 0 ->
  exists s', page_fault_handler address s = Ok tt s' /\ stopped s' = stopped s /\
    log s' = log s ++ chars "ERROR: address: 0x" ++ hex_text address ++ nl /\
    screen (con s') /\ cursor_ok (con s') /\ line_above (con s') (chars "address: 0x" ++ hex_text address) /\
    value 16 hex_digit (hex_text address) = address.
Proof.
  intros Ha [Hs Hc Hr Ht Hf] H0. set (v := con s) in *.
  destruct (print_line_run (chars "address: 0x" ++ hex_text address) v) as (v2 & R2 & Hs2 & Hc2 & Hl2); [done..|].
  exists (Sys v2 (log s ++ chars "ERROR: address: 0x" ++ hex_text address ++ nl) (stopped s)).
  split; [|cbn [con log stopped]; pose proof (proj1 (hex_text_value address Ha)); tauto].
  unfold page_fault_handler. rewrite (bind_ok _ _ tt _ (Sys v (log s ++ chars "ERROR: address: 0x" ++ hex_text address ++ nl) (stopped s))).
  - unfold screen_printf. cbn [con log stopped].
    destruct (printf_number (chars "address: 0x") nl address) as (o & Ho & Eo); [plain..|].
    rewrite (printf_run v _ _ o v2); [done|done|done|exact Ho|]. by rewrite Eo, app_assoc.
  - destruct (printf_number (chars "address: 0x") [] address) as (o & Ho & Eo); [plain..|].
    unfold log_error, serial_error, serial_line. change (chars "address: 0x%x") with (chars "address: 0x" ++ chars "%x" ++ []).
    rewrite Ho, Eo, app_nil_r. cbn [con log stopped]. by rewrite <- app_assoc.
Qed.

(** A console of 2 rows and 16 columns, and a panic on it. *)
Definition wide_vga : vga :=
  Vga 128 32 512 0 0 (list_to_map ((fun i => (i, 0)) <$> seqZ 0 16384)) (Some (list_to_map ((fun i => (i, 65)) <$> seqZ 0 32))) false.

Lemma wide_screen : screen wide_vga.
Proof.
  assert (Hfb : forall i, 0 <= i < 16384 -> is_Some (fb wide_vga !! i)).
  { intros i Hi. assert (H : forallb (fun i => bool_decide (is_Some (fb wide_vga !! i))) (seqZ 0 16384) = true) by (by vm_compute).
    rewrite forallb_forall in H. apply (proj1 (bool_decide_eq_true _)), H, list_elem_of_In, elem_of_seqZ. lia. }
  split; unfold rows, cols; cbn [pixel_width pixel_height vga_pitch wide_vga];
    change (128 / 8) with 16 in *; change (32 / 16) with 2 in *; try lia.
  - intros x y k Hx Hy Hk. split; [apply Hfb; lia|lia].
  - intros r c Hr Hc. assert (H : forallb (fun r => forallb (fun c => match cell wide_vga r c with
      Some b => (0 <=? b) && (b <? 128) | None => false end) (seqZ 0 16)) (seqZ 0 2) = true) by (by vm_compute).
    rewrite forallb_forall in H. specialize (H r ltac:(apply list_elem_of_In, elem_of_seqZ; lia)).
    rewrite forallb_forall in H. specialize (H c ltac:(apply list_elem_of_In, elem_of_seqZ; lia)).
    destruct (cell wide_vga r c) as [b|]; [|done]. exists b. split; [done|lia].
Qed.

Lemma panic_reported_witness :
  exists s', panic (chars "bad") (Sys wide_vga [] false) = Ok tt s' /\ stopped s' = true /\
    log s' = chars "ERROR: panic: bad" ++ nl /\ line_above (con s') (chars "panic: bad").
Proof.
  destruct (panic_reported (chars "bad") (Sys wide_vga [] false)) as (s' & Hr & Hst & Hl & _ & Ha).
  - split; [apply wide_screen|split; vm_compute; split; congruence|vm_compute; congruence| |reflexivity].
    unfold printable. apply (Forall_forall _ _). intros c Hc. vm_compute in Hc. repeat (apply elem_of_cons in Hc as [->|Hc]; [lia|]). by apply not_elem_of_nil in Hc.
  - exists s'. split; [exact Hr|]. split; [exact Hst|]. split; [exact Hl|exact Ha].
Defined.

End Panic.
