(* ===== verification/KHeap.v ===== *)
(** * What the kernel heap promises to its clients

    The drivers are written against an interface: allocation, release, and
    access of single bytes ([HeapIface]).  [HeapLaws] says what a client may
    rely on, in terms of a predicate [owns s p l]: the buffer at [p] is
    allocated, not yet freed, and holds the bytes [l].  Regions of memory that
    belong to someone else, such as the buffer of a user program, can be
    described by [owns] as well. *)

From S2P Require Import Prelude KMath VMalloc.
Import KMath.

Module KHeap.

(** ** The interface *)

Class HeapIface (HS : Type) := {
  hp_calloc : Z -> M HS Z;
  hp_free : Z -> M HS unit;
  hp_rd : Z -> M HS Z;
  hp_wr : Z -> Z -> M HS unit;
}.

(** The kernel heap of mem/vmalloc.c has this interface. *)
#[global] Instance vmalloc_iface {VS} `{!VMalloc.VmmIface VS} : HeapIface (VMalloc.heap VS) := {
  hp_calloc := VMalloc.vcalloc;
  hp_free := VMalloc.vfree;
  hp_rd := VMalloc.rd8;
  hp_wr := VMalloc.wr8;
}.

Class HeapLaws (HS : Type) `{!HeapIface HS} := {
  owns : HS -> Z -> list Z -> Prop;
  calloc_law : forall n s, 0 < n < 2 ^ 40 ->
    match hp_calloc n s with
    | Ok p s' => 0 < p /\ p + n < W64 /\ owns s' p (replicate (Z.to_nat n) 0) /\
        forall q l, owns s q l -> q <> p /\ owns s' q l
    | Panic _ => True
    | _ => False
    end;
  free_law : forall p l s, owns s p l ->
    exists s', hp_free p s = Ok tt s' /\ forall q l', q <> p -> owns s q l' -> owns s' q l';
  rd_law : forall p l s i v, owns s p l -> l !! i = Some v -> hp_rd (p + Z.of_nat i) s = Ok v s;
  wr_law : forall p l s i v, owns s p l -> (i < length l)%nat ->
    exists s', hp_wr (p + Z.of_nat i) v s = Ok tt s' /\ owns s' p (<[i:=u8 v]> l) /\
      forall q l', q <> p -> owns s q l' -> owns s' q l';
}.

(** A panic that comes from the heap: there was no memory left. *)
Definition oom {HS} `{!HeapIface HS} (msg : string) : Prop := exists n (h : HS), 0 < n < 2 ^ 40 /\ hp_calloc n h = Panic msg.

(** ** Multi-byte access

    Little-endian loads and stores of structure fields. *)

Fixpoint le (l : list Z) : Z := match l with [] => 0 | b :: l' => b + 256 * le l' end.
Fixpoint unle (n : nat) (v : Z) : list Z := match n with O => [] | S n' => v mod 256 :: unle n' (v / 256) end.

(** The field of [n] bytes at offset [off]. *)
Definition field (l : list Z) (off n : nat) : Z := le (take n (drop off l)).

Section access.
Context {HS : Type} `{!HeapIface HS}.

Fixpoint ld (n : nat) (a : Z) : M HS Z :=
  match n with O => mret 0 | S n' => b ← hp_rd a; r ← ld n' (a + 1); mret (b + 256 * r) end.
Fixpoint st (n : nat) (a v : Z) : M HS unit :=
  match n with O => mret tt | S n' => hp_wr a (v mod 256);; st n' (a + 1) (v / 256) end.

(** Copy bytes out of memory, and into it. *)
Fixpoint ld_bytes (n : nat) (a : Z) : M HS (list Z) :=
  match n with O => mret [] | S n' => b ← hp_rd a; r ← ld_bytes n' (a + 1); mret (b :: r) end.
Fixpoint st_bytes (a : Z) (l : list Z) : M HS unit :=
  match l with [] => mret tt | b :: l' => hp_wr a b;; st_bytes (a + 1) l' end.

Context `{!HeapLaws HS}.

Lemma ld_bytes_run n : forall s p l off,
  owns s p l -> (off + n <= length l)%nat -> ld_bytes n (p + Z.of_nat off) s = Ok (take n (drop off l)) s.
Proof.
  induction n as [|n IH]; intros s p l off Ho Hl; [done|]. cbn [ld_bytes].
  destruct (lookup_lt_is_Some_2 l off) as [v Hv]; [lia|].
  rewrite (bind_ok _ _ _ _ _ (rd_law p l s off v Ho Hv)).
  replace (p + Z.of_nat off + 1) with (p + Z.of_nat (S off)) by lia.
  erewrite bind_ok; [|apply IH; [done|lia]]. by rewrite (drop_S _ v _ Hv).
Qed.

Lemma ld_run n : forall s p l off,
  owns s p l -> (off + n <= length l)%nat -> ld n (p + Z.of_nat off) s = Ok (field l off n) s.
Proof.
  unfold field. induction n as [|n IH]; intros s p l off Ho Hl; [done|]. cbn [ld].
  destruct (lookup_lt_is_Some_2 l off) as [v Hv]; [lia|].
  rewrite (bind_ok _ _ _ _ _ (rd_law p l s off v Ho Hv)).
  replace (p + Z.of_nat off + 1) with (p + Z.of_nat (S off)) by lia.
  erewrite bind_ok; [|apply IH; [done|lia]]. by rewrite (drop_S _ v _ Hv).
Qed.

(** Overwrite part of a list. *)
Definition patch (off : nat) (b l : list Z) : list Z := take off l ++ b ++ drop (off + length b) l.

Lemma length_patch off b l : (off + length b <= length l)%nat -> length (patch off b l) = length l.
Proof. intros H. unfold patch. rewrite !length_app, length_take, length_drop. lia. Qed.

Lemma patch_insert off b bs l : (off + S (length bs) <= length l)%nat ->
  patch (S off) bs (<[off:=b]> l) = patch off (b :: bs) l.
Proof.
  intros H. unfold patch. cbn [length]. rewrite drop_insert_lt by lia.
  replace (off + S (length bs))%nat with (S off + length bs)%nat by lia.
  rewrite (take_S_r _ _ b) by (apply list_lookup_insert_eq; lia). rewrite take_insert_ge by lia. by rewrite <- app_assoc.
Qed.

Lemma st_bytes_run b : forall s p l off,
  owns s p l -> (off + length b <= length l)%nat -> Forall (fun c => 0 <= c < 256) b ->
  exists s', st_bytes (p + Z.of_nat off) b s = Ok tt s' /\ owns s' p (patch off b l) /\
    forall q lq, q <> p -> owns s q lq -> owns s' q lq.
Proof.
  induction b as [|c b IH]; intros s p l off Ho Hl Hb.
  - exists s. split; [done|]. split; [|done]. unfold patch. cbn. rewrite Nat.add_0_r, take_drop. done.
  - apply Forall_cons in Hb as [Hc Hb]. cbn [st_bytes]. cbn in Hl.
    destruct (wr_law p l s off c Ho) as (s1 & Hw & Ho1 & Hoth1); [lia|].
    rewrite (bind_ok _ _ _ _ _ Hw). replace (p + Z.of_nat off + 1) with (p + Z.of_nat (S off)) by lia.
    rewrite u8_small in Ho1 by done.
    destruct (IH s1 p _ (S off) Ho1) as (s2 & Hr & Ho2 & Hoth2); [rewrite length_insert; lia|done|].
    exists s2. split; [done|]. rewrite patch_insert in Ho2 by lia. split; [done|]. intros q lq Hq Hql. apply Hoth2; [done|]. by apply Hoth1.
Qed.

Lemma st_bytes_unle n : forall a v (s : HS), st n a v s = st_bytes a (unle n v) s.
Proof. induction n as [|n IH]; intros a v s; cbn; [done|]. unfold mbind, M_bind. destruct (hp_wr a (v mod 256) s); [apply IH|done..]. Qed.

End access.

Lemma length_unle n v : length (unle n v) = n.
Proof. revert v. induction n as [|n IH]; intros v; cbn; [done|]. by rewrite IH. Qed.

Lemma unle_bytes n v : Forall (fun c => 0 <= c < 256) (unle n v).
Proof. revert v. induction n as [|n IH]; intros v; cbn; constructor; [apply Z.mod_pos_bound; lia|apply IH]. Qed.

Lemma le_unle n v : 0 <= v < 256 ^ Z.of_nat n -> le (unle n v) = v.
Proof.
  revert v. induction n as [|n IH]; intros v Hv; cbn [unle le]; [cbn in Hv; lia|].
  rewrite Nat2Z.inj_succ, Z.pow_succ_r in Hv by lia. rewrite IH.
  - pose proof (Z.div_mod v 256). lia.
  - split; [apply Z.div_pos; lia|apply Z.div_lt_upper_bound; lia].
Qed.

Lemma le_range l : Forall (fun c => 0 <= c < 256) l -> 0 <= le l < 256 ^ Z.of_nat (length l).
Proof.
  induction 1 as [|c l Hc _ IH]; cbn [le length]; [cbn; lia|]. rewrite Nat2Z.inj_succ, Z.pow_succ_r by lia. lia.
Qed.

(** ** A heap for the witnesses

    Blocks have a terabyte of address space each, so that they never meet. *)
Definition slot : Z := 2 ^ 41.
Abbreviation slots := (Z * gmap Z (list Z))%type.

#[global] Instance slot_iface : HeapIface slots := {
  hp_calloc n := fun '(next, m) =>
    if (0 <? next) && (next <? 2 ^ 22) && (0 <=? n) && (n <? 2 ^ 40) && bool_decide (m !! next = None)
    then Ok (next * slot) (next + 1, <[next:=replicate (Z.to_nat n) 0]> m) else Panic "vmm: out of memory!";
  hp_free p := fun '(next, m) =>
    match m !! (p / slot) with Some _ => Ok tt (next, delete (p / slot) m) | None => Panic "vfree: something is very wrong" end;
  hp_rd a := fun '(next, m) =>
    match m !! (a / slot) ≫= lookup (Z.to_nat (a mod slot)) with Some v => Ok v (next, m) | None => Fault end;
  hp_wr a v := fun '(next, m) =>
    match m !! (a / slot) with
    | Some l => if a mod slot <? Z.of_nat (length l) then Ok tt (next, <[a / slot:=<[Z.to_nat (a mod slot):=u8 v]> l]> m) else Fault
    | None => Fault
    end;
}.

Definition slot_owns (s : slots) (p : Z) (l : list Z) : Prop :=
  exists k, p = k * slot /\ s.2 !! k = Some l /\ Z.of_nat (length l) < slot.

Lemma slot_split k i : 0 <= i < slot -> (k * slot + i) / slot = k /\ (k * slot + i) mod slot = i.
Proof.
  intros Hi. unfold slot in *. split.
  - rewrite Z.add_comm, Z.div_add by lia. rewrite Z.div_small by lia. lia.
  - rewrite Z.add_comm, Z.mod_add by lia. apply Z.mod_small. lia.
Qed.

#[global] Instance slot_laws : HeapLaws slots.
Proof.
  refine {| owns := slot_owns |}.
  - intros n [next m] Hn. cbn. destruct (_ && _) eqn:Hc; [|done].
    repeat (apply andb_true_iff in Hc as [Hc ?]). apply bool_decide_eq_true in H. unfold slot.
    split_and!; [lia|lia| |].
    + exists next. cbn. rewrite lookup_insert_eq, length_replicate. split_and!; [done|done|unfold slot; lia].
    + intros q l (k & -> & Hk & Hl). cbn in *. assert (k <> next) by (intros ->; congruence).
      split; [unfold slot; lia|]. exists k. cbn. by rewrite lookup_insert_ne.
  - intros p l [next m] (k & -> & Hk & Hl). cbn in *. pose proof (slot_split k 0 ltac:(unfold slot; lia)) as [E _].
    rewrite Z.add_0_r in E. rewrite E, Hk. eexists. split; [done|]. intros q l' Hq (k' & -> & Hk' & Hl').
    exists k'. cbn in *. rewrite lookup_delete_ne by (intros <-; done). done.
  - intros p l [next m] i v (k & -> & Hk & Hl) Hi. cbn in *. pose proof (lookup_lt_Some _ _ _ Hi).
    destruct (slot_split k (Z.of_nat i) ltac:(lia)) as [-> ->]. rewrite Hk, Nat2Z.id. cbn. by rewrite Hi.
  - intros p l [next m] i v (k & -> & Hk & Hl) Hi. cbn in *.
    destruct (slot_split k (Z.of_nat i) ltac:(lia)) as [-> ->]. rewrite Hk, Nat2Z.id.
    destruct (Z.ltb_spec (Z.of_nat i) (Z.of_nat (length l))); [|lia]. eexists. split; [done|]. split.
    + exists k. cbn. rewrite lookup_insert_eq, length_insert. done.
    + intros q l' Hq (k' & -> & Hk' & Hl'). exists k'. cbn in *. rewrite lookup_insert_ne by (intros <-; done). done.
Defined.

End KHeap.
