(* ===== verification/Keyboard.v ===== *)
(** * int/keyboard.c: the keyboard driver

    The driver is written against the interface of the kernel heap in file
    KHeap.  Characters sent to the screen are collected in [screen]. *)

From S2P Require Import Prelude KMath KHeap.
Import KMath KHeap.

Module Keyboard.

(** ** util/const.c *)

(** Scan code set 1 *)
Definition KEYCODES : list string :=
  [""; "<ESC>"; "1"; "2"; "3"; "4"; "5"; "6"; "7"; "8";
   "9"; "0"; "-"; "="; "<Backspace>"; "<Tab>"; "q"; "w"; "e"; "r";
   "t"; "y"; "u"; "i"; "o"; "p"; "["; "]"; "<Enter>"; "<LCtrl>";
   "a"; "s"; "d"; "f"; "g"; "h"; "j"; "k"; "l"; ";";
   "'"; "`"; "<LShift>"; "\"; "z"; "x"; "c"; "v"; "b"; "n";
   "m"; ","; "."; "/"; "<RShift>"; "<Keypad *>"; "<LAlt>"; " "; "<CapsLock>"; "<F1>";
   "<F2>"; "<F3>"; "<F4>"; "<F5>"; "<F6>"; "<F7>"; "<F8>"; "<F9>"; "<F10>"; "<NumLock>";
   "<ScrollLock>"; "<Keypad 7>"; "<Keypad 8>"; "<Keypad 9>"; "<Keypad ->"; "<Keypad 4>"; "<Keypad 5>"; "<Keypad 6>"; "<Keypad +>"; "<Keypad 1>";
   "<Keypad 2>"; "<Keypad 3>"; "<Keypad 0>"; "<Keypad .>"; ""; ""; ""; "<F11>"; "<F12>"].
Definition MAX_KEYCODE : Z := 89.

(** ** int/keyboard.c *)

Definition LSHIFT : Z := 42.
Definition RSHIFT : Z := 54.
Definition CONTROL : Z := 29.
Definition ENTER : Z := 28.
Definition BACKSPACE : Z := 14.

Record keyboard (HS : Type) := Kb {
  is_shift_held : bool;
  is_control_held : bool;
  is_recording : bool;
  pressed : Z;
  pressed_size : Z;
  pressed_capacity : Z;
  heap : HS;
  screen : list Z;
}.
Arguments Kb {HS} _ _ _ _ _ _ _ _.
Arguments is_shift_held {HS} _.
Arguments is_control_held {HS} _.
Arguments is_recording {HS} _.
Arguments pressed {HS} _.
Arguments pressed_size {HS} _.
Arguments pressed_capacity {HS} _.
Arguments heap {HS} _.
Arguments screen {HS} _.

(** The character a key stands for while shift is held (the [switch] of
    [keyboard_routine]); codes are ASCII. *)
Definition shifted (c : Z) : Z :=
  match c with
  | 48 => 41 | 49 => 33 | 50 => 64 | 51 => 35 | 52 => 36 | 53 => 37
  | 54 => 94 | 55 => 38 | 56 => 42 | 57 => 40 | 96 => 126 | 45 => 95
  | 61 => 43 | 91 => 123 | 93 => 125 | 124 => 92 | 59 => 58 | 39 => 34
  | 44 => 60 | 46 => 62 | 47 => 63
  | _ => if (97 <=? c) && (c <=? 122) then c - 32 else c
  end.

(** The character of a one-character key name. *)
Definition key_char (scan : Z) : option Z :=
  match KEYCODES !! Z.to_nat scan with
  | Some (String c EmptyString) => Some (Z.of_nat (Ascii.nat_of_ascii c))
  | _ => None
  end.

Section keyboard.
Context {HS : Type} `{!HeapIface HS}.
Notation KB := (M (keyboard HS)).

Definition set_shift (b : bool) (k : keyboard HS) : keyboard HS :=
  Kb b (is_control_held k) (is_recording k) (pressed k) (pressed_size k) (pressed_capacity k) (heap k) (screen k).
Definition set_control (b : bool) (k : keyboard HS) : keyboard HS :=
  Kb (is_shift_held k) b (is_recording k) (pressed k) (pressed_size k) (pressed_capacity k) (heap k) (screen k).
Definition set_recording (b : bool) (k : keyboard HS) : keyboard HS :=
  Kb (is_shift_held k) (is_control_held k) b (pressed k) (pressed_size k) (pressed_capacity k) (heap k) (screen k).
Definition set_buffer (p n c : Z) (k : keyboard HS) : keyboard HS :=
  Kb (is_shift_held k) (is_control_held k) (is_recording k) p n c (heap k) (screen k).
Definition set_heap (h : HS) (k : keyboard HS) : keyboard HS :=
  Kb (is_shift_held k) (is_control_held k) (is_recording k) (pressed k) (pressed_size k) (pressed_capacity k) h (screen k).
Definition add_screen (c : Z) (k : keyboard HS) : keyboard HS :=
  Kb (is_shift_held k) (is_control_held k) (is_recording k) (pressed k) (pressed_size k) (pressed_capacity k) (heap k) (screen k ++ [c]).

(** A call of the heap. *)
Definition on_heap {A} (c : M HS A) : KB A := fun k =>
  match c (heap k) with
  | Ok a h => Ok a (set_heap h k)
  | Panic msg => Panic msg
  | Fault => Fault
  | OutOfFuel => OutOfFuel
  end.

Definition vga_putchar (c : Z) : KB unit := modify (add_screen c).

(** Double the buffer: allocate, copy, release the old one.  The copy counts
    with a [u32], so it never ends for a size of 2^32 or more. *)
Definition grow_pressed : KB unit :=
  pressed_copy ← gets pressed;
  size ← gets pressed_size;
  cap ← gets pressed_capacity;
  let cap := cap *64 2 in
  p ← on_heap (hp_calloc (cap *64 1));
  modify (fun k => set_buffer p (pressed_size k) cap k);;
  (if W32 <=? size then out_of_fuel else
  for_loop (Z.to_nat size) 0 (fun i => v ← on_heap (hp_rd (pressed_copy +64 i)); on_heap (hp_wr (p +64 i) v)));;
  on_heap (hp_free pressed_copy).

Definition record_char (c : Z) : KB unit :=
  size ← gets pressed_size;
  cap ← gets pressed_capacity;
  (if cap <? (size +64 1) then grow_pressed else mret tt);;
  p ← gets pressed;
  size ← gets pressed_size;
  on_heap (hp_wr (p +64 size) c);;
  modify (fun k => set_buffer (pressed k) (size +64 1) (pressed_capacity k) k).

Definition keyboard_routine (scan : Z) : KB unit :=
  if scan <? MAX_KEYCODE then
    (if (scan =? LSHIFT) || (scan =? RSHIFT) then modify (set_shift true) else mret tt);;
    (if scan =? CONTROL then modify (set_control true) else mret tt);;
    match key_char scan with
    | Some c =>
      shift ← gets is_shift_held;
      control ← gets is_control_held;
      recording ← gets is_recording;
      let c := if shift : bool then shifted c else c in
      if control && (c =? 109) then panic "System Halted" else
      vga_putchar c;;
      if recording : bool then record_char c else mret tt
    | None =>
      if scan =? BACKSPACE then
        vga_putchar 8;;
        vga_putchar 32;;
        vga_putchar 8;;
        recording ← gets is_recording;
        if recording : bool then
          modify (fun k => set_buffer (pressed k) (pressed_size k -64 1) (pressed_capacity k) k);;
          p ← gets pressed;
          size ← gets pressed_size;
          on_heap (hp_wr (p +64 size) 0)
        else mret tt
      else if scan =? ENTER then
        modify (set_recording false);;
        vga_putchar 10
      else mret tt
    end
  else if (0x81 <=? scan) && (scan <=? 0xD7) then
    let released_key := scan - 0x80 in
    (if (released_key =? LSHIFT) || (released_key =? RSHIFT) then modify (set_shift false) else mret tt);;
    (if released_key =? CONTROL then modify (set_control false) else mret tt)
  else mret tt.

Definition keyboard_start_recording : KB unit :=
  modify (fun k => set_buffer (pressed k) 0 8 k);;
  p ← on_heap (hp_calloc (8 *64 1));
  modify (fun k => set_recording true (set_buffer p (pressed_size k) (pressed_capacity k) k)).

Definition keyboard_is_recording : KB bool := gets is_recording.
Definition keyboard_get_recording : KB (Z * Z) := gets (fun k => (pressed k, pressed_size k)).

Definition keyboard_end_recording : KB unit :=
  modify (fun k => set_buffer (pressed k) 0 0 k);;
  p ← gets pressed;
  on_heap (hp_free p);;
  modify (set_recording false).

End keyboard.

End Keyboard.
