(* ===== verification/KeyboardProps.v ===== *)
(** * The properties of the keyboard driver *)

From S2P Require Import Prelude KMath KHeap Keyboard.
Import KMath KHeap Keyboard.

Module KeyboardProps.

Section props.
Context {HS : Type} `{!HeapIface HS} `{!HeapLaws HS}.
Notation KB := (M (keyboard HS)).
Implicit Types k : keyboard HS.

(** A recording in progress has collected the characters [txt]. *)
Record recording k (txt : list Z) : Prop := {
  rc_on : is_recording k = true;
  rc_size : pressed_size k = Z.of_nat (length txt);
  rc_fit : Z.of_nat (length txt) <= pressed_capacity k;
  rc_cap : 0 < pressed_capacity k < 2 ^ 38;
  rc_addr : 0 < pressed k /\ pressed k + pressed_capacity k < W64;
  rc_buf : exists l, owns (heap k) (pressed k) l /\ Z.of_nat (length l) = pressed_capacity k /\
    take (length txt) l = txt;
  rc_bytes : Forall (fun c => 0 <= c < 256) txt;
}.

Lemma on_heap_ok {A} (c : M HS A) k a h : c (heap k) = Ok a h -> on_heap c k = Ok a (set_heap h k).
Proof. unfold on_heap. by intros ->. Qed.

Lemma take_insert_snoc (l : list Z) i v :
  (i < length l)%nat -> take (S i) (<[i:=v]> l) = take i l ++ [v].
Proof.
  intros Hi. rewrite (take_S_r _ _ v) by (by apply list_lookup_insert_eq). by rewrite take_insert_ge by lia.
Qed.

(** One byte of the copy into the larger buffer. *)
Lemma copy_byte k p q l l' i v :
  owns (heap k) q l -> owns (heap k) p l' -> q <> p -> l !! i = Some v -> 0 <= v < 256 -> (i < length l')%nat ->
  0 < p -> p + Z.of_nat (length l') < W64 -> 0 < q -> q + Z.of_nat (length l) < W64 -> take i l' = take i l ->
  exists h l'', (v ← on_heap (hp_rd (q +64 Z.of_nat i)); on_heap (hp_wr (p +64 Z.of_nat i) v)) k = Ok tt (set_heap h k) /\
    owns h q l /\ owns h p l'' /\ length l'' = length l' /\ take (S i) l'' = take (S i) l /\
    forall r lr, r <> p -> owns (heap k) r lr -> owns h r lr.
Proof.
  intros Hq Hp Hne Hv Hvr Hi Hp0 Hpw Hq0 Hqw Ht. pose proof (lookup_lt_Some _ _ _ Hv) as Hil.
  rewrite !u64_small by lia.
  rewrite (bind_ok _ _ _ _ _ (on_heap_ok _ _ _ _ (rd_law q l (heap k) i v Hq Hv))).
  destruct (wr_law p l' (heap k) i v Hp Hi) as (h & Hw & Hp' & Hoth).
  exists h, (<[i:=u8 v]> l'). split; [|split_and!; [by apply Hoth|done|by rewrite length_insert| |done]].
  - rewrite (on_heap_ok _ (set_heap (heap k) k) tt h Hw). done.
  - rewrite take_insert_snoc by done. rewrite (u8_small v) by done. by rewrite (take_S_r l i v), Ht.
Qed.

(** Every other buffer stays as it is. *)
Definition frame k k' : Prop :=
  forall q l, q <> pressed k -> owns (heap k) q l -> q <> pressed k' /\ owns (heap k') q l.

Lemma frame_trans k k1 k2 : frame k k1 -> frame k1 k2 -> frame k k2.
Proof. intros H1 H2 q l Hq Hl. destruct (H1 q l Hq Hl). by apply H2. Qed.

(** Doubling the buffer keeps the recorded characters. *)
Lemma grow_run k txt :
  recording k txt -> pressed_capacity k < 2 ^ 37 -> Z.of_nat (length txt) < 2 ^ 31 ->
  (exists msg, grow_pressed k = Panic msg /\ oom (HS := HS) msg) \/
  exists k', grow_pressed k = Ok tt k' /\ recording k' txt /\ pressed_capacity k' = 2 * pressed_capacity k /\ frame k k' /\
    screen k' = screen k /\ is_shift_held k' = is_shift_held k /\ is_control_held k' = is_control_held k.
Proof.
  intros [Hon Hsz Hfit Hcap Haddr (l & Hl & Hlen & Ht) Hb] Hc Htx. set (cap := pressed_capacity k) in *. set (q := pressed k) in *.
  unfold grow_pressed. run_pure. fold q cap. rewrite Hsz, (u64_small (cap * 2)), (u64_small (cap * 2 * 1)), Z.mul_1_r by lia.
  pose proof (calloc_law (cap * 2) (heap k) ltac:(lia)) as Hcal.
  destruct (hp_calloc (cap * 2) (heap k)) as [p h1|msg| |] eqn:Ecal; [right|left|done..];
    [|exists msg; split; [apply bind_panic; unfold on_heap; by rewrite Ecal|exists (cap * 2), (heap k); split; [lia|done]]].
  destruct Hcal as (Hp0 & Hpw & Hp & Hold). destruct (Hold q l Hl) as [Hne Hl1].
  rewrite (bind_ok _ _ _ _ _ (on_heap_ok _ _ _ _ Ecal)). run_pure.
  set (k1 := set_buffer p (pressed_size (set_heap h1 k)) (cap * 2) (set_heap h1 k)).
  destruct (Z.leb_spec W32 (Z.of_nat (length txt))); [lia|].
  assert (Hgoal : exists k2, for_loop (Z.to_nat (Z.of_nat (length txt))) 0
      (fun i => v ← on_heap (hp_rd (q +64 i)); on_heap (hp_wr (p +64 i) v)) k1 = Ok tt k2 /\
    exists h l', k2 = set_heap h k1 /\ owns h q l /\ owns h p l' /\ Z.of_nat (length l') = cap * 2 /\
      take (length txt) l' = take (length txt) l /\ forall r lr, r <> p -> owns h1 r lr -> owns h r lr).
  { destruct (for_loop_ind (fun i k2 => exists h l', k2 = set_heap h k1 /\ owns h q l /\ owns h p l' /\
        Z.of_nat (length l') = cap * 2 /\ take (Z.to_nat i) l' = take (Z.to_nat i) l /\
        forall r lr, r <> p -> owns h1 r lr -> owns h r lr)
      (fun i => v ← on_heap (hp_rd (q +64 i)); on_heap (hp_wr (p +64 i) v))
      (Z.to_nat (Z.of_nat (length txt))) 0 k1) as (k2 & Hr & h & l' & E & H1 & H2 & H3 & H4 & H5).
    - exists h1, (replicate (Z.to_nat (cap * 2)) 0). split_and!; try done. rewrite length_replicate. lia.
    - intros i k2 Hi (h & l' & -> & H1 & H2 & H3 & H4 & H5).
      assert (Hil : (Z.to_nat i < length l)%nat) by lia. destruct (lookup_lt_is_Some_2 _ _ Hil) as [v Hv].
      assert (Hvr : 0 <= v < 256).
      { rewrite Forall_forall in Hb. apply Hb. rewrite <- Ht. apply list_elem_of_lookup. exists (Z.to_nat i).
        rewrite lookup_take_lt by lia. done. }
      destruct (copy_byte (set_heap h k1) p q l l' (Z.to_nat i) v) as (h' & l'' & Hr & A1 & A2 & A3 & A4 & A5); try done; try lia.
      rewrite Z2Nat.id in Hr by lia. exists (set_heap h' (set_heap h k1)). split; [exact Hr|].
      exists h', l''. split_and!; [done|done|done|lia| |intros r lr Hr1 Hr2; apply A5; [done|by apply H5]]. replace (Z.to_nat (i + 1)) with (S (Z.to_nat i)) by lia. done.
    - exists k2. split; [done|]. exists h, l'. split_and!; try done. by replace (Z.to_nat _) with (length txt) in H4 by lia. }
  destruct Hgoal as (k2 & Hr & h & l' & -> & H1 & H2 & H3 & H4 & H5). rewrite (bind_ok _ _ _ _ _ Hr).
  destruct (free_law q l h H1) as (h' & Hf & Hoth). rewrite (on_heap_ok _ (set_heap h k1) tt h' Hf).
  eexists. split; [done|]. split; [|split_and!; [cbn; lia| |done..]].
  2: { intros r lr Hr1 Hr2. destruct (Hold r lr Hr2) as [Hrp Hr3]. split; [done|]. cbn. apply Hoth; [done|]. by apply H5. }
  split; cbn; try done; [lia|lia|]. exists l'. split_and!; [by apply Hoth|lia|by rewrite H4].
Qed.

(** Appending a character to the recording. *)
Lemma record_run k txt c :
  recording k txt -> Z.of_nat (length txt) < 2 ^ 31 -> 0 <= c < 256 ->
  (exists msg, record_char c k = Panic msg /\ oom (HS := HS) msg) \/
  exists k', record_char c k = Ok tt k' /\ recording k' (txt ++ [c]) /\ frame k k' /\
    screen k' = screen k /\ is_shift_held k' = is_shift_held k /\ is_control_held k' = is_control_held k.
Proof.
  intros Hrec Htx Hc.
  assert (Hput : forall k1, recording k1 txt -> Z.of_nat (length txt) < pressed_capacity k1 ->
    exists k', (p ← gets pressed; size ← gets pressed_size; on_heap (hp_wr (p +64 size) c);;
      modify (fun k => set_buffer (pressed k) (size +64 1) (pressed_capacity k) k)) k1 = Ok tt k' /\
      recording k' (txt ++ [c]) /\ frame k1 k' /\ screen k' = screen k1 /\ is_shift_held k' = is_shift_held k1 /\
      is_control_held k' = is_control_held k1).
  { intros k1 [Hon Hsz Hfit Hcap Haddr (l & Hl & Hlen & Ht) Hb] Hlt.
    destruct (wr_law (pressed k1) l (heap k1) (length txt) c Hl ltac:(lia)) as (h & Hw & Hl' & Hoth).
    unfold mbind, M_bind, gets. rewrite Hsz, (u64_small (pressed k1 + _)) by lia.
    rewrite (on_heap_ok _ _ _ _ Hw). rewrite u64_small by lia. eexists. split; [done|].
    split; [|split; [intros r lr Hr1 Hr2; split; [done|by apply Hoth]|done]].
    split; cbn; try done; rewrite ?length_app; cbn; try lia.
    - exists (<[length txt:=u8 c]> l). split_and!; [done|by rewrite length_insert|].
      rewrite Nat.add_comm. cbn. rewrite take_insert_snoc by lia. by rewrite Ht, (u8_small c) by done.
    - apply Forall_app. split; [done|]. by apply Forall_singleton. }
  unfold record_char. run_pure.
  pose proof Hrec as [Hon Hsz Hfit Hcap Haddr Hbuf Hb]. rewrite Hsz, (u64_small (_ + 1)) by lia.
  destruct (Z.ltb_spec (pressed_capacity k) (Z.of_nat (length txt) + 1)).
  - destruct (grow_run k txt Hrec) as [(msg & Hg & Ho)|(k1 & Hg & Hrec1 & Hcap1 & Hfr1 & E1 & E2 & E3)]; [lia|lia|left|right].
    + exists msg. split; [by apply bind_panic|done].
    + rewrite (bind_ok _ _ _ _ _ Hg). destruct (Hput k1 Hrec1) as (k' & Hr & Hrec' & Hfr & F1 & F2 & F3); [lia|].
      exists k'. split_and!; [done|done|by eapply frame_trans|congruence..].
  - right. rewrite bind_ret.
    destruct (Hput k Hrec) as (k' & Hr & Hrec' & Hfr & F1 & F2 & F3); [lia|]. exists k'. done.
Qed.

(** A sequence of interrupts. *)
Fixpoint keys (scans : list Z) : KB unit :=
  match scans with [] => mret tt | scan :: rest => keyboard_routine scan;; keys rest end.

(** Plain character keys: no modifier, backspace or enter. *)
Definition typed (scans : list Z) (txt : list Z) : Prop := Forall2 (fun s c => 0 <= s < 89 /\ key_char s = Some c) scans txt.

Lemma key_char_plain s c : 0 <= s < 89 -> key_char s = Some c ->
  s <> LSHIFT /\ s <> RSHIFT /\ s <> CONTROL /\ 0 <= c < 128.
Proof.
  intros Hs Hc.
  assert (H : forallb (fun s => match key_char s with
    | Some c => negb (s =? LSHIFT) && negb (s =? RSHIFT) && negb (s =? CONTROL) && (0 <=? c) && (c <? 128)
    | None => true end) (seqZ 0 89) = true) by (by vm_compute).
  rewrite forallb_forall in H. specialize (H s ltac:(apply list_elem_of_In, elem_of_seqZ; lia)). rewrite Hc in H.
  repeat (apply andb_true_iff in H as [H ?]). unfold LSHIFT, RSHIFT, CONTROL in *. lia.
Qed.

(** One character key while recording. *)
Lemma key_run k txt s c :
  recording k txt -> is_shift_held k = false -> is_control_held k = false ->
  Z.of_nat (length txt) < 2 ^ 31 -> 0 <= s < 89 -> key_char s = Some c ->
  (exists msg, keyboard_routine s k = Panic msg /\ oom (HS := HS) msg) \/
  exists k', keyboard_routine s k = Ok tt k' /\ recording k' (txt ++ [c]) /\ frame k k' /\ is_shift_held k' = false /\
    is_control_held k' = false /\ screen k' = screen k ++ [c].
Proof.
  intros Hrec Hsh Hct Hlen Hs Hc. destruct (key_char_plain s c Hs Hc) as (H1 & H2 & H3 & Hcr).
  unfold keyboard_routine. unfold MAX_KEYCODE. destruct (Z.ltb_spec s 89); [|lia].
  destruct (Z.eqb_spec s LSHIFT); [done|]. destruct (Z.eqb_spec s RSHIFT); [done|].
  destruct (Z.eqb_spec s CONTROL); [done|]. cbn [orb]. rewrite Hc.
  unfold vga_putchar. run_pure.
  rewrite Hsh, Hct, (rc_on _ _ Hrec). cbn [andb].
  destruct (record_run (add_screen c k) txt c) as [(msg & Hr & Ho)|(k' & Hr & Hrec' & Hfr & E1 & E2 & E3)];
    [destruct Hrec; by split|done|lia|left; by exists msg|right].
  exists k'. rewrite E1, E2, E3. done.
Qed.

Lemma keys_run scans : forall txt0 txt k,
  recording k txt0 -> is_shift_held k = false -> is_control_held k = false ->
  typed scans txt -> Z.of_nat (length txt0 + length txt) < 2 ^ 31 ->
  (exists msg, keys scans k = Panic msg /\ oom (HS := HS) msg) \/
  exists k', keys scans k = Ok tt k' /\ recording k' (txt0 ++ txt) /\ frame k k' /\ screen k' = screen k ++ txt /\
    is_shift_held k' = false /\ is_control_held k' = false.
Proof.
  induction scans as [|s scans IH]; intros txt0 txt k Hrec Hsh Hct Ht Hlen; inversion Ht as [|? c ? txt' [Hs Hc] Ht']; subst.
  - right. exists k. rewrite !app_nil_r. done.
  - cbn [keys]. cbn in Hlen.
    destruct (key_run k txt0 s c) as [(msg & Hr & Ho)|(k1 & Hr & Hrec1 & Hfr1 & E1 & E2 & E3)]; try done; [lia| |].
    { left. exists msg. split; [by apply bind_panic|done]. }
    rewrite (bind_ok _ _ _ _ _ Hr).
    destruct (IH (txt0 ++ [c]) txt' k1) as [(msg & Hr' & Ho)|(k' & Hr' & Hrec' & Hfr' & Hscr & E4 & E5)]; try done.
    { rewrite length_app. cbn. lia. }
    { left. by exists msg. }
    right. exists k'. pose proof (frame_trans _ _ _ Hfr1 Hfr'). rewrite Hscr, E3, <- !app_assoc in *. done.
Qed.

Lemma start_run k :
  (exists msg, keyboard_start_recording k = Panic msg /\ oom (HS := HS) msg) \/
  exists k', keyboard_start_recording k = Ok tt k' /\ recording k' [] /\
    (forall q l, owns (heap k) q l -> q <> pressed k' /\ owns (heap k') q l) /\ screen k' = screen k /\
    is_shift_held k' = is_shift_held k /\ is_control_held k' = is_control_held k.
Proof.
  unfold keyboard_start_recording. run_pure. change (8 *64 1) with 8.
  pose proof (calloc_law 8 (heap k) ltac:(lia)) as Hcal.
  destruct (hp_calloc 8 (heap k)) as [p h|msg| |] eqn:E; [right|left|done..].
  - destruct Hcal as (Hp & Hpw & Ho & Hold). rewrite (bind_ok _ _ _ _ _ (on_heap_ok _ (set_buffer (pressed k) 0 8 k) _ _ E)).
    eexists. split; [done|]. split; [|done]. split; cbn; try done; try lia.
    eexists. split_and!; [done|done|done].
  - exists msg. split; [apply bind_panic; unfold on_heap; cbn; by rewrite E|]. exists 8, (heap k). split; [lia|done].
Qed.

Lemma backspace_run k : is_recording k = true ->
  keyboard_routine BACKSPACE k =
  (let size := pressed_size k -64 1 in
   on_heap (hp_wr (pressed k +64 size) 0))
    (set_buffer (pressed k) (pressed_size k -64 1) (pressed_capacity k) (add_screen 8 (add_screen 32 (add_screen 8 k)))).
Proof.
  intros Hr. destruct k; cbn in Hr; subst. reflexivity.
Qed.

End props.

Definition kb0 : keyboard slots := Kb false false false 0 0 0 (1, ∅) [].

(** ** The claims *)

(** C25. Recording a line: with neither shift nor control held,
    [keyboard_start_recording] followed by the interrupts of fewer than 2^31
    character keys leaves the recording at exactly the characters typed, in
    order, however often the buffer had to be doubled and moved; the
    same characters have been sent to the console.  The only other outcome is that the heap has run out. *)
Theorem keyboard_records_typing {HS} `{!HeapIface HS} `{!HeapLaws HS} (k : keyboard HS) scans txt :
  is_shift_held k = false -> is_control_held k = false -> typed scans txt -> Z.of_nat (length txt) < 2 ^ 31 ->
  (exists msg, (keyboard_start_recording;; keys scans) k = Panic msg /\ oom (HS := HS) msg) \/
  exists k' p l, (keyboard_start_recording;; keys scans;; keyboard_get_recording) k = Ok (p, Z.of_nat (length txt)) k' /\
    owns (heap k') p l /\ take (length txt) l = txt /\ screen k' = screen k ++ txt.
Proof.
  intros Hsh Hct Ht Hlen. destruct (start_run k) as [(msg & Hr & Ho)|(k1 & Hr & Hrec & _ & Hs & E1 & E2)].
  { left. exists msg. split; [by apply bind_panic|done]. }
  destruct (keys_run scans [] txt k1) as [(msg & Hr' & Ho)|(k' & Hr' & Hrec' & Hfr' & Hscr & E4 & E5)]; try done; [congruence|congruence|..].
  { left. exists msg. split; [|done]. by rewrite (bind_ok _ _ _ _ _ Hr). }
  right. destruct (rc_buf _ _ Hrec') as (l & Ho & _ & Hl). exists k', (pressed k'), l.
  rewrite (bind_ok _ _ _ _ _ Hr), (bind_ok _ _ _ _ _ Hr'). unfold keyboard_get_recording, gets.
  rewrite (rc_size _ _ Hrec'). split_and!; [done|done|done|congruence].
Qed.

Lemma keyboard_records_typing_witness :
  (exists msg, (keyboard_start_recording;; keys [35; 18; 38; 38; 24; 57; 17; 24; 19; 38; 32; 57; 2; 3]) kb0 = Panic msg /\ oom (HS := slots) msg) \/
  exists k' p l, (keyboard_start_recording;; keys [35; 18; 38; 38; 24; 57; 17; 24; 19; 38; 32; 57; 2; 3];; keyboard_get_recording) kb0 =
      Ok (p, Z.of_nat (length [104; 101; 108; 108; 111; 32; 119; 111; 114; 108; 100; 32; 49; 50])) k' /\
    owns (heap k') p l /\ take (length [104; 101; 108; 108; 111; 32; 119; 111; 114; 108; 100; 32; 49; 50]) l = [104; 101; 108; 108; 111; 32; 119; 111; 114; 108; 100; 32; 49; 50] /\
    screen k' = screen kb0 ++ [104; 101; 108; 108; 111; 32; 119; 111; 114; 108; 100; 32; 49; 50].
Proof.
  apply (keyboard_records_typing kb0); [done|done| |vm_compute; done].
  unfold typed. repeat first [apply Forall2_nil; done | apply Forall2_cons; split; [split; [lia|reflexivity]|]].
Defined.

(** Backspace on an empty recording: nothing guards the decrement, so the
    recorded length becomes 2^64-1 and the byte in front of the buffer is
    overwritten with zero. *)
Theorem keyboard_backspace_underflow {HS} `{!HeapIface HS} (k : keyboard HS) h :
  is_recording k = true -> pressed_size k = 0 -> 0 < pressed k < W64 -> hp_wr (pressed k - 1) 0 (heap k) = Ok tt h ->
  exists k', (keyboard_routine BACKSPACE;; keyboard_get_recording) k = Ok (pressed k, W64 - 1) k' /\ heap k' = h.
Proof.
  intros Hr Hs Hp Hw. unfold keyboard_get_recording, mbind, M_bind, gets. rewrite backspace_run by done. cbn -[u64].
  rewrite Hs. change (0 -64 1) with (W64 - 1).
  replace (pressed k +64 (W64 - 1)) with (pressed k - 1) by (unfold u64; rewrite <- (Z.mod_small (pressed k - 1) W64) at 1 by lia;
    replace (pressed k + (W64 - 1)) with (pressed k - 1 + 1 * W64) by lia; by rewrite Z.mod_add by lia).
  unfold on_heap. cbn -[u64]. rewrite Hw. eexists. split; done.
Qed.

Definition kb_mid : keyboard slots := Kb false false true (slot + 4) 0 8 (2, <[1:=replicate 16 7]> ∅) [].

Lemma keyboard_backspace_underflow_witness :
  exists k', (keyboard_routine BACKSPACE;; keyboard_get_recording) kb_mid = Ok (pressed kb_mid, W64 - 1) k' /\
    heap k' = (2, <[1:=<[3%nat:=0]> (replicate 16 7)]> (<[1:=replicate 16 7]> ∅)).
Proof. apply (keyboard_backspace_underflow kb_mid); [done|done|vm_compute; done|reflexivity]. Defined.

(** What shift does: every letter key gives its capital, and every digit
    and punctuation key but one gives another character.  The backslash key is
    left as it is, so no key produces a vertical bar, with or without shift. *)
Theorem shifted_characters s c :
  0 <= s < MAX_KEYCODE -> key_char s = Some c ->
  (97 <= c <= 122 -> shifted c = c - 32) /\ (shifted c = c <-> c = 92 \/ c = 32) /\ c <> 124 /\ shifted c <> 124.
Proof.
  intros Hs Hc. unfold MAX_KEYCODE in Hs.
  assert (H : forallb (fun s => match key_char s with
    | Some c => ((c <? 97) || (122 <? c) || (shifted c =? c - 32)) &&
        Bool.eqb (shifted c =? c) ((c =? 92) || (c =? 32)) && negb (c =? 124) && negb (shifted c =? 124)
    | None => true end) (seqZ 0 89) = true) by (by vm_compute).
  rewrite forallb_forall in H. specialize (H s ltac:(apply list_elem_of_In, elem_of_seqZ; lia)). rewrite Hc in H.
  repeat (apply andb_true_iff in H as [H ?]). lia.
Qed.

Lemma shifted_characters_witness :
  (97 <= 92 <= 122 -> shifted 92 = 92 - 32) /\ (shifted 92 = 92 <-> 92 = 92 \/ 92 = 32) /\ 92 <> 124 /\ shifted 92 <> 124.
Proof. apply (shifted_characters 43); [unfold MAX_KEYCODE; lia|reflexivity]. Defined.

End KeyboardProps.
