(* ===== verification/Interrupt.v ===== *)
(** * int/interrupt.c: the interrupt table, dispatch and the entry stubs

    The machine is a pair of the tables of interrupt.c and a [world] that the
    registered routines act on; [run] says what each routine does.  The
    addresses of the assembly stubs come from the linker and are parameters. *)

From S2P Require Import Prelude.

Module Interrupt.

(** ** Data *)

(** int/interrupt.h *)
Record IDTEntry := Gate {
  isr_low : Z;
  segment : Z;
  ist : Z;
  attributes : Z;
  isr_mid : Z;
  isr_high : Z;
}.

(** The functions whose addresses are stored in the tables. *)
Inductive routine := timer_routine | keyboard_routine | syscall_routine | page_fault_handler.

#[global] Instance routine_eq_dec : EqDecision routine.
Proof. solve_decision. Defined.

(** The registers the handlers look at. *)
Record InterruptData := IData {
  rax : Z;
  rdi : Z;
  rsi : Z;
  rdx : Z;
  interrupt_num : Z;
  error_code : Z;
}.

Record machine (W : Type) := Machine {
  idt : list IDTEntry;
  idt_ptr : option (Z * Z);
  irq_routines : list (option routine);
  exception_handlers : list (option routine);
  outs : list (Z * Z);
  halted : bool;
  world : W;
}.
Arguments Machine {W} _ _ _ _ _ _ _.
Arguments idt {W} _.
Arguments idt_ptr {W} _.
Arguments irq_routines {W} _.
Arguments exception_handlers {W} _.
Arguments outs {W} _.
Arguments halted {W} _.
Arguments world {W} _.

(** util/const.h *)
Definition PICM_COMMAND : Z := 0x20.
Definition PICS_COMMAND : Z := 0xA0.
Definition PIC_EOI : Z := 0x20.
Definition INT_TIMER : Z := 0.
Definition INT_KEYBOARD : Z := 1.
Definition INT_SYSCALL : Z := 96.
Definition EXCEPT_PAGE_FAULT : Z := 14.

Definition EXCEPTIONS : list string :=
  ["Division Error"; "Debug"; "Non-maskable Interrupt"; "Breakpoint"; "Overflow";
   "Bound Range Exceeded"; "Invalid Opcode"; "Device Not Available"; "Double Fault";
   "Coprocessor Segment Overrun"; "Invalid TSS"; "Segment Not Present"; "Stack-Segment Fault";
   "General Protection Fault"; "Page Fault"; "Reserved"; "x87 Floating-Point Exception";
   "Alignment Check"; "Machine Check"; "SIMD Floating-Point Exception";
   "Virtualization Exception"; "Control Protection Exception"; "Reserved"; "Reserved";
   "Reserved"; "Reserved"; "Reserved"; "Reserved"; "Hyprevisor Injection Exception";
   "VMM Communication Exception"; "Security Exception"; "Reserved"].

(** ** Operations *)

Section interrupt.
Context {W : Type} (run : routine -> InterruptData -> M W unit).
(** [&exception0] ..., [&irq0] ... and [&idt] *)
Context (exception_stub irq_stub : Z -> Z) (idt_addr : Z).
Notation I := (M (machine W)).

Definition set_idt (f : list IDTEntry -> list IDTEntry) (s : machine W) : machine W :=
  Machine (f (idt s)) (idt_ptr s) (irq_routines s) (exception_handlers s) (outs s) (halted s) (world s).
Definition set_idt_ptr (p : Z * Z) (s : machine W) : machine W :=
  Machine (idt s) (Some p) (irq_routines s) (exception_handlers s) (outs s) (halted s) (world s).
Definition set_irq_routines (f : list (option routine) -> list (option routine)) (s : machine W) : machine W :=
  Machine (idt s) (idt_ptr s) (f (irq_routines s)) (exception_handlers s) (outs s) (halted s) (world s).
Definition add_out (p : Z * Z) (s : machine W) : machine W :=
  Machine (idt s) (idt_ptr s) (irq_routines s) (exception_handlers s) (outs s ++ [p]) (halted s) (world s).
Definition set_world (w : W) (s : machine W) : machine W :=
  Machine (idt s) (idt_ptr s) (irq_routines s) (exception_handlers s) (outs s) (halted s) w.

Definition set_halted (s : machine W) : machine W :=
  Machine (idt s) (idt_ptr s) (irq_routines s) (exception_handlers s) (outs s) true (world s).

(** io/io.c *)
Definition outb (port data : Z) : I unit := modify (add_out (u16 port, u8 data)).

(** A call through a table: the routine runs on the world. *)
Definition call_routine (r : routine) (d : InterruptData) : I unit := fun s =>
  match run r d (world s) with
  | Ok _ w => Ok tt (set_world w s)
  | Panic msg => Panic msg
  | Fault => Fault
  | OutOfFuel => OutOfFuel
  end.

Definition routine_at (i : Z) : I (option routine) := fun s =>
  match irq_routines s !! Z.to_nat i with Some r => Ok r s | None => Fault end.
Definition set_routine_at (i : Z) (r : routine) : I unit := fun s =>
  match irq_routines s !! Z.to_nat i with
  | Some _ => Ok tt (set_irq_routines (insert (Z.to_nat i) (Some r)) s)
  | None => Fault
  end.

Definition irq_set_routine (irq_number : Z) (r : routine) : I unit := set_routine_at irq_number r.

(** The handler goes to [irq_routines], as in the source. *)
Definition exception_set_handler (exception : Z) (handler : routine) : I unit := set_routine_at exception handler.

Definition idt_set_entry (index isr flags : Z) : I unit :=
  modify (set_idt (insert (Z.to_nat index)
    (Gate (u16 (Z.land isr 0xFFFF)) 0x08 0 (u8 flags)
       (u16 (Z.land (Z.shiftr isr 16) 0xFFFF)) (u32 (Z.land (Z.shiftr isr 32) 0xFFFFFFFF))))).

(** The function does not return: the processor is halted with interrupts off. *)
Definition handle_exception (data : InterruptData) : I unit :=
  match EXCEPTIONS !! Z.to_nat (interrupt_num data) with
  | None => fault
  | Some _ =>
    handler ← routine_at (interrupt_num data);
    (match handler with Some r => call_routine r data | None => mret tt end);;
    modify set_halted
  end.

Definition pic_acknowledge (irq : Z) : I unit :=
  (if 8 <=? irq then outb PICS_COMMAND PIC_EOI else mret tt);;
  outb PICM_COMMAND PIC_EOI.

Definition handle_interrupt (data : InterruptData) : I unit :=
  let irq_number := u32 (interrupt_num data - 32) in
  r ← routine_at irq_number;
  (match r with Some f => call_routine f data | None => mret tt end);;
  pic_acknowledge (u8 irq_number).

Fixpoint set_gates (n : nat) (index : Z) (stub : Z -> Z) (k : Z) (flags : Z) : I unit :=
  match n with
  | O => mret tt
  | S n' => idt_set_entry index (stub k) flags;; set_gates n' (index + 1) stub (k + 1) flags
  end.

Definition interrupt_init : I unit :=
  for_loop 256 0 (fun i => idt_set_entry i 0 0);;
  set_gates 32 0 exception_stub 0 0x8E;;
  set_gates 16 32 irq_stub 0 0x8E;;
  idt_set_entry 128 (irq_stub 96) 0xEF;;
  irq_set_routine INT_TIMER timer_routine;;
  irq_set_routine INT_KEYBOARD keyboard_routine;;
  irq_set_routine INT_SYSCALL syscall_routine;;
  outb 0xA1 0xFF;;
  outb 0x21 0xFC;;
  exception_set_handler EXCEPT_PAGE_FAULT page_fault_handler;;
  modify (set_idt_ptr (u16 (256 * 16 - 1), idt_addr)).

(** ** The processor's side: the table after [lidt] and the stubs of interrupts.s *)

Definition gate_address (g : IDTEntry) : Z := isr_low g + 2 ^ 16 * isr_mid g + 2 ^ 32 * isr_high g.
Definition gate_present (g : IDTEntry) : bool := Z.testbit (attributes g) 7.
Definition gate_dpl (g : IDTEntry) : Z := Z.land (Z.shiftr (attributes g) 5) 3.

End interrupt.

(** The tables as they are in the kernel image: all zero. *)
Definition boot_machine {W} (w : W) : machine W :=
  Machine (replicate 256 (Gate 0 0 0 0 0 0)) None (replicate 224 None) (replicate 32 None) [] false w.

End Interrupt.
