(* ===== verification/InterruptProps.v ===== *)
(** * The interrupt table that [interrupt_init] builds, and dispatch *)

From S2P Require Import Prelude Interrupt.
Import Interrupt.

Module InterruptProps.

Section props.
Context {W : Type} (run : routine -> InterruptData -> M W unit).
Context (exception_stub irq_stub : Z -> Z) (idt_addr : Z).
Notation I := (M (machine W)).

(** The three parts of an address give it back. *)
Lemma gate_address_set isr flags : 0 <= isr < W64 ->
  gate_address (Gate (u16 (Z.land isr 0xFFFF)) 0x08 0 (u8 flags)
    (u16 (Z.land (Z.shiftr isr 16) 0xFFFF)) (u32 (Z.land (Z.shiftr isr 32) 0xFFFFFFFF))) = isr.
Proof.
  intros Hi. unfold gate_address. cbn [isr_low isr_mid isr_high].
  change 0xFFFF with (Z.ones 16). change 0xFFFFFFFF with (Z.ones 32).
  rewrite !Z.land_ones, !Z.shiftr_div_pow2 by lia. unfold u16, u32. dlia.
Qed.

(** The gate that [idt_set_entry] stores. *)
Definition gate (isr flags : Z) : IDTEntry :=
  Gate (u16 (Z.land isr 0xFFFF)) 0x08 0 (u8 flags)
    (u16 (Z.land (Z.shiftr isr 16) 0xFFFF)) (u32 (Z.land (Z.shiftr isr 32) 0xFFFFFFFF)).

(** The table after the gates [index .. index + n - 1] have been set. *)
Fixpoint with_gates (n : nat) (index : Z) (stub : Z -> Z) (k flags : Z) (t : list IDTEntry) : list IDTEntry :=
  match n with
  | O => t
  | S n' => with_gates n' (index + 1) stub (k + 1) flags (<[Z.to_nat index:=gate (stub k) flags]> t)
  end.

Lemma set_gates_run n : forall index stub k flags (s : machine W),
  set_gates n index stub k flags s = Ok tt (set_idt (with_gates n index stub k flags) s).
Proof.
  induction n as [|n IH]; intros index stub k flags s; cbn [set_gates with_gates]; [by destruct s|].
  unfold idt_set_entry. run_pure. rewrite IH. done.
Qed.

Lemma with_gates_lookup n : forall index stub k flags t i,
  0 <= index -> 0 <= i < Z.of_nat (length t) ->
  with_gates n index stub k flags t !! Z.to_nat i =
    if decide (index <= i < index + Z.of_nat n) then Some (gate (stub (k + (i - index))) flags) else t !! Z.to_nat i.
Proof.
  induction n as [|n IH]; intros index stub k flags t i Hx Hi; cbn [with_gates].
  - rewrite decide_False by lia. done.
  - rewrite IH by (rewrite ?length_insert; lia). destruct (decide (i = index)) as [->|Hne].
    + rewrite decide_False, decide_True by lia. rewrite list_lookup_insert_eq by lia. by replace (k + (index - index)) with k by lia.
    + rewrite list_lookup_insert_ne by lia. repeat case_decide; try lia; [|done].
      by replace (k + 1 + (i - (index + 1))) with (k + (i - index)) by lia.
Qed.

Lemma clear_gates_run n : forall i k (s : machine W),
  for_loop n i (fun i => idt_set_entry i 0 0) s = Ok tt (set_idt (with_gates n i (fun _ => 0) k 0) s).
Proof.
  induction n as [|n IH]; intros i k s; cbn [for_loop with_gates]; [by destruct s|].
  erewrite bind_ok; [|reflexivity]. by rewrite (IH _ (k + 1)).
Qed.

(** The table that [interrupt_init] leaves behind. *)
Definition final_idt (t : list IDTEntry) : list IDTEntry :=
  <[128%nat:=gate (irq_stub 96) 0xEF]>
    (with_gates 16 32 irq_stub 0 0x8E (with_gates 32 0 exception_stub 0 0x8E (with_gates 256 0 (fun _ => 0) 0 0 t))).

Definition final_routines (l : list (option routine)) : list (option routine) :=
  <[14%nat:=Some page_fault_handler]> (<[96%nat:=Some syscall_routine]>
    (<[1%nat:=Some keyboard_routine]> (<[0%nat:=Some timer_routine]> l))).

Lemma set_routine_run i r (s : machine W) :
  (Z.to_nat i < length (irq_routines s))%nat ->
  set_routine_at i r s = Ok tt (set_irq_routines (insert (Z.to_nat i) (Some r)) s).
Proof. intros Hi. unfold set_routine_at. by destruct (lookup_lt_is_Some_2 _ _ Hi) as [? ->]. Qed.

Lemma init_run (s : machine W) :
  length (irq_routines s) = 224%nat ->
  interrupt_init exception_stub irq_stub idt_addr s =
    Ok tt (Machine (final_idt (idt s)) (Some (4095, idt_addr)) (final_routines (irq_routines s))
      (exception_handlers s) (outs s ++ [(0xA1, 0xFF); (0x21, 0xFC)]) (halted s) (world s)).
Proof.
  intros Hl. unfold interrupt_init.
  rewrite (bind_ok _ _ _ _ _ (clear_gates_run 256 0 0 s)), (bind_ok _ _ _ _ _ (set_gates_run _ _ _ _ _ _)),
    (bind_ok _ _ _ _ _ (set_gates_run _ _ _ _ _ _)).
  unfold idt_set_entry, irq_set_routine, exception_set_handler, INT_TIMER, INT_KEYBOARD, INT_SYSCALL, EXCEPT_PAGE_FAULT. run_pure.
  do 3 (erewrite bind_ok; [|apply set_routine_run; cbn [irq_routines set_irq_routines set_idt add_out]; rewrite ?length_insert, Hl; lia]).
  unfold outb. run_pure. erewrite bind_ok; [|apply set_routine_run; cbn [irq_routines set_irq_routines set_idt add_out]; rewrite ?length_insert, Hl; lia].
  unfold modify, final_idt, final_routines, gate. destruct s as [t p r e o hl w].
  cbv beta iota delta [set_idt_ptr set_irq_routines set_idt add_out idt idt_ptr irq_routines exception_handlers outs halted world].
  rewrite <- app_assoc. reflexivity.
Qed.

(** Running one vector. *)
Lemma routine_at_run i o (s : machine W) : irq_routines s !! Z.to_nat i = Some o -> routine_at i s = Ok o s.
Proof. intros H. unfold routine_at. by rewrite H. Qed.

Lemma pic_acknowledge_run irq (s : machine W) :
  pic_acknowledge irq s =
    Ok tt (Machine (idt s) (idt_ptr s) (irq_routines s) (exception_handlers s)
      (outs s ++ (if 8 <=? irq then [(0xA0, 0x20)] else []) ++ [(0x20, 0x20)]) (halted s) (world s)).
Proof.
  unfold pic_acknowledge, outb, PICS_COMMAND, PICM_COMMAND, PIC_EOI. destruct (8 <=? irq); run_pure.
  - unfold modify, add_out. cbn. by rewrite <- app_assoc.
  - done.
Qed.

Lemma final_routines_lookup i : 0 <= i < 224 ->
  final_routines (replicate 224 None) !! Z.to_nat i =
    Some (if decide (i = 14) then Some page_fault_handler else if decide (i = 96) then Some syscall_routine
          else if decide (i = 1) then Some keyboard_routine else if decide (i = 0) then Some timer_routine else None).
Proof.
  intros Hi. unfold final_routines.
  destruct (decide (i = 14)) as [->|]; [done|]. rewrite list_lookup_insert_ne by lia.
  destruct (decide (i = 96)) as [->|]; [done|]. rewrite list_lookup_insert_ne by lia.
  destruct (decide (i = 1)) as [->|]; [done|]. rewrite list_lookup_insert_ne by lia.
  destruct (decide (i = 0)) as [->|]; [done|]. rewrite list_lookup_insert_ne by lia.
  apply lookup_replicate_2. lia.
Qed.

End props.

(** The state after [interrupt_init]. *)
Definition inited {W} (exception_stub irq_stub : Z -> Z) (idt_addr : Z) (w : W) : machine W :=
  Machine (final_idt exception_stub irq_stub (idt (boot_machine w))) (Some (4095, idt_addr))
    (final_routines (replicate 224 None)) (replicate 32 None) [(0xA1, 0xFF); (0x21, 0xFC)] false w.

Lemma inited_run {W} ex irq addr (w : W) : interrupt_init ex irq addr (boot_machine w) = Ok tt (inited ex irq addr w).
Proof. by rewrite init_run. Qed.

(** C32. The table built by [interrupt_init]: vectors 0 to 31 lead to the
    exception stubs, 32 to 47 to the stubs of the hardware interrupts, both for
    the kernel only, and 128 to the stub of the system call, the one vector
    that user mode may raise; every other gate is marked absent.  The 64-bit
    stub address is recovered from the three fields it is split into. *)
Theorem interrupt_init_gates {W} (exception_stub irq_stub : Z -> Z) idt_addr (w : W) v :
  (forall n, 0 <= exception_stub n < W64) -> (forall n, 0 <= irq_stub n < W64) -> 0 <= v < 256 ->
  exists s g, interrupt_init exception_stub irq_stub idt_addr (boot_machine w) = Ok tt s /\
    idt s !! Z.to_nat v = Some g /\
    if v <? 32 then gate_address g = exception_stub v /\ gate_present g = true /\ gate_dpl g = 0
    else if v <? 48 then gate_address g = irq_stub (v - 32) /\ gate_present g = true /\ gate_dpl g = 0
    else if v =? 128 then gate_address g = irq_stub 96 /\ gate_present g = true /\ gate_dpl g = 3
    else gate_present g = false.
Proof.
  intros He Hi Hv. exists (inited exception_stub irq_stub idt_addr w). rewrite inited_run. cbn [idt inited].
  assert (Hl : forall n a st k f (t : list IDTEntry), length (with_gates n a st k f t) = length t).
  { induction n as [|n IH]; intros; cbn; [done|]. by rewrite IH, length_insert. }
  unfold final_idt. cbn [idt boot_machine].
  destruct (decide (v = 128)) as [->|Hne].
  { eexists. split; [done|]. rewrite list_lookup_insert_eq by (rewrite !Hl, length_replicate; lia). split; [done|].
    cbn [Z.ltb Z.eqb Z.compare Pos.compare Pos.compare_cont Pos.eqb]. split; [by apply gate_address_set|done]. }
  rewrite list_lookup_insert_ne by lia. rewrite !with_gates_lookup by (rewrite ?Hl, ?length_replicate; lia).
  destruct (Z.ltb_spec v 32); [|destruct (Z.ltb_spec v 48); [|destruct (Z.eqb_spec v 128); [lia|]]].
  - rewrite decide_False, decide_True by lia. eexists. split; [done|]. split; [done|].
    replace (0 + (v - 0)) with v by lia. split; [by apply gate_address_set|done].
  - rewrite decide_True by lia. eexists. split; [done|]. split; [done|].
    replace (0 + (v - 32)) with (v - 32) by lia. split; [by apply gate_address_set|done].
  - rewrite !decide_False, decide_True by lia. eexists. split; [done|]. split; done.
Qed.

Lemma interrupt_init_gates_witness :
  exists s g, interrupt_init (fun n => 0xFFFFFFFF80101000 + 16 * (n mod 32)) (fun n => 0xFFFFFFFF80102000 + 16 * (n mod 128)) 0x5000 (boot_machine 7) = Ok tt s /\
    idt s !! Z.to_nat 33 = Some g /\
    if 33 <? 32 then gate_address g = 0xFFFFFFFF80101000 + 16 * (33 mod 32) /\ gate_present g = true /\ gate_dpl g = 0
    else if 33 <? 48 then gate_address g = 0xFFFFFFFF80102000 + 16 * ((33 - 32) mod 128) /\ gate_present g = true /\ gate_dpl g = 0
    else if 33 =? 128 then gate_address g = 0xFFFFFFFF80102000 + 16 * (96 mod 128) /\ gate_present g = true /\ gate_dpl g = 3
    else gate_present g = false.
Proof.
  apply (interrupt_init_gates (fun n => 0xFFFFFFFF80101000 + 16 * (n mod 32)) (fun n => 0xFFFFFFFF80102000 + 16 * (n mod 128)) 0x5000 7 33);
    [intros n; dlia|intros n; dlia|lia].
Defined.

(** ** Dispatch *)

(** What runs for a vector once [interrupt_init] is done.  The page-fault
    handler was meant for exception 14 but is stored among the hardware
    interrupts, where it answers interrupt 14 (vector 46) as well. *)
Definition registered (v : Z) : option routine :=
  if v =? 32 then Some timer_routine else if v =? 33 then Some keyboard_routine
  else if v =? 128 then Some syscall_routine else if v =? 46 then Some page_fault_handler else None.

Definition run_opt {W} (run : routine -> InterruptData -> M W unit) (r : option routine) (d : InterruptData) : M W unit :=
  match r with Some f => run f d | None => mret tt end.

Lemma registered_lookup v : 32 <= v < 48 \/ v = 128 ->
  final_routines (replicate 224 None) !! Z.to_nat (u32 (v - 32)) = Some (registered v).
Proof.
  intros Hv. rewrite u32_small by lia. rewrite final_routines_lookup by lia. unfold registered. f_equal. btests; try lia;
    repeat case_decide; done || lia.
Qed.

Lemma handle_interrupt_run {W} (run : routine -> InterruptData -> M W unit) (s : machine W) d r :
  irq_routines s !! Z.to_nat (u32 (interrupt_num d - 32)) = Some r ->
  handle_interrupt run d s =
    match run_opt run r d (world s) with
    | Ok _ w => pic_acknowledge (u8 (u32 (interrupt_num d - 32))) (set_world w s)
    | Panic msg => Panic msg
    | Fault => Fault
    | OutOfFuel => OutOfFuel
    end.
Proof.
  intros Hr. unfold handle_interrupt. rewrite (bind_ok _ _ _ _ _ (routine_at_run _ _ _ Hr)).
  destruct r as [f|]; cbn [run_opt]; [|by destruct s].
  unfold mbind, M_bind, call_routine. by destruct (run f d (world s)).
Qed.

(** C31. A hardware interrupt or a system call, once [interrupt_init] is done,
    runs the routine registered for the vector on the rest of the kernel and
    nothing else, leaves the interrupt table alone, and then sends the end-of-interrupt
    command to the second interrupt controller exactly for the vectors from 40
    on, and to the first one always.  If the routine panics, so does the
    handler. *)
Theorem interrupt_dispatch {W} (run : routine -> InterruptData -> M W unit) exception_stub irq_stub idt_addr (w : W) d :
  32 <= interrupt_num d < 48 \/ interrupt_num d = 128 ->
  let r := (interrupt_init exception_stub irq_stub idt_addr;; handle_interrupt run d) (boot_machine w) in
  match run_opt run (registered (interrupt_num d)) d w with
  | Ok _ w' => exists s', r = Ok tt s' /\ world s' = w' /\ halted s' = false /\
      idt s' = idt (inited exception_stub irq_stub idt_addr w) /\
      outs s' = [(0xA1, 0xFF); (0x21, 0xFC)] ++
        (if 40 <=? interrupt_num d then [(PICS_COMMAND, PIC_EOI)] else []) ++ [(PICM_COMMAND, PIC_EOI)]
  | Panic msg => r = Panic msg
  | Fault => r = Fault
  | OutOfFuel => r = OutOfFuel
  end.
Proof.
  intros Hv. cbv zeta. rewrite (bind_ok _ _ _ _ _ (inited_run exception_stub irq_stub idt_addr w)).
  rewrite (handle_interrupt_run run _ d (registered (interrupt_num d))) by (by apply registered_lookup).
  cbn [world inited]. destruct (run_opt run (registered (interrupt_num d)) d w) as [? w'| | |]; [|done..].
  rewrite pic_acknowledge_run. rewrite u32_small, u8_small by lia.
  replace (8 <=? interrupt_num d - 32) with (40 <=? interrupt_num d) by (btests; lia).
  eexists. split; [reflexivity|]. split_and!; done.
Qed.

Lemma interrupt_dispatch_witness :
  let r := (interrupt_init (fun n => n) (fun n => n) 0x5000;;
    handle_interrupt (fun r d w => Ok tt (w ++ [r])) (IData 0 0 0 0 33 0)) (boot_machine []) in
  match run_opt (fun r d w => Ok tt (w ++ [r])) (registered 33) (IData 0 0 0 0 33 0) [] with
  | Ok _ w' => exists s', r = Ok tt s' /\ world s' = w' /\ halted s' = false /\
      idt s' = idt (inited (fun n => n) (fun n => n) 0x5000 (@nil routine)) /\
      outs s' = [(0xA1, 0xFF); (0x21, 0xFC)] ++
        (if 40 <=? 33 then [(PICS_COMMAND, PIC_EOI)] else []) ++ [(PICM_COMMAND, PIC_EOI)]
  | Panic msg => r = Panic msg
  | Fault => r = Fault
  | OutOfFuel => r = OutOfFuel
  end.
Proof.
  apply (interrupt_dispatch (fun r d (w : list routine) => Ok tt (w ++ [r])) (fun n => n) (fun n => n) 0x5000 [] (IData 0 0 0 0 33 0)).
  left. cbn. lia.
Defined.

(** The exceptions look up the table of the hardware interrupts too: a division
    error runs the timer's routine and a debug exception the keyboard's, before
    the processor is halted. *)
Theorem exception_runs_irq_routine {W} (run : routine -> InterruptData -> M W unit) exception_stub irq_stub idt_addr (w : W) code :
  (interrupt_init exception_stub irq_stub idt_addr;; handle_exception run (IData 0 0 0 0 1 code)) (boot_machine w) =
    match run keyboard_routine (IData 0 0 0 0 1 code) w with
    | Ok _ w' => Ok tt (set_halted (set_world w' (inited exception_stub irq_stub idt_addr w)))
    | Panic msg => Panic msg
    | Fault => Fault
    | OutOfFuel => OutOfFuel
    end.
Proof.
  rewrite (bind_ok _ _ _ _ _ (inited_run exception_stub irq_stub idt_addr w)). unfold handle_exception.
  change (EXCEPTIONS !! Z.to_nat (interrupt_num (IData 0 0 0 0 1 code))) with (Some "Debug"). cbn [interrupt_num].
  rewrite (bind_ok _ _ _ _ _ (routine_at_run 1 (Some keyboard_routine) (inited exception_stub irq_stub idt_addr w) eq_refl)).
  unfold mbind, M_bind, call_routine. cbn [world inited]. by destruct (run keyboard_routine (IData 0 0 0 0 1 code) w).
Qed.

End InterruptProps.
