(* ===== verification/Syscall.v ===== *)
(** * int/syscall.c: reading a line and writing to the console

    While [syscall_routine] waits in its loop for the end of the recording, the
    trap gate leaves interrupts enabled and the keyboard interrupts run.  The
    model interleaves them: [scans] are the scan codes that arrive, each
    handled by [keyboard_routine] between two turns of the waiting loop.  The
    buffers of user programs are regions of the same memory that the heap of
    the keyboard driver lives in. *)

From stdpp Require Import gmultiset.
From S2P Require Import Prelude KMath KHeap Keyboard KeyboardProps Interrupt.
Import KMath KHeap Keyboard KeyboardProps.

Module Syscall.

Definition min (a b : Z) : Z := if a <? b then a else b.

Section syscall.
Context {HS : Type} `{!HeapIface HS}.
Notation KB := (M (keyboard HS)).

(** [while (keyboard_is_recording());] *)
Fixpoint wait_recording (scans : list Z) : KB unit :=
  is_rec ← keyboard_is_recording;
  if is_rec : bool then
    match scans with
    | [] => out_of_fuel
    | scan :: rest => keyboard_routine scan;; wait_recording rest
    end
  else mret tt.

(** util/misc.c, on this memory *)
Definition set_bytes (dest val len : Z) : KB unit :=
  for_loop (Z.to_nat len) 0 (fun i => on_heap (hp_wr (dest +64 i) val)).
Definition copy_bytes (dest src len : Z) : KB unit :=
  for_loop (Z.to_nat len) 0 (fun i => v ← on_heap (hp_rd (src +64 i)); on_heap (hp_wr (dest +64 i) v)).

Fixpoint print_chars (l : list Z) : KB unit :=
  match l with [] => mret tt | c :: l' => vga_putchar c;; print_chars l' end.

(** ["Hello world!\n"] *)
Definition hello : list Z := [72; 101; 108; 108; 111; 32; 119; 111; 114; 108; 100; 33; 10].

Definition syscall_routine (scans : list Z) (data : Interrupt.InterruptData) : KB unit :=
  let id := Interrupt.rax data in
  if id =? 0 then
    if Interrupt.rdi data =? 0 then
      let buffer := Interrupt.rsi data in
      let size := Interrupt.rdx data in
      keyboard_start_recording;;
      wait_recording scans;;
      '(pressed_keys, length) ← keyboard_get_recording;
      set_bytes buffer 0 size;;
      copy_bytes buffer pressed_keys (min size length);;
      keyboard_end_recording
    else mret tt
  else if id =? 1 then
    if Interrupt.rdi data =? 1 then
      let buffer := Interrupt.rsi data in
      let size := Interrupt.rdx data in
      for_loop (Z.to_nat size) 0 (fun i =>
        b ← on_heap (hp_rd (buffer +64 i));
        if negb (b =? 0) then vga_putchar b else mret tt)
    else mret tt
  else if id =? 999 then print_chars hello
  else mret tt.

End syscall.

Section lemmas.
Context {HS : Type} `{!HeapIface HS} `{!HeapLaws HS}.
Notation KB := (M (keyboard HS)).
Implicit Types k : keyboard HS.

(** What the loops over memory leave alone. *)
Definition same_but_heap k k' : Prop := k' = set_heap (heap k') k.

(** Filling a region. *)
Lemma set_bytes_run p l k :
  owns (heap k) p l -> 0 < p -> p + Z.of_nat (length l) < W64 ->
  exists k', set_bytes p 0 (Z.of_nat (length l)) k = Ok tt k' /\ same_but_heap k k' /\
    owns (heap k') p (replicate (length l) 0) /\ forall q lq, q <> p -> owns (heap k) q lq -> owns (heap k') q lq.
Proof.
  intros Ho Hp Hw. unfold set_bytes.
  destruct (for_loop_ind (fun i k' => same_but_heap k k' /\
      owns (heap k') p (replicate (Z.to_nat i) 0 ++ drop (Z.to_nat i) l) /\
      forall q lq, q <> p -> owns (heap k) q lq -> owns (heap k') q lq)
    (fun i => on_heap (hp_wr (p +64 i) 0)) (Z.to_nat (Z.of_nat (length l))) 0 k) as (k' & Hr & Hs & Ho' & Hoth).
  - split; [unfold same_but_heap; by destruct k|]. done.
  - intros i k1 Hi (Hs & Ho1 & Hoth). rewrite u64_small by lia.
    destruct (wr_law p _ (heap k1) (Z.to_nat i) 0 Ho1) as (h & Hwr & Ho2 & Hoth2).
    { rewrite length_app, length_replicate, length_drop. lia. }
    rewrite Z2Nat.id in Hwr by lia. exists (set_heap h k1). rewrite (on_heap_ok _ _ _ _ Hwr). split; [done|].
    split_and!; [rewrite Hs; done| |intros q lq Hq Hql; apply Hoth2; [done|by apply Hoth]].
    cbn. replace (Z.to_nat (i + 1)) with (S (Z.to_nat i)) by lia.
    destruct (lookup_lt_is_Some_2 l (Z.to_nat i)) as [v Hv]; [lia|].
    rewrite (drop_S _ v _ Hv) in Ho2. rewrite insert_app_r_alt in Ho2 by (rewrite length_replicate; lia).
    rewrite length_replicate, Nat.sub_diag in Ho2. cbn in Ho2. change (u8 0) with 0 in Ho2.
    rewrite replicate_S_end, <- app_assoc. done.
  - exists k'. split; [done|]. split; [done|]. split; [|done].
    rewrite Z.add_0_l, !Nat2Z.id, drop_ge, app_nil_r in Ho' by lia. done.
Qed.

(** Copying the first [n] bytes of one region to another. *)
Lemma copy_bytes_run p q l lq (n : nat) k :
  owns (heap k) p l -> owns (heap k) q lq -> p <> q -> 0 < p -> p + Z.of_nat (length l) < W64 ->
  0 < q -> q + Z.of_nat (length lq) < W64 -> (n <= length l)%nat -> (n <= length lq)%nat ->
  Forall (fun c => 0 <= c < 256) (take n lq) ->
  exists k', copy_bytes p q (Z.of_nat n) k = Ok tt k' /\ same_but_heap k k' /\
    owns (heap k') p (take n lq ++ drop n l) /\ forall r lr, r <> p -> owns (heap k) r lr -> owns (heap k') r lr.
Proof.
  intros Ho Hq Hne Hp Hw Hq0 Hqw Hn Hnq Hb. unfold copy_bytes.
  destruct (for_loop_ind (fun i k' => same_but_heap k k' /\
      owns (heap k') p (take (Z.to_nat i) lq ++ drop (Z.to_nat i) l) /\ owns (heap k') q lq /\
      forall r lr, r <> p -> owns (heap k) r lr -> owns (heap k') r lr)
    (fun i => v ← on_heap (hp_rd (q +64 i)); on_heap (hp_wr (p +64 i) v)) (Z.to_nat (Z.of_nat n)) 0 k) as (k' & Hr & Hs & Ho' & _ & Hoth).
  - split; [unfold same_but_heap; by destruct k|]. done.
  - intros i k1 Hi (Hs & Ho1 & Hq1 & Hoth). rewrite !u64_small by lia.
    destruct (lookup_lt_is_Some_2 lq (Z.to_nat i)) as [v Hv]; [lia|].
    assert (Hvb : 0 <= v < 256).
    { rewrite Forall_forall in Hb. apply Hb, list_elem_of_lookup. exists (Z.to_nat i). rewrite lookup_take_lt by lia. done. }
    pose proof (rd_law q lq (heap k1) (Z.to_nat i) v Hq1 Hv) as Hrd. rewrite Z2Nat.id in Hrd by lia.
    rewrite (bind_ok _ _ _ _ _ (on_heap_ok _ _ _ _ Hrd)).
    destruct (wr_law p _ (heap k1) (Z.to_nat i) v Ho1) as (h & Hwr & Ho2 & Hoth2).
    { rewrite length_app, length_take, length_drop. lia. }
    rewrite Z2Nat.id in Hwr by lia. exists (set_heap h k1). rewrite (on_heap_ok _ (set_heap (heap k1) k1) _ _ Hwr). split; [done|].
    split_and!; [rewrite Hs; done| |by apply Hoth2|intros r lr Hrp Hrl; apply Hoth2; [done|by apply Hoth]].
    cbn. replace (Z.to_nat (i + 1)) with (S (Z.to_nat i)) by lia.
    destruct (lookup_lt_is_Some_2 l (Z.to_nat i)) as [u Hu]; [lia|].
    rewrite (drop_S _ u _ Hu) in Ho2. rewrite insert_app_r_alt in Ho2 by (rewrite length_take; lia).
    rewrite length_take, Nat.min_l, Nat.sub_diag, (u8_small v) in Ho2 by lia. cbn in Ho2.
    rewrite (take_S_r _ _ v Hv), <- app_assoc. done.
  - exists k'. split; [done|]. split; [done|]. split; [|done]. by rewrite Z.add_0_l, !Nat2Z.id in Ho'.
Qed.

(** The waiting loop handles the keys of the line and ends with Enter. *)
Lemma wait_run scans : forall txt0 txt k,
  recording k txt0 -> is_shift_held k = false -> is_control_held k = false ->
  typed scans txt -> Z.of_nat (length txt0 + length txt) < 2 ^ 31 ->
  (exists msg, wait_recording (scans ++ [ENTER]) k = Panic msg /\ oom (HS := HS) msg) \/
  exists k1 k', recording k1 (txt0 ++ txt) /\ frame k k1 /\ screen k1 = screen k ++ txt /\
    wait_recording (scans ++ [ENTER]) k = Ok tt k' /\ k' = add_screen 10 (set_recording false k1).
Proof.
  induction scans as [|s scans IH]; intros txt0 txt k Hrec Hsh Hct Ht Hlen; inversion Ht as [|? c ? txt' [Hs Hc] Ht']; subst.
  - right. exists k, (add_screen 10 (set_recording false k)). rewrite !app_nil_r. split_and!; try done.
    cbn [app wait_recording]. unfold keyboard_is_recording. run_pure. rewrite (rc_on _ _ Hrec). by destruct k.
  - cbn [app wait_recording]. cbn in Hlen. unfold keyboard_is_recording. run_pure. rewrite (rc_on _ _ Hrec).
    destruct (key_run k txt0 s c) as [(msg & Hr & Ho)|(k1 & Hr & Hrec1 & Hfr1 & E1 & E2 & E3)]; try done; [lia| |].
    { left. exists msg. split; [by apply bind_panic|done]. }
    rewrite (bind_ok _ _ _ _ _ Hr).
    destruct (IH (txt0 ++ [c]) txt' k1) as [(msg & Hr' & Ho)|(k2 & k' & Hrec' & Hfr' & Hscr & Hr' & Ek)]; try done.
    { rewrite length_app. cbn. lia. }
    { left. by exists msg. }
    right. exists k2, k'. pose proof (frame_trans _ _ _ Hfr1 Hfr'). rewrite Hscr, E3, <- !app_assoc in *. done.
Qed.

End lemmas.

(** The system call [read]: the buffer, the recording and the console. *)
Lemma read_line_run {HS} `{!HeapIface HS} `{!HeapLaws HS} (k : keyboard HS) data scans txt l :
  Interrupt.rax data = 0 -> Interrupt.rdi data = 0 -> Interrupt.rdx data = Z.of_nat (length l) ->
  0 < Interrupt.rsi data -> Interrupt.rsi data + Z.of_nat (length l) < W64 -> owns (heap k) (Interrupt.rsi data) l ->
  is_shift_held k = false -> is_control_held k = false -> typed scans txt -> Z.of_nat (length txt) < 2 ^ 31 ->
  (exists msg, syscall_routine (scans ++ [ENTER]) data k = Panic msg /\ oom (HS := HS) msg) \/
  exists k', syscall_routine (scans ++ [ENTER]) data k = Ok tt k' /\
    owns (heap k') (Interrupt.rsi data) (take (length l) txt ++ replicate (length l - length txt) 0) /\
    is_recording k' = false /\ screen k' = screen k ++ txt ++ [10].
Proof.
  intros Ha Hd Hn Hb Hbw Hbuf Hsh Hct Ht Hlen. unfold syscall_routine. rewrite Ha, Hd, Hn. cbn [Z.eqb].
  destruct (start_run k) as [(msg & Hr & Ho)|(k1 & Hr & Hrec & Hfr0 & Hs & E1 & E2)].
  { left. exists msg. split; [by apply bind_panic|done]. }
  rewrite (bind_ok _ _ _ _ _ Hr). destruct (Hfr0 _ _ Hbuf) as [Hne1 Hbuf1].
  destruct (wait_run scans [] txt k1) as [(msg & Hr' & Ho)|(k2 & k3 & Hrec2 & Hfr2 & Hscr & Hr' & ->)]; try done; [congruence|congruence|..].
  { left. exists msg. split; [by apply bind_panic|done]. }
  rewrite (bind_ok _ _ _ _ _ Hr'). right. destruct (Hfr2 _ _ Hne1 Hbuf1) as [Hne2 Hbuf2]. cbn [app] in Hrec2.
  unfold keyboard_get_recording. run_pure. destruct Hrec2 as [_ Hsz Hfit Hcap Haddr (lp & Hlp & Hlpl & Hlt) Hby].
  set (k3 := add_screen 10 (set_recording false k2)).
  change (pressed_size k3) with (pressed_size k2). change (pressed k3) with (pressed k2). rewrite Hsz.
  destruct (set_bytes_run (Interrupt.rsi data) l k3) as (k4 & Hr4 & Hs4 & Hb4 & Hoth4); try done.
  rewrite (bind_ok _ _ _ _ _ Hr4).
  replace (min (Z.of_nat (length l)) (Z.of_nat (length txt))) with (Z.of_nat (Nat.min (length l) (length txt))) by (unfold min; btests; lia).
  assert (Htake : take (Nat.min (length l) (length txt)) lp = take (length l) txt).
  { transitivity (take (length l) (take (length txt) lp)); [by rewrite take_take|by rewrite Hlt]. }
  destruct (copy_bytes_run (Interrupt.rsi data) (pressed k2) (replicate (length l) 0) lp (Nat.min (length l) (length txt)) k4)
    as (k5 & Hr5 & Hs5 & Hb5 & Hoth5); try done; try lia; rewrite ?length_replicate; try lia.
  { apply Hoth4; [congruence|done]. }
  { rewrite Htake. apply Forall_take. done. }
  rewrite (bind_ok _ _ _ _ _ Hr5). unfold keyboard_end_recording. run_pure.
  assert (Hp5 : pressed k5 = pressed k2) by (rewrite Hs5, Hs4; done).
  assert (Hl5 : owns (heap k5) (pressed k2) lp) by (apply Hoth5; [congruence|]; apply Hoth4; [congruence|done]).
  destruct (free_law (pressed k2) lp (heap k5) Hl5) as (h & Hf & Hoth6).
  cbn [set_buffer pressed]. rewrite Hp5.
  rewrite (bind_ok _ _ _ _ _ (on_heap_ok _ (set_buffer (pressed k2) 0 0 k5) tt h Hf)).
  eexists. split; [reflexivity|]. split_and!; [|done|].
  - cbn. apply Hoth6; [done|]. rewrite Htake in Hb5. rewrite drop_replicate in Hb5.
    replace (length l - Nat.min (length l) (length txt))%nat with (length l - length txt)%nat in Hb5 by lia. done.
  - cbn. rewrite Hs5, Hs4. cbn. rewrite Hscr, Hs, <- app_assoc. done.
Qed.

(** ** Blocks that are taken and not released

    A heap together with the blocks that its clients have taken and not yet
    released. *)

Record counted (HS : Type) := Counted { plain : HS; taken : gmultiset Z }.
Arguments Counted {HS} _ _.
Arguments plain {HS} _.
Arguments taken {HS} _.

Section counted.
Context {HS : Type} `{!HeapIface HS}.
Notation KC := (M (keyboard (counted HS))).
Implicit Types k : keyboard (counted HS).

Definition counting {A} (c : M HS A) (f : A -> gmultiset Z -> gmultiset Z) : M (counted HS) A := fun s =>
  match c (plain s) with Ok a h => Ok a (Counted h (f a (taken s))) | Panic msg => Panic msg | Fault => Fault | OutOfFuel => OutOfFuel end.

#[export] Instance counted_iface : HeapIface (counted HS) := {
  hp_calloc n := counting (hp_calloc n) (fun p t => {[+ p +]} ⊎ t);
  hp_free p := counting (hp_free p) (fun _ t => t ∖ {[+ p +]});
  hp_rd a := counting (hp_rd a) (fun _ t => t);
  hp_wr a v := counting (hp_wr a v) (fun _ t => t);
}.

#[export] Instance counted_laws `{!HeapLaws HS} : HeapLaws (counted HS).
Proof.
  refine {| owns s := owns (plain s) |}.
  - intros n s Hn. pose proof (calloc_law n (plain s) Hn) as H. cbn. unfold counting. by destruct (hp_calloc n (plain s)).
  - intros p l s Ho. destruct (free_law p l (plain s) Ho) as (h & Hf & Hoth). cbn. unfold counting. rewrite Hf. by eexists.
  - intros p l s i v Ho Hv. cbn. unfold counting. rewrite (rd_law p l (plain s) i v Ho Hv). by destruct s.
  - intros p l s i v Ho Hi. destruct (wr_law p l (plain s) i v Ho Hi) as (h & Hw & Hrest). cbn. unfold counting. rewrite Hw. by eexists.
Defined.

(** The blocks taken are those of [B] and the buffer of the recording. *)
Definition ledger (B : gmultiset Z) k : Prop := taken (heap k) = {[+ pressed k +]} ⊎ B.

(** A program that keeps it so. *)
Definition keeps {A} (c : KC A) : Prop := forall B k a k', ledger B k -> c k = Ok a k' -> ledger B k'.

Lemma keeps_ret {A} (a : A) : keeps (mret a).
Proof. intros B k b k' Hl E. by injection E as _ <-. Qed.

Lemma keeps_bind {A C} (c : KC A) (f : A -> KC C) : keeps c -> (forall a, keeps (f a)) -> keeps (c ≫= f).
Proof. intros Hc Hf B k b k' Hl E. apply bind_inv in E as (a & k1 & E1 & E2). eapply Hf; [|exact E2]. by eapply Hc. Qed.

Lemma keeps_gets {A} (g : keyboard (counted HS) -> A) : keeps (gets g).
Proof. intros B k b k' Hl E. by injection E as _ <-. Qed.

Lemma keeps_modify g : (forall k, heap (g k) = heap k /\ pressed (g k) = pressed k) -> keeps (modify g).
Proof. intros Hg B k b k' Hl E. injection E as _ <-. destruct (Hg k) as [E1 E2]. unfold ledger. by rewrite E1, E2. Qed.

Lemma keeps_panic {A} msg : keeps (panic msg : KC A).
Proof. by intros B k b k' _ E. Qed.

Lemma keeps_fuel {A} : keeps (out_of_fuel : KC A).
Proof. by intros B k b k' _ E. Qed.

Lemma keeps_heap {A} (c : M HS A) : keeps (on_heap (counting c (fun _ t => t))).
Proof. intros B k b k' Hl E. unfold on_heap, counting in E. destruct (c (plain (heap k))); [|done..]. by injection E as _ <-. Qed.

Lemma keeps_loop n body : (forall i, keeps (body i)) -> forall i, keeps (for_loop n i body).
Proof. intros Hb. induction n as [|n IH]; intros i; cbn [for_loop]; [apply keeps_ret|]. apply keeps_bind; [apply Hb|auto]. Qed.

Ltac keeps_one := first
  [ apply keeps_ret | apply keeps_gets | apply keeps_panic | apply keeps_fuel | apply keeps_heap
  | apply keeps_modify; done | apply keeps_loop; intros | apply keeps_bind; intros | case_match ].
Ltac keeps_step := repeat keeps_one.

Lemma swap_block (x y : Z) (B : gmultiset Z) : ({[+ x +]} ⊎ ({[+ y +]} ⊎ B)) ∖ {[+ y +]} = {[+ x +]} ⊎ B.
Proof. multiset_solver. Qed.

Lemma drop_block (x : Z) (B : gmultiset Z) : ({[+ x +]} ⊎ B) ∖ {[+ x +]} = B.
Proof. multiset_solver. Qed.

(** The larger buffer takes the place of the old one. *)
Lemma keeps_grow : keeps grow_pressed.
Proof.
  intros B k u k' Hl E. unfold grow_pressed in E. rewrite !bind_gets in E. cbn zeta in E. apply bind_inv in E as (p & k1 & E1 & E).
  rewrite bind_modify in E. apply bind_inv in E as (u1 & k2 & E2 & E).
  assert (H1 : taken (heap k1) = {[+ p +]} ⊎ taken (heap k) /\ k1 = set_heap (heap k1) k).
  { unfold on_heap in E1. cbn in E1. unfold counting in E1. destruct (hp_calloc _ (plain (heap k))); [|done..]. by injection E1 as <- <-. }
  destruct H1 as [H1 E1'].
  set (k1' := set_buffer p _ _ k1) in E2. assert (Hl2 : ledger ({[+ pressed k +]} ⊎ B) k2).
  { revert E2. apply (fun H : keeps _ => H ({[+ pressed k +]} ⊎ B) k1' u1 k2); [keeps_step|].
    unfold ledger in *. change (taken (heap k1) = {[+ p +]} ⊎ ({[+ pressed k +]} ⊎ B)). by rewrite H1, Hl. }
  unfold on_heap in E. cbn in E. unfold counting in E. destruct (hp_free _ (plain (heap k2))); [|done..].
  injection E as _ <-. unfold ledger in *. transitivity (taken (heap k2) ∖ {[+ pressed k +]}); [done|]. rewrite Hl2. apply swap_block.
Qed.

Lemma keeps_routine scan : keeps (keyboard_routine scan).
Proof. unfold keyboard_routine, vga_putchar, record_char. repeat first [apply keeps_grow | keeps_one]. Qed.

Lemma keeps_wait scans : keeps (wait_recording scans).
Proof. induction scans as [|s scans IH]; cbn [wait_recording]; unfold keyboard_is_recording; repeat first [apply keeps_routine | apply IH | keeps_one]. Qed.

(** The whole of the system call gives back what it has taken. *)
Lemma read_releases scans data k k' : Interrupt.rax data = 0 -> Interrupt.rdi data = 0 ->
  syscall_routine scans data k = Ok tt k' -> taken (heap k') = taken (heap k).
Proof.
  intros Ha Hd E. unfold syscall_routine in E. rewrite Ha, Hd in E. cbn [Z.eqb] in E.
  apply bind_inv in E as ([] & k1 & E1 & E). set (B := taken (heap k)).
  assert (H1 : ledger B k1).
  { unfold keyboard_start_recording in E1. rewrite bind_modify in E1. apply bind_inv in E1 as (p & k0 & E0 & E1).
    injection E1 as <-. unfold on_heap in E0. cbn in E0. unfold counting in E0. destruct (hp_calloc _ (plain (heap k))); [|done..]. by injection E0 as <- <-. }
  apply bind_inv in E as ([] & k2 & E2 & E). pose proof (keeps_wait scans B k1 tt k2 H1 E2) as H2.
  unfold keyboard_get_recording in E. rewrite bind_gets in E. cbn beta iota zeta in E.
  apply bind_inv in E as ([] & k3 & E3 & E). assert (H3 : ledger B k3) by (revert E3; apply (fun H : keeps _ => H B k2 tt k3 ltac:(done)); unfold set_bytes; keeps_step).
  apply bind_inv in E as ([] & k4 & E4 & E). assert (H4 : ledger B k4) by (revert E4; apply (fun H : keeps _ => H B k3 tt k4 ltac:(done)); unfold copy_bytes; keeps_step).
  unfold keyboard_end_recording in E. rewrite bind_modify, bind_gets in E. apply bind_inv in E as ([] & k5 & E5 & E). injection E as <-.
  unfold on_heap in E5. cbn in E5. unfold counting in E5. destruct (hp_free _ (plain (heap k4))); [|done..]. injection E5 as _ <-.
  transitivity (taken (heap k4) ∖ {[+ pressed k4 +]}); [done|]. unfold ledger in H4. rewrite H4. apply drop_block.
Qed.

End counted.

(** C24. The system call [read] on standard input: with plain character keys
    (neither shift nor control is held) and fewer than 2^31 of them, the program's
    buffer ends up with the line that was typed before Enter, cut to the buffer's
    size and padded with zeros; the line and the newline are the characters that
    have been sent to the console, the recording is over, and every block that
    the call has taken from the heap has been released.  The keyboard interrupts
    come in while the call is waiting.  The only other outcome is that the heap
    has run out. *)
Theorem syscall_read_line {HS} `{!HeapIface HS} `{!HeapLaws HS} (k : keyboard (counted HS)) data scans txt l :
  Interrupt.rax data = 0 -> Interrupt.rdi data = 0 -> Interrupt.rdx data = Z.of_nat (length l) ->
  0 < Interrupt.rsi data -> Interrupt.rsi data + Z.of_nat (length l) < W64 -> owns (heap k) (Interrupt.rsi data) l ->
  is_shift_held k = false -> is_control_held k = false -> typed scans txt -> Z.of_nat (length txt) < 2 ^ 31 ->
  (exists msg, syscall_routine (scans ++ [ENTER]) data k = Panic msg /\ oom (HS := counted HS) msg) \/
  exists k', syscall_routine (scans ++ [ENTER]) data k = Ok tt k' /\
    owns (heap k') (Interrupt.rsi data) (take (length l) txt ++ replicate (length l - length txt) 0) /\
    taken (heap k') = taken (heap k) /\
    is_recording k' = false /\ screen k' = screen k ++ txt ++ [10].
Proof.
  intros Ha Hd Hn Hb Hbw Hbuf Hsh Hct Ht Hlen.
  destruct (read_line_run k data scans txt l) as [H|(k' & Hr & Ho & Hrec & Hscr)]; try done; [by left|]. right. exists k'.
  split_and!; try done. by eapply read_releases.
Qed.

(** A machine with a user buffer of ten bytes in slot 1. *)
Definition user_kb : keyboard (counted slots) := Kb false false false 0 0 0 (Counted (2, <[1:=replicate 10 7]> ∅) ∅) [].

Lemma syscall_read_line_witness :
  (exists msg, syscall_routine ([35; 18; 38; 38; 24] ++ [ENTER]) (Interrupt.IData 0 0 slot 10 128 0) user_kb = Panic msg /\ oom (HS := counted slots) msg) \/
  exists k', syscall_routine ([35; 18; 38; 38; 24] ++ [ENTER]) (Interrupt.IData 0 0 slot 10 128 0) user_kb = Ok tt k' /\
    owns (heap k') slot (take 10 [104; 101; 108; 108; 111] ++ replicate (10 - 5) 0) /\
    taken (heap k') = taken (heap user_kb) /\
    is_recording k' = false /\ screen k' = [] ++ [104; 101; 108; 108; 111] ++ [10].
Proof.
  apply (syscall_read_line user_kb (Interrupt.IData 0 0 slot 10 128 0) [35; 18; 38; 38; 24] [104; 101; 108; 108; 111] (replicate 10 7));
    [done|done|done|vm_compute; done|vm_compute; done| |done|done| |vm_compute; done].
  - change (slot_owns (plain (heap user_kb)) slot (replicate 10 7)). exists 1. split; [reflexivity|]. split; [reflexivity|vm_compute; done].
  - unfold typed. repeat first [apply Forall2_nil; done | apply Forall2_cons; split; [split; [lia|reflexivity]|]].
Defined.

End Syscall.
