(* ===== verification/Disk.v ===== *)
(** * What the disk driver promises to the file system

    [DiskIface] has the two operations of file/nvme.h; the laws of [DiskLaws]
    describe a transfer of one block ([num_lbas] = 1, the only case in use)
    between the disk and a buffer of the kernel heap.  The result of the
    operations carries no information (see file Nvme) and the callers do not
    look at it. *)

From S2P Require Import Prelude KMath KHeap.
Import KMath KHeap.

Module Disk.

Definition NVME_LBA_SIZE : Z := 512.

Class DiskIface (S : Type) := {
  nvme_read : Z -> Z -> Z -> M S bool;
  nvme_write : Z -> Z -> Z -> M S bool;
}.

(** A block of the disk. *)
Definition is_block (b : list Z) : Prop := length b = 512%nat /\ Forall (fun c => 0 <= c < 256) b.

Class DiskLaws (S : Type) `{!HeapIface S} `{!HeapLaws S} `{!DiskIface S} := {
  disk : S -> gmap Z (list Z);
  disk_read_law : forall s lba b p l off,
    owns s p l -> (off + 512 <= length l)%nat -> disk s !! lba = Some b -> is_block b ->
    exists r s', nvme_read lba 1 (p + Z.of_nat off) s = Ok r s' /\ owns s' p (patch off b l) /\
      (forall q lq, q <> p -> owns s q lq -> owns s' q lq) /\ disk s' = disk s;
  disk_write_law : forall s lba b p l off,
    owns s p l -> (off + 512 <= length l)%nat -> Forall (fun c => 0 <= c < 256) l -> disk s !! lba = Some b ->
    exists r s', nvme_write lba 1 (p + Z.of_nat off) s = Ok r s' /\
      (forall q lq, owns s q lq -> owns s' q lq) /\ disk s' = <[lba:=take 512 (drop off l)]> (disk s);
  calloc_disk : forall n s p s', hp_calloc n s = Ok p s' -> disk s' = disk s;
  free_disk : forall p s s', hp_free p s = Ok tt s' -> disk s' = disk s;
  wr_disk : forall a v s s', hp_wr a v s = Ok tt s' -> disk s' = disk s;
}.

(** ** A disk for the witnesses: the heap of file KHeap and a map of blocks *)

Abbreviation ramdisk := (slots * gmap Z (list Z))%type.

Definition on_slots {A} (c : M slots A) : M ramdisk A := fun '(h, d) =>
  match c h with
  | Ok a h' => Ok a (h', d)
  | Panic msg => Panic msg
  | Fault => Fault
  | OutOfFuel => OutOfFuel
  end.

#[global] Instance ramdisk_heap : HeapIface ramdisk := {
  hp_calloc n := on_slots (hp_calloc n);
  hp_free p := on_slots (hp_free p);
  hp_rd a := on_slots (hp_rd a);
  hp_wr a v := on_slots (hp_wr a v);
}.

#[global] Instance ramdisk_iface : DiskIface ramdisk := {
  nvme_read lba n addr := fun '(h, d) =>
    match d !! lba with
    | Some b => if n =? 1 then (st_bytes addr b;; mret true) (h, d) else Fault
    | None => Ok false (h, d)
    end;
  nvme_write lba n addr := fun '(h, d) =>
    match d !! lba with
    | Some _ => if n =? 1 then
        match ld_bytes 512 addr h with Ok b _ => Ok true (h, <[lba:=b]> d) | _ => Fault end
        else Fault
    | None => Ok false (h, d)
    end;
}.

#[global] Instance ramdisk_heap_laws : HeapLaws ramdisk.
Proof.
  refine {| owns := fun s => owns (fst s) |}.
  - intros n [h d] Hn. cbn -[hp_calloc]. pose proof (calloc_law n h Hn) as H. unfold hp_calloc at 1, ramdisk_heap, on_slots.
    destruct (hp_calloc n h); done.
  - intros p l [h d] Ho. destruct (free_law p l h Ho) as (h' & Hf & Hoth). exists (h', d).
    unfold hp_free at 1, ramdisk_heap, on_slots. rewrite Hf. split; [done|]. intros q l' Hq Hql. by apply Hoth.
  - intros p l [h d] i v Ho Hi. unfold hp_rd at 1, ramdisk_heap, on_slots. by rewrite (rd_law p l h i v Ho Hi).
  - intros p l [h d] i v Ho Hi. destruct (wr_law p l h i v Ho Hi) as (h' & Hw & Ho' & Hoth). exists (h', d).
    unfold hp_wr at 1, ramdisk_heap, on_slots. rewrite Hw. split; [done|]. split; [done|]. intros q l' Hq Hql. by apply Hoth.
Defined.

(** Stores through the heap leave the blocks alone. *)
Lemma st_bytes_disk (b : list Z) : forall a (s s' : ramdisk), st_bytes a b s = Ok tt s' -> s'.2 = s.2.
Proof.
  induction b as [|c b IH]; intros a [h d] s'; cbn [st_bytes]; [by intros [= <-]|].
  unfold mbind, M_bind, hp_wr, ramdisk_heap, on_slots. destruct (hp_wr a c h) as [? h1| | |]; [|done..].
  intros H. by apply IH in H.
Qed.

#[global] Instance ramdisk_laws : DiskLaws ramdisk.
Proof.
  refine {| disk := snd |}.
  - intros [h d] lba b p l off Ho Hl Hb [Hbl Hbb]. cbn in Hb. unfold nvme_read, ramdisk_iface. rewrite Hb. cbn [Z.eqb Pos.eqb].
    destruct (st_bytes_run b (h, d) p l off Ho) as (s' & Hr & Ho' & Hoth); [lia|done|].
    exists true, s'. rewrite (bind_ok _ _ _ _ _ Hr). split; [done|]. split; [done|]. split; [done|].
    by apply st_bytes_disk in Hr.
  - intros [h d] lba b p l off Ho Hl Hbb Hb. cbn in Hb. unfold nvme_write, ramdisk_iface. rewrite Hb. cbn [Z.eqb Pos.eqb].
    rewrite (ld_bytes_run 512 h p l off Ho) by lia. eexists true, _. split; [done|]. done.
  - intros n [h d] p s'. unfold hp_calloc, ramdisk_heap, on_slots. destruct (hp_calloc n h); [|done..]. by intros [= _ <-].
  - intros p [h d] s'. unfold hp_free, ramdisk_heap, on_slots. destruct (hp_free p h) as [[]| | |]; [|done..]. by intros [= <-].
  - intros a v [h d] s'. unfold hp_wr, ramdisk_heap, on_slots. destruct (hp_wr a v h) as [[]| | |]; [|done..]. by intros [= <-].
Defined.

End Disk.
