(* ===== verification/Gpt.v ===== *)
(** * file/gpt.c: finding the FAT partition in the partition table *)

From S2P Require Import Prelude KMath KHeap Disk.
Import KMath KHeap Disk.

Module Gpt.

Section gpt.
Context {S : Type} `{!HeapIface S} `{!DiskIface S}.

(** "EFI PART", and the GUID of a Microsoft basic data partition *)
Definition GPT_SIGNATURE : Z := 0x5452415020494645.
Definition FAT_GUID0 : Z := 0x4433B9E5EBD0A0A2.
Definition FAT_GUID1 : Z := 0xC79926B7B668C087.

(** The fields of a partition entry, 128 bytes. *)
Definition guid0 (e : list Z) : Z := field e 0 8.
Definition guid1 (e : list Z) : Z := field e 8 8.
Definition first_lba (e : list Z) : Z := field e 32 8.
Definition last_lba (e : list Z) : Z := field e 40 8.

(** the loop over the four entries of a block *)
Fixpoint read_entries (n : nat) (j header entries : Z) (part : Z * Z) : M S (Z * Z) :=
  match n with
  | O => mret part
  | Datatypes.S n' =>
    entry ← ld_bytes 128 (entries + 128 * j);
    if (guid0 entry =? 0) && (guid1 entry =? 0) then read_entries n' (j + 1) header entries part
    else if negb (guid0 entry =? FAT_GUID0) || negb (guid1 entry =? FAT_GUID1) then
      read_entries n' (j + 1) header entries part
    else if negb (part.1 =? 0) || negb (part.2 =? 0) then
      hp_free header;;
      hp_free entries;;
      panic "gpt: more than 1 FAT partition found! (not yet supported)"
    else read_entries n' (j + 1) header entries (first_lba entry, last_lba entry)
  end.

(** the loop over the blocks *)
Fixpoint read_blocks (n : nat) (i header entries : Z) (part : Z * Z) : M S (Z * Z) :=
  match n with
  | O => mret part
  | Datatypes.S n' =>
    nvme_read i 1 entries;;
    part ← read_entries 4 0 header entries part;
    read_blocks n' (i + 1) header entries part
  end.

Definition gpt_read : M S (Z * Z) :=
  header ← hp_calloc NVME_LBA_SIZE;
  nvme_read 1 1 header;;
  signature ← ld 8 header;
  if negb (signature =? GPT_SIGNATURE) then panic "gpt: no header found at LBA 1" else
  part_array_start_lba ← ld 8 (header + 72);
  part_array_entry_size ← ld 4 (header + 84);
  current_lba ← ld 8 (header + 24);
  header_size ← ld 4 (header + 12);
  if negb (part_array_start_lba =? 2) || negb (part_array_entry_size =? 128) ||
     negb (part_array_entry_size =? 128) || negb (current_lba =? 1) || negb (header_size =? 92)
  then panic "gpt: unknown error" else
  entries ← hp_calloc NVME_LBA_SIZE;
  part ← read_blocks 32 2 header entries (0, 0);
  hp_free header;;
  hp_free entries;;
  if (part.1 =? 0) && (part.2 =? 0) then panic "gpt: no FAT partition found!" else mret part.

End gpt.

(** ** Specification *)

(** The four entries of a block and the entries of the whole table. *)
Definition block_entries (b : list Z) : list (list Z) :=
  [take 128 b; take 128 (drop 128 b); take 128 (drop 256 b); take 128 (drop 384 b)].
Definition is_fat (e : list Z) : bool := (guid0 e =? FAT_GUID0) && (guid1 e =? FAT_GUID1).
Definition fats (blocks : list (list Z)) : list (list Z) := List.filter is_fat (concat (block_entries <$> blocks)).

Definition header_ok (b : list Z) : bool :=
  (field b 72 8 =? 2) && (field b 84 4 =? 128) && (field b 24 8 =? 1) && (field b 12 4 =? 92).

(** What the scan ends with, as a function of the FAT entries it meets. *)
Inductive scan_result (part : Z * Z) : list (list Z) -> (Z * Z + string) -> Prop :=
| scan_none : scan_result part [] (inl part)
| scan_first e l r : part = (0, 0) -> scan_result (first_lba e, last_lba e) l r -> scan_result part (e :: l) r
| scan_again e l : part <> (0, 0) ->
    scan_result part (e :: l) (inr "gpt: more than 1 FAT partition found! (not yet supported)").

Section props.
Context {S : Type} `{!HeapIface S} `{!HeapLaws S} `{!DiskIface S} `{!DiskLaws S}.

(** The buffers of [gpt_read]. *)
Record buffers (s : S) (header entries : Z) (b : list Z) : Prop := {
  bf_header : exists l, owns s header l;
  bf_entries : owns s entries b;
  bf_ne : header <> entries;
}.

Lemma fat_guid_nonzero e : is_fat e = true -> (guid0 e =? 0) && (guid1 e =? 0) = false.
Proof. unfold is_fat, FAT_GUID0, FAT_GUID1. intros [H1 H2]%andb_true_iff. lia. Qed.

Lemma free_both s header entries b : buffers s header entries b ->
  exists s', (hp_free header;; hp_free entries) s = Ok tt s' /\ disk s' = disk s.
Proof.
  intros [[l Hl] He Hne]. destruct (free_law header l s Hl) as (s1 & H1 & Ho1).
  destruct (free_law entries b s1) as (s2 & H2 & _); [by apply Ho1|].
  exists s2. rewrite (bind_ok _ _ _ _ _ H1), H2. split; [done|]. by rewrite (free_disk _ _ _ H2), (free_disk _ _ _ H1).
Qed.

(** The entries of one block, from the [j]-th on. *)
Lemma read_entries_run n : forall j s header entries b part,
  buffers s header entries b -> length b = 512%nat -> (j + n = 4)%nat ->
  exists r, scan_result part (List.filter is_fat (drop j (block_entries b))) r /\
    match r with
    | inl part' => read_entries n (Z.of_nat j) header entries part s = Ok part' s
    | inr msg => read_entries n (Z.of_nat j) header entries part s = Panic msg
    end.
Proof.
  induction n as [|n IH]; intros j s header entries b part Hb Hlen Hj.
  { assert (j = 4%nat) as -> by lia. exists (inl part). split; [constructor|done]. }
  cbn [read_entries]. replace (entries + 128 * Z.of_nat j) with (entries + Z.of_nat (128 * j)) by lia.
  rewrite (bind_ok _ _ _ _ _ (ld_bytes_run 128 s entries b (128 * j) (bf_entries _ _ _ _ Hb) ltac:(lia))).
  set (e := take 128 (drop (128 * j) b)).
  assert (Hd : drop j (block_entries b) = e :: drop (Datatypes.S j) (block_entries b)).
  { assert (j = 0 \/ j = 1 \/ j = 2 \/ j = 3)%nat as [-> | [-> | [-> | ->]]] by lia; subst e; cbn -[take drop]; try rewrite drop_0; done. }
  rewrite Hd. cbn [List.filter]. specialize (IH (Datatypes.S j) s header entries b).
  replace (Z.of_nat j + 1) with (Z.of_nat (Datatypes.S j)) by lia.
  destruct (is_fat e) eqn:Hf.
  - rewrite fat_guid_nonzero by done. unfold is_fat in Hf. apply andb_true_iff in Hf as [-> ->]. cbn [negb orb].
    destruct part as [x y]. cbn [fst snd]. destruct (decide ((x, y) = (0, 0))) as [[= -> ->]|Hne].
    + cbn [Z.eqb negb orb]. destruct (IH (first_lba e, last_lba e) Hb Hlen ltac:(lia)) as (r & Hr & Hrun).
      exists r. split; [by constructor|done].
    + replace (negb (x =? 0) || negb (y =? 0)) with true by
        (symmetry; destruct (Z.eqb_spec x 0), (Z.eqb_spec y 0); subst; done).
      eexists (inr _). split; [by constructor|]. cbn. destruct Hb as [[l Hl] He Hn].
      destruct (free_law header l s Hl) as (s1 & H1 & Ho1). destruct (free_law entries b s1) as (s2 & H2 & _); [by apply Ho1|].
      by rewrite (bind_ok _ _ _ _ _ H1), (bind_ok _ _ _ _ _ H2).
  - destruct (IH part Hb Hlen ltac:(lia)) as (r & Hr & Hrun). exists r. split; [done|].
    destruct ((guid0 e =? 0) && (guid1 e =? 0)); [done|].
    unfold is_fat in Hf. replace (negb (guid0 e =? FAT_GUID0) || negb (guid1 e =? FAT_GUID1)) with true; [done|].
    symmetry. destruct (guid0 e =? FAT_GUID0), (guid1 e =? FAT_GUID1); done.
Qed.

Lemma scan_app part l1 l2 r :
  scan_result part l1 r ->
  match r with
  | inl part1 => forall r2, scan_result part1 l2 r2 -> scan_result part (l1 ++ l2) r2
  | inr msg => scan_result part (l1 ++ l2) (inr msg)
  end.
Proof.
  induction 1 as [|part e l r Hp Hr IH|part e l Hp]; [done| |by constructor].
  destruct r; [intros r2 H2|]; cbn; constructor; auto.
Qed.

Lemma read_blocks_run blocks : forall i s header entries b part,
  buffers s header entries b -> length b = 512%nat ->
  (forall k bl, blocks !! k = Some bl -> disk s !! (i + Z.of_nat k) = Some bl /\ is_block bl) ->
  exists r, scan_result part (fats blocks) r /\
    match r with
    | inl part' => exists s' b', read_blocks (length blocks) i header entries part s = Ok part' s' /\
        buffers s' header entries b' /\ disk s' = disk s
    | inr msg => read_blocks (length blocks) i header entries part s = Panic msg
    end.
Proof.
  induction blocks as [|bl blocks IH]; intros i s header entries b part Hb Hlen Hbl.
  { exists (inl part). split; [constructor|]. by exists s, b. }
  cbn [read_blocks length]. destruct (Hbl 0%nat bl eq_refl) as [Hd Hib]. rewrite Z.add_0_r in Hd.
  destruct Hb as [[l Hl] He Hne].
  destruct (disk_read_law s i bl entries b 0 He ltac:(lia) Hd Hib) as (r0 & s1 & Hr & He1 & Hoth & Hdk).
  rewrite Z.add_0_r in Hr. rewrite (bind_ok _ _ _ _ _ Hr).
  assert (Hp : patch 0 bl b = bl).
  { unfold patch. rewrite take_0, drop_ge by (destruct Hib; lia). by rewrite app_nil_r. }
  rewrite Hp in He1. assert (Hb1 : buffers s1 header entries bl) by (split; [exists l; by apply Hoth|done|done]).
  destruct (read_entries_run 4 0 s1 header entries bl part Hb1 (proj1 Hib) eq_refl) as (r & Hsc & Hrun).
  unfold fats. cbn [fmap list_fmap concat]. rewrite List.filter_app. fold (fats blocks).
  rewrite drop_0 in Hsc. pose proof (scan_app _ _ (fats blocks) _ Hsc) as Happ. destruct r as [part1|msg].
  - destruct (IH (i + 1) s1 header entries bl part1 Hb1 (proj1 Hib)) as (r2 & Hsc2 & Hrun2).
    { intros k b2 Hk. rewrite Hdk. replace (i + 1 + Z.of_nat k) with (i + Z.of_nat (Datatypes.S k)) by lia. by apply Hbl. }
    exists r2. split; [by apply Happ|]. rewrite (bind_ok _ _ _ _ _ Hrun). rewrite Hdk in Hrun2. done.
  - exists (inr msg). split; [done|]. by apply bind_panic.
Qed.

Lemma scan_result_fun part l r : scan_result part l r -> part = (0, 0) -> Forall (fun e => (first_lba e, last_lba e) <> (0, 0)) l ->
  match l with
  | [] => r = inl (0, 0)
  | [e] => r = inl (first_lba e, last_lba e)
  | _ => r = inr "gpt: more than 1 FAT partition found! (not yet supported)"
  end.
Proof.
  intros Hr -> Hl. inversion Hr as [|e l' r' _ Hr'|e l' Hn]; subst; [done| |done].
  apply Forall_cons in Hl as [He _]. inversion Hr' as [|e2 l2 r2 Hz|e2 l2 Hn]; subst; [done|by destruct He|done].
Qed.

(** The header block has been read and the checks have passed or not. *)
Lemma header_run s p hb : owns s p hb -> is_block hb ->
  (forall (A : Type) (c1 c2 c3 : M S A),
    (signature ← ld 8 p;
     if negb (signature =? GPT_SIGNATURE) then c1 else
     part_array_start_lba ← ld 8 (p + 72);
     part_array_entry_size ← ld 4 (p + 84);
     current_lba ← ld 8 (p + 24);
     header_size ← ld 4 (p + 12);
     if negb (part_array_start_lba =? 2) || negb (part_array_entry_size =? 128) ||
        negb (part_array_entry_size =? 128) || negb (current_lba =? 1) || negb (header_size =? 92)
     then c2 else c3) s =
    (if negb (field hb 0 8 =? GPT_SIGNATURE) then c1 else if negb (header_ok hb) then c2 else c3) s).
Proof.
  intros Ho [Hl _] A c1 c2 c3.
  pose proof (ld_run 8 s p hb 0 Ho ltac:(lia)) as H0. rewrite Z.add_0_r in H0. rewrite (bind_ok _ _ _ _ _ H0).
  destruct (negb (field hb 0 8 =? GPT_SIGNATURE)); [done|].
  rewrite (bind_ok _ _ _ _ _ (ld_run 8 s p hb 72 Ho ltac:(lia))), (bind_ok _ _ _ _ _ (ld_run 4 s p hb 84 Ho ltac:(lia))),
    (bind_ok _ _ _ _ _ (ld_run 8 s p hb 24 Ho ltac:(lia))), (bind_ok _ _ _ _ _ (ld_run 4 s p hb 12 Ho ltac:(lia))).
  unfold header_ok. destruct (field hb 72 8 =? 2), (field hb 84 4 =? 128), (field hb 24 8 =? 1), (field hb 12 4 =? 92); done.
Qed.

(** The whole function. *)
Lemma gpt_read_run s hb blocks :
  disk s !! 1 = Some hb -> is_block hb -> length blocks = 32%nat ->
  (forall k bl, blocks !! k = Some bl -> disk s !! (2 + Z.of_nat k) = Some bl /\ is_block bl) ->
  Forall (fun e => (first_lba e, last_lba e) <> (0, 0)) (fats blocks) ->
  (exists msg, gpt_read s = Panic msg /\ oom (HS := S) msg) \/
  if negb (field hb 0 8 =? GPT_SIGNATURE) then gpt_read s = Panic "gpt: no header found at LBA 1"
  else if negb (header_ok hb) then gpt_read s = Panic "gpt: unknown error"
  else match fats blocks with
  | [] => gpt_read s = Panic "gpt: no FAT partition found!"
  | [e] => exists s', gpt_read s = Ok (first_lba e, last_lba e) s' /\ disk s' = disk s
  | _ => gpt_read s = Panic "gpt: more than 1 FAT partition found! (not yet supported)"
  end.
Proof.
  intros Hd Hhb Hlen Hbl Hnz. unfold gpt_read, NVME_LBA_SIZE.
  pose proof (calloc_law 512 s ltac:(lia)) as Hcal. destruct (hp_calloc 512 s) as [p s1|msg| |] eqn:Ec; [|left|done..].
  2: { exists msg. split; [by apply bind_panic|]. exists 512, s. split; [lia|done]. }
  destruct Hcal as (Hp & _ & Ho & _). rewrite (bind_ok _ _ _ _ _ Ec).
  pose proof (calloc_disk _ _ _ _ Ec) as Hd1.
  destruct (disk_read_law s1 1 hb p _ 0 Ho) as (r0 & s2 & Hr & Ho2 & _ & Hd2); [by rewrite length_replicate|by rewrite Hd1|done|].
  rewrite Z.add_0_r in Hr. rewrite (bind_ok _ _ _ _ _ Hr).
  assert (Hpa : patch 0 hb (replicate (Z.to_nat 512) 0) = hb).
  { unfold patch. rewrite take_0, drop_ge by (destruct Hhb; rewrite length_replicate; lia). by rewrite app_nil_r. }
  rewrite Hpa in Ho2. rewrite (header_run s2 p hb Ho2 Hhb).
  destruct (negb (field hb 0 8 =? GPT_SIGNATURE)); [by right|]. destruct (negb (header_ok hb)); [by right|].
  pose proof (calloc_law 512 s2 ltac:(lia)) as Hcal. destruct (hp_calloc 512 s2) as [q s3|msg| |] eqn:Ec2; [right|left|done..].
  2: { exists msg. split; [by apply bind_panic|]. exists 512, s2. split; [lia|done]. }
  destruct Hcal as (Hq & _ & Hoq & Hold). destruct (Hold p hb Ho2) as [Hne Ho3]. rewrite (bind_ok _ _ _ _ _ Ec2).
  pose proof (calloc_disk _ _ _ _ Ec2) as Hd3.
  destruct (read_blocks_run blocks 2 s3 p q (replicate (Z.to_nat 512) 0) (0, 0)) as (r & Hsc & Hrun).
  { split; [by exists hb|done|congruence]. }
  { by rewrite length_replicate. }
  { intros k bl Hk. rewrite Hd3, Hd2, Hd1. by apply Hbl. }
  pose proof (scan_result_fun _ _ _ Hsc eq_refl Hnz) as Hres. rewrite Hlen in Hrun.
  destruct r as [part|msg].
  - destruct Hrun as (s4 & b4 & Hrun & Hbf & Hd4). rewrite (bind_ok _ _ _ _ _ Hrun).
    destruct Hbf as [[l Hl] He Hne4]. destruct (free_law p l s4 Hl) as (s5 & H5 & Ho5).
    destruct (free_law q b4 s5) as (s6 & H6 & _); [by apply Ho5|].
    rewrite (bind_ok _ _ _ _ _ H5), (bind_ok _ _ _ _ _ H6).
    destruct (fats blocks) as [|e [|e2 rest]]; simplify_eq; [done|].
    apply Forall_cons in Hnz as [He0 _]. cbn [fst snd].
    replace ((first_lba e =? 0) && (last_lba e =? 0)) with false.
    2: { symmetry. destruct (Z.eqb_spec (first_lba e) 0), (Z.eqb_spec (last_lba e) 0); try done. destruct He0. by f_equal. }
    exists s6. split; [done|]. by rewrite (free_disk _ _ _ H6), (free_disk _ _ _ H5), Hd4, Hd3, Hd2, Hd1.
  - rewrite (bind_panic _ _ _ _ Hrun). destruct (fats blocks) as [|e [|e2 rest]]; simplify_eq; done.
Qed.

(** C30. [gpt_read] on a disk with a partition table: a missing signature or a
    header it does not understand is reported; otherwise it returns the first
    and last block of the only FAT partition among the 128 entries, and panics
    if there is none or more than one.  The only other outcome is that the heap
    has run out; the disk is not changed. *)
Theorem gpt_read_finds_partition s hb blocks :
  disk s !! 1 = Some hb -> is_block hb -> length blocks = 32%nat ->
  (forall k bl, blocks !! k = Some bl -> disk s !! (2 + Z.of_nat k) = Some bl /\ is_block bl) ->
  Forall (fun e => (first_lba e, last_lba e) <> (0, 0)) (fats blocks) ->
  (exists msg, gpt_read s = Panic msg /\ oom (HS := S) msg) \/
  if negb (field hb 0 8 =? GPT_SIGNATURE) then gpt_read s = Panic "gpt: no header found at LBA 1"
  else if negb (header_ok hb) then gpt_read s = Panic "gpt: unknown error"
  else match fats blocks with
  | [] => gpt_read s = Panic "gpt: no FAT partition found!"
  | [e] => exists s', gpt_read s = Ok (first_lba e, last_lba e) s' /\ disk s' = disk s
  | _ => gpt_read s = Panic "gpt: more than 1 FAT partition found! (not yet supported)"
  end.
Proof. apply gpt_read_run. Qed.

End props.

(** A disk whose table has one FAT partition, in the second entry of block 3. *)
Definition pad (n : nat) (l : list Z) : list Z := l ++ replicate (n - length l) 0.
Definition demo_header : list Z :=
  pad 512 (unle 8 GPT_SIGNATURE ++ unle 4 65536 ++ unle 4 92 ++ unle 8 0 ++ unle 8 1 ++ replicate 40 0 ++ unle 8 2 ++ unle 4 128 ++ unle 4 128).
Definition demo_entry : list Z := pad 128 (unle 8 FAT_GUID0 ++ unle 8 FAT_GUID1 ++ replicate 16 9 ++ unle 8 2048 ++ unle 8 4095).
Definition demo_blocks : list (list Z) :=
  replicate 1 (pad 512 []) ++ [pad 512 (pad 128 [] ++ demo_entry)] ++ replicate 30 (pad 512 []).
Definition demo_disk : ramdisk :=
  ((1, ∅), list_to_map (zip (seqZ 1 33) (demo_header :: demo_blocks))).

Lemma gpt_read_finds_partition_witness :
  (exists msg, gpt_read demo_disk = Panic msg /\ oom (HS := ramdisk) msg) \/
  if negb (field demo_header 0 8 =? GPT_SIGNATURE) then gpt_read demo_disk = Panic "gpt: no header found at LBA 1"
  else if negb (header_ok demo_header) then gpt_read demo_disk = Panic "gpt: unknown error"
  else match fats demo_blocks with
  | [] => gpt_read demo_disk = Panic "gpt: no FAT partition found!"
  | [e] => exists s', gpt_read demo_disk = Ok (first_lba e, last_lba e) s' /\ disk s' = disk demo_disk
  | _ => gpt_read demo_disk = Panic "gpt: more than 1 FAT partition found! (not yet supported)"
  end.
Proof.
  apply (gpt_read_finds_partition demo_disk demo_header demo_blocks).
  - reflexivity.
  - vdecide.
  - reflexivity.
  - apply (indexed_all (fun k bl => demo_disk.2 !! (2 + Z.of_nat k) = Some bl /\ is_block bl)). vdecide.
  - vdecide.
Defined.

End Gpt.
