(* ===== verification/Fat32.v ===== *)
(** * file/fat32.c: the FAT32 file system

    The globals of the file are the fields of [fat]; [env] is the state of the
    kernel heap and the disk, in which the boot block, the copy of the
    allocation table ([FAT]) and the directory buffers live.  File names are
    lists of character codes without the terminating zero. *)

From S2P Require Import Prelude KMath Misc KHeap Disk.
Import KMath KHeap Disk.

Module Fat32.

(** util/const.h *)
Definition FAT32_OPEN_NAME_TOO_LONG : Z := 0.
Definition FAT32_OPEN_EXT_TOO_LONG : Z := 1.
Definition FAT32_OPEN_NOT_FOUND : Z := 2.
Definition FAT32_NEW_FILE_NAME_TOO_LONG : Z := 0.
Definition FAT32_NEW_FILE_EXT_TOO_LONG : Z := 1.
Definition FAT32_NEW_FILE_EXISTS : Z := 2.

(** file/fat32.h *)
Record FAT32_OpenResult := OpenResult { or_cluster : Z; size_or_error : Z }.
Record FAT32_NewFileResult := NewFileResult { fd : Z; nf_error : Z }.

Record fat (S : Type) := Fat {
  FAT_size : Z;
  volume_first_lba : Z;
  volume_last_lba : Z;
  FAT_start_lba : Z;
  data_start_lba : Z;
  root_dir_lba : Z;
  bpb : Z;
  FAT : Z;
  env : S;
}.
Arguments Fat {S} _ _ _ _ _ _ _ _ _.
Arguments FAT_size {S} _.
Arguments volume_first_lba {S} _.
Arguments volume_last_lba {S} _.
Arguments FAT_start_lba {S} _.
Arguments data_start_lba {S} _.
Arguments root_dir_lba {S} _.
Arguments bpb {S} _.
Arguments FAT {S} _.
Arguments env {S} _.

(** FAT spec P14 *)
Definition is_ending_cluster (num : Z) : bool :=
  let num := u32 num in
  let temp := Z.land num 0xFFFFFFF in
  (0xFFFFFF8 <=? temp) && (num <=? 0xFFFFFFF).

(** [want_str[i + off] = toupper(s[i])] for the characters of [s] *)
Fixpoint put_upper (off : nat) (s : list Z) (w : list Z) : list Z :=
  match s with
  | [] => w
  | c :: s' => put_upper (Datatypes.S off) s' (<[off:=u8 (Misc.toupper c)]> w)
  end.

(** The eleven characters of a directory entry's name. *)
Definition short_name (name ext : list Z) : list Z := put_upper 8 ext (put_upper 0 name (replicate 11 32)).

(** The memory of a call of [strncmp] on two strings. *)
Definition str_mem (a b : list Z) : gmap Z Z :=
  list_to_map (zip (seqZ 0 (Z.of_nat (length a))) a ++ zip (seqZ 256 (Z.of_nat (length b))) b).

(** A directory entry as [fat32_new_file] fills it in; the conversion to [u16]
    keeps nothing of the high half of the cluster number. *)
Definition new_entry (name ext : list Z) (file_first_cluster : Z) : list Z :=
  short_name name ext ++ [0x20; 0; 0] ++ unle 2 0 ++ unle 2 0 ++ unle 2 0 ++
  unle 2 (u16 (Z.land file_first_cluster 0xFFFF0000)) ++ unle 2 0 ++ unle 2 0 ++
  unle 2 (u16 (Z.land file_first_cluster 0x0000FFFF)) ++ unle 4 512.

Section fat32.
Context {S : Type} `{!HeapIface S} `{!DiskIface S}.
Notation F := (M (fat S)).

Definition set_env (s : S) (f : fat S) : fat S :=
  Fat (FAT_size f) (volume_first_lba f) (volume_last_lba f) (FAT_start_lba f) (data_start_lba f) (root_dir_lba f) (bpb f) (FAT f) s.
Definition set_volume (first last : Z) (f : fat S) : fat S :=
  Fat (FAT_size f) first last (FAT_start_lba f) (data_start_lba f) (root_dir_lba f) (bpb f) (FAT f) (env f).
Definition set_bpb (p : Z) (f : fat S) : fat S :=
  Fat (FAT_size f) (volume_first_lba f) (volume_last_lba f) (FAT_start_lba f) (data_start_lba f) (root_dir_lba f) p (FAT f) (env f).
Definition set_layout (size fat_start data_start root : Z) (f : fat S) : fat S :=
  Fat size (volume_first_lba f) (volume_last_lba f) fat_start data_start root (bpb f) (FAT f) (env f).
Definition set_FAT (p : Z) (f : fat S) : fat S :=
  Fat (FAT_size f) (volume_first_lba f) (volume_last_lba f) (FAT_start_lba f) (data_start_lba f) (root_dir_lba f) (bpb f) p (env f).

(** A call of the heap or the disk. *)
Definition on_env {A} (c : M S A) : F A := fun f =>
  match c (env f) with
  | Ok a s => Ok a (set_env s f)
  | Panic msg => Panic msg
  | Fault => Fault
  | OutOfFuel => OutOfFuel
  end.

(** util/misc.c, on this memory *)
Definition env_memset (dest val len : Z) : M S unit := st_bytes dest (replicate (Z.to_nat len) (u8 val)).

Definition update_FAT : F unit :=
  fat_addr ← gets FAT;
  size ← gets FAT_size;
  start ← gets FAT_start_lba;
  on_env (env_memset fat_addr 0 ((512 *32 size) *64 4));;
  for_loop (Z.to_nat size) 0 (fun i => on_env (nvme_read (start +64 i) 1 (fat_addr +64 (i *32 512)));; mret tt).

(** [FAT[i]] *)
Definition fat_entry (i : Z) : F Z := fat_addr ← gets FAT; on_env (ld 4 (fat_addr + 4 * i)).

Fixpoint find_free (n : nat) (i : Z) : F Z :=
  match n with
  | O => mret 0
  | Datatypes.S n' => v ← fat_entry i; if v =? 0 then mret i else find_free n' (i + 1)
  end.

Definition find_free_FAT_cluster : F Z := size ← gets FAT_size; find_free (Z.to_nat (size *32 512)) 0.

(** the loop over the sixteen entries of a directory block *)
Fixpoint find_in_dir (n : nat) (i directory : Z) (want : list Z) : F Z :=
  match n with
  | O => on_env (hp_free directory);; mret 0
  | Datatypes.S n' =>
    dir_name ← on_env (ld_bytes 11 (directory + 32 * i));
    c ← lift_opt (Misc.strncmp (str_mem dir_name (want ++ [0])) 0 256 11);
    if c =? 0 then
      hi ← on_env (ld 2 (directory + 32 * i + 20));
      lo ← on_env (ld 2 (directory + 32 * i + 26));
      let return_val := Z.lor (u32 (Z.shiftl hi 16)) lo in
      on_env (hp_free directory);;
      mret return_val
    else find_in_dir n' (i + 1) directory want
  end.

Definition check_directory_entry_for_file (sector_num : Z) (name ext : list Z) : F Z :=
  let want_str := short_name name ext in
  directory ← on_env (hp_calloc 512);
  data_start ← gets data_start_lba;
  on_env (nvme_read ((sector_num -32 2) +64 data_start) 1 directory);;
  find_in_dir 16 0 directory want_str.

(** the loop over the blocks of the root directory *)
Fixpoint search_dir (fuel : nat) (directory_cluster : Z) (name ext : list Z) : F Z :=
  match fuel with
  | O => out_of_fuel
  | Datatypes.S fuel' =>
    file_cluster ← check_directory_entry_for_file (u32 directory_cluster) name ext;
    if negb (file_cluster =? 0) then mret file_cluster else
    directory_cluster ← fat_entry directory_cluster;
    if directory_cluster =? 0 then panic "FAT32: broken FAT!" else
    if negb (is_ending_cluster directory_cluster) then search_dir fuel' directory_cluster name ext
    else mret file_cluster
  end.

(** Fuel for a walk along the table: a chain without a repetition is no longer
    than the table has entries. *)
Definition chain_fuel (f : fat S) : nat := Datatypes.S (Z.to_nat (512 * FAT_size f)).

Definition get_cluster_num (name ext : list Z) : F Z :=
  if 8 <? Z.of_nat (length name) then mret 0 else
  if 3 <? Z.of_nat (length ext) then mret 0 else
  root ← gets root_dir_lba;
  fuel ← gets chain_fuel;
  search_dir fuel root name ext.

Definition fat32_init (part : Z * Z) : F unit :=
  modify (set_volume part.1 part.2);;
  b ← on_env (hp_calloc 512);
  modify (set_bpb b);;
  on_env (nvme_read part.1 1 b);;
  jmp0 ← on_env (ld 1 b);
  jmp2 ← on_env (ld 1 (b + 2));
  if negb ((jmp0 =? 0xEB) && (jmp2 =? 0x90)) && negb (jmp0 =? 0xE9) then panic "FAT32: incorrect BS_jmpBoot!" else
  bytes_per_sec ← on_env (ld 2 (b + 11));
  if negb (bytes_per_sec =? 512) then panic "FAT32: only 512 bytes per sector supported!" else
  num_fats ← on_env (ld 1 (b + 16));
  if negb (num_fats =? 2) then panic "FAT32: only 2 FATs supported!" else
  sec_per_clus ← on_env (ld 1 (b + 13));
  if negb (sec_per_clus =? 1) then panic "FAT32: only 1 sector per cluster supported!" else
  tot16 ← on_env (ld 2 (b + 19));
  fatsz16 ← on_env (ld 2 (b + 22));
  tot32 ← on_env (ld 4 (b + 32));
  if negb (tot16 =? 0) || negb (fatsz16 =? 0) || (tot32 =? 0) then panic "FAT32: appears to be FAT12/16?" else
  signature ← on_env (ld 2 (b + 510));
  if negb (signature =? 0xAA55) then panic "FAT32: incorrect signature word!" else
  fatsz32 ← on_env (ld 4 (b + 36));
  rsvd ← on_env (ld 2 (b + 14));
  root ← on_env (ld 4 (b + 44));
  first ← gets volume_first_lba;
  let fat_start := first +64 rsvd in
  modify (set_layout fatsz32 fat_start (fat_start +64 (fatsz32 *32 2)) root);;
  p ← on_env (hp_calloc ((512 *32 fatsz32) *64 4));
  modify (set_FAT p);;
  update_FAT.

(** the counting loop of [fat32_open] *)
Fixpoint count_clusters (fuel : nat) (current num : Z) : F Z :=
  match fuel with
  | O => out_of_fuel
  | Datatypes.S fuel' =>
    let num := num +64 1 in
    current ← fat_entry current;
    if current =? 0 then panic "FAT32: broken FAT!" else
    if negb (is_ending_cluster current) then count_clusters fuel' current num else mret num
  end.

Definition fat32_open (name ext : list Z) : F FAT32_OpenResult :=
  if 8 <? Z.of_nat (length name) then mret (OpenResult 0 FAT32_OPEN_NAME_TOO_LONG) else
  if 3 <? Z.of_nat (length ext) then mret (OpenResult 0 FAT32_OPEN_EXT_TOO_LONG) else
  file_cluster ← get_cluster_num name ext;
  let file_cluster := u32 file_cluster in
  if file_cluster =? 0 then mret (OpenResult 0 FAT32_OPEN_NOT_FOUND) else
  fuel ← gets chain_fuel;
  num_clusters ← count_clusters fuel file_cluster 0;
  mret (OpenResult file_cluster (u32 num_clusters)).

(** the loop of [fat32_read], with its early return ([None]) or the last
    cluster *)
Fixpoint read_clusters (n : nat) (i size cluster buffer : Z) : F (option Z) :=
  match n with
  | O => mret (Some cluster)
  | Datatypes.S n' =>
    data_start ← gets data_start_lba;
    let sector := u32 (data_start + cluster - 2) in
    if (i <? size -32 1) && is_ending_cluster cluster then mret None else
    next ← (if i <? size -32 1 then fat_entry cluster else mret cluster);
    on_env (nvme_read sector 1 (buffer +64 (i *32 512)));;
    read_clusters n' (i + 1) size next buffer
  end.

Definition fat32_read (cluster size buffer : Z) : F Z :=
  r ← read_clusters (Z.to_nat size) 0 size cluster buffer;
  match r with
  | None => mret 1
  | Some cluster => if negb (is_ending_cluster cluster) then mret 1 else mret 0
  end.

(** Is every character of the name of the [i]-th entry printable? *)
Fixpoint all_readable (n : nat) (a : Z) : F bool :=
  match n with
  | O => mret true
  | Datatypes.S n' =>
    c ← on_env (ld 1 a);
    if (c <? 32) || (126 <? c) then mret false else all_readable n' (a + 1)
  end.

(** the first entry of the block that is not in use, 16 if there is none *)
Fixpoint free_slot (n : nat) (i directory : Z) : F Z :=
  match n with
  | O => mret 16
  | Datatypes.S n' =>
    is_readable ← all_readable 11 (directory + 32 * i);
    if negb is_readable then mret i else free_slot n' (i + 1) directory
  end.

(** the search for an open entry: its index and the directory block's cluster *)
Fixpoint find_slot (fuel : nat) (current_cluster directory : Z) : F (Z * Z) :=
  match fuel with
  | O => out_of_fuel
  | Datatypes.S fuel' =>
    data_start ← gets data_start_lba;
    on_env (nvme_read ((current_cluster -64 2) +64 data_start) 1 directory);;
    usable_index ← free_slot 16 0 directory;
    if negb (usable_index =? 16) then mret (usable_index, current_cluster) else
    current_cluster ← fat_entry current_cluster;
    if current_cluster =? 0 then panic "FAT32: broken FAT!" else
    if negb (is_ending_cluster current_cluster) then find_slot fuel' current_cluster directory
    else mret (16, current_cluster)
  end.

Definition fat32_new_file (name ext : list Z) : F FAT32_NewFileResult :=
  if 8 <? Z.of_nat (length name) then mret (NewFileResult 0 FAT32_NEW_FILE_NAME_TOO_LONG) else
  if 3 <? Z.of_nat (length ext) then mret (NewFileResult 0 FAT32_NEW_FILE_EXT_TOO_LONG) else
  file_sector ← get_cluster_num name ext;
  if negb (file_sector =? 0) then mret (NewFileResult 0 FAT32_NEW_FILE_EXISTS) else
  file_first_cluster ← find_free_FAT_cluster;
  fat_addr ← gets FAT;
  on_env (st 4 (fat_addr + 4 * file_first_cluster) 0xFFFFFFF);;
  root ← gets root_dir_lba;
  directory ← on_env (hp_calloc 512);
  fuel ← gets chain_fuel;
  '(usable_index, current_cluster) ← find_slot fuel root directory;
  on_env (st_bytes (directory + 32 * usable_index) (new_entry name ext file_first_cluster));;
  fat_start ← gets FAT_start_lba;
  data_start ← gets data_start_lba;
  on_env (nvme_write (fat_start +64 file_first_cluster / 512) 1 (fat_addr + file_first_cluster - file_first_cluster mod 512));;
  on_env (nvme_write ((current_cluster -64 2) +64 data_start) 1 directory);;
  empty ← on_env (hp_calloc 512);
  on_env (nvme_write ((file_first_cluster -32 2) +64 data_start) 1 empty);;
  on_env (hp_free empty);;
  on_env (hp_free directory);;
  mret (NewFileResult 0 0).

End fat32.

End Fat32.
