(* ===== verification/Fat32Lemmas.v ===== *)
(** * Lemmas on the file system: cluster chains, names, directory lookup, reading *)

From S2P Require Import Prelude KMath Misc KHeap Disk Fat32.
Import KMath KHeap Disk Fat32.

Module Fat32Lemmas.

(** The entry of cluster [c] in a table of 32-bit words. *)
Definition entry_of (t : list Z) (c : Z) : Z := field t (4 * Z.to_nat c) 4.

(** A cluster number that is neither reserved nor an end mark, with an entry in
    a table of [n] blocks as the kernel keeps it. *)
Definition data_cluster (n c : Z) : Prop := 2 <= c < 0xFFFFFF8 /\ c < 512 * n.

(** [cs] are the clusters of a file: each is followed by the next one, the last
    by an end mark. *)
Fixpoint chain (t : list Z) (cs : list Z) : Prop :=
  match cs with
  | [] => False
  | [c] => is_ending_cluster (entry_of t c) = true /\ 0 <= entry_of t c < W32
  | c :: (c' :: _) as r => entry_of t c = c' /\ chain t r
  end.

Lemma chain_cons t c c' r : chain t (c :: c' :: r) <-> entry_of t c = c' /\ chain t (c' :: r).
Proof. done. Qed.

Lemma ending_range e : is_ending_cluster e = true -> 0 <= e < W32 -> 0xFFFFFF8 <= e <= 0xFFFFFFF.
Proof.
  unfold is_ending_cluster. intros H He. rewrite u32_small in H by lia. change 0xFFFFFFF with (Z.ones 28) in H at 1.
  rewrite Z.land_ones in H by lia. apply andb_true_iff in H as [H1 H2]. rewrite Z.mod_small in H1; lia.
Qed.

Lemma data_not_ending n c : data_cluster n c -> is_ending_cluster c = false.
Proof.
  intros [Hc _]. unfold is_ending_cluster. rewrite u32_small by lia. change 0xFFFFFFF with (Z.ones 28) at 1.
  rewrite Z.land_ones, Z.mod_small by lia. btests; cbn; lia.
Qed.

(** ** Chains *)

Lemma chain_det t n : forall r1 r2 c,
  chain t (c :: r1) -> chain t (c :: r2) -> Forall (data_cluster n) r1 -> Forall (data_cluster n) r2 -> r1 = r2.
Proof.
  assert (Hend : forall c x r, chain t [c] -> chain t (c :: x :: r) -> data_cluster n x -> False).
  { intros c x r [He _] [Hx _] Hd. rewrite Hx in He. by rewrite (data_not_ending n x Hd) in He. }
  induction r1 as [|x r1 IH]; intros [|y r2] c H1 H2 Hd1 Hd2; [done|..].
  - apply Forall_cons in Hd2 as [Hd _]. by destruct (Hend c y r2).
  - apply Forall_cons in Hd1 as [Hd _]. by destruct (Hend c x r1).
  - apply chain_cons in H1 as [E1 H1], H2 as [E2 H2]. apply Forall_cons in Hd1 as [_ Hd1], Hd2 as [_ Hd2].
    assert (y = x) as -> by congruence. f_equal. by apply (IH r2 x).
Qed.

Lemma chain_app t r1 c r2 : chain t (r1 ++ c :: r2) -> chain t (c :: r2).
Proof. induction r1 as [|x [|y r1] IH]; [done|intros [_ H]; done|intros [_ H]; by apply IH]. Qed.

(** A chain has no repetitions, so it is no longer than the table. *)
Lemma chain_distinct t n cs : chain t cs -> Forall (data_cluster n) cs -> NoDup cs.
Proof.
  induction cs as [|c cs IH]; [done|]. intros Hc Hd. apply Forall_cons in Hd as [Hdc Hd]. constructor.
  - intros Hin. apply list_elem_of_split in Hin as (r1 & r2 & ->).
    pose proof (chain_app t (c :: r1) c r2 Hc) as H2.
    assert (Hd2 : Forall (data_cluster n) r2) by (by apply Forall_app in Hd as [_ [_ ?]%Forall_cons]).
    pose proof (chain_det t n _ _ c Hc H2 Hd Hd2) as E. apply (f_equal length) in E. rewrite length_app in E. cbn in E. lia.
  - destruct cs as [|c' cs]; [constructor|]. apply chain_cons in Hc as [_ Hc]. by apply IH.
Qed.

Lemma chain_length t n cs : chain t cs -> Forall (data_cluster n) cs -> (length cs <= Z.to_nat (512 * n))%nat.
Proof.
  intros Hc Hd. pose proof (chain_distinct t n cs Hc Hd) as Hnd.
  assert (Hsub : cs ⊆ seqZ 0 (512 * n)).
  { intros x Hx. rewrite Forall_forall in Hd. destruct (Hd x Hx). apply elem_of_seqZ. lia. }
  pose proof (submseteq_length _ _ (NoDup_submseteq _ _ Hnd Hsub)) as H. rewrite length_seqZ in H. done.
Qed.

(** ** Names *)

Lemma length_put_upper s : forall off w, length (put_upper off s w) = length w.
Proof. induction s as [|c s IH]; intros off w; cbn; [done|]. by rewrite IH, length_insert. Qed.

Lemma length_short_name name ext : length (short_name name ext) = 11%nat.
Proof. unfold short_name. by rewrite !length_put_upper, length_replicate. Qed.

(** Printable characters stay printable. *)
Definition printable (c : Z) : Prop := 32 <= c <= 126.

Lemma put_upper_printable s : Forall printable s -> forall off w, Forall printable w -> Forall printable (put_upper off s w).
Proof.
  induction 1 as [|c s Hc _ IH]; intros off w Hw; cbn; [done|]. apply IH. apply Forall_insert; [done|].
  unfold Misc.toupper, printable in *. destruct ((97 <=? c) && (c <=? 122)) eqn:E; rewrite u8_small; lia.
Qed.

Lemma short_name_printable name ext : Forall printable name -> Forall printable ext -> Forall printable (short_name name ext).
Proof.
  intros Hn He. apply put_upper_printable; [done|]. apply put_upper_printable; [done|].
  apply Forall_replicate. unfold printable. lia.
Qed.

Lemma zip_seqZ_lookup (l : list Z) a i v : l !! i = Some v -> (a + Z.of_nat i, v) ∈ zip (seqZ a (Z.of_nat (length l))) l.
Proof.
  intros Hi. apply list_elem_of_lookup. exists i. rewrite lookup_zip_with, Hi. pose proof (lookup_lt_Some _ _ _ Hi).
  rewrite lookup_seqZ_lt by lia. done.
Qed.

Lemma str_mem_NoDup (a b : list Z) : (length a <= 256)%nat ->
  NoDup (zip (seqZ 0 (Z.of_nat (length a))) a ++ zip (seqZ 256 (Z.of_nat (length b))) b).*1.
Proof.
  intros Ha. rewrite fmap_app, !fst_zip by (rewrite length_seqZ; lia). apply NoDup_app.
  split; [apply NoDup_seqZ|]. split; [|apply NoDup_seqZ]. intros x. rewrite !elem_of_seqZ. lia.
Qed.

(** [strncmp] on a name from the disk and the wanted one. *)
Lemma strncmp_names dir_name want :
  length dir_name = 11%nat -> length want = 11%nat -> Forall (fun c => 0 <= c < 256) dir_name -> Forall printable want ->
  exists r, Misc.strncmp (str_mem dir_name (want ++ [0])) 0 256 11 = Some r /\ (r = 0 <-> dir_name = want).
Proof.
  intros H1 H2 Hb Hp. rewrite Misc.strncmp_plain by lia. change (Z.to_nat 11) with 11%nat. rewrite <- H1.
  apply Misc.strncmp1_regions; [lia|done| |..].
  - eapply Forall_impl; [exact Hp|]. intros x Hx. unfold printable in Hx. cbn in *. lia.
  - intros i v Hi. apply elem_of_list_to_map; [apply str_mem_NoDup; lia|]. apply elem_of_app. left. by apply zip_seqZ_lookup.
  - intros i v Hi. apply elem_of_list_to_map; [apply str_mem_NoDup; lia|]. apply elem_of_app. right. apply zip_seqZ_lookup.
    by apply lookup_app_l_Some.
  - done.
Qed.

(** ** Directory lookup, as a function of the directory's blocks *)

Definition cluster_of (e : list Z) : Z := field e 26 2 + 65536 * field e 20 2.

Fixpoint dir_find (n i : nat) (b want : list Z) : Z :=
  match n with
  | O => 0
  | Datatypes.S n' =>
    if bool_decide (take 11 (drop (32 * i) b) = want) then cluster_of (drop (32 * i) b) else dir_find n' (Datatypes.S i) b want
  end.

(** The first cluster that some block has for the name. *)
Fixpoint lookup_file (bs : list (list Z)) (want : list Z) : Z :=
  match bs with
  | [] => 0
  | b :: bs' => if dir_find 16 0 b want =? 0 then lookup_file bs' want else dir_find 16 0 b want
  end.

Lemma field_range l off n : Forall (fun c => 0 <= c < 256) l -> 0 <= field l off n < 256 ^ Z.of_nat n.
Proof.
  intros Hl. unfold field. pose proof (le_range (take n (drop off l)) ltac:(by apply Forall_take, Forall_drop)) as H.
  rewrite length_take in H. assert (256 ^ Z.of_nat (Nat.min n (length (drop off l))) <= 256 ^ Z.of_nat n) by (apply Z.pow_le_mono_r; lia). lia.
Qed.

Lemma lor_halves hi lo : 0 <= hi < 65536 -> 0 <= lo < 65536 -> Z.lor (u32 (Z.shiftl hi 16)) lo = lo + 65536 * hi.
Proof.
  intros Hh Hl. rewrite Z.shiftl_mul_pow2 by lia. rewrite u32_small by lia.
  assert (Hz : Z.land (hi * 2 ^ 16) lo = 0).
  { apply Z.bits_inj'. intros i Hi. rewrite Z.land_spec, Z.bits_0. destruct (decide (i < 16)).
    - rewrite Z.mul_pow2_bits_low by lia. done.
    - rewrite (testbit_above lo 16) by lia. apply andb_false_r. }
  rewrite <- Z.lxor_lor, <- Z.add_nocarry_lxor by done. lia.
Qed.

Lemma patch_patch off b bs l : (off + length b + length bs <= length l)%nat ->
  patch (off + length b) bs (patch off b l) = patch off (b ++ bs) l.
Proof.
  intros H. unfold patch. rewrite length_app. rewrite !app_assoc.
  assert (Hl : length (take off l ++ b) = (off + length b)%nat) by (rewrite length_app, length_take; lia).
  rewrite take_app_le by lia. rewrite <- Hl at 1. rewrite take_ge by lia. rewrite <- !app_assoc. do 3 f_equal.
  rewrite app_assoc, drop_app_ge by lia. rewrite drop_drop. f_equal. lia.
Qed.

Section props.
Context {S : Type} `{!HeapIface S} `{!HeapLaws S} `{!DiskIface S} `{!DiskLaws S}.
Notation F := (M (fat S)).
Implicit Types f : fat S.

(** The table has been read into memory. *)
Record mounted f (t : list Z) : Prop := {
  mt_owns : owns (env f) (FAT f) t;
  mt_len : length t = (2048 * Z.to_nat (FAT_size f))%nat;
  mt_size : 0 < FAT_size f < 2 ^ 22;
}.

Lemma on_env_ok {A} (c : M S A) f a s : c (env f) = Ok a s -> on_env c f = Ok a (set_env s f).
Proof. unfold on_env. by intros ->. Qed.

Lemma set_env_id f : set_env (env f) f = f.
Proof. by destruct f. Qed.

Lemma fat_entry_run f t i : mounted f t -> 0 <= i < 512 * FAT_size f -> fat_entry i f = Ok (entry_of t i) f.
Proof.
  intros [Ho Hl Hs] Hi. unfold fat_entry. run_pure.
  replace (FAT f + 4 * i) with (FAT f + Z.of_nat (4 * Z.to_nat i)) by lia.
  rewrite (on_env_ok _ _ _ _ (ld_run 4 (env f) (FAT f) t (4 * Z.to_nat i) Ho ltac:(lia))). by rewrite set_env_id.
Qed.

(** Blocks of the data area. *)
Definition block_at f (c : Z) (b : list Z) : Prop := disk (env f) !! (data_start_lba f + c - 2) = Some b /\ is_block b.

(** The states [f] and [f'] differ in the heap and the disk only. *)
Definition same_vars f f' : Prop := f' = set_env (env f') f.

Lemma same_vars_set s f : same_vars f (set_env s f).
Proof. done. Qed.

Lemma same_vars_trans f f1 f2 : same_vars f f1 -> same_vars f1 f2 -> same_vars f f2.
Proof. unfold same_vars. intros H1 H2. rewrite H2, H1. done. Qed.

(** The loop of [fat32_read] from the [i]-th cluster of a chain on. *)
Lemma read_clusters_run cs : forall (i : nat) bs f t l buf,
  mounted f t -> chain t cs -> Forall (data_cluster (FAT_size f)) cs -> Forall2 (block_at f) cs bs ->
  0 < data_start_lba f < 2 ^ 31 -> owns (env f) buf l -> buf <> FAT f -> 0 < buf -> buf + Z.of_nat (length l) < W64 ->
  (512 * (i + length cs) <= length l)%nat -> Z.of_nat (i + length cs) < 2 ^ 22 ->
  exists f', read_clusters (length cs) (Z.of_nat i) (Z.of_nat (i + length cs)) (default 0 (head cs)) buf f =
      Ok (Some (default 0 (last cs))) f' /\ same_vars f f' /\ mounted f' t /\
    owns (env f') buf (patch (512 * i) (concat bs) l) /\ disk (env f') = disk (env f).
Proof.
  induction cs as [|c cs IH]; [done|]. intros i bs f t l buf Hm Hch Hc Hb Hds Ho Hne Hb0 Hbw Hl Hi.
  inversion Hb as [|? b ? bs' [Hd Hib] Hb']; subst. apply Forall_cons in Hc as [Hc Hcs]. destruct Hib as [Hbl Hbb].
  cbn [read_clusters length head from_option id]. cbn [length] in Hl, Hi.
  assert (Hlast : Z.of_nat (i + Datatypes.S (length cs)) -32 1 = Z.of_nat (i + length cs)) by (rewrite u32_small by lia; lia).
  run_pure. rewrite Hlast, (data_not_ending _ _ Hc), andb_false_r. destruct Hc as [Hc1 Hc2].
  rewrite (u32_small (data_start_lba f + c - 2)), (u32_small (Z.of_nat i * 512)), (u64_small (buf + _)) by lia.
  assert (Hnext : exists nx, (if Z.of_nat i <? Z.of_nat (i + length cs) then fat_entry c else mret c) f = Ok nx f /\
    nx = default c (head cs)).
  { destruct cs as [|c' cs]; cbn [length head from_option id].
    - rewrite Nat.add_0_r, Z.ltb_irrefl. by exists c.
    - destruct (Z.ltb_spec (Z.of_nat i) (Z.of_nat (i + Datatypes.S (length cs)))); [|lia].
      apply chain_cons in Hch as [He _]. exists c'. split; [|done]. by rewrite (fat_entry_run _ t), He by (done || lia). }
  destruct Hnext as (nx & Hnx & ->). rewrite (bind_ok _ _ _ _ _ Hnx).
  replace (buf + Z.of_nat i * 512) with (buf + Z.of_nat (512 * i)) by lia.
  destruct (disk_read_law (env f) _ b buf l (512 * i) Ho ltac:(lia) Hd) as (r & s & Hr & Ho' & Hoth & Hdk); [done|].
  rewrite (bind_ok _ _ _ _ _ (on_env_ok _ _ _ _ Hr)). destruct Hm as [Hm1 Hm2 Hm3].
  assert (Hm' : mounted (set_env s f) t) by (split; [by apply Hoth|done|done]).
  assert (Hlen' : length (patch (512 * i) b l) = length l) by (apply length_patch; lia).
  destruct cs as [|c' cs].
  - cbn [read_clusters length from_option id head last concat]. inversion Hb'; subst. rewrite app_nil_r. by exists (set_env s f).
  - apply chain_cons in Hch as [_ Hch].
    destruct (IH (Datatypes.S i) bs' (set_env s f) t (patch (512 * i) b l) buf) as (f' & Hrun & Hsv & Hmt & Hown & Hdk'); try done; try lia.
    { eapply Forall2_impl; [done|]. intros x y [Hx1 Hx2]. split; [|done]. cbn. by rewrite Hdk. }
    exists f'. replace (Z.of_nat i + 1) with (Z.of_nat (Datatypes.S i)) by lia.
    replace (i + Datatypes.S (length (c' :: cs)))%nat with (Datatypes.S i + length (c' :: cs))%nat by lia.
    split; [exact Hrun|]. split; [done|]. split; [done|]. split; [|cbn in Hdk'; congruence].
    replace (512 * Datatypes.S i)%nat with (512 * i + length b)%nat in Hown by lia. rewrite patch_patch in Hown; [done|].
    assert (Hcl : length (concat bs') = (512 * length bs')%nat).
    { clear -Hb'. induction Hb' as [|x y xs ys [_ [Hy _]] _ IH]; cbn; [done|]. rewrite length_app, Hy, IH. lia. }
    apply Forall2_length in Hb'. rewrite Hcl, <- Hb'. cbn in *. lia.
Qed.

(** ** Directory lookup *)

Lemma cluster_of_range e : Forall (fun c => 0 <= c < 256) e -> 0 <= cluster_of e < W32.
Proof. intros He. unfold cluster_of. pose proof (field_range e 26 2 He). pose proof (field_range e 20 2 He). cbn in *. lia. Qed.

Lemma field_drop l a off n : field (drop a l) off n = field l (a + off) n.
Proof. unfold field. by rewrite drop_drop. Qed.

(** The buffers other than [p] are untouched. *)
Definition keeps f f' (p : Z) : Prop := forall q lq, q <> p -> owns (env f) q lq -> owns (env f') q lq.

Lemma find_in_dir_run n : forall (i : nat) f p b want,
  owns (env f) p b -> is_block b -> (i + n = 16)%nat -> length want = 11%nat -> Forall printable want ->
  exists f', find_in_dir n (Z.of_nat i) p want f = Ok (dir_find n i b want) f' /\ same_vars f f' /\ keeps f f' p /\
    disk (env f') = disk (env f).
Proof.
  induction n as [|n IH]; intros i f p b want Ho [Hl Hb] Hi Hw Hp.
  - destruct (free_law p b (env f) Ho) as (s & Hf & Hoth). exists (set_env s f). cbn [find_in_dir dir_find].
    rewrite (bind_ok _ _ _ _ _ (on_env_ok _ _ _ _ Hf)). split; [done|]. split; [done|]. split; [intros q lq; apply Hoth|by apply free_disk in Hf].
  - cbn [find_in_dir dir_find]. replace (p + 32 * Z.of_nat i) with (p + Z.of_nat (32 * i)) by lia.
    pose proof (ld_bytes_run 11 (env f) p b (32 * i) Ho ltac:(lia)) as Hn.
    rewrite (bind_ok _ _ _ _ _ (on_env_ok _ _ _ _ Hn)), set_env_id.
    set (dn := take 11 (drop (32 * i) b)).
    destruct (strncmp_names dn want) as (r & Hr & Hz); [subst dn; rewrite length_take, length_drop; lia|done|by apply Forall_take, Forall_drop|done|].
    rewrite Hr. cbn [lift_opt]. run_pure. case_bool_decide as E.
    + assert (r = 0) as -> by (by apply Hz). cbn [Z.eqb].
      replace (p + Z.of_nat (32 * i) + 20) with (p + Z.of_nat (32 * i + 20)) by lia.
      replace (p + Z.of_nat (32 * i) + 26) with (p + Z.of_nat (32 * i + 26)) by lia.
      pose proof (ld_run 2 (env f) p b (32 * i + 20) Ho ltac:(lia)) as H1. pose proof (ld_run 2 (env f) p b (32 * i + 26) Ho ltac:(lia)) as H2.
      rewrite (bind_ok _ _ _ _ _ (on_env_ok _ _ _ _ H1)), set_env_id, (bind_ok _ _ _ _ _ (on_env_ok _ _ _ _ H2)), set_env_id.
      destruct (free_law p b (env f) Ho) as (s & Hf & Hoth). exists (set_env s f). rewrite (bind_ok _ _ _ _ _ (on_env_ok _ _ _ _ Hf)).
      pose proof (field_range b (32 * i + 20) 2 Hb). pose proof (field_range b (32 * i + 26) 2 Hb).
      rewrite lor_halves by (cbn in *; lia). unfold cluster_of. rewrite !field_drop.
      split; [done|]. split; [done|]. split; [intros q lq; apply Hoth|by apply free_disk in Hf].
    + destruct (Z.eqb_spec r 0) as [->|]; [by destruct E; apply Hz|].
      replace (Z.of_nat i + 1) with (Z.of_nat (Datatypes.S i)) by lia. by apply IH; [done|split|lia|..].
Qed.

Lemma dir_find_range n : forall i b want, Forall (fun c => 0 <= c < 256) b -> 0 <= dir_find n i b want < W32.
Proof.
  induction n as [|n IH]; intros i b want Hb; cbn; [lia|]. case_bool_decide; [|by apply IH]. by apply cluster_of_range, Forall_drop.
Qed.

(** One block of a directory. *)
Lemma check_run f t c b name ext :
  mounted f t -> data_cluster (FAT_size f) c -> block_at f c b -> 0 < data_start_lba f < 2 ^ 31 ->
  Forall printable name -> Forall printable ext ->
  (exists msg, check_directory_entry_for_file c name ext f = Panic msg /\ oom (HS := S) msg) \/
  exists f', check_directory_entry_for_file c name ext f = Ok (dir_find 16 0 b (short_name name ext)) f' /\ same_vars f f' /\
    (forall q lq, owns (env f) q lq -> owns (env f') q lq) /\ disk (env f') = disk (env f).
Proof.
  intros Hm [Hc1 Hc2] [Hd Hb] Hds Hn He. unfold check_directory_entry_for_file.
  pose proof (calloc_law 512 (env f) ltac:(lia)) as Hcal. destruct (hp_calloc 512 (env f)) as [p s|msg| |] eqn:Ec; [right|left|done..].
  2: { exists msg. split; [apply bind_panic; unfold on_env; by rewrite Ec|]. exists 512, (env f). split; [lia|done]. }
  destruct Hcal as (Hp & _ & Ho & Hold). rewrite (bind_ok _ _ _ _ _ (on_env_ok _ _ _ _ Ec)). run_pure.
  cbn [data_start_lba set_env]. rewrite u32_small, u64_small by lia. replace (c - 2 + data_start_lba f) with (data_start_lba f + c - 2) by lia.
  destruct (disk_read_law s (data_start_lba f + c - 2) b p _ 0 Ho) as (r & s1 & Hr & Ho1 & Hoth & Hdk);
    [by rewrite length_replicate|by rewrite (calloc_disk _ _ _ _ Ec)|done|].
  rewrite Z.add_0_r in Hr. rewrite (bind_ok _ _ _ _ _ (on_env_ok _ (set_env s f) _ _ Hr)).
  assert (Hpa : patch 0 b (replicate (Z.to_nat 512) 0) = b).
  { unfold patch. rewrite take_0, drop_ge by (destruct Hb; rewrite length_replicate; lia). by rewrite app_nil_r. }
  rewrite Hpa in Ho1. destruct (find_in_dir_run 16 0 (set_env s1 (set_env s f)) p b (short_name name ext) Ho1 Hb eq_refl) as (f' & Hrun & Hsv & Hk & Hdk');
    [apply length_short_name|by apply short_name_printable|].
  exists f'. split; [exact Hrun|]. split; [rewrite Hsv; done|]. split.
  - intros q lq Hq. destruct (Hold q lq Hq) as [Hne Hq1]. apply Hk; [done|]. cbn. by apply Hoth.
  - rewrite Hdk'. cbn. by rewrite Hdk, (calloc_disk _ _ _ _ Ec).
Qed.

Lemma mounted_keep f f' t : mounted f t -> same_vars f f' -> owns (env f') (FAT f) t -> mounted f' t.
Proof. intros [H1 H2 H3] -> Ho. done. Qed.

Lemma block_at_keep f f' c b : same_vars f f' -> disk (env f') = disk (env f) -> block_at f c b -> block_at f' c b.
Proof. intros Hs Hd [H1 H2]. split; [|done]. rewrite Hd. rewrite Hs. done. Qed.

(** The search through all blocks of the directory. *)
Lemma search_dir_run ds : forall fuel f t bs name ext,
  mounted f t -> chain t ds -> Forall (data_cluster (FAT_size f)) ds -> Forall2 (block_at f) ds bs ->
  0 < data_start_lba f < 2 ^ 31 -> Forall printable name -> Forall printable ext -> (length ds <= fuel)%nat ->
  (exists msg, search_dir fuel (default 0 (head ds)) name ext f = Panic msg /\ oom (HS := S) msg) \/
  exists f', search_dir fuel (default 0 (head ds)) name ext f = Ok (lookup_file bs (short_name name ext)) f' /\ same_vars f f' /\
    (forall q lq, owns (env f) q lq -> owns (env f') q lq) /\ disk (env f') = disk (env f).
Proof.
  induction ds as [|c ds IH]; [done|]. intros fuel f t bs name ext Hm Hch Hd Hb Hds Hn He Hf.
  inversion Hb as [|? b ? bs' Hb1 Hb']; subst. apply Forall_cons in Hd as [Hdc Hd]. destruct fuel as [|fuel]; [cbn in Hf; lia|].
  cbn [search_dir head from_option id lookup_file]. pose proof Hdc as [Hc1 Hc2]. rewrite (u32_small c) by lia.
  destruct (check_run f t c b name ext) as [(msg & Hr & Ho)|(f1 & Hr & Hsv & Hk & Hdk)]; try done.
  { left. exists msg. split; [by apply bind_panic|done]. }
  rewrite (bind_ok _ _ _ _ _ Hr). destruct (Z.eqb_spec (dir_find 16 0 b (short_name name ext)) 0) as [E|E]; cbn [negb].
  2: { right. exists f1. done. }
  assert (Hm1 : mounted f1 t) by (eapply mounted_keep; [done|done|by apply Hk, Hm]).
  assert (Hfs : FAT_size f1 = FAT_size f) by (rewrite Hsv; done). assert (Hdl : data_start_lba f1 = data_start_lba f) by (rewrite Hsv; done).
  rewrite (bind_ok _ _ _ _ _ (fat_entry_run f1 t c Hm1 ltac:(rewrite Hfs; lia))). destruct ds as [|c' ds].
  - destruct Hch as [Hend Her]. pose proof (ending_range _ Hend Her). destruct (Z.eqb_spec (entry_of t c) 0); [lia|].
    rewrite Hend. cbn [negb]. right. exists f1. inversion Hb'; subst. cbn [lookup_file]. by rewrite E.
  - apply chain_cons in Hch as [Hnx Hch]. rewrite Hnx. pose proof Hd as [Hdc' _]%Forall_cons. pose proof Hdc' as [Hc1' Hc2'].
    destruct (Z.eqb_spec c' 0); [lia|]. rewrite (data_not_ending _ _ Hdc'). cbn [negb].
    destruct (IH fuel f1 t bs' name ext) as [(msg & Hr' & Ho)|(f' & Hr' & Hsv' & Hk' & Hdk')]; try done; [by rewrite Hfs| |by rewrite Hdl|cbn in *; lia|..].
    { eapply Forall2_impl; [done|]. intros x y. by apply block_at_keep. }
    + left. by exists msg.
    + right. exists f'. split; [done|]. split; [by eapply same_vars_trans|]. split; [auto|congruence].
Qed.

(** The counting loop. *)
Lemma count_clusters_run cs : forall fuel num f t,
  mounted f t -> chain t cs -> Forall (data_cluster (FAT_size f)) cs -> (length cs <= fuel)%nat ->
  0 <= num -> num + Z.of_nat (length cs) < W64 ->
  count_clusters fuel (default 0 (head cs)) num f = Ok (num + Z.of_nat (length cs)) f.
Proof.
  induction cs as [|c cs IH]; [done|]. intros fuel num f t Hm Hch Hd Hf Hn Hw. apply Forall_cons in Hd as [Hdc Hd].
  destruct fuel as [|fuel]; [cbn in Hf; lia|]. cbn [count_clusters head from_option id]. cbn [length] in *. rewrite (u64_small (num + 1)) by lia.
  pose proof Hdc as [Hc1 Hc2]. rewrite (bind_ok _ _ _ _ _ (fat_entry_run f t c Hm ltac:(lia))). destruct cs as [|c' cs].
  - destruct Hch as [Hend Her]. pose proof (ending_range _ Hend Her). destruct (Z.eqb_spec (entry_of t c) 0); [lia|].
    rewrite Hend. cbn [negb length]. done.
  - apply chain_cons in Hch as [Hnx Hch]. rewrite Hnx. pose proof Hd as [Hdc' _]%Forall_cons. pose proof Hdc' as [Hc1' Hc2'].
    destruct (Z.eqb_spec c' 0); [lia|]. rewrite (data_not_ending _ _ Hdc'). cbn [negb].
    pose proof (IH fuel (num + 1) f t Hm Hch Hd) as IH'. cbn [length head from_option id] in *. rewrite IH' by lia. f_equal. lia.
Qed.

End props.

End Fat32Lemmas.
