(* ===== verification/Fat32New.v ===== *)
(** * Creating files: what [fat32_new_file] writes *)

From S2P Require Import Prelude KMath Misc KHeap Disk Fat32 Fat32Lemmas.
Import KMath KHeap Disk Fat32 Fat32Lemmas.

Module Fat32New.

(** The first entry of a directory block whose name is not printable. *)
Definition name_at (b : list Z) (i : nat) : list Z := take 11 (drop (32 * i) b).
Definition readable (c : Z) : bool := (32 <=? c) && (c <=? 126).
Fixpoint slot_of (n i : nat) (b : list Z) : nat :=
  match n with
  | O => 16
  | Datatypes.S n' => if forallb readable (name_at b i) then slot_of n' (Datatypes.S i) b else i
  end.

Lemma slot_of_bound n : forall i b, (i + n = 16)%nat -> (slot_of n i b <= 16)%nat.
Proof. induction n as [|n IH]; intros i b Hi; cbn; [lia|]. destruct (forallb _ _); [apply IH|]; lia. Qed.

(** ** Patching *)

Lemma patch_slice off b l : (off + length b <= length l)%nat -> take (length b) (drop off (patch off b l)) = b.
Proof.
  intros H. unfold patch. rewrite drop_app_ge by (rewrite length_take; lia). rewrite length_take, Nat.min_l, Nat.sub_diag by lia.
  by rewrite drop_0, take_app_length.
Qed.

Lemma lookup_patch off b l i : (off + length b <= length l)%nat ->
  patch off b l !! i = if decide (off <= i < off + length b)%nat then b !! (i - off)%nat else l !! i.
Proof.
  intros H. unfold patch. destruct (decide (i < off)%nat) as [Hi|Hi].
  - rewrite lookup_app_l by (rewrite length_take; lia). rewrite lookup_take_lt by lia. by rewrite decide_False by lia.
  - rewrite lookup_app_r by (rewrite length_take; lia). rewrite length_take, Nat.min_l by lia. case_decide as E.
    + rewrite lookup_app_l by lia. done.
    + rewrite lookup_app_r by lia. rewrite lookup_drop. f_equal. lia.
Qed.

(** A slice of a patched list away from the patch. *)
Lemma patch_other off b l o n : (off + length b <= length l)%nat -> (o + n <= off \/ off + length b <= o)%nat ->
  take n (drop o (patch off b l)) = take n (drop o l).
Proof.
  intros H Ho. apply list_eq. intros i. destruct (decide (i < n)%nat).
  - rewrite !lookup_take_lt, !lookup_drop, lookup_patch, decide_False by lia. done.
  - rewrite !lookup_take_ge by lia. done.
Qed.

Lemma entry_of_patch t c v d : 0 <= c -> 0 <= d -> (4 * Z.to_nat c + 4 <= length t)%nat -> 0 <= v < W32 ->
  entry_of (patch (4 * Z.to_nat c) (unle 4 v) t) d = if decide (d = c) then v else entry_of t d.
Proof.
  intros Hc Hd Hl Hv. unfold entry_of, field. case_decide as E.
  - subst. change 4%nat with (length (unle 4 v)) at 1. rewrite patch_slice by (rewrite length_unle; lia). by apply le_unle.
  - by rewrite patch_other by (rewrite length_unle; lia).
Qed.

Lemma chain_patch t c v ds : 0 <= c -> (4 * Z.to_nat c + 4 <= length t)%nat -> 0 <= v < W32 -> c ∉ ds -> Forall (fun d => 0 <= d) ds ->
  chain t ds -> chain (patch (4 * Z.to_nat c) (unle 4 v) t) ds.
Proof.
  intros Hc Hl Hv. induction ds as [|d ds IH]; [done|]. intros Hin Hd Hch.
  apply not_elem_of_cons in Hin as [Hne Hin]. apply Forall_cons in Hd as [Hd0 Hd].
  assert (He : entry_of (patch (4 * Z.to_nat c) (unle 4 v) t) d = entry_of t d) by (rewrite entry_of_patch, decide_False by (done || congruence); done).
  destruct ds as [|d' ds]; [cbn [chain]; by rewrite He|]. apply chain_cons in Hch as [E Hch]. apply chain_cons. rewrite He. split; [done|by apply IH].
Qed.

Lemma patch_bytes off b l : Forall (fun c => 0 <= c < 256) b -> Forall (fun c => 0 <= c < 256) l -> Forall (fun c => 0 <= c < 256) (patch off b l).
Proof. intros Hb Hl. unfold patch. apply Forall_app. split; [by apply Forall_take|]. apply Forall_app. split; [done|by apply Forall_drop]. Qed.

(** ** The new directory entry *)

Lemma length_new_entry name ext c : length (new_entry name ext c) = 32%nat.
Proof. unfold new_entry. rewrite !length_app, length_short_name, !length_unle. done. Qed.

Lemma new_entry_name name ext c : take 11 (new_entry name ext c) = short_name name ext.
Proof. unfold new_entry. rewrite take_app_le by (rewrite length_short_name; lia). apply take_ge. rewrite length_short_name. lia. Qed.

Lemma new_entry_bytes name ext c : Forall printable name -> Forall printable ext -> Forall (fun c => 0 <= c < 256) (new_entry name ext c).
Proof.
  intros Hn He. unfold new_entry. repeat (apply Forall_app; split); try apply unle_bytes.
  - eapply Forall_impl; [by apply short_name_printable|]. unfold printable. cbn. lia.
  - repeat constructor; lia.
Qed.

Lemma field_middle (x y rest : list Z) : field (x ++ y ++ rest) (length x) (length y) = le y.
Proof. unfold field. by rewrite drop_app_length, take_app_length. Qed.

(** The entry records the low half of the cluster number only. *)
Lemma new_entry_cluster name ext c r : 0 <= c < W32 -> cluster_of (new_entry name ext c ++ r) = c mod 65536.
Proof.
  intros Hc. set (x := short_name name ext ++ [0x20; 0; 0] ++ unle 2 0 ++ unle 2 0 ++ unle 2 0).
  set (hi := unle 2 (u16 (Z.land c 0xFFFF0000))). set (lo := unle 2 (u16 (Z.land c 0x0000FFFF))).
  set (m := unle 2 0 ++ unle 2 0).
  assert (Hx : length x = 20%nat) by (subst x; by rewrite !length_app, length_short_name).
  assert (E : new_entry name ext c ++ r = x ++ hi ++ (m ++ lo ++ unle 4 512 ++ r)).
  { unfold new_entry, x, hi, m, lo. by rewrite <- !app_assoc. }
  assert (E2 : new_entry name ext c ++ r = (x ++ hi ++ m) ++ lo ++ (unle 4 512 ++ r)) by (rewrite E, <- !app_assoc; done).
  assert (Hhi : field (new_entry name ext c ++ r) 20 2 = le hi) by (rewrite E, <- Hx; apply (field_middle x hi)).
  assert (Hlo : field (new_entry name ext c ++ r) 26 2 = le lo).
  { rewrite E2. rewrite <- (field_middle (x ++ hi ++ m) lo (unle 4 512 ++ r)). f_equal. rewrite !length_app, Hx. done. }
  unfold cluster_of. rewrite Hhi, Hlo. subst hi lo.
  rewrite !le_unle by (cbn; apply Z.mod_pos_bound; lia). unfold u16.
  change 0x0000FFFF with (Z.ones 16). change 0xFFFF0000 with (2 ^ 32 - 2 ^ 16). rewrite Z.land_ones, land_block_mask by lia.
  change (2 ^ 16) with 65536. rewrite Z.mod_mod, Z.mod_mul by lia. lia.
Qed.

(** ** The searches of [fat32_new_file] *)

Section new.
Context {S : Type} `{!HeapIface S} `{!HeapLaws S} `{!DiskIface S} `{!DiskLaws S}.
Notation F := (M (fat S)).
Implicit Types f : fat S.

Lemma find_free_run n : forall i c f t, mounted f t -> 0 <= i <= c -> c < i + Z.of_nat n -> i + Z.of_nat n <= 512 * FAT_size f ->
  (forall j, i <= j < c -> entry_of t j <> 0) -> entry_of t c = 0 -> find_free n i f = Ok c f.
Proof.
  induction n as [|n IH]; intros i c f t Hm Hi Hc Hn Hnz Hz; [lia|]. cbn [find_free].
  rewrite (bind_ok _ _ _ _ _ (fat_entry_run f t i Hm ltac:(lia))). destruct (decide (i = c)) as [->|Hne].
  - by rewrite Hz.
  - destruct (Z.eqb_spec (entry_of t i) 0) as [E|]; [by destruct (Hnz i ltac:(lia))|]. apply (IH (i + 1) c f t); try done; try lia.
    intros j Hj. apply Hnz. lia.
Qed.

Lemma readable_test c : (c <? 32) || (126 <? c) = negb (readable c).
Proof. unfold readable. btests; cbn; try done; lia. Qed.

Lemma all_readable_run n : forall f p b off, owns (env f) p b -> (off + n <= length b)%nat ->
  all_readable n (p + Z.of_nat off) f = Ok (forallb readable (take n (drop off b))) f.
Proof.
  induction n as [|n IH]; intros f p b off Ho Hl; [done|]. cbn [all_readable].
  rewrite (bind_ok _ _ _ _ _ (on_env_ok _ _ _ _ (ld_run 1 (env f) p b off Ho ltac:(lia)))), set_env_id.
  destruct (lookup_lt_is_Some_2 b off) as [c Hc]; [lia|]. rewrite (drop_S _ c _ Hc). cbn [take forallb].
  assert (Hf : field b off 1 = c) by (unfold field; rewrite (drop_S _ c _ Hc); cbn; rewrite take_0; cbn; lia). rewrite Hf, readable_test.
  destruct (readable c); [|done]. cbn [negb andb]. replace (p + Z.of_nat off + 1) with (p + Z.of_nat (Datatypes.S off)) by lia. apply IH; [done|lia].
Qed.

Lemma free_slot_run n : forall (i : nat) f p b, owns (env f) p b -> length b = 512%nat -> (i + n = 16)%nat ->
  free_slot n (Z.of_nat i) p f = Ok (Z.of_nat (slot_of n i b)) f.
Proof.
  induction n as [|n IH]; intros i f p b Ho Hl Hi; [done|]. cbn [free_slot slot_of].
  replace (p + 32 * Z.of_nat i) with (p + Z.of_nat (32 * i)) by lia.
  rewrite (bind_ok _ _ _ _ _ (all_readable_run 11 f p b (32 * i) Ho ltac:(lia))). fold (name_at b i).
  destruct (forallb readable (name_at b i)); cbn [negb]; [|done].
  replace (Z.of_nat i + 1) with (Z.of_nat (Datatypes.S i)) by lia. apply IH; [done|done|lia].
Qed.

(** The directory blocks before the one with a free slot are full. *)
Lemma find_slot_run ds1 : forall fuel f t bs1 c b ds2 dir l,
  mounted f t -> chain t (ds1 ++ c :: ds2) -> Forall (data_cluster (FAT_size f)) (ds1 ++ [c]) ->
  Forall2 (block_at f) (ds1 ++ [c]) (bs1 ++ [b]) -> length bs1 = length ds1 -> 0 < data_start_lba f < 2 ^ 31 ->
  Forall (fun b => slot_of 16 0 b = 16%nat) bs1 -> (slot_of 16 0 b < 16)%nat ->
  owns (env f) dir l -> length l = 512%nat -> dir <> FAT f -> (length ds1 < fuel)%nat ->
  exists f', find_slot fuel (default 0 (head (ds1 ++ [c]))) dir f = Ok (Z.of_nat (slot_of 16 0 b), c) f' /\ same_vars f f' /\
    owns (env f') dir b /\ keeps f f' dir /\ disk (env f') = disk (env f).
Proof.
  induction ds1 as [|d ds1 IH]; intros fuel f t bs1 c b ds2 dir l Hm Hch Hd Hb Hlen Hds Hfull Hslot Ho Hl Hne Hf;
    destruct fuel as [|fuel]; try (cbn in Hf; lia).
  - destruct bs1; [|done]. cbn [app] in *. inversion Hb as [|? ? ? ? [Hdk Hib] _]; subst. apply Forall_cons in Hd as [[Hc1 Hc2] _].
    cbn [find_slot head from_option id]. run_pure. rewrite !u64_small by (rewrite ?u64_small; lia).
    replace (c - 2 + data_start_lba f) with (data_start_lba f + c - 2) by lia.
    destruct (disk_read_law (env f) _ b dir l 0 Ho ltac:(lia) Hdk Hib) as (r & s & Hr & Ho1 & Hoth & Hdk1).
    rewrite Z.add_0_r in Hr. rewrite (bind_ok _ _ _ _ _ (on_env_ok _ _ _ _ Hr)).
    assert (Hpa : patch 0 b l = b) by (destruct Hib; unfold patch; rewrite take_0, drop_ge by lia; by rewrite app_nil_r).
    rewrite Hpa in Ho1. rewrite (bind_ok _ _ _ _ _ (free_slot_run 16 0 (set_env s f) dir b Ho1 (proj1 Hib) eq_refl)).
    destruct (Z.eqb_spec (Z.of_nat (slot_of 16 0 b)) 16); [lia|]. cbn [negb].
    exists (set_env s f). split; [done|]. split; [done|]. split; [done|]. split; [intros q lq; apply Hoth|done].
  - destruct bs1 as [|b1 bs1]; [done|]. cbn [app] in *. inversion Hb as [|? ? ? ? [Hdk Hib] Hb']; subst.
    apply Forall_cons in Hd as [[Hc1 Hc2] Hd]. apply Forall_cons in Hfull as [Hf1 Hfull].
    cbn [find_slot head from_option id]. run_pure. rewrite !u64_small by (rewrite ?u64_small; lia).
    replace (d - 2 + data_start_lba f) with (data_start_lba f + d - 2) by lia.
    destruct (disk_read_law (env f) _ b1 dir l 0 Ho ltac:(lia) Hdk Hib) as (r & s & Hr & Ho1 & Hoth & Hdk1).
    rewrite Z.add_0_r in Hr. rewrite (bind_ok _ _ _ _ _ (on_env_ok _ _ _ _ Hr)).
    assert (Hpa : patch 0 b1 l = b1) by (destruct Hib; unfold patch; rewrite take_0, drop_ge by lia; by rewrite app_nil_r).
    rewrite Hpa in Ho1. rewrite (bind_ok _ _ _ _ _ (free_slot_run 16 0 (set_env s f) dir b1 Ho1 (proj1 Hib) eq_refl)).
    rewrite Hf1. change (negb (Z.of_nat 16 =? 16)) with false. cbv iota.
    assert (Hm1 : mounted (set_env s f) t) by (destruct Hm as [Hm1 Hm2 Hm3]; split; [apply Hoth; [by apply not_eq_sym|done]|done|done]).
    rewrite (bind_ok _ _ _ _ _ (fat_entry_run (set_env s f) t d Hm1 ltac:(cbn; lia))).
    assert (Hnx : exists d', entry_of t d = d' /\ head (ds1 ++ [c]) = Some d' /\ chain t (ds1 ++ c :: ds2)).
    { destruct ds1 as [|d' ds1]; cbn [app] in *; apply chain_cons in Hch as [E Hch]; eauto. }
    destruct Hnx as (d' & Hnx & Hhd & Hch'). rewrite Hnx.
    assert (Hd' : data_cluster (FAT_size f) d').
    { rewrite Forall_forall in Hd. apply Hd. destruct ds1; cbn in *; simplify_eq; left. }
    pose proof Hd' as [Hd1 Hd2]. destruct (Z.eqb_spec d' 0); [lia|]. rewrite (data_not_ending _ _ Hd'). cbn [negb].
    destruct (IH fuel (set_env s f) t bs1 c b ds2 dir b1) as (f' & Hr' & Hsv & Hown & Hk & Hdk'); try done.
    { eapply Forall2_impl; [done|]. intros x y. by apply block_at_keep. }
    { cbn in Hlen. lia. } { apply Hib. } { cbn in Hf. lia. }
    rewrite Hhd in Hr'. cbn [from_option id] in Hr'. exists f'. split; [done|]. split; [by apply (same_vars_trans f (set_env s f) f')|]. split; [done|].
    split; [|by rewrite Hdk']. intros q lq Hq Hql. apply Hk; [done|]. cbn. by apply Hoth.
Qed.

Lemma st_bytes_disk_same b : forall a (s s' : S), st_bytes a b s = Ok tt s' -> disk s' = disk s.
Proof.
  induction b as [|c b IH]; intros a s s'; cbn [st_bytes]; [by intros [= <-]|].
  unfold mbind, M_bind. destruct (hp_wr a c s) as [[] s1| | |] eqn:E; [|done..].
  intros H. apply IH in H. apply wr_disk in E. congruence.
Qed.

Lemma chain_nonzero t n cs d : chain t cs -> Forall (data_cluster n) cs -> d ∈ cs -> entry_of t d <> 0.
Proof.
  intros Hc Hd Hin. apply list_elem_of_split in Hin as (r1 & r2 & ->). apply chain_app in Hc. apply Forall_app in Hd as [_ Hd].
  destruct r2 as [|x r2].
  - destruct Hc as [He Hr]. pose proof (ending_range _ He Hr). lia.
  - apply chain_cons in Hc as [-> _]. apply Forall_cons in Hd as [_ [[Hx _] _]%Forall_cons]. lia.
Qed.

(** The name is not in the directory block. *)
Definition absent (want b : list Z) : Prop := forall i, (i < 16)%nat -> name_at b i <> want.

Lemma dir_find_absent want b n : absent want b -> forall i, (i + n = 16)%nat -> dir_find n i b want = 0.
Proof.
  intros Ha. induction n as [|n IH]; intros i Hi; cbn [dir_find]; [done|]. rewrite bool_decide_eq_false_2; [apply IH; lia|].
  apply Ha. lia.
Qed.

Lemma lookup_file_absent want bs : Forall (absent want) bs -> lookup_file bs want = 0.
Proof.
  induction 1 as [|b bs Hb _ IH]; cbn [lookup_file]; [done|]. rewrite (dir_find_absent want b 16 Hb 0 eq_refl). done.
Qed.

(** A file system in which the file can be created: the free cluster [c] is the
    first one, and [b], the block of cluster [d], is the first directory block
    with an unused entry. *)
Record creatable f t name ext c ds1 d ds2 bs1 b bs2 : Prop := {
  cr_mounted : mounted f t;
  cr_bytes : Forall (fun x => 0 <= x < 256) t;
  cr_root : root_dir_lba f = default 0 (head (ds1 ++ [d]));
  cr_chain : chain t (ds1 ++ d :: ds2);
  cr_data : Forall (data_cluster (FAT_size f)) (ds1 ++ d :: ds2);
  cr_blocks : Forall2 (block_at f) (ds1 ++ d :: ds2) (bs1 ++ b :: bs2);
  cr_length : length bs1 = length ds1;
  cr_layout : 0 <= FAT_start_lba f /\ FAT_start_lba f + 2 * FAT_size f = data_start_lba f /\ data_start_lba f < 2 ^ 31;
  cr_name : (length name <= 8)%nat /\ (length ext <= 3)%nat /\ Forall printable name /\ Forall printable ext;
  cr_absent : Forall (absent (short_name name ext)) (bs1 ++ b :: bs2);
  cr_slot : Forall (fun b => slot_of 16 0 b = 16%nat) bs1 /\ (slot_of 16 0 b < 16)%nat;
  cr_free : 2 <= c < 128 * FAT_size f /\ entry_of t c = 0 /\ forall j, 0 <= j < c -> entry_of t j <> 0;
  cr_disk : (forall i, 0 <= i < FAT_size f -> is_Some (disk (env f) !! (FAT_start_lba f + i))) /\
    is_Some (disk (env f) !! (data_start_lba f + c - 2));
}.

(** The table in memory and the disk after the file has been created. *)
Definition new_table (t : list Z) (c : Z) : list Z := patch (4 * Z.to_nat c) (unle 4 0xFFFFFFF) t.
Definition new_disk f t name ext c d b : gmap Z (list Z) :=
  <[data_start_lba f + c - 2:=replicate 512 0]>
    (<[data_start_lba f + d - 2:=patch (32 * slot_of 16 0 b) (new_entry name ext c) b]>
      (<[FAT_start_lba f + c / 512:=take 512 (drop (Z.to_nat (c - c mod 512)) (new_table t c))]> (disk (env f)))).

Lemma oom_calloc {A} (g : Z -> F A) f n : 0 < n < 2 ^ 40 ->
  (exists msg, (p ← on_env (hp_calloc n); g p) f = Panic msg /\ oom (HS := S) msg) \/
  exists p s, hp_calloc n (env f) = Ok p s /\ 0 < p /\ owns s p (replicate (Z.to_nat n) 0) /\
    (forall q lq, owns (env f) q lq -> q <> p /\ owns s q lq) /\ disk s = disk (env f) /\
    (p ← on_env (hp_calloc n); g p) f = g p (set_env s f).
Proof.
  intros Hn. pose proof (calloc_law n (env f) Hn) as Hcal. destruct (hp_calloc n (env f)) as [p s|msg| |] eqn:Ec; [right|left|done..].
  - destruct Hcal as (Hp & _ & Ho & Hold). exists p, s. rewrite (bind_ok _ _ _ _ _ (on_env_ok _ _ _ _ Ec)).
    pose proof (calloc_disk _ _ _ _ Ec). done.
  - exists msg. split; [apply bind_panic; unfold on_env; by rewrite Ec|]. by exists n, (env f).
Qed.

(** The last part of [fat32_new_file]: the three writes. *)
Lemma write_back_run f t' c d dir bd (old1 old2 old3 : list Z) :
  owns (env f) (FAT f) t' -> Forall (fun x => 0 <= x < 256) t' -> (Z.to_nat (c - c mod 512) + 512 <= length t')%nat ->
  owns (env f) dir bd -> is_block bd -> dir <> FAT f ->
  2 <= c < 2 ^ 31 -> 2 <= d < 2 ^ 31 -> 0 <= FAT_start_lba f < 2 ^ 31 -> 0 < data_start_lba f < 2 ^ 31 ->
  disk (env f) !! (FAT_start_lba f + c / 512) = Some old1 -> disk (env f) !! (data_start_lba f + d - 2) = Some old2 ->
  disk (env f) !! (data_start_lba f + c - 2) = Some old3 ->
  let prog :=
    on_env (nvme_write (FAT_start_lba f +64 c / 512) 1 (FAT f + c - c mod 512));;
    on_env (nvme_write ((d -64 2) +64 data_start_lba f) 1 dir);;
    empty ← on_env (hp_calloc 512);
    on_env (nvme_write ((c -32 2) +64 data_start_lba f) 1 empty);;
    on_env (hp_free empty);;
    on_env (hp_free dir);;
    mret (NewFileResult 0 0) in
  (exists msg, prog f = Panic msg /\ oom (HS := S) msg) \/
  exists f', prog f = Ok (NewFileResult 0 0) f' /\ same_vars f f' /\ owns (env f') (FAT f) t' /\
    disk (env f') = <[data_start_lba f + c - 2:=replicate 512 0]> (<[data_start_lba f + d - 2:=bd]>
      (<[FAT_start_lba f + c / 512:=take 512 (drop (Z.to_nat (c - c mod 512)) t')]> (disk (env f)))).
Proof.
  intros Ht Htb Htl Hdir [Hbl Hbb] Hne Hc Hd Hfs Hds H1 H2 H3 prog. subst prog.
  assert (Hq : 0 <= c / 512 < 2 ^ 31) by (clear -Hc; dlia). assert (Hm : 0 <= c mod 512 <= c) by (clear -Hc; dlia).
  rewrite !(u64_small (FAT_start_lba f + _)), (u64_small (d - 2)), (u64_small (d - 2 + _)), (u32_small (c - 2)), (u64_small (c - 2 + _)) by lia.
  replace (FAT f + c - c mod 512) with (FAT f + Z.of_nat (Z.to_nat (c - c mod 512))) by lia.
  destruct (disk_write_law (env f) _ old1 (FAT f) t' (Z.to_nat (c - c mod 512)) Ht Htl Htb H1) as (r1 & s1 & Hr1 & Hk1 & Hd1).
  rewrite (bind_ok _ _ _ _ _ (on_env_ok _ _ _ _ Hr1)).
  assert (H2' : is_Some (disk s1 !! (data_start_lba f + d - 2))) by (rewrite Hd1; apply lookup_insert_is_Some'; eauto). destruct H2' as [o2 H2'].
  destruct (disk_write_law s1 _ o2 dir bd 0 (Hk1 _ _ Hdir) ltac:(lia) Hbb H2') as (r2 & s2 & Hr2 & Hk2 & Hd2). rewrite Z.add_0_r in Hr2.
  replace (d - 2 + data_start_lba f) with (data_start_lba f + d - 2) by lia.
  rewrite (bind_ok _ _ _ _ _ (on_env_ok _ (set_env s1 f) _ _ Hr2)).
  match goal with |- context [(on_env (hp_calloc 512) ≫= ?g) ?st] => destruct (oom_calloc g st 512 ltac:(lia)) as [Hoom|(p & s3 & Hr3 & Hp & Ho3 & Hk3 & Hd3 & Hprog)] end; [by left|].
  right. rewrite Hprog. clear Hprog. cbn [env set_env] in *.
  assert (H3' : is_Some (disk s3 !! (data_start_lba f + c - 2))).
  { rewrite Hd3, Hd2, Hd1. apply lookup_insert_is_Some'. right. apply lookup_insert_is_Some'. eauto. } destruct H3' as [o3 H3'].
  destruct (disk_write_law s3 _ o3 p _ 0 Ho3 ltac:(by rewrite length_replicate) ltac:(apply Forall_replicate; lia) H3') as (r4 & s4 & Hr4 & Hk4 & Hd4).
  rewrite Z.add_0_r in Hr4. replace (c - 2 + data_start_lba f) with (data_start_lba f + c - 2) by lia.
  rewrite (bind_ok _ _ _ _ _ (on_env_ok _ (set_env s3 (set_env s2 (set_env s1 f))) _ _ Hr4)).
  destruct (free_law p _ s4 (Hk4 _ _ Ho3)) as (s5 & Hr5 & Hk5).
  rewrite (bind_ok _ _ _ _ _ (on_env_ok _ (set_env s4 (set_env s3 (set_env s2 (set_env s1 f)))) _ _ Hr5)).
  destruct (Hk3 dir bd) as [Hdp Hdir3]; [by apply Hk2, Hk1|]. destruct (Hk3 (FAT f) t') as [Hfp Ht3]; [by apply Hk2, Hk1|].
  destruct (free_law dir bd s5) as (s6 & Hr6 & Hk6); [apply Hk5; [done|by apply Hk4]|].
  rewrite (bind_ok _ _ _ _ _ (on_env_ok _ (set_env s5 (set_env s4 (set_env s3 (set_env s2 (set_env s1 f))))) _ _ Hr6)).
  eexists. split; [done|]. split; [done|]. cbn [env set_env]. split.
  - apply Hk6; [by apply not_eq_sym|]. apply Hk5; [done|]. by apply Hk4.
  - rewrite (free_disk _ _ _ Hr6), (free_disk _ _ _ Hr5), Hd4, Hd3, Hd2, Hd1. rewrite !drop_0.
    rewrite (take_ge bd) by lia. by rewrite take_replicate.
Qed.

Lemma chain_fuel_enough f ds t : chain t ds -> Forall (data_cluster (FAT_size f)) ds -> (length ds <= chain_fuel f)%nat.
Proof. intros Hc Hd. pose proof (chain_length t _ _ Hc Hd). unfold chain_fuel. lia. Qed.

Lemma get_cluster_num_run f t ds bs name ext :
  mounted f t -> root_dir_lba f = default 0 (head ds) -> chain t ds -> Forall (data_cluster (FAT_size f)) ds ->
  Forall2 (block_at f) ds bs -> 0 < data_start_lba f < 2 ^ 31 -> (length name <= 8)%nat -> (length ext <= 3)%nat ->
  Forall printable name -> Forall printable ext ->
  (exists msg, get_cluster_num name ext f = Panic msg /\ oom (HS := S) msg) \/
  exists f', get_cluster_num name ext f = Ok (lookup_file bs (short_name name ext)) f' /\ same_vars f f' /\
    (forall q lq, owns (env f) q lq -> owns (env f') q lq) /\ disk (env f') = disk (env f).
Proof.
  intros Hm Hr Hc Hd Hb Hds Hn He Hpn Hpe. unfold get_cluster_num.
  destruct (Z.ltb_spec 8 (Z.of_nat (length name))); [lia|]. destruct (Z.ltb_spec 3 (Z.of_nat (length ext))); [lia|]. run_pure.
  rewrite Hr. apply (search_dir_run ds _ f t bs); try done. by apply (chain_fuel_enough f ds t).
Qed.

Lemma creatable_free f t name ext c ds1 d ds2 bs1 b bs2 : creatable f t name ext c ds1 d ds2 bs1 b bs2 ->
  (c ∉ ds1 ++ d :: ds2) /\ (4 * Z.to_nat c + 4 <= length t)%nat /\ chain (new_table t c) (ds1 ++ d :: ds2).
Proof.
  intros H. destruct (cr_free _ _ _ _ _ _ _ _ _ _ _ H) as (Hc & Hz & _). destruct (cr_mounted _ _ _ _ _ _ _ _ _ _ _ H) as [_ Hl Hs].
  assert (Hin : c ∉ ds1 ++ d :: ds2).
  { intros Hin. by apply (chain_nonzero t _ _ c (cr_chain _ _ _ _ _ _ _ _ _ _ _ H) (cr_data _ _ _ _ _ _ _ _ _ _ _ H) Hin). }
  assert (Hlen : (4 * Z.to_nat c + 4 <= length t)%nat) by lia. split_and!; [done|done|].
  apply chain_patch; [lia|done|lia|done| |apply H].
  eapply Forall_impl; [apply (cr_data _ _ _ _ _ _ _ _ _ _ _ H)|]. intros x [Hx _]. lia.
Qed.

(** Everything that [fat32_new_file] does. *)
Lemma new_file_run f t name ext c ds1 d ds2 bs1 b bs2 :
  creatable f t name ext c ds1 d ds2 bs1 b bs2 ->
  (exists msg, fat32_new_file name ext f = Panic msg /\ oom (HS := S) msg) \/
  exists f', fat32_new_file name ext f = Ok (NewFileResult 0 0) f' /\ same_vars f f' /\ mounted f' (new_table t c) /\
    disk (env f') = new_disk f t name ext c d b.
Proof.
  intros Hcr. destruct (creatable_free _ _ _ _ _ _ _ _ _ _ _ Hcr) as (Hin & Hlen & Hch').
  destruct Hcr as [Hm Htb Hroot Hch Hdt Hbl Hlb (HF0 & HFd & Hds) (Hn8 & He3 & Hpn & Hpe) Habs [Hfull Hslot] (Hc & Hz & Hnz) [Hdk1 Hdk2]].
  pose proof Hm as [Hmo Hml Hms]. assert (Hds0 : 0 < data_start_lba f < 2 ^ 31) by lia.
  assert (Hhead : default 0 (head (ds1 ++ [d])) = default 0 (head (ds1 ++ d :: ds2))) by (by destruct ds1).
  unfold fat32_new_file. destruct (Z.ltb_spec 8 (Z.of_nat (length name))); [lia|]. destruct (Z.ltb_spec 3 (Z.of_nat (length ext))); [lia|].
  destruct (get_cluster_num_run f t (ds1 ++ d :: ds2) (bs1 ++ b :: bs2) name ext) as [(msg & Hr & Ho)|(f1 & Hr & Hsv1 & Hk1 & Hd1)];
    try done; [congruence|left|].
  { exists msg. split; [by apply bind_panic|done]. }
  rewrite (bind_ok _ _ _ _ _ Hr), (lookup_file_absent _ _ Habs). cbn [Z.eqb negb].
  assert (Hm1 : mounted f1 t) by (eapply mounted_keep; [done|done|by apply Hk1]).
  assert (Ev : FAT_size f1 = FAT_size f /\ FAT f1 = FAT f /\ root_dir_lba f1 = root_dir_lba f /\ FAT_start_lba f1 = FAT_start_lba f /\
    data_start_lba f1 = data_start_lba f) by (rewrite Hsv1; done). destruct Ev as (E1 & E2 & E3 & E4 & E5).
  assert (Hfree : find_free_FAT_cluster f1 = Ok c f1).
  { unfold find_free_FAT_cluster. run_pure. rewrite E1, u32_small by lia. apply (find_free_run _ 0 c f1 t); try done; lia. }
  rewrite (bind_ok _ _ _ _ _ Hfree). run_pure. rewrite E2. replace (FAT f + 4 * c) with (FAT f + Z.of_nat (4 * Z.to_nat c)) by lia.
  destruct (st_bytes_run (unle 4 0xFFFFFFF) (env f1) (FAT f) t (4 * Z.to_nat c)) as (s2 & Hst & Ho2 & Hk2);
    [by apply Hk1|rewrite length_unle; lia|apply unle_bytes|]. fold (new_table t c) in Ho2.
  pose proof (st_bytes_disk_same _ _ _ _ Hst) as Hd2. rewrite <- st_bytes_unle in Hst.
  rewrite (bind_ok _ _ _ _ _ (on_env_ok _ _ _ _ Hst)). run_pure.
  match goal with |- context [(on_env (hp_calloc 512) ≫= ?g) ?st] =>
    destruct (oom_calloc g st 512 ltac:(lia)) as [Hoom|(dir & s3 & Hr3 & Hp & Ho3 & Hk3 & Hd3 & ->)] end; [by left|].
  cbn [env set_env] in Hk3, Hd3. destruct (Hk3 _ _ Ho2) as [Hne Ht3]. run_pure. cbn [root_dir_lba set_env]. rewrite E3, Hroot.
  set (f3 := set_env s3 (set_env s2 f1)).
  assert (Hsv3 : same_vars f f3) by (unfold same_vars, f3; cbn [env set_env]; rewrite Hsv1; done).
  assert (Hdk3 : disk (env f3) = disk (env f)) by (cbn; congruence).
  assert (Hlt : length (new_table t c) = length t) by (apply length_patch; rewrite length_unle; lia).
  assert (Hm3 : mounted f3 (new_table t c)).
  { split; [cbn; by rewrite E2|rewrite Hlt; cbn; by rewrite E1|cbn; by rewrite E1]. }
  assert (Hbl3 : Forall2 (block_at f3) (ds1 ++ d :: ds2) (bs1 ++ b :: bs2)).
  { eapply Forall2_impl; [done|]. intros x y. by apply block_at_keep. }
  pose proof (chain_length _ _ _ Hch Hdt) as Hfuel.
  replace (ds1 ++ d :: ds2) with ((ds1 ++ [d]) ++ ds2) in Hbl3, Hdt by (by rewrite <- app_assoc).
  replace (bs1 ++ b :: bs2) with ((bs1 ++ [b]) ++ bs2) in Hbl3 by (by rewrite <- app_assoc).
  apply Forall2_app_inv in Hbl3 as [Hbl3 _]; [|rewrite !length_app; cbn; lia]. apply Forall_app in Hdt as [Hdt1 _].
  destruct (find_slot_run ds1 (chain_fuel f3) f3 (new_table t c) bs1 d b ds2 dir (replicate (Z.to_nat 512) 0))
    as (f4 & Hr4 & Hsv4 & Ho4 & Hk4 & Hd4); try done.
  { cbn. by rewrite E1. } { cbn. by rewrite E5. } { cbn. rewrite E2. by apply not_eq_sym. }
  { unfold chain_fuel. cbn [FAT_size set_env f3]. rewrite length_app in Hfuel. cbn [length] in Hfuel. subst f3. cbn. rewrite E1. lia. }
  rewrite (bind_ok _ _ _ _ _ Hr4).
  assert (Hsv04 : same_vars f f4) by (by apply (same_vars_trans f f3)).
  assert (Ev4 : FAT f4 = FAT f /\ FAT_start_lba f4 = FAT_start_lba f /\ data_start_lba f4 = data_start_lba f /\ FAT_size f4 = FAT_size f) by (rewrite Hsv04; done).
  destruct Ev4 as (F1 & F2 & F3 & F4).
  assert (Hbb : block_at f d b).
  { apply Forall2_app_inv in Hbl as [_ Hbl]; [|done]. by inversion Hbl. } destruct Hbb as [Hbd [Hb1 Hb2]].
  assert (Hdd : data_cluster (FAT_size f) d) by (by apply Forall_app in Hdt1 as [_ [? _]%Forall_cons]). destruct Hdd as [Hdr _].
  replace (dir + 32 * Z.of_nat (slot_of 16 0 b)) with (dir + Z.of_nat (32 * slot_of 16 0 b)) by lia.
  destruct (st_bytes_run (new_entry name ext c) (env f4) dir b (32 * slot_of 16 0 b) Ho4) as (s5 & Hst5 & Ho5 & Hk5);
    [rewrite length_new_entry; lia|by apply new_entry_bytes|].
  pose proof (st_bytes_disk_same _ _ _ _ Hst5) as Hd5. rewrite (bind_ok _ _ _ _ _ (on_env_ok _ _ _ _ Hst5)). run_pure.
  set (f5 := set_env s5 f4). assert (Hsv5 : same_vars f f5) by (by apply (same_vars_trans f f4)).
  assert (Hdk5 : disk (env f5) = disk (env f)) by (cbn; congruence).
  assert (Hcq : 0 <= c / 512 < FAT_size f) by (clear -Hc; dlia). assert (Hcm : 0 <= c - c mod 512 <= c) by (clear -Hc; dlia).
  destruct (Hdk1 (c / 512) Hcq) as [o1 Ho1']. destruct Hdk2 as [o3 Ho3'].
  assert (G1 : FAT f5 = FAT f) by done. assert (G2 : FAT_start_lba f5 = FAT_start_lba f) by done. assert (G3 : data_start_lba f5 = data_start_lba f) by done.
  assert (Ht5 : owns (env f5) (FAT f) (new_table t c)).
  { cbn. apply Hk5; [done|]. apply Hk4; [done|]. done. }
  destruct (write_back_run f5 (new_table t c) c d dir (patch (32 * slot_of 16 0 b) (new_entry name ext c) b) o1 b o3) as [Hoom|(f' & Hr6 & Hsv6 & Ho6 & Hd6)];
    rewrite ?Hdk5, ?G1, ?G2, ?G3 in *; try done; try lia.
  { by apply patch_bytes; [apply unle_bytes|]. }
  { split; [rewrite length_patch; [done|rewrite length_new_entry; lia]|apply patch_bytes; [by apply new_entry_bytes|done]]. }
  - left. destruct Hoom as (msg & Hp6 & Ho6). exists msg. split; [|done]. exact Hp6.
  - right. exists f'. split; [exact Hr6|]. assert (Hsv' : same_vars f f') by (by apply (same_vars_trans f f5)). split; [done|].
    split; [|by rewrite Hd6].
    split; [rewrite Hsv'; done|rewrite Hlt, Hml, Hsv'; done|rewrite Hsv'; done].
Qed.

End new.

End Fat32New.
