(* ===== verification/Fat32Props.v ===== *)
(** * The properties of the FAT32 file system *)

From S2P Require Import Prelude KMath Misc KHeap Disk Fat32 Fat32Lemmas Fat32New.
Import KMath KHeap Disk Fat32 Fat32Lemmas Fat32New.

Module Fat32Props.

(** ** Lookup in the directory after a file has been created *)

Lemma name_at_patch b e u i : length b = 512%nat -> length e = 32%nat -> (u < 16)%nat -> (i < 16)%nat ->
  name_at (patch (32 * u) e b) i = if decide (i = u) then take 11 e else name_at b i.
Proof.
  intros Hb He Hu Hi. unfold name_at. case_decide as E.
  - subst. unfold patch. rewrite drop_app_ge by (rewrite length_take; lia). rewrite length_take, Nat.min_l, Nat.sub_diag, drop_0 by lia.
    rewrite take_app_le by lia. done.
  - rewrite patch_other by lia. done.
Qed.

Lemma drop_patch_at b e u : (32 * u + length e <= length b)%nat -> drop (32 * u) (patch (32 * u) e b) = e ++ drop (32 * u + length e) b.
Proof.
  intros H. unfold patch. rewrite drop_app_ge by (rewrite length_take; lia). by rewrite length_take, Nat.min_l, Nat.sub_diag, drop_0 by lia.
Qed.

(** The first entry with the name is the new one. *)
Lemma dir_find_new n : forall i b e u want, length b = 512%nat -> length e = 32%nat -> (i + n = 16)%nat -> (i <= u < 16)%nat ->
  absent want b -> take 11 e = want -> dir_find n i (patch (32 * u) e b) want = cluster_of (e ++ drop (32 * u + 32) b).
Proof.
  induction n as [|n IH]; intros i b e u want Hb He Hn Hu Ha Hw; [lia|]. cbn [dir_find].
  change (take 11 (drop (32 * i) (patch (32 * u) e b))) with (name_at (patch (32 * u) e b) i). rewrite name_at_patch by lia.
  case_decide as E.
  - subst i. rewrite bool_decide_eq_true_2 by done. rewrite drop_patch_at by lia. by rewrite He.
  - rewrite bool_decide_eq_false_2 by (apply Ha; lia). apply IH; try done; lia.
Qed.

Lemma lookup_file_skip want bs1 bs2 : Forall (absent want) bs1 -> lookup_file (bs1 ++ bs2) want = lookup_file bs2 want.
Proof.
  induction 1 as [|b bs Hb _ IH]; cbn [app lookup_file]; [done|]. by rewrite (dir_find_absent want b 16 Hb 0 eq_refl).
Qed.

Section props.
Context {S : Type} `{!HeapIface S} `{!HeapLaws S} `{!DiskIface S} `{!DiskLaws S}.
Implicit Types f : fat S.

Lemma open_run f t ds bs name ext cs :
  mounted f t -> root_dir_lba f = default 0 (head ds) -> chain t ds -> Forall (data_cluster (FAT_size f)) ds ->
  Forall2 (block_at f) ds bs -> 0 < data_start_lba f < 2 ^ 31 -> (length name <= 8)%nat -> (length ext <= 3)%nat ->
  Forall printable name -> Forall printable ext ->
  let c := lookup_file bs (short_name name ext) in
  (c <> 0 -> chain t (c :: cs) /\ Forall (data_cluster (FAT_size f)) (c :: cs)) ->
  (exists msg, fat32_open name ext f = Panic msg /\ oom (HS := S) msg) \/
  exists f', fat32_open name ext f =
      Ok (if c =? 0 then OpenResult 0 FAT32_OPEN_NOT_FOUND else OpenResult c (1 + Z.of_nat (length cs))) f' /\
    same_vars f f' /\ (forall q lq, owns (env f) q lq -> owns (env f') q lq) /\ disk (env f') = disk (env f).
Proof.
  intros Hm Hr Hch Hd Hb Hds Hn He Hpn Hpe c Hc. unfold fat32_open.
  destruct (Z.ltb_spec 8 (Z.of_nat (length name))); [lia|]. destruct (Z.ltb_spec 3 (Z.of_nat (length ext))); [lia|].
  destruct (get_cluster_num_run f t ds bs name ext) as [(msg & Hg & Ho)|(f1 & Hg & Hsv & Hk & Hdk)]; try done.
  { left. exists msg. split; [by apply bind_panic|done]. }
  right. exists f1. split; [|split; [done|split; done]]. rewrite (bind_ok _ _ _ _ _ Hg). fold c. destruct (Z.eqb_spec c 0) as [->|Hc0]; [done|].
  destruct (Hc Hc0) as [Hcc Hcd]. pose proof Hcd as [[Hcr _] _]%Forall_cons. rewrite u32_small by lia.
  destruct (Z.eqb_spec c 0); [done|]. run_pure.
  assert (Hm1 : mounted f1 t) by (eapply mounted_keep; [done|done|by apply Hk, Hm]).
  assert (Hfs : FAT_size f1 = FAT_size f) by (rewrite Hsv; done).
  pose proof (chain_length t _ _ Hcc Hcd) as Hlen. pose proof (mt_size _ _ Hm). cbn [length] in Hlen.
  pose proof (count_clusters_run (c :: cs) (chain_fuel f1) 0 f1 t Hm1 Hcc) as Hcount. cbn [head from_option id length] in Hcount.
  rewrite (bind_ok _ _ _ _ _ (Hcount ltac:(by rewrite Hfs) ltac:(unfold chain_fuel; rewrite Hfs; lia) ltac:(lia) ltac:(lia))).
  rewrite u32_small by lia. replace (0 + Z.of_nat (Datatypes.S (length cs))) with (1 + Z.of_nat (length cs)) by lia. done.
Qed.

Lemma read_run f t cs bs buf l :
  mounted f t -> chain t cs -> Forall (data_cluster (FAT_size f)) cs -> Forall2 (block_at f) cs bs ->
  0 < data_start_lba f < 2 ^ 31 -> owns (env f) buf l -> buf <> FAT f -> 0 < buf -> buf + Z.of_nat (length l) < W64 ->
  (512 * length cs <= length l)%nat -> Z.of_nat (length cs) < 2 ^ 22 ->
  exists f', fat32_read (default 0 (head cs)) (Z.of_nat (length cs)) buf f = Ok 1 f' /\
    owns (env f') buf (concat bs ++ drop (length (concat bs)) l) /\ disk (env f') = disk (env f) /\ same_vars f f' /\ mounted f' t.
Proof.
  intros Hm Hch Hd Hb Hds Ho Hne Hb0 Hbw Hl Hn.
  destruct (read_clusters_run cs 0 bs f t l buf) as (f' & Hr & Hsv & Hmt & Hown & Hdk); try done.
  exists f'. unfold fat32_read. rewrite Nat2Z.id. change (Z.of_nat 0) with 0 in Hr. rewrite Nat.add_0_l in Hr.
  rewrite (bind_ok _ _ _ _ _ Hr).
  assert (Hlast : data_cluster (FAT_size f) (default 0 (last cs))).
  { destruct (last cs) as [x|] eqn:E; [|by apply last_None in E; subst]. rewrite Forall_forall in Hd. apply Hd.
    apply last_Some in E as [r ->]. apply elem_of_app. right. left. }
  rewrite (data_not_ending _ _ Hlast). cbn [negb]. split; [done|]. split; [|done]. unfold patch in Hown. by rewrite Nat.mul_0_r, take_0 in Hown.
Qed.

(** C33. [fat32_read] of a file, given its first cluster and its number of
    clusters: the buffer receives the blocks of the cluster chain in order and
    nothing else changes.  The sanity check at the end looks at the last data
    cluster where it should look at the mark behind it, so the result is the
    error code 1 although everything has been read. *)
Theorem fat32_read_reads_chain f t cs bs buf l :
  mounted f t -> chain t cs -> Forall (data_cluster (FAT_size f)) cs -> Forall2 (block_at f) cs bs ->
  0 < data_start_lba f < 2 ^ 31 -> owns (env f) buf l -> buf <> FAT f -> 0 < buf -> buf + Z.of_nat (length l) < W64 ->
  (512 * length cs <= length l)%nat -> Z.of_nat (length cs) < 2 ^ 22 ->
  exists f', fat32_read (default 0 (head cs)) (Z.of_nat (length cs)) buf f = Ok 1 f' /\
    owns (env f') buf (concat bs ++ drop (length (concat bs)) l) /\ disk (env f') = disk (env f) /\ mounted f' t.
Proof.
  intros. edestruct read_run as (f' & Hr & Ho & Hd & _ & Hm); try done. by exists f'.
Qed.

(** C13. [fat32_open], for a root directory whose clusters form a finite chain
    (each a data cluster with an entry in the table, the last one with an end
    mark) and a name of printable characters, at most 8 and 3: the file is
    looked up by its padded upper-case name in the blocks of the directory, in
    order; if it is there and its own chain is finite in the same way, the
    result is its first cluster and the number of clusters of its chain, and if
    it is not there, the error "not found".  The only other outcome is that the
    heap has run out.  A cyclic chain is excluded: the loops along it do not
    end. *)
Theorem fat32_open_finds f t ds bs name ext cs :
  mounted f t -> root_dir_lba f = default 0 (head ds) -> chain t ds -> Forall (data_cluster (FAT_size f)) ds ->
  Forall2 (block_at f) ds bs -> 0 < data_start_lba f < 2 ^ 31 -> (length name <= 8)%nat -> (length ext <= 3)%nat ->
  Forall printable name -> Forall printable ext ->
  let c := lookup_file bs (short_name name ext) in
  (c <> 0 -> chain t (c :: cs) /\ Forall (data_cluster (FAT_size f)) (c :: cs)) ->
  (exists msg, fat32_open name ext f = Panic msg /\ oom (HS := S) msg) \/
  exists f', fat32_open name ext f =
      Ok (if c =? 0 then OpenResult 0 FAT32_OPEN_NOT_FOUND else OpenResult c (1 + Z.of_nat (length cs))) f' /\
    disk (env f') = disk (env f).
Proof.
  intros Hm Hr Hc Hd Hb Hds Hn He Hpn Hpe c Hcc.
  destruct (open_run f t ds bs name ext cs Hm Hr Hc Hd Hb Hds Hn He Hpn Hpe Hcc) as [Hp|(f' & Ho & _ & _ & Hdk)]; [by left|].
  right. by exists f'.
Qed.

(** The new entries of the disk, seen from the data area. *)
Lemma new_disk_data f t name ext c ds1 d ds2 bs1 b bs2 f' :
  creatable f t name ext c ds1 d ds2 bs1 b bs2 -> same_vars f f' -> disk (env f') = new_disk f t name ext c d b ->
  Forall2 (block_at f') (ds1 ++ d :: ds2) (bs1 ++ patch (32 * slot_of 16 0 b) (new_entry name ext c) b :: bs2).
Proof.
  intros Hcr Hsv Hdk. destruct (creatable_free _ _ _ _ _ _ _ _ _ _ _ Hcr) as (Hin & _ & _).
  pose proof (chain_distinct _ _ _ (cr_chain _ _ _ _ _ _ _ _ _ _ _ Hcr) (cr_data _ _ _ _ _ _ _ _ _ _ _ Hcr)) as Hnd.
  destruct Hcr as [Hm Htb Hroot Hch Hdt Hbl Hlb (HF0 & HFd & Hds) (Hn8 & He3 & Hpn & Hpe) Habs [Hfull Hslot] (Hc & Hz & Hnz) [Hdk1 Hdk2]].
  assert (Hq : 0 <= c / 512 < FAT_size f) by (clear -Hc; dlia).
  assert (Hother : forall x y, x ∈ ds1 ++ ds2 -> block_at f x y -> data_cluster (FAT_size f) x -> block_at f' x y).
  { intros x y Hx [Hxy Hib] [[Hx1 _] _]. split; [|done]. rewrite Hdk. replace (data_start_lba f') with (data_start_lba f) by (rewrite Hsv; done).
    assert (x <> d). { intros ->. apply NoDup_app in Hnd as (_ & H1 & [H2 _]%NoDup_cons). apply elem_of_app in Hx as [Hx|Hx]; [|done]. apply (H1 d Hx). left. }
    assert (x <> c). { intros ->. apply Hin. apply elem_of_app in Hx as [Hx|Hx]; apply elem_of_app; [by left|right; by right]. }
    unfold new_disk. rewrite !lookup_insert_ne by lia. done. }
  apply Forall2_app_inv in Hbl as [Hbl1 Hbl2]; [|done]. inversion Hbl2 as [|? ? ? ? [Hdb [Hb1 Hb2]] Hbl3]; subst.
  apply Forall_app in Hdt as [Hdt1 [Hdd Hdt2]%Forall_cons].
  assert (Hpart : forall xs ys, xs ⊆ ds1 ++ ds2 -> Forall (data_cluster (FAT_size f)) xs -> Forall2 (block_at f) xs ys -> Forall2 (block_at f') xs ys).
  { intros xs ys Hsub Hdx Hxy. induction Hxy as [|x y xs ys Hb _ IH]; [constructor|]. apply Forall_cons in Hdx as [Hx Hdx].
    constructor; [apply Hother; [apply Hsub; left|done|done]|apply IH; [|done]]. intros z Hz'. apply Hsub. by right. }
  apply Forall2_app; [apply Hpart; [intros z ?; apply elem_of_app; by left|done|done]|constructor; [|apply Hpart; [intros z ?; apply elem_of_app; by right|done|done]]].
  split.
  - rewrite Hdk. replace (data_start_lba f') with (data_start_lba f) by (rewrite Hsv; done).
    assert (d <> c) by (intros ->; apply Hin, elem_of_app; right; left).
    unfold new_disk. rewrite lookup_insert_ne, lookup_insert_eq by lia. done.
  - split; [rewrite length_patch; [done|rewrite length_new_entry; lia]|apply patch_bytes; [by apply new_entry_bytes|done]].
Qed.

(** C14. A new file can be opened: after [fat32_new_file] has created a file, in
    the first free cluster and the first unused directory entry, [fat32_open]
    of the same name returns that cluster and a length of one cluster.  (The
    cluster number has to fit in 16 bits, for the high half of it is lost in
    the directory entry.) *)
Theorem fat32_new_then_open f t name ext c ds1 d ds2 bs1 b bs2 :
  creatable f t name ext c ds1 d ds2 bs1 b bs2 -> c < 65536 ->
  (exists msg, (fat32_new_file name ext;; fat32_open name ext) f = Panic msg /\ oom (HS := S) msg) \/
  exists f', (fat32_new_file name ext;; fat32_open name ext) f = Ok (OpenResult c 1) f'.
Proof.
  intros Hcr Hc16. destruct (new_file_run _ _ _ _ _ _ _ _ _ _ _ Hcr) as [(msg & Hr & Ho)|(f1 & Hr & Hsv & Hm & Hdk)].
  { left. exists msg. split; [by apply bind_panic|done]. }
  rewrite (bind_ok _ _ _ _ _ Hr). destruct (creatable_free _ _ _ _ _ _ _ _ _ _ _ Hcr) as (Hin & Hlen & Hch).
  pose proof (new_disk_data _ _ _ _ _ _ _ _ _ _ _ _ Hcr Hsv Hdk) as Hbl'.
  destruct Hcr as [Hm0 Htb Hroot Hch0 Hdt Hbl Hlb (HF0 & HFd & Hds) (Hn8 & He3 & Hpn & Hpe) Habs [Hfull Hslot] (Hc & Hz & Hnz) _].
  pose proof (mt_size _ _ Hm0) as Hms.
  assert (Ev : FAT_size f1 = FAT_size f /\ root_dir_lba f1 = root_dir_lba f /\ data_start_lba f1 = data_start_lba f) by (rewrite Hsv; done).
  destruct Ev as (E1 & E2 & E3).
  assert (Hb : length b = 512%nat). { apply Forall2_app_inv in Hbl as [_ Hbl]; [|done]. inversion Hbl as [|? ? ? ? [_ [? _]] _]; subst. done. }
  apply Forall_app in Habs as [Ha1 [Ha Ha2]%Forall_cons].
  assert (Hlook : lookup_file (bs1 ++ patch (32 * slot_of 16 0 b) (new_entry name ext c) b :: bs2) (short_name name ext) = c).
  { rewrite lookup_file_skip by done. cbn [lookup_file].
    rewrite (dir_find_new 16 0 b (new_entry name ext c)); try done; try lia; [|apply length_new_entry|apply new_entry_name].
    rewrite new_entry_cluster, Z.mod_small by lia. destruct (Z.eqb_spec c 0); [lia|done]. }
  assert (Hdc : data_cluster (FAT_size f) c) by (split; lia).
  destruct (open_run f1 (new_table t c) (ds1 ++ d :: ds2) (bs1 ++ patch (32 * slot_of 16 0 b) (new_entry name ext c) b :: bs2) name ext []) as [Hp|(f2 & Hopen & _)];
    try done; try (rewrite ?E1, ?E2, ?E3; done).
  - rewrite E2, Hroot. by destruct ds1.
  - rewrite E3. lia.
  - rewrite Hlook. intros _. split; [|constructor; [by rewrite E1|constructor]]. cbn [chain]. unfold new_table.
    rewrite entry_of_patch, decide_True by (done || lia). split; [done|lia].
  - by left.
  - right. exists f2. rewrite Hopen, Hlook. destruct (Z.eqb_spec c 0); [lia|done].
Qed.

(** A full volume is not noticed.  Without a free cluster the search returns
    cluster 0, whose entry is reserved, and [fat32_new_file] goes on with it. *)
Lemma find_free_none n : forall i f t, mounted f t -> 0 <= i -> i + Z.of_nat n <= 512 * FAT_size f ->
  (forall j, i <= j < i + Z.of_nat n -> entry_of t j <> 0) -> find_free n i f = Ok 0 f.
Proof.
  induction n as [|n IH]; intros i f t Hm Hi Hn Hnz; [done|]. cbn [find_free].
  rewrite (bind_ok _ _ _ _ _ (fat_entry_run f t i Hm ltac:(lia))).
  destruct (Z.eqb_spec (entry_of t i) 0) as [E|]; [by destruct (Hnz i ltac:(lia))|]. apply (IH (i + 1) f t); try done; try lia.
  intros j Hj. apply Hnz. lia.
Qed.

Theorem find_free_full f t : mounted f t -> 0 <= FAT_size f -> 512 * FAT_size f < W32 ->
  (forall j, 0 <= j < 512 * FAT_size f -> entry_of t j <> 0) -> find_free_FAT_cluster f = Ok 0 f.
Proof.
  intros Hm H0 Hsz Hnz. unfold find_free_FAT_cluster. rewrite bind_gets. rewrite u32_small by lia. rewrite (Z.mul_comm _ 512).
  apply (find_free_none _ 0 f t Hm); [lia|lia|]. intros j Hj. apply Hnz. lia.
Qed.

(** The error for a full volume is declared but never returned. *)
Theorem fat32_new_file_errors name ext f r f' : fat32_new_file name ext f = Ok r f' ->
  fd r = 0 /\ (nf_error r = 0 \/ nf_error r = FAT32_NEW_FILE_EXT_TOO_LONG \/ nf_error r = FAT32_NEW_FILE_EXISTS).
Proof.
  unfold fat32_new_file. intros H. destruct (8 <? _); [injection H as <- _; cbn; auto|].
  destruct (3 <? _); [injection H as <- _; cbn; auto|]. apply bind_inv in H as (sector & s1 & _ & H).
  destruct (negb _); [injection H as <- _; cbn; auto|].
  do 6 apply bind_inv in H as (? & ? & _ & H). apply bind_inv in H as ([usable_index current_cluster] & ? & _ & H).
  do 9 apply bind_inv in H as (? & ? & _ & H). injection H as <- _. cbn. auto.
Qed.

(** C39. The table on the disk is not updated: for a new file in a cluster from
    128 on, the block that is written back is not the one with the changed
    entry.  In memory the cluster is marked as used, but its block of the table
    on the disk is what it was before the call. *)
Theorem fat32_new_file_not_persistent f t name ext c ds1 d ds2 bs1 b bs2 :
  creatable f t name ext c ds1 d ds2 bs1 b bs2 -> 128 <= c ->
  (exists msg, fat32_new_file name ext f = Panic msg /\ oom (HS := S) msg) \/
  exists f' t', fat32_new_file name ext f = Ok (NewFileResult 0 0) f' /\ mounted f' t' /\ entry_of t' c = 0xFFFFFFF /\
    disk (env f') !! (FAT_start_lba f + c / 128) = disk (env f) !! (FAT_start_lba f + c / 128).
Proof.
  intros Hcr Hc128. destruct (new_file_run _ _ _ _ _ _ _ _ _ _ _ Hcr) as [Hp|(f1 & Hr & Hsv & Hm & Hdk)]; [by left|].
  right. exists f1, (new_table t c). split; [done|]. split; [done|].
  destruct (creatable_free _ _ _ _ _ _ _ _ _ _ _ Hcr) as (Hin & Hlen & _).
  destruct (cr_free _ _ _ _ _ _ _ _ _ _ _ Hcr) as (Hc & _). destruct (cr_layout _ _ _ _ _ _ _ _ _ _ _ Hcr) as (HF0 & HFd & _).
  pose proof (cr_data _ _ _ _ _ _ _ _ _ _ _ Hcr) as Hdt. apply Forall_app in Hdt as [_ [[Hd _] _]%Forall_cons].
  split; [unfold new_table; rewrite entry_of_patch, decide_True by (done || lia); done|].
  rewrite Hdk. unfold new_disk. assert (Hq : 0 <= c / 128 < FAT_size f /\ c / 512 <> c / 128) by (clear -Hc Hc128; dlia).
  rewrite !lookup_insert_ne by lia. done.
Qed.

End props.

(** ** Two file systems for the witnesses

    The table has the given entries and is followed by zeros; the root
    directory is cluster 2, with one file HELLO.TXT in its first entry. *)

Definition table (size : Z) (entries : list Z) : list Z :=
  concat (unle 4 <$> entries) ++ replicate (2048 * Z.to_nat size - 4 * length entries) 0.

Definition hello_name : list Z := [72; 69; 76; 76; 79].
Definition txt : list Z := [116; 120; 116].
Definition dir_block : list Z := new_entry hello_name txt 3 ++ replicate 480 0.

Definition demo_fs (size : Z) (entries : list Z) : fat ramdisk :=
  let start := 10 in
  let data := start + 2 * size in
  Fat size 8 1000 start data 2 0 slot
    ((3, <[1:=table size entries]> (<[2:=replicate 1024 7]> ∅)),
     list_to_map ((data, dir_block) ::
       ((fun i => (i, take 512 (drop (Z.to_nat (512 * (i - start))) (table size entries)))) <$> seqZ start (2 * size)) ++
       ((fun i => (i, replicate 512 (i mod 256))) <$> seqZ (data + 1) 140))).

Definition small_entries : list Z := [0xFFFFFF8; 0xFFFFFFF; 0xFFFFFFF; 5; 0; 0xFFFFFFF].
Definition large_entries : list Z := [0xFFFFFF8; 0xFFFFFFF; 0xFFFFFFF] ++ replicate 127 0xFFFFFFF.
Definition small_fs : fat ramdisk := demo_fs 1 small_entries.
Definition large_fs : fat ramdisk := demo_fs 2 large_entries.

Lemma demo_mounted size entries :
  0 < size < 2 ^ 22 -> length (table size entries) = (2048 * Z.to_nat size)%nat -> mounted (demo_fs size entries) (table size entries).
Proof.
  intros Hs Hl. split; [|done|done]. exists 1. split; [done|]. split; [done|]. rewrite Hl. unfold slot. lia.
Qed.

#[local] Instance block_at_dec (f : fat ramdisk) c b : Decision (block_at f c b).
Proof. unfold block_at, is_block. apply _. Defined.
#[local] Instance data_cluster_dec n c : Decision (data_cluster n c).
Proof. unfold data_cluster. apply _. Defined.
#[local] Instance chain_dec t cs : Decision (chain t cs).
Proof. induction cs as [|c [|c' cs] IH]; cbn [chain]; apply _. Defined.
#[local] Instance printable_dec c : Decision (printable c).
Proof. unfold printable. apply _. Defined.

Lemma fat32_read_reads_chain_witness :
  exists f', fat32_read (default 0 (head [3; 5])) (Z.of_nat (length [3; 5])) (2 * slot) small_fs = Ok 1 f' /\
    owns (env f') (2 * slot) (concat [replicate 512 13; replicate 512 15] ++
      drop (length (concat [replicate 512 13; replicate 512 15])) (replicate 1024 7)) /\
    disk (env f') = disk (env small_fs) /\ mounted f' (table 1 small_entries).
Proof.
  apply (fat32_read_reads_chain small_fs (table 1 small_entries) [3; 5]).
  - by apply demo_mounted.
  - vdecide.
  - vdecide.
  - vdecide.
  - vdecide.
  - exists 2. split; [done|]. split; [done|]. vm_compute. done.
  - vdecide.
  - vdecide.
  - vdecide.
  - vdecide.
  - vdecide.
Defined.

Lemma fat32_open_finds_witness :
  let c := lookup_file [dir_block] (short_name hello_name txt) in
  (exists msg, fat32_open hello_name txt small_fs = Panic msg /\ oom (HS := ramdisk) msg) \/
  exists f', fat32_open hello_name txt small_fs =
      Ok (if c =? 0 then OpenResult 0 FAT32_OPEN_NOT_FOUND else OpenResult c (1 + Z.of_nat (length [5]))) f' /\
    disk (env f') = disk (env small_fs).
Proof.
  apply (fat32_open_finds small_fs (table 1 small_entries) [2] [dir_block] hello_name txt [5]).
  - by apply demo_mounted.
  - reflexivity.
  - vdecide.
  - vdecide.
  - vdecide.
  - vdecide.
  - vdecide.
  - vdecide.
  - vdecide.
  - vdecide.
  - intros _. split; vdecide.
Defined.

Definition new_name : list Z := [110; 101; 119].

(** A condition on all smaller cluster numbers, decided by evaluation. *)
Lemma below_all (P : Z -> Prop) `{!forall j, Decision (P j)} c : Forall P (seqZ 0 c) -> forall j, 0 <= j < c -> P j.
Proof. intros HP j Hj. rewrite Forall_forall in HP. apply HP, elem_of_seqZ. lia. Qed.

Lemma dir_block_absent : absent (short_name new_name txt) dir_block.
Proof.
  intros i Hi. assert (H : Forall (fun i => name_at dir_block i <> short_name new_name txt) (seq 0 16)) by vdecide.
  rewrite Forall_forall in H. apply H, elem_of_seq. lia.
Qed.

Lemma small_creatable : creatable small_fs (table 1 small_entries) new_name txt 4 [] 2 [] [] dir_block [].
Proof.
  split; try vdecide; [by apply demo_mounted|..].
  - repeat constructor. apply dir_block_absent.
  - split; [vdecide|]. split; [vdecide|]. apply below_all; [apply _|vdecide].
  - split; [apply below_all; [apply _|vdecide]|vdecide].
Qed.

Lemma large_creatable : creatable large_fs (table 2 large_entries) new_name txt 130 [] 2 [] [] dir_block [].
Proof.
  split; try vdecide; [by apply demo_mounted|..].
  - repeat constructor. apply dir_block_absent.
  - split; [vdecide|]. split; [vdecide|]. apply below_all; [apply _|vdecide].
  - split; [apply below_all; [apply _|vdecide]|vdecide].
Qed.

Lemma fat32_new_then_open_witness :
  (exists msg, (fat32_new_file new_name txt;; fat32_open new_name txt) small_fs = Panic msg /\ oom (HS := ramdisk) msg) \/
  exists f', (fat32_new_file new_name txt;; fat32_open new_name txt) small_fs = Ok (OpenResult 4 1) f'.
Proof.
  apply (fat32_new_then_open small_fs (table 1 small_entries) new_name txt 4 [] 2 [] [] dir_block []); [apply small_creatable|lia].
Defined.

Lemma fat32_new_file_not_persistent_witness :
  (exists msg, fat32_new_file new_name txt large_fs = Panic msg /\ oom (HS := ramdisk) msg) \/
  exists f' t', fat32_new_file new_name txt large_fs = Ok (NewFileResult 0 0) f' /\ mounted f' t' /\ entry_of t' 130 = 0xFFFFFFF /\
    disk (env f') !! (FAT_start_lba large_fs + 130 / 128) = disk (env large_fs) !! (FAT_start_lba large_fs + 130 / 128).
Proof.
  apply (fat32_new_file_not_persistent large_fs (table 2 large_entries) new_name txt 130 [] 2 [] [] dir_block []); [apply large_creatable|lia].
Defined.

End Fat32Props.
