(* ===== verification/Fat32Init.v ===== *)
(** * Mounting: [fat32_init] and [update_FAT] *)

From S2P Require Import Prelude KMath Misc KHeap Disk Fat32 Fat32Lemmas Fat32New Fat32Props.
Import KMath KHeap Disk Fat32 Fat32Lemmas Fat32New Fat32Props.

Module Fat32Init.

(** What is wrong with a boot block, in the order of the checks. *)
Definition boot_error (bb : list Z) : option string :=
  if negb ((field bb 0 1 =? 0xEB) && (field bb 2 1 =? 0x90)) && negb (field bb 0 1 =? 0xE9) then Some "FAT32: incorrect BS_jmpBoot!"
  else if negb (field bb 11 2 =? 512) then Some "FAT32: only 512 bytes per sector supported!"
  else if negb (field bb 16 1 =? 2) then Some "FAT32: only 2 FATs supported!"
  else if negb (field bb 13 1 =? 1) then Some "FAT32: only 1 sector per cluster supported!"
  else if negb (field bb 19 2 =? 0) || negb (field bb 22 2 =? 0) || (field bb 32 4 =? 0) then Some "FAT32: appears to be FAT12/16?"
  else if negb (field bb 510 2 =? 0xAA55) then Some "FAT32: incorrect signature word!"
  else None.

(** The kernel's copy of the table: the blocks on the disk, in a buffer that is
    four times as large. *)
Definition table_of (blocks : list (list Z)) : list Z := concat blocks ++ replicate (1536 * length blocks) 0.

Lemma concat_blocks (blocks : list (list Z)) : (forall k b, blocks !! k = Some b -> is_block b) -> length (concat blocks) = (512 * length blocks)%nat.
Proof.
  induction blocks as [|b blocks IH]; intros H; [done|]. cbn [concat length]. rewrite length_app, (proj1 (H 0%nat b eq_refl)), IH; [lia|].
  intros k b' Hk. by apply (H (Datatypes.S k)).
Qed.

Section init.
Context {S : Type} `{!HeapIface S} `{!HeapLaws S} `{!DiskIface S} `{!DiskLaws S}.
Implicit Types f : fat S.

Lemma fld_run n off f p l : owns (env f) p l -> (off + n <= length l)%nat ->
  on_env (ld n (p + Z.of_nat off)) f = Ok (field l off n) f.
Proof. intros Ho Hl. rewrite (on_env_ok _ _ _ _ (ld_run n _ _ _ _ Ho Hl)). by rewrite set_env_id. Qed.

(** The loop of [update_FAT] from the [i]-th block on. *)
Lemma read_table_run blocks : forall (i : nat) f p start l,
  owns (env f) p l -> (512 * (i + length blocks) <= length l)%nat -> Z.of_nat (i + length blocks) < 2 ^ 22 ->
  0 < p -> p + Z.of_nat (length l) < W64 -> 0 <= start -> start + 2 ^ 22 < W64 ->
  (forall k b, blocks !! k = Some b -> disk (env f) !! (start + Z.of_nat (i + k)) = Some b /\ is_block b) ->
  exists s', for_loop (length blocks) (Z.of_nat i) (fun i => on_env (nvme_read (start +64 i) 1 (p +64 (i *32 512)));; mret tt) f = Ok tt (set_env s' f) /\
    owns s' p (patch (512 * i) (concat blocks) l) /\ disk s' = disk (env f) /\ forall q lq, q <> p -> owns (env f) q lq -> owns s' q lq.
Proof.
  induction blocks as [|b blocks IH]; intros i f p start l Ho Hl Hi Hp Hw Hs Hsw Hb; cbn [for_loop length concat].
  { exists (env f). rewrite set_env_id. split; [done|]. split; [|done]. unfold patch. cbn [length app]. by rewrite Nat.add_0_r, take_drop. }
  cbn [length] in Hl, Hi. destruct (Hb 0%nat b eq_refl) as [Hd Hib]. rewrite Nat.add_0_r in Hd.
  rewrite (u32_small (Z.of_nat i * 512)), (u64_small (start + Z.of_nat i)), (u64_small (p + Z.of_nat i * 512)) by lia.
  destruct (disk_read_law (env f) _ b p l (512 * i) Ho ltac:(lia) Hd Hib) as (r & s1 & Hr & Ho1 & Hoth & Hdk).
  replace (p + Z.of_nat (512 * i)) with (p + Z.of_nat i * 512) in Hr by lia. destruct Hib as [Hbl Hbb].
  unfold mbind at 1, M_bind at 1. rewrite (bind_ok _ _ _ _ _ (on_env_ok _ f _ _ Hr)). run_pure.
  destruct (IH (Datatypes.S i) (set_env s1 f) p start (patch (512 * i) b l)) as (s2 & Hr2 & Ho2 & Hd2 & Hoth2); try done.
  { rewrite length_patch by lia. lia. }
  { lia. }
  { rewrite length_patch by lia. lia. }
  { intros k b' Hk. cbn [env set_env]. rewrite Hdk. replace (Datatypes.S i + k)%nat with (i + Datatypes.S k)%nat by lia. by apply Hb. }
  exists s2. replace (Z.of_nat i + 1) with (Z.of_nat (Datatypes.S i)) by lia. cbn [env set_env] in *. split; [exact Hr2|].
  replace (512 * Datatypes.S i)%nat with (512 * i + length b)%nat in Ho2 by lia. rewrite patch_patch in Ho2.
  2: { assert (length (concat blocks) = 512 * length blocks)%nat; [|lia]. apply concat_blocks. intros k b2 Hk. by apply (Hb (Datatypes.S k) b2). }
  split; [done|]. split; [congruence|]. intros q lq Hq Hql. by apply Hoth2, Hoth.
Qed.

Lemma update_FAT_run f l blocks :
  owns (env f) (FAT f) l -> FAT_size f = Z.of_nat (length blocks) -> 0 < FAT_size f < 2 ^ 22 -> length l = (2048 * length blocks)%nat ->
  0 < FAT f -> FAT f + Z.of_nat (length l) < W64 -> 0 <= FAT_start_lba f -> FAT_start_lba f + 2 ^ 22 < W64 ->
  (forall k b, blocks !! k = Some b -> disk (env f) !! (FAT_start_lba f + Z.of_nat k) = Some b /\ is_block b) ->
  exists s', update_FAT f = Ok tt (set_env s' f) /\ owns s' (FAT f) (table_of blocks) /\ disk s' = disk (env f).
Proof.
  intros Ho Hsz Hs Hl Hp Hw H0 Hsw Hb. unfold update_FAT, env_memset. run_pure.
  rewrite (u32_small (512 * _)), (u64_small (_ * 4)) by lia.
  destruct (st_bytes_run (replicate (Z.to_nat (512 * FAT_size f * 4)) (u8 0)) (env f) (FAT f) l 0 Ho) as (s1 & Hr & Ho1 & Hoth).
  { rewrite length_replicate. lia. }
  { apply Forall_replicate. by vm_compute. }
  pose proof (st_bytes_disk_same _ _ _ _ Hr) as Hd1. rewrite Z.add_0_r in Hr.
  rewrite (bind_ok _ _ _ _ _ (on_env_ok _ f _ _ Hr)).
  assert (Hlr : length (replicate (Z.to_nat (512 * FAT_size f * 4)) (u8 0)) = length l) by (rewrite length_replicate; lia).
  unfold patch in Ho1. rewrite take_0, drop_ge, app_nil_l, app_nil_r in Ho1 by lia.
  destruct (read_table_run blocks 0 (set_env s1 f) (FAT f) (FAT_start_lba f) _ Ho1) as (s2 & Hr2 & Ho2 & Hd2 & _); try done; try lia.
  { intros k b Hk. cbn [env set_env]. rewrite Hd1, Nat.add_0_l. by apply Hb. }
  exists s2. rewrite Hsz, Nat2Z.id. split; [exact Hr2|]. cbn [env set_env] in Hd2. split; [|congruence].
  unfold patch in Ho2. rewrite Nat.mul_0_r, take_0, app_nil_l, Nat.add_0_l in Ho2.
  rewrite drop_replicate, (concat_blocks blocks) in Ho2 by (intros k b Hk; by apply (Hb k b)).
  replace (Z.to_nat (512 * FAT_size f * 4) - 512 * length blocks)%nat with (1536 * length blocks)%nat in Ho2 by lia. exact Ho2.
Qed.

(** The last part of [fat32_init], after the checks. *)
Lemma init_table_run f first bb blocks :
  volume_first_lba f = first -> 0 <= first -> first + 2 ^ 24 < W64 -> is_block bb ->
  Z.of_nat (length blocks) = field bb 36 4 -> 0 < field bb 36 4 < 2 ^ 22 ->
  (forall k b, blocks !! k = Some b -> disk (env f) !! (first + field bb 14 2 + Z.of_nat k) = Some b /\ is_block b) ->
  let rest : M (fat S) unit :=
    first ← gets volume_first_lba;
    modify (set_layout (field bb 36 4) (first +64 field bb 14 2) ((first +64 field bb 14 2) +64 (field bb 36 4 *32 2)) (field bb 44 4));;
    p ← on_env (hp_calloc ((512 *32 field bb 36 4) *64 4));
    modify (set_FAT p);;
    update_FAT in
  (exists msg, rest f = Panic msg /\ oom (HS := S) msg) \/
  exists f', rest f = Ok tt f' /\ mounted f' (table_of blocks) /\ disk (env f') = disk (env f) /\
      FAT_size f' = field bb 36 4 /\ FAT_start_lba f' = first + field bb 14 2 /\
      data_start_lba f' = first + field bb 14 2 + 2 * field bb 36 4 /\ root_dir_lba f' = field bb 44 4.
Proof.
  intros Hv Hf0 Hfw [_ Hbb] Hlen Hsz Hbl rest. unfold rest. run_pure. rewrite Hv.
  assert (Hrs : 0 <= field bb 14 2 < 2 ^ 16) by (apply (field_range bb 14 2 Hbb)).
  rewrite (u32_small (512 * _)), (u32_small (field bb 36 4 * 2)), (u64_small (first + _)), (u64_small (_ + field bb 36 4 * 2)), (u64_small (_ * 4)) by lia.
  set (f1 := set_layout _ _ _ _ f). set (n := 512 * field bb 36 4 * 4). assert (Hn : 0 < n < 2 ^ 40) by (unfold n; lia).
  pose proof (calloc_law n (env f) Hn) as Hcal. destruct (hp_calloc n (env f)) as [p s1|msg| |] eqn:Ec; [right|left|done..].
  2: { exists msg. split; [apply bind_panic; unfold on_env; cbn [env f1 set_layout]; by rewrite Ec|]. by exists n, (env f). }
  destruct Hcal as (Hp & Hpw & Ho & _). rewrite (bind_ok _ _ _ _ _ (on_env_ok _ f1 _ _ Ec)). run_pure.
  set (f3 := set_FAT p (set_env s1 f1)).
  destruct (update_FAT_run f3 (replicate (Z.to_nat n) 0) blocks) as (s2 & Hr & Ho2 & Hd2); try done;
    try (cbn [f3 FAT_size FAT FAT_start_lba set_FAT set_env f1 set_layout]; rewrite ?length_replicate; unfold n in *; lia).
  { intros k b Hk. cbn [env f3 set_FAT set_env]. rewrite (calloc_disk _ _ _ _ Ec). by apply Hbl. }
  exists (set_env s2 f3). split; [exact Hr|]. split.
  { split; [exact Ho2| |exact Hsz]. unfold table_of. rewrite length_app, length_replicate, (concat_blocks blocks) by (intros k b Hk; by apply (Hbl k b)).
    cbn [FAT_size set_env f3 set_FAT f1 set_layout]. lia. }
  cbn [env set_env f3 set_FAT FAT_size FAT_start_lba data_start_lba root_dir_lba f1 set_layout] in *.
  split_and!; try done; [rewrite Hd2; by apply calloc_disk in Ec|lia].
Qed.

(** The whole function. *)
Lemma fat32_init_run f first last bb blocks :
  disk (env f) !! first = Some bb -> is_block bb -> 0 <= first -> first + 2 ^ 24 < W64 ->
  Z.of_nat (length blocks) = field bb 36 4 -> 0 < field bb 36 4 < 2 ^ 22 ->
  (forall k b, blocks !! k = Some b -> disk (env f) !! (first + field bb 14 2 + Z.of_nat k) = Some b /\ is_block b) ->
  (exists msg, fat32_init (first, last) f = Panic msg /\ oom (HS := S) msg) \/
  match boot_error bb with
  | Some msg => fat32_init (first, last) f = Panic msg
  | None => exists f', fat32_init (first, last) f = Ok tt f' /\ mounted f' (table_of blocks) /\ disk (env f') = disk (env f) /\
      FAT_size f' = field bb 36 4 /\ FAT_start_lba f' = first + field bb 14 2 /\
      data_start_lba f' = first + field bb 14 2 + 2 * field bb 36 4 /\ root_dir_lba f' = field bb 44 4
  end.
Proof.
  intros Hd Hbb Hf0 Hfw Hlen Hsz Hbl. destruct Hbb as [Hbl0 Hbb0]. unfold fat32_init. run_pure.
  pose proof (calloc_law 512 (env f) ltac:(lia)) as Hcal. cbn [fst snd].
  destruct (hp_calloc 512 (env f)) as [p s1|msg| |] eqn:Ec; [|left|done..].
  2: { exists msg. split; [apply bind_panic; unfold on_env; cbn [env set_volume]; by rewrite Ec|]. by exists 512, (env f). }
  destruct Hcal as (Hp & _ & Ho & _). rewrite (bind_ok _ _ _ _ _ (on_env_ok _ (set_volume first last f) _ _ Ec)). run_pure.
  pose proof (calloc_disk _ _ _ _ Ec) as Hd1.
  destruct (disk_read_law s1 first bb p _ 0 Ho) as (r0 & s2 & Hr & Ho2 & _ & Hd2); [by rewrite length_replicate|by rewrite Hd1|done|].
  rewrite Z.add_0_r in Hr. rewrite (bind_ok _ _ _ _ _ (on_env_ok _ (set_bpb p (set_env s1 (set_volume first last f))) _ _ Hr)).
  assert (Hpa : patch 0 bb (replicate (Z.to_nat 512) 0) = bb).
  { unfold patch. rewrite take_0, drop_ge by (rewrite length_replicate; lia). by rewrite app_nil_r. }
  rewrite Hpa in Ho2. set (f2 := set_env s2 (set_bpb p (set_env s1 (set_volume first last f)))).
  assert (Fl : forall n off, (off + n <= 512)%nat -> on_env (ld n (p + Z.of_nat off)) f2 = Ok (field bb off n) f2).
  { intros n off Hoff. apply fld_run; [exact Ho2|by rewrite Hbl0]. }
  pose proof (Fl 1%nat 0%nat ltac:(lia)) as H0. rewrite Z.add_0_r in H0. rewrite (bind_ok _ _ _ _ _ H0), (bind_ok _ _ _ _ _ (Fl 1%nat 2%nat ltac:(lia))).
  unfold boot_error. destruct (negb ((field bb 0 1 =? 0xEB) && (field bb 2 1 =? 0x90)) && negb (field bb 0 1 =? 0xE9)); [by right|].
  rewrite (bind_ok _ _ _ _ _ (Fl 2%nat 11%nat ltac:(lia))). destruct (negb (field bb 11 2 =? 512)); [by right|].
  rewrite (bind_ok _ _ _ _ _ (Fl 1%nat 16%nat ltac:(lia))). destruct (negb (field bb 16 1 =? 2)); [by right|].
  rewrite (bind_ok _ _ _ _ _ (Fl 1%nat 13%nat ltac:(lia))). destruct (negb (field bb 13 1 =? 1)); [by right|].
  rewrite (bind_ok _ _ _ _ _ (Fl 2%nat 19%nat ltac:(lia))), (bind_ok _ _ _ _ _ (Fl 2%nat 22%nat ltac:(lia))), (bind_ok _ _ _ _ _ (Fl 4%nat 32%nat ltac:(lia))).
  destruct (negb (field bb 19 2 =? 0) || negb (field bb 22 2 =? 0) || (field bb 32 4 =? 0)); [by right|].
  rewrite (bind_ok _ _ _ _ _ (Fl 2%nat 510%nat ltac:(lia))). destruct (negb (field bb 510 2 =? 0xAA55)); [by right|].
  rewrite (bind_ok _ _ _ _ _ (Fl 4%nat 36%nat ltac:(lia))), (bind_ok _ _ _ _ _ (Fl 2%nat 14%nat ltac:(lia))), (bind_ok _ _ _ _ _ (Fl 4%nat 44%nat ltac:(lia))).
  assert (E2 : disk (env f2) = disk (env f)) by (cbn; congruence). rewrite <- E2 in Hbl |- *.
  exact (init_table_run f2 first bb blocks eq_refl Hf0 Hfw (conj Hbl0 Hbb0) Hlen Hsz Hbl).
Qed.

(** C15. Mounting a volume.  [fat32_init] reads the boot block of the partition
    and reports the first check that fails; on a FAT32 volume it computes the
    positions of the table, the data area and the root directory, and leaves
    the kernel with a copy of the first table on the disk, which is the state
    the other operations start from.  The only other outcome is that the heap
    has run out; the disk is not changed. *)
Theorem fat32_init_mounts f first last bb blocks :
  disk (env f) !! first = Some bb -> is_block bb -> 0 <= first -> first + 2 ^ 24 < W64 ->
  Z.of_nat (length blocks) = field bb 36 4 -> 0 < field bb 36 4 < 2 ^ 22 ->
  (forall k b, blocks !! k = Some b -> disk (env f) !! (first + field bb 14 2 + Z.of_nat k) = Some b /\ is_block b) ->
  (exists msg, fat32_init (first, last) f = Panic msg /\ oom (HS := S) msg) \/
  match boot_error bb with
  | Some msg => fat32_init (first, last) f = Panic msg
  | None => exists f', fat32_init (first, last) f = Ok tt f' /\ mounted f' (table_of blocks) /\ disk (env f') = disk (env f) /\
      FAT_size f' = field bb 36 4 /\ FAT_start_lba f' = first + field bb 14 2 /\
      data_start_lba f' = first + field bb 14 2 + 2 * field bb 36 4 /\ root_dir_lba f' = field bb 44 4
  end.
Proof. apply fat32_init_run. Qed.

End init.

(** A volume with one block of table at block 10. *)
Definition boot_block : list Z :=
  [0xEB; 0x58; 0x90] ++ replicate 8 32 ++ unle 2 512 ++ [1] ++ unle 2 2 ++ [2] ++ unle 2 0 ++ unle 2 0 ++ [0xF8] ++ unle 2 0 ++
  replicate 8 0 ++ unle 4 1000 ++ unle 4 1 ++ replicate 4 0 ++ unle 4 2 ++ replicate 462 0 ++ unle 2 0xAA55.
Definition fat_block : list Z := take 512 (table 1 small_entries).
Definition unmounted : fat ramdisk :=
  Fat 0 0 0 0 0 0 0 0 ((1, ∅), list_to_map [(8, boot_block); (10, fat_block); (11, fat_block); (12, dir_block)]).

Lemma fat32_init_mounts_witness :
  (exists msg, fat32_init (8, 1007) unmounted = Panic msg /\ oom (HS := ramdisk) msg) \/
  exists f', fat32_init (8, 1007) unmounted = Ok tt f' /\ mounted f' (table_of [fat_block]) /\ disk (env f') = disk (env unmounted) /\
      FAT_size f' = 1 /\ FAT_start_lba f' = 10 /\ data_start_lba f' = 12 /\ root_dir_lba f' = 2.
Proof.
  apply (fat32_init_mounts unmounted 8 1007 boot_block [fat_block]); [reflexivity|vdecide|lia|lia|reflexivity|vdecide|].
  apply (indexed_all (fun k b => (env unmounted).2 !! (8 + field boot_block 14 2 + Z.of_nat k) = Some b /\ is_block b)). vdecide.
Defined.

End Fat32Init.
