(* ===== verification/Nvme.v ===== *)
(** * file/nvme.c: the NVMe driver

    [shared] is what the driver and the controller both see: the registers,
    the doorbells and the pages of memory that hold queues; [dev] is the inner
    state of the controller.  The controller is a parameter: [tick] is one step
    of it, taken between two polls of the driver.  The driver reaches the pages
    through its pointers ([page_virt_to_phys_addr] is the translation of the
    page tables), the controller through physical addresses; the doorbells are
    words behind offset 0x1000 of the registers, and the driver writes them
    through the pointers that it has computed.  [nvme] adds the driver's own
    variables.  A waiting loop that is not over after [polls] polls is
    [OutOfFuel].  The transfer of the data by the controller is not part of
    this model. *)

From S2P Require Import Prelude KMath.
Import KMath.

Module Nvme.

Record SubmissionEntry := Sqe {
  opcode : Z;
  fused_op : Z;
  prp_sgl : Z;
  identifier : Z;
  nsid : Z;
  metadata_ptr : Z;
  prp1 : Z;
  prp2 : Z;
  dword10 : Z;
  dword11 : Z;
  dword12 : Z;
  dword13 : Z;
  dword14 : Z;
  dword15 : Z;
}.
Definition zero_sqe : SubmissionEntry := Sqe 0 0 0 0 0 0 0 0 0 0 0 0 0 0.

(** An entry cleared and then filled field by field. *)
Definition submission (op id ns d10 d11 d12 prp : Z) : SubmissionEntry :=
  Sqe op 0 0 id ns 0 prp 0 d10 d11 d12 0 0 0.

Record CompletionEntry := Cqe { dword0 : Z; dword1 : Z; dword2 : Z; dword3 : Z }.
Definition zero_cqe : CompletionEntry := Cqe 0 0 0 0.

(** A page that holds a queue. *)
Inductive queue := SQ (l : list SubmissionEntry) | CQ (l : list CompletionEntry).

Record shared (D : Type) := Shared {
  CAP : Z;
  CC : Z;
  CSTS : Z;
  AQA : Z;
  ASQ : Z;
  ACQ : Z;
  (* offset behind the first doorbell, and the value written since the last reset *)
  doorbells : gmap Z Z;
  (* where the registers are mapped *)
  registers_at : Z;
  (* physical address and contents of the pages that hold queues *)
  pages : gmap Z queue;
  dev : D;
}.
Arguments Shared {D} _ _ _ _ _ _ _ _ _ _.
Arguments CAP {D} _.
Arguments CC {D} _.
Arguments CSTS {D} _.
Arguments AQA {D} _.
Arguments ASQ {D} _.
Arguments ACQ {D} _.
Arguments doorbells {D} _.
Arguments registers_at {D} _.
Arguments pages {D} _.
Arguments dev {D} _.

Record nvme (D : Type) := Nvme {
  sh : shared D;
  admin_submit : Z;
  admin_complete : Z;
  io_submit : Z;
  io_complete : Z;
  admin_submit_doorbell : Z;
  io_submit_doorbell : Z;
  io_complete_doorbell : Z;
  admin_submission_tail : Z;
  admin_completion_head : Z;
  io_submission_tail : Z;
  io_completion_head : Z;
}.
Arguments Nvme {D} _ _ _ _ _ _ _ _ _ _ _ _.
Arguments sh {D} _.
Arguments admin_submit {D} _.
Arguments admin_complete {D} _.
Arguments io_submit {D} _.
Arguments io_complete {D} _.
Arguments admin_submit_doorbell {D} _.
Arguments io_submit_doorbell {D} _.
Arguments io_complete_doorbell {D} _.
Arguments admin_submission_tail {D} _.
Arguments admin_completion_head {D} _.
Arguments io_submission_tail {D} _.
Arguments io_completion_head {D} _.

Definition completion_check_success (dword3 : Z) : bool :=
  if negb (Z.land (Z.shiftr dword3 25) 7 =? 0) then false else
  if negb (Z.land (Z.shiftr dword3 17) 0xFF =? 0) then false else true.

(** The phase bit of a completion entry. *)
Definition phase_of (e : CompletionEntry) : Z := Z.land (Z.shiftr (dword3 e) 16) 1.

(** A controller. *)
Class Controller (D : Type) := { tick : shared D -> shared D }.

(** The doorbells of [struct NVMeDevice]. *)
Definition doorbells_offset : Z := 0x1000.

Section nvme.
Context {D : Type} `{!Controller D}.
(** mem/kmalloc.c and mem/page.c *)
Context (kcalloc_page : M (nvme D) Z) (page_virt_to_phys_addr : Z -> Z).
(** how often a waiting loop may look *)
Context (polls : nat).
Notation N := (M (nvme D)).

Definition set_sh (s : shared D) (v : nvme D) : nvme D :=
  Nvme s (admin_submit v) (admin_complete v) (io_submit v) (io_complete v) (admin_submit_doorbell v) (io_submit_doorbell v)
    (io_complete_doorbell v) (admin_submission_tail v) (admin_completion_head v) (io_submission_tail v) (io_completion_head v).
Definition set_admin_queues (a b : Z) (v : nvme D) : nvme D :=
  Nvme (sh v) a b (io_submit v) (io_complete v) (admin_submit_doorbell v) (io_submit_doorbell v)
    (io_complete_doorbell v) (admin_submission_tail v) (admin_completion_head v) (io_submission_tail v) (io_completion_head v).
Definition set_io_queues (a b : Z) (v : nvme D) : nvme D :=
  Nvme (sh v) (admin_submit v) (admin_complete v) a b (admin_submit_doorbell v) (io_submit_doorbell v)
    (io_complete_doorbell v) (admin_submission_tail v) (admin_completion_head v) (io_submission_tail v) (io_completion_head v).
Definition set_doorbell_pointers (a s c : Z) (v : nvme D) : nvme D :=
  Nvme (sh v) (admin_submit v) (admin_complete v) (io_submit v) (io_complete v) a s c
    (admin_submission_tail v) (admin_completion_head v) (io_submission_tail v) (io_completion_head v).
Definition set_admin (tail head : Z) (v : nvme D) : nvme D :=
  Nvme (sh v) (admin_submit v) (admin_complete v) (io_submit v) (io_complete v) (admin_submit_doorbell v) (io_submit_doorbell v)
    (io_complete_doorbell v) tail head (io_submission_tail v) (io_completion_head v).
Definition set_io (tail head : Z) (v : nvme D) : nvme D :=
  Nvme (sh v) (admin_submit v) (admin_complete v) (io_submit v) (io_complete v) (admin_submit_doorbell v) (io_submit_doorbell v)
    (io_complete_doorbell v) (admin_submission_tail v) (admin_completion_head v) tail head.

Definition set_regs (cc aqa asq acq : Z) (s : shared D) : shared D :=
  Shared (CAP s) cc (CSTS s) aqa asq acq (doorbells s) (registers_at s) (pages s) (dev s).
Definition set_CC (cc : Z) (s : shared D) : shared D := set_regs cc (AQA s) (ASQ s) (ACQ s) s.
Definition set_page (p : Z) (q : queue) (s : shared D) : shared D :=
  Shared (CAP s) (CC s) (CSTS s) (AQA s) (ASQ s) (ACQ s) (doorbells s) (registers_at s) (<[p:=q]> (pages s)) (dev s).

(** A store of 32 bits through a pointer to a doorbell. *)
Definition ring (pointer v : Z) (s : shared D) : shared D :=
  Shared (CAP s) (CC s) (CSTS s) (AQA s) (ASQ s) (ACQ s)
    (<[pointer - (registers_at s + doorbells_offset) := v]> (doorbells s)) (registers_at s) (pages s) (dev s).

(** A store to the shared part. *)
Definition on_sh (g : shared D -> shared D) : N unit := modify (fun v => set_sh (g (sh v)) v).

(** [while (!c) nop;] *)
Fixpoint spin (fuel : nat) (c : shared D -> bool) : N unit :=
  match fuel with
  | O => out_of_fuel
  | S fuel' =>
    done_ ← gets (fun v => c (sh v));
    if done_ : bool then mret tt else on_sh tick;; spin fuel' c
  end.

(** The entries of a queue, through a pointer; outside of the queue is a [Fault]. *)
Definition completion_at (q i : Z) (s : shared D) : option CompletionEntry :=
  match pages s !! page_virt_to_phys_addr q with Some (CQ l) => l !! Z.to_nat i | _ => None end.
Definition completion (q i : Z) : N CompletionEntry := fun v =>
  match completion_at q i (sh v) with Some e => Ok e v | None => Fault end.
Definition submit (q i : Z) (cmd : SubmissionEntry) : N unit := fun v =>
  match pages (sh v) !! page_virt_to_phys_addr q with
  | Some (SQ l) =>
    if (Z.to_nat i <? length l)%nat then Ok tt (set_sh (set_page (page_virt_to_phys_addr q) (SQ (<[Z.to_nat i:=cmd]> l)) (sh v)) v) else Fault
  | _ => Fault
  end.

(** The phase of an entry as a waiting loop sees it. *)
Definition phase_at (q i : Z) (s : shared D) : option Z := phase_of <$> completion_at q i s.

Definition io_command (op id lba_start num_lbas buffer : Z) : SubmissionEntry :=
  submission op id 1 (Z.land lba_start 0xFFFFFFFF) (Z.land (Z.shiftr lba_start 32) 0xFFFFFFFF) (u32 (num_lbas - 1))
    (page_virt_to_phys_addr buffer).

(** The body that [nvme_read] and [nvme_write] share word for word. *)
Definition nvme_io (op id lba_start num_lbas buffer : Z) : N bool :=
  io_submit ← gets io_submit;
  tail ← gets io_submission_tail;
  submit io_submit tail (io_command op id lba_start num_lbas buffer);;
  io_complete ← gets io_complete;
  head ← gets io_completion_head;
  e ← completion io_complete head;
  let phase := phase_of e in
  let tail := (tail +32 1) mod 64 in
  modify (set_io tail head);;
  doorbell ← gets io_submit_doorbell;
  on_sh (ring doorbell tail);;
  spin polls (fun s => negb (bool_decide (phase_at io_complete head s = Some phase)));;
  let head := (head +32 1) mod 64 in
  modify (set_io tail head);;
  doorbell ← gets io_complete_doorbell;
  on_sh (ring doorbell head);;
  e ← completion io_complete head;
  mret (completion_check_success (dword3 e)).

Definition nvme_read (lba_start num_lbas buffer : Z) : N bool := nvme_io 2 2 lba_start num_lbas buffer.
Definition nvme_write (lba_start num_lbas buffer : Z) : N bool := nvme_io 1 1 lba_start num_lbas buffer.

(** One command on the admin queue, and the wait for its completion. *)
Definition admin_command (cmd : SubmissionEntry) (error : string) : N unit :=
  admin_submit ← gets admin_submit;
  tail ← gets admin_submission_tail;
  submit admin_submit tail cmd;;
  head ← gets admin_completion_head;
  modify (set_admin (tail +32 1) head);;
  doorbell ← gets admin_submit_doorbell;
  on_sh (ring doorbell (tail +32 1));;
  admin_complete ← gets admin_complete;
  spin polls (fun s => negb (bool_decide (phase_at admin_complete head s = Some 0)));;
  e ← completion admin_complete head;
  if negb (completion_check_success (dword3 e)) then panic error else
  modify (set_admin (tail +32 1) (head +32 1)).

(** A page of zeros, as the queues see it. *)
Definition empty_sq : list SubmissionEntry := replicate 64 zero_sqe.
Definition empty_cq : list CompletionEntry := replicate 256 zero_cqe.

(** [kcalloc_page], cast to a pointer to entries *)
Definition new_queue (q : queue) : N Z :=
  p ← kcalloc_page;
  on_sh (set_page (page_virt_to_phys_addr p) q);;
  mret p.

(** [nvme] is the address of the registers. *)
Definition nvme_init (nvme : Z) : N unit :=
  on_sh (set_CC 0);;
  spin polls (fun s => Z.land (CSTS s) 1 =? 0);;
  cap ← gets (fun v => CAP (sh v));
  let command_sets := u8 (Z.land (Z.shiftr cap 37) 0xFF) in
  if Z.land command_sets 1 =? 0 then panic "nvme: controller does not support nvm command set!" else
  on_sh (fun s => set_regs (Z.lor (Z.shiftl 6 16) (Z.shiftl 4 20)) (Z.lor (Z.shiftl 63 16) 63) (ASQ s) (ACQ s) s);;
  asub ← new_queue (SQ empty_sq);
  acomp ← new_queue (CQ empty_cq);
  modify (set_admin_queues asub acomp);;
  on_sh (fun s => set_regs (CC s) (AQA s) (page_virt_to_phys_addr asub) (page_virt_to_phys_addr acomp) s);;
  on_sh (fun s => set_CC (Z.lor (CC s) 1) s);;
  spin polls (fun s => negb (Z.land (CSTS s) 1 =? 0));;
  modify (set_admin 0 0);;
  cap ← gets (fun v => CAP (sh v));
  let doorbell_stride := u32 (Z.shiftl 4 (Z.land (Z.shiftr cap 32) 0xF)) in
  modify (set_doorbell_pointers (nvme +64 doorbells_offset) (nvme +64 doorbells_offset +64 (2 *32 doorbell_stride))
    (nvme +64 doorbells_offset +64 (3 *32 doorbell_stride)));;
  iocomp ← new_queue (CQ empty_cq);
  modify (fun v => set_io_queues (io_submit v) iocomp v);;
  admin_command (submission 5 0 0 (Z.lor (Z.shiftl 63 16) 1) 1 0 (page_virt_to_phys_addr iocomp))
    "nvme: failure when creating IO completion queue!";;
  iosub ← new_queue (SQ empty_sq);
  modify (fun v => set_io_queues iosub (io_complete v) v);;
  admin_command (submission 1 0 0 (Z.lor (Z.shiftl 63 16) 1) (Z.lor (Z.shiftl 1 16) 1) 0 (page_virt_to_phys_addr iosub))
    "nvme: failure when creating IO submission queue!";;
  modify (set_io 0 0).

End nvme.

(** The address of a function's PCI configuration space. *)
Definition pci_get_addr (base bus device function offset : Z) : Z :=
  u64 (Z.lor (Z.lor (Z.shiftl bus 20) (Z.shiftl device 15)) (Z.shiftl function 12) + base + offset).

End Nvme.
