(* ===== verification/NvmeProps.v ===== *)
(** * Properties of the NVMe driver

    What the NVMe specification says of a controller's I/O queues is the class
    [ControllerLaws]; the driver is proved against it, and [chip] is a
    controller that satisfies it. *)

From S2P Require Import Prelude KMath Nvme.
Import KMath Nvme.

Module NvmeProps.

(** The phase tag of the [k]-th completion of a queue of [n] entries: 1 in the
    first pass through the queue, then alternating. *)
Definition phase_tag (n k : Z) : Z := if Z.even (k / n) then 1 else 0.

(** [n] steps of the controller. *)
Definition ticks {D} `{!Controller D} (n : nat) (s : shared D) : shared D := Nat.iter n tick s.

Definition enabled {D} (s : shared D) : bool := Z.testbit (CC s) 0.
Definition rdy {D} (s : shared D) : bool := Z.testbit (CSTS s) 0.

(** The controller is enabled and says that it is ready. *)
Definition is_ready {D} (s : shared D) : bool := enabled s && rdy s.

(** Where the doorbells of the queue pair [y] are, and what they hold. *)
Definition stride {D} (s : shared D) : Z := Z.shiftl 4 (Z.land (Z.shiftr (CAP s) 32) 0xF).
Definition tail_doorbell {D} (y : Z) (s : shared D) : Z := default 0 (doorbells s !! (2 * y * stride s)).
Definition head_doorbell {D} (y : Z) (s : shared D) : Z := default 0 (doorbells s !! ((2 * y + 1) * stride s)).

(** What the specification says of a controller with one pair of I/O queues, as
    far as the driver relies on it: when it is ready, the doorbell of the
    submission queue announces one more command than it has fetched, and the
    doorbell of the completion queue leaves room for an entry, then it carries
    out the command that the submission queue holds, and posts, after some number
    of steps, one completion in the next entry of the completion queue, with the
    phase tag of this pass.  It finds the queues where the commands that created
    them have said. *)
Class ControllerLaws (D : Type) `{!Controller D} := {
  (** completions posted, commands fetched, and the commands carried out *)
  posted : D -> Z;
  fetched : D -> Z;
  executed : D -> list SubmissionEntry;
  (** completion queue 1: address and number of entries; submission queue 1:
      address, number of entries and its completion queue *)
  io_cq : D -> option (Z * Z);
  io_sq : D -> option (Z * Z * Z);
  serve_law : forall (s : shared D) pcq nc psq ns cq sq cmd,
    is_ready s = true -> 0 <= posted (dev s) -> 0 <= fetched (dev s) ->
    io_cq (dev s) = Some (pcq, nc) -> io_sq (dev s) = Some (psq, ns, 1) -> 2 <= nc -> 2 <= ns ->
    pages s !! pcq = Some (CQ cq) -> nc <= Z.of_nat (length cq) ->
    pages s !! psq = Some (SQ sq) -> sq !! Z.to_nat (fetched (dev s) mod ns) = Some cmd ->
    tail_doorbell 1 s = (fetched (dev s) + 1) mod ns ->
    head_doorbell 1 s <> (posted (dev s) + 1) mod nc ->
    exists n e, (forall j, (j < n)%nat -> pages (ticks j s) = pages s) /\
      pages (ticks n s) = <[pcq:=CQ (<[Z.to_nat (posted (dev s) mod nc):=e]> cq)]> (pages s) /\
      phase_of e = phase_tag nc (posted (dev s)) /\
      posted (dev (ticks n s)) = posted (dev s) + 1 /\ fetched (dev (ticks n s)) = fetched (dev s) + 1 /\
      executed (dev (ticks n s)) = executed (dev s) ++ [cmd] /\
      io_cq (dev (ticks n s)) = io_cq (dev s) /\ io_sq (dev (ticks n s)) = io_sq (dev s) /\
      is_ready (ticks n s) = true /\ CAP (ticks n s) = CAP s /\
      doorbells (ticks n s) = doorbells s /\ registers_at (ticks n s) = registers_at s;
}.

Lemma phase_range e : phase_of e = 0 \/ phase_of e = 1.
Proof.
  unfold phase_of. pose proof (Z.land_ones (Z.shiftr (dword3 e) 16) 1 ltac:(lia)) as H. change (Z.ones 1) with 1 in H.
  rewrite H. pose proof (Z.mod_pos_bound (Z.shiftr (dword3 e) 16) (2 ^ 1) ltac:(lia)). lia.
Qed.

Lemma phase_tag_next k : 0 <= k -> phase_tag 64 (k + 1) = if decide ((k + 1) mod 64 = 0) then 1 - phase_tag 64 k else phase_tag 64 k.
Proof.
  intros Hk. unfold phase_tag. case_decide as E.
  - assert ((k + 1) / 64 = Z.succ (k / 64)) as -> by dlia. rewrite Z.even_succ, <- Z.negb_even. by destruct (Z.even (k / 64)).
  - assert ((k + 1) / 64 = k / 64) as -> by dlia. done.
Qed.

Lemma stride_pos {D} (s : shared D) : 4 <= stride s < 2 ^ 18.
Proof.
  unfold stride. change 0xF with (Z.ones 4). rewrite Z.land_ones by lia.
  pose proof (Z.mod_pos_bound (Z.shiftr (CAP s) 32) (2 ^ 4) ltac:(lia)) as Hm. rewrite Z.shiftl_mul_pow2 by lia. change (2 ^ 4) with 16 in *.
  pose proof (Z.pow_le_mono_r 2 0 (Z.shiftr (CAP s) 32 mod 16) ltac:(lia) ltac:(lia)).
  pose proof (Z.pow_le_mono_r 2 (Z.shiftr (CAP s) 32 mod 16) 15 ltac:(lia) ltac:(lia)). change (2 ^ 15) with 32768 in *. lia.
Qed.

Section props.
Context {D : Type} `{!Controller D} `{!ControllerLaws D}.
Context (phys : Z -> Z).
Notation N := (M (nvme D)).
Implicit Types v : nvme D.

(** The entries [cq] of the completion queue after [k] completions: they carry
    this pass's phase up to the head and the other phase from there on. *)
Definition phases_ok (k : Z) (cq : list CompletionEntry) : Prop :=
  64 <= Z.of_nat (length cq) /\
  forall i e, 0 <= i < 64 -> cq !! Z.to_nat i = Some e ->
    phase_of e = if decide (i < k mod 64) then phase_tag 64 k else 1 - phase_tag 64 k.

(** Driver and controller agree: on the places of the queues, on the doorbells,
    and that nothing is outstanding. *)
Record nvme_ok v : Prop := {
  ok_ready : is_ready (sh v) = true;
  ok_posted : 0 <= posted (dev (sh v));
  ok_fetched : fetched (dev (sh v)) = posted (dev (sh v));
  ok_tail : io_submission_tail v = posted (dev (sh v)) mod 64;
  ok_head : io_completion_head v = posted (dev (sh v)) mod 64;
  ok_cq : io_cq (dev (sh v)) = Some (phys (io_complete v), 64);
  ok_sq : io_sq (dev (sh v)) = Some (phys (io_submit v), 64, 1);
  ok_tail_at : io_submit_doorbell v - (registers_at (sh v) + doorbells_offset) = 2 * stride (sh v);
  ok_head_at : io_complete_doorbell v - (registers_at (sh v) + doorbells_offset) = 3 * stride (sh v);
  ok_acknowledged : head_doorbell 1 (sh v) = posted (dev (sh v)) mod 64;
  ok_submit : exists sq, pages (sh v) !! phys (io_submit v) = Some (SQ sq) /\ length sq = 64%nat;
  ok_complete : exists cq, pages (sh v) !! phys (io_complete v) = Some (CQ cq) /\ phases_ok (posted (dev (sh v))) cq;
}.

(** The waiting loop ends when its condition becomes true. *)
Lemma spin_run n : forall fuel (c : shared D -> bool) v,
  (n < fuel)%nat -> (forall j, (j < n)%nat -> c (ticks j (sh v)) = false) -> c (ticks n (sh v)) = true ->
  spin fuel c v = Ok tt (set_sh (ticks n (sh v)) v).
Proof.
  induction n as [|n IH]; intros [|fuel] c v Hf Hno Hyes; try lia; cbn [spin]; run_pure.
  - change (ticks 0 (sh v)) with (sh v) in *. rewrite Hyes. by destruct v.
  - assert (H0 : c (sh v) = false) by (apply (Hno 0%nat); lia). rewrite H0. unfold on_sh. run_pure.
    assert (Hshift : forall j, ticks j (tick (sh v)) = ticks (S j) (sh v)).
    { intros j. unfold ticks. by rewrite <- Nat.iter_succ_r. }
    rewrite (IH fuel c (set_sh (tick (sh v)) v)); cbn [sh set_sh].
    + rewrite Hshift. done.
    + lia.
    + intros j Hj. rewrite Hshift. apply Hno. lia.
    + by rewrite Hshift.
Qed.

Lemma completion_at_page q i cq (s : shared D) : pages s !! phys q = Some (CQ cq) -> completion_at phys q i s = cq !! Z.to_nat i.
Proof. intros H. unfold completion_at. by rewrite H. Qed.

Lemma completion_run q i cq e v : pages (sh v) !! phys q = Some (CQ cq) -> cq !! Z.to_nat i = Some e -> completion phys q i v = Ok e v.
Proof. intros Hq H. unfold completion. by rewrite (completion_at_page q i cq _ Hq), H. Qed.

Lemma submit_run q i cmd sq v : pages (sh v) !! phys q = Some (SQ sq) -> (Z.to_nat i < length sq)%nat ->
  submit phys q i cmd v = Ok tt (set_sh (set_page (phys q) (SQ (<[Z.to_nat i:=cmd]> sq)) (sh v)) v).
Proof. intros Hq Hi. unfold submit. by rewrite Hq, (proj2 (Nat.ltb_lt _ _) Hi). Qed.

(** A completion posted at the head keeps the phases in order. *)
Lemma phases_ok_post k cq e : 0 <= k -> phases_ok k cq -> phase_of e = phase_tag 64 k ->
  phases_ok (k + 1) (<[Z.to_nat (k mod 64):=e]> cq).
Proof.
  intros Hk [Hl Hph] Hphe. pose proof (Z.mod_pos_bound k 64 ltac:(lia)) as Hkm.
  split; [by rewrite length_insert|]. intros i e2 Hi He2. rewrite (phase_tag_next k Hk).
  destruct (decide (i = k mod 64)) as [->|Hik].
  - rewrite list_lookup_insert_eq in He2 by lia. injection He2 as <-. rewrite Hphe.
    destruct (decide ((k + 1) mod 64 = 0)) as [E|E]; [rewrite decide_False by lia; lia|]. rewrite decide_True; [done|]. clear -E. dlia.
  - rewrite list_lookup_insert_ne in He2 by lia. rewrite (Hph i e2 Hi He2).
    destruct (decide ((k + 1) mod 64 = 0)) as [E|E].
    + rewrite (decide_True (P := i < k mod 64)) by (clear -E Hi Hik; dlia). rewrite decide_False by lia. lia.
    + assert ((k + 1) mod 64 = k mod 64 + 1) as -> by (clear -E; dlia).
      destruct (decide (i < k mod 64)); [rewrite decide_True by lia; done|rewrite decide_False by lia; done].
Qed.

(** The entry at the head carries the other phase. *)
Lemma phases_ok_head k cq e e' : phases_ok k cq -> cq !! Z.to_nat (k mod 64) = Some e -> phase_of e' = phase_tag 64 k -> phase_of e <> phase_of e'.
Proof.
  intros [_ Hph] He He'. pose proof (Z.mod_pos_bound k 64 ltac:(lia)) as Hkm. rewrite (Hph _ e Hkm He), decide_False by lia. rewrite He'.
  unfold phase_tag. destruct (Z.even (k / 64)); lia.
Qed.

(** The memory and the doorbell once a command has been handed over. *)
Definition submitted (cmd : SubmissionEntry) (sq : list SubmissionEntry) v : shared D :=
  let k := posted (dev (sh v)) in
  ring (io_submit_doorbell v) ((k + 1) mod 64) (set_page (phys (io_submit v)) (SQ (<[Z.to_nat (k mod 64):=cmd]> sq)) (sh v)).

(** The driver once it has acknowledged the completion. *)
Definition acknowledged (s : shared D) v : nvme D :=
  let k := posted (dev (sh v)) in
  set_sh (ring (io_complete_doorbell v) ((k + 1) mod 64) s) (set_io ((k + 1) mod 64) ((k + 1) mod 64) v).

(** The controller's part of a command, and what is left when the driver has
    acknowledged it. *)
Lemma command_served cmd sq cq v :
  nvme_ok v -> pages (sh v) !! phys (io_submit v) = Some (SQ sq) -> pages (sh v) !! phys (io_complete v) = Some (CQ cq) ->
  let k := posted (dev (sh v)) in let s1 := submitted cmd sq v in
  exists n e, (forall j, (j < n)%nat -> pages (ticks j s1) = pages s1) /\
    pages (ticks n s1) = <[phys (io_complete v):=CQ (<[Z.to_nat (k mod 64):=e]> cq)]> (pages s1) /\
    phase_of e = phase_tag 64 k /\ posted (dev (ticks n s1)) = k + 1 /\
    executed (dev (ticks n s1)) = executed (dev (sh v)) ++ [cmd] /\ nvme_ok (acknowledged (ticks n s1) v).
Proof.
  intros [Hrdy Hk Hf Ht Hh Hcq Hsq Hta Hha Hack (sq' & Hsp' & Hsl) (cq' & Hcp' & Hph)] Hsp Hcp k s1.
  assert (sq' = sq) as -> by congruence. assert (cq' = cq) as -> by congruence. clear Hsp' Hcp'. fold k in Hk, Hf, Ht, Hh, Hack, Hph.
  assert (Hkm : 0 <= k mod 64 < 64) by (apply Z.mod_pos_bound; lia).
  assert (Hnext : k mod 64 <> (k + 1) mod 64) by (clear; dlia).
  assert (Hpne : phys (io_submit v) <> phys (io_complete v)) by congruence.
  pose proof (stride_pos (sh v)) as Hst.
  assert (Htail : tail_doorbell 1 s1 = (k + 1) mod 64).
  { unfold tail_doorbell. cbn [s1 submitted ring set_page doorbells registers_at]. rewrite Hta. change (stride s1) with (stride (sh v)).
    replace (2 * 1 * stride (sh v)) with (2 * stride (sh v)) by lia. by rewrite lookup_insert_eq. }
  assert (Hhead : head_doorbell 1 s1 = k mod 64).
  { unfold head_doorbell. cbn [s1 submitted ring set_page doorbells registers_at]. rewrite Hta. change (stride s1) with (stride (sh v)).
    rewrite lookup_insert_ne by lia. exact Hack. }
  assert (Hs1 : pages s1 !! phys (io_submit v) = Some (SQ (<[Z.to_nat (k mod 64):=cmd]> sq))) by apply lookup_insert_eq.
  assert (Hc1 : pages s1 !! phys (io_complete v) = Some (CQ cq)) by (cbn; by rewrite lookup_insert_ne).
  destruct (serve_law s1 (phys (io_complete v)) 64 (phys (io_submit v)) 64 cq (<[Z.to_nat (k mod 64):=cmd]> sq) cmd)
    as (n & e & Hno & Hyes & Hphe & Hp1 & Hf1 & Hx1 & Hcq1 & Hsq1 & Hrd1 & Hcap1 & Hdb1 & Hra1); try done.
  { change (fetched (dev s1)) with (fetched (dev (sh v))). lia. }
  { apply Hph. }
  { change (fetched (dev s1)) with (fetched (dev (sh v))). rewrite Hf. apply list_lookup_insert_eq. lia. }
  { change (fetched (dev s1)) with (fetched (dev (sh v))). by rewrite Hf. }
  { change (posted (dev s1)) with k. by rewrite Hhead. }
  change (posted (dev s1)) with k in *. change (fetched (dev s1)) with (fetched (dev (sh v))) in *.
  exists n, e. split_and!; try done. set (w := acknowledged (ticks n s1) v).
  assert (Hstr : stride (sh w) = stride (sh v)) by (unfold stride; cbn; by rewrite Hcap1).
  assert (Hra : registers_at (sh w) = registers_at (sh v)) by exact Hra1.
  split; try (change (dev (sh w)) with (dev (ticks n s1)); rewrite ?Hp1, ?Hf1, ?Hcq1, ?Hsq1, ?Hf); try done; try lia.
  - by rewrite Hra, Hstr.
  - by rewrite Hra, Hstr.
  - unfold head_doorbell. rewrite Hstr. cbn [w acknowledged ring sh set_sh doorbells]. rewrite Hra1. change (registers_at s1) with (registers_at (sh v)).
    rewrite Hha. replace ((2 * 1 + 1) * stride (sh v)) with (3 * stride (sh v)) by lia. by rewrite lookup_insert_eq.
  - eexists. split; [change (pages (sh w)) with (pages (ticks n s1)); rewrite Hyes, lookup_insert_ne by done; exact Hs1|]. by rewrite length_insert.
  - eexists. split; [change (pages (sh w)) with (pages (ticks n s1)); rewrite Hyes; apply lookup_insert_eq|]. by apply phases_ok_post.
Qed.

(** One command: it is carried out and completes, and its status is read from
    the entry behind the one that has just been completed. *)
Lemma nvme_io_run op id lba num buf v :
  nvme_ok v ->
  let k := posted (dev (sh v)) in
  exists n v' e, (forall polls, (n < polls)%nat ->
      nvme_io phys polls op id lba num buf v = Ok (completion_check_success (dword3 e)) v') /\
      nvme_ok v' /\ posted (dev (sh v')) = k + 1 /\
      executed (dev (sh v')) = executed (dev (sh v)) ++ [io_command phys op id lba num buf] /\
      completion_at phys (io_complete v) ((k + 1) mod 64) (sh v) = Some e.
Proof.
  intros Hok k. pose proof Hok as [Hrdy Hk Hf Ht Hh _ _ _ _ _ (sq & Hsp & Hsl) (cq & Hcp & Hph)]. fold k in Hk, Hf, Ht, Hh, Hph.
  assert (Hkm : 0 <= k mod 64 < 64) by (apply Z.mod_pos_bound; lia). assert (Hkn : 0 <= (k + 1) mod 64 < 64) by (apply Z.mod_pos_bound; lia).
  assert (Hnext : (k + 1) mod 64 <> k mod 64) by (clear; dlia).
  assert (Hmod : (k mod 64 +32 1) mod 64 = (k + 1) mod 64).
  { rewrite u32_small by lia. clear. rewrite Z.add_mod_idemp_l by lia. done. }
  pose proof (proj1 Hph) as Hcl.
  destruct (lookup_lt_is_Some_2 cq (Z.to_nat (k mod 64))) as [e0 He0]; [lia|].
  destruct (lookup_lt_is_Some_2 cq (Z.to_nat ((k + 1) mod 64))) as [e1 He1]; [lia|].
  assert (Hpne : phys (io_submit v) <> phys (io_complete v)) by congruence.
  destruct (command_served (io_command phys op id lba num buf) sq cq v Hok Hsp Hcp) as (n & e & Hno & Hyes & Hphe & Hp1 & Hx1 & Hok1).
  set (s1 := submitted _ sq v) in *. fold k in Hyes, Hphe, Hp1.
  assert (Hc1 : pages s1 !! phys (io_complete v) = Some (CQ cq)) by (cbn; by rewrite lookup_insert_ne).
  exists n, (acknowledged (ticks n s1) v), e1. split_and!; try done; [|by rewrite (completion_at_page _ _ cq)].
  intros polls Hpolls. unfold nvme_io, on_sh. run_pure. rewrite Ht.
  rewrite (bind_ok _ _ _ _ _ (submit_run (io_submit v) (k mod 64) _ sq v Hsp ltac:(lia))). run_pure. cbn [io_complete io_completion_head set_sh]. rewrite Hh.
  erewrite bind_ok; [|eapply completion_run; [exact Hc1|exact He0]]. run_pure. rewrite Hmod. cbn [io_submit_doorbell set_io set_sh sh].
  erewrite bind_ok; [|apply (spin_run n)].
  - run_pure. erewrite bind_ok; [reflexivity|]. eapply (completion_run _ _ (<[Z.to_nat (k mod 64):=e]> cq)).
    + change (pages (sh (acknowledged (ticks n s1) v))) with (pages (ticks n s1)). rewrite Hyes. apply lookup_insert_eq.
    + rewrite list_lookup_insert_ne by lia. exact He1.
  - exact Hpolls.
  - intros j Hj. unfold phase_at. rewrite (completion_at_page _ _ cq) by (change (pages (ticks j s1) !! phys (io_complete v) = Some (CQ cq)); rewrite Hno by done; exact Hc1).
    rewrite He0. cbn. by rewrite bool_decide_eq_true_2.
  - unfold phase_at. rewrite (completion_at_page _ _ (<[Z.to_nat (k mod 64):=e]> cq)) by
      (match goal with |- pages ?s !! _ = _ => change s with (ticks n s1) end; rewrite Hyes; apply lookup_insert_eq).
    rewrite list_lookup_insert_eq by lia. cbn. rewrite bool_decide_eq_false_2; [done|]. intros E. injection E as E. symmetry in E. revert E. by eapply phases_ok_head.
Qed.

(** A sequence of reads and writes: (is it a write?, first block, number of
    blocks, buffer). *)
Fixpoint commands (polls : nat) (l : list (bool * Z * Z * Z)) : N (list bool) :=
  match l with
  | [] => mret []
  | (w, lba, num, buf) :: l' =>
    r ← (if w : bool then nvme_write phys polls lba num buf else nvme_read phys polls lba num buf);
    rs ← commands polls l';
    mret (r :: rs)
  end.

(** The command of the NVMe command set that each of them stands for. *)
Definition command_of (x : bool * Z * Z * Z) : SubmissionEntry :=
  let '(w, lba, num, buf) := x in if w : bool then io_command phys 1 1 lba num buf else io_command phys 2 2 lba num buf.

Lemma commands_run l : forall v, nvme_ok v ->
  exists p rs v', (forall polls, (p <= polls)%nat -> commands polls l v = Ok rs v') /\ nvme_ok v' /\
    length rs = length l /\ executed (dev (sh v')) = executed (dev (sh v)) ++ map command_of l.
Proof.
  induction l as [|[[[w lba] num] buf] l IH]; intros v Hok.
  { exists 0%nat, [], v. split; [done|]. split; [done|]. split; [done|]. by rewrite app_nil_r. }
  assert (H1 : exists n v1 r, (forall polls, (n < polls)%nat ->
      (if w then nvme_write phys polls lba num buf else nvme_read phys polls lba num buf) v = Ok r v1) /\
      nvme_ok v1 /\ executed (dev (sh v1)) = executed (dev (sh v)) ++ [command_of (w, lba, num, buf)]).
  { destruct w; [destruct (nvme_io_run 1 1 lba num buf v Hok) as (n & v1 & e & Hr & Hok1 & _ & Hx & _)
      |destruct (nvme_io_run 2 2 lba num buf v Hok) as (n & v1 & e & Hr & Hok1 & _ & Hx & _)]; by exists n, v1, (completion_check_success (dword3 e)). }
  destruct H1 as (n & v1 & r & Hr & Hok1 & Hx1). destruct (IH v1 Hok1) as (p & rs & v' & Hrs & Hok' & Hlen & Hx').
  exists (S (n + p)), (r :: rs), v'. split; [|split; [done|cbn [length map]; split; [lia|by rewrite Hx', Hx1, <- app_assoc]]].
  intros polls Hpolls. cbn [commands]. rewrite (bind_ok _ _ _ _ _ (Hr polls ltac:(lia))), (bind_ok _ _ _ _ _ (Hrs polls ltac:(lia))). done.
Qed.

(** C16. Liveness of the driver.  From a state in which driver and controller
    agree and nothing is outstanding, and against a controller that follows the
    specification ([ControllerLaws]: it takes commands only from the submission
    queue it has been told of, and posts no completion into a queue that its
    doorbell leaves full), every sequence of reads and writes of any length ends,
    if each waiting loop may look often enough: the controller carries out
    exactly the commands of the sequence, in their order, and driver and
    controller agree again afterwards, however often the queues have wrapped
    around.  Nothing is said of the results, which are those of other commands
    (nvme.c:269), nor of the data. *)
Theorem nvme_commands_complete l v :
  nvme_ok v ->
  exists p rs v', (forall polls, (p <= polls)%nat -> commands polls l v = Ok rs v') /\ nvme_ok v' /\
    length rs = length l /\ executed (dev (sh v')) = executed (dev (sh v)) ++ map command_of l.
Proof.
  intros Hok. destruct (commands_run l v Hok) as (p & rs & v' & Hr & Hok' & Hlen & Hp). by exists p, rs, v'.
Qed.

(** The status that [nvme_read] returns is not the one of its own command:
    the head is advanced before the entry is looked at, so the result depends
    on the entry behind, which the controller has not written.  In the first
    pass through the queue that entry is zero and the read reports success,
    whatever the controller answered. *)
Theorem nvme_read_ignores_status lba num buf v :
  nvme_ok v ->
  completion_at phys (io_complete v) ((posted (dev (sh v)) + 1) mod 64) (sh v) = Some zero_cqe ->
  exists n v', forall polls, (n < polls)%nat -> nvme_read phys polls lba num buf v = Ok true v'.
Proof.
  intros Hok Hz. destruct (nvme_io_run 2 2 lba num buf v Hok) as (n & v' & e & Hr & _ & _ & _ & He).
  exists n, v'. intros polls Hp. unfold nvme_read. rewrite (Hr polls Hp). rewrite Hz in He. by injection He as <-.
Qed.

End props.

(** ** A controller *)

(** Counters and queues since the last reset, and the status with which it
    answers every I/O command. *)
Record chip := Chip {
  c_posted : Z;
  c_fetched : Z;
  c_executed : list SubmissionEntry;
  c_cq : option (Z * Z);
  c_sq : option (Z * Z * Z);
  c_admin : Z;
  c_status : Z;
}.

Definition chip_to (csts : Z) (db : gmap Z Z) (pg : gmap Z queue) (d : chip) (s : shared chip) : shared chip :=
  Shared (CAP s) (CC s) csts (AQA s) (ASQ s) (ACQ s) db (registers_at s) pg d.

(** A completion entry: status and phase. *)
Definition answer (status phase : Z) : CompletionEntry :=
  Cqe 0 0 0 (Z.shiftl (status mod 2 ^ 11) 17 + Z.shiftl phase 16).

Definition cq_at (p : Z) (s : shared chip) : option (list CompletionEntry) := match pages s !! p with Some (CQ l) => Some l | _ => None end.
Definition sq_at (p : Z) (s : shared chip) : option (list SubmissionEntry) := match pages s !! p with Some (SQ l) => Some l | _ => None end.

(** One command of the I/O queues, if there is one and room for its completion. *)
Definition serve_io (s : shared chip) : option (shared chip) :=
  let d := dev s in
  '(pcq, nc) ← c_cq d; '(psq, ns, id) ← c_sq d; cq ← cq_at pcq s; sq ← sq_at psq s;
  cmd ← sq !! Z.to_nat (c_fetched d mod ns);
  if bool_decide (id = 1 /\ tail_doorbell 1 s = (c_fetched d + 1) mod ns /\ head_doorbell 1 s <> (c_posted d + 1) mod nc) then
    Some (chip_to (CSTS s) (doorbells s)
      (<[pcq:=CQ (<[Z.to_nat (c_posted d mod nc):=answer (c_status d) (phase_tag nc (c_posted d))]> cq)]> (pages s))
      (Chip (c_posted d + 1) (c_fetched d + 1) (c_executed d ++ [cmd]) (c_cq d) (c_sq d) (c_admin d) (c_status d)) s)
  else None.

(** The admin queues, sizes and addresses from the registers. *)
Definition asq_size {D} (s : shared D) : Z := Z.land (AQA s) 0xFFF + 1.
Definition acq_size {D} (s : shared D) : Z := Z.land (Z.shiftr (AQA s) 16) 0xFFF + 1.

(** The commands that create the pair 1 of I/O queues: whether they are valid,
    and the queue that they create.  The entry sizes of the configuration are 16
    and 64 bytes, the queue has more than one entry and not more than the
    controller supports, is contiguous, starts at a page, and does not exist; the
    completion queue of a submission queue exists. *)
Definition queue_entries (cmd : SubmissionEntry) : Z := Z.shiftr (dword10 cmd) 16 + 1.
Definition queue_id (x : Z) : Z := Z.land x 0xFFFF.
Definition valid_queue {D} (s : shared D) (cmd : SubmissionEntry) : bool :=
  (Z.land (Z.shiftr (CC s) 16) 0xF =? 6) && (Z.land (Z.shiftr (CC s) 20) 0xF =? 4) && (queue_id (dword10 cmd) =? 1) &&
  (2 <=? queue_entries cmd) && (queue_entries cmd <=? Z.land (CAP s) 0xFFFF + 1) && Z.testbit (dword11 cmd) 0 && (prp1 cmd mod 4096 =? 0).
Definition creates_cq {D} (cq : option (Z * Z)) (s : shared D) (cmd : SubmissionEntry) : bool :=
  (opcode cmd =? 5) && valid_queue s cmd && bool_decide (cq = None).
Definition creates_sq {D} (cq : option (Z * Z)) (sq : option (Z * Z * Z)) (s : shared D) (cmd : SubmissionEntry) : bool :=
  (opcode cmd =? 1) && valid_queue s cmd && bool_decide (sq = None) && (Z.shiftr (dword11 cmd) 16 =? 1) && negb (bool_decide (cq = None)).

(** One command of the admin queue. *)
Definition serve_admin (s : shared chip) : option (shared chip) :=
  let d := dev s in let k := c_admin d in
  sq ← sq_at (ASQ s) s; cq ← cq_at (ACQ s) s; cmd ← sq !! Z.to_nat (k mod asq_size s);
  if bool_decide (tail_doorbell 0 s = (k + 1) mod asq_size s /\ head_doorbell 0 s <> (k + 1) mod acq_size s) then
    let c := creates_cq (c_cq d) s cmd in let q := creates_sq (c_cq d) (c_sq d) s cmd in
    Some (chip_to (CSTS s) (doorbells s)
      (<[ACQ s:=CQ (<[Z.to_nat (k mod acq_size s):=answer (if c || q then 0 else 1) (phase_tag (acq_size s) k)]> cq)]> (pages s))
      (Chip (c_posted d) (c_fetched d) (c_executed d) (if c then Some (prp1 cmd, queue_entries cmd) else c_cq d)
        (if q then Some (prp1 cmd, queue_entries cmd, Z.shiftr (dword11 cmd) 16) else c_sq d) (k + 1) (c_status d)) s)
  else None.

Definition chip_tick (s : shared chip) : shared chip :=
  if enabled s then
    if rdy s then match serve_io s with Some s' => s' | None => default s (serve_admin s) end
    else chip_to 1 ∅ (pages s) (Chip 0 0 [] None None 0 (c_status (dev s))) s
  else if rdy s then chip_to 0 (doorbells s) (pages s) (dev s) s else s.

#[export] Instance chip_controller : Controller chip := {| tick := chip_tick |}.

Lemma answer_phase status n k : phase_of (answer status (phase_tag n k)) = phase_tag n k.
Proof.
  unfold phase_of, answer. cbn [dword3]. rewrite !Z.shiftl_mul_pow2, Z.shiftr_div_pow2 by lia.
  replace (status mod 2 ^ 11 * 2 ^ 17 + phase_tag n k * 2 ^ 16) with ((status mod 2 ^ 11 * 2 + phase_tag n k) * 2 ^ 16) by lia.
  rewrite Z.div_mul by lia. change 1 with (Z.ones 1) at 1. rewrite Z.land_ones by lia.
  unfold phase_tag. case_match; rewrite Z.add_comm; change (2 ^ 1) with 2; rewrite Z.mod_add by lia; done.
Qed.

#[export] Program Instance chip_laws : ControllerLaws chip :=
  {| posted := c_posted; fetched := c_fetched; executed := c_executed; io_cq := c_cq; io_sq := c_sq |}.
Next Obligation.
  intros s pcq nc psq ns cq sq cmd Hrd _ _ Hcq Hsq _ _ Hpc _ Hps Hcmd Htail Hhead.
  exists 1%nat, (answer (c_status (dev s)) (phase_tag nc (c_posted (dev s)))). pose proof Hrd as Hrd'. apply andb_prop in Hrd' as [Hen Hr].
  assert (Hs : serve_io s <> None /\ ticks 1 s = default s (serve_io s)).
  { change (ticks 1 s) with (chip_tick s). unfold chip_tick. rewrite Hen, Hr. unfold serve_io, cq_at, sq_at. rewrite Hcq, Hsq. cbn. rewrite Hpc, Hps. cbn. rewrite Hcmd. cbn.
    by rewrite bool_decide_eq_true_2. }
  destruct Hs as [_ ->]. unfold serve_io, cq_at, sq_at. rewrite Hcq, Hsq. cbn. rewrite Hpc, Hps. cbn. rewrite Hcmd. cbn.
  rewrite bool_decide_eq_true_2 by done. cbn.
  split; [intros j Hj; by replace j with 0%nat by lia|]. split_and!; try done. apply answer_phase.
Qed.

(** The state after [nvme_init], with a controller that reports [status]. *)
Definition ready (status : Z) : nvme chip :=
  Nvme (Shared 0 1 1 0 0 0 ∅ 0x8000 {[ 0x2000 := SQ empty_sq; 0x3000 := CQ empty_cq ]}
    (Chip 0 0 [] (Some (0x3000, 64)) (Some (0x2000, 64, 1)) 2 status)) 0 0 0x2000 0x3000 0x9000 0x9008 0x900C 2 2 0 0.

Lemma empty_phases : phases_ok 0 empty_cq.
Proof.
  split; [vm_compute; discriminate|]. intros i e Hi He. apply lookup_replicate in He as [-> _]. rewrite decide_False; [done|].
  change (0 mod 64) with 0. lia.
Qed.

Lemma ready_ok status : nvme_ok (fun a => a) (ready status).
Proof. split; try done; [by exists empty_sq|]. exists empty_cq. split; [done|]. apply empty_phases. Qed.

Lemma nvme_commands_complete_witness :
  exists p rs v', (forall polls, (p <= polls)%nat ->
    commands (fun a => a) polls (repeat (true, 7, 1, 4096) 100) (ready 0) = Ok rs v') /\ nvme_ok (fun a => a) v' /\
    length rs = 100%nat /\ executed (dev (sh v')) = repeat (io_command (fun a => a) 1 1 7 1 4096) 100.
Proof. exact (nvme_commands_complete (fun a => a) (repeat (true, 7, 1, 4096) 100) (ready 0) (ready_ok 0)). Defined.

(** The first read of a controller that answers "LBA out of range" (0x80). *)
Lemma nvme_read_ignores_status_witness :
  completion_check_success (dword3 (answer 0x80 1)) = false /\
  exists n v', forall polls, (n < polls)%nat -> nvme_read (fun a => a) polls 5 1 4096 (ready 0x80) = Ok true v'.
Proof.
  split; [reflexivity|]. exact (nvme_read_ignores_status (fun a => a) 5 1 4096 (ready 0x80) (ready_ok 0x80) eq_refl).
Defined.

End NvmeProps.
