(* ===== verification/NvmeInit.v ===== *)
(** * The start of the NVMe driver

    [nvme_init] resets the controller, gives it its admin queues and creates one
    pair of I/O queues.  [InitLaws] states what the NVMe specification says of a
    controller for this phase; the result is the state from which the commands
    of file NvmeProps complete. *)

From S2P Require Import Prelude KMath Nvme NvmeProps.
Import KMath Nvme NvmeProps.

Module NvmeInit.

(** The registers that only the driver writes, and those that never change. *)
Definition registers_kept {D} (s s' : shared D) : Prop :=
  CAP s' = CAP s /\ CC s' = CC s /\ AQA s' = AQA s /\ ASQ s' = ASQ s /\ ACQ s' = ACQ s /\ registers_at s' = registers_at s.

Class InitLaws (D : Type) `{!Controller D} `{!ControllerLaws D} := {
  (** admin commands fetched and answered since the last reset *)
  admin_count : D -> Z;
  (** a controller that is disabled stops *)
  disable_law : forall s : shared D, enabled s = false ->
    exists n, (forall j, (j < n)%nat -> rdy (ticks j s) = true) /\ rdy (ticks n s) = false /\
      registers_kept s (ticks n s) /\ pages (ticks n s) = pages s;
  (** one that is enabled starts, without I/O queues and with the doorbells at zero *)
  enable_law : forall s : shared D, enabled s = true -> rdy s = false ->
    exists n, (forall j, (j < n)%nat -> rdy (ticks j s) = false) /\ rdy (ticks n s) = true /\
      registers_kept s (ticks n s) /\ pages (ticks n s) = pages s /\ doorbells (ticks n s) = ∅ /\
      admin_count (dev (ticks n s)) = 0 /\ posted (dev (ticks n s)) = 0 /\ fetched (dev (ticks n s)) = 0 /\
      executed (dev (ticks n s)) = [] /\ io_cq (dev (ticks n s)) = None /\ io_sq (dev (ticks n s)) = None;
  (** while there are no I/O commands, a command that the doorbell announces and
      the admin submission queue holds, at the address and of the size that the
      registers give, is answered in the next entry of the admin completion
      queue, unless its doorbell leaves it full; the commands that create the
      queues of pair 1 succeed when they are valid, and then these queues are the
      ones of the I/O commands *)
  admin_law : forall (s : shared D) sq cq cmd, let k := admin_count (dev s) in
    is_ready s = true -> io_sq (dev s) = None -> 0 <= k -> 2 <= asq_size s -> 2 <= acq_size s ->
    pages s !! ASQ s = Some (SQ sq) -> sq !! Z.to_nat (k mod asq_size s) = Some cmd ->
    pages s !! ACQ s = Some (CQ cq) -> acq_size s <= Z.of_nat (length cq) ->
    tail_doorbell 0 s = (k + 1) mod asq_size s -> head_doorbell 0 s <> (k + 1) mod acq_size s ->
    opcode cmd = 5 \/ opcode cmd = 1 ->
    let c := creates_cq (io_cq (dev s)) s cmd in let q := creates_sq (io_cq (dev s)) (io_sq (dev s)) s cmd in
    exists n e, (forall j, (j < n)%nat -> pages (ticks j s) = pages s) /\
      pages (ticks n s) = <[ACQ s:=CQ (<[Z.to_nat (k mod acq_size s):=e]> cq)]> (pages s) /\
      phase_of e = phase_tag (acq_size s) k /\ completion_check_success (dword3 e) = c || q /\
      registers_kept s (ticks n s) /\ is_ready (ticks n s) = true /\ doorbells (ticks n s) = doorbells s /\
      admin_count (dev (ticks n s)) = k + 1 /\ posted (dev (ticks n s)) = posted (dev s) /\ fetched (dev (ticks n s)) = fetched (dev s) /\
      executed (dev (ticks n s)) = executed (dev s) /\
      io_cq (dev (ticks n s)) = (if c then Some (prp1 cmd, queue_entries cmd) else io_cq (dev s)) /\
      io_sq (dev (ticks n s)) = (if q then Some (prp1 cmd, queue_entries cmd, Z.shiftr (dword11 cmd) 16) else io_sq (dev s));
}.

(** ** Programs that wait *)

Section settle.
Context {D : Type} `{!Controller D}.
Notation N := (M (nvme D)).

(** The program ends in the same way whatever the number of polls, if it is
    large enough, and its outcome satisfies [Q]. *)
Definition settles {A} (c : nat -> N A) (v : nvme D) (Q : outcome (nvme D) A -> Prop) : Prop :=
  exists n r, (forall polls, (n < polls)%nat -> c polls v = r) /\ Q r.

Lemma settles_now {A} (c : nat -> N A) v r (Q : outcome (nvme D) A -> Prop) : (forall p, c p v = r) -> Q r -> settles c v Q.
Proof. intros Hc HQ. exists 0%nat, r. split; [intros p _; apply Hc|done]. Qed.

Lemma settles_bind {A B} (c : nat -> N A) (k : nat -> A -> N B) v v' a Q :
  settles c v (fun r => r = Ok a v') -> settles (fun p => k p a) v' Q -> settles (fun p => c p ≫= k p) v Q.
Proof.
  intros (n & r & Hc & ->) (m & r' & Hk & HQ). exists (n `max` m)%nat, r'. split; [|done].
  intros p Hp. rewrite (bind_ok _ _ _ _ _ (Hc p ltac:(lia))). apply Hk. lia.
Qed.

Lemma settles_panic {A B} (c : nat -> N A) (k : nat -> A -> N B) v msg Q :
  settles c v (fun r => r = Panic msg) -> Q (Panic msg) -> settles (fun p => c p ≫= k p) v Q.
Proof.
  intros (n & r & Hc & ->) HQ. exists n, (Panic msg). split; [|done]. intros p Hp. by rewrite (bind_panic _ _ _ _ (Hc p Hp)).
Qed.

Lemma settles_ext {A} (c c' : nat -> N A) v v' Q : (forall p, c p v = c' p v') -> settles c' v' Q -> settles c v Q.
Proof. intros He (n & r & Hc & HQ). exists n, r. split; [|done]. intros p Hp. rewrite He. by apply Hc. Qed.

Lemma settles_spin n (c : shared D -> bool) v :
  (forall j, (j < n)%nat -> c (ticks j (sh v)) = false) -> c (ticks n (sh v)) = true ->
  settles (fun p => spin p c) v (fun r => r = Ok tt (set_sh (ticks n (sh v)) v)).
Proof. intros Hno Hyes. eexists n, _. split; [|reflexivity]. intros p Hp. by apply spin_run. Qed.

End settle.

(** ** The commands that create the I/O queues *)

Definition create_cq (prp : Z) : SubmissionEntry := submission 5 0 0 (Z.lor (Z.shiftl 63 16) 1) 1 0 prp.
Definition create_sq (prp : Z) : SubmissionEntry := submission 1 0 0 (Z.lor (Z.shiftl 63 16) 1) (Z.lor (Z.shiftl 1 16) 1) 0 prp.

Lemma land1 x : (Z.land x 1 =? 0) = negb (Z.testbit x 0).
Proof.
  change 1 with (Z.ones 1). rewrite Z.land_ones by lia. change (2 ^ 1) with 2. rewrite <- Z.bit0_mod. by destruct (Z.testbit x 0).
Qed.

Lemma command_set_bit cap : (Z.land (u8 (Z.land (Z.shiftr cap 37) 0xFF)) 1 =? 0) = negb (Z.testbit cap 37).
Proof.
  rewrite land1. f_equal. unfold u8. change W8 with (2 ^ 8). rewrite Z.mod_pow2_bits_low, Z.land_spec, Z.shiftr_spec by lia.
  by rewrite andb_true_r.
Qed.


(** The driver's configuration lets both queues be created, if the controller
    supports queues of 64 entries. *)
Definition driver_CC : Z := Z.lor (Z.lor (Z.shiftl 6 16) (Z.shiftl 4 20)) 1.
Definition driver_AQA : Z := Z.lor (Z.shiftl 63 16) 63.
Definition queues_fit {D} (s : shared D) : bool := 64 <=? Z.land (CAP s) 0xFFFF + 1.

Lemma create_cq_valid {D} (s : shared D) p : CC s = driver_CC -> p mod 4096 = 0 -> creates_cq None s (create_cq p) = queues_fit s.
Proof.
  intros Hcc Hp. unfold creates_cq, valid_queue. rewrite Hcc. cbn [create_cq submission prp1]. rewrite Hp.
  change (queue_entries (create_cq p)) with 64. cbn -[Z.land CAP Z.leb]. change (2 <=? 64) with true. unfold queues_fit. by rewrite !andb_true_r.
Qed.

Lemma create_sq_valid {D} (s : shared D) p x : CC s = driver_CC -> p mod 4096 = 0 -> creates_sq (Some x) None s (create_sq p) = queues_fit s.
Proof.
  intros Hcc Hp. unfold creates_sq, valid_queue. rewrite Hcc. cbn [create_sq submission prp1]. rewrite Hp.
  change (queue_entries (create_sq p)) with 64. cbn -[Z.land CAP Z.leb]. change (2 <=? 64) with true. unfold queues_fit. by rewrite !andb_true_r.
Qed.

Section init.
Context {D : Type} `{!Controller D} `{!ControllerLaws D} `{!InitLaws D}.
Context (phys : Z -> Z).
Implicit Types v : nvme D.

(** The admin queue is in use: [k] commands so far, all answered; no I/O queue
    is served yet. *)
Record admin_ok (k : Z) v : Prop := {
  ao_ready : is_ready (sh v) = true;
  ao_idle : io_sq (dev (sh v)) = None;
  ao_count : admin_count (dev (sh v)) = k;
  ao_range : 0 <= k < 63;
  ao_tail : admin_submission_tail v = k;
  ao_head : admin_completion_head v = k;
  ao_aqa : AQA (sh v) = driver_AQA;
  ao_asq : ASQ (sh v) = phys (admin_submit v);
  ao_acq : ACQ (sh v) = phys (admin_complete v);
  ao_doorbell : admin_submit_doorbell v = registers_at (sh v) + doorbells_offset;
  ao_head_doorbell : head_doorbell 0 (sh v) = 0;
  ao_submit : exists sq, pages (sh v) !! phys (admin_submit v) = Some (SQ sq) /\ length sq = 64%nat;
  ao_complete : exists cq, pages (sh v) !! phys (admin_complete v) = Some (CQ cq) /\ 64 <= Z.of_nat (length cq) /\
    forall i, k <= i < 64 -> cq !! Z.to_nat i = Some zero_cqe;
}.

(** What a command on the admin queue leaves as it was. *)
Record admin_frame (k : Z) v (s' : shared D) : Prop := {
  af_kept : registers_kept (sh v) s';
  af_ready : is_ready s' = true;
  af_count : admin_count (dev s') = k + 1;
  af_posted : posted (dev s') = posted (dev (sh v));
  af_fetched : fetched (dev s') = fetched (dev (sh v));
  af_executed : executed (dev s') = executed (dev (sh v));
  af_doorbells : forall i, i <> 0 -> doorbells s' !! i = doorbells (sh v) !! i;
  af_submit : exists sq, pages s' !! phys (admin_submit v) = Some (SQ sq) /\ length sq = 64%nat;
  af_complete : exists cq, pages s' !! phys (admin_complete v) = Some (CQ cq) /\ 64 <= Z.of_nat (length cq) /\
    forall i, k + 1 <= i < 64 -> cq !! Z.to_nat i = Some zero_cqe;
  af_pages : forall p, p <> phys (admin_submit v) -> p <> phys (admin_complete v) -> pages s' !! p = pages (sh v) !! p;
}.

(** The memory and the doorbell once a command has been handed over. *)
Definition announced (k : Z) (cmd : SubmissionEntry) (sq : list SubmissionEntry) v : shared D :=
  ring (admin_submit_doorbell v) (k + 1) (set_page (phys (admin_submit v)) (SQ (<[Z.to_nat k:=cmd]> sq)) (sh v)).

Lemma announced_doorbells k cmd sq v i : admin_ok k v ->
  doorbells (announced k cmd sq v) !! i = if decide (i = 0) then Some (k + 1) else doorbells (sh v) !! i.
Proof.
  intros Hok. cbn [announced ring set_page doorbells registers_at]. rewrite (ao_doorbell _ _ Hok), Z.sub_diag.
  case_decide as E; [subst; apply lookup_insert_eq|by rewrite lookup_insert_ne].
Qed.

(** The controller's part of an admin command. *)
Lemma admin_served k cmd sq cq v :
  admin_ok k v -> opcode cmd = 5 \/ opcode cmd = 1 ->
  pages (sh v) !! phys (admin_submit v) = Some (SQ sq) -> pages (sh v) !! phys (admin_complete v) = Some (CQ cq) ->
  let c := creates_cq (io_cq (dev (sh v))) (sh v) cmd in let q := creates_sq (io_cq (dev (sh v))) None (sh v) cmd in
  let s1 := announced k cmd sq v in
  exists n e, (forall j, (j < n)%nat -> pages (ticks j s1) = pages s1) /\
    pages (ticks n s1) = <[phys (admin_complete v):=CQ (<[Z.to_nat k:=e]> cq)]> (pages s1) /\
    phase_of e = 1 /\ completion_check_success (dword3 e) = c || q /\ admin_frame k v (ticks n s1) /\
    io_cq (dev (ticks n s1)) = (if c then Some (prp1 cmd, queue_entries cmd) else io_cq (dev (sh v))) /\
    io_sq (dev (ticks n s1)) = (if q then Some (prp1 cmd, queue_entries cmd, Z.shiftr (dword11 cmd) 16) else None).
Proof.
  intros Hok Hop Hsp Hcp c q s1. pose proof Hok as [Hrd Hidle Hcnt Hk Ht Hh Haqa Hasq Hacq Hdb Hhd (sq' & Hsp' & Hsl) (cq' & Hcp' & Hcl & Hz)].
  assert (sq' = sq) as -> by congruence. assert (cq' = cq) as -> by congruence. clear Hsp' Hcp'.
  assert (Hpne : phys (admin_submit v) <> phys (admin_complete v)) by congruence.
  assert (Has : asq_size s1 = 64) by (unfold asq_size; cbn [s1 announced ring set_page AQA]; by rewrite Haqa).
  assert (Hac : acq_size s1 = 64) by (unfold acq_size; cbn [s1 announced ring set_page AQA]; by rewrite Haqa).
  assert (Hkm : k mod 64 = k) by (apply Z.mod_small; lia). assert (Hkm1 : (k + 1) mod 64 = k + 1) by (apply Z.mod_small; lia).
  pose proof (stride_pos s1) as Hst. change (admin_count (dev (sh v))) with (admin_count (dev s1)) in Hcnt.
  assert (Hs1 : pages s1 !! phys (admin_submit v) = Some (SQ (<[Z.to_nat k:=cmd]> sq))) by apply lookup_insert_eq.
  assert (Hc1 : pages s1 !! phys (admin_complete v) = Some (CQ cq)) by (cbn; by rewrite lookup_insert_ne).
  change (ASQ (sh v)) with (ASQ s1) in Hasq. change (ACQ (sh v)) with (ACQ s1) in Hacq.
  assert (Hhead : head_doorbell 0 s1 = 0).
  { unfold head_doorbell. rewrite (announced_doorbells k cmd sq v _ Hok), decide_False by lia. exact Hhd. }
  destruct (admin_law s1 (<[Z.to_nat k:=cmd]> sq) cq cmd) as (n & e & Hno & Hyes & Hph & Hst1 & Hkeep & Hrd1 & Hdbs & Hcn1 & Hpo & Hfe & Hex & Hio1 & Hio2);
    rewrite ?Hcnt, ?Has, ?Hac, ?Hkm, ?Hkm1, ?Hasq, ?Hacq, ?Hhead; try done; try lia.
  { apply list_lookup_insert_eq. lia. }
  { unfold tail_doorbell, s1. by rewrite (announced_doorbells k cmd sq v _ Hok). }
  rewrite Hcnt, Hac, Hkm, ?Hacq in *. change (io_sq (dev s1)) with (io_sq (dev (sh v))) in *. rewrite Hidle in *.
  exists n, e. split_and!; try done.
  - rewrite Hph. unfold phase_tag. rewrite Z.div_small by lia. done.
  - split; try done.
    + intros i Hi. rewrite Hdbs. unfold s1. by rewrite (announced_doorbells k cmd sq v _ Hok), decide_False.
    + eexists. split; [rewrite Hyes, lookup_insert_ne by done; exact Hs1|]. by rewrite length_insert.
    + eexists. split; [rewrite Hyes; apply lookup_insert_eq|]. rewrite length_insert. split; [done|].
      intros i Hi. rewrite list_lookup_insert_ne by lia. apply Hz. lia.
    + intros p Hp1 Hp2. rewrite Hyes, lookup_insert_ne by done. cbn. by rewrite lookup_insert_ne.
Qed.

(** One admin command: the controller's answer, or the panic. *)
Lemma admin_command_run k cmd error v :
  admin_ok k v -> opcode cmd = 5 \/ opcode cmd = 1 ->
  let c := creates_cq (io_cq (dev (sh v))) (sh v) cmd in let q := creates_sq (io_cq (dev (sh v))) None (sh v) cmd in
  settles (fun p => admin_command phys p cmd error) v (fun r =>
    if c || q then exists s', r = Ok tt (set_sh s' (set_admin (k + 1) (k + 1) v)) /\ admin_frame k v s' /\
      io_cq (dev s') = (if c then Some (prp1 cmd, queue_entries cmd) else io_cq (dev (sh v))) /\
      io_sq (dev s') = (if q then Some (prp1 cmd, queue_entries cmd, Z.shiftr (dword11 cmd) 16) else None)
    else r = Panic error).
Proof.
  intros Hok Hop c q. pose proof Hok as [_ _ _ Hk Ht Hh _ _ _ _ _ (sq & Hsp & Hsl) (cq & Hcp & Hcl & Hz)].
  destruct (admin_served k cmd sq cq v Hok Hop Hsp Hcp) as (n & e & Hno & Hyes & Hph & Hst & Hfr & Hio1 & Hio2).
  set (s1 := announced k cmd sq v) in *. set (v1 := set_sh s1 (set_admin (k + 1) k v)).
  assert (Hpne : phys (admin_submit v) <> phys (admin_complete v)) by congruence.
  assert (Hc1 : pages s1 !! phys (admin_complete v) = Some (CQ cq)) by (cbn; by rewrite lookup_insert_ne).
  pose (K := e0 ← completion phys (admin_complete v) k;
     if negb (completion_check_success (dword3 e0)) then panic error else modify (set_admin (D:=D) (k + 1) (k + 1))).
  apply (settles_ext _ (fun p => spin p (fun s => negb (bool_decide (phase_at phys (admin_complete v) k s = Some 0)));; K) v v1).
  { intros p. unfold admin_command, on_sh. run_pure. rewrite Ht.
    rewrite (bind_ok _ _ _ _ _ (submit_run phys (admin_submit v) k cmd sq v Hsp ltac:(lia))). run_pure. cbn [admin_completion_head set_sh]. rewrite Hh.
    rewrite (u32_small (k + 1)) by lia. reflexivity. }
  eapply (settles_bind _ (fun _ _ => K)); [apply (settles_spin n _ v1)|].
  { intros j Hj. unfold phase_at. change (sh v1) with s1. rewrite (completion_at_page phys _ _ cq), Hz by (lia || by rewrite Hno).
    by rewrite bool_decide_eq_true_2. }
  { unfold phase_at. change (sh v1) with s1. rewrite (completion_at_page phys _ _ (<[Z.to_nat k:=e]> cq)) by (rewrite Hyes; apply lookup_insert_eq).
    rewrite list_lookup_insert_eq by lia. cbn. rewrite Hph. by rewrite bool_decide_eq_false_2. }
  set (v2 := set_sh (ticks n (sh v1)) v1).
  assert (He : completion phys (admin_complete v) k v2 = Ok e v2).
  { apply (completion_run phys _ _ (<[Z.to_nat k:=e]> cq)); [|by apply list_lookup_insert_eq; lia].
    change (sh v2) with (ticks n s1). rewrite Hyes. apply lookup_insert_eq. }
  eapply settles_now; [intros p; unfold K; rewrite (bind_ok _ _ _ _ _ He); reflexivity|]. rewrite Hst. fold c q.
  destruct (c || q); cbn [negb]; [|done]. exists (ticks n s1). split_and!; done.
Qed.

(** Steps that do not wait. *)
Ltac now_step := eapply settles_bind; [eapply settles_now; [intros p; reflexivity|reflexivity]|]; cbn beta.

Section boot.
Context (kcalloc_page : M (nvme D) Z) (out_of_memory : string).
(** mem/kmalloc.c: a page that is not in use, or the panic of mem/pmm.c *)
Hypothesis kcalloc_page_law : forall w : nvme D,
  (exists p, kcalloc_page w = Ok p w /\ pages (sh w) !! phys p = None /\ phys p mod 4096 = 0) \/ kcalloc_page w = Panic out_of_memory.

(** The two outcomes of a program that takes a page. *)
Lemma settles_page {B} q (k : nat -> Z -> M (nvme D) B) v (Q : outcome (nvme D) B -> Prop) :
  (forall p, pages (sh v) !! phys p = None -> phys p mod 4096 = 0 ->
     settles (fun n => k n p) (set_sh (set_page (phys p) q (sh v)) v) Q) ->
  ((exists w, kcalloc_page w = Panic out_of_memory) -> Q (Panic out_of_memory)) ->
  settles (fun n => new_queue kcalloc_page phys q ≫= k n) v Q.
Proof.
  intros HQ Hoom. destruct (kcalloc_page_law v) as [(p & Hp & Hf & Ha)|Hp].
  - eapply settles_bind; [eapply settles_now; [intros n; unfold new_queue; rewrite (bind_ok _ _ _ _ _ Hp); reflexivity|reflexivity]|]. by apply HQ.
  - eapply settles_panic; [eapply settles_now; [intros n; unfold new_queue; exact (bind_panic _ _ _ _ Hp)|reflexivity]|]. apply Hoom. by exists v.
Qed.

(** How the set-up can end. *)
Definition init_outcome (supported fit : bool) (r : outcome (nvme D) unit) : Prop :=
  (r = Panic out_of_memory /\ exists w, kcalloc_page w = Panic out_of_memory) \/
  if supported then
    if fit then exists v', r = Ok tt v' /\ nvme_ok phys v' /\ posted (dev (sh v')) = 0 /\ executed (dev (sh v')) = []
    else r = Panic "nvme: failure when creating IO completion queue!"
  else r = Panic "nvme: controller does not support nvm command set!".

Lemma admin_ok_frame k v s' : admin_ok k v -> k + 1 < 63 -> admin_frame k v s' -> io_sq (dev s') = None ->
  admin_ok (k + 1) (set_sh s' (set_admin (k + 1) (k + 1) v)).
Proof.
  intros [Hrd Hidle Hcnt Hk Ht Hh Haqa Hasq Hacq Hdb Hhd _ _] Hk1 [(H1 & H2 & H3 & H4 & H5 & H6) Hrd' Hc _ _ _ Hds Hs Hcq _] Hio.
  pose proof (stride_pos s') as Hst. split; cbn [sh set_sh set_admin admin_submission_tail admin_completion_head admin_submit admin_complete admin_submit_doorbell]; try done; try lia; try congruence.
  unfold head_doorbell in *. rewrite Hds by lia. replace (stride s') with (stride (sh v)) by (unfold stride; by rewrite H1). exact Hhd.
Qed.

Lemma admin_ok_page k v p q : admin_ok k v -> pages (sh v) !! phys p = None -> admin_ok k (set_sh (set_page (phys p) q (sh v)) v).
Proof.
  intros [Hrd Hidle Hcnt Hk Ht Hh Haqa Hasq Hacq Hdb Hhd (sq & Hs & Hsl) (cq & Hcq & Hcl)] Hp. split; try done.
  - exists sq. split; [|done]. cbn. rewrite lookup_insert_ne by congruence. done.
  - exists cq. split; [|done]. cbn. rewrite lookup_insert_ne by congruence. done.
Qed.

(** Enabled and without I/O queues, the doorbell pointers in place. *)
Record enabled_ok v : Prop := {
  en_admin : admin_ok 0 v;
  en_cc : CC (sh v) = driver_CC;
  en_cq : io_cq (dev (sh v)) = None;
  en_posted : posted (dev (sh v)) = 0;
  en_fetched : fetched (dev (sh v)) = 0;
  en_executed : executed (dev (sh v)) = [];
  en_doorbells : doorbells (sh v) = ∅;
  en_tail_at : io_submit_doorbell v - (registers_at (sh v) + doorbells_offset) = 2 * stride (sh v);
  en_head_at : io_complete_doorbell v - (registers_at (sh v) + doorbells_offset) = 3 * stride (sh v);
}.

(** The second half: the completion queue exists, at [iocomp]. *)
Lemma create_sq_run v :
  admin_ok 1 v -> CC (sh v) = driver_CC -> queues_fit (sh v) = true -> io_cq (dev (sh v)) = Some (phys (io_complete v), 64) ->
  pages (sh v) !! phys (io_complete v) = Some (CQ empty_cq) ->
  phys (io_complete v) <> phys (admin_complete v) ->
  posted (dev (sh v)) = 0 -> fetched (dev (sh v)) = 0 -> executed (dev (sh v)) = [] -> (forall i, i <> 0 -> doorbells (sh v) !! i = None) ->
  io_submit_doorbell v - (registers_at (sh v) + doorbells_offset) = 2 * stride (sh v) ->
  io_complete_doorbell v - (registers_at (sh v) + doorbells_offset) = 3 * stride (sh v) ->
  settles (fun p =>
    iosub ← new_queue kcalloc_page phys (SQ empty_sq);
    modify (fun v => set_io_queues iosub (io_complete v) v);;
    admin_command phys p (create_sq (phys iosub)) "nvme: failure when creating IO submission queue!";;
    modify (set_io 0 0)) v (init_outcome true true).
Proof.
  intros Hok Hcc Hfit Hcq Hcp Hne Hpo Hfe Hex Hds Hta Hha. apply settles_page; [|by intros Hw; left]. intros ps Hfree Hal. now_step.
  set (v1 := set_io_queues ps (io_complete v) (set_sh (set_page (phys ps) (SQ empty_sq) (sh v)) v)).
  assert (Hok1 : admin_ok 1 v1) by (destruct (admin_ok_page 1 v ps (SQ empty_sq) Hok Hfree); by split).
  assert (Hres := admin_command_run 1 (create_sq (phys ps)) "nvme: failure when creating IO submission queue!" v1 Hok1 (or_intror eq_refl)).
  change (io_cq (dev (sh v1))) with (io_cq (dev (sh v))) in Hres. rewrite Hcq in Hres. cbn zeta in Hres. rewrite create_sq_valid in Hres by done.
  change (queues_fit (sh v1)) with (queues_fit (sh v)) in Hres. rewrite Hfit, orb_true_r in Hres.
  destruct Hres as (n & r & Hr & s' & -> & Hfr & Hio1 & Hio2).
  eapply settles_bind; [by eexists n, _|]. cbn beta. eapply settles_now; [intros p; reflexivity|]. right. eexists. split; [reflexivity|].
  destruct Hfr as [(Kcap & Kcc & _ & _ & _ & Kra) Hrd Hcnt Kpo Kfe Kex Kds _ _ Kpg].
  assert (Hst : stride s' = stride (sh v)) by (unfold stride; by rewrite Kcap).
  pose proof (stride_pos (sh v)) as Hpos. change (registers_at (sh v1)) with (registers_at (sh v)) in Kra.
  destruct Hok as [_ _ _ _ _ _ _ _ _ _ _ (sq & Hasq & _) (cq & Hacq & _)].
  change (admin_submit v1) with (admin_submit v) in Kpg. change (admin_complete v1) with (admin_complete v) in Kpg.
  assert (Hpc : pages s' !! phys (io_complete v) = Some (CQ empty_cq)).
  { rewrite Kpg by congruence. cbn. by rewrite lookup_insert_ne by congruence. }
  assert (Hps : pages s' !! phys ps = Some (SQ empty_sq)).
  { rewrite Kpg by congruence. cbn. by rewrite lookup_insert_eq. }
  split_and!; [|cbn; by rewrite Kpo|cbn; by rewrite Kex].
  split; cbn [sh set_io set_sh set_admin v1 io_submission_tail io_completion_head io_complete io_submit set_io_queues]; rewrite ?Kpo, ?Kfe; cbn [sh v1 set_sh set_page dev set_io_queues]; rewrite ?Hpo, ?Hfe; try done.
  - change (io_submit_doorbell v - (registers_at s' + doorbells_offset) = 2 * stride s'). by rewrite Kra, Hst.
  - change (io_complete_doorbell v - (registers_at s' + doorbells_offset) = 3 * stride s'). by rewrite Kra, Hst.
  - change (head_doorbell 1 s' = 0). unfold head_doorbell. rewrite Hst, Kds by lia. change (doorbells (sh v1)) with (doorbells (sh v)). by rewrite Hds by lia.
  - by exists empty_sq.
  - exists empty_cq. split; [exact Hpc|apply empty_phases].
Qed.

(** Both queues: the commands, the zeroed pages and the driver's variables. *)
Lemma create_queues_run v : enabled_ok v ->
  settles (fun p =>
    iocomp ← new_queue kcalloc_page phys (CQ empty_cq);
    modify (fun v => set_io_queues (io_submit v) iocomp v);;
    admin_command phys p (create_cq (phys iocomp)) "nvme: failure when creating IO completion queue!";;
    iosub ← new_queue kcalloc_page phys (SQ empty_sq);
    modify (fun v => set_io_queues iosub (io_complete v) v);;
    admin_command phys p (create_sq (phys iosub)) "nvme: failure when creating IO submission queue!";;
    modify (set_io 0 0)) v (init_outcome true (queues_fit (sh v))).
Proof.
  intros [Hok Hcc Hcq Hpo Hfe Hex Hds Hta Hha]. apply settles_page; [|by intros Hw; left]. intros pc Hfree Hal. now_step.
  set (v1 := set_io_queues (io_submit v) pc (set_sh (set_page (phys pc) (CQ empty_cq) (sh v)) v)).
  assert (Hok1 : admin_ok 0 v1) by (destruct (admin_ok_page 0 v pc (CQ empty_cq) Hok Hfree); by split).
  assert (Hres := admin_command_run 0 (create_cq (phys pc)) "nvme: failure when creating IO completion queue!" v1 Hok1 (or_introl eq_refl)).
  change (io_cq (dev (sh v1))) with (io_cq (dev (sh v))) in Hres. rewrite Hcq in Hres. cbn zeta in Hres. rewrite create_cq_valid in Hres by done.
  change (queues_fit (sh v1)) with (queues_fit (sh v)) in Hres. change (creates_sq None None (sh v1) (create_cq (phys pc))) with false in Hres. rewrite orb_false_r in Hres.
  destruct (queues_fit (sh v)) eqn:Hfit; [|eapply settles_panic; [exact Hres|by right]].
  destruct Hres as (n & r & Hr & s' & -> & Hfr & Hio1 & Hio2). eapply settles_bind; [by eexists n, _|]. cbn beta.
  pose proof (admin_ok_frame 0 v1 s' Hok1 ltac:(lia) Hfr Hio2) as Hok2. change (0 + 1) with 1 in Hok2 |- *.
  destruct Hfr as [(Kcap & Kcc & _ & _ & _ & Kra) Hrd Hcnt Kpo Kfe Kex Kds _ _ Kpg].
  assert (Hst : stride s' = stride (sh v)) by (unfold stride; by rewrite Kcap).
  destruct Hok as [_ _ _ _ _ _ _ _ _ _ _ (sq & Hasq & _) (cq & Hacq & _)].
  change (admin_submit v1) with (admin_submit v) in Kpg. change (admin_complete v1) with (admin_complete v) in Kpg.
  apply create_sq_run; cbn [sh set_sh set_admin io_complete io_submit_doorbell io_complete_doorbell admin_complete v1 set_io_queues]; rewrite ?Kcc, ?Kpo, ?Kfe, ?Kex, ?Kra, ?Hst; try done.
  - unfold queues_fit in *. by rewrite Kcap.
  - rewrite Kpg by congruence. cbn. by rewrite lookup_insert_eq.
  - congruence.
  - intros i Hi. rewrite Kds by done. cbn. by rewrite Hds.
Qed.

(** The doorbell pointers that the driver computes. *)
Lemma doorbell_pointer r m (s : shared D) : 0 <= r -> r + 2 ^ 20 <= W64 -> 0 <= m <= 3 ->
  r +64 doorbells_offset +64 (m *32 u32 (Z.shiftl 4 (Z.land (Z.shiftr (CAP s) 32) 0xF))) - (r + doorbells_offset) = m * stride s.
Proof.
  intros Hr0 Hr1 Hm. fold (stride s). pose proof (stride_pos s) as Hst. change (2 ^ 18) with 262144 in Hst. change (2 ^ 20) with 1048576 in Hr1.
  unfold doorbells_offset. change 0x1000 with 4096.
  rewrite (u32_small (stride s)), (u32_small (m * stride s)), (u64_small (r + 4096)), u64_small by nia. lia.
Qed.

(** C17. Starting the driver.  Against every controller that follows the
    specification ([ControllerLaws], [InitLaws]: it looks for the admin queues
    where ASQ, ACQ and AQA say, for the I/O queues where the commands that create
    them say, and for the doorbells at the stride of its capabilities) and with
    pages of memory that are not in use, [nvme_init] on the address of the
    registers ends, if each waiting loop may look often enough.  If the
    controller has the NVM command set and supports queues of 64 entries, driver
    and controller then agree on empty queues and on the doorbells, the state from
    which commands complete; otherwise the driver panics with the message that
    says what is wrong.  The only other outcome is the panic of a page that
    cannot be had.  The doorbells lie below the end of the address space. *)
Theorem nvme_init_ready v :
  0 <= registers_at (sh v) -> registers_at (sh v) + 2 ^ 20 <= W64 ->
  settles (fun p => nvme_init kcalloc_page phys p (registers_at (sh v))) v
    (init_outcome (Z.testbit (CAP (sh v)) 37) (queues_fit (sh v))).
Proof.
  intros Hr0 Hr1. unfold nvme_init. now_step. set (v1 := set_sh (set_CC 0 (sh v)) v).
  destruct (disable_law (sh v1)) as (n & Hno & Hyes & (Kcap & Kcc & _ & _ & _ & Kra) & Kpg); [done|].
  eapply settles_bind; [apply (settles_spin n _ v1)|].
  { intros j Hj. rewrite land1. fold (rdy (ticks j (sh v1))). by rewrite Hno. }
  { rewrite land1. fold (rdy (ticks n (sh v1))). by rewrite Hyes. }
  cbn beta. set (v2 := set_sh (ticks n (sh v1)) v1). now_step. rewrite command_set_bit. cbn [sh set_sh v2]. rewrite Kcap.
  change (CAP (sh v1)) with (CAP (sh v)). destruct (Z.testbit (CAP (sh v)) 37) eqn:Ecap; cbn [negb]; [|by eapply settles_now; [|right]].
  now_step. match goal with |- settles _ ?w _ => set (v3 := w) end.
  apply settles_page; [|by intros Hw; left]. intros pa Hfa _. apply settles_page; [|by intros Hw; left]. intros pb Hfb _.
  assert (Hab : phys pb <> phys pa) by (intros E; rewrite E in Hfb; cbn in Hfb; by rewrite lookup_insert_eq in Hfb).
  now_step. now_step. now_step. match goal with |- settles _ ?w _ => set (v5 := w) end.
  destruct (enable_law (sh v5)) as (m & Hno5 & Hyes5 & (Lcap & Lcc & Laqa & Lasq & Lacq & Lra) & Lpg & Ldb & Lcnt & Lpo & Lfe & Lex & Lcq & Lsq).
  { reflexivity. }
  { exact Hyes. }
  eapply settles_bind; [apply (settles_spin m _ v5)|].
  { intros j Hj. rewrite land1. fold (rdy (ticks j (sh v5))). by rewrite Hno5. }
  { rewrite land1. fold (rdy (ticks m (sh v5))). by rewrite Hyes5. }
  cbn beta. now_step. now_step. now_step. match goal with |- settles _ ?w _ => set (v6 := w) end.
  assert (Hra6 : registers_at (sh v6) = registers_at (sh v)) by (change (registers_at (sh v6)) with (registers_at (ticks m (sh v5))); rewrite Lra; exact Kra).
  assert (Hfit : queues_fit (sh v6) = queues_fit (sh v)).
  { unfold queues_fit. change (CAP (sh v6)) with (CAP (ticks m (sh v5))). rewrite Lcap. change (CAP (sh v5)) with (CAP (ticks n (sh v1))). by rewrite Kcap. }
  rewrite <- Hfit. apply (create_queues_run v6). split; try done.
  - change (sh v6) with (ticks m (sh v5)) in *. split; try done.
    + change (is_ready (ticks m (sh v5)) = true). unfold is_ready. rewrite Hyes5, andb_true_r. unfold enabled. rewrite Lcc. reflexivity.
    + change (sh v6) with (ticks m (sh v5)). change (admin_submit_doorbell v6) with (registers_at (sh v) +64 doorbells_offset).
      rewrite Hra6. apply u64_small. unfold doorbells_offset. lia.
    + change (sh v6) with (ticks m (sh v5)). unfold head_doorbell. by rewrite Ldb.
    + exists empty_sq. split; [|done]. change (pages (ticks m (sh v5)) !! phys pa = Some (SQ empty_sq)). rewrite Lpg.
      change (<[phys pb:=CQ empty_cq]> (<[phys pa:=SQ empty_sq]> (pages (sh v3))) !! phys pa = Some (SQ empty_sq)).
      rewrite lookup_insert_ne by done. apply lookup_insert_eq.
    + exists empty_cq. split; [|split; [vm_compute; discriminate|]].
      * change (pages (ticks m (sh v5)) !! phys pb = Some (CQ empty_cq)). rewrite Lpg.
        change (<[phys pb:=CQ empty_cq]> (<[phys pa:=SQ empty_sq]> (pages (sh v3))) !! phys pb = Some (CQ empty_cq)). apply lookup_insert_eq.
      * intros i Hi. apply lookup_replicate_2. lia.
  - rewrite Hra6. by apply (doorbell_pointer _ 2 (sh v6)).
  - rewrite Hra6. by apply (doorbell_pointer _ 3 (sh v6)).
Qed.

End boot.
End init.

(** ** The controller of file NvmeProps satisfies the laws *)

#[export] Program Instance chip_init_laws : InitLaws chip := {| admin_count := c_admin |}.
Next Obligation.
  intros s Hen. destruct (rdy s) eqn:Hr.
  - exists 1%nat. change (ticks 1 s) with (chip_tick s). unfold chip_tick. rewrite Hen, Hr.
    split; [intros j Hj; by replace j with 0%nat by lia|done].
  - exists 0%nat. split_and!; try done. intros j Hj. lia.
Qed.
Next Obligation.
  intros s Hen Hr. exists 1%nat. change (ticks 1 s) with (chip_tick s). unfold chip_tick. rewrite Hen, Hr.
  split; [intros j Hj; by replace j with 0%nat by lia|done].
Qed.
Next Obligation.
  intros s sq cq cmd k Hrd Hidle Hk _ _ Hps Hcmd Hpc _ Htail Hhead _ c q. pose proof Hrd as Hrd'. apply andb_prop in Hrd' as [Hen Hr].
  assert (Ht : ticks 1 s = default s (serve_admin s)).
  { change (ticks 1 s) with (chip_tick s). unfold chip_tick, serve_io. cbn in Hidle. rewrite Hen, Hr, Hidle. by destruct (c_cq (dev s)) as [[]|]. }
  exists 1%nat, (answer (if c || q then 0 else 1) (phase_tag (acq_size s) k)).
  rewrite Ht. unfold serve_admin, cq_at, sq_at. rewrite Hps, Hpc. cbn. change (c_admin (dev s)) with k. rewrite Hcmd. cbn.
  rewrite bool_decide_eq_true_2 by done. cbn.
  split; [intros j Hj; by replace j with 0%nat by lia|]. split_and!; try done; [apply answer_phase|].
  unfold phase_tag. destruct (c || q), (Z.even (k / acq_size s)); reflexivity.
Qed.

(** A controller as the firmware leaves it: enabled, with commands done, and
    queues of up to [mqes] + 1 entries. *)
Definition used_chip (mqes : Z) : nvme chip :=
  Nvme (Shared (2 ^ 37 + mqes) 1 1 0 0 0 {[ 0 := 5; 8 := 9 ]} 0xFFFFE00000000000 ∅ (Chip 200 200 [] (Some (0x7000, 16)) (Some (0x6000, 16, 1)) 5 0))
    0 0 0 0 0 0 0 0 0 0 0.

(** Pages that are not in use: the first page number that is not in the map. *)
Definition fresh_page : M (nvme chip) Z := fun w =>
  Ok (4096 * Z.of_N (fresh (set_map (C:=gset Z) (D:=gset N) (fun a => Z.to_N (a / 4096)) (dom (pages (sh w)))))) w.

Lemma fresh_page_law (w : nvme chip) : (exists p, fresh_page w = Ok p w /\ pages (sh w) !! p = None /\ p mod 4096 = 0) \/ fresh_page w = Panic "pmm: out of memory!".
Proof.
  left. eexists. split; [reflexivity|]. set (X := set_map _ _). split; [|by rewrite Z.mul_comm, Z.mod_mul].
  apply not_elem_of_dom. intros Hin. apply (is_fresh X). apply elem_of_map. eexists. split; [|exact Hin].
  rewrite Z.mul_comm, Z.div_mul by lia. by rewrite N2Z.id.
Qed.

Lemma nvme_init_ready_witness :
  settles (fun p => nvme_init fresh_page (fun a => a) p 0xFFFFE00000000000) (used_chip 2047)
    (init_outcome (fun a => a) fresh_page "pmm: out of memory!" true true) /\
  settles (fun p => nvme_init fresh_page (fun a => a) p 0xFFFFE00000000000) (used_chip 31)
    (init_outcome (fun a => a) fresh_page "pmm: out of memory!" true false).
Proof.
  split.
  - exact (nvme_init_ready (fun a => a) fresh_page "pmm: out of memory!" fresh_page_law (used_chip 2047) ltac:(vm_compute; discriminate) ltac:(vm_compute; discriminate)).
  - exact (nvme_init_ready (fun a => a) fresh_page "pmm: out of memory!" fresh_page_law (used_chip 31) ltac:(vm_compute; discriminate) ltac:(vm_compute; discriminate)).
Defined.

End NvmeInit.
