(* ===== verification/Elf.v ===== *)
(** * proc/elf.c: loading a program

    The loader opens a file, reads it into a buffer of the heap, checks the ELF
    header, maps pages for every loadable segment and for the stack, and copies
    the segments to their addresses.  Beside the heap and the disk it uses
    three more services of the memory managers ([ProcIface]); the bytes of the
    program are written through its virtual addresses with the same loads and
    stores as those of the heap.  The dumps of memory to the log are left out. *)

From S2P Require Import Prelude KMath KHeap Disk Fat32.
Import KMath KHeap Disk Fat32.

Module Elf.

(** proc/proc.h *)
Definition STACK_SIZE : Z := 0x800000.
Definition LOWER_HALF_MEM_MAX : Z := 0x800000000000.
(** util/const.h *)
Definition PAGE_SIZE : Z := 4096.

(** proc/elf.h *)
Record ELFContext := Ctx {
  file_buffer : Z;
  proc_stack_pages : Z;
  segments : Z;
  entry_point : Z;
  rbp_rsp : Z;
  stack_size : Z;
}.
Definition no_ctx : ELFContext := Ctx 0 0 0 0 0 0.

(** mem/vmalloc.c, mem/pmm.c and mem/page.c *)
Class ProcIface (S : Type) := {
  vmalloc : Z -> M S Z;
  pmm_alloc_high : M S Z;
  page_map : Z -> Z -> bool -> M S unit;
}.

Section elf.
Context {S : Type} `{!HeapIface S} `{!DiskIface S} `{!ProcIface S}.
Notation F := (M (fat S)).

(** A field of a structure. *)
Definition fld (n : nat) (a : Z) : F Z := on_env (ld n a).

(** the loop that counts the loadable segments *)
Fixpoint count_segments (n : nat) (i ph num : Z) : F Z :=
  match n with
  | O => mret num
  | Datatypes.S n' =>
    p_type ← fld 4 (ph + 56 * i);
    count_segments n' (i + 1) ph (if p_type =? 1 then num +64 1 else num)
  end.

(** [segment_pages[j] = pmm_alloc_high(); page_map(...)] for all pages *)
Fixpoint map_pages (n : nat) (j virt_addr pages : Z) : F unit :=
  match n with
  | O => mret tt
  | Datatypes.S n' =>
    frame ← on_env pmm_alloc_high;
    on_env (st 8 (pages +64 (j *64 8)) frame);;
    frame ← fld 8 (pages +64 (j *64 8));
    on_env (page_map (virt_addr +64 (j *64 PAGE_SIZE)) frame false);;
    map_pages n' (j + 1) virt_addr pages
  end.

(** util/misc.c, through virtual addresses *)
Fixpoint copy_to (n : nat) (i dest src : Z) : F unit :=
  match n with
  | O => mret tt
  | Datatypes.S n' =>
    v ← on_env (hp_rd (src +64 i));
    on_env (hp_wr (dest +64 i) v);;
    copy_to n' (i + 1) dest src
  end.
Fixpoint fill_to (n : nat) (i dest val : Z) : F unit :=
  match n with
  | O => mret tt
  | Datatypes.S n' => on_env (hp_wr (dest +64 i) val);; fill_to n' (i + 1) dest val
  end.

(** the body of the loading loop for one segment *)
Definition load_segment (h buffer segs valid_index : Z) : F unit :=
  file_offset ← fld 8 (h + 8);
  virt_addr ← fld 8 (h + 16);
  file_size ← fld 8 (h + 32);
  memory_size ← fld 8 (h + 40);
  segment_num_pages ← lift_opt (ceil_u64_div memory_size PAGE_SIZE);
  segment_pages ← on_env (vmalloc (segment_num_pages *64 8));
  map_pages (Z.to_nat segment_num_pages) 0 virt_addr segment_pages;;
  copy_to (Z.to_nat file_size) 0 virt_addr (buffer +64 file_offset);;
  fill_to (Z.to_nat (memory_size -64 file_size)) 0 (virt_addr +64 file_size) 0;;
  let s := segs + 24 * valid_index in
  on_env (st 8 s virt_addr);;
  on_env (st 8 (s + 8) segment_num_pages);;
  on_env (st 8 (s + 16) segment_pages).

(** the loading loop *)
Fixpoint load_segments (n : nat) (i ph buffer segs valid_index : Z) : F unit :=
  match n with
  | O => mret tt
  | Datatypes.S n' =>
    let h := ph + 56 * i in
    p_type ← fld 4 h;
    if negb (p_type =? 1) then load_segments n' (i + 1) ph buffer segs valid_index else
    load_segment h buffer segs valid_index;;
    load_segments n' (i + 1) ph buffer segs (u16 (valid_index + 1))
  end.

(** The checks of the ELF header, with the early exits of the source. *)
Definition check_header (header : Z) : F bool :=
  i0 ← fld 1 header;
  i1 ← fld 1 (header + 1);
  i2 ← fld 1 (header + 2);
  i3 ← fld 1 (header + 3);
  if negb (i0 =? 0x7F) || negb (i1 =? 69) || negb (i2 =? 76) || negb (i3 =? 70) then mret false else
  i4 ← fld 1 (header + 4);
  if negb (i4 =? 2) then mret false else
  i5 ← fld 1 (header + 5);
  if negb (i5 =? 1) then mret false else
  i6 ← fld 1 (header + 6);
  if negb (i6 =? 1) then mret false else
  e_type ← fld 2 (header + 16);
  if negb (e_type =? 2) then mret false else
  e_machine ← fld 2 (header + 18);
  if negb (e_machine =? 0x3E) then mret false else
  e_version ← fld 4 (header + 20);
  if negb (e_version =? 1) then mret false else
  e_ehsize ← fld 2 (header + 52);
  if negb (e_ehsize =? 64) then mret false else mret true.

(** From the program headers on: segments, stack, and the context. *)
Definition load_program (header : Z) : F ELFContext :=
  entry ← fld 8 (header + 24);
  ph_start ← fld 8 (header + 32);
  ph_entry_count ← fld 2 (header + 56);
  let ph := header +64 ph_start in
  num_valid_segments ← count_segments (Z.to_nat ph_entry_count) 0 ph 0;
  segs ← on_env (hp_calloc (num_valid_segments *64 24));
  load_segments (Z.to_nat ph_entry_count) 0 ph header segs 0;;
  let stack_num_pages := STACK_SIZE / PAGE_SIZE in
  stack_pages ← on_env (vmalloc (stack_num_pages *64 8));
  let stack_low := LOWER_HALF_MEM_MAX - STACK_SIZE in
  map_pages (Z.to_nat stack_num_pages) 0 stack_low stack_pages;;
  mret (Ctx header stack_pages segs entry LOWER_HALF_MEM_MAX STACK_SIZE).

Definition elf_load (name ext : list Z) : F ELFContext :=
  file_data ← fat32_open name ext;
  if or_cluster file_data =? 0 then mret no_ctx else
  header ← on_env (hp_calloc (size_or_error file_data *32 512));
  fat32_read (or_cluster file_data) (size_or_error file_data) header;;
  ok ← check_header header;
  if negb ok then on_env (hp_free header);; mret no_ctx else
  load_program header.

End elf.

End Elf.
