(* ===== verification/ElfProps.v ===== *)
(** * What the program loader leaves in memory *)

From S2P Require Import Prelude KMath KHeap Disk Fat32 Fat32Lemmas Fat32New Fat32Props Elf.
Import KMath KHeap Disk Fat32 Fat32Lemmas Fat32New Fat32Props Elf.

Module ElfProps.

(** What the loader relies on: [ubyte s a] is the byte at the address [a] of
    the lower half, if its page is mapped; [fresh s f] says that the frame [f]
    has been allocated and is not mapped yet.  Mapping a fresh frame makes the
    bytes of its page accessible and changes no other; stores to mapped bytes
    and to the heap do not interfere. *)
Class ProcLaws (S : Type) `{!HeapIface S} `{!HeapLaws S} `{!ProcIface S} := {
  ubyte : S -> Z -> option Z;
  fresh : S -> Z -> Prop;
  vmalloc_law : forall n s, 0 < n < 2 ^ 40 ->
    match vmalloc n s with
    | Ok p s' => 0 < p /\ p + n < W64 /\ (exists l, length l = Z.to_nat n /\ owns s' p l) /\
        (forall q l, owns s q l -> q <> p /\ owns s' q l) /\ forall a, ubyte s' a = ubyte s a
    | Panic _ => True
    | _ => False
    end;
  alloc_high_law : forall s,
    match pmm_alloc_high s with
    | Ok f s' => 0 <= f < W64 /\ fresh s' f /\ (forall q l, owns s q l -> owns s' q l) /\ forall a, ubyte s' a = ubyte s a
    | Panic _ => True
    | _ => False
    end;
  map_law : forall s v f, 0 <= v < LOWER_HALF_MEM_MAX -> fresh s f ->
    match page_map v f false s with
    | Ok _ s' => (forall a, a / 4096 = v / 4096 -> is_Some (ubyte s' a)) /\
        (forall a, a / 4096 <> v / 4096 -> ubyte s' a = ubyte s a) /\ forall q l, owns s q l -> owns s' q l
    | Panic _ => True
    | _ => False
    end;
  user_wr_law : forall s a v, is_Some (ubyte s a) ->
    exists s', hp_wr a v s = Ok tt s' /\ ubyte s' a = Some (u8 v) /\ (forall b, b <> a -> ubyte s' b = ubyte s b) /\
      forall q l, owns s q l -> owns s' q l;
  heap_wr_law : forall s p l i v s', owns s p l -> (i < length l)%nat -> hp_wr (p + Z.of_nat i) v s = Ok tt s' ->
    (forall a, ubyte s' a = ubyte s a) /\ forall f, fresh s f -> fresh s' f;
  calloc_user_law : forall n s p s', hp_calloc n s = Ok p s' -> forall a, ubyte s' a = ubyte s a;
}.

(** ** Segments *)










Section props.
Context {S : Type} `{!HeapIface S} `{!HeapLaws S} `{!DiskIface S} `{!DiskLaws S} `{!ProcIface S} `{!ProcLaws S}.
Notation F := (M (fat S)).
Implicit Types f : fat S.











(** ** The loops *)







(** ** Segments *)



Section load.
Context (img : list Z) (buf segs num : Z).
Context (Hbytes : Forall (fun c => 0 <= c < 256) img).
Context (Hbuf : 0 < buf) (Hbufw : buf + Z.of_nat (length img) < W64) (Hnum : 0 <= num < 65536).
Context (Hsegs : 0 < segs) (Hsegsw : segs + 24 * num < W64).





End load.









End props.

(** ** A machine for the witness

    The disk and heap of file Disk, whose blocks lie in the upper half from the
    64th slot on, and a map from the pages of the lower half to their bytes. *)

Abbreviation pmachine := (ramdisk * (Z * gmap Z (list Z)))%type.

Definition on_ram {A} (c : M ramdisk A) : M pmachine A := fun '(r, u) =>
  match c r with
  | Ok a r' => Ok a (r', u)
  | Panic msg => Panic msg
  | Fault => Fault
  | OutOfFuel => OutOfFuel
  end.

(** The bytes of a page that has just been mapped. *)
Definition new_page : list Z := replicate 4096 0xAA.

Definition user_byte (u : gmap Z (list Z)) (a : Z) : option Z :=
  if (0 <=? a) && (a <? LOWER_HALF_MEM_MAX) then u !! (a / 4096) ≫= lookup (Z.to_nat (a mod 4096)) else None.

Definition high_calloc (n : Z) : M pmachine Z := fun s =>
  if 64 <=? s.1.1.1 then on_ram (hp_calloc n) s else Panic "vmm: out of memory!".

#[export] Instance pm_heap : HeapIface pmachine := {
  hp_calloc := high_calloc;
  hp_free p := on_ram (hp_free p);
  hp_rd a := fun s => if a <? LOWER_HALF_MEM_MAX then
      match user_byte s.2.2 a with Some v => Ok v s | None => Fault end else on_ram (hp_rd a) s;
  hp_wr a v := fun s => if a <? LOWER_HALF_MEM_MAX then
      match user_byte s.2.2 a with
      | Some _ => Ok tt (s.1, (s.2.1, alter (fun pg => <[Z.to_nat (a mod 4096):=u8 v]> pg) (a / 4096) s.2.2))
      | None => Fault
      end else on_ram (hp_wr a v) s;
}.

#[export] Instance pm_disk : DiskIface pmachine := {
  nvme_read lba n addr := on_ram (nvme_read lba n addr);
  nvme_write lba n addr := on_ram (nvme_write lba n addr);
}.

#[export] Instance pm_proc : ProcIface pmachine := {
  vmalloc := high_calloc;
  pmm_alloc_high := fun s => Ok (s.2.1 mod 2 ^ 40 * 4096) (s.1, (s.2.1 + 1, s.2.2));
  page_map v f k := fun s => Ok tt (s.1, (s.2.1, <[v / 4096:=new_page]> s.2.2));
}.

Definition pm_owns (s : pmachine) (p : Z) (l : list Z) : Prop := LOWER_HALF_MEM_MAX <= p /\ owns s.1 p l.

Lemma high_addr p i : LOWER_HALF_MEM_MAX <= p -> (p + Z.of_nat i <? LOWER_HALF_MEM_MAX) = false.
Proof. intros Hp. apply Z.ltb_ge. lia. Qed.

Lemma on_ram_ok {A} (c : M ramdisk A) r u a r' : c r = Ok a r' -> on_ram c (r, u) = Ok a (r', u).
Proof. unfold on_ram. by intros ->. Qed.

Lemma high_calloc_law n s : 0 < n < 2 ^ 40 ->
  match high_calloc n s with
  | Ok p s' => 0 < p /\ p + n < W64 /\ pm_owns s' p (replicate (Z.to_nat n) 0) /\
      (forall q l, pm_owns s q l -> q <> p /\ pm_owns s' q l) /\ s'.2 = s.2
  | Panic _ => True
  | _ => False
  end.
Proof.
  intros Hn. destruct s as [[[next m] d] u]. unfold high_calloc. cbn [fst snd]. destruct (Z.leb_spec 64 next) as [H64|]; [|done].
  pose proof (calloc_law n ((next, m), d) Hn) as H. unfold on_ram. destruct (hp_calloc n (next, m, d)) as [p r'|msg| |] eqn:E; try done.
  destruct H as (H1 & H2 & H3 & H4). split_and!; try done.
  - split; [|done]. destruct H3 as (k & -> & Hk & _). revert E. unfold hp_calloc, ramdisk_heap, on_slots, hp_calloc, slot_iface.
    destruct (_ && _); [|done]. intros [= E _]. unfold LOWER_HALF_MEM_MAX, slot in *. lia.
  - intros q l [Hq Hql]. destruct (H4 q l Hql). done.
Qed.

#[export] Instance pm_heap_laws : HeapLaws pmachine.
Proof.
  refine {| owns := pm_owns |}.
  - intros n s Hn. pose proof (high_calloc_law n s Hn) as H. change (hp_calloc n s) with (high_calloc n s). destruct (high_calloc n s); try done.
    destruct H as (H1 & H2 & H3 & H4 & _). done.
  - intros p l [r u] [Hp Ho]. destruct (free_law p l r Ho) as (r' & Hf & Hoth). exists (r', u). split; [by apply (on_ram_ok (hp_free p))|].
    intros q l' Hq [Hq' Hql]. split; [done|]. by apply Hoth.
  - intros p l [r u] i v [Hp Ho] Hi. unfold hp_rd at 1, pm_heap. rewrite (high_addr p i Hp).
    apply (on_ram_ok (hp_rd (p + Z.of_nat i))). by apply (rd_law p l).
  - intros p l [r u] i v [Hp Ho] Hi. destruct (wr_law p l r i v Ho Hi) as (r' & Hw & Ho' & Hoth). exists (r', u).
    unfold hp_wr at 1, pm_heap. rewrite (high_addr p i Hp).
    split; [by apply (on_ram_ok (hp_wr (p + Z.of_nat i) v))|]. split; [done|]. intros q l' Hq [Hq' Hql]. split; [done|]. by apply Hoth.
Defined.

#[export] Instance pm_disk_laws : DiskLaws pmachine.
Proof.
  refine {| disk := fun s => disk s.1 |}.
  - intros [r u] lba b p l off [Hp Ho] Hl Hd Hb. destruct (disk_read_law r lba b p l off Ho Hl Hd Hb) as (v & r' & Hr & Ho' & Hoth & Hdk).
    exists v, (r', u). split; [by apply (on_ram_ok (nvme_read lba 1 (p + Z.of_nat off)))|]. split; [done|]. split; [|done].
    intros q lq Hq [Hq' Hql]. split; [done|]. by apply Hoth.
  - intros [r u] lba b p l off [Hp Ho] Hl Hd Hb. destruct (disk_write_law r lba b p l off Ho Hl Hd Hb) as (v & r' & Hr & Hoth & Hdk).
    exists v, (r', u). split; [by apply (on_ram_ok (nvme_write lba 1 (p + Z.of_nat off)))|]. split; [|done].
    intros q lq [Hq' Hql]. split; [done|]. by apply Hoth.
  - intros n [r u] p s'. unfold hp_calloc, pm_heap, high_calloc. case_match; [|done]. unfold on_ram.
    destruct (hp_calloc n r) eqn:E; [|done..]. intros [= _ <-]. by apply calloc_disk in E.
  - intros p [r u] s'. unfold hp_free, pm_heap, on_ram. destruct (hp_free p r) as [[]| | |] eqn:E; [|done..]. intros [= <-]. by apply free_disk in E.
  - intros a v [r u] s'. unfold hp_wr, pm_heap. case_match; [case_match; [by intros [= <-]|done]|]. unfold on_ram.
    destruct (hp_wr a v r) as [[]| | |] eqn:E; [|done..]. intros [= <-]. by apply wr_disk in E.
Defined.

Lemma user_byte_map u v a : 0 <= v < LOWER_HALF_MEM_MAX ->
  user_byte (<[v / 4096:=new_page]> u) a = if decide (a / 4096 = v / 4096) then Some 0xAA else user_byte u a.
Proof.
  intros Hv. unfold user_byte, LOWER_HALF_MEM_MAX in *. case_decide as E.
  - replace ((0 <=? a) && (a <? 0x800000000000)) with true by (symmetry; dlia). rewrite E, lookup_insert_eq. cbn [mbind option_bind].
    apply lookup_replicate. split; [done|]. pose proof (Z.mod_pos_bound a 4096). lia.
  - case_match; [|done]. by rewrite lookup_insert_ne.
Qed.

Lemma user_byte_wr u a v b : is_Some (user_byte u a) ->
  user_byte (alter (fun pg => <[Z.to_nat (a mod 4096):=u8 v]> pg) (a / 4096) u) b = if decide (b = a) then Some (u8 v) else user_byte u b.
Proof.
  unfold user_byte. intros [x Hx]. destruct ((0 <=? a) && (a <? LOWER_HALF_MEM_MAX)) eqn:Ea; [|done].
  destruct (u !! (a / 4096)) as [pg|] eqn:Hpg; [|done]. cbn in Hx. apply lookup_lt_Some in Hx. case_decide as E.
  - subst b. rewrite Ea, lookup_alter_eq, Hpg. cbn. by apply list_lookup_insert_eq.
  - case_match; [|done]. destruct (decide (b / 4096 = a / 4096)) as [Ed|Ed]; [|by rewrite lookup_alter_ne].
    rewrite Ed, lookup_alter_eq, Hpg. cbn. rewrite list_lookup_insert_ne; [done|].
    pose proof (Z.mod_pos_bound a 4096). pose proof (Z.mod_pos_bound b 4096). pose proof (Z.div_mod a 4096). pose proof (Z.div_mod b 4096). lia.
Qed.

#[export] Instance pm_proc_laws : ProcLaws pmachine.
Proof.
  refine {| ubyte := fun s a => user_byte s.2.2 a; fresh := fun s f => True |}.
  - intros n s Hn. change (vmalloc n s) with (high_calloc n s). pose proof (high_calloc_law n s Hn) as H. destruct (high_calloc n s); try done.
    destruct H as (H1 & H2 & H3 & H4 & H5). split_and!; try done; [|by rewrite H5]. eexists. split; [|exact H3]. apply length_replicate.
  - intros [r [fr u]]. cbn. pose proof (Z.mod_pos_bound fr (2 ^ 40) ltac:(lia)). split_and!; try done; lia.
  - intros [r [fr u]] v f Hv _. cbn [page_map pm_proc fst snd]. split_and!; [| |done].
    + intros a Ha. rewrite user_byte_map, decide_True by done. done.
    + intros a Ha. by rewrite user_byte_map, decide_False by done.
  - intros [r [fr u]] a v Ha. cbn [fst snd] in *. assert (Hlt : (a <? LOWER_HALF_MEM_MAX) = true).
    { destruct Ha as [x Hx]. unfold user_byte in Hx. destruct (_ && _) eqn:E in Hx; [|done]. by apply andb_true_iff in E as [_ ?]. }
    eexists. split; [unfold hp_wr, pm_heap; rewrite Hlt; cbn [fst snd]; destruct Ha as [x ->]; reflexivity|]. cbn [fst snd].
    split; [by rewrite user_byte_wr, decide_True by done|]. split; [|done]. intros b Hb. by rewrite user_byte_wr, decide_False by done.
  - intros [r u] p l i v s' [Hp _] Hi. unfold hp_wr, pm_heap. rewrite (high_addr p i Hp).
    unfold on_ram. destruct (hp_wr (p + Z.of_nat i) v r) as [[]| | |]; [|done..]. by intros [= <-].
  - intros n [r u] p s'. unfold hp_calloc, pm_heap, high_calloc. case_match; [|done]. unfold on_ram. destruct (hp_calloc n r); [|done..]. by intros [= _ <-].
Defined.

(** A program of two blocks, in the clusters 3 and 5: one segment of eight
    bytes and zeros up to the given size. *)
Definition elf_header (vaddr memsz : Z) : list Z :=
  ([0x7F; 69; 76; 70; 2; 1; 1] ++ replicate 9 0 ++ unle 2 2 ++ unle 2 0x3E ++ unle 4 1 ++ unle 8 vaddr ++ unle 8 64 ++ unle 8 0 ++
   unle 4 0 ++ unle 2 64 ++ unle 2 56 ++ unle 2 1 ++ unle 2 64 ++ unle 2 0 ++ unle 2 0) ++
  (unle 4 1 ++ unle 4 5 ++ unle 8 512 ++ unle 8 vaddr ++ unle 8 vaddr ++ unle 8 8 ++ unle 8 memsz ++ unle 8 4096) ++ replicate 392 0.
Definition elf_code : list Z := [0x48; 0x31; 0xC0; 0xCD; 0x80; 0xEB; 0xFE; 0x90] ++ replicate 504 0.

Definition elf_fs (vaddr memsz : Z) : fat pmachine :=
  Fat 1 8 1000 10 12 2 0 (64 * slot)
    ((((66, <[64:=table 1 small_entries]> ∅) : slots,
       list_to_map [(12, dir_block); (13, elf_header vaddr memsz); (15, elf_code)]) : ramdisk), (0, ∅)).

#[local] Instance pm_block_at_dec (f : fat pmachine) c b : Decision (block_at f c b).
Proof. unfold block_at, is_block. apply _. Defined.



(** The number of pages is computed from the size alone: a segment that starts
    in the middle of a page and ends in the next one gets one page, and the copy
    runs into memory that is not mapped. *)
Theorem elf_load_unaligned_faults : elf_load hello_name txt (elf_fs 0x400F00 0x200) = Fault.
Proof. vm_compute. reflexivity. Qed.

End ElfProps.
