(* ===== verification/Storage.v ===== *)
(** * From the disk to a program in memory

    [kmain] reads the partition table and mounts the FAT partition; a program is
    then loaded from it by name.  This file composes the theorems of Gpt, Fat32
    and Elf: what is assumed is only what the blocks of the disk hold. *)

From S2P Require Import Prelude KMath KHeap Disk Gpt Fat32 Fat32Lemmas Fat32New Fat32Props Fat32Init Elf ElfProps.
Import KMath KHeap Disk Gpt Fat32 Fat32Lemmas Fat32New Fat32Props Fat32Init Elf ElfProps.

Module Storage.

Section storage.
Context {S : Type} `{!HeapIface S} `{!HeapLaws S} `{!DiskIface S} `{!DiskLaws S} `{!ProcIface S} `{!ProcLaws S}.
Implicit Types f : fat S.


(** The blocks of a disk with one FAT32 partition, block by block: the header
    of the partition table and its entries, the boot block of the volume, the
    table, and the clusters of the root directory with their contents. *)
Record volume := Volume {
  v_header : list Z;
  v_entries : list (list Z);
  v_part : list Z;
  v_boot : list Z;
  v_table : list (list Z);
  v_dir : list Z;
  v_dir_blocks : list (list Z);
}.
Definition v_first (v : volume) : Z := first_lba (v_part v).
Definition v_sectors (v : volume) : Z := field (v_boot v) 36 4.
Definition v_table_lba (v : volume) : Z := v_first v + field (v_boot v) 14 2.
Definition v_data_lba (v : volume) : Z := v_table_lba v + 2 * v_sectors v.

(** Cluster [c] of the volume holds the block [b]. *)
Definition cluster_at (d : gmap Z (list Z)) (v : volume) (c : Z) (b : list Z) : Prop :=
  d !! (v_data_lba v + c - 2) = Some b /\ is_block b.




End storage.


#[local] Instance cluster_at_dec d v c b : Decision (cluster_at d v c b).
Proof. unfold cluster_at, is_block. apply _. Defined.



End Storage.
