(* ===== verification/KMain.v ===== *)
(** * kmain.c: the walk over the boot information and the set-up of memory

    The boot loader passes a list of tags (util/multiboot2.h).  [kmain] walks
    it twice: to add up the available memory and to note the framebuffer and
    the EFI table, and then to hand the available zones to the frame
    allocator.  [info] is the memory the boot information is read from, byte
    by byte; the nodes that the allocator writes in between lie outside of it,
    which is what the properties of this file are about.  [kernel_end] is the
    physical address behind the kernel image.  The colour of the framebuffer,
    which is worked out for a line of the log only, is in Framebuffer.v. *)

From S2P Require Import Prelude KMath Machine Pmm Page Vmm KHeap.
Import KMath Machine Pmm KMalloc Page Vmm.

Module KMain.

(** ** The descriptor of the task state segment *)

Record GDTEntryTSS := TssEntry {
  limit_low : Z;
  base_low : Z;
  base_mid : Z;
  access : Z;
  limit_high : Z;
  tss_flags : Z;
  base_high : Z;
  base_highest : Z;
}.

Definition tss_descriptor (tss_start tss_end : Z) : GDTEntryTSS :=
  let limit := tss_end -64 tss_start in
  TssEntry (Z.land limit 0xFFFF) (Z.land tss_start 0xFFFF) (Z.land (Z.shiftr tss_start 16) 0xFF) 0x89
    (Z.land (Z.shiftr limit 16) 0xF) 8 (Z.land (Z.shiftr tss_start 24) 0xFF) (Z.land (Z.shiftr tss_start 32) 0xFFFFFFFF).

(** ** The boot information *)

(** util/multiboot2.h *)
Definition MULTIBOOT_TAG_TYPE_END : Z := 0.
Definition MULTIBOOT_TAG_TYPE_MMAP : Z := 6.
Definition MULTIBOOT_TAG_TYPE_FRAMEBUFFER : Z := 8.
Definition MULTIBOOT_TAG_TYPE_EFI64 : Z := 12.
(** util/const.h *)
Definition MBOOT_MEM_AVAILABLE : Z := 1.

(** What the first walk collects. *)
Record boot := Boot {
  total_available_mem : Z;
  efi_table : Z;
  framebuffer_addr : Z;
  pixel_width : Z;
  pixel_height : Z;
  vga_pitch : Z;
}.
Definition no_boot : boot := Boot 0 0 0 0 0 0.

(** The next tag: sizes are rounded up to eight bytes, in 32-bit arithmetic. *)
Definition next_tag (tag size : Z) : Z := tag +64 Z.land (size +32 7) 0xFFFFFFF8.

Section kmain.
Context (info : gmap Z Z) (kernel_end : Z).
(** how many steps a walk may take *)
Context (fuel : nat).

(** A load of [n] bytes. *)
Fixpoint peek (n : nat) (a : Z) : option Z :=
  match n with
  | O => Some 0
  | S n' => match info !! a, peek n' (a + 1) with Some b, Some r => Some (b + 256 * r) | _, _ => None end
  end.
Definition load {A} (n : nat) (a : Z) : M A Z := lift_opt (peek n a).

(** Does the entry of the memory map have memory behind the kernel? *)
Definition available (addr len type : Z) : bool :=
  (type =? MBOOT_MEM_AVAILABLE) && (kernel_end <? addr +64 len).

(** the entries of a memory map, first walk *)
Fixpoint mmap_total (n : nat) (mmap tag_end entry_size total : Z) : M boot Z :=
  match n with
  | O => out_of_fuel
  | S n' =>
    if mmap <? tag_end then
      addr ← load 8 mmap;
      len ← load 8 (mmap +64 8);
      type ← load 4 (mmap +64 16);
      let total := if available addr len type
        then total +64 ((addr +64 len) -64 u64_max addr kernel_end) else total in
      mmap_total n' (mmap +64 entry_size) tag_end entry_size total
    else mret total
  end.

Definition set_total (t : Z) (b : boot) : boot :=
  Boot t (efi_table b) (framebuffer_addr b) (pixel_width b) (pixel_height b) (vga_pitch b).
Definition set_efi (e : Z) (b : boot) : boot :=
  Boot (total_available_mem b) e (framebuffer_addr b) (pixel_width b) (pixel_height b) (vga_pitch b).
Definition set_framebuffer (a w h p : Z) (b : boot) : boot :=
  Boot (total_available_mem b) (efi_table b) a w h p.

(** one tag of the first walk *)
Definition scan_tag (tag type size : Z) : M boot unit :=
  if type =? MULTIBOOT_TAG_TYPE_MMAP then
    entry_size ← load 4 (tag +64 8);
    total ← gets total_available_mem;
    total ← mmap_total fuel (tag +64 16) (tag +64 size) entry_size total;
    modify (set_total total)
  else if type =? MULTIBOOT_TAG_TYPE_FRAMEBUFFER then
    addr ← load 8 (tag +64 8);
    pitch ← load 4 (tag +64 16);
    width ← load 4 (tag +64 20);
    height ← load 4 (tag +64 24);
    modify (set_framebuffer addr width height pitch)
  else if type =? MULTIBOOT_TAG_TYPE_EFI64 then
    pointer ← load 8 (tag +64 8);
    modify (set_efi (pointer +64 KERNEL_OFFSET))
  else mret tt.

(** the first walk; returns the address behind the last tag *)
Fixpoint scan_tags (n : nat) (tag : Z) : M boot Z :=
  match n with
  | O => out_of_fuel
  | S n' =>
    type ← load 4 tag;
    size ← load 4 (tag +64 4);
    if type =? MULTIBOOT_TAG_TYPE_END then mret (next_tag tag size) else
    scan_tag tag type size;;
    scan_tags n' (next_tag tag size)
  end.

(** The zones of an entry: its memory behind the kernel, from a page boundary
    on, around the boot information. *)
Definition zones (multiboot_start multiboot_end addr len type : Z) : option (list (Z * Z)) :=
  if available addr len type then
    let zone_start := u64_max addr kernel_end in
    match ceil_u64_div zone_start 0x1000 with
    | None => None
    | Some q =>
      let zone_start := q *64 0x1000 in
      let zone_end := addr +64 len in
      if ((zone_start <=? multiboot_start) && (multiboot_start <=? zone_end)) ||
         ((zone_start <=? multiboot_end) && (multiboot_end <=? zone_end)) then
        Some ((if zone_start <? multiboot_start then [(zone_start, multiboot_start)] else []) ++
              (if multiboot_end <? zone_end then [(multiboot_end, zone_end)] else []))
      else Some [(zone_start, zone_end)]
    end
  else Some [].

Fixpoint add_blocks (l : list (Z * Z)) : K unit :=
  match l with [] => mret tt | (a, b) :: l' => pmm_add_block a b;; add_blocks l' end.

(** the entries of a memory map, second walk *)
Fixpoint mmap_add (n : nat) (mmap tag_end entry_size multiboot_start multiboot_end : Z) : K unit :=
  match n with
  | O => out_of_fuel
  | S n' =>
    if mmap <? tag_end then
      addr ← load 8 mmap;
      len ← load 8 (mmap +64 8);
      type ← load 4 (mmap +64 16);
      zs ← lift_opt (zones multiboot_start multiboot_end addr len type);
      add_blocks zs;;
      mmap_add n' (mmap +64 entry_size) tag_end entry_size multiboot_start multiboot_end
    else mret tt
  end.

(** the second walk *)
Fixpoint add_tags (n : nat) (tag multiboot_start multiboot_end : Z) : K unit :=
  match n with
  | O => out_of_fuel
  | S n' =>
    type ← load 4 tag;
    size ← load 4 (tag +64 4);
    if type =? MULTIBOOT_TAG_TYPE_END then mret tt else
    (if type =? MULTIBOOT_TAG_TYPE_MMAP then
       entry_size ← load 4 (tag +64 8);
       mmap_add fuel (tag +64 16) (tag +64 size) entry_size multiboot_start multiboot_end
     else mret tt);;
    add_tags n' (next_tag tag size) multiboot_start multiboot_end
  end.

(** Both walks: the boot data and the registered memory. *)
Definition boot_memory (mboot_addr : Z) : K boot := fun s =>
  match scan_tags fuel (mboot_addr +64 8) no_boot with
  | Ok multiboot_end b =>
    (pmm_set_total (total_available_mem b);;
     add_tags fuel (mboot_addr +64 8) mboot_addr multiboot_end;;
     mret b) s
  | Panic msg => Panic msg
  | Fault => Fault
  | OutOfFuel => OutOfFuel
  end.

(** From the walks to the memory managers.  The tables [pml4] ... [pt_low]
    are those of the boot loader.  [pml4] is the physical address from cr3,
    which is still reached through the identity map of the first 2 GiB, that
    is at the same words as through the direct map; the others are addresses
    of the direct map. *)
Definition kmain_memory (mboot_addr pml4 pdpt_low pdt_low pt_low : Z) : K boot :=
  b ← boot_memory mboot_addr;
  pmm_init_final;;
  wr (pml4 + KERNEL_OFFSET) 0;;
  wr pdpt_low 0;;
  for_loop 512 0 (fun i => wr (pdt_low + 8 * i) 0;; wr (pt_low + 8 * i) 0);;
  page_set_pml4 pml4 (pml4 +64 KERNEL_OFFSET);;
  pmm_clear_blocks (framebuffer_addr b) (framebuffer_addr b +64 (vga_pitch b *32 pixel_height b));;
  vmm_init;;
  mret b.

End kmain.

End KMain.
