(* ===== verification/KMainProps.v ===== *)
(** * What the boot sequence hands to the memory managers

    Against a list of tags that the boot loader has laid out in memory, the
    two walks of [kmain] see exactly the tags, and the zones they register are
    the available memory without the kernel and without the boot information. *)

From S2P Require Import Prelude KMath Machine Pmm Page Vmm KHeap KMain.
Import KMath Machine Pmm KHeap KMain.

Module KMainProps.

(** ** The boot information as data *)

(** Entries of a memory map: address, length, type. *)
Abbreviation entry := (Z * Z * Z)%type.

Inductive tag :=
  | Mmap (entry_size : Z) (entries : list entry)
  | Framebuffer (addr pitch width height size : Z)
  | Efi64 (pointer size : Z)
  | Other (type size : Z).

Definition tag_type (t : tag) : Z :=
  match t with
  | Mmap _ _ => MULTIBOOT_TAG_TYPE_MMAP
  | Framebuffer _ _ _ _ _ => MULTIBOOT_TAG_TYPE_FRAMEBUFFER
  | Efi64 _ _ => MULTIBOOT_TAG_TYPE_EFI64
  | Other ty _ => ty
  end.
Definition tag_size (t : tag) : Z :=
  match t with
  | Mmap es l => 16 + es * Z.of_nat (length l)
  | Framebuffer _ _ _ _ s | Efi64 _ s | Other _ s => s
  end.

Definition round8 (n : Z) : Z := (n + 7) / 8 * 8.

Section layout.
Context (info : gmap Z Z).

(** The entries of a memory map lie at [a], [es] bytes apart. *)
Fixpoint entries_at (a es : Z) (l : list entry) : Prop :=
  match l with
  | [] => True
  | (addr, len, ty) :: l' =>
    peek info 8 a = Some addr /\ peek info 8 (a + 8) = Some len /\ peek info 4 (a + 16) = Some ty /\
    0 <= addr /\ 0 <= len /\ addr + len < W64 - 4096 /\ entries_at (a + es) es l'
  end.

Definition tag_at (a : Z) (t : tag) : Prop :=
  match t with
  | Mmap es l => 0 < es < W32 /\ peek info 4 (a + 8) = Some es /\ entries_at (a + 16) es l
  | Framebuffer ad p w h _ =>
    peek info 8 (a + 8) = Some ad /\ peek info 4 (a + 16) = Some p /\ peek info 4 (a + 20) = Some w /\ peek info 4 (a + 24) = Some h
  | Efi64 p _ => peek info 8 (a + 8) = Some p
  | Other ty _ => ty <> MULTIBOOT_TAG_TYPE_END /\ ty <> MULTIBOOT_TAG_TYPE_MMAP /\
      ty <> MULTIBOOT_TAG_TYPE_FRAMEBUFFER /\ ty <> MULTIBOOT_TAG_TYPE_EFI64
  end.

(** The tags lie at [a], with the end tag behind them; [e] is the end. *)
Fixpoint tags_at (a : Z) (ts : list tag) (e : Z) : Prop :=
  match ts with
  | [] => peek info 4 a = Some MULTIBOOT_TAG_TYPE_END /\ peek info 4 (a + 4) = Some 8 /\ e = a + 8
  | t :: ts' =>
    peek info 4 a = Some (tag_type t) /\ peek info 4 (a + 4) = Some (tag_size t) /\
    8 <= tag_size t < 2 ^ 31 /\ tag_at a t /\ tags_at (a + round8 (tag_size t)) ts' e
  end.

End layout.

Definition tag_entries (t : tag) : list entry := match t with Mmap _ l => l | _ => [] end.
Definition all_entries (ts : list tag) : list entry := concat (tag_entries <$> ts).

Section reference.
Context (kernel_end : Z).

(** Bytes of an entry behind the kernel. *)
Definition entry_bytes (e : entry) : Z :=
  let '(addr, len, ty) := e in
  if (ty =? MBOOT_MEM_AVAILABLE) && (kernel_end <? addr + len) then addr + len - Z.max addr kernel_end else 0.

Definition sum (l : list Z) : Z := foldr Z.add 0 l.

(** The boot data of a list of tags. *)
Definition tag_data (b : boot) (t : tag) : boot :=
  match t with
  | Mmap _ l => set_total (total_available_mem b + sum (entry_bytes <$> l)) b
  | Framebuffer ad p w h _ => set_framebuffer ad w h p b
  | Efi64 p _ => set_efi (p +64 KERNEL_OFFSET) b
  | Other _ _ => b
  end.

(** Is byte [x] of an entry free to use? *)
Definition usable (mb me : Z) (e : entry) (x : Z) : Prop :=
  let '(addr, len, ty) := e in
  ty = MBOOT_MEM_AVAILABLE /\ (Z.max addr kernel_end + 4095) / 4096 * 4096 <= x < addr + len /\ ~ (mb <= x < me).

(** The boot information does not enclose the zone of the entry. *)
Definition not_enclosing (mb me : Z) (e : entry) : Prop :=
  let '(addr, len, _) := e in
  ~ (mb < (Z.max addr kernel_end + 4095) / 4096 * 4096 /\ addr + len < me).

Definition in_blocks (l : list (Z * Z)) (x : Z) : Prop := Exists (fun b => b.1 <= x < b.2) l.

Context (Hkend : 0 <= kernel_end < W64 - 4096).

Lemma max_run addr : u64_max addr kernel_end = Z.max addr kernel_end.
Proof. unfold u64_max. destruct (Z.ltb_spec kernel_end addr); lia. Qed.

(** The zones of one entry are its usable bytes. *)
Lemma zones_usable mb me addr len ty :
  0 <= addr -> 0 <= len -> addr + len < W64 - 4096 -> 0 <= mb -> mb <= me ->
  exists zs, zones kernel_end mb me addr len ty = Some zs /\
    (not_enclosing mb me (addr, len, ty) -> forall x, in_blocks zs x <-> usable mb me (addr, len, ty) x).
Proof.
  intros Ha Hl Hw Hmb Hme. unfold zones, available, usable, not_enclosing, MBOOT_MEM_AVAILABLE. rewrite u64_small by lia.
  destruct (Z.eqb_spec ty 1) as [->|Hty]; cbn [andb].
  2: { exists []. split; [done|]. intros _ x. split; [by intros ?%Exists_nil|]. by intros [? _]. }
  destruct (Z.ltb_spec kernel_end (addr + len)) as [Hk|Hk].
  2: { exists []. split; [done|]. intros _ x. split; [by intros ?%Exists_nil|]. intros (_ & Hx & _).
       assert (Z.max addr kernel_end <= (Z.max addr kernel_end + 4095) / 4096 * 4096) by (generalize (Z.max addr kernel_end); intros; dlia). lia. }
  rewrite max_run. assert (Hm : 0 <= Z.max addr kernel_end < W64 - 4096) by lia.
  rewrite (ceil_u64_div_spec _ 0x1000) by lia. replace (Z.max addr kernel_end + 0x1000 - 1) with (Z.max addr kernel_end + 4095) by lia.
  change 0x1000 with 4096. revert Hm. generalize (Z.max addr kernel_end) as m. intros m Hm.
  assert (Hz : 0 <= (m + 4095) / 4096 * 4096 < W64) by dlia. rewrite u64_small by done. revert Hz. generalize ((m + 4095) / 4096 * 4096) as z. intros z Hz.
  unfold in_blocks. destruct (((z <=? mb) && (mb <=? addr + len)) || ((z <=? me) && (me <=? addr + len))) eqn:E.
  - eexists. split; [done|]. intros Hne x. rewrite Exists_app.
    destruct (Z.ltb_spec z mb), (Z.ltb_spec me (addr + len)); repeat (rewrite Exists_cons || rewrite Exists_nil); cbn [fst snd]; lia.
  - eexists. split; [done|]. intros Hne x. rewrite Exists_cons, Exists_nil. cbn [fst snd]. lia.
Qed.

Lemma available_run addr len ty : 0 <= addr -> 0 <= len -> addr + len < W64 - 4096 ->
  available kernel_end addr len ty = (ty =? MBOOT_MEM_AVAILABLE) && (kernel_end <? addr + len).
Proof. intros. unfold available. by rewrite u64_small by lia. Qed.

Lemma entry_bytes_range addr len ty : 0 <= len -> 0 <= entry_bytes (addr, len, ty).
Proof. intros Hl. unfold entry_bytes. destruct (_ && _) eqn:E; lia. Qed.

Context (info : gmap Z Z).

Lemma load_run {A} n a v (s : A) : peek info n a = Some v -> load info n a s = Ok v s.
Proof. unfold load. by intros ->. Qed.

Lemma sum_bytes_range l : forall a es, entries_at info a es l -> 0 <= sum (entry_bytes <$> l).
Proof.
  induction l as [|[[addr len] ty] l IH]; intros a es; [done|]. intros (_ & _ & _ & _ & Hl & _ & He).
  change (0 <= entry_bytes (addr, len, ty) + sum (entry_bytes <$> l)). pose proof (entry_bytes_range addr len ty Hl). specialize (IH _ _ He). lia.
Qed.

(** *** The first walk *)

Lemma mmap_total_run l : forall n a e es total b,
  (length l < n)%nat -> entries_at info a es l -> 0 <= a -> 0 < es < W32 -> e = a + es * Z.of_nat (length l) -> e + 24 < W64 ->
  0 <= total -> total + sum (entry_bytes <$> l) < W64 ->
  mmap_total info kernel_end n a e es total b = Ok (total + sum (entry_bytes <$> l)) b.
Proof.
  induction l as [|[[addr len] ty] l IH]; intros n a e es total b Hn He Ha Hes Hend Hw Ht Htw; (destruct n as [|n]; [cbn in Hn; lia|]); cbn [mmap_total].
  { replace (a <? e) with false by (symmetry; cbn in Hend; lia). cbn. by rewrite Z.add_0_r. }
  cbn [length] in *. destruct He as (H1 & H2 & H3 & Hadd & Hlen & Haw & He).
  assert (Hlt : a + es <= e) by nia. replace (a <? e) with true by (symmetry; lia).
  rewrite (bind_ok _ _ _ _ _ (load_run _ _ _ _ H1)), (u64_small (a + 8)), (u64_small (a + 16)), (u64_small (a + es)) by lia.
  rewrite (bind_ok _ _ _ _ _ (load_run _ _ _ _ H2)), (bind_ok _ _ _ _ _ (load_run _ _ _ _ H3)).
  change (sum (entry_bytes <$> (addr, len, ty) :: l)) with (entry_bytes (addr, len, ty) + sum (entry_bytes <$> l)) in *. pose proof (sum_bytes_range l _ _ He). pose proof (entry_bytes_range addr len ty Hlen).
  assert (Hz : (if available kernel_end addr len ty then total +64 ((addr +64 len) -64 u64_max addr kernel_end) else total) = total + entry_bytes (addr, len, ty)).
  { rewrite available_run by done. cbn. cbn in Htw. destruct ((ty =? MBOOT_MEM_AVAILABLE) && (kernel_end <? addr + len)) eqn:E; [|lia].
    apply andb_true_iff in E as [_ E]. rewrite max_run, (u64_small (addr + len)), (u64_small (addr + len - _)), u64_small by lia. done. }
  rewrite Hz, IH; [f_equal; lia|lia|done|lia|done|nia|lia|lia|lia].
Qed.

Lemma next_tag_run a size : 0 <= a -> 8 <= size < 2 ^ 31 -> a + round8 size < W64 -> next_tag a size = a + round8 size.
Proof.
  intros Ha Hs Hw. unfold next_tag, round8 in *. rewrite u32_small by lia. change 0xFFFFFFF8 with (2 ^ 32 - 2 ^ 3).
  rewrite land_block_mask by lia. change (2 ^ 3) with 8. apply u64_small. dlia.
Qed.

Lemma tags_at_end ts : forall a e, tags_at info a ts e -> a + 8 <= e.
Proof.
  induction ts as [|t ts IH]; intros a e; cbn [tags_at]; [lia|]. intros (_ & _ & Hs & _ & H). apply IH in H. unfold round8 in H. dlia.
Qed.

(** The end of a tag, before the end of the list. *)
Lemma tag_end t ts a e : tags_at info a (t :: ts) e -> a + tag_size t + 8 <= e.
Proof. intros (_ & _ & Hs & _ & H%tags_at_end). unfold round8 in H. dlia. Qed.

Context (fuel : nat).

Lemma scan_tag_run t ts a e b :
  tags_at info a (t :: ts) e -> (length (tag_entries t) < fuel)%nat -> 0 <= a -> e + 4096 <= W64 ->
  0 <= total_available_mem b -> total_available_mem (tag_data b t) < W64 ->
  scan_tag info kernel_end fuel a (tag_type t) (tag_size t) b = Ok tt (tag_data b t).
Proof.
  intros Ht Hf Ha Hw H0 Htot. pose proof (tag_end _ _ _ _ Ht) as He. destruct Ht as (_ & _ & Hs & Ht & _). unfold scan_tag.
  rewrite (u64_small (a + 8)), (u64_small (a + 16)), (u64_small (a + 20)), (u64_small (a + 24)), (u64_small (a + tag_size t)) by lia.
  destruct t as [es l|ad pi w h sz|ptr sz|ty sz]; cbn [tag_type tag_at] in *.
  - destruct Ht as (Hes & H1 & Hl). cbn [Z.eqb MULTIBOOT_TAG_TYPE_MMAP Pos.eqb]. rewrite (bind_ok _ _ _ _ _ (load_run _ _ _ _ H1)). run_pure.
    cbn [tag_data tag_size tag_entries total_available_mem set_total] in *.
    erewrite bind_ok; [|apply mmap_total_run; [exact Hf|exact Hl|lia|exact Hes|lia|lia|lia|lia]]. run_pure. done.
  - destruct Ht as (H1 & H2 & H3 & H4). cbn [Z.eqb MULTIBOOT_TAG_TYPE_FRAMEBUFFER MULTIBOOT_TAG_TYPE_MMAP Pos.eqb].
    rewrite (bind_ok _ _ _ _ _ (load_run _ _ _ _ H1)), (bind_ok _ _ _ _ _ (load_run _ _ _ _ H2)),
      (bind_ok _ _ _ _ _ (load_run _ _ _ _ H3)), (bind_ok _ _ _ _ _ (load_run _ _ _ _ H4)). run_pure. done.
  - cbn [Z.eqb MULTIBOOT_TAG_TYPE_FRAMEBUFFER MULTIBOOT_TAG_TYPE_MMAP MULTIBOOT_TAG_TYPE_EFI64 Pos.eqb].
    rewrite (bind_ok _ _ _ _ _ (load_run _ _ _ _ Ht)). run_pure. done.
  - destruct Ht as (_ & N1 & N2 & N3). by rewrite (proj2 (Z.eqb_neq _ _) N1), (proj2 (Z.eqb_neq _ _) N2), (proj2 (Z.eqb_neq _ _) N3).
Qed.

Lemma tag_type_end t a : tag_at info a t -> (tag_type t =? MULTIBOOT_TAG_TYPE_END) = false.
Proof. destruct t; try done. cbn. intros (? & _). by apply Z.eqb_neq. Qed.

Lemma tag_data_mono t a b : tag_at info a t -> total_available_mem b <= total_available_mem (tag_data b t).
Proof. destruct t; cbn; try lia. intros (_ & _ & H). pose proof (sum_bytes_range _ _ _ H). lia. Qed.

Lemma tags_data_mono ts : forall a e b, tags_at info a ts e -> total_available_mem b <= total_available_mem (foldl tag_data b ts).
Proof.
  induction ts as [|t ts IH]; intros a e b; [done|]. intros (_ & _ & _ & Ht & H). cbn [foldl].
  pose proof (tag_data_mono t a b Ht). specialize (IH _ _ (tag_data b t) H). lia.
Qed.

Lemma scan_tags_run ts : forall n a e b,
  tags_at info a ts e -> (length ts < n)%nat -> Forall (fun t => (length (tag_entries t) < fuel)%nat) ts -> 0 <= a -> e + 4096 <= W64 ->
  0 <= total_available_mem b -> total_available_mem (foldl tag_data b ts) < W64 ->
  scan_tags info kernel_end fuel n a b = Ok e (foldl tag_data b ts).
Proof.
  induction ts as [|t ts IH]; intros n a e b Hts Hn Hf Ha Hw H0 Htot; (destruct n as [|n]; [cbn in Hn; lia|]); cbn [scan_tags foldl].
  - destruct Hts as (H1 & H2 & ->). rewrite (bind_ok _ _ _ _ _ (load_run _ _ _ _ H1)), (u64_small (a + 4)), (bind_ok _ _ _ _ _ (load_run _ _ _ _ H2)) by lia.
    cbn [Z.eqb MULTIBOOT_TAG_TYPE_END]. rewrite next_tag_run by (unfold round8; change ((8 + 7) / 8 * 8) with 8; lia). done.
  - apply Forall_cons in Hf as [Hf1 Hf]. pose proof Hts as Hts0. pose proof (tag_end _ _ _ _ Hts). cbn [tags_at foldl length] in *. destruct Hts as (H1 & H2 & Hs & Ht & Hts).
    pose proof (tags_at_end _ _ _ Hts). pose proof (tag_data_mono t a b Ht). pose proof (tags_data_mono ts _ _ (tag_data b t) Hts).
    assert (0 <= round8 (tag_size t)) by (unfold round8; dlia).
    rewrite (bind_ok _ _ _ _ _ (load_run _ _ _ _ H1)), (u64_small (a + 4)), (bind_ok _ _ _ _ _ (load_run _ _ _ _ H2)), (tag_type_end _ _ Ht) by lia.
    rewrite (bind_ok _ _ _ _ _ (scan_tag_run t ts a e b Hts0 Hf1 Ha Hw H0 ltac:(lia))), next_tag_run by lia.
    apply IH; done || lia.
Qed.

(** *** The second walk *)

Definition zones_of (mb me : Z) (e : entry) : list (Z * Z) :=
  let '(addr, len, ty) := e in default [] (zones kernel_end mb me addr len ty).

Lemma add_blocks_app l1 l2 s : add_blocks (l1 ++ l2) s = (add_blocks l1;; add_blocks l2) s.
Proof.
  revert s. induction l1 as [|[a b] l1 IH]; intros s; [done|]. cbn [app add_blocks]. unfold mbind, M_bind in *.
  destruct (pmm_add_block a b s); [apply IH|done..].
Qed.

Lemma bind_eq {S A B} (c c' : M S A) (k k' : A -> M S B) s :
  c s = c' s -> (forall a s', k a s' = k' a s') -> (c ≫= k) s = (c' ≫= k') s.
Proof. unfold mbind, M_bind. intros -> Hk. by destruct (c' s). Qed.

Lemma mmap_add_run l : forall n a e es mb me s,
  (length l < n)%nat -> entries_at info a es l -> 0 <= a -> 0 < es < W32 -> e = a + es * Z.of_nat (length l) -> e + 24 < W64 ->
  0 <= mb -> mb <= me ->
  mmap_add info kernel_end n a e es mb me s = add_blocks (concat (zones_of mb me <$> l)) s.
Proof.
  induction l as [|[[addr len] ty] l IH]; intros n a e es mb me s Hn He Ha Hes Hend Hw Hmb Hme; (destruct n as [|n]; [cbn in Hn; lia|]); cbn [mmap_add].
  { replace (a <? e) with false by (symmetry; cbn in Hend; lia). done. }
  cbn [length] in *. destruct He as (H1 & H2 & H3 & Hadd & Hlen & Haw & He).
  assert (Hlt : a + es <= e) by nia. replace (a <? e) with true by (symmetry; lia).
  rewrite (bind_ok _ _ _ _ _ (load_run _ _ _ _ H1)), (u64_small (a + 8)), (u64_small (a + 16)), (u64_small (a + es)) by lia.
  rewrite (bind_ok _ _ _ _ _ (load_run _ _ _ _ H2)), (bind_ok _ _ _ _ _ (load_run _ _ _ _ H3)).
  cbn [fmap list_fmap concat]. rewrite add_blocks_app. cbn [zones_of].
  destruct (zones_usable mb me addr len ty Hadd Hlen Haw Hmb Hme) as (zs & -> & _). cbn [lift_opt default]. run_pure.
  apply bind_eq; [done|]. intros _ s'. apply IH; done || lia.
Qed.

Lemma add_tags_run ts : forall n a e mb me s,
  tags_at info a ts e -> (length ts < n)%nat -> Forall (fun t => (length (tag_entries t) < fuel)%nat) ts -> 0 <= a -> e + 4096 <= W64 ->
  0 <= mb -> mb <= me ->
  add_tags info kernel_end fuel n a mb me s = add_blocks (concat (zones_of mb me <$> all_entries ts)) s.
Proof.
  induction ts as [|t ts IH]; intros n a e mb me s Hts Hn Hf Ha Hw Hmb Hme; (destruct n as [|n]; [cbn in Hn; lia|]); cbn [add_tags].
  - destruct Hts as (H1 & H2 & ->). rewrite (bind_ok _ _ _ _ _ (load_run _ _ _ _ H1)), (u64_small (a + 4)), (bind_ok _ _ _ _ _ (load_run _ _ _ _ H2)) by lia. done.
  - apply Forall_cons in Hf as [Hf1 Hf]. pose proof (tag_end _ _ _ _ Hts). cbn [tags_at length] in *. destruct Hts as (H1 & H2 & Hs & Ht & Hts).
    pose proof (tags_at_end _ _ _ Hts). assert (0 <= round8 (tag_size t)) by (unfold round8; dlia).
    rewrite (bind_ok _ _ _ _ _ (load_run _ _ _ _ H1)), (u64_small (a + 4)), (bind_ok _ _ _ _ _ (load_run _ _ _ _ H2)), (tag_type_end _ _ Ht) by lia.
    unfold all_entries. cbn [fmap list_fmap concat]. rewrite fmap_app, concat_app, add_blocks_app.
    apply bind_eq; [|intros _ s'; rewrite next_tag_run by lia; apply (IH n _ e); done || lia].
    destruct t as [es l|ad pi w h sz|ptr sz|ty sz]; cbn [tag_type tag_entries tag_at tag_size] in *; try done.
    + destruct Ht as (Hes & Hsz & Hl). cbn [Z.eqb MULTIBOOT_TAG_TYPE_MMAP Pos.eqb].
      rewrite (u64_small (a + 8)), (u64_small (a + 16)), (u64_small (a + _)), (bind_ok _ _ _ _ _ (load_run _ _ _ _ Hsz)) by lia.
      apply mmap_add_run; try done; lia.
    + destruct Ht as (_ & N1 & _). by rewrite (proj2 (Z.eqb_neq _ _) N1).
Qed.

End reference.

Lemma total_data kernel_end ts : forall b,
  total_available_mem (foldl (tag_data kernel_end) b ts) = total_available_mem b + sum (entry_bytes kernel_end <$> all_entries ts).
Proof.
  unfold all_entries. induction ts as [|t ts IH]; intros b; cbn [foldl fmap list_fmap concat]; [cbn; lia|].
  rewrite IH, fmap_app. unfold sum. rewrite foldr_app. fold (sum (entry_bytes kernel_end <$> concat (tag_entries <$> ts))).
  generalize (sum (entry_bytes kernel_end <$> concat (tag_entries <$> ts))) as z. intros z.
  destruct t as [es l| | |]; cbn [tag_data tag_entries fmap list_fmap foldr]; try (cbn; lia). cbn [total_available_mem set_total].
  enough (foldr Z.add z (entry_bytes kernel_end <$> l) = sum (entry_bytes kernel_end <$> l) + z) by lia.
  induction l as [|x l IHl]; [done|]. cbn [fmap list_fmap foldr sum]. unfold sum in IHl. lia.
Qed.

(** The zones of all entries are the usable bytes of all entries. *)
Lemma zones_of_usable kernel_end info mb me l : forall a es,
  0 <= kernel_end < W64 - 4096 -> 0 <= mb -> mb <= me -> entries_at info a es l -> Forall (not_enclosing kernel_end mb me) l ->
  forall x, in_blocks (concat (zones_of kernel_end mb me <$> l)) x <-> Exists (fun en => usable kernel_end mb me en x) l.
Proof.
  induction l as [|[[addr len] ty] l IH]; intros a es Hk Hmb Hme Hl Hne x; cbn [fmap list_fmap concat]; unfold in_blocks.
  { by rewrite !Exists_nil. }
  apply Forall_cons in Hne as [Hn1 Hne]. destruct Hl as (_ & _ & _ & Ha & Hle & Hw & Hl).
  rewrite Exists_app, Exists_cons. specialize (IH _ _ Hk Hmb Hme Hl Hne x). unfold in_blocks in IH. rewrite IH.
  destruct (zones_usable kernel_end Hk mb me addr len ty Ha Hle Hw Hmb Hme) as (zs & Hz & Hiff). cbn [zones_of]. rewrite Hz. cbn [default].
  specialize (Hiff Hn1 x). unfold in_blocks in Hiff. by rewrite Hiff.
Qed.

Lemma in_blocks_app l1 l2 x : in_blocks (l1 ++ l2) x <-> in_blocks l1 x \/ in_blocks l2 x.
Proof. apply Exists_app. Qed.

Lemma all_zones_usable kernel_end info mb me ts : forall a e,
  0 <= kernel_end < W64 - 4096 -> 0 <= mb -> mb <= me -> tags_at info a ts e -> Forall (not_enclosing kernel_end mb me) (all_entries ts) ->
  forall x, in_blocks (concat (zones_of kernel_end mb me <$> all_entries ts)) x <-> Exists (fun en => usable kernel_end mb me en x) (all_entries ts).
Proof.
  unfold all_entries. induction ts as [|t ts IH]; intros a e Hk Hmb Hme Hts Hne x; cbn [fmap list_fmap concat] in *.
  { unfold in_blocks. by rewrite !Exists_nil. }
  apply Forall_app in Hne as [Hn1 Hne]. destruct Hts as (_ & _ & _ & Ht & Hts).
  rewrite fmap_app, concat_app, in_blocks_app, Exists_app, (IH _ _ Hk Hmb Hme Hts Hne x).
  enough (in_blocks (concat (zones_of kernel_end mb me <$> tag_entries t)) x <-> Exists (fun en => usable kernel_end mb me en x) (tag_entries t)) as -> by done.
  destruct t as [es l| | |]; cbn [tag_entries] in *; try (unfold in_blocks; by rewrite !Exists_nil).
  destruct Ht as (_ & _ & Hl). by apply (zones_of_usable kernel_end info mb me l _ _ Hk Hmb Hme Hl).
Qed.

(** Both walks, with the blocks of the zones in the order of the entries. *)
Lemma boot_memory_run info kernel_end mboot_addr ts e fuel s :
  0 <= kernel_end < W64 - 4096 -> 0 <= mboot_addr -> e + 4096 <= W64 ->
  tags_at info (mboot_addr + 8) ts e -> sum (entry_bytes kernel_end <$> all_entries ts) < W64 ->
  (S (length ts + length (all_entries ts)) <= fuel)%nat ->
  boot_memory info kernel_end fuel mboot_addr s =
    (pmm_set_total (sum (entry_bytes kernel_end <$> all_entries ts));;
     add_blocks (concat (zones_of kernel_end mboot_addr e <$> all_entries ts));;
     mret (foldl (tag_data kernel_end) no_boot ts)) s.
Proof.
  intros Hk Hm He Hts Htot Hf. pose proof (tags_at_end kernel_end Hk info ts _ _ Hts) as Hend.
  assert (Hfuel : Forall (fun t => (length (tag_entries t) < fuel)%nat) ts).
  { apply Forall_forall. intros t Ht. assert (length (tag_entries t) <= length (all_entries ts))%nat; [|lia].
    unfold all_entries. clear -Ht. induction ts as [|t' ts IH]; cbn [fmap list_fmap concat]; [by apply elem_of_nil in Ht|].
    rewrite length_app. apply elem_of_cons in Ht as [->|Ht]; [lia|]. specialize (IH Ht). lia. }
  unfold boot_memory. rewrite u64_small by lia.
  rewrite (scan_tags_run kernel_end Hk info fuel ts fuel _ e no_boot Hts) by (done || (rewrite ?total_data; cbn [total_available_mem no_boot]; lia)).
  rewrite total_data. cbn [total_available_mem no_boot]. rewrite Z.add_0_l. apply bind_eq; [done|]. intros _ s1.
  apply bind_eq; [|done]. apply (add_tags_run kernel_end Hk info fuel ts fuel _ e); done || lia.
Qed.

(** C11. The boot sequence registers exactly the usable memory.  For every list
    of tags that the boot loader has laid out, both walks of [kmain] end; the
    first finds the framebuffer and the EFI table and the number of available
    bytes behind the kernel; the blocks that the second hands to the frame
    allocator, in order, cover a byte exactly if it is in an available entry
    of the memory map, behind the kernel (rounded up to a page) and not in the
    boot information itself, provided the boot information does not enclose
    the whole zone of an entry. *)
Theorem boot_memory_registers info kernel_end mboot_addr ts e :
  0 <= kernel_end < W64 - 4096 -> 0 <= mboot_addr -> e + 4096 <= W64 ->
  tags_at info (mboot_addr + 8) ts e -> sum (entry_bytes kernel_end <$> all_entries ts) < W64 ->
  Forall (not_enclosing kernel_end mboot_addr e) (all_entries ts) ->
  exists n blocks,
    (forall fuel s, (n <= fuel)%nat -> boot_memory info kernel_end fuel mboot_addr s =
      (pmm_set_total (sum (entry_bytes kernel_end <$> all_entries ts));; add_blocks blocks;;
       mret (foldl (tag_data kernel_end) no_boot ts)) s) /\
    forall x, in_blocks blocks x <-> Exists (fun en => usable kernel_end mboot_addr e en x) (all_entries ts).
Proof.
  intros Hk Hm He Hts Htot Hne. pose proof (tags_at_end kernel_end Hk info ts _ _ Hts) as Hend.
  exists (S (length ts + length (all_entries ts))), (concat (zones_of kernel_end mboot_addr e <$> all_entries ts)). split.
  - intros fuel s Hf. by apply boot_memory_run.
  - apply (all_zones_usable kernel_end info mboot_addr e ts _ _ Hk Hm ltac:(lia) Hts Hne).
Qed.

(** Only the end points of the boot information are compared with the zone: a
    zone that lies inside of it is registered as a whole. *)
Lemma zones_enclosed kernel_end mb me addr len :
  0 <= kernel_end < W64 - 4096 -> 0 <= addr -> 0 <= len -> addr + len < W64 - 4096 -> kernel_end < addr + len ->
  let zone_start := (Z.max addr kernel_end + 4095) / 4096 * 4096 in
  mb < zone_start -> addr + len < me ->
  zones kernel_end mb me addr len MBOOT_MEM_AVAILABLE = Some [(zone_start, addr + len)].
Proof.
  intros Hk Ha Hlen Hw Hl z Hmb Hme. unfold zones, available. rewrite (u64_small (addr + len)) by lia.
  replace (kernel_end <? addr + len) with true by (symmetry; lia). cbn [Z.eqb MBOOT_MEM_AVAILABLE Pos.eqb andb].
  rewrite max_run, (ceil_u64_div_spec _ 0x1000) by lia. replace (Z.max addr kernel_end + 0x1000 - 1) with (Z.max addr kernel_end + 4095) by lia.
  change 0x1000 with 4096. fold z. assert (0 <= z < W64) by (unfold z; assert (0 <= Z.max addr kernel_end < W64 - 4096) by lia; generalize dependent (Z.max addr kernel_end); intros; dlia).
  rewrite u64_small by done. by replace (((z <=? mb) && (mb <=? addr + len)) || ((z <=? me) && (me <=? addr + len))) with false by (symmetry; lia).
Qed.

(** ** Boot information with four tags, in the middle of the second entry *)

Definition demo_tags : list tag :=
  [Other 1 9; Mmap 24 [(0, 0x9FC00, 1); (0x100000, 0x7F00000, 1); (0xFFFC0000, 0x40000, 2)];
   Framebuffer 0x80000000 4096 1024 768 38; Efi64 0x7F5EC018 16].
Definition demo_bytes : list Z :=
  unle 4 176 ++ unle 4 0 ++
  unle 4 1 ++ unle 4 9 ++ replicate 8 0 ++
  unle 4 6 ++ unle 4 88 ++ unle 4 24 ++ unle 4 0 ++
    unle 8 0 ++ unle 8 0x9FC00 ++ unle 4 1 ++ unle 4 0 ++
    unle 8 0x100000 ++ unle 8 0x7F00000 ++ unle 4 1 ++ unle 4 0 ++
    unle 8 0xFFFC0000 ++ unle 8 0x40000 ++ unle 4 2 ++ unle 4 0 ++
  unle 4 8 ++ unle 4 38 ++ unle 8 0x80000000 ++ unle 4 4096 ++ unle 4 1024 ++ unle 4 768 ++ replicate 12 0 ++
  unle 4 12 ++ unle 4 16 ++ unle 8 0x7F5EC018 ++
  unle 4 0 ++ unle 4 8.
Definition demo_info : gmap Z Z := list_to_map (zip (seqZ 0x300000 (Z.of_nat (length demo_bytes))) demo_bytes).

Lemma demo_layout : tags_at demo_info (0x300000 + 8) demo_tags 0x3000B0.
Proof. vm_compute. repeat split; congruence. Qed.

Lemma boot_memory_registers_witness :
  exists n blocks,
    (forall fuel s, (n <= fuel)%nat -> boot_memory demo_info 0x200000 fuel 0x300000 s =
      (pmm_set_total (sum (entry_bytes 0x200000 <$> all_entries demo_tags));; add_blocks blocks;;
       mret (Boot 0x7E00000 (0x7F5EC018 +64 KERNEL_OFFSET) 0x80000000 1024 768 4096)) s) /\
    forall x, in_blocks blocks x <-> Exists (fun en => usable 0x200000 0x300000 0x3000B0 en x) (all_entries demo_tags).
Proof.
  apply (boot_memory_registers demo_info 0x200000 0x300000 demo_tags 0x3000B0);
    [lia|lia|lia|exact demo_layout|vm_compute; reflexivity|].
  repeat constructor; vm_compute; intros [? ?]; congruence.
Defined.

End KMainProps.
