(* ===== verification/KMainBoot.v ===== *)
(** * The frame allocator after boot

    The blocks that [kmain] registers, put together with the operations of the
    frame allocator: a reference definition says which list nodes and which
    page frames a sequence of [pmm_add_block] calls makes, and after
    [pmm_init_final] the allocator has its invariant, with these frames. *)

From Stdlib Require Import Sorted.
From stdpp Require Import sorting.
From S2P Require Import Prelude KMath Machine Pmm Page Vmm KHeap PmmInit PmmProps VmmInit KMain KMainProps.
Import KMath Machine Pmm Page Vmm KHeap PmmInit PmmProps VmmInit KMain KMainProps.

Module KMainBoot.

(** ** The reference definition *)

Definition page_up (a : Z) : Z := (a + 4095) / 4096 * 4096.
(** How many nodes, and how many pages, start in [[a, b)]. *)
Definition slots (a b : Z) : nat := Z.to_nat ((b - a + 15) / 16).
Definition pages (a b : Z) : nat := Z.to_nat ((b - a + 4095) / 4096).

(** Nodes still needed, the nodes carved out so far, the frames found so far. *)
Record plan := Plan { need : nat; nodes : list Z; frames : list Z }.

Definition add_ref (p : plan) (blk : Z * Z) : plan :=
  let (a, b) := blk in
  match need p with
  | O => Plan O (nodes p) (frames p ++ frame_run (page_up a) (pages (page_up a) b))
  | n =>
    let c := slots a b in
    if (c <? n)%nat then Plan (n - c) (nodes p ++ node_run (a + KERNEL_OFFSET) c) (frames p)
    else
      let first := page_up (a + 16 * (Z.of_nat n - 1)) in
      Plan O (nodes p ++ node_run (a + KERNEL_OFFSET) n) (frames p ++ frame_run first (pages first b))
  end.

(** The list of the nodes with their frames; nodes without one have frame 0. *)
Definition node_list (p : plan) : list (Z * Z) :=
  zip (nodes p) (frames p) ++ ((., 0) <$> drop (length (frames p)) (nodes p)).

Record stage (s : kstate) (p : plan) : Prop := {
  stage_need : nodes_needed s = Z.of_nat (need p) /\ Z.of_nat (need p) < W64;
  stage_built : need p <> O -> built s (nodes p) /\ frames p = [];
  stage_filling : need p = O ->
    filling s (zip (nodes p) (frames p)) ((., 0) <$> drop (length (frames p)) (nodes p));
}.

Lemma slots_spec a b : a < b -> a + 16 * (Z.of_nat (slots a b) - 1) < b <= a + 16 * Z.of_nat (slots a b).
Proof. intros. unfold slots. rewrite Z2Nat.id by (apply Z.div_pos; lia). dlia. Qed.

Lemma slots_none a b : b <= a -> slots a b = O.
Proof. intros. unfold slots. assert ((b - a + 15) / 16 <= 0) by dlia. lia. Qed.

Lemma pages_spec a b : page_count a b (pages a b).
Proof.
  unfold page_count, pages. destruct (Z.le_gt_cases b a).
  - right. split; [|done]. assert ((b - a + 4095) / 4096 <= 0) by dlia. lia.
  - left. rewrite Z2Nat.id by (apply Z.div_pos; lia). dlia.
Qed.

Lemma zip_more (ns fs gs : list Z) :
  zip ns (fs ++ gs) = zip ns fs ++ zip (drop (length fs) ns) gs.
Proof.
  revert ns. induction fs as [|f fs IH]; intros [|n ns]; cbn; [done..|]. by rewrite IH.
Qed.

Lemma zip_cut (ns : list Z) (gs : list Z) : zip (take (length gs) ns) gs = zip ns gs.
Proof. revert ns. induction gs as [|g gs IH]; intros [|n ns]; cbn; [done..|]. by rewrite IH. Qed.

Lemma filling_more s ns fs first k :
  filling s (zip ns fs ++ zip (take k ((., 0) <$> drop (length fs) ns : list (Z * Z)).*1) (frame_run first k))
    (drop k ((., 0) <$> drop (length fs) ns)) ->
  filling s (zip ns (fs ++ frame_run first k)) ((., 0) <$> drop (length (fs ++ frame_run first k)) ns).
Proof.
  rewrite fst_zeros, zip_more, length_app, frame_run_length. rewrite <- (frame_run_length first k) at 1.
  by rewrite zip_cut, <- fmap_drop, drop_drop.
Qed.

(** The bounds that all the zones of [kmain] keep. *)
Definition zone_ok (blk : Z * Z) : Prop :=
  0 <= blk.1 < W64 - 2 * PAGE_SIZE /\ 0 <= blk.2 < W64 - 2 * PAGE_SIZE.

(** The direct map ends with the address space. *)
Definition node_low (x : Z) : Prop := x + sizeof_node <= W64.

Lemma add_block_empty s a b n :
  nodes_needed s = Z.of_nat (S n) -> b <= a -> pmm_add_block a b s = Ok tt s.
Proof.
  intros Hn Hab. unfold pmm_add_block. cbn [pmm_add_block_rec]. unfold mbind, M_bind, gets. rewrite Hn.
  destruct (Z.eqb_spec (Z.of_nat (S n)) 0); [lia|]. cbn [carve_nodes].
  destruct (Z.ltb_spec a b); [lia|]. cbn. rewrite Hn.
  by destruct (Z.eqb_spec (Z.of_nat (S n)) 0); [lia|].
Qed.

Lemma node_low_run a n : Forall node_low (node_run (a + KERNEL_OFFSET) (S n)) -> a + 16 * Z.of_nat (S n) <= TWO_GB.
Proof.
  intros H. rewrite Forall_forall in H. specialize (H (a + KERNEL_OFFSET + 16 * Z.of_nat n)).
  unfold node_low, sizeof_node, KERNEL_OFFSET, TWO_GB in *. rewrite node_run_elem in H.
  assert (a + 18446744071562067968 + 16 * Z.of_nat n + 16 <= W64) by (apply H; exists n; lia). lia.
Qed.

Lemma add_ref_stage s p blk :
  stage s p -> zone_ok blk ->
  Forall (node_backed s) (nodes (add_ref p blk)) -> Forall node_low (nodes (add_ref p blk)) ->
  apart (nodes (add_ref p blk)) ->
  exists s', pmm_add_block blk.1 blk.2 s = Ok tt s' /\ same_rest (nodes (add_ref p blk)) s s' /\ stage s' (add_ref p blk).
Proof.
  destruct blk as [a b]. intros [[Hn Hw] Hb Hf] [Ha He] Hback Hlow Hap. cbn [fst snd] in *.
  destruct p as [[|n] ns fs]; cbn [need nodes frames add_ref] in *; unfold PAGE_SIZE in *.
  { destruct (add_block_filling 1 s a b _ _ (pages (page_up a) b) (Hf eq_refl)) as (s' & Hr & Hs & Hf');
      [unfold PAGE_SIZE; lia..|apply pages_spec|].
    exists s'. split; [done|]. split; [eapply same_rest_more, Hs; rewrite fst_zeros; intros x Hx; rewrite <- (take_drop (length fs) ns); set_solver|].
    split; cbn; [split; [apply Hf'|lia]|done|]. intros _. by apply filling_more. }
  destruct (Hb ltac:(done)) as [Hbu ->]. destruct (Z.le_gt_cases b a) as [Hba|Hab].
  { rewrite (slots_none a b Hba) in *. cbn [Nat.ltb Nat.leb] in *. exists s. split; [by apply (add_block_empty s a b n)|].
    split; [done|]. cbn [node_run]. rewrite app_nil_r, Nat.sub_0_r. by split. }
  pose proof (slots_spec a b Hab) as Hc. assert (slots a b <> O) by lia.
  destruct (Nat.ltb_spec (slots a b) (S n)) as [Hlt|Hge]; cbn [need nodes frames] in *;
    apply Forall_app in Hback as [_ Hback], Hlow as [_ Hlow].
  - destruct (slots a b) as [|c] eqn:Ec; [done|].
    destruct (add_block_partial s a b ns (S n) (S c)) as (s' & Hr & Hbu' & Hn' & Hs);
      [done|done|lia|done|done|lia|by apply node_low_run|done|done|].
    exists s'. split_and!; [done..|]. split; cbn [need nodes frames]; [lia|done|lia].
  - destruct (add_block_complete s a b ns (S n) (slots a b) (pages (page_up (a + 16 * (Z.of_nat (S n) - 1))) b))
      as (s' & Hr & Hs & Hfil); [done|done|lia|done|done|lia|by apply node_low_run|unfold PAGE_SIZE; lia|done|done|apply pages_spec|].
    exists s'. split_and!; [done..|]. split; cbn [need nodes frames app]; [split; [apply Hfil|lia]|done|]. intros _.
    rewrite frame_run_length. rewrite <- (frame_run_length (page_up (a + 16 * (Z.of_nat (S n) - 1))) (pages _ b)) in Hfil at 1.
    by rewrite zip_cut in Hfil.
Qed.

(** The whole sequence of blocks. *)
Lemma add_ref_nodes p blk : exists l, nodes (add_ref p blk) = nodes p ++ l.
Proof.
  destruct blk as [a b], p as [[|n] ns fs]; cbn; [exists []; by rewrite app_nil_r|].
  case_match; eauto.
Qed.

Lemma add_refs_nodes blocks : forall p, exists l, nodes (foldl add_ref p blocks) = nodes p ++ l.
Proof.
  induction blocks as [|blk blocks IH]; intros p; cbn [foldl]; [exists []; by rewrite app_nil_r|].
  destruct (IH (add_ref p blk)) as [l ->]. destruct (add_ref_nodes p blk) as [l' ->]. rewrite <- app_assoc. eauto.
Qed.

Lemma add_refs_length blocks : forall p,
  let final := foldl add_ref p blocks in
  (need final + length (nodes final) = need p + length (nodes p))%nat.
Proof.
  induction blocks as [|[a b] blocks IH]; intros p; [done|]. cbn [foldl] in *. rewrite IH. clear.
  destruct p as [[|n] ns fs]; cbn [need nodes add_ref]; [done|].
  destruct (Nat.ltb_spec (slots a b) (S n)); cbn [need nodes]; rewrite length_app, node_run_length; lia.
Qed.

Lemma add_blocks_stage blocks : forall s p,
  let final := foldl add_ref p blocks in
  stage s p -> Forall zone_ok blocks -> Forall (node_backed s) (nodes final) -> Forall node_low (nodes final) ->
  apart (nodes final) ->
  exists s', add_blocks blocks s = Ok tt s' /\ same_rest (nodes final) s s' /\ stage s' final.
Proof.
  induction blocks as [|blk blocks IH]; intros s p final Hst Hok Hback Hlow Hap; [by exists s|].
  apply Forall_cons in Hok as [Hb Hok]. unfold final in *. cbn [foldl] in *.
  destruct (add_refs_nodes blocks (add_ref p blk)) as [l El].
  destruct (add_ref_stage s p blk Hst Hb) as (s1 & Hr1 & Hs1 & Hst1).
  { rewrite El in Hback. by apply Forall_app in Hback as [? _]. }
  { rewrite El in Hlow. by apply Forall_app in Hlow as [? _]. }
  { rewrite El in Hap. eapply apart_sublist, Hap. apply submseteq_inserts_r. done. }
  destruct (IH s1 _ Hst1 Hok) as (s2 & Hr2 & Hs2 & Hst2); [|done..|].
  { eapply Forall_impl; [exact Hback|]. intros x. by eapply node_backed_rest. }
  exists s2. split; [|split; [|done]].
  2: { eapply same_rest_trans; [|exact Hs2]. eapply same_rest_more, Hs1. rewrite El. set_solver. }
  destruct blk as [a b]. cbn [add_blocks]. by rewrite (bind_ok _ _ _ _ _ Hr1).
Qed.

(** ** Blocks in ascending order

    [block_end] is the end of the last node slot of a block, which is at or
    behind the end of the block. *)

Definition block_end (blk : Z * Z) : Z := blk.1 + 16 * Z.of_nat (slots blk.1 blk.2).
Definition ascending : list (Z * Z) -> Prop := StronglySorted (fun x y => block_end x <= y.1).

Definition spaced (d : Z) : list Z -> Prop := StronglySorted (fun x y => x + d <= y).

Lemma frame_run_elem p k x : x ∈ frame_run p k <-> exists i, (i < k)%nat /\ x = p + 4096 * Z.of_nat i.
Proof.
  revert p. induction k as [|k IH]; intros p; cbn.
  - split; [set_solver|]. intros (i & ? & _). lia.
  - rewrite elem_of_cons, IH. unfold PAGE_SIZE. split.
    + intros [->|(i & ? & ->)]; [exists 0%nat; lia|exists (S i); lia].
    + intros ([|i] & ? & ->); [left; lia|right; exists i; lia].
Qed.

Lemma node_run_spaced p k : spaced 16 (node_run p k).
Proof.
  revert p. induction k as [|k IH]; intros p; [constructor|]. cbn. constructor; [apply IH|].
  apply Forall_forall. intros x (i & _ & ->)%node_run_elem. unfold sizeof_node. lia.
Qed.

Lemma frame_run_spaced p k : spaced 4096 (frame_run p k).
Proof.
  revert p. induction k as [|k IH]; intros p; [constructor|]. cbn. constructor; [apply IH|].
  apply Forall_forall. intros x (i & _ & ->)%frame_run_elem. unfold PAGE_SIZE. lia.
Qed.

Lemma spaced_NoDup d l : 0 < d -> spaced d l -> NoDup l.
Proof.
  intros Hd. induction 1 as [|x l Hs IH Hx]; constructor; [|done]. intros Hin.
  rewrite Forall_forall in Hx. specialize (Hx x Hin). lia.
Qed.

Lemma spaced_apart l : spaced 16 l -> apart l.
Proof.
  intros Hs. split; [by eapply (spaced_NoDup 16)|]. unfold next_of, addr_of. intros x y Hx Hy.
  apply list_elem_of_split in Hx as (l1 & l2 & ->). apply StronglySorted_app in Hs as (H12 & _ & H2).
  apply StronglySorted_cons in H2 as [H2 _]. rewrite Forall_forall in H2.
  apply elem_of_app in Hy as [Hy|[->|Hy]%elem_of_cons]; [specialize (H12 y x Hy ltac:(left))|lia|specialize (H2 y Hy)]; lia.
Qed.

(** Everything planned so far lies below [lo], nodes in front of frames. *)
Record below (p : plan) (lo : Z) : Prop := {
  below_none : need p <> O -> frames p = [];
  below_nodes : spaced 16 (nodes p);
  below_nodes_lo : forall x, x ∈ nodes p -> x + 16 <= lo + KERNEL_OFFSET;
  below_frames : spaced 4096 (frames p);
  below_frames_lo : forall f, f ∈ frames p -> f < lo /\ f mod 4096 = 0;
  below_order : forall x f, x ∈ nodes p -> f ∈ frames p -> x <= f + KERNEL_OFFSET;
}.

Lemma page_up_spec a : a <= page_up a /\ page_up a mod 4096 = 0.
Proof. unfold page_up. split; [dlia|]. by rewrite Z.mod_mul. Qed.

(** The frames of a block. *)
Lemma block_frames a b f : f ∈ frame_run (page_up a) (pages (page_up a) b) -> a <= f < b /\ f mod 4096 = 0.
Proof.
  intros (i & Hi & ->)%frame_run_elem. pose proof (page_up_spec a) as [H1 H2].
  destruct (pages_spec (page_up a) b) as [?|[? _]]; [|lia]. split; [lia|].
  by rewrite (Z.mul_comm 4096), Z.mod_add.
Qed.

Lemma block_end_le a b : a <= block_end (a, b) /\ b <= block_end (a, b).
Proof.
  unfold block_end. cbn. split; [lia|]. destruct (Z.le_gt_cases b a); [lia|]. pose proof (slots_spec a b). lia.
Qed.

Lemma frames_more fs lo a b : spaced 4096 fs -> (forall f, f ∈ fs -> f < lo /\ f mod 4096 = 0) -> lo <= a ->
  let fs' := fs ++ frame_run (page_up a) (pages (page_up a) b) in
  spaced 4096 fs' /\ forall f hi, f ∈ fs' -> lo <= hi -> b <= hi -> f < hi /\ f mod 4096 = 0.
Proof.
  intros Hs Hlo Ha. split.
  - apply StronglySorted_app. split_and!; [|done|apply frame_run_spaced].
    intros x y Hx Hy%block_frames. apply Hlo in Hx. destruct Hx, Hy as [? ?]. dlia.
  - intros f hi [Hf|Hf%block_frames]%elem_of_app ? ?; [apply Hlo in Hf|]; lia.
Qed.

Lemma nodes_more ns lo a k : spaced 16 ns -> (forall x, x ∈ ns -> x + 16 <= lo + KERNEL_OFFSET) -> lo <= a ->
  let ns' := ns ++ node_run (a + KERNEL_OFFSET) k in
  spaced 16 ns' /\ forall x, x ∈ ns' -> x + 16 <= a + 16 * Z.of_nat k + KERNEL_OFFSET.
Proof.
  intros Hs Hlo Ha. split.
  - apply StronglySorted_app. split_and!; [|done|apply node_run_spaced].
    intros x y Hx (i & _ & ->)%node_run_elem. apply Hlo in Hx. lia.
  - intros x [Hx|(i & ? & ->)%node_run_elem]%elem_of_app; [apply Hlo in Hx|]; lia.
Qed.

Lemma add_ref_below p lo blk : below p lo -> lo <= blk.1 -> below (add_ref p blk) (block_end blk).
Proof.
  destruct blk as [a b]. intros [H0 Hn Hnl Hf Hfl Ho] Ha. cbn [fst] in Ha. pose proof (block_end_le a b) as [H1 H2].
  destruct p as [[|n] ns fs]; cbn [need nodes frames add_ref] in *.
  { destruct (frames_more fs lo a b Hf Hfl Ha) as [Hf1 Hf2]. split; cbn [need nodes frames]; [done|done| |done| |].
    - intros x Hx%Hnl. lia.
    - intros f Hin. apply Hf2; [done|lia..].
    - intros x f Hx [Hin|Hin%block_frames]%elem_of_app; [by apply Ho|]. apply Hnl in Hx. lia. }
  rewrite (H0 ltac:(done)) in *. destruct (Nat.ltb_spec (slots a b) (S n)) as [Hlt|Hge].
  - destruct (nodes_more ns lo a (slots a b) Hn Hnl Ha) as [Hn1 Hn2].
    split; cbn [need nodes frames]; [done|done| |done|by intros f ?%elem_of_nil|by intros x f _ ?%elem_of_nil].
    intros x Hx%Hn2. unfold block_end. cbn. lia.
  - destruct (nodes_more ns lo a (S n) Hn Hnl Ha) as [Hn1 Hn2]. cbn [app].
    split; cbn [need nodes frames]; [done|done| |apply frame_run_spaced| |].
    + intros x Hx%Hn2. unfold block_end. cbn. lia.
    + intros f Hin%block_frames. lia.
    + intros x f Hx%Hn2 Hin%block_frames. lia.
Qed.

Lemma below_mono p lo lo' : below p lo -> lo <= lo' -> below p lo'.
Proof.
  intros [H0 Hn Hnl Hf Hfl Ho] Hle. split; [done|done| |done| |done].
  - intros x Hx%Hnl. lia.
  - intros f Hx%Hfl. lia.
Qed.

Lemma add_refs_below blocks : forall p lo,
  below p lo -> ascending blocks -> Forall (fun b => lo <= b.1) blocks -> exists hi, below (foldl add_ref p blocks) hi.
Proof.
  induction blocks as [|blk blocks IH]; intros p lo Hb Hs Hlo; [by exists lo|]. cbn [foldl].
  apply StronglySorted_cons in Hs as [Hblk Hs]. apply Forall_cons in Hlo as [Hl Hlo].
  by apply (IH _ (block_end blk)); [apply (add_ref_below p lo)|..].
Qed.

(** Every frame starts in a block. *)
Lemma add_refs_in_blocks blocks : forall p f,
  f ∈ frames (foldl add_ref p blocks) -> f ∈ frames p \/ in_blocks blocks f.
Proof.
  induction blocks as [|[a b] blocks IH]; intros p f; [by left|]. cbn [foldl].
  intros [Hf|Hf]%IH; [|right; by apply Exists_cons_tl]. unfold in_blocks. rewrite Exists_cons. cbn [fst snd].
  destruct p as [[|n] ns fs]; cbn [need nodes frames add_ref] in *.
  - apply elem_of_app in Hf as [Hf|Hf%block_frames]; [by left|]. right. left. lia.
  - destruct (Nat.ltb_spec (slots a b) (S n)); cbn [frames] in *; [by left|].
    apply elem_of_app in Hf as [Hf|Hf%block_frames]; [by left|]. right. left. lia.
Qed.

(** Every node lies in a block that is not empty. *)
Lemma add_refs_nodes_in blocks : forall p x,
  x ∈ nodes (foldl add_ref p blocks) ->
  x ∈ nodes p \/ exists blk, blk ∈ blocks /\ blk.1 < blk.2 /\ blk.1 + KERNEL_OFFSET <= x.
Proof.
  induction blocks as [|[a b] blocks IH]; intros p x; [by left|]. cbn [foldl].
  intros [Hx|(blk & Hblk & H)]%IH; [|right; exists blk; split; [by right|done]].
  assert (Hin : forall k, x ∈ node_run (a + KERNEL_OFFSET) k -> (k <= slots a b)%nat ->
    exists blk, blk ∈ (a, b) :: blocks /\ blk.1 < blk.2 /\ blk.1 + KERNEL_OFFSET <= x).
  { intros k (i & Hi & ->)%node_run_elem Hk. exists (a, b). split; [left|]. cbn [fst snd].
    split; [|lia]. destruct (Z.le_gt_cases b a) as [H|]; [|done]. apply slots_none in H. lia. }
  destruct p as [[|n] ns fs]; cbn [need nodes add_ref] in *; [by left|].
  destruct (Nat.ltb_spec (slots a b) (S n)); cbn [nodes] in *; apply elem_of_app in Hx as [Hx|Hx]; [by left| |by left|];
    right; by eapply Hin.
Qed.

(** ** The split at 2 GiB *)

Abbreviation low_frame := (fun a => a < TWO_GB).

Lemma first_high (l : list (Z * Z)) :
  Forall low_frame (tail l).*2 \/
  exists l1 n a h ah l2, l = l1 ++ (n, a) :: (h, ah) :: l2 /\
    Forall low_frame (tail (l1 ++ [(n, a)])).*2 /\ TWO_GB <= ah.
Proof.
  destruct l as [|[n a] l]; [left; constructor|]. cbn [tail].
  revert n a. induction l as [|[h ah] l IH]; intros n a; [left; constructor|].
  destruct (Z.le_gt_cases TWO_GB ah) as [Hh|Hh]; [right; exists [], n, a, h, ah, l; cbn; auto|].
  destruct (IH h ah) as [Hl|(l1 & n' & a' & h' & ah' & l2 & E & Hl & Hge)]; [left; by constructor|].
  right. exists ((n, a) :: l1), n', a', h', ah', l2. rewrite E. split_and!; [done| |done].
  destruct l1 as [|x l1]; cbn -[TWO_GB] in *; injection E as <- E; constructor; cbn; try constructor; try done; lia.
Qed.

Lemma split_at_2g_none fuel s p l :
  chain (mem s) p l -> Forall low_frame (tail l).*2 -> (length l < fuel)%nat -> split_at_2g fuel p s = Ok tt s.
Proof.
  unfold chain. revert p fuel. induction l as [|[n a] l IH]; intros p [|fuel]; cbn -[TWO_GB]; try lia; [by intros ->|].
  intros (-> & Hz & nx & Hn & Ha & Hs) Hlow Hf. unfold mbind, M_bind, rd. rewrite (proj2 (Z.eqb_neq _ _) Hz), Hn.
  destruct l as [|[n1 a1] l]; cbn -[TWO_GB] in Hs; [by rewrite Hs|].
  pose proof Hs as (-> & Hz1 & _ & _ & Ha1 & _). apply Forall_cons in Hlow as [Hlt Hlow]. cbn -[TWO_GB] in Hlt.
  rewrite (proj2 (Z.eqb_neq _ _) Hz1), Ha1. destruct (Z.leb_spec TWO_GB a1); [lia|].
  apply IH; [done|done|lia].
Qed.

(** What the boot-time operations of the allocator leave alone. *)
Record node_upd (ns : list Z) (s s' : kstate) : Prop := {
  nu_out : forall w, (forall n, n ∈ ns -> w <> next_of n /\ w <> addr_of n) -> mem s' !! w = mem s !! w;
  nu_mono : mem_mono (mem s) (mem s');
  nu_pml4 : pml4_addr s' = pml4_addr s;
}.

Lemma node_upd_trans ns s1 s2 s3 : node_upd ns s1 s2 -> node_upd ns s2 s3 -> node_upd ns s1 s3.
Proof.
  intros [H1 M1 E1] [H2 M2 E2]. split; [|by eapply mem_mono_trans|congruence]. intros w Hw. by rewrite H2, H1.
Qed.

Lemma rest_upd ns s s' : same_rest ns s s' -> node_upd ns s s'.
Proof. intros [H1 Hd _ _ H4 _]. split; [done| |done]. intros w. rewrite <- !elem_of_dom. by rewrite Hd. Qed.

(** Redirecting a node of the list. *)
Lemma next_upd ns s n v : n ∈ ns -> node_upd ns s (set_mem (insert (next_of n) v) s).
Proof.
  intros Hn. split; [|apply mem_mono_insert|done]. intros w Hw. apply lookup_insert_ne. intros <-. by destruct (Hw n Hn).
Qed.

Lemma init_final_run s l :
  chain (mem s) (pmm_low s) l -> apart l.*1 -> pmm_high s = 0 -> pmm_free_list s = 0 ->
  exists s' low high, pmm_init_final s = Ok tt s' /\ node_upd l.*1 s s' /\ pmm_inv s' low high [] 0 /\ low ++ high = l /\
    Forall low_frame (tail low).*2 /\ (forall x, head high = Some x -> TWO_GB <= x.2).
Proof.
  intros Hc Hap Hh Hu. pose proof (chain_fuel _ _ _ Hc) as Hf. unfold pmm_init_final, mbind, M_bind, gets.
  destruct (first_high l) as [Hl|(l1 & n & a & h & ah & l2 & -> & Hl & Hge)].
  - exists s, l, []. rewrite app_nil_r. split_and!; [by apply (split_at_2g_none _ _ _ l)|split; [done|apply mem_mono_refl|done]| |done..].
    split; [done|done|done|by rewrite app_nil_r].
  - eexists _, (l1 ++ [(n, a)]), ((h, ah) :: l2). rewrite <- app_assoc.
    split_and!; [apply (split_at_2g_run _ s (pmm_low s) l1 n a h ah l2); try done; rewrite length_app in Hf; cbn in Hf; lia| | |done..|by intros ? [= <-]].
    { destruct (next_upd (l1 ++ (n, a) :: (h, ah) :: l2).*1 s n 0); [rewrite fmap_app; set_solver|by split]. }
    destruct (seg_cut _ _ _ _ _ _ 0 _ Hc Hap) as (nx & Hn & H1 & H2). split; cbn -[seg]; [done| |done|].
    + assert (nx = h) as <- by (by destruct H2). done.
    + by rewrite app_nil_r, <- app_assoc.
Qed.

(** ** Boot *)

(** The number of nodes that [pmm_set_total] asks for. *)
Definition nodes_for (total : Z) : nat := Z.to_nat (total / 4112 - (if total mod 4112 =? 0 then 1 else 2)).

Lemma set_total_run s total :
  3 * 4112 <= total < W64 -> exists s1, pmm_set_total total s = Ok tt s1 /\
    nodes_needed s1 = Z.of_nat (nodes_for total) /\ 0 < Z.of_nat (nodes_for total) < W64 /\
    mem s1 = mem s /\ pmm_low s1 = pmm_low s /\ same_rest [] s s1.
Proof.
  intros Ht. assert (3 <= total / 4112 < W64) by dlia. unfold pmm_set_total, nodes_for.
  change (PAGE_SIZE + sizeof_node) with 4112. rewrite floor_u64_div_spec by lia.
  assert (Hz : (if total mod 4112 =? 0 then total / 4112 else total / 4112 -64 1) -64 1 =
    Z.of_nat (Z.to_nat (total / 4112 - (if total mod 4112 =? 0 then 1 else 2)))).
  { case_match; rewrite ?(u64_small (total / 4112 - 1)), ?u64_small; lia. }
  eexists. split; [done|]. cbn. rewrite Hz. split_and!; [done|case_match; lia..|done|done|done].
Qed.

(** In ascending frames, with zeros behind them, everything behind a frame
    above 2 GiB is above 2 GiB or zero. *)
Lemma node_list_nodes p : (node_list p).*1 = nodes p.
Proof.
  unfold node_list. rewrite fmap_app, fst_zeros, <- zip_cut, fst_zip, take_drop; [done|]. rewrite length_take. lia.
Qed.

Lemma node_list_sorted p lo : below p lo -> StronglySorted (fun x y => x.2 <= y.2 \/ y.2 = 0) (node_list p).
Proof.
  intros Hb. unfold node_list. apply StronglySorted_app. split_and!.
  - intros x y _ (z & -> & _)%list_elem_of_fmap. by right.
  - pose proof (below_frames _ _ Hb) as Hs. revert Hs. generalize (frames p) as fs, (nodes p) as ns.
    induction fs as [|f fs IH]; intros [|n ns] Hs; cbn; try constructor; apply StronglySorted_cons in Hs as [Hf Hs]; [by apply IH|].
    apply Forall_forall. intros [x y] Hin%elem_of_zip_r. rewrite Forall_forall in Hf. specialize (Hf y Hin). cbn. lia.
  - induction (drop _ _) as [|n ns IH]; cbn; constructor; [done|]. apply Forall_forall. intros x (z & -> & _)%list_elem_of_fmap. by right.
Qed.

Lemma high_frames p lo low high : below p lo -> low ++ high = node_list p -> (forall x, head high = Some x -> TWO_GB <= x.2) ->
  Forall (fun a => TWO_GB <= a \/ a = 0) high.*2.
Proof.
  intros Hb El Hh. pose proof (node_list_sorted p lo Hb) as Hs. rewrite <- El in Hs. apply StronglySorted_app in Hs as (_ & _ & Hs).
  destruct high as [|x high]; [constructor|]. specialize (Hh x eq_refl). apply StronglySorted_cons in Hs as [Hs _]. cbn. constructor; [by left|].
  apply Forall_fmap. eapply Forall_impl; [exact Hs|]. cbn. intros y. lia.
Qed.

Lemma add_blocks_ready s blocks n :
  let p := foldl add_ref (Plan n [] []) blocks in
  ascending blocks -> Forall zone_ok blocks -> need p = O -> Forall (node_backed s) (nodes p) -> Forall node_low (nodes p) ->
  nodes_needed s = Z.of_nat n -> 0 < Z.of_nat n < W64 -> pmm_low s = 0 -> pmm_high s = 0 -> pmm_free_list s = 0 ->
  exists s' low high, (add_blocks blocks;; pmm_init_final) s = Ok tt s' /\ node_upd (nodes p) s s' /\ pmm_inv s' low high [] 0 /\ low ++ high = node_list p /\
    Forall low_frame (tail low).*2 /\ Forall (fun a => TWO_GB <= a \/ a = 0) high.*2 /\
    (forall x, head high = Some x -> TWO_GB <= x.2) /\ exists hi, below p hi.
Proof.
  intros p Has Hok Hneed Hback Hlow Hn Hn0 Hl Hh Hu.
  destruct (add_refs_below blocks (Plan n [] []) 0) as [hi Hb]; [|done|eapply Forall_impl; [exact Hok|intros b Hb; apply Hb]|].
  { split; cbn; [done|constructor|by intros ? ?%elem_of_nil|constructor|by intros ? ?%elem_of_nil|by intros ? ? ?%elem_of_nil]. }
  destruct (add_blocks_stage blocks s (Plan n [] [])) as (s1 & Hr & Hs & Hst); try done.
  { split; cbn; [lia|split; [by left|done]|lia]. }
  { apply spaced_apart, Hb. }
  destruct (stage_filling _ _ Hst Hneed) as [_ Hpre Htodo Hap]. fold p in Hpre, Htodo, Hap.
  destruct (init_final_run s1 (node_list p)) as (s2 & low & high & Hr2 & Hu2 & Hinv & El & Hl2 & Hh2).
  - apply seg_app. eauto.
  - rewrite node_list_nodes. apply spaced_apart, Hb.
  - rewrite (rest_high _ _ _ Hs). done.
  - rewrite (rest_free_list _ _ _ Hs). done.
  - exists s2, low, high. rewrite (bind_ok _ _ _ _ _ Hr). rewrite node_list_nodes in Hu2.
    split_and!; try done; [by eapply node_upd_trans; [apply rest_upd|]|by eapply high_frames|by exists hi].
Qed.

(** Everything behind the kernel, the zones and the plan of a list of tags. *)
Definition total_bytes (kernel_end : Z) (ts : list tag) : Z := sum (entry_bytes kernel_end <$> all_entries ts).
Definition all_zones (kernel_end mb me : Z) (ts : list tag) : list (Z * Z) :=
  concat (zones_of kernel_end mb me <$> all_entries ts).
Definition boot_plan (kernel_end mb me : Z) (ts : list tag) : plan :=
  foldl add_ref (Plan (nodes_for (total_bytes kernel_end ts)) [] []) (all_zones kernel_end mb me ts).

(** What the boot loader and the machine provide: the tags [ts] in memory from
    [mb] to [me], zones in ascending order that hold all the nodes in reach of
    the direct map, and globals that are still zero. *)
Record bootable (info : gmap Z Z) (kernel_end mb me : Z) (ts : list tag) (s : kstate) : Prop := {
  bt_kernel : 0 <= kernel_end < W64 - 4096;
  bt_info : 0 <= mb /\ me + 4096 <= W64;
  bt_tags : tags_at info (mb + 8) ts me;
  bt_inside : Forall (not_enclosing kernel_end mb me) (all_entries ts);
  bt_total : 3 * 4112 <= total_bytes kernel_end ts < W64;
  bt_ascending : ascending (all_zones kernel_end mb me ts);
  bt_zones : Forall zone_ok (all_zones kernel_end mb me ts);
  bt_need : need (boot_plan kernel_end mb me ts) = O;
  bt_backed : Forall (node_backed s) (nodes (boot_plan kernel_end mb me ts));
  bt_low : Forall node_low (nodes (boot_plan kernel_end mb me ts));
  bt_fresh : pmm_low s = 0 /\ pmm_high s = 0 /\ pmm_free_list s = 0;
}.

Section boot.
Context (info : gmap Z Z) (kernel_end mb me : Z) (ts : list tag) (s : kstate).
Hypothesis Hboot : bootable info kernel_end mb me ts s.
Let p := boot_plan kernel_end mb me ts.

Lemma boot_zones_usable x : in_blocks (all_zones kernel_end mb me ts) x <->
  Exists (fun en => usable kernel_end mb me en x) (all_entries ts).
Proof.
  destruct Hboot as [Hk [Hm He] Hts Hne _ _ _ _ _ _ _]. pose proof (tags_at_end kernel_end Hk info ts _ _ Hts).
  apply (all_zones_usable kernel_end info mb me ts _ _ Hk Hm ltac:(lia) Hts Hne).
Qed.

Lemma boot_frame_usable f : f ∈ frames p -> Exists (fun en => usable kernel_end mb me en f) (all_entries ts).
Proof. intros Hin. apply boot_zones_usable. by apply add_refs_in_blocks in Hin as [?%elem_of_nil|?]. Qed.

Lemma boot_nodes_length : length (nodes p) = nodes_for (total_bytes kernel_end ts).
Proof.
  pose proof (add_refs_length (all_zones kernel_end mb me ts) (Plan (nodes_for (total_bytes kernel_end ts)) [] [])) as E.
  pose proof (bt_need _ _ _ _ _ _ Hboot) as Hn. fold (boot_plan kernel_end mb me ts) in E. cbn [need nodes length] in E. fold p in E, Hn. lia.
Qed.

(** The walks and [pmm_init_final], in front of any [k]. *)
Lemma boot_pmm_run fuel : (S (length ts + length (all_entries ts)) <= fuel)%nat ->
  exists s' low high,
    (forall A (k : boot -> K A), (b ← boot_memory info kernel_end fuel mb; pmm_init_final;; k b) s
      = k (foldl (tag_data kernel_end) no_boot ts) s') /\
    node_upd (nodes p) s s' /\ pmm_inv s' low high [] 0 /\ low ++ high = node_list p /\
    Forall low_frame (tail low).*2 /\ Forall (fun a => TWO_GB <= a \/ a = 0) high.*2 /\
    (forall x, head high = Some x -> TWO_GB <= x.2) /\ exists hi, below p hi.
Proof.
  intros Hf. destruct Hboot as [Hk [Hm He] Hts Hne Ht Has Hok Hneed Hback Hlow (Hl & Hh & Hu)].
  destruct (set_total_run s _ Ht) as (s1 & Hr1 & Hn & Hn0 & Hmem & Hl1 & Hs1).
  destruct (add_blocks_ready s1 _ _ Has Hok Hneed) as (s2 & low & high & Hr2 & Hu2 & Hrest);
    [|done|done|done|congruence|by rewrite (rest_high _ _ _ Hs1)|by rewrite (rest_free_list _ _ _ Hs1)|].
  { eapply Forall_impl; [exact Hback|]. intros x. by eapply node_backed_rest. }
  exists s2, low, high. split; [|split; [|done]].
  - intros A k. unfold mbind at 1, M_bind at 1.
    rewrite (boot_memory_run info kernel_end mb ts me) by (done || apply Ht). fold (total_bytes kernel_end ts) (all_zones kernel_end mb me ts).
    rewrite (bind_ok _ _ _ _ _ Hr1). revert Hr2. unfold mbind, M_bind, mret, M_ret.
    destruct (add_blocks _ s1); [|done..]. by intros ->.
  - eapply node_upd_trans, Hu2. apply rest_upd. eapply same_rest_more, Hs1. by intros ? ?%elem_of_nil.
Qed.

End boot.

(** C10. From the boot information to a working frame allocator.  The machine is
    [bootable]: the tags lie in memory from [mb] to [me]; the boot information
    encloses the usable part of no entry (otherwise that part is handed out,
    see [zones_enclosed]); the entries have at least 3*4112 bytes available
    behind the kernel; the zones come in ascending order, do not reach the end
    of the address space, and have room for all nodes; the nodes lie in RAM
    that the direct map reaches; and the allocator's lists are still empty.
    Then the walks of [kmain] and [pmm_init_final] end in a state with the
    allocator's invariant: the low and the high free list hold one node for
    every 4112 bytes of available memory (less one or two), carved from the
    first zones, and the nodes have the page frames that follow, in order, each
    frame once.  Every frame is page aligned, starts in usable memory (so in no
    part of the kernel or the boot information) and not in front of any node;
    all frames of the low list but perhaps the first are below 2 GiB, those of
    the high list above.  Nodes for which the zones have no page keep frame
    0. *)
Theorem boot_frames info kernel_end mb me ts s :
  let p := boot_plan kernel_end mb me ts in
  bootable info kernel_end mb me ts s ->
  exists n, forall fuel, (n <= fuel)%nat -> exists s' low high,
    (b ← boot_memory info kernel_end fuel mb; pmm_init_final;; mret b) s
      = Ok (foldl (tag_data kernel_end) no_boot ts) s' /\
    pmm_inv s' low high [] 0 /\ low ++ high = node_list p /\
    length (nodes p) = nodes_for (total_bytes kernel_end ts) /\
    Forall low_frame (tail low).*2 /\ Forall (fun a => TWO_GB <= a \/ a = 0) high.*2 /\
    NoDup (frames p) /\
    forall f, f ∈ frames p -> f mod 4096 = 0 /\ Exists (fun en => usable kernel_end mb me en f) (all_entries ts) /\
      forall x, x ∈ nodes p -> x <= f + KERNEL_OFFSET.
Proof.
  intros p Hboot. exists (S (length ts + length (all_entries ts))). intros fuel Hf.
  destruct (boot_pmm_run _ _ _ _ _ _ Hboot fuel Hf) as (s' & low & high & Hr & _ & Hinv & El & Hlo & Hhi & _ & hi & Hb).
  exists s', low, high. split_and!; [apply Hr|done|done|by eapply boot_nodes_length|done|done|by eapply (spaced_NoDup 4096), Hb|].
  intros f Hin. split; [by apply (below_frames_lo _ _ Hb)|]. split; [by eapply boot_frame_usable|].
  intros x Hx. by apply (below_order _ _ Hb).
Qed.

(** ** Boot information with two available entries, the second above 2 GiB *)

Definition small_tags : list tag := [Mmap 24 [(0x100000, 0x108000, 1); (0x80000000, 0x3000, 1)]].
Definition small_bytes : list Z :=
  unle 4 80 ++ unle 4 0 ++
  unle 4 6 ++ unle 4 64 ++ unle 4 24 ++ unle 4 0 ++
    unle 8 0x100000 ++ unle 8 0x108000 ++ unle 4 1 ++ unle 4 0 ++
    unle 8 0x80000000 ++ unle 8 0x3000 ++ unle 4 1 ++ unle 4 0 ++
  unle 4 0 ++ unle 4 8.
Definition small_info : gmap Z Z := list_to_map (zip (seqZ 0x10000 (Z.of_nat (length small_bytes))) small_bytes).
Definition small_plan : plan := foldl add_ref (Plan 8 [] []) [(0x200000, 0x208000); (0x80000000, 0x80003000)].
Definition small_state : kstate := boot_state (ram (0x200000 + KERNEL_OFFSET) 16).

Lemma small_blocks : all_zones 0x200000 0x10000 0x10050 small_tags = [(0x200000, 0x208000); (0x80000000, 0x80003000)].
Proof. vm_compute. reflexivity. Qed.

Lemma small_plan_eq : boot_plan 0x200000 0x10000 0x10050 small_tags = small_plan.
Proof. vm_compute. reflexivity. Qed.

Lemma small_bootable : bootable small_info 0x200000 0x10000 0x10050 small_tags small_state.
Proof.
  split; rewrite ?small_blocks, ?small_plan_eq; [lia|lia|..].
  - vm_compute. repeat split; congruence.
  - repeat constructor; vm_compute; intros [? ?]; congruence.
  - vm_compute. split; congruence.
  - repeat constructor. vm_compute. congruence.
  - repeat constructor; vm_compute; congruence.
  - reflexivity.
  - repeat constructor; try (vm_compute; congruence); eexists; vm_compute; reflexivity.
  - repeat constructor; vm_compute; congruence.
  - repeat split.
Qed.

Lemma boot_frames_witness :
  exists n, forall fuel, (n <= fuel)%nat -> exists s' low high,
    (b ← boot_memory small_info 0x200000 fuel 0x10000; pmm_init_final;; mret b) small_state
      = Ok (foldl (tag_data 0x200000) no_boot small_tags) s' /\
    pmm_inv s' low high [] 0 /\ low ++ high = node_list small_plan /\ length (nodes small_plan) = 8%nat /\
    Forall low_frame (tail low).*2 /\ Forall (fun a => TWO_GB <= a \/ a = 0) high.*2 /\
    NoDup (frames small_plan) /\
    forall f, f ∈ frames small_plan -> f mod 4096 = 0 /\
      Exists (fun en => usable 0x200000 0x10000 0x10050 en f) (all_entries small_tags) /\
      forall x, x ∈ nodes small_plan -> x <= f + KERNEL_OFFSET.
Proof.
  rewrite <- small_plan_eq. apply (boot_frames small_info 0x200000 0x10000 0x10050 small_tags small_state). apply small_bootable.
Defined.

(** ** Fewer pages than nodes

    The number of nodes is computed from all the bytes behind the kernel; the
    pages of the boot information are among them but are not handed out. *)

Lemma short_of_frames p : (length (frames p) < length (nodes p))%nat -> 0 ∈ (node_list p).*2.
Proof.
  intros Hlt. unfold node_list. rewrite fmap_app, elem_of_app. right.
  destruct (drop _ _) as [|n ns] eqn:E; [apply (f_equal length) in E; rewrite length_drop in E; cbn in E; lia|]. left.
Qed.

(** The boot information fills the pages from 0x204000 to 0x207000. *)
Definition wide_info : gmap Z Z :=
  let put a l := list_to_map (zip (seqZ a (Z.of_nat (length l))) l) in
  put 0x204000 (unle 4 0x3000 ++ unle 4 0 ++ unle 4 6 ++ unle 4 40 ++ unle 4 24 ++ unle 4 0 ++
                unle 8 0x100000 ++ unle 8 0x108000 ++ unle 4 1 ++ unle 4 0 ++ unle 4 17 ++ unle 4 0x2FC8) ∪
  put 0x206FF8 (unle 4 0 ++ unle 4 8).

Fixpoint allocs (n : nat) : K (list Z) :=
  match n with O => mret [] | S n' => a ← pmm_alloc_low; l ← allocs n'; mret (a :: l) end.

(** With 32 KiB behind the kernel and boot information of 12 KiB among them
    there are five nodes for four pages: the fifth allocation returns 0. *)
Example boot_hands_out_zero :
  match (boot_memory wide_info 0x200000 10 0x204000;; pmm_init_final;; allocs 5)
          (boot_state (ram (0x200000 + KERNEL_OFFSET) 16)) with
  | Ok l _ => l = [0x201000; 0x202000; 0x203000; 0x207000; 0]
  | _ => False
  end.
Proof. vm_compute. reflexivity. Qed.

End KMainBoot.
