(* ===== verification/KMainReady.v ===== *)
(** * The memory managers after boot

    [kmain_memory] as a whole: the walks over the boot information, the frame
    allocator, the removal of the identity map, the reservation of the
    framebuffer and the allocator of virtual memory.  Afterwards the
    invariants that the theorems on paging, on virtual memory and on the heap
    start from hold together. *)

From S2P Require Import Prelude KMath Machine Pmm PmmInit PmmProps Page PageEntry PageTables PageOps PageProps.
From S2P Require Import Vmm VmmList VmmBlocks VmmOps VmmInit KHeap KMain KMainProps KMainBoot.
Import KMath Machine Pmm PmmInit PmmProps KMalloc Page PageEntry PageTables PageOps PageProps.
Import Vmm VmmList VmmBlocks VmmOps VmmInit KHeap KMain KMainProps KMainBoot.

Module KMainReady.

(** ** [pmm_clear_blocks] on any list *)

(** The end node of the search lies in the list, and the start node is the
    initial one or lies in the list, not behind the end node. *)
Lemma clear_search_any fuel s st e : forall p l sn,
  seg (mem s) p l 0 -> (length l < fuel)%nat ->
  exists a b, clear_search fuel p st e sn s = Ok (a, b) s /\
    (b = 0 \/ exists l1 be l2, l = l1 ++ (b, be) :: l2 /\ (a = sn \/ a ∈ (l1 ++ [(b, be)]).*1)).
Proof.
  induction fuel as [|fuel IH]; intros p [|[n x] l] sn Hs Hf; cbn in Hs, Hf |- *; try lia.
  { rewrite Hs. exists sn, 0. auto. }
  destruct Hs as (-> & Hz & nx & Hn & Hx & Hs). destruct (Z.eqb_spec n 0); [done|]. unfold mbind, M_bind, rd. rewrite Hx.
  assert (Hsn : exists sn', (if x <=? st -64 PAGE_SIZE then n else sn) = sn' /\ (sn' = sn \/ sn' = n)) by (case_match; eauto).
  destruct Hsn as (sn' & -> & Hsn).
  destruct (Z.leb_spec e x).
  - exists sn', n. split; [done|]. right. exists [], x, l. split; [done|]. destruct Hsn as [->| ->]; [by left|right; left].
  - rewrite Hn. destruct (IH nx l sn' Hs ltac:(lia)) as (a & b & Hr & Hab). exists a, b. split; [done|].
    destruct Hab as [->|(l1 & be & l2 & -> & Ha)]; [by left|]. right. exists ((n, x) :: l1), be, l2. split; [done|].
    destruct Ha as [->|Ha]; [destruct Hsn as [->| ->]; [by left|right; left]|right; by right].
Qed.

(** Linking a node to the successor of a later one. *)
Lemma seg_skip m p l1 n a l2 n' a' l3 nx :
  seg m p (l1 ++ (n, a) :: l2 ++ (n', a') :: l3) 0 -> apart (l1 ++ (n, a) :: l2 ++ (n', a') :: l3).*1 ->
  m !! next_of n' = Some nx -> seg (<[next_of n:=nx]> m) p (l1 ++ (n, a) :: l3) 0.
Proof.
  intros Hs Hap Hnx. destruct (seg_cut m p l1 n a _ nx 0 Hs Hap) as (nx0 & _ & H1 & H2).
  apply seg_app in H2 as (r & _ & (-> & _ & nx' & Hn' & _ & H3)).
  rewrite lookup_insert_ne in Hn'.
  - assert (nx' = nx) as -> by congruence. replace (l1 ++ (n, a) :: l3) with ((l1 ++ [(n, a)]) ++ l3) by (by rewrite <- app_assoc).
    apply seg_app. eauto.
  - unfold next_of. intros ->. destruct Hap as [Hnd _]. rewrite fmap_app in Hnd. apply NoDup_app in Hnd as (_ & _ & Hnd).
    cbn in Hnd. apply NoDup_cons in Hnd as [Hnd _]. apply Hnd. rewrite fmap_app. set_solver.
Qed.

Lemma clear_blocks_any s low high used q st e :
  pmm_inv s low high used q ->
  exists s' high', pmm_clear_blocks st e s = Ok tt s' /\ pmm_inv s' low high' used q /\ high' `sublist_of` high /\
    node_upd high.*1 s s'.
Proof.
  intros Hinv. pose proof Hinv as [Hl Hh Hu Hap]. unfold chain in *.
  destruct (clear_search_any (walk_fuel s) s st e _ _ 0 Hh) as (a & b & Hr & Hab); [by eapply chain_fuel|].
  unfold pmm_clear_blocks, mbind at 1, M_bind at 1, gets at 1, mbind at 1, M_bind at 1, gets at 1. rewrite (bind_ok _ _ _ _ _ Hr).
  assert (Hsame : exists s' high', Ok tt s = Ok tt s' /\ pmm_inv s' low high' used q /\ high' `sublist_of` high /\ node_upd high.*1 s s').
  { exists s, high. split_and!; try done. split; [done|apply mem_mono_refl|done]. }
  destruct (Z.eqb_spec a 0), (Z.eqb_spec b 0); cbn [orb]; try exact Hsame.
  destruct Hab as [->|(l1 & be & l2 & E & Ha)]; [done|]. destruct Ha as [->|Ha]; [done|].
  rewrite E in Hh. pose proof Hh as Hh0. apply seg_app in Hh0 as (r & _ & (-> & _ & nx & Hnx & _ & _)).
  assert (Haph : apart high.*1) by (eapply apart_sublist, Hap; rewrite !fmap_app; solve_submseteq).
  assert (Hin : a ∈ high.*1).
  { rewrite E. revert Ha. rewrite !fmap_app, !elem_of_app. cbn. rewrite elem_of_cons. set_solver. }
  assert (exists x, mem s !! next_of a = Some x) as [x Hx].
  { rewrite <- E in Hh. pose proof (seg_nodes_dom _ _ _ _ Hh) as Hd. rewrite Forall_forall in Hd. by apply Hd. }
  assert (Hhi : exists high', seg (<[next_of a:=nx]> (mem s)) (pmm_high s) high' 0 /\ high' `sublist_of` high).
  { rewrite fmap_app, elem_of_app in Ha. destruct Ha as [Ha|Ha].
    - apply list_elem_of_fmap in Ha as ([a' aa] & -> & (l3 & l4 & ->)%list_elem_of_split). cbn [fst] in *.
      rewrite E, <- app_assoc in *. exists (l3 ++ (a', aa) :: l2). split; [|].
      + eapply seg_skip; [exact Hh|exact Haph|exact Hnx].
      + apply sublist_app; [done|]. apply sublist_skip, sublist_inserts_l. by apply sublist_cons.
    - apply list_elem_of_singleton in Ha as ->. cbn [fst] in *. exists high. rewrite insert_id by done. by rewrite E. }
  destruct Hhi as (high' & Hh' & Hsub).
  eexists _, high'. split_and!; [by run_mem| |done|].
  - assert (Hap' : apart (low ++ high' ++ used).*1).
    { eapply apart_sublist, Hap. rewrite !fmap_app. apply submseteq_skips_l, submseteq_skips_r, sublist_submseteq.
      by apply fmap_sublist. }
    apply list_elem_of_fmap in Hin as ([a' aa] & -> & (h1 & h2 & Eh)%list_elem_of_split). cbn [fst] in *. rewrite Eh in Hap.
    split; unfold chain; cbn; [seg_keep a' Hap|exact Hh'|seg_keep a' Hap|exact Hap'].
  - by apply next_upd.
Qed.

(** The reservation of the framebuffer keeps the invariant. *)
Lemma clear_blocks_mm_inv s1 low high st e :
  mm_inv s1 low high [] 0 ->
  exists s2 high', pmm_clear_blocks st e s1 = Ok tt s2 /\ mm_inv s2 low high' [] 0 /\ same_ptes s1 s2 /\
    same_tables s1 s2 /\ high' `sublist_of` high.
Proof.
  intros Hmm. destruct (clear_blocks_any _ _ _ _ _ st e (mm_pmm _ _ _ _ _ Hmm)) as (s2 & high' & Hr & Hinv & Hsub & [Hout Hmono Hroot]).
  exists s2, high'. destruct (mm_inv_step s1 s2 low high [] 0 low high' [] 0) as (? & ? & ?); try done.
  - intros w Hw. apply Hout. intros n Hn. destruct (mm_nodes _ _ _ _ _ Hmm n) as [H1 H2]; [rewrite !fmap_app; set_solver|].
    split; intros ->; done.
  - intros b w _ _. apply Hmono.
  - intros x. rewrite !fmap_app, !elem_of_app. intros [?|[Hx|?]]; [auto| |auto]. right. left.
    eapply elem_of_submseteq; [exact Hx|]. by apply sublist_submseteq, fmap_sublist.
Qed.

(** ** The tables of the boot loader *)

(** the loop that clears two tables *)
Fixpoint zeros2 (f g : Z) (k : nat) (i : Z) (m : gmap Z Z) : gmap Z Z :=
  match k with O => m | S k' => zeros2 f g k' (i + 1) (<[g + 8 * i:=0]> (<[f + 8 * i:=0]> m)) end.

Lemma zeros2_mono f g k : forall i m, mem_mono m (zeros2 f g k i m).
Proof.
  induction k as [|k IH]; intros i m; [apply mem_mono_refl|]. cbn. eapply mem_mono_trans, IH. mono.
Qed.

Lemma zeros2_out f g k : forall i m w,
  (forall j, i <= j < i + Z.of_nat k -> w <> f + 8 * j /\ w <> g + 8 * j) -> zeros2 f g k i m !! w = m !! w.
Proof.
  induction k as [|k IH]; intros i m w Hw; cbn; [done|]. destruct (Hw i ltac:(lia)) as [H1 H2].
  rewrite IH by (intros j ?; apply Hw; lia). by rewrite !lookup_insert_ne.
Qed.

Lemma zeros2_ext f g k : forall i m m' w, m !! w = m' !! w -> zeros2 f g k i m !! w = zeros2 f g k i m' !! w.
Proof.
  induction k as [|k IH]; intros i m m' w Hw; cbn; [done|]. apply IH. rewrite !lookup_insert. by repeat case_decide.
Qed.

Lemma zeros2_zero f g k : forall i m w, m !! w = Some 0 -> zeros2 f g k i m !! w = Some 0.
Proof.
  induction k as [|k IH]; intros i m w Hw; cbn; [done|]. apply IH. rewrite !lookup_insert. by repeat case_decide.
Qed.

Lemma zeros2_loop f g k : forall i s,
  (forall j, i <= j < i + Z.of_nat k -> is_Some (mem s !! (f + 8 * j)) /\ is_Some (mem s !! (g + 8 * j))) ->
  for_loop k i (fun i => wr (f + 8 * i) 0;; wr (g + 8 * i) 0) s = Ok tt (set_mem (zeros2 f g k i) s).
Proof.
  induction k as [|k IH]; intros i s Hb; cbn [for_loop zeros2]; [by destruct s|].
  destruct (Hb i ltac:(lia)) as [H1 H2]. erewrite bind_ok; [|rewrite wr_bind by done; apply wr_ok; backed].
  rewrite IH; [done|]. intros j Hj. destruct (Hb j ltac:(lia)). split; backed.
Qed.

Section tables.
Context (pml4 pdpt_low pdt_low pt_low : Z).

Definition clear_tables (m : gmap Z Z) : gmap Z Z :=
  zeros2 pdt_low pt_low 512 0 (<[pdpt_low:=0]> (<[pml4 + KERNEL_OFFSET:=0]> m)).

(** The words that are cleared. *)
Definition cleared (w : Z) : Prop :=
  w = pml4 + KERNEL_OFFSET \/ w = pdpt_low \/ exists j, 0 <= j < 512 /\ (w = pdt_low + 8 * j \/ w = pt_low + 8 * j).

Lemma clear_mono m : mem_mono m (clear_tables m).
Proof. unfold clear_tables. eapply mem_mono_trans, zeros2_mono. mono. Qed.

Lemma clear_out m w : ~ cleared w -> clear_tables m !! w = m !! w.
Proof.
  intros Hw. unfold clear_tables. rewrite zeros2_out, !lookup_insert_ne; [done|..].
  - intros <-. apply Hw. by left.
  - intros <-. apply Hw. right. by left.
  - intros j Hj. split; intros ->; apply Hw; right; right; exists j; split; auto; lia.
Qed.

Lemma clear_ext m m' w : m !! w = m' !! w -> clear_tables m !! w = clear_tables m' !! w.
Proof. intros Hw. unfold clear_tables. apply zeros2_ext. rewrite !lookup_insert. by repeat case_decide. Qed.

Lemma clear_tables_run {A} s (k : K A) :
  (forall w, cleared w -> is_Some (mem s !! w)) ->
  (wr (pml4 + KERNEL_OFFSET) 0;; wr pdpt_low 0;;
   for_loop 512 0 (fun i => wr (pdt_low + 8 * i) 0;; wr (pt_low + 8 * i) 0);; k) s = k (set_mem clear_tables s).
Proof.
  intros Hb. rewrite wr_bind by (apply Hb; by left). rewrite wr_bind by (apply mem_mono_insert, Hb; right; by left).
  erewrite bind_ok; [|apply zeros2_loop]; [done|]. intros j Hj.
  split; cbn [mem set_mem]; apply mem_mono_insert, mem_mono_insert, Hb; right; right; exists j; split; auto; lia.
Qed.

End tables.

(** ** The state after boot *)

(** The tables of the boot loader lie in the kernel image, in front of the
    memory that is registered; without the identity map they are a tree. *)
Record tables_ok (kernel_end pml4 pdpt_low pdt_low pt_low : Z) (s : kstate) : Prop := {
  tb_root : 0 <= pml4 < TWO_GB;
  tb_words : forall w, cleared pml4 pdpt_low pdt_low pt_low w -> w < kernel_end + KERNEL_OFFSET /\ is_Some (mem s !! w);
  tb_tree : pt_inv (clear_tables pml4 pdpt_low pdt_low pt_low (mem s)) (pml4 + KERNEL_OFFSET);
  tb_inside : forall w, table_word (clear_tables pml4 pdpt_low pdt_low pt_low (mem s)) (pml4 + KERNEL_OFFSET) w ->
    w < kernel_end + KERNEL_OFFSET;
}.

(** There is a page for every node, RAM behind the low ones, two of them at
    the start, and the last node does not reach into the first page. *)
Record frames_ok (p : plan) (s : kstate) : Prop := {
  fo_enough : (2 <= length (nodes p) <= length (frames p))%nat;
  fo_low : Forall low_frame (take 2 (frames p));
  fo_backed : forall f, f ∈ frames p -> f < TWO_GB -> page_backed (mem s) (f + KERNEL_OFFSET);
  fo_apart : forall x f, x ∈ nodes p -> f ∈ frames p -> x + sizeof_node <= f + KERNEL_OFFSET;
}.

Lemma node_list_full p : (length (nodes p) <= length (frames p))%nat ->
  node_list p = zip (nodes p) (frames p) /\ (node_list p).*2 = take (length (nodes p)) (frames p).
Proof.
  intros Hl. unfold node_list. rewrite drop_ge, app_nil_r by done. split; [done|].
  rewrite <- (take_drop (length (nodes p)) (frames p)) at 1. rewrite zip_more.
  rewrite drop_ge by (rewrite length_take; lia). cbn. rewrite app_nil_r. apply snd_zip. rewrite length_take. lia.
Qed.

(** The low list starts with the first two frames. *)
Lemma low_two p low high :
  (2 <= length (nodes p) <= length (frames p))%nat -> Forall low_frame (take 2 (frames p)) -> low ++ high = node_list p ->
  (forall x, head high = Some x -> TWO_GB <= x.2) -> Forall low_frame (tail low).*2 ->
  exists n1 a1 n2 a2 l, low = (n1, a1) :: (n2, a2) :: l /\ Forall low_frame low.*2.
Proof.
  intros Hl Hlow El Hh Ht. destruct (node_list_full p) as [E _]; [lia|]. rewrite E in El.
  destruct (nodes p) as [|m1 [|m2 ns]], (frames p) as [|f1 [|f2 fs]]; cbn in Hl; try lia. cbn [zip zip_with] in El.
  cbn [take] in Hlow. apply Forall_cons in Hlow as [H1 [H2 _]%Forall_cons].
  destruct low as [|[n1 a1] [|[n2 a2] l]]; cbn in El.
  - subst high. specialize (Hh _ eq_refl). cbn in Hh. lia.
  - injection El as -> -> ->. specialize (Hh _ eq_refl). cbn in Hh. lia.
  - injection El as -> -> -> -> _. exists m1, f1, m2, f2, l. split; [done|]. constructor; [exact H1|exact Ht].
Qed.

Section ready.
Context (info : gmap Z Z) (kernel_end mb me : Z) (ts : list tag) (s : kstate).
Context (pml4 pdpt_low pdt_low pt_low : Z).
Let p := boot_plan kernel_end mb me ts.
Abbreviation clear := (clear_tables pml4 pdpt_low pdt_low pt_low).
Let root := pml4 + KERNEL_OFFSET.
Hypothesis Hboot : bootable info kernel_end mb me ts s.
Hypothesis Htab : tables_ok kernel_end pml4 pdpt_low pdt_low pt_low s.
Hypothesis Hfr : frames_ok p s.

Lemma usable_above x : Exists (fun en => usable kernel_end mb me en x) (all_entries ts) -> kernel_end <= x.
Proof.
  rewrite Exists_exists. intros ([[addr len] ty] & _ & _ & [Hx _] & _).
  pose proof (page_up_spec (Z.max addr kernel_end)) as [H _]. unfold page_up in H. lia.
Qed.

Lemma boot_frame_above f : f ∈ frames p -> kernel_end <= f.
Proof. intros Hf. apply usable_above. by eapply boot_frame_usable. Qed.

Lemma boot_node_above x : x ∈ nodes p -> kernel_end + KERNEL_OFFSET <= x.
Proof.
  intros [?%elem_of_nil|([a b] & Hin & Hab & Hx)]%add_refs_nodes_in; [done|]. cbn [fst snd] in *.
  enough (kernel_end <= a) by lia. apply usable_above. eapply boot_zones_usable; [exact Hboot|].
  apply Exists_exists. exists (a, b). split; [done|]. cbn. lia.
Qed.

Lemma image_not_node w : w < kernel_end + KERNEL_OFFSET -> forall x, x ∈ nodes p -> w <> next_of x /\ w <> addr_of x.
Proof. intros Hw x Hx%boot_node_above. unfold next_of, addr_of. lia. Qed.

(** The allocator of frames and the tables, once the identity map is gone. *)
Lemma boot_mm_inv s1 low high hi :
  node_upd (nodes p) s s1 -> pmm_inv s1 low high [] 0 -> low ++ high = node_list p -> Forall low_frame low.*2 -> below p hi ->
  let s2 := set_pml4 pml4 root (set_mem clear s1) in
  mm_inv s2 low high [] 0 /\
  (forall q, (length q <= 3)%nat -> in_range q -> tbl (mem s2) root q = tbl (clear (mem s)) root q) /\
  forall q j, (length q <= 3)%nat -> in_range q -> 0 <= j < 512 -> pte_of (mem s2) root q j = pte_of (clear (mem s)) root q j.
Proof.
  intros [Hout Hmono _] [Hl Hh Hu Hap] El Hlow Hb s2. destruct Htab as [Hroot Hwords Htree Hinside].
  destruct (node_list_full p) as [_ E2]; [apply Hfr|].
  assert (Hnodes : (low ++ high ++ []).*1 = nodes p) by (by rewrite app_nil_r, El, node_list_nodes).
  assert (Em2 : mem s2 = clear (mem s1)) by reflexivity.
  assert (Hw : forall w, table_word (clear (mem s)) root w -> mem s2 !! w = clear (mem s) !! w).
  { intros w Hw%Hinside. rewrite Em2. apply clear_ext, Hout. by apply image_not_node. }
  destruct (pt_inv_frame _ (mem s2) _ Hw Htree) as [Hpt Hpte]. split; [|split; [exact (tbl_frame _ _ _ Hw)|done]].
  assert (Htw : forall w, table_word (mem s2) root w -> w < kernel_end + KERNEL_OFFSET).
  { intros w (q & x & j & Hq & Hr & Hj & Hx & ->). apply Hinside. exists q, x, j.
    rewrite (tbl_frame _ _ _ Hw) in Hx by assumption. exact (conj Hq (conj Hr (conj Hj (conj Hx eq_refl)))). }
  assert (Hfrs : (low ++ high).*2 = take (length (nodes p)) (frames p)) by (by rewrite El).
  split.
  - assert (Hkeep : forall l x q, (forall n, n ∈ l.*1 -> n ∈ nodes p) -> seg (mem s1) x l q -> seg (mem s2) x l q).
    { intros l x q Hl'. apply seg_frame. intros n Hn%Hl'%boot_node_above. rewrite Em2.
      split; apply clear_out; intros [Hc _]%Hwords; unfold next_of, addr_of in Hc; lia. }
    assert (Hsub : forall n, n ∈ low.*1 \/ n ∈ high.*1 -> n ∈ nodes p) by (intros n; rewrite <- Hnodes, !fmap_app, !elem_of_app; tauto).
    split; [apply (Hkeep low _ 0); [auto|exact Hl]|apply (Hkeep high _ 0); [auto|exact Hh]|exact Hu|exact Hap].
  - done.
  - rewrite Hnodes. intros x Hx%boot_node_above. split; intros H%Htw; unfold next_of, addr_of in H; lia.
  - rewrite Hnodes. apply Forall_forall. intros f Hf.
    assert (Hin : f ∈ frames p).
    { apply (subseteq_take (length (nodes p))). rewrite <- Hfrs, fmap_app, elem_of_app. by left. }
    pose proof (boot_frame_above f Hin) as Hf0. pose proof (bt_kernel _ _ _ _ _ _ Hboot).
    rewrite Forall_forall in Hlow. specialize (Hlow f Hf). destruct (below_frames_lo _ _ Hb f Hin) as [_ Hal].
    destruct (fo_backed _ _ Hfr f Hin Hlow) as [Hal' Hback]. split; [unfold TWO_GB in *; lia|split; [done|]| |].
    + intros j Hj. rewrite Em2. by apply clear_mono, Hmono, Hback.
    + intros q x Hq Hr Hx ->. assert (Hlt : ent (f + KERNEL_OFFSET) 0 < kernel_end + KERNEL_OFFSET); [|unfold ent in Hlt; lia].
      apply Htw. exists q, (f + KERNEL_OFFSET), 0. split_and!; done || lia.
    + intros x Hx. pose proof (fo_apart _ _ Hfr x f Hx Hin) as Hxf. unfold sizeof_node, next_of, addr_of, pg, PAGE_SIZE in *.
      clear - Hxf Hal'. generalize dependent (f + KERNEL_OFFSET). intros y ? ?. dlia.
  - apply (NoDup_sub _ (frames p)); [|by eapply (spaced_NoDup 4096), Hb]. apply sublist_submseteq.
    transitivity (take (length (nodes p)) (frames p)); [|apply sublist_take]. rewrite <- Hfrs, fmap_app. by apply sublist_inserts_r.
Qed.

(** The first entry of the root is cleared: no page below 512 GB is mapped. *)
Lemma clear_first m v : 0 <= v < TWO_GB -> tbl (clear_tables pml4 pdpt_low pdt_low pt_low m) root (vpath v) = None.
Proof.
  intros Hv. assert (E : virt_addr_get_pml4e v = 0).
  { unfold virt_addr_get_pml4e. rewrite idx_eq by lia. unfold TWO_GB in Hv. rewrite Z.div_small by lia. done. }
  unfold vpath. cbn [tbl]. rewrite E. unfold sub. replace (ent root 0) with root by (unfold ent; lia).
  assert (Hz : clear_tables pml4 pdpt_low pdt_low pt_low m !! root = Some 0); [|by rewrite Hz].
  apply zeros2_zero. rewrite lookup_insert. case_decide; [done|]. apply lookup_insert_eq.
Qed.

Lemma ready_run fuel : (S (length ts + length (all_entries ts)) <= fuel)%nat -> exists s' n1 a1 n2 a2 low high,
  kmain_memory info kernel_end fuel mb pml4 pdpt_low pdt_low pt_low s = Ok (foldl (tag_data kernel_end) no_boot ts) s' /\
  vm_inv s' low high [(n2, a2); (n1, a1)] 0 (whole_space (a1 + KERNEL_OFFSET)) (no_blocks (a2 + KERNEL_OFFSET)) /\
  (forall a, covers (whole_space (a1 + KERNEL_OFFSET)) a <-> free_virt_start <= a < 0xFFFFFFFF80000000) /\
  [(n2, a2); (n1, a1)].*2 ++ low.*2 ++ high.*2 ⊆+ frames p /\ pml4_addr s' = root /\ unmapped s' low.*2 /\
  (forall q, (length q <= 3)%nat -> in_range q -> tbl (mem s') root q = tbl (clear (mem s)) root q) /\
  (forall q j, length q = 3%nat -> in_range q -> 0 <= j < 512 -> pte_of (mem s') root q j = pte_of (clear (mem s)) root q j).
Proof.
  intros Hf.
  destruct (boot_pmm_run _ _ _ _ _ _ Hboot fuel Hf) as (s1 & low & high & Hr & Hu & Hinv & El & Hlo & _ & Hh & hi & Hb).
  destruct (low_two p low high (fo_enough _ _ Hfr) (fo_low _ _ Hfr) El Hh Hlo) as (n1 & a1 & n2 & a2 & l & Elow & Hlow).
  unfold kmain_memory. rewrite Hr, clear_tables_run by (intros w Hw; apply (nu_mono _ _ _ Hu), (tb_words _ _ _ _ _ _ Htab w Hw)).
  unfold page_set_pml4. run_pure. rewrite (u64_small (pml4 + KERNEL_OFFSET)) by (pose proof (tb_root _ _ _ _ _ _ Htab); unfold KERNEL_OFFSET, TWO_GB in *; lia).
  destruct (boot_mm_inv s1 low high hi Hu Hinv El Hlow Hb) as (Hmm & Htb & Hpte).
  set (data := foldl (tag_data kernel_end) no_boot ts).
  destruct (clear_blocks_mm_inv _ low high (framebuffer_addr data) (framebuffer_addr data +64 (vga_pitch data *32 pixel_height data)) Hmm)
    as (s2 & high' & Hr2 & Hmm2 & [Hroot2 Hp2] & Ht2 & Hsub).
  rewrite (bind_ok _ _ _ _ _ Hr2). rewrite Elow in Hmm2.
  destruct (vmm_init_ready _ _ _ _ _ _ _ _ _ Hmm2) as (s3 & Hr3 & Hvm & [Hroot3 Hp3] & Ht3).
  assert (Hroot : pml4_addr s3 = root) by (by rewrite Hroot3, Hroot2).
  assert (Htbl : forall q, (length q <= 3)%nat -> in_range q -> tbl (mem s3) root q = tbl (clear (mem s)) root q).
  { intros q Hq Hrq. transitivity (tbl (mem s3) (pml4_addr s3) q); [by rewrite Hroot|].
    rewrite Ht3, Ht2 by done. by apply Htb. }
  rewrite (bind_ok _ _ _ _ _ Hr3). exists s3, n1, a1, n2, a2, l, high'. split_and!; try done.
  - apply whole_space_ok.
  - destruct (node_list_full p) as [_ E2]; [apply Hfr|].
    transitivity (take (length (nodes p)) (frames p)); [|apply sublist_submseteq, sublist_take].
    rewrite <- E2. fold p in El. rewrite <- El, Elow, fmap_app, !fmap_cons, fmap_nil. cbn [fst snd app].
    rewrite (Permutation_swap a1 a2). do 2 apply submseteq_skip. apply submseteq_skips_l.
    by apply sublist_submseteq, fmap_sublist.
  - intros a Ha. rewrite Hroot, Htbl by first [done|apply vpath_range]. apply clear_first.
    pose proof (mm_frames _ _ _ _ _ (vm_mm _ _ _ _ _ _ _ Hvm)) as Hfrm. rewrite Forall_forall in Hfrm. apply (Hfrm a Ha).
  - intros q j Hq Hq' Hj. rewrite Hroot2 in Hp3. cbn in Hp2, Hp3. rewrite Hp3, Hp2 by done. apply Hpte; lia || done.
Qed.

End ready.

(** C9. After the memory part of [kmain] the invariants of all the memory
    managers hold together.  Let the boot information be [bootable] (see
    [boot_frames] for what that asks); let the boot loader's tables lie below
    the end of the kernel and be a well-formed tree once the identity map is
    gone ([tables_ok]); and let the planned frames be [frames_ok]: there are at
    least two nodes and a page for every node, the first two pages are below
    2 GiB, there is RAM behind all pages below 2 GiB, and every node ends in
    front of every page that is handed out.  (The last is not always so:
    [pmm_add_block_frees_node_page] is a block where the page of the last node
    is handed out.)  Then [kmain_memory] ends; the frame allocator, the page
    tables and the lists of the allocator of virtual memory satisfy the
    invariant [vm_inv] that the operations keep; every frame on the lists is
    one of the planned frames, no frame is there twice; the tables and the
    mappings are those of the boot loader less the identity map, and no free
    low frame has a table for its identity mapping; all of the kernel's
    address space is free, and no block of it is allocated. *)
Theorem kmain_memory_ready info kernel_end mb me ts s pml4 pdpt_low pdt_low pt_low :
  let p := boot_plan kernel_end mb me ts in
  let root := pml4 + KERNEL_OFFSET in
  bootable info kernel_end mb me ts s -> tables_ok kernel_end pml4 pdpt_low pdt_low pt_low s -> frames_ok p s ->
  exists n, forall fuel, (n <= fuel)%nat -> exists s' low high used f g,
    kmain_memory info kernel_end fuel mb pml4 pdpt_low pdt_low pt_low s = Ok (foldl (tag_data kernel_end) no_boot ts) s' /\
    vm_inv s' low high used 0 (whole_space f) (no_blocks g) /\
    (forall a, covers (whole_space f) a <-> free_virt_start <= a < 0xFFFFFFFF80000000) /\
    used.*2 ++ low.*2 ++ high.*2 ⊆+ frames p /\ pml4_addr s' = root /\ unmapped s' low.*2 /\
    (forall q, (length q <= 3)%nat -> in_range q ->
      tbl (mem s') root q = tbl (clear_tables pml4 pdpt_low pdt_low pt_low (mem s)) root q) /\
    (forall q j, length q = 3%nat -> in_range q -> 0 <= j < 512 ->
      pte_of (mem s') root q j = pte_of (clear_tables pml4 pdpt_low pdt_low pt_low (mem s)) root q j).
Proof.
  intros p root Hboot Htab Hfr. exists (S (length ts + length (all_entries ts))). intros fuel Hf.
  destruct (ready_run _ _ _ _ _ _ _ _ _ _ Hboot Htab Hfr fuel Hf) as (s' & n1 & a1 & n2 & a2 & low & high & H).
  by exists s', low, high, [(n2, a2); (n1, a1)], (a1 + KERNEL_OFFSET), (a2 + KERNEL_OFFSET).
Qed.

(** ** A machine with a root table that only has the identity map *)

Lemma ram_lookup base n i : 0 <= i < Z.of_nat n -> ram base n !! (base + 8 * i) = Some 0.
Proof.
  intros Hi. apply elem_of_list_to_map_1.
  - rewrite <- list_fmap_compose. apply NoDup_fmap_2; [|apply NoDup_seq]. intros x y. cbn. lia.
  - apply list_elem_of_fmap. exists (Z.to_nat i). split; [f_equal; lia|]. apply elem_of_seq. lia.
Qed.

Lemma ram_backed base n w :
  base <= w < base + 8 * Z.of_nat n -> (w - base) mod 8 = 0 -> is_Some (ram base n !! w).
Proof.
  intros Hw Hm. assert (E : w = base + 8 * ((w - base) / 8)) by dlia. rewrite E. exists 0. apply ram_lookup. dlia.
Qed.

Definition ready_pml4 : Z := 0x1F0000.
Definition ready_table (i : Z) : Z := 0x1F0000 + 0x1000 * i + KERNEL_OFFSET.
Definition ready_ram : gmap Z Z := ram (0x1F0000 + KERNEL_OFFSET) (Z.to_nat 12288).
Definition ready_state : kstate := boot_state (<[0x1F0000 + KERNEL_OFFSET:=0x1F1003]> ready_ram).

Lemma ready_backed w : 0x1F0000 + KERNEL_OFFSET <= w < 0x208000 + KERNEL_OFFSET -> w mod 8 = 0 -> is_Some (mem ready_state !! w).
Proof.
  intros Hw Hm. apply (mem_mono_insert ready_ram), ram_backed; [rewrite Z2Nat.id by lia; lia|]. unfold KERNEL_OFFSET. dlia.
Qed.

Lemma ready_nodes : Forall (node_backed ready_state) (nodes small_plan).
Proof.
  apply Forall_forall. intros x Hx.
  assert (H : Forall (fun x => 0x1F0000 + KERNEL_OFFSET <= x < 0x207000 + KERNEL_OFFSET /\ x mod 8 = 0) (nodes small_plan)) by vdecide.
  rewrite Forall_forall in H. destruct (H x Hx) as [H1 H2]. unfold node_backed, next_of, addr_of.
  split; [unfold KERNEL_OFFSET in H1; lia|]. split; apply ready_backed; dlia.
Qed.

Lemma ready_bootable : bootable small_info 0x200000 0x10000 0x10050 small_tags ready_state.
Proof.
  destruct small_bootable as [H1 H2 H3 H4 H5 H6 H7 H8 _ H10 _]. pose proof ready_nodes as H9. rewrite <- small_plan_eq in H9.
  exact (Build_bootable _ _ _ _ _ _ H1 H2 H3 H4 H5 H6 H7 H8 H9 H10 (conj eq_refl (conj eq_refl eq_refl))).
Qed.

Abbreviation ready_clear := (clear_tables ready_pml4 (ready_table 1) (ready_table 2) (ready_table 3)).

Lemma ready_root j : 0 <= j < 512 -> ready_clear (mem ready_state) !! ent (ready_table 0) j = Some 0.
Proof.
  intros Hj. unfold clear_tables. apply zeros2_zero. rewrite lookup_insert_ne by (unfold ready_table, ent; lia).
  change (ready_pml4 + KERNEL_OFFSET) with (0x1F0000 + KERNEL_OFFSET). change (mem ready_state) with (<[0x1F0000 + KERNEL_OFFSET:=0x1F1003]> ready_ram). rewrite insert_insert_eq.
  rewrite lookup_insert. case_decide; [done|]. unfold ready_ram, ent, ready_table.
  replace (0x1F0000 + 0x1000 * 0 + KERNEL_OFFSET) with (0x1F0000 + KERNEL_OFFSET) by lia. apply ram_lookup. rewrite Z2Nat.id; lia.
Qed.

Lemma ready_tables : tables_ok 0x200000 ready_pml4 (ready_table 1) (ready_table 2) (ready_table 3) ready_state.
Proof.
  destruct (empty_tables (ready_clear (mem ready_state)) (ready_pml4 + KERNEL_OFFSET)) as [Hpt Hone]; [done|apply ready_root|].
  split; [unfold ready_pml4, TWO_GB; lia| |exact Hpt|].
  - intros w Hw. assert (Hr : 0x1F0000 + KERNEL_OFFSET <= w < 0x200000 + KERNEL_OFFSET /\ w mod 8 = 0).
    { unfold cleared, ready_pml4, ready_table, KERNEL_OFFSET in *. destruct Hw as [->|[->|(j & Hj & [->| ->])]]; [done|done|..]; dlia. }
    split; [lia|]. apply ready_backed; lia.
  - intros w (q & x & j & _ & Hr & Hj & Hx & ->). destruct (Hone q x Hr Hx) as [_ ->]. unfold ent, ready_pml4. lia.
Qed.

Lemma ready_frames : frames_ok (boot_plan 0x200000 0x10000 0x10050 small_tags) ready_state.
Proof.
  rewrite small_plan_eq. split.
  - vm_compute. lia.
  - vdecide.
  - intros f Hf Hlow.
    assert (H : Forall (fun f => f < TWO_GB -> 0x200000 <= f <= 0x207000 /\ f mod 4096 = 0) (frames small_plan)) by vdecide.
    rewrite Forall_forall in H. destruct (H f Hf Hlow) as [H1 H2]. split; [unfold KERNEL_OFFSET; dlia|].
    intros j Hj. apply ready_backed; unfold ent, KERNEL_OFFSET; dlia.
  - assert (H : Forall (fun x => Forall (fun f => x + sizeof_node <= f + KERNEL_OFFSET) (frames small_plan)) (nodes small_plan)) by vdecide.
    intros x f Hx Hf. rewrite Forall_forall in H. specialize (H x Hx). rewrite Forall_forall in H. by apply H.
Qed.

Lemma kmain_memory_ready_witness :
  exists n, forall fuel, (n <= fuel)%nat -> exists s' low high used f g,
    kmain_memory small_info 0x200000 fuel 0x10000 ready_pml4 (ready_table 1) (ready_table 2) (ready_table 3) ready_state
      = Ok (foldl (tag_data 0x200000) no_boot small_tags) s' /\
    vm_inv s' low high used 0 (whole_space f) (no_blocks g) /\
    (forall a, covers (whole_space f) a <-> free_virt_start <= a < 0xFFFFFFFF80000000) /\
    used.*2 ++ low.*2 ++ high.*2 ⊆+ frames small_plan /\ pml4_addr s' = ready_table 0 /\ unmapped s' low.*2 /\
    (forall q, (length q <= 3)%nat -> in_range q ->
      tbl (mem s') (ready_table 0) q = tbl (ready_clear (mem ready_state)) (ready_table 0) q) /\
    (forall q j, length q = 3%nat -> in_range q -> 0 <= j < 512 ->
      pte_of (mem s') (ready_table 0) q j = pte_of (ready_clear (mem ready_state)) (ready_table 0) q j).
Proof.
  rewrite <- small_plan_eq.
  apply (kmain_memory_ready small_info 0x200000 0x10000 0x10050 small_tags ready_state ready_pml4 (ready_table 1) (ready_table 2) (ready_table 3)).
  - exact ready_bootable.
  - exact ready_tables.
  - exact ready_frames.
Defined.

End KMainReady.
