(* ===== verification/Acpi.v ===== *)
(** * file/acpi.c: the search for the PCI configuration tables

    The firmware leaves a table of vendor tables; one of them leads, by way of
    the RSDP and the XSDT, to the table MCFG.  [info] is the memory the tables
    are read from.  The layout of the EFI structures and the two GUIDs come from
    headers that are not part of the repository and are parameters; the layout
    of the ACPI structures is that of file/acpi.h. *)

From S2P Require Import Prelude Machine KMain.
Import Machine KMain.

Module Acpi.

(** [EFI_GUID] *)
Record EFI_GUID := Guid { Data1 : Z; Data2 : Z; Data3 : Z; Data4 : list Z }.

(** Where the fields of the EFI structures are. *)
Record efi_layout := EfiLayout {
  NumberOfTableEntries : Z;
  ConfigurationTable : Z;
  sizeof_config : Z;
  VendorGuid : Z;
  VendorTable : Z;
}.

(** file/acpi.h *)
Definition sizeof_XSDT : Z := 36.
Definition rsdp_xsdt_addr (rsdp : Z) : Z := rsdp +64 24.
Definition header_length (h : Z) : Z := h +64 4.
Definition xsdt_entry (xsdt i : Z) : Z := xsdt +64 (36 + 8 * i).

(** the loop over [Data4] *)
Fixpoint same_data4 (a b : list Z) : bool :=
  match a, b with
  | x :: a', y :: b' => if negb (x =? y) then false else same_data4 a' b'
  | _, _ => true
  end.
Definition is_same_guid (a b : EFI_GUID) : bool :=
  if negb (same_data4 (Data4 a) (Data4 b)) then false else
  (Data1 a =? Data1 b) && (Data2 a =? Data2 b) && (Data3 a =? Data3 b).

Section acpi.
Context {S : Type} (info : gmap Z Z) (L : efi_layout) (acpi_guid2 : EFI_GUID).
(** how many steps a loop may take *)
Context (fuel : nat).
Notation A := (M S).

Fixpoint load_bytes (n : nat) (a : Z) : A (list Z) :=
  match n with
  | O => mret []
  | Datatypes.S n' => b ← load info 1 a; l ← load_bytes n' (a + 1); mret (b :: l)
  end.
(** a structure [EFI_GUID] in memory: 4, 2, 2 and 8 bytes *)
Definition load_guid (a : Z) : A EFI_GUID :=
  d1 ← load info 4 a;
  d2 ← load info 2 (a + 4);
  d3 ← load info 2 (a + 6);
  d4 ← load_bytes 8 (a + 8);
  mret (Guid d1 d2 d3 d4).

(** the loop over the configuration table *)
Fixpoint find_rsdp (n : nat) (i num config_table : Z) : A Z :=
  match n with
  | O => out_of_fuel
  | Datatypes.S n' =>
    if i <? num then
      let entry := config_table +64 (sizeof_config L * i) in
      guid ← load_guid (entry + VendorGuid L);
      if is_same_guid guid acpi_guid2 then
        vendor_table ← load info 8 (entry + VendorTable L);
        let vendor_table := vendor_table +64 KERNEL_OFFSET in
        sig ← load info 8 vendor_table;
        if sig =? 0x2052545020445352 then mret vendor_table
        else find_rsdp n' (i +32 1) num config_table
      else find_rsdp n' (i +32 1) num config_table
    else mret 0
  end.

(** the loop over the entries of the XSDT *)
Fixpoint find_mcfg (n : nat) (i rsdp_entries xsdt : Z) : A Z :=
  match n with
  | O => out_of_fuel
  | Datatypes.S n' =>
    if i <? rsdp_entries then
      entry ← load info 8 (xsdt_entry xsdt i);
      let header := entry +64 KERNEL_OFFSET in
      signature ← load info 4 header;
      if signature =? 0x4746434D then mret header else find_mcfg n' (i +32 1) rsdp_entries xsdt
    else mret 0
  end.

Definition find_acpi (efi_table : Z) : A Z :=
  config_table ← load info 8 (efi_table + ConfigurationTable L);
  let config_table := config_table +64 KERNEL_OFFSET in
  num ← load info 8 (efi_table + NumberOfTableEntries L);
  rsdp ← find_rsdp fuel 0 num config_table;
  if rsdp =? 0 then panic "acpi: RSDP not found!" else
  xsdt_addr ← load info 8 (rsdp_xsdt_addr rsdp);
  let xsdt := xsdt_addr +64 KERNEL_OFFSET in
  length ← load info 4 (header_length xsdt);
  let rsdp_entries := u32 ((length -64 sizeof_XSDT) / 8) in
  mcfg ← find_mcfg fuel 0 rsdp_entries xsdt;
  if mcfg =? 0 then panic "acpi: MCFG not found!" else
  mret mcfg.

End acpi.

(** ** GUIDs *)

Definition guid_ok (g : EFI_GUID) : Prop := length (Data4 g) = 8%nat.

Lemma same_data4_eq a : forall b, length a = length b -> same_data4 a b = true <-> a = b.
Proof.
  induction a as [|x a IH]; intros [|y b] Hl; try done. cbn. destruct (Z.eqb_spec x y) as [->|]; cbn.
  - rewrite IH by (cbn in Hl; lia). split; [by intros ->|by intros [=]].
  - split; [done|]. by intros [=].
Qed.

Lemma is_same_guid_eq a b : guid_ok a -> guid_ok b -> is_same_guid a b = true <-> a = b.
Proof.
  unfold guid_ok. intros Ha Hb. unfold is_same_guid. pose proof (same_data4_eq (Data4 a) (Data4 b) ltac:(lia)) as Hd.
  destruct a as [a1 a2 a3 a4], b as [b1 b2 b3 b4]. cbn in *. destruct (same_data4 a4 b4); cbn.
  - rewrite !andb_true_iff, !Z.eqb_eq. split; [intros [[-> ->] ->]; f_equal; by apply Hd|by intros [= -> -> -> ->]].
  - split; [done|]. intros [= -> -> -> ->]. by apply Hd.
Qed.

#[export] Instance EFI_GUID_eq_dec : EqDecision EFI_GUID.
Proof. solve_decision. Defined.

(** ** The tables of the firmware *)

Section tables.
Context (info : gmap Z Z) (L : efi_layout) (acpi_guid2 : EFI_GUID).
Hypothesis Hguid2 : guid_ok acpi_guid2.

Definition direct (p : Z) : Z := p +64 KERNEL_OFFSET.

(** The GUID [g] lies at [a]. *)
Definition guid_at (a : Z) (g : EFI_GUID) : Prop :=
  guid_ok g /\ peek info 4 a = Some (Data1 g) /\ peek info 2 (a + 4) = Some (Data2 g) /\ peek info 2 (a + 6) = Some (Data3 g) /\
  forall j b, Data4 g !! j = Some b -> peek info 1 (a + 8 + Z.of_nat j) = Some b.

(** Entry [k] of the configuration table, and the table it points to. *)
Definition config_entry_at (cfg : Z) (k : nat) (e : EFI_GUID * Z) : Prop :=
  let a := cfg +64 (sizeof_config L * Z.of_nat k) in
  guid_at (a + VendorGuid L) e.1 /\ peek info 8 (a + VendorTable L) = Some e.2 /\
  (e.1 = acpi_guid2 -> is_Some (peek info 8 (direct e.2)) /\ direct e.2 <> 0).

(** The RSDP: the GUID of ACPI 2.0 and the signature "RSD PTR ". *)
Definition is_rsdp (e : EFI_GUID * Z) : bool :=
  bool_decide (e.1 = acpi_guid2) && bool_decide (peek info 8 (direct e.2) = Some 0x2052545020445352).

(** The table has the signature "MCFG". *)
Definition is_mcfg (t : Z) : bool := bool_decide (peek info 4 (direct t) = Some 0x4746434D).

(** The RSDP at [rsdp] leads to an XSDT with the entries [ts]. *)
Definition xsdt_at (rsdp : Z) (ts : list Z) : Prop :=
  exists x, peek info 8 (rsdp_xsdt_addr rsdp) = Some x /\
    peek info 4 (header_length (direct x)) = Some (36 + 8 * Z.of_nat (length ts)) /\
    (forall k t, ts !! k = Some t -> peek info 8 (xsdt_entry (direct x) (Z.of_nat k)) = Some t /\
       is_Some (peek info 4 (direct t)) /\ direct t <> 0).

Context {S : Type}.
Implicit Types s : S.

Lemma load_bind {B} n a v (k : Z -> M S B) s : peek info n a = Some v -> (load info n a ≫= k) s = k v s.
Proof. intros E. unfold load. rewrite E. done. Qed.

Lemma load_bytes_run n : forall a l s, length l = n -> (forall j b, l !! j = Some b -> peek info 1 (a + Z.of_nat j) = Some b) ->
  load_bytes info n a s = Ok l s.
Proof.
  induction n as [|n IH]; intros a l s Hl Hb; destruct l as [|b l]; try done. cbn [load_bytes].
  specialize (Hb 0%nat b eq_refl) as H0. rewrite Z.add_0_r in H0.
  rewrite (load_bind _ _ _ _ _ H0), (bind_ok _ _ l s s); [done|]. apply IH; [by injection Hl|]. intros j c Hj.
  replace (a + 1 + Z.of_nat j) with (a + Z.of_nat (Datatypes.S j)) by lia. by apply Hb.
Qed.

Lemma load_guid_run a g s : guid_at a g -> load_guid info a s = Ok g s.
Proof.
  intros (Hg & H1 & H2 & H3 & H4). unfold load_guid.
  rewrite (load_bind _ _ _ _ _ H1), (load_bind _ _ _ _ _ H2), (load_bind _ _ _ _ _ H3), (bind_ok _ _ (Data4 g) s s); [by destruct g|]. by apply load_bytes_run.
Qed.

(** The search of the configuration table from entry [k] on. *)
Lemma find_rsdp_run l cfg num : forall n (k : nat) s,
  (forall j e, l !! j = Some e -> config_entry_at cfg (k + j) e) ->
  num = Z.of_nat (k + length l) -> num < W32 -> (length l < n)%nat ->
  find_rsdp info L acpi_guid2 n (Z.of_nat k) num cfg s =
    Ok (match List.find is_rsdp l with Some e => direct e.2 | None => 0 end) s.
Proof.
  induction l as [|e l IH]; intros n k s Hl Hnum HW Hn; (destruct n as [|n]; [cbn in Hn; lia|]); cbn [find_rsdp List.find length] in *.
  { destruct (Z.ltb_spec (Z.of_nat k) num); [lia|done]. }
  destruct (Z.ltb_spec (Z.of_nat k) num); [|lia].
  destruct (Hl 0%nat e eq_refl) as (Hg & Hv & Hs). rewrite Nat.add_0_r in *.
  rewrite (bind_ok _ _ _ _ _ (load_guid_run _ _ s Hg)).
  assert (Hnext : find_rsdp info L acpi_guid2 n (Z.of_nat k +32 1) num cfg s =
    Ok (match List.find is_rsdp l with Some e => direct e.2 | None => 0 end) s).
  { rewrite u32_small by lia. replace (Z.of_nat k + 1) with (Z.of_nat (Datatypes.S k)) by lia. apply IH; [|lia|lia|lia].
    intros j e' Hj. replace (Datatypes.S k + j)%nat with (k + Datatypes.S j)%nat by lia. by apply Hl. }
  unfold is_rsdp at 1. pose proof (is_same_guid_eq e.1 acpi_guid2 (proj1 Hg) Hguid2) as Heq.
  destruct (is_same_guid e.1 acpi_guid2).
  - rewrite bool_decide_eq_true_2 by (by apply Heq). cbn [andb]. rewrite (load_bind _ _ _ _ _ Hv).
    cbn beta zeta. fold (direct e.2). destruct (Hs ltac:(by apply Heq)) as [[sig Hsig] _]. rewrite (load_bind _ _ _ _ _ Hsig), Hsig.
    destruct (Z.eqb_spec sig 0x2052545020445352) as [->|Hne]; [by rewrite bool_decide_eq_true_2|].
    rewrite bool_decide_eq_false_2 by (by intros [= E]). done.
  - rewrite bool_decide_eq_false_2 by (by intros E%Heq). done.
Qed.

Lemma find_mcfg_run ts x num : forall n (k : nat) s,
  (forall j t, ts !! j = Some t -> peek info 8 (xsdt_entry x (Z.of_nat (k + j))) = Some t /\ is_Some (peek info 4 (direct t)) /\ direct t <> 0) ->
  num = Z.of_nat (k + length ts) -> num < W32 -> (length ts < n)%nat ->
  find_mcfg info n (Z.of_nat k) num x s = Ok (match List.find is_mcfg ts with Some t => direct t | None => 0 end) s.
Proof.
  induction ts as [|t ts IH]; intros n k s Hl Hnum HW Hn; (destruct n as [|n]; [cbn in Hn; lia|]); cbn [find_mcfg List.find length] in *.
  { destruct (Z.ltb_spec (Z.of_nat k) num); [lia|done]. }
  destruct (Z.ltb_spec (Z.of_nat k) num); [|lia].
  destruct (Hl 0%nat t eq_refl) as (Ht & [sig Hsig] & _). rewrite Nat.add_0_r in *.
  rewrite (load_bind _ _ _ _ _ Ht). cbn beta zeta. fold (direct t).
  rewrite (load_bind _ _ _ _ _ Hsig). unfold is_mcfg at 1. rewrite Hsig.
  destruct (Z.eqb_spec sig 0x4746434D) as [->|Hne]; [by rewrite bool_decide_eq_true_2|].
  rewrite bool_decide_eq_false_2 by (by intros [= E]).
  rewrite u32_small by lia. replace (Z.of_nat k + 1) with (Z.of_nat (Datatypes.S k)) by lia. apply IH; [|lia|lia|lia].
  intros j t' Hj. replace (Datatypes.S k + j)%nat with (k + Datatypes.S j)%nat by lia. by apply Hl.
Qed.

End tables.

(** ** The properties *)

(** C19. [find_acpi] finds the MCFG.  On every well-formed set of firmware
    tables the two loops end; the function takes the first vendor table with
    the GUID of ACPI 2.0 and the signature of an RSDP, follows it to the XSDT
    and returns the first of its tables with the signature MCFG; if there is no
    such table it panics with the message that says which one is missing. *)
Theorem find_acpi_first {S} info L acpi_guid2 fuel efi_table cfg l (tables : Z -> list Z) (s : S) :
  guid_ok acpi_guid2 ->
  peek info 8 (efi_table + ConfigurationTable L) = Some cfg ->
  peek info 8 (efi_table + NumberOfTableEntries L) = Some (Z.of_nat (length l)) ->
  (forall k e, l !! k = Some e -> config_entry_at info L acpi_guid2 (direct cfg) k e) ->
  (forall e, e ∈ l -> is_rsdp info acpi_guid2 e = true -> xsdt_at info (direct e.2) (tables e.2)) ->
  (forall v, (length (tables v) < fuel)%nat) -> (length l < fuel)%nat -> Z.of_nat fuel < 2 ^ 28 ->
  find_acpi info L acpi_guid2 fuel efi_table s =
    match List.find (is_rsdp info acpi_guid2) l with
    | None => Panic "acpi: RSDP not found!"
    | Some e =>
      match List.find (is_mcfg info) (tables e.2) with
      | None => Panic "acpi: MCFG not found!"
      | Some t => Ok (direct t) s
      end
    end.
Proof.
  intros Hg Hcfg Hnum Hl Hx Hft Hfl Hf. unfold find_acpi. rewrite (load_bind _ _ _ _ _ _ Hcfg), (load_bind _ _ _ _ _ _ Hnum). cbn beta zeta.
  fold (direct cfg).
  pose proof (find_rsdp_run info L acpi_guid2 Hg l (direct cfg) _ fuel 0 s Hl eq_refl ltac:(lia) Hfl) as R.
  change (Z.of_nat 0) with 0 in R. rewrite (bind_ok _ _ _ _ _ R). clear R.
  destruct (List.find (is_rsdp info acpi_guid2) l) as [e|] eqn:E; [|done].
  apply List.find_some in E as [Hin He]. apply list_elem_of_In in Hin.
  assert (Hd : direct e.2 <> 0).
  { apply list_elem_of_lookup in Hin as [k Hk]. destruct (Hl k e Hk) as (_ & _ & Hs). apply Hs.
    unfold is_rsdp in He. apply andb_prop in He as [He _]. by apply bool_decide_eq_true_1 in He. }
  destruct (Z.eqb_spec (direct e.2) 0); [done|].
  destruct (Hx e Hin He) as (x & H1 & H2 & H3). pose proof (Hft e.2) as Hlen. rewrite (load_bind _ _ _ _ _ _ H1). cbn beta zeta.
  fold (direct x). rewrite (load_bind _ _ _ _ _ _ H2). cbn beta zeta.
  replace (u32 _) with (Z.of_nat (0 + length (tables e.2))).
  2: { unfold sizeof_XSDT. rewrite u64_small by lia. rewrite u32_small by dlia. dlia. }
  pose proof (find_mcfg_run info (tables e.2) (direct x) _ fuel 0 s H3 eq_refl ltac:(lia) Hlen) as R.
  change (Z.of_nat 0) with 0 in R. rewrite (bind_ok _ _ _ _ _ R).
  destruct (List.find (is_mcfg info) (tables e.2)) as [t|] eqn:Et; [|done].
  apply List.find_some in Et as [Hint _]. apply list_elem_of_In, list_elem_of_lookup in Hint as [k Hk].
  destruct (H3 k t Hk) as (_ & _ & Hz). destruct (Z.eqb_spec (direct t) 0); done.
Qed.

(** ** Concrete tables: the layout of UEFI on x86-64 *)

Definition uefi : efi_layout := EfiLayout 104 112 24 0 16.
Definition ACPI_20_TABLE_GUID : EFI_GUID := Guid 0x8868e871 0xe4f1 0x11d3 [0xbc; 0x22; 0x00; 0x80; 0xc7; 0x3c; 0x88; 0x81].
Definition other_guid : EFI_GUID := Guid 0xeb9d2d31 0x2d88 0x11d3 [0x9a; 0x16; 0x00; 0x90; 0x27; 0x3f; 0xc1; 0x4d].

Fixpoint poke (n : nat) (a v : Z) (m : gmap Z Z) : gmap Z Z :=
  match n with O => m | S n' => poke n' (a + 1) (v / 256) (<[a:=v mod 256]> m) end.
Definition poke_guid (a : Z) (g : EFI_GUID) (m : gmap Z Z) : gmap Z Z :=
  poke 4 a (Data1 g) (poke 2 (a + 4) (Data2 g) (poke 2 (a + 6) (Data3 g)
    (foldr (fun '(j, b) => <[a + 8 + j:=b]>) m (zip (seqZ 0 8) (Data4 g))))).

Definition firmware : gmap Z Z :=
  let K := KERNEL_OFFSET in
  poke 8 (K + 0x1068) 2 (poke 8 (K + 0x1070) 0x2000
  (poke_guid (K + 0x2000) other_guid (poke 8 (K + 0x2010) 0x3000
  (poke_guid (K + 0x2018) ACPI_20_TABLE_GUID (poke 8 (K + 0x2028) 0x4000
  (poke 8 (K + 0x4000) 0x2052545020445352 (poke 8 (K + 0x4018) 0x5000
  (poke 4 (K + 0x5004) 52 (poke 8 (K + 0x5024) 0x6000 (poke 8 (K + 0x502C) 0x7000
  (poke 4 (K + 0x6000) 0x50434146 (poke 4 (K + 0x7000) 0x4746434D ∅)))))))))))).

Definition demo_config : list (EFI_GUID * Z) := [(other_guid, 0x3000); (ACPI_20_TABLE_GUID, 0x4000)].

Ltac bytes_at := apply indexed_all; cbn [seq length]; repeat (apply Forall2_cons; split; [vm_compute; reflexivity|]); constructor.

Lemma find_acpi_first_witness :
  find_acpi firmware uefi ACPI_20_TABLE_GUID 10 (KERNEL_OFFSET + 0x1000) tt = Ok (direct 0x7000) tt.
Proof.
  apply (find_acpi_first firmware uefi ACPI_20_TABLE_GUID 10 (KERNEL_OFFSET + 0x1000) 0x2000 demo_config (fun _ => [0x6000; 0x7000]) tt).
  - reflexivity.
  - vm_compute. reflexivity.
  - vm_compute. reflexivity.
  - intros k e Hk. destruct k as [|[|k]]; [| |done]; injection Hk as <-.
    + split_and!; [|vm_compute; reflexivity|done]. split_and!; [done|vm_compute; reflexivity..|bytes_at].
    + split_and!; [|vm_compute; reflexivity|]. { split_and!; [done|vm_compute; reflexivity..|bytes_at]. }
      intros _. split; [eexists; vm_compute; reflexivity|done].
  - intros e He Hr. exists 0x5000. unfold demo_config in He. apply elem_of_cons in He as [->|He]; [vm_compute in Hr; done|].
    apply list_elem_of_singleton in He as ->. split_and!; [vm_compute; reflexivity|vm_compute; reflexivity|].
    intros k t Hk. destruct k as [|[|k]]; [| |done]; injection Hk as <-;
      (split_and!; [vm_compute; reflexivity|eexists; vm_compute; reflexivity|done]).
  - intros v. cbn. lia.
  - cbn. lia.
  - lia.
Defined.

End Acpi.
