(* ===== verification/NvmeFind.v ===== *)
(** * file/nvme.c, [nvme_find]: the scan of the PCI bus

    The configuration space of the bus is mapped page by page, searched for an
    NVMe controller, and unmapped again; then the registers of the controller
    are mapped in its place.  The page tables and the device memory behind them
    are an interface ([MmioIface]); the laws, in NvmeFindProps, say that a mapped
    page gives access to the bytes of its frame, and that unmapping gives empty
    tables back while their entries stay present.  The table MCFG is read from [info], as in
    Acpi. *)

From S2P Require Import Prelude Machine KMain Acpi Nvme.
Import Machine KMain Acpi Nvme.

Module NvmeFind.

Definition VIRT_ADDR : Z := 0xFFFF900000000000.
Definition PAGE_SIZE : Z := 4096.

(** mem/page.c, and loads and stores through virtual addresses *)
Class MmioIface (S : Type) := {
  page_map : Z -> Z -> bool -> M S unit;
  page_unmap : Z -> M S unit;
  mm_ld : nat -> Z -> M S Z;
  mm_st : nat -> Z -> Z -> M S unit;
}.

(** file/acpi.h: the entries of the MCFG *)
Record MCFGEntry := McfgEntry { addr : Z; start_pci : Z; end_pci : Z }.
Definition sizeof_MCFG : Z := 44.
Definition sizeof_MCFGEntry : Z := 16.

(** [struct PCIHeader] *)
Definition p_vendor_id (h : Z) : Z := h.
Definition p_command (h : Z) : Z := h + 4.
Definition p_prog_if (h : Z) : Z := h + 9.
Definition p_subclass (h : Z) : Z := h + 10.
Definition p_class_code (h : Z) : Z := h + 11.
Definition p_bar0 (h : Z) : Z := h + 16.
Definition p_bar1 (h : Z) : Z := h + 20.

Section find.
Context {S : Type} `{!MmioIface S} (info : gmap Z Z).

(** the body of the innermost loop: [Some base] leaves all three loops *)
Definition check_function (bus device function : Z) : M S (option Z) :=
  let header := pci_get_addr VIRT_ADDR (u8 bus) (u8 device) (u8 function) 0 in
  vendor_id ← mm_ld 2 (p_vendor_id header);
  if vendor_id =? 0xFFFF then mret None else
  class_code ← mm_ld 1 (p_class_code header);
  if negb (class_code =? 1) then mret None else
  subclass ← mm_ld 1 (p_subclass header);
  if negb (subclass =? 8) then mret None else
  prog_if ← mm_ld 1 (p_prog_if header);
  if negb (prog_if =? 2) then mret None else
  bar1 ← mm_ld 4 (p_bar1 header);
  bar0 ← mm_ld 4 (p_bar0 header);
  let nvme_base_addr := Z.lor (u64 (Z.shiftl bar1 32)) (Z.land bar0 0xFFFFFFF0) in
  command ← mm_ld 2 (p_command header);
  mm_st 2 (p_command header) (u16 (Z.lor command 6));;
  command ← mm_ld 2 (p_command header);
  mm_st 2 (p_command header) (u16 (Z.land command (Z.lnot (Z.shiftl 1 10))));;
  mret (Some nvme_base_addr).

(** A counted loop that a [goto] may leave. *)
Fixpoint first_of (n : nat) (i : Z) (body : Z -> M S (option Z)) : M S (option Z) :=
  match n with
  | O => mret None
  | Datatypes.S n' =>
    r ← body i;
    match r with Some x => mret (Some x) | None => first_of n' (i + 1) body end
  end.

Definition scan_bus (start_pci end_pci : Z) : M S (option Z) :=
  first_of (Z.to_nat (end_pci + 1 - start_pci)) start_pci (fun bus =>
    first_of 32 0 (fun device =>
      first_of 8 0 (fun function => check_function bus device function))).

Definition mapped_pages : nat := Z.to_nat (256 * 2 ^ 20 / PAGE_SIZE).

Definition load_entry (mcfg i : Z) : M S MCFGEntry :=
  let a := mcfg +64 (sizeof_MCFG + sizeof_MCFGEntry * i) in
  ad ← load info 8 a;
  s ← load info 1 (a + 10);
  e ← load info 1 (a + 11);
  mret (McfgEntry ad s e).

(** The loop over the entries returns in its first pass. *)
Definition nvme_find (mcfg : Z) : M S Z :=
  length ← load info 4 (header_length mcfg);
  if 0 <? (length -64 sizeof_MCFG) / sizeof_MCFGEntry then
    entry ← load_entry mcfg 0;
    for_loop mapped_pages 0 (fun i => page_map (VIRT_ADDR +64 (i *64 PAGE_SIZE)) (addr entry +64 (i *64 PAGE_SIZE)) true);;
    found ← scan_bus (start_pci entry) (end_pci entry);
    let nvme_base_addr := default 0 found in
    for_loop mapped_pages 0 (fun i => page_unmap (VIRT_ADDR +64 (i *64 PAGE_SIZE)));;
    let nvme_base := VIRT_ADDR in
    page_map nvme_base nvme_base_addr true;;
    page_map (nvme_base +64 0x1000) (nvme_base_addr +64 0x1000) true;;
    mret nvme_base
  else mret 0.

End find.
End NvmeFind.
