(* ===== verification/NvmeFindProps.v ===== *)
(** * The properties of the scan of the PCI bus *)

From S2P Require Import Prelude Machine KMain Acpi Nvme NvmeFind.
Import Machine KMain Acpi Nvme NvmeFind.

Module NvmeFindProps.

(** [n] bytes from [a] on, little endian. *)
Fixpoint word (n : nat) (f : Z -> Z) (a : Z) : Z :=
  match n with O => 0 | S n' => f a + 256 * word n' f (a + 1) end.

(** ** What the page tables and the devices promise *)

(** The laws are the behaviour of mem/page.c.  [page_unmap] gives a table that
    has no page left back to the allocator and leaves the entry that leads to it
    present, so that afterwards a table may be in use and free at the same time:
    [safe] is a state without such tables, [sound] one in which no such table
    leads to a page, and [has_table] says that the tables on the way to a page
    exist, free or not.  A page is mapped with new tables from a safe state; a
    page that has its tables is mapped in any state, and without memory. *)
Class MmioLaws (S : Type) `{!MmioIface S} := {
  (** the frame of a virtual page number *)
  frame_of : S -> Z -> option Z;
  safe : S -> Prop;
  sound : S -> Prop;
  has_table : S -> Z -> Prop;
  (** which physical addresses are device memory, and the bytes there *)
  device : Z -> Prop;
  dbyte : S -> Z -> Z;
  map_fails : string -> Prop;
  dbyte_range s a : 0 <= dbyte s a < 256;
  safe_sound s : safe s -> sound s;
  map_law v p k s : v mod 4096 = 0 -> 0 <= v < W64 -> p mod 4096 = 0 -> 0 <= p < 2 ^ 52 -> safe s ->
    (exists msg, page_map v p k s = Panic msg /\ map_fails msg) \/
    exists s', page_map v p k s = Ok tt s' /\
      (forall x, frame_of s' x = if decide (x = v / 4096) then Some p else frame_of s x) /\
      (forall a, dbyte s' a = dbyte s a) /\
      safe s' /\ has_table s' (v / 4096) /\ (forall x, has_table s x -> has_table s' x);
  remap_law v p k s : v mod 4096 = 0 -> 0 <= v < W64 -> p mod 4096 = 0 -> 0 <= p < 2 ^ 52 -> has_table s (v / 4096) ->
    exists s', page_map v p k s = Ok tt s' /\
      (forall x, frame_of s' x = if decide (x = v / 4096) then Some p else frame_of s x) /\
      (forall a, dbyte s' a = dbyte s a) /\ (forall x, has_table s x -> has_table s' x);
  unmap_law v s : v mod 4096 = 0 -> 0 <= v < W64 -> sound s -> has_table s (v / 4096) -> is_Some (frame_of s (v / 4096)) ->
    exists s', page_unmap v s = Ok tt s' /\
      (forall x, frame_of s' x = if decide (x = v / 4096) then None else frame_of s x) /\
      (forall a, dbyte s' a = dbyte s a) /\
      sound s' /\ (forall x, has_table s x -> has_table s' x);
  ld_law n v s p : frame_of s (v / 4096) = Some p -> 0 <= v < W64 -> v mod 4096 + Z.of_nat n <= 4096 ->
    (forall a, p + v mod 4096 <= a < p + v mod 4096 + Z.of_nat n -> device a) ->
    mm_ld n v s = Ok (word n (dbyte s) (p + v mod 4096)) s;
  (** a store changes the bytes it names; the registers of the configuration
      space that the driver writes keep what is written *)
  st_law n v x s p : frame_of s (v / 4096) = Some p -> 0 <= v < W64 -> v mod 4096 + Z.of_nat n <= 4096 ->
    (forall a, p + v mod 4096 <= a < p + v mod 4096 + Z.of_nat n -> device a) ->
    exists s', mm_st n v x s = Ok tt s' /\
      ((forall y, frame_of s' y = frame_of s y) /\ (sound s -> sound s') /\ (forall y, has_table s y -> has_table s' y)) /\
      (forall a, dbyte s' a = if decide (p + v mod 4096 <= a < p + v mod 4096 + Z.of_nat n)
                              then x / 256 ^ (a - (p + v mod 4096)) mod 256 else dbyte s a);
}.

(** ** The functions of a bus *)

(** A function: bus, device and number. *)
Definition pci_function : Type := (Z * Z * Z)%type.

(** All functions of the buses of an entry, in the order of the scan. *)
Definition functions (e : MCFGEntry) : list pci_function :=
  mjoin ((fun b => mjoin ((fun d => (fun f => (b, d, f)) <$> seqZ 0 8) <$> seqZ 0 32)) <$>
    seqZ (start_pci e) (end_pci e + 1 - start_pci e)).







Lemma in_functions e x : x ∈ functions e -> 0 <= start_pci e -> end_pci e < 256 ->
  0 <= x.1.1 < 256 /\ 0 <= x.1.2 < 32 /\ 0 <= x.2 < 8.
Proof.
  unfold functions. intros Hx Hs He. apply list_elem_of_join in Hx as (l & Hx & Hl).
  apply list_elem_of_fmap in Hl as (b & -> & Hb). apply list_elem_of_join in Hx as (l & Hx & Hl).
  apply list_elem_of_fmap in Hl as (d & -> & Hd). apply list_elem_of_fmap in Hx as (f & -> & Hf).
  rewrite elem_of_seqZ in *. cbn. lia.
Qed.







(** ** The scan *)

Section scan.
Context {S : Type} `{!MmioIface S} `{!MmioLaws S}.
Implicit Types s : S.



(** The page tables are as before, as far as the driver can tell. *)
Definition tables_kept s s' : Prop :=
  (forall x, frame_of s' x = frame_of s x) /\ (sound s -> sound s') /\ (forall x, has_table s x -> has_table s' x).

Lemma tables_kept_refl s : tables_kept s s.
Proof. done. Qed.











(** ** Mapping and unmapping *)
















End scan.
(** ** A model: page tables and device memory as finite maps *)

(** The pages, the regions of 512 pages that have a table, the tables that are on
    the list of free memory, and the memory of the devices. *)
Record bus := Bus { b_pages : gmap Z Z; b_tables : gset Z; b_free : gset Z; b_mem : gmap Z Z }.
Definition mem_byte (m : gmap Z Z) (a : Z) : Z := u8 (default 0xFF (m !! a)).
Definition bus_byte (s : bus) : Z -> Z := mem_byte (b_mem s).
Fixpoint bus_store (n : nat) (a x : Z) (m : gmap Z Z) : gmap Z Z :=
  match n with O => m | S n' => bus_store n' (a + 1) (x / 256) (<[a:=x mod 256]> m) end.

(** A new table is not to be had while a table in use is free; a table that
    loses its last page is freed, once, and stays in place. *)
Definition bus_map (v p : Z) : M bus unit := fun s =>
  let x := v / 4096 in
  if decide (x / 512 ∈ b_tables s) then Ok tt (Bus (<[x:=p]> (b_pages s)) (b_tables s) (b_free s) (b_mem s)) else
  if decide (b_free s = ∅) then Ok tt (Bus (<[x:=p]> (b_pages s)) ({[x / 512]} ∪ b_tables s) ∅ (b_mem s)) else Fault.

Definition last_page (x : Z) (s : bus) : bool := bool_decide (map_Forall (fun y _ => y / 512 = x / 512 -> y = x) (b_pages s)).

Definition bus_unmap (v : Z) : M bus unit := fun s =>
  let x := v / 4096 in
  if last_page x s then
    if decide (x / 512 ∈ b_free s) then Panic "pmm: free: cannot find node!"
    else Ok tt (Bus (delete x (b_pages s)) (b_tables s) ({[x / 512]} ∪ b_free s) (b_mem s))
  else Ok tt (Bus (delete x (b_pages s)) (b_tables s) (b_free s) (b_mem s)).

#[export] Instance bus_iface : MmioIface bus := {|
  page_map v p _ := bus_map v p;
  page_unmap v := bus_unmap v;
  mm_ld n v := fun s : bus => match b_pages s !! (v / 4096) with Some p => Ok (word n (bus_byte s) (p + v mod 4096)) s | None => Fault end;
  mm_st n v x := fun s : bus => match b_pages s !! (v / 4096) with
    Some p => Ok tt (Bus (b_pages s) (b_tables s) (b_free s) (bus_store n (p + v mod 4096) x (b_mem s))) | None => Fault end;
|}.

Lemma bus_store_byte n : forall a x m b,
  mem_byte (bus_store n a x m) b = if decide (a <= b < a + Z.of_nat n) then x / 256 ^ (b - a) mod 256 else mem_byte m b.
Proof.
  induction n as [|n IH]; intros a x m b; cbn [bus_store]; [by rewrite decide_False by lia|].
  rewrite IH. destruct (decide (b = a)) as [->|Hne].
  - rewrite decide_False, decide_True by lia. unfold mem_byte. rewrite lookup_insert_eq. cbn [default].
    replace (a - a) with 0 by lia. change (256 ^ 0) with 1. rewrite Z.div_1_r. apply u8_small. apply Z.mod_pos_bound. lia.
  - repeat case_decide; try (exfalso; lia); [|unfold mem_byte; by rewrite lookup_insert_ne by lia].
    replace (b - a) with (b - (a + 1) + 1) by lia. rewrite Z.pow_add_r, Z.mul_comm by lia. change (256 ^ 1) with 256.
    by rewrite Z.div_div by (try apply Z.pow_nonzero; lia).
Qed.

Definition bus_sound (s : bus) : Prop := forall x p, b_pages s !! x = Some p -> x / 512 ∉ b_free s.

Lemma bus_insert (s : bus) v p x : <[v / 4096:=p]> (b_pages s) !! x = if decide (x = v / 4096) then Some p else b_pages s !! x.
Proof. rewrite lookup_insert. repeat case_decide; congruence. Qed.

Lemma bus_delete (s : bus) v x : delete (v / 4096) (b_pages s) !! x = if decide (x = v / 4096) then None else b_pages s !! x.
Proof. rewrite lookup_delete. repeat case_decide; congruence. Qed.

#[export] Program Instance bus_laws : MmioLaws bus := {|
  frame_of s x := b_pages s !! x; safe s := b_free s = ∅; sound := bus_sound; has_table s x := x / 512 ∈ b_tables s;
  device a := 0xC0000000 <= a; dbyte := bus_byte; map_fails _ := False
|}.
Next Obligation. intros s a. apply u8_range. Qed.
Next Obligation. intros s Hs x p _. rewrite Hs. set_solver. Qed.
Next Obligation.
  intros v p k s _ _ _ _ Hs. right. cbn. unfold bus_map. destruct (decide _) as [Ht|Ht]; [|rewrite decide_True by done];
    (eexists; split; [done|]; split_and!; try done; [apply bus_insert|set_solver..]).
Qed.
Next Obligation.
  intros v p k s _ _ _ _ Ht. cbn. unfold bus_map. rewrite decide_True by done. eexists. split; [done|]. split_and!; [apply bus_insert|done|done].
Qed.
Next Obligation.
  intros v s _ _ Hs Ht [p Hp]. cbn. unfold bus_unmap. destruct (last_page (v / 4096) s) eqn:El.
  - rewrite decide_False by by eapply Hs. eexists. split; [done|]. split_and!; [apply bus_delete|done| |done].
    intros x q Hq. cbn in Hq. apply lookup_delete_Some in Hq as [Hne Hq]. cbn. apply not_elem_of_union. split; [|by eapply Hs].
    apply bool_decide_eq_true in El. intros Hin%elem_of_singleton. apply Hne. symmetry. by apply (El x q).
  - eexists. split; [done|]. split_and!; [apply bus_delete|done| |done]. intros x q Hq. cbn in Hq. apply lookup_delete_Some in Hq as [_ Hq]. by eapply Hs.
Qed.
Next Obligation. intros n v s p Hf _ _ _. cbn in *. by rewrite Hf. Qed.
Next Obligation.
  intros n v x s p Hf _ _ _. cbn in *. rewrite Hf. eexists. split; [done|]. split; [done|]. intros a. apply bus_store_byte.
Qed.



End NvmeFindProps.
