(* ===== verification/Enums.v ===== *)
(** * util/const.h and util/const.c: enumerations and their names

    The numbers that the models of the other components use, as the
    enumerations they come from, and the tables of names that are indexed with
    them. *)

From S2P Require Import Prelude Interrupt Fat32 KMain.

Module Enums.

(** ** Exceptions and interrupts *)

Inductive exception :=
  | EXCEPT_DIVISION
  | EXCEPT_DEBUG
  | EXCEPT_NON_MASKABLE_INTERRUPT
  | EXCEPT_BREAKPOINT
  | EXCEPT_OVERFLOW
  | EXCEPT_BOUND_RANGE_EXCEEDED
  | EXCEPT_INVALID_OPCODE
  | EXCEPT_DEVICE_NOT_AVAILABLE
  | EXCEPT_DOUBLE_FAULT
  | EXCEPT_COPROCESSOR_SEGMENT_OVERRUN
  | EXCEPT_INVALID_TSS
  | EXCEPT_SEGMENT_NOT_PRESENT
  | EXCEPT_STACK_SEGMENT_FAULT
  | EXCEPT_GENERAL_PROTECTION_FAULT
  | EXCEPT_PAGE_FAULT
  | EXCEPT_RESERVED_15
  | EXCEPT_X87_FP
  | EXCEPT_ALIGNMENT_CHECK
  | EXCEPT_MACHINE_CHECK
  | EXCEPT_SIMD_FP
  | EXCEPT_VIRTUALIZATIO
  | EXCEPT_CONTROL_PROTECTION
  | EXCEPT_RESERVED_22
  | EXCEPT_RESERVED_23
  | EXCEPT_RESERVED_24
  | EXCEPT_RESERVED_25
  | EXCEPT_RESERVED_26
  | EXCEPT_RESERVED_27
  | EXCEPT_HYPERVISOR_INJECTION
  | EXCEPT_VMM_COMMUNICATION
  | EXCEPT_SECURIY
  | EXCEPT_RESERVED_31.

Inductive interrupt :=
  | INT_TIMER
  | INT_KEYBOARD
  | INT_CASCADE
  | INT_COM2
  | INT_COM1
  | INT_LPT2
  | INT_FLOPPY_DISK
  | INT_LPT1_SPURIOUS
  | INT_CMOS_CLOCK
  | INT_FREE_9
  | INT_FREE_10
  | INT_FREE_11
  | INT_PS2_MOUSE
  | INT_FPU
  | INT_PRIMARY_ATA
  | INT_SECONDARY_ATA
  | INT_SYSCALL.

(** The enumerators in their order. *)
Definition exceptions : list exception :=
  [EXCEPT_DIVISION; EXCEPT_DEBUG; EXCEPT_NON_MASKABLE_INTERRUPT; EXCEPT_BREAKPOINT; EXCEPT_OVERFLOW; EXCEPT_BOUND_RANGE_EXCEEDED;
   EXCEPT_INVALID_OPCODE; EXCEPT_DEVICE_NOT_AVAILABLE; EXCEPT_DOUBLE_FAULT; EXCEPT_COPROCESSOR_SEGMENT_OVERRUN; EXCEPT_INVALID_TSS;
   EXCEPT_SEGMENT_NOT_PRESENT; EXCEPT_STACK_SEGMENT_FAULT; EXCEPT_GENERAL_PROTECTION_FAULT; EXCEPT_PAGE_FAULT; EXCEPT_RESERVED_15;
   EXCEPT_X87_FP; EXCEPT_ALIGNMENT_CHECK; EXCEPT_MACHINE_CHECK; EXCEPT_SIMD_FP; EXCEPT_VIRTUALIZATIO; EXCEPT_CONTROL_PROTECTION;
   EXCEPT_RESERVED_22; EXCEPT_RESERVED_23; EXCEPT_RESERVED_24; EXCEPT_RESERVED_25; EXCEPT_RESERVED_26; EXCEPT_RESERVED_27;
   EXCEPT_HYPERVISOR_INJECTION; EXCEPT_VMM_COMMUNICATION; EXCEPT_SECURIY; EXCEPT_RESERVED_31].
Definition irqs : list interrupt :=
  [INT_TIMER; INT_KEYBOARD; INT_CASCADE; INT_COM2; INT_COM1; INT_LPT2; INT_FLOPPY_DISK; INT_LPT1_SPURIOUS; INT_CMOS_CLOCK;
   INT_FREE_9; INT_FREE_10; INT_FREE_11; INT_PS2_MOUSE; INT_FPU; INT_PRIMARY_ATA; INT_SECONDARY_ATA].

#[global] Instance exception_eq_dec : EqDecision exception.
Proof. solve_decision. Defined.
#[global] Instance interrupt_eq_dec : EqDecision interrupt.
Proof. solve_decision. Defined.

(** The value of an enumerator is its position; that of the system call is given. *)
Definition position {A} `{!EqDecision A} (x : A) (l : list A) : option nat := fst <$> list_find (eq x) l.
Definition exception_code (e : exception) : Z := from_option Z.of_nat 0 (position e exceptions).
Definition interrupt_code (i : interrupt) : Z := match i with INT_SYSCALL => 96 | _ => from_option Z.of_nat 0 (position i irqs) end.

(** ** Memory types and errors *)

Inductive memory_type :=
  | MBOOT_MEM_0
  | MBOOT_MEM_AVAILABLE
  | MBOOT_MEM_RESERVED
  | MBOOT_MEM_ACPI_RECLAIMABLE
  | MBOOT_MEM_NVS
  | MBOOT_MEM_BAD.
Definition memory_code (t : memory_type) : Z :=
  match t with
  | MBOOT_MEM_0 => 0
  | MBOOT_MEM_AVAILABLE => 1
  | MBOOT_MEM_RESERVED => 2
  | MBOOT_MEM_ACPI_RECLAIMABLE => 3
  | MBOOT_MEM_NVS => 4
  | MBOOT_MEM_BAD => 5
  end.
Definition MULTIBOOT_ENTRY_TYPES : list string := ["???"; "Available"; "Reserved"; "ACPI Reclaimable"; "NVS"; "Bad"].

(** the name that [kmain] logs for an entry of the memory map *)
Definition entry_type_name (type : Z) : option string :=
  if type <=? 5 then MULTIBOOT_ENTRY_TYPES !! Z.to_nat type else Some "???".

Inductive FAT32_OpenError :=
  | FAT32_OPEN_NAME_TOO_LONG
  | FAT32_OPEN_EXT_TOO_LONG
  | FAT32_OPEN_NOT_FOUND.
Inductive FAT32_NewFileError :=
  | FAT32_NEW_FILE_NAME_TOO_LONG
  | FAT32_NEW_FILE_EXT_TOO_LONG
  | FAT32_NEW_FILE_EXISTS
  | FAT32_NEW_FILE_NO_SPACE.
Definition open_error_code (e : FAT32_OpenError) : Z :=
  match e with FAT32_OPEN_NAME_TOO_LONG => 0 | FAT32_OPEN_EXT_TOO_LONG => 1 | FAT32_OPEN_NOT_FOUND => 2 end.
Definition new_file_error_code (e : FAT32_NewFileError) : Z :=
  match e with
  | FAT32_NEW_FILE_NAME_TOO_LONG => 0
  | FAT32_NEW_FILE_EXT_TOO_LONG => 1
  | FAT32_NEW_FILE_EXISTS => 2
  | FAT32_NEW_FILE_NO_SPACE => 3
  end.
Definition FAT32_OPEN_ERRORS : list string := ["name too long"; "extension too long"; "file not found"].
Definition FAT32_NEW_FILE_ERRORS : list string := ["name too long"; "extension too long"; "file exists"; "no space remaining"].

(** ** The tables cover the enumerations *)

(** The numbers of the exceptions are exactly the indices of their names. *)
Theorem exceptions_named z :
  (exists e, exception_code e = z) <-> 0 <= z /\ is_Some (Interrupt.EXCEPTIONS !! Z.to_nat z).
Proof.
  split.
  - intros [e <-]. split; [by destruct e|]. destruct e; vm_compute; eauto.
  - intros [Hz Hn]. apply lookup_lt_is_Some in Hn. change (length Interrupt.EXCEPTIONS) with 32%nat in Hn.
    destruct (lookup_lt_is_Some_2 exceptions (Z.to_nat z) Hn) as [e He]. exists e. unfold exception_code, position.
    assert (H : forallb (fun k => match exceptions !! k with
      Some e => bool_decide (fst <$> list_find (eq e) exceptions = Some k) | None => false end) (seq 0 32) = true) by (by vm_compute).
    rewrite forallb_forall in H. specialize (H (Z.to_nat z) ltac:(apply list_elem_of_In, elem_of_seq; lia)).
    rewrite He in H. apply bool_decide_eq_true in H. rewrite H. cbn. lia.
Qed.

(** [kmain] never reads behind the table of the memory types. *)
Theorem entry_type_named type : 0 <= type < W32 -> is_Some (entry_type_name type).
Proof.
  intros Ht. unfold entry_type_name. destruct (Z.leb_spec type 5); [|eauto].
  apply lookup_lt_is_Some. change (length MULTIBOOT_ENTRY_TYPES) with 6%nat. lia.
Qed.

(** Every error of the file system has its message, and only those. *)
Theorem errors_named k :
  (is_Some (FAT32_OPEN_ERRORS !! k) <-> exists e, open_error_code e = Z.of_nat k) /\
  (is_Some (FAT32_NEW_FILE_ERRORS !! k) <-> exists e, new_file_error_code e = Z.of_nat k).
Proof.
  rewrite !lookup_lt_is_Some. change (length FAT32_OPEN_ERRORS) with 3%nat. change (length FAT32_NEW_FILE_ERRORS) with 4%nat.
  split; split.
  - intros Hk. destruct k as [|[|[|k]]]; [by exists FAT32_OPEN_NAME_TOO_LONG|by exists FAT32_OPEN_EXT_TOO_LONG|by exists FAT32_OPEN_NOT_FOUND|lia].
  - intros [e He]. destruct e; cbn in He; lia.
  - intros Hk. destruct k as [|[|[|[|k]]]]; [by exists FAT32_NEW_FILE_NAME_TOO_LONG|by exists FAT32_NEW_FILE_EXT_TOO_LONG|
      by exists FAT32_NEW_FILE_EXISTS|by exists FAT32_NEW_FILE_NO_SPACE|lia].
  - intros [e He]. destruct e; cbn in He; lia.
Qed.

(** The numbers in the models are those of the enumerations. *)
Lemma codes_used :
  Interrupt.EXCEPT_PAGE_FAULT = exception_code EXCEPT_PAGE_FAULT /\ Interrupt.INT_TIMER = interrupt_code INT_TIMER /\
  Interrupt.INT_KEYBOARD = interrupt_code INT_KEYBOARD /\ Interrupt.INT_SYSCALL = interrupt_code INT_SYSCALL /\
  KMain.MBOOT_MEM_AVAILABLE = memory_code MBOOT_MEM_AVAILABLE /\
  Fat32.FAT32_OPEN_NAME_TOO_LONG = open_error_code FAT32_OPEN_NAME_TOO_LONG /\
  Fat32.FAT32_OPEN_EXT_TOO_LONG = open_error_code FAT32_OPEN_EXT_TOO_LONG /\
  Fat32.FAT32_OPEN_NOT_FOUND = open_error_code FAT32_OPEN_NOT_FOUND /\
  Fat32.FAT32_NEW_FILE_NAME_TOO_LONG = new_file_error_code FAT32_NEW_FILE_NAME_TOO_LONG /\
  Fat32.FAT32_NEW_FILE_EXT_TOO_LONG = new_file_error_code FAT32_NEW_FILE_EXT_TOO_LONG /\
  Fat32.FAT32_NEW_FILE_EXISTS = new_file_error_code FAT32_NEW_FILE_EXISTS.
Proof. repeat split. Qed.

End Enums.
