(* ===== verification/Structs.v ===== *)
(** * The structures of the kernel

    One definition per [struct] of the sources, with the fields in their order
    and with their types.  The models of the components use offsets and sizes
    as numbers; here they are compared with the declarations. *)

From S2P Require Import Prelude CStruct Machine Pmm Vmm VMalloc KHeap ArrayList Proc Interrupt Disk Gpt Fat32 Nvme Elf KMain Acpi NvmeFind.
Import CStruct.

Module Structs.

(** The way to a member. *)
Abbreviation f := Member.

Abbreviation packed := (Struct true).
Abbreviation natural := (Struct false).

(** ** Memory managers *)

(** mem/pmm.c *)
Definition PhysFreeListNode : ctype := natural [("next", ptr_t); ("addr", u64_t)].

(** mem/vmm.c *)
Definition VirtFreeListNode : ctype := natural [("prev", ptr_t); ("next", ptr_t); ("start", u64_t); ("size", u64_t)].
Definition VirtAllocatedNode : ctype := natural [("next", ptr_t); ("start", u64_t); ("size", u64_t)].

(** mem/vmalloc.c *)
Definition HeapBitmapNode (n : nat) : ctype :=
  natural [("next", ptr_t); ("bitmap_size", u64_t); ("total_size", u64_t); ("mem", Array u8_t n)].
Definition HeapBlockHeader : ctype := natural [("size", u64_t)].

(** util/const.h: a page table of any level *)
Definition PML4 : ctype := natural [("table", Array u64_t 512)].
Definition PDPT : ctype := natural [("table", Array u64_t 512)].
Definition PDT : ctype := natural [("table", Array u64_t 512)].
Definition PT : ctype := natural [("table", Array u64_t 512)].

(** util/arraylist.h *)
Definition ArrayList : ctype := natural ([("l", ptr_t)] ++ decl u64_t ["size"; "capacity"] ++ [("entry_size", u64_t)]).

(** ** Processor *)

(** kmain.c *)
Definition GDTEntryTSS : ctype := packed [
  ("limit_low", u16_t); ("base_low", u16_t); ("base_mid", u8_t); ("access", u8_t);
  ("limit_high", Bits 1 4); ("flags", Bits 1 4); ("base_high", u8_t); ("base_highest", u32_t); ("reserved", u32_t)].
Definition TaskStateSegment : ctype := packed (
  [("reserved1", u32_t); ("rsp0", u64_t); ("rsp1", u64_t); ("rsp2", u64_t); ("reserved2", u64_t)] ++
  [("ist1", u64_t); ("ist2", u64_t); ("ist3", u64_t); ("ist4", u64_t); ("ist5", u64_t); ("ist6", u64_t); ("ist7", u64_t)] ++
  [("reserved3", u64_t); ("reserved4", u16_t); ("iopb", u16_t)]).

(** int/interrupt.h *)
Definition InterruptData : ctype := packed (
  decl u64_t ["r15"; "r14"; "r13"; "r12"; "r11"; "r10"; "r9"; "r8"; "rbp"; "rdi"; "rsi"; "rdx"; "rcx"; "rbx"; "rax"] ++
  decl u64_t ["interrupt_num"; "error_code"] ++ decl u64_t ["rip"; "cs"; "rflags"; "rsp"; "ss"]).
Definition IDTEntry : ctype := packed [
  ("isr_low", u16_t); ("segment", u16_t); ("ist", Bits 1 3); ("reserved1", Bits 1 5); ("attributes", u8_t);
  ("isr_mid", u16_t); ("isr_high", u32_t); ("reserved2", u32_t)].
Definition IDTPointer : ctype := packed [("size", u16_t); ("offset", u64_t)].

(** int/keyboard.h *)
Definition KeyboardRecordingList : ctype := natural [("pressed_keys", ptr_t); ("length", u64_t)].

(** ** Processes *)

(** proc/elf.h *)
Definition ELFSegmentMem : ctype := natural [("vaddr", u64_t); ("num_pages", u64_t); ("pages", ptr_t)].
Definition ELFContext : ctype := natural (
  [("file_buffer", ptr_t); ("proc_stack_pages", ptr_t); ("segments", ptr_t)] ++
  decl u64_t ["entry_point"; "rbp_rsp"; "stack_size"]).

(** proc/elfdefs.h *)
Definition EI_NIDENT : nat := 16.
Definition ELF_Header : ctype := packed [
  ("e_ident", Array u8_t EI_NIDENT); ("e_type", u16_t); ("e_machine", u16_t); ("e_version", u32_t);
  ("e_entry", u64_t); ("e_phoff", u64_t); ("e_shoff", u64_t); ("e_flags", u32_t); ("e_ehsize", u16_t);
  ("e_phentsize", u16_t); ("e_phnum", u16_t); ("e_shentsize", u16_t); ("e_shnum", u16_t); ("e_shstrndx", u16_t)].
Definition ELF_ProgramHeader : ctype := packed [
  ("p_type", u32_t); ("p_flags", u32_t); ("p_offset", u64_t); ("p_vaddr", u64_t); ("p_paddr", u64_t);
  ("p_filesz", u64_t); ("p_memsz", u64_t); ("p_align", u64_t)].

(** proc/proc.h *)
Definition CPU_Context : ctype := natural [
  ("rip", u64_t); ("rsp", u64_t); ("rbx", u64_t); ("rcx", u64_t); ("rdx", u64_t); ("rsi", u64_t); ("rdi", u64_t); ("rbp", u64_t)].
Definition Process : ctype := natural [
  ("segment_mem", ELFSegmentMem); ("mem", ptr_t); ("sz", u64_t); ("kstack", ptr_t); ("state", enum_t);
  ("pid", u64_t); ("parent", ptr_t); ("chan", ptr_t); ("killed", u32_t)].

(** ** Firmware and devices *)

(** file/acpi.h *)
Definition RSDP2 : ctype := packed [
  ("signature", u64_t); ("checksum", u8_t); ("oem_id", Array u8_t 6); ("revision", u8_t); ("deprecated", u32_t);
  ("length", u32_t); ("xsdt_addr", u64_t); ("ext_checksum", u8_t); ("reserved", Array u8_t 3)].
Definition DescriptionHeader : ctype := packed [
  ("signature", u32_t); ("length", u32_t); ("revision", u8_t); ("checksum", u8_t); ("oem_id", Array u8_t 6);
  ("oem_table_id", Array u8_t 8); ("oem_revision", u32_t); ("creator_id", u32_t); ("creator_revision", u32_t)].
Definition XSDT (n : nat) : ctype := packed [("header", DescriptionHeader); ("entries", Array u64_t n)].
Definition MCFGEntry : ctype := packed [
  ("addr", u64_t); ("pci_group", u16_t); ("start_pci", u8_t); ("end_pci", u8_t); ("reserved", u32_t)].
Definition MCFG (n : nat) : ctype := packed [("header", DescriptionHeader); ("reserved", u64_t); ("entries", Array MCFGEntry n)].

(** file/nvme.c and file/nvme.h *)
Definition PCIHeader : ctype := packed (
  decl u16_t ["vendor_id"; "device_id"] ++ decl u16_t ["command"; "status"] ++
  decl u8_t ["revision_id"; "prog_if"; "subclass"; "class_code"] ++
  decl u8_t ["cache_line_size"; "latency_timer"; "header_type"; "bist"] ++
  decl u32_t ["bar0"; "bar1"; "bar2"; "bar3"; "bar4"; "bar5"] ++ [("cardbus_cis_pointer", u32_t)] ++
  decl u16_t ["subsystem_vendor_id"; "subsystem_id"] ++ [("expansion_rom", u32_t)] ++
  [("capabilities", u8_t); ("reserved1", u8_t); ("reserved2", u16_t)] ++ [("reserved3", u32_t)] ++
  decl u8_t ["interrupt_line"; "interrupt_pin"; "min_grant"; "max_latency"]).
Definition SubmissionEntry : ctype := packed (
  [("opcode", u8_t); ("fused_op", Bits 1 2); ("reserved1", Bits 1 4); ("prp_sgl", Bits 1 2); ("identifier", u16_t)] ++
  [("nsid", u32_t); ("reserved2", u64_t); ("metadata_ptr", u64_t)] ++ decl u64_t ["prp1"; "prp2"] ++
  [("dword10", u32_t); ("dword11", u32_t); ("dword12", u32_t); ("dword13", u32_t); ("dword14", u32_t); ("dword15", u32_t)]).
Definition CompletionEntry : ctype := packed [("dword0", u32_t); ("dword1", u32_t); ("dword2", u32_t); ("dword3", u32_t)].
Definition NVMeDevice (n : nat) : ctype := packed [
  ("CAP", u64_t); ("VS", u32_t); ("INTMS", u32_t); ("INTMC", u32_t); ("CC", u32_t); ("reserved", u32_t); ("CSTS", u32_t);
  ("NSSR", u32_t); ("AQA", u32_t); ("ASQ", u64_t); ("ACQ", u64_t); ("padding", Array u8_t 4040); ("doorbells", Array u8_t n)].

(** ** File system *)

(** file/gpt.c and file/gpt.h *)
Definition GPTHeader : ctype := packed (
  [("signature", u64_t)] ++ decl u32_t ["revision_no"; "header_size"; "header_crc32"] ++ [("reserved", u32_t)] ++
  decl u64_t ["current_lba"; "backup_lba"; "first_lba"; "last_lba"] ++ [("disk_guid", Array u64_t 2)] ++
  [("part_array_start_lba", u64_t)] ++ decl u32_t ["part_array_entries"; "part_array_entry_size"; "part_array_crc32"] ++
  [("reserved2", Array u8_t 420)]).
Definition PartitionEntry : ctype := packed (
  [("guid", Array u64_t 2); ("partition_guid", Array u64_t 2)] ++ decl u64_t ["first_lba"; "last_lba"; "flags"] ++
  [("name", Array u16_t 36)]).
Definition Partition : ctype := packed (decl u64_t ["first_lba"; "last_lba"]).

(** file/fat32.c and file/fat32.h *)
Definition BPB_FAT32 : ctype := packed [
  ("BS_jmpBoot_0", u8_t); ("BS_jmpBoot_1", u8_t); ("BS_jmpBoot_2", u8_t); ("BS_OEMName", u64_t); ("BPB_BytsPerSec", u16_t);
  ("BPB_SecPerClus", u8_t); ("BPB_RsvdSecCnt", u16_t); ("BPB_NumFATs", u8_t); ("BPB_RootEntCnt", u16_t);
  ("BPB_TotSec16", u16_t); ("BPB_Media", u8_t); ("BPB_FATSz16", u16_t); ("BPB_SecPerTrk", u16_t); ("BPB_NumHeads", u16_t);
  ("BPB_HiddSec", u32_t); ("BPB_TotSec32", u32_t); ("BPB_FATSz32", u32_t); ("BPB_ExtFlags", u16_t); ("BPB_FSVer", u16_t);
  ("BPB_RootClus", u32_t); ("BPB_FSInfo", u16_t); ("BPB_BkBootSec", u16_t); ("reserved", Array u8_t 12);
  ("BS_DrvNum", u8_t); ("reserved1", u8_t); ("BS_BootSig", u8_t); ("BS_VolID", u32_t); ("BS_VolLab", Array u8_t 11);
  ("BS_FilSysType", Array u8_t 8); ("reserved2", Array u8_t 420); ("Signature_word", u16_t)].
Definition FAT_DirectoryEntry : ctype := packed [
  ("DIR_Name", Array u8_t 11); ("DIR_Attr", u8_t); ("DIR_NTRes", u8_t); ("DIR_CrtTimeTenth", u8_t); ("DIR_CrtTime", u16_t);
  ("DIR_CrtDate", u16_t); ("DIR_LstAccDate", u16_t); ("DIR_FstClusHI", u16_t); ("DIR_WrtTime", u16_t);
  ("DIR_WrtDate", u16_t); ("DIR_FstClusLO", u16_t); ("DIR_FileSize", u32_t)].

(** ** Boot information: util/multiboot2.h *)

Definition multiboot_color : ctype := natural [("red", u8_t); ("green", u8_t); ("blue", u8_t)].
Definition multiboot_mmap_entry : ctype := natural [("addr", u64_t); ("len", u64_t); ("type", u32_t); ("zero", u32_t)].
Definition multiboot_tag : ctype := natural [("type", u32_t); ("size", u32_t)].
Definition multiboot_tag_string (n : nat) : ctype := natural [("type", u32_t); ("size", u32_t); ("string", Array u8_t n)].
Definition multiboot_tag_module (n : nat) : ctype := natural [
  ("type", u32_t); ("size", u32_t); ("mod_start", u32_t); ("mod_end", u32_t); ("cmdline", Array u8_t n)].
Definition multiboot_tag_basic_meminfo : ctype := natural [
  ("type", u32_t); ("size", u32_t); ("mem_lower", u32_t); ("mem_upper", u32_t)].
Definition multiboot_tag_bootdev : ctype := natural [
  ("type", u32_t); ("size", u32_t); ("biosdev", u32_t); ("slice", u32_t); ("part", u32_t)].
Definition multiboot_tag_mmap (n : nat) : ctype := natural [
  ("type", u32_t); ("size", u32_t); ("entry_size", u32_t); ("entry_version", u32_t); ("entries", Array multiboot_mmap_entry n)].
Definition multiboot_tag_framebuffer_common : ctype := natural [
  ("type", u32_t); ("size", u32_t); ("framebuffer_addr", u64_t); ("framebuffer_pitch", u32_t); ("framebuffer_width", u32_t);
  ("framebuffer_height", u32_t); ("framebuffer_bpp", u8_t); ("framebuffer_type", u8_t); ("reserved", u16_t)].
(** the two alternatives of the union *)
Definition framebuffer_indexed (n : nat) : ctype := natural [
  ("common", multiboot_tag_framebuffer_common); ("framebuffer_palette_num_colors", u16_t);
  ("framebuffer_palette", Array multiboot_color n)].
Definition framebuffer_rgb : ctype := natural [
  ("common", multiboot_tag_framebuffer_common);
  ("framebuffer_red_field_position", u8_t); ("framebuffer_red_mask_size", u8_t); ("framebuffer_green_field_position", u8_t);
  ("framebuffer_green_mask_size", u8_t); ("framebuffer_blue_field_position", u8_t); ("framebuffer_blue_mask_size", u8_t)].
Definition multiboot_tag_efi64 : ctype := natural [("type", u32_t); ("size", u32_t); ("pointer", u64_t)].

(** All of them; [n] is the number of elements of a flexible array. *)
Definition kernel_structs (n : nat) : list ctype := [
  PhysFreeListNode; VirtFreeListNode; VirtAllocatedNode; HeapBitmapNode n; HeapBlockHeader; PML4; PDPT; PDT; PT; ArrayList;
  GDTEntryTSS; TaskStateSegment; InterruptData; IDTEntry; IDTPointer; KeyboardRecordingList;
  ELFSegmentMem; ELFContext; ELF_Header; ELF_ProgramHeader; CPU_Context; Process;
  RSDP2; DescriptionHeader; XSDT n; MCFGEntry; MCFG n; PCIHeader; SubmissionEntry; CompletionEntry; NVMeDevice n;
  GPTHeader; PartitionEntry; Partition; BPB_FAT32; FAT_DirectoryEntry;
  multiboot_color; multiboot_mmap_entry; multiboot_tag; multiboot_tag_string n; multiboot_tag_module n;
  multiboot_tag_basic_meminfo; multiboot_tag_bootdev; multiboot_tag_mmap n; multiboot_tag_framebuffer_common;
  framebuffer_indexed n; framebuffer_rgb; multiboot_tag_efi64].

Lemma kernel_structs_wf n : Forall (fun t => wf t = true) (kernel_structs n).
Proof. repeat constructor. Qed.

(** ** The models use these offsets *)

(** Where a field of an object at address [a] is. *)
Definition field_at (a : Z) (t : ctype) (p : list sel) : Z := a + default 0 (offsetof t p).

(** The accessors of the memory managers and of the lists. *)
Lemma memory_accessors a :
  Pmm.next_of a = field_at a PhysFreeListNode [f "next"] /\ Pmm.addr_of a = field_at a PhysFreeListNode [f "addr"] /\
  Pmm.sizeof_node = sizeof PhysFreeListNode /\
  Vmm.f_prev a = field_at a VirtFreeListNode [f "prev"] /\ Vmm.f_next a = field_at a VirtFreeListNode [f "next"] /\
  Vmm.f_start a = field_at a VirtFreeListNode [f "start"] /\ Vmm.f_size a = field_at a VirtFreeListNode [f "size"] /\
  Vmm.sizeof_free_node = sizeof VirtFreeListNode /\
  Vmm.a_next a = field_at a VirtAllocatedNode [f "next"] /\ Vmm.a_start a = field_at a VirtAllocatedNode [f "start"] /\
  Vmm.a_size a = field_at a VirtAllocatedNode [f "size"] /\ Vmm.sizeof_alloc_node = sizeof VirtAllocatedNode /\
  VMalloc.h_next a = field_at a (HeapBitmapNode 0) [f "next"] /\ VMalloc.h_bitmap_size a = field_at a (HeapBitmapNode 0) [f "bitmap_size"] /\
  VMalloc.h_total_size a = field_at a (HeapBitmapNode 0) [f "total_size"] /\ VMalloc.h_mem a = field_at a (HeapBitmapNode 0) [f "mem"] /\
  VMalloc.sizeof_header = sizeof HeapBlockHeader.
Proof. unfold field_at. cbn -[Z.add]. unfold Pmm.next_of, Vmm.f_prev, Vmm.a_next, VMalloc.h_next. rewrite Z.add_0_r. repeat split; reflexivity. Qed.

Lemma locate_element k fs name o t n i p : find_field k 0 fs name = Some (o, Array t n) -> (i < n)%nat ->
  locate (Struct k fs) (f name :: Index i :: p) 0 = locate t p (o + Z.of_nat i * size t).
Proof. intros Hf Hi. cbn [locate]. rewrite Hf. cbn [locate]. by rewrite (proj2 (Nat.ltb_lt i n) Hi). Qed.

(** The accessors of the firmware's tables and of the PCI headers. *)
Lemma device_accessors a n i (Hi : (i < n)%nat) :
  Acpi.sizeof_XSDT = sizeof (XSDT 0) /\ NvmeFind.sizeof_MCFG = sizeof (MCFG 0) /\ NvmeFind.sizeof_MCFGEntry = sizeof MCFGEntry /\
  Acpi.rsdp_xsdt_addr a = u64 (field_at a RSDP2 [f "xsdt_addr"]) /\
  Acpi.header_length a = u64 (field_at a (XSDT n) [f "header"; f "length"]) /\
  Acpi.header_length a = u64 (field_at a (MCFG n) [f "header"; f "length"]) /\
  Acpi.xsdt_entry a (Z.of_nat i) = u64 (field_at a (XSDT n) [f "entries"; Index i]) /\
  offsetof (MCFG n) [f "entries"; Index i; f "addr"] = Some (NvmeFind.sizeof_MCFG + NvmeFind.sizeof_MCFGEntry * Z.of_nat i) /\
  offsetof MCFGEntry [f "start_pci"] = Some 10 /\ offsetof MCFGEntry [f "end_pci"] = Some 11 /\
  NvmeFind.p_vendor_id a = field_at a PCIHeader [f "vendor_id"] /\ NvmeFind.p_command a = field_at a PCIHeader [f "command"] /\
  NvmeFind.p_prog_if a = field_at a PCIHeader [f "prog_if"] /\ NvmeFind.p_subclass a = field_at a PCIHeader [f "subclass"] /\
  NvmeFind.p_class_code a = field_at a PCIHeader [f "class_code"] /\ NvmeFind.p_bar0 a = field_at a PCIHeader [f "bar0"] /\
  NvmeFind.p_bar1 a = field_at a PCIHeader [f "bar1"] /\
  offsetof (NVMeDevice n) [f "doorbells"] = Some 0x1000.
Proof.
  repeat split; try reflexivity.
  - unfold Acpi.xsdt_entry, field_at, offsetof, XSDT. rewrite (locate_element _ _ _ 288 u64_t n) by done. cbn [locate fmap option_fmap option_map].
    do 2 f_equal. change (size u64_t) with 64. replace (288 + Z.of_nat i * 64) with ((36 + 8 * Z.of_nat i) * 8) by lia.
    symmetry. apply Z.div_mul. lia.
  - unfold offsetof, MCFG. rewrite (locate_element _ _ _ 352 MCFGEntry n) by done. change (size MCFGEntry) with 128.
    change (Some ((352 + Z.of_nat i * 128 + 0) / 8) = Some (44 + 16 * Z.of_nat i)).
    replace (352 + Z.of_nat i * 128 + 0) with ((44 + 16 * Z.of_nat i) * 8) by lia. by rewrite Z.div_mul.
  - change (a = a + 0). lia.
Qed.

(** A table of (way, offset, bytes) describes fields of a structure. *)
Definition has_fields (t : ctype) (l : list (list sel * Z * nat)) : Prop :=
  Forall (fun '(p, o, n) => slot t p = Some (8 * o, 8 * Z.of_nat n)) l.

(** The fields that [Gpt], [Fat32], [Elf], [KMain] and [Framebuffer] load, with the offsets
    and widths that they use, and the sizes of the array elements. *)
Lemma loads_declared :
  has_fields GPTHeader [([f "signature"], 0, 8%nat); ([f "part_array_start_lba"], 72, 8%nat); ([f "part_array_entry_size"], 84, 4%nat);
    ([f "current_lba"], 24, 8%nat); ([f "header_size"], 12, 4%nat)] /\
  has_fields PartitionEntry [([f "guid"; Index 0], 0, 8%nat); ([f "guid"; Index 1], 8, 8%nat); ([f "first_lba"], 32, 8%nat);
    ([f "last_lba"], 40, 8%nat)] /\
  has_fields BPB_FAT32 [([f "BS_jmpBoot_0"], 0, 1%nat); ([f "BS_jmpBoot_2"], 2, 1%nat); ([f "BPB_BytsPerSec"], 11, 2%nat);
    ([f "BPB_NumFATs"], 16, 1%nat); ([f "BPB_SecPerClus"], 13, 1%nat); ([f "BPB_TotSec16"], 19, 2%nat);
    ([f "BPB_FATSz16"], 22, 2%nat); ([f "BPB_TotSec32"], 32, 4%nat); ([f "Signature_word"], 510, 2%nat);
    ([f "BPB_FATSz32"], 36, 4%nat); ([f "BPB_RsvdSecCnt"], 14, 2%nat); ([f "BPB_RootClus"], 44, 4%nat)] /\
  has_fields FAT_DirectoryEntry [([f "DIR_Name"; Index 0], 0, 1%nat); ([f "DIR_FstClusHI"], 20, 2%nat); ([f "DIR_FstClusLO"], 26, 2%nat)] /\
  has_fields ELF_Header [([f "e_ident"; Index 4], 4, 1%nat); ([f "e_type"], 16, 2%nat); ([f "e_machine"], 18, 2%nat);
    ([f "e_version"], 20, 4%nat); ([f "e_entry"], 24, 8%nat); ([f "e_phoff"], 32, 8%nat); ([f "e_ehsize"], 52, 2%nat);
    ([f "e_phnum"], 56, 2%nat)] /\
  has_fields ELF_ProgramHeader [([f "p_type"], 0, 4%nat); ([f "p_offset"], 8, 8%nat); ([f "p_vaddr"], 16, 8%nat);
    ([f "p_filesz"], 32, 8%nat); ([f "p_memsz"], 40, 8%nat)] /\
  has_fields ELFSegmentMem [([f "vaddr"], 0, 8%nat); ([f "num_pages"], 8, 8%nat); ([f "pages"], 16, 8%nat)] /\
  has_fields multiboot_tag [([f "type"], 0, 4%nat); ([f "size"], 4, 4%nat)] /\
  has_fields (multiboot_tag_mmap 1) [([f "entry_size"], 8, 4%nat); ([f "entries"; Index 0; f "addr"], 16, 8%nat)] /\
  has_fields multiboot_mmap_entry [([f "addr"], 0, 8%nat); ([f "len"], 8, 8%nat); ([f "type"], 16, 4%nat)] /\
  has_fields multiboot_tag_framebuffer_common [([f "framebuffer_addr"], 8, 8%nat); ([f "framebuffer_pitch"], 16, 4%nat);
    ([f "framebuffer_width"], 20, 4%nat); ([f "framebuffer_height"], 24, 4%nat)] /\
  has_fields (framebuffer_indexed 1) [([f "common"; f "framebuffer_type"], 29, 1%nat); ([f "framebuffer_palette_num_colors"], 32, 2%nat);
    ([f "framebuffer_palette"; Index 0; f "red"], 34, 1%nat); ([f "framebuffer_palette"; Index 0; f "green"], 35, 1%nat);
    ([f "framebuffer_palette"; Index 0; f "blue"], 36, 1%nat)] /\
  has_fields framebuffer_rgb [([f "framebuffer_blue_field_position"], 36, 1%nat); ([f "framebuffer_blue_mask_size"], 37, 1%nat)] /\
  has_fields multiboot_tag_efi64 [([f "pointer"], 8, 8%nat)] /\
  sizeof <$> [multiboot_color; GPTHeader; PartitionEntry; BPB_FAT32; FAT_DirectoryEntry; ELF_Header; ELF_ProgramHeader; ELFSegmentMem; SubmissionEntry; CompletionEntry] =
    [3; Disk.NVME_LBA_SIZE; 128; Disk.NVME_LBA_SIZE; 32; 64; 56; 24; 64; 16].
Proof. repeat split; repeat constructor. Qed.

(** The layout that [Proc.store_process] writes is that of [struct Process]. *)
Lemma process_layout p :
  (fun x : Z * nat * Z => x.1) <$> Proc.layout p =
    omap (fun w => '(o, n) ← slot Process w; Some (o / 8, Z.to_nat (n / 8)))
      [[f "segment_mem"; f "vaddr"]; [f "segment_mem"; f "num_pages"]; [f "segment_mem"; f "pages"]; [f "mem"]; [f "sz"]; [f "kstack"];
       [f "state"]; [f "pid"]; [f "parent"]; [f "chan"]; [f "killed"]] /\
  Proc.sizeof_Process = sizeof Process.
Proof. split; reflexivity. Qed.

End Structs.
