(* ===== verification/TaskState.v ===== *)
(** * kmain.c: the task state segment

    [kmain] writes the descriptor of the task state segment at its start and
    the stack for interrupts from user mode at its end.  The descriptor and
    the segment are read as the processor reads them. *)

From S2P Require Import Prelude CStruct Structs Machine Pmm PmmProps Page PageOps PageProps KMain.
Import CStruct Structs Machine Pmm PmmProps KMalloc PageOps PageProps.

Module TaskState.

Abbreviation f := Member.

(** ** The descriptor *)

(** [kmain] fills in the descriptor field by field. *)
Definition fill_tss (d : KMain.GDTEntryTSS) (tss_entry : Z) : option Z :=
  x ← set GDTEntryTSS [f "limit_low"] (KMain.limit_low d) tss_entry;
  x ← set GDTEntryTSS [f "base_low"] (KMain.base_low d) x;
  x ← set GDTEntryTSS [f "base_mid"] (KMain.base_mid d) x;
  x ← set GDTEntryTSS [f "access"] (KMain.access d) x;
  x ← set GDTEntryTSS [f "limit_high"] (KMain.limit_high d) x;
  x ← set GDTEntryTSS [f "flags"] (KMain.tss_flags d) x;
  x ← set GDTEntryTSS [f "base_high"] (KMain.base_high d) x;
  x ← set GDTEntryTSS [f "base_highest"] (KMain.base_highest d) x;
  set GDTEntryTSS [f "reserved"] 0 x.

(** What the processor takes from the 128 bits of a system descriptor. *)
Definition cpu_base (x : Z) : Z := load_bits x 16 24 + 2 ^ 24 * load_bits x 56 40.
Definition cpu_raw_limit (x : Z) : Z := load_bits x 0 16 + 2 ^ 16 * load_bits x 48 4.
Definition cpu_granular (x : Z) : bool := Z.testbit x 55.
(** the last offset of the segment *)
Definition cpu_limit (x : Z) : Z := if cpu_granular x then 4096 * cpu_raw_limit x + 4095 else cpu_raw_limit x.
(** type 9 (available 64-bit task state segment), no code or data segment, for ring 0, present *)
Definition cpu_access (x : Z) : Z := load_bits x 40 8.

Lemma set_slot t p o w v x : slot t p = Some (o, w) -> set t p v x = Some (store_bits x o w v).
Proof. unfold set. by intros ->. Qed.

(** The fields of the descriptor, one behind the other. *)
Definition tss_image (d : KMain.GDTEntryTSS) (x : Z) : Z :=
  let x := store_bits x 0 16 (KMain.limit_low d) in
  let x := store_bits x 16 16 (KMain.base_low d) in
  let x := store_bits x 32 8 (KMain.base_mid d) in
  let x := store_bits x 40 8 (KMain.access d) in
  let x := store_bits x 48 4 (KMain.limit_high d) in
  let x := store_bits x 52 4 (KMain.tss_flags d) in
  let x := store_bits x 56 8 (KMain.base_high d) in
  let x := store_bits x 64 32 (KMain.base_highest d) in
  store_bits x 96 32 0.

Lemma bind_slot {A} t p o w v x (k : Z -> option A) : slot t p = Some (o, w) -> (set t p v x ≫= k) = k (store_bits x o w v).
Proof. intros Hs. by rewrite (set_slot t p o w v x Hs). Qed.

Lemma fill_tss_image d x : fill_tss d x = Some (tss_image d x).
Proof.
  unfold fill_tss.
  rewrite (bind_slot _ [f "limit_low"] 0 16), (bind_slot _ [f "base_low"] 16 16), (bind_slot _ [f "base_mid"] 32 8),
    (bind_slot _ [f "access"] 40 8), (bind_slot _ [f "limit_high"] 48 4), (bind_slot _ [f "flags"] 52 4),
    (bind_slot _ [f "base_high"] 56 8), (bind_slot _ [f "base_highest"] 64 32) by (vm_compute; reflexivity).
  apply set_slot. vm_compute. reflexivity.
Qed.

Lemma fill_tss_run d x : exists x', fill_tss d x = Some x' /\ forall i, 0 <= i ->
  Z.testbit x' i =
    if i <? 16 then Z.testbit (KMain.limit_low d) i else if i <? 32 then Z.testbit (KMain.base_low d) (i - 16)
    else if i <? 40 then Z.testbit (KMain.base_mid d) (i - 32) else if i <? 48 then Z.testbit (KMain.access d) (i - 40)
    else if i <? 52 then Z.testbit (KMain.limit_high d) (i - 48) else if i <? 56 then Z.testbit (KMain.tss_flags d) (i - 52)
    else if i <? 64 then Z.testbit (KMain.base_high d) (i - 56) else if i <? 96 then Z.testbit (KMain.base_highest d) (i - 64)
    else if i <? 128 then false else Z.testbit x i.
Proof.
  exists (tss_image d x). split; [apply fill_tss_image|]. intros i Hi. unfold tss_image.
  rewrite !store_bits_spec by lia. rewrite Z.testbit_0_l.
  repeat match goal with |- context [?a <? ?b] => destruct (Z.ltb_spec a b); try lia end;
  repeat match goal with |- context [?a <=? ?b] => destruct (Z.leb_spec a b); try lia end; cbn; try reflexivity; f_equal; lia.
Qed.

Lemma testbit_land_ones v w i : 0 <= w -> 0 <= i -> Z.testbit (Z.land v (Z.ones w)) i = (i <? w) && Z.testbit v i.
Proof. intros Hw Hi. by rewrite Z.land_spec, Z.testbit_ones_nonneg, andb_comm by lia. Qed.

(** Two numbers of bits side by side. *)
Lemma testbit_join a b w i : 0 <= w -> 0 <= a < 2 ^ w -> 0 <= i ->
  Z.testbit (a + 2 ^ w * b) i = if i <? w then Z.testbit a i else Z.testbit b (i - w).
Proof.
  intros Hw Ha Hi. destruct (Z.ltb_spec i w).
  - rewrite <- (Z.mod_pow2_bits_low _ w) by lia. rewrite (Z.mul_comm (2 ^ w)), Z.mod_add, Z.mod_small by lia. reflexivity.
  - replace i with (i - w + w) at 1 by lia. rewrite <- Z.div_pow2_bits by lia.
    rewrite (Z.mul_comm (2 ^ w)), Z.div_add, Z.div_small by lia. reflexivity.
Qed.

Lemma load_bits_range x o w : 0 <= w -> 0 <= load_bits x o w < 2 ^ w.
Proof. intros Hw. unfold load_bits. rewrite Z.land_ones by lia. apply Z.mod_pos_bound. lia. Qed.

(** Bits of the image of a descriptor, by cases on the position. *)
Ltac decide_bounds := repeat match goal with |- context [?a <? ?b] => destruct (Z.ltb_spec a b); [try lia|try lia]; cbn [andb] end.
Ltac same_bit := first
  [ reflexivity
  | f_equal; lia
  | symmetry; apply (testbit_above _ 8); lia
  | symmetry; apply (testbit_above _ 20); lia
  | symmetry; apply (testbit_above _ 64); change (2 ^ 64) with W64; lia ].
Ltac split_bits Hb :=
  decide_bounds; rewrite ?load_bits_spec by lia; rewrite ?Hb by lia; decide_bounds;
  rewrite ?testbit_land_ones, ?Z.shiftr_spec by lia; decide_bounds; try same_bit.

(** C40. The descriptor that [kmain] writes for the task state segment is read
    by the processor as one: its base is the address of the segment, it is
    present and of the right type, and the 20 bits of its limit are the length
    of the segment; but the granularity flag is set, so the limit counts pages
    and the segment reaches far behind its end. *)
Theorem tss_descriptor_decoded tss_start tss_end x :
  0 <= tss_start < W64 -> 0 <= tss_end < W64 -> 0 <= tss_end - tss_start < 2 ^ 20 ->
  exists x', fill_tss (KMain.tss_descriptor tss_start tss_end) x = Some x' /\
    cpu_base x' = tss_start /\ cpu_access x' = 0x89 /\
    cpu_raw_limit x' = tss_end - tss_start /\ cpu_limit x' = 4096 * (tss_end - tss_start) + 4095 /\
    (forall i, 128 <= i -> Z.testbit x' i = Z.testbit x i).
Proof.
  intros Hs He Hl. destruct (fill_tss_run (KMain.tss_descriptor tss_start tss_end) x) as (x' & Hr & Hb).
  exists x'. split; [exact Hr|]. unfold KMain.tss_descriptor in Hb. cbn [KMain.limit_low KMain.base_low KMain.base_mid KMain.access
    KMain.limit_high KMain.tss_flags KMain.base_high KMain.base_highest] in Hb.
  change 0xFFFFFFFF with (Z.ones 32) in Hb. change 0xFFFF with (Z.ones 16) in Hb. change 0xFF with (Z.ones 8) in Hb.
  change 0xF with (Z.ones 4) in Hb. rewrite (u64_small (tss_end - tss_start)) in Hb by lia.
  assert (Hraw : cpu_raw_limit x' = tss_end - tss_start).
  { unfold cpu_raw_limit. apply Z.bits_inj'. intros i Hi. rewrite testbit_join by (lia || apply load_bits_range; lia).
    split_bits Hb. }
  assert (Hg : cpu_granular x' = true) by (unfold cpu_granular; rewrite Hb by lia; reflexivity).
  split; [|split; [|split; [exact Hraw|split; [unfold cpu_limit; by rewrite Hg, Hraw|]]]].
  - unfold cpu_base. apply Z.bits_inj'. intros i Hi. rewrite testbit_join by (lia || apply load_bits_range; lia).
    split_bits Hb.
  - unfold cpu_access. apply Z.bits_inj'. intros i Hi. split_bits Hb.
  - intros i Hi. split_bits Hb.
Qed.

(** The addresses of boot: the segment with its permission map for ports, of
    104 and 4096 bytes. *)
Lemma tss_descriptor_decoded_witness :
  exists x', fill_tss (KMain.tss_descriptor 0xFFFFFFFF80A01000 (0xFFFFFFFF80A01000 + 4200)) 0 = Some x' /\
    cpu_base x' = 0xFFFFFFFF80A01000 /\ cpu_limit x' = 4096 * 4200 + 4095.
Proof.
  destruct (tss_descriptor_decoded 0xFFFFFFFF80A01000 (0xFFFFFFFF80A01000 + 4200) 0) as (x' & Hr & Hb & _ & _ & Hl & _); [lia..|].
  exists x'. split; [exact Hr|]. split; [exact Hb|exact Hl].
Defined.

(** ** The stack for interrupts from user mode *)

(** [tss->rsp0 = kmalloc_page()] *)
Definition set_kernel_stack (tss : Z) : K (option Z) :=
  new_kernel_stack ← kmalloc_page;
  mret (set TaskStateSegment [f "rsp0"] new_kernel_stack tss).

(** The five words that the processor pushes when an interrupt arrives in
    user mode: ss, rsp, rflags, cs and rip. *)
Definition interrupt_frame (tss : Z) : list Z :=
  match get TaskStateSegment [f "rsp0"] tss with
  | Some rsp0 => (fun i => rsp0 -64 8 * (Z.of_nat i + 1)) <$> seq 0 5
  | None => []
  end.

Lemma rsp0_slot : slot TaskStateSegment [f "rsp0"] = Some (32, 64).
Proof. vm_compute. reflexivity. Qed.

(** [kmain] sets the stack pointer to the first byte of the new page.  Stacks
    grow downwards: all that the processor pushes on an interrupt from user
    mode goes into the page before it, which was not allocated for that. *)
Theorem kernel_stack_below s n a low high used q tss :
  mm_inv s ((n, a) :: low) high used q -> 4096 <= a ->
  exists s' tss', set_kernel_stack tss s = Ok (Some tss') s' /\ pmm_inv s' low high ((n, a) :: used) q /\
    length (interrupt_frame tss') = 5%nat /\
    forall w, w ∈ interrupt_frame tss' -> pg w = pg (a - 4096 + KERNEL_OFFSET) /\ pg w <> pg (a + KERNEL_OFFSET).
Proof.
  intros [Hpmm _ _ Hfr _] Ha. cbn in Hfr. apply Forall_cons in Hfr as [[Hrange [Hal _] _ _] _].
  destruct (pmm_alloc_low_inv _ _ _ _ _ _ _ Hpmm) as (nx & _ & Hr & Hpmm').
  assert (Hk : a + KERNEL_OFFSET < W64) by (unfold KERNEL_OFFSET, TWO_GB in *; lia).
  eexists _, (store_bits tss 32 64 (a + KERNEL_OFFSET)).
  split; [|split; [exact Hpmm'|]].
  - unfold set_kernel_stack, kmalloc_page, mbind, M_bind. rewrite Hr. unfold mret, M_ret.
    rewrite u64_small by (unfold KERNEL_OFFSET in *; lia). by rewrite (set_slot _ _ _ _ _ _ rsp0_slot).
  - assert (E : get TaskStateSegment [f "rsp0"] (store_bits tss 32 64 (a + KERNEL_OFFSET)) = Some (a + KERNEL_OFFSET)).
    { unfold get. rewrite rsp0_slot. cbn -[load_bits store_bits]. rewrite load_store by lia. f_equal. apply Z.mod_small.
      change (2 ^ 64) with W64. unfold KERNEL_OFFSET in *. lia. }
    unfold interrupt_frame. rewrite E. split; [done|]. intros w (i & -> & Hi)%list_elem_of_fmap. apply elem_of_seq in Hi.
    rewrite u64_small by (unfold KERNEL_OFFSET in *; lia). unfold pg, PAGE_SIZE, KERNEL_OFFSET in *. dlia.
Qed.

Lemma kernel_stack_below_witness :
  exists s' tss', set_kernel_stack 0 paging_state = Ok (Some tss') s' /\ length (interrupt_frame tss') = 5%nat /\
    forall w, w ∈ interrupt_frame tss' -> pg w = pg (0x1000 + KERNEL_OFFSET) /\ pg w <> pg (0x2000 + KERNEL_OFFSET).
Proof.
  destruct (kernel_stack_below paging_state (paging_node 0) 0x2000 (drop 1 paging_low) [] [] 0 0) as (s' & tss' & Hr & _ & Hl & Hw).
  - exact paging_inv.
  - lia.
  - exists s', tss'. split; [exact Hr|]. split; [exact Hl|exact Hw].
Defined.

End TaskState.
