(* ===== verification/Framebuffer.v ===== *)
(** * kmain.c: the colour of the framebuffer

    For the log, [kmain] works out how the framebuffer shows blue: the nearest
    colour of a palette, or a mask of bits.  The tag is read from the boot
    information, as in [KMain]. *)

From S2P Require Import Prelude CStruct Structs KMath KMain Acpi.
Import CStruct Structs KMain.

Module Framebuffer.

(** util/multiboot2.h *)
Definition MULTIBOOT_FRAMEBUFFER_TYPE_INDEXED : Z := 0.
Definition MULTIBOOT_FRAMEBUFFER_TYPE_RGB : Z := 1.
Definition MULTIBOOT_FRAMEBUFFER_TYPE_EGA_TEXT : Z := 2.

(** A left shift of an [int]; undefined when the result is not an [int]. *)
Definition shl_int (a n : Z) : option Z :=
  if (n <? 32) && (Z.shiftl a n <? 2 ^ 31) then Some (Z.shiftl a n) else None.

Section framebuffer.
Context {S : Type} (info : gmap Z Z).
Notation F := (M S).

(** [palette[i]] of [struct multiboot_color] *)
Definition palette_red (tag i : Z) : Z := tag +64 (34 + 3 * i).
Definition palette_green (tag i : Z) : Z := tag +64 (34 + 3 * i + 1).
Definition palette_blue (tag i : Z) : Z := tag +64 (34 + 3 * i + 2).

(** the loop over the palette *)
Fixpoint nearest_loop (n : nat) (tag i color best_distance : Z) : F Z :=
  match n with
  | O => mret color
  | Datatypes.S n' =>
    blue ← load info 1 (palette_blue tag i);
    red ← load info 1 (palette_red tag i);
    green ← load info 1 (palette_green tag i);
    let distance := (0xff - blue) * (0xff - blue) + red * red + green * green in
    if distance <? best_distance then nearest_loop n' tag (i + 1) i distance
    else nearest_loop n' tag (i + 1) color best_distance
  end.

Definition framebuffer_color (tag : Z) : F Z :=
  framebuffer_type ← load info 1 (tag +64 29);
  if framebuffer_type =? MULTIBOOT_FRAMEBUFFER_TYPE_INDEXED then
    framebuffer_palette_num_colors ← load info 2 (tag +64 32);
    nearest_loop (Z.to_nat framebuffer_palette_num_colors) tag 0 0 (4 * 256 * 256)
  else if framebuffer_type =? MULTIBOOT_FRAMEBUFFER_TYPE_RGB then
    framebuffer_blue_mask_size ← load info 1 (tag +64 37);
    framebuffer_blue_field_position ← load info 1 (tag +64 36);
    one ← lift_opt (shl_int 1 framebuffer_blue_mask_size);
    lift_opt (shl_int (one - 1) framebuffer_blue_field_position)
  else if framebuffer_type =? MULTIBOOT_FRAMEBUFFER_TYPE_EGA_TEXT then mret (Z.lor 92 0x0100)
  else mret 0xffffffff.

(** ** The nearest colour *)

(** The bytes of a colour are readable. *)
Record color_at (tag i r g b : Z) : Prop := {
  ca_red : peek info 1 (palette_red tag i) = Some r;
  ca_green : peek info 1 (palette_green tag i) = Some g;
  ca_blue : peek info 1 (palette_blue tag i) = Some b;
  ca_bytes : 0 <= r < 256 /\ 0 <= g < 256 /\ 0 <= b < 256;
}.

(** How far a colour is from blue. *)
Definition distance (c : Z * Z * Z) : Z := let '(r, g, b) := c in (255 - b) ^ 2 + r ^ 2 + g ^ 2.
Definition palette (tag : Z) (l : list (Z * Z * Z)) : Prop :=
  forall i r g b, l !! i = Some (r, g, b) -> color_at tag (Z.of_nat i) r g b.

(** [k] is the first of the nearest colours. *)
Definition first_nearest (l : list (Z * Z * Z)) (k : nat) : Prop :=
  exists c, l !! k = Some c /\ (forall j d, l !! j = Some d -> distance c <= distance d) /\
    (forall j d, (j < k)%nat -> l !! j = Some d -> distance c < distance d).

Lemma distance_bound tag i r g b : color_at tag i r g b -> 0 <= distance (r, g, b) < 4 * 256 * 256.
Proof. intros [_ _ _ (? & ? & ?)]. unfold distance. nia. Qed.

(** The invariant: the first of the nearest among the colours seen, or the
    initial values when there are none. *)
Definition best (l : list (Z * Z * Z)) (color bd : Z) : Prop :=
  (l = [] /\ color = 0 /\ bd = 4 * 256 * 256) \/
  (exists k c, color = Z.of_nat k /\ l !! k = Some c /\ bd = distance c /\ first_nearest l k).

Lemma best_snoc l color bd c : best l color bd -> 0 <= distance c < 4 * 256 * 256 ->
  if distance c <? bd then best (l ++ [c]) (Z.of_nat (length l)) (distance c) else best (l ++ [c]) color bd.
Proof.
  intros Hb Hc. destruct (Z.ltb_spec (distance c) bd) as [Hlt|Hge].
  - right. exists (length l), c. split_and!; [done|by apply list_lookup_middle|done|].
    exists c. split; [by apply list_lookup_middle|].
    assert (Hl : forall j d, l !! j = Some d -> distance c < distance d).
    { intros j d Hj. destruct Hb as [(-> & _)|(k & c' & _ & Hk' & -> & c'' & Hk & Hmin & _)]; [done|].
      rewrite Hk' in Hk. injection Hk as <-. specialize (Hmin j d Hj). lia. }
    split; intros j d Hj.
    + apply lookup_app_Some in Hj as [Hj|[_ Hj]]; [specialize (Hl j d Hj); lia|].
      apply list_lookup_singleton_Some in Hj as [_ <-]. lia.
    + intros Hd. rewrite lookup_app_l in Hd by done. by eapply Hl.
  - destruct Hb as [(-> & _ & ->)|(k & c' & -> & Hk & -> & c'' & Hk' & Hmin & Hfst)]; [lia|].
    rewrite Hk in Hk'. injection Hk' as <-. pose proof (lookup_lt_Some _ _ _ Hk).
    right. exists k, c'. split_and!; [done|by rewrite lookup_app_l|done|].
    exists c'. split; [by rewrite lookup_app_l|]. split; intros j d Hj.
    + apply lookup_app_Some in Hj as [Hj|[_ Hj]]; [by eapply Hmin|].
      apply list_lookup_singleton_Some in Hj as [_ <-]. lia.
    + intros Hd. rewrite lookup_app_l in Hd by lia. by eapply Hfst.
Qed.

Lemma nearest_loop_run tag l (Hl : palette tag l) s : forall todo seen color bd, l = seen ++ todo -> best seen color bd ->
  exists color' bd', nearest_loop (length todo) tag (Z.of_nat (length seen)) color bd s = Ok color' s /\ best l color' bd'.
Proof.
  induction todo as [|[[r g] b] todo IH]; intros seen color bd -> Hb.
  - exists color, bd. by rewrite app_nil_r.
  - pose proof (Hl _ r g b (list_lookup_middle seen todo (r, g, b) _ eq_refl)) as Hc. pose proof Hc as [Hr Hg Hbl _].
    cbn [length nearest_loop]. rewrite (Acpi.load_bind _ _ _ _ _ _ Hbl), (Acpi.load_bind _ _ _ _ _ _ Hr), (Acpi.load_bind _ _ _ _ _ _ Hg).
    pose proof (best_snoc _ _ _ (r, g, b) Hb (distance_bound _ _ _ _ _ Hc)) as Hs.
    replace ((255 - b) * (255 - b) + r * r + g * g) with (distance (r, g, b)) by (unfold distance; lia). cbn zeta.
    replace (Z.of_nat (length seen) + 1) with (Z.of_nat (length (seen ++ [(r, g, b)]))) by (rewrite length_app; cbn; lia).
    destruct (distance (r, g, b) <? bd); (apply IH; [by rewrite <- app_assoc|exact Hs]).
Qed.

(** With a palette the colour is the first of the nearest to blue; without
    colours it is 0. *)
Theorem framebuffer_color_nearest tag l s :
  peek info 1 (tag +64 29) = Some MULTIBOOT_FRAMEBUFFER_TYPE_INDEXED ->
  peek info 2 (tag +64 32) = Some (Z.of_nat (length l)) -> palette tag l ->
  exists color, framebuffer_color tag s = Ok color s /\
    ((l = [] /\ color = 0) \/ exists k, color = Z.of_nat k /\ first_nearest l k).
Proof.
  intros Ht Hn Hl. unfold framebuffer_color. rewrite (Acpi.load_bind _ _ _ _ _ _ Ht), Z.eqb_refl, (Acpi.load_bind _ _ _ _ _ _ Hn), Nat2Z.id.
  destruct (nearest_loop_run tag l Hl s l [] 0 (4 * 256 * 256) eq_refl) as (color & bd & Hr & Hb); [by left|].
  exists color. split; [exact Hr|]. destruct Hb as [(-> & -> & _)|(k & c & -> & _ & _ & Hk)]; [by left|right; eauto].
Qed.

(** With a mask of bits the colour has exactly the blue bits, if they fit in
    an [int]. *)
Theorem framebuffer_color_mask tag size pos s :
  peek info 1 (tag +64 29) = Some MULTIBOOT_FRAMEBUFFER_TYPE_RGB ->
  peek info 1 (tag +64 37) = Some size -> peek info 1 (tag +64 36) = Some pos ->
  0 <= size -> 0 <= pos -> size + pos <= 31 -> size < 31 ->
  exists color, framebuffer_color tag s = Ok color s /\
    forall i, 0 <= i -> Z.testbit color i = (pos <=? i) && (i <? pos + size).
Proof.
  intros Ht Hs Hp Hs0 Hp0 Hsum Hs31. exists (Z.shiftl (Z.ones size) pos). split.
  - unfold framebuffer_color. rewrite (Acpi.load_bind _ _ _ _ _ _ Ht).
    change (MULTIBOOT_FRAMEBUFFER_TYPE_RGB =? MULTIBOOT_FRAMEBUFFER_TYPE_INDEXED) with false.
    rewrite Z.eqb_refl, (Acpi.load_bind _ _ _ _ _ _ Hs), (Acpi.load_bind _ _ _ _ _ _ Hp).
    pose proof (Z.pow_lt_mono_r 2 size 31 ltac:(lia) ltac:(lia) Hs31) as Hlt.
    assert (E1 : shl_int 1 size = Some (2 ^ size)).
    { unfold shl_int. by rewrite Z.shiftl_1_l, (proj2 (Z.ltb_lt size 32)), (proj2 (Z.ltb_lt _ _) Hlt) by lia. }
    rewrite E1. cbn [lift_opt]. rewrite bind_ret. replace (2 ^ size - 1) with (Z.ones size) by (rewrite Z.ones_equiv; lia).
    assert (Hb : Z.shiftl (Z.ones size) pos < 2 ^ 31).
    { rewrite Z.shiftl_mul_pow2, Z.ones_equiv by lia. pose proof (Z.pow_le_mono_r 2 (size + pos) 31 ltac:(lia) Hsum) as Hle.
      rewrite Z.pow_add_r in Hle by lia. pose proof (Z.pow_pos_nonneg 2 pos ltac:(lia) Hp0). nia. }
    unfold shl_int. by rewrite (proj2 (Z.ltb_lt pos 32)), (proj2 (Z.ltb_lt _ _) Hb) by lia.
  - intros i Hi. rewrite Z.shiftl_spec by lia. destruct (Z.leb_spec pos i); cbn; [|apply Z.testbit_neg_r; lia].
    rewrite Z.testbit_ones_nonneg by lia. lia.
Qed.

End framebuffer.

(** A tag with a palette of three colours: black, blue, and a near blue. *)
Definition palette_bytes : list Z := [0; 0; 0; 0; 0; 255; 1; 0; 255].
Definition palette_tag : gmap Z Z :=
  list_to_map (zip (seqZ 0x1000 45) (replicate 28 0 ++ [8; 0; 0; 0; 3; 0] ++ palette_bytes)).

Lemma framebuffer_color_nearest_witness :
  exists color, framebuffer_color palette_tag 0x1000 tt = Ok color tt /\
    exists k, color = Z.of_nat k /\ first_nearest [(0, 0, 0); (0, 0, 255); (1, 0, 255)] k.
Proof.
  destruct (framebuffer_color_nearest palette_tag 0x1000 [(0, 0, 0); (0, 0, 255); (1, 0, 255)] tt) as (color & Hr & [[? ?]|Hk]);
    [reflexivity|reflexivity| |discriminate|eauto].
  intros [|[|[|i]]] r g b Hi; [injection Hi as <- <- <-; split; (reflexivity || lia)..|discriminate].
Defined.

End Framebuffer.
